(* ===== verification/_CoqProject ===== *)
-Q . S2P
Prelude.v
Json.v
Targets.v
Registry.v
Volume.v
Restorable.v
Exec.v
Fs.v
DockerClient.v
Platform.v
Sysroot.v
Bootloader.v
Sample.v
RootfsTree.v
Reserve.v
ComposeApps.v
Client.v
Setup.v
Bundle.v
Lock.v
CheckIn.v
HttpsRepo.v
Tufctl.v
Install.v
OfflineRegistry.v
ClientExt.v
Daemon.v
Cli.v
Main.v
Construct.v
Offline.v
Device.v
RestorableEngine.v
RestorableStore.v
RestorablePrune.v
RestorableSample.v
Stack.v
OfflineEngine.v
ComposeEngine.v
ComposeEngineSpec.v
ComposeEngineSample.v
Composectl.v
ComposectlSpec.v
OfflineComposectl.v
