(* ===== verification/Prelude.v ===== *)
(** * aktualizr-lite: a verification library

    aktualizr-lite keeps an embedded Linux device up to date. It fetches TUF
    metadata (from a gateway or from a local bundle), chooses a target (a
    version of the root file system with a set of compose apps), downloads it,
    installs it, and after the reboot finalizes it or goes back. The sources are
    C++, under [src/src], [src/include] and [src/apps]; this library translates them into
    functions and proves what makes the update safe.

    ** The parts of the program and the files that model them

    The calls go down this list from the bottom to the top; a file requires
    the ones above it that it uses.

    - [Prelude.v]: what all files share. The state and exception monad [M]
      ([outcome] is a value or a C++ exception by its class; the state survives an
      exception, as the effects of a C++ function do), the reasoning rules for
      it ([preserves], [M_bind_Ret], ...), [std::stoi] and the integer widths,
      strings (split, trim, find), sorting, and the generic lemmas.
    - [Json.v]: [Json::Value] documents with the accessors the sources call.
    - [Targets.v]: [include/aktualizr-lite/tuf/tuf.h], [target.h], [target.cc] and
      [helpers.cc]: targets, their versions, apps, tags and hardware ids.
    - [Registry.v]: [docker/docker.cc]: image URIs, digests, manifests, Bearer
      authentication, download of manifests and blobs.
    - [Volume.v]: [storage/stat.cc]: usage of a volume and its printing, with the
      binary64 and binary32 arithmetic.
    - [Restorable.v]: the storage accounting of [docker/restorableappengine.cc].
    - [Exec.v]: [exec.cc]: a program is run and its output read under a time limit.
    - [Fs.v]: files and directories, with the functions of boost, of the standard
      library and of libaktualizr that the app engines call on them.
    - [DockerClient.v]: [docker/dockerclient.cc]: the requests to the docker daemon.
    - [Platform.v]: the interfaces: [AppEngine] ([appengine.h]) with what the
      package manager relies on ([AppEngineSpec]), the storage of
      installed versions ([INvStorageSpec]), libaktualizr's package manager and
      ostree ([Ostree]), and the state [St] the member functions run on, with a
      trace of the effects outside the process.
    - [Sysroot.v]: [ostree/repo.cc] and [ostree/sysroot.cc] over libostree and GLib.
    - [Bootloader.v]: [bootloader/bootloaderlite.cc].
    - [Sample.v]: one concrete device that satisfies the interfaces. Theorems with
      hypotheses are applied to it.
    - [RootfsTree.v]: [rootfstreemanager.cc], the package manager for the root file
      system. [Reserve.v]: this manager with the sysroot.
    - [ComposeApps.v]: [composeappmanager.cc], which extends it with apps.
    - [Client.v]: [liteclient.cc], which drives the package manager, records
      versions and sends reports. [Setup.v]: its constructor and those of the package
      managers, which read the configuration and choose the app engine.
    - [Bundle.v], [CheckIn.v], [Install.v]: [api.cc] (class [AkliteClient]) and
      [tuf/akrepo.cc], [tuf/localreposource.cc]: offline bundles; the check-ins;
      the installer and the completion of an installation. [Lock.v]: the lock that
      the clients of [api.cc] take and remove. [OfflineRegistry.v]: the registry
      client on the registry of an offline update.
    - [HttpsRepo.v]: [tuf/akhttpsreposource.cc]: the source of metadata behind the
      gateway. [Tufctl.v]: [apps/tufctl/main.cpp], which tries sources.
    - [ClientExt.v]: [aklite_client_ext.cc] and [daemon.cc]: the whole update cycle.
      [Daemon.v]: runs of the daemon as sequences of turns.
    - [Cli.v]: [cli/cli.cc]: the commands of a user, their exit codes and reports.
    - [Main.v]: [main.cc]: the options, the table of commands, the process.
    - [Construct.v]: the constructor of [AkliteClient] ([api.cc]) from a configuration:
      the client of [Setup.v] under the lock of [CheckIn.v]; the program of [Main.v] with
      the client it makes.
    - [Offline.v]: [apps/aklite-offline]: the program for updates from a directory.

    The app engines, each an instance of the interface [AppEngine] over the
    device of [Device.v] (files, docker daemon, programs, registry; with
    [docker/composeinfo.cc] and [yaml2json.cc]):

    - [RestorableEngine.v]: [docker/restorableappengine.cc], every operation.
      [RestorableStore.v] and [RestorablePrune.v]: the view of its store, and the
      theorems; [RestorableSample.v]: a concrete registry and store.
    - [ComposeEngine.v]: [docker/composeappengine.cc], every operation, the bytes of
      the state files included. [ComposeEngineSpec.v], [ComposeEngineSample.v].
    - [Composectl.v]: [composeapp/appengine.cc], every operation, over the program
      composectl. [ComposectlSpec.v].
    - [Stack.v]: the package manager of [ComposeApps.v] on the restorable engine, which
      is made from the configuration as [composeappmanager.cc] does.
    - [OfflineEngine.v]: the engine [api.cc] makes for an offline update
      ([createOfflineDownloader]), and the download from the installer down to the
      files. [OfflineComposectl.v]: the same on the composectl engine, and the package
      manager on that engine.

    A member function of the C++ is a definition with the same name; where two
    classes use the same name it gets the class as a prefix ([client_install],
    [compose_install], [rootfs_install]). Members that change are fields of the
    state records ([St], [ApiSt], [ExtSt]), members that do not are fields of the
    environment records ([ComposeEnv], [ClientEnv], [ApiEnv], [ExtEnv], [MainEnv],
    [OfflineEnv]). Configuration maps and JSON documents keep the source's keys. Log
    messages are left out, except where their text becomes part of a result or making
    it can throw ([Target_log]).

    ** What is outside

    libaktualizr (Uptane metadata and signatures, the SQLite storage, the ostree
    manager), libostree and GLib, jsoncpp's parser, boost's [lexical_cast], ini
    parser and parser of options, libcurl, SHA256, docker, skopeo, composectl and the
    kernel are not in the sources. They are fields of environment records or classes; what the code
    relies on is stated as the laws of those
    classes, and each class has an instance in [Sample.v] or beside the witnesses
    of the theorem that uses it. For the engines these are: [FsEnvSpec] (a listing
    of a directory has its entries, in any order), [Sha256Spec] (a hash is 64
    hexadecimal digits), [SkopeoSpec] (which files a copy writes, that it keeps
    the blobs it finds, and that a copy that succeeds is complete), [CurlSpec]
    (chunks are small if the transfer stops at a refused one, and all data fit in a
    file if it does not), [ComposectlSpec] (a check does not depend on the proxy, a
    download takes no blob away, and one that succeeds leaves none missing); for libostree [LibOstreeSpec], [KeyFileSpec] and [InputStreamSpec] (a written
    configuration is the one that is read, a remote that is deleted and added has
    the new address, a read gives a non-empty piece of what is left until nothing
    is left). SHA256 is not assumed to be free of collisions: the theorems speak of
    content with the right digest.

    The queries of the interface [AppEngine] are functions of the state: that
    [isFetched] of the restorable engine rewrites the compose file and removes
    broken blobs, and that the one of the composectl engine remembers its
    answer, is in the models of these operations ([isAppFetched],
    [ctl_isAppFetched]) and not visible through the interface.

    ** What the theorems show

    - Choice of the target ([ClientExt.v], [CheckIn.v]): only targets that a
      successful check-in offers are installed; these come from verified metadata
      and fit the tags and the hardware of the device; a target that failed
      before is not tried again and the version does not go down, unless asked.
    - Offline bundles ([Bundle.v], [CheckIn.v]): exactly which metadata are
      accepted, that the root used is reached by a chain of accepted roots, that
      the commit and the apps of an offered target are at hand, and that a refused
      bundle changes nothing.
    - Installation ([Install.v], [Client.v], [ComposeApps.v], [RootfsTree.v],
      [Bootloader.v]): order and result of the phases on every branch, what is
      recorded as current, pending or failing, when a roll back starts and what
      its result means, what the exit codes of the commands tell, that an older boot firmware is never deployed when that is
      forbidden, and which bootloader variables are set.
    - Apps ([ComposeApps.v]): which apps are updated, fetched, stopped and
      removed; after a check and a successful download nothing is missing.
    - Integrity and storage ([Registry.v], [RootfsTree.v], [Restorable.v]): what is
      kept has the size and the digest asked for; an update that passes the
      storage check fits; sizes are computed without wrapping or the overflow
      is detected.
    - The stores of the app engines ([RestorableStore.v], [RestorablePrune.v],
      [ComposeEngineSpec.v], [ComposectlSpec.v]): the check of an app decides whether
      it is complete; a download leaves it complete or leaves nothing of it, and
      the other apps as they were; pruning keeps what it is asked to keep; the
      recorded state of an app and the memory of fetched apps follow the results
      of the operations. Each engine satisfies [AppEngineSpec]
      ([restorable_engine_spec], [compose_engine_spec], [composectl_engine_spec]),
      against which the package manager is proved; [Stack.v] puts the two
      together and speaks of the files.
    - The processes ([Main.v], [Construct.v], [Offline.v], [Daemon.v], [Exec.v]): they always end with
      a code, whose meaning is shown for installations and, for aklite-offline, for
      completions; the commands that only look or download install nothing, the making
      of their client included ([process_no_install]); the
      daemon ends and reboots in the turn that made a reboot necessary, and does not
      try a target again that there is no room for; running a
      program ends, with its whole output or an exception.
    - Setup and sharing ([Setup.v], [Construct.v], [Stack.v], [Lock.v], [HttpsRepo.v]): a
      client that was made is well formed, has the lock, the engine the configuration
      asks for and the identity it had before; making it again loses no app
      ([restart_keeps_apps]); two clients do not hold the lock, under a condition on how clients
      end that the code does not enforce ([lock_lost]); the headers and
      credentials of the gateway.
    - The ostree repository ([Sysroot.v], [Reserve.v]): what is written to its
      configuration is read back; the configured reserve is what a download
      respects; files of a commit are read whole; what is a pending deployment.
    - Offline updates ([OfflineRegistry.v], [OfflineEngine.v], [OfflineComposectl.v]): what
      the registry client downloads is what the app store holds; a download that
      succeeds leaves every required app complete in the store of the device, with
      either engine, and the engine of the client as it was.
    - A few theorems show what the code does where that differs from what it
      seems to intend ([sync_selects_latest], [duplicate_signatures_counted],
      [pullApp_space_check_wraps], [BearerAuth_realm_with_bearer],
      [failed_fetch_is_fetched], [install_throws], [storage_check_wraps],
      [docker_host_not_checked], [prune_renamed], [name_taken_for_version],
      [lock_lost], [dockerapps_header_missing], [offline_current_fails],
      [current_apps_on], [staged_pending_null], [read_only_client_records],
      [offline_watermark], ...).

    ** Bounds

    - [checkAndGetRootMeta] looks for the next version of the root until a fetch
      fails; its counter is an [int]. The loop is bounded by the number of
      its values ([iter_pos], 2^31 turns, of which only the needed ones are
      evaluated), and [checkAndGetRootMeta_chain] shows the search ends.
    - [downloadImage] makes at most three tries, as its loop does.
    - The daemon runs until it is stopped: [daemon_loop] takes the number of turns
      as an argument; [daemon_reboots] holds for every number that reaches the turn.
    - [readFile] of a commit takes the number of reads as an argument; more than the
      file has bytes is enough ([readFile_whole]). [blob_blocks] takes the length of
      the blob, which is enough ([blob_blocks_bound]).
    - The loop that reads the output of a program takes the turns it makes as a
      list; with a time limit it ends for every list ([exec_ends]).
    - All other recursion is structural on lists or strings.
    - [uint64_t], [int] and [size_t] values are [Z] with the wrap around written
      out where the code can reach it.

    ** What is not modelled

    The parsers of options and of the configuration files; the queue that sends
    the reports (libaktualizr's, of which [checkConnectivity] is the only part
    here); links, permissions and concurrent changes of the file system; the
    text of the log. Of the headers, what is left are declarations and the
    interfaces that have no code. The class [Ostree] keeps libaktualizr's manager
    as a parameter: [Sysroot.v] models the sysroot and the repository that
    aktualizr-lite itself adds to it, not the deployments of libostree. *)

From stdpp Require Export base strings list numbers pretty sorting gmap.
From Stdlib Require Export Ascii.

#[global] Open Scope Z_scope.

Declare Scope aklite_scope.
Delimit Scope aklite_scope with aklite.
#[global] Open Scope aklite_scope.

(** ** Exceptions

    The C++ exceptions the modelled code throws or catches, by the class a
    [catch] clause can tell apart; the payload is [what()]. *)

Inductive exn_class :=
  | invalid_argument
  | out_of_range
  | overflow_error
  | range_error
  | runtime_error
  | json_error                (* Json::LogicError / Json::RuntimeError *)
  | SecurityException         (* Uptane::SecurityException *)
  | ExpiredMetadata           (* Uptane::ExpiredMetadata *)
  | MetadataFetchFailure      (* Uptane::MetadataFetchFailure *)
  | MetadataNotFoundException (* aklite::tuf::MetadataNotFoundException *)
  | length_error
  | LoadImageException
  | ExecError (exit_code : Z) (std_err : string).

#[export] Instance exn_class_eq_dec : EqDecision exn_class.
Proof. solve_decision. Defined.

Record exn := Exn { exn_kind : exn_class; what : string }.

(** The result of a call: it returns a value or leaves by an exception. *)
Inductive outcome (A : Type) :=
  | Ret (a : A)
  | Throw (e : exn).
Arguments Ret {A} a.
Arguments Throw {A} e.

#[export] Instance outcome_ret : MRet outcome := @Ret.
#[export] Instance outcome_bind : MBind outcome := fun A B f m =>
  match m with Ret a => f a | Throw e => Throw e end.

Definition throw {A} (k : exn_class) (w : string) : outcome A := Throw (Exn k w).

(** ** Stateful code

    A member function that mutates the state [S] and may throw: what it
    changed before throwing stays changed. *)
Definition M (S A : Type) := S -> outcome A * S.

#[export] Instance M_ret {S} : MRet (M S) := fun A a s => (Ret a, s).
#[export] Instance M_bind {S} : MBind (M S) := fun A B f m s =>
  match m s with
  | (Ret a, s') => f a s'
  | (Throw e, s') => (Throw e, s')
  end.

Section monad.
Context {S : Type}.

Definition gets {A} (f : S -> A) : M S A := fun s => (Ret (f s), s).
Definition modify (f : S -> S) : M S unit := fun s => (Ret tt, f s).
Definition lift {A} (o : outcome A) : M S A := fun s => (o, s).
Definition throwM {A} (k : exn_class) (w : string) : M S A := lift (throw k w).

(** [try { m } catch (const std::exception& e) { h e }] *)
Definition try_catch {A} (m : M S A) (h : exn -> M S A) : M S A := fun s =>
  match m s with
  | (Throw e, s') => h e s'
  | r => r
  end.

(** [for (x : l) body(x)] *)
Fixpoint forM {A} (l : list A) (body : A -> M S unit) : M S unit :=
  match l with
  | [] => mret tt
  | x :: l' => body x ;; forM l' body
  end.

(** The state a run ends in, and its outcome. *)
Definition exec {A} (m : M S A) (s : S) : S := snd (m s).
Definition run {A} (m : M S A) (s : S) : outcome A := fst (m s).
End monad.

(** [o] returned, and its value satisfies [P]. *)
Definition returns {A} (o : outcome A) (P : A -> Prop) : Prop :=
  match o with Ret a => P a | Throw _ => False end.

Definition is_throw {A} (o : outcome A) : bool :=
  match o with Ret _ => false | Throw _ => true end.

(** A run that does not throw, with its value. *)
Definition the {A} (d : A) (o : outcome A) : A := match o with Ret a => a | Throw _ => d end.

Lemma run_the {S A} (d : A) (m : M S A) s :
  is_throw (run m s) = false -> m s = (Ret (the d (run m s)), exec m s).
Proof. unfold run, exec. by destruct (m s) as [[a|e] s']. Qed.

(** ** Strings

    [std::string] and the Boost string algorithms the sources call. *)

#[global] Arguments String.append : simpl nomatch.

Definition eqb_char (a b : ascii) : bool := bool_decide (a = b).

(** [s.empty()] *)
Definition str_empty (s : string) : bool :=
  match s with EmptyString => true | _ => false end.

(** [s.find(c)], [std::string::npos] as [None] *)
Fixpoint find_char (c : ascii) (s : string) : option nat :=
  match s with
  | EmptyString => None
  | String a s' => if eqb_char a c then Some O else S <$> find_char c s'
  end.

(** [s.rfind(c)] *)
Fixpoint rfind_char (c : ascii) (s : string) : option nat :=
  match s with
  | EmptyString => None
  | String a s' =>
      match rfind_char c s' with
      | Some n => Some (S n)
      | None => if eqb_char a c then Some O else None
      end
  end.

Fixpoint str_drop (n : nat) (s : string) : string :=
  match n, s with
  | O, _ => s
  | S n', String _ s' => str_drop n' s'
  | S _, EmptyString => EmptyString
  end.

Fixpoint str_take (n : nat) (s : string) : string :=
  match n, s with
  | S n', String a s' => String a (str_take n' s')
  | _, _ => EmptyString
  end.

(** [s.substr(pos, n)] with [pos <= s.size()], as at every call modelled *)
Definition substr (pos n : nat) (s : string) : string := str_take n (str_drop pos s).

(** [boost::starts_with(s, p)] *)
Fixpoint starts_with (p s : string) : bool :=
  match p, s with
  | EmptyString, _ => true
  | String a p', String b s' => eqb_char a b && starts_with p' s'
  | _, _ => false
  end.

(** [s.find(sub)] *)
Fixpoint str_find (sub s : string) : option nat :=
  if starts_with sub s then Some O
  else match s with
       | EmptyString => None
       | String _ s' => S <$> str_find sub s'
       end.

(** [s.find(sub) != npos] *)
Definition str_contains (sub s : string) : bool :=
  match str_find sub s with Some _ => true | None => false end.

(** [boost::algorithm::to_lower_copy] in the C locale *)
Definition lower_char (c : ascii) : ascii :=
  let n := nat_of_ascii c in
  if Nat.leb 65 n && Nat.leb n 90 then ascii_of_nat (n + 32) else c.

Fixpoint to_lower (s : string) : string :=
  match s with
  | EmptyString => EmptyString
  | String a s' => String (lower_char a) (to_lower s')
  end.

(** [boost::is_any_of(chars)] *)
Fixpoint is_any_of (chars : string) (c : ascii) : bool :=
  match chars with
  | EmptyString => false
  | String a cs => eqb_char a c || is_any_of cs c
  end.

Fixpoint trim_left_if (p : ascii -> bool) (s : string) : string :=
  match s with
  | String a s' => if p a then trim_left_if p s' else s
  | EmptyString => EmptyString
  end.

Fixpoint trim_right_if (p : ascii -> bool) (s : string) : string :=
  match s with
  | EmptyString => EmptyString
  | String a s' =>
      match trim_right_if p s' with
      | EmptyString => if p a then EmptyString else String a EmptyString
      | t => String a t
      end
  end.

(** [boost::trim_if(s, p)] *)
Definition trim_if (p : ascii -> bool) (s : string) : string :=
  trim_right_if p (trim_left_if p s).

(** [boost::algorithm::join(l, sep)] *)
Fixpoint join (sep : string) (l : list string) : string :=
  match l with
  | [] => EmptyString
  | [x] => x
  | x :: l' => x +:+ sep +:+ join sep l'
  end.

(** [boost::split(out, s, pred, boost::token_compress_on)]: a run of
    separators ends one token; a leading or a trailing run leaves an empty
    token. [cur] is the token being read, [sep] whether the last character
    was a separator. *)
Fixpoint split_go (p : ascii -> bool) (cur : string) (sep : bool) (s : string) : list string :=
  match s with
  | EmptyString => [cur]
  | String a s' =>
      if p a then
        if sep then split_go p cur true s'
        else cur :: split_go p EmptyString true s'
      else split_go p (cur +:+ String a EmptyString) false s'
  end.
Definition split (p : ascii -> bool) (s : string) : list string :=
  split_go p EmptyString false s.

(** Every character of [s] satisfies [p]. *)
Fixpoint str_forall (p : ascii -> bool) (s : string) : bool :=
  match s with
  | EmptyString => true
  | String a s' => p a && str_forall p s'
  end.

Definition not_char (c a : ascii) : bool := negb (eqb_char a c).

(** *** Lemmas on strings *)

Lemma eqb_char_spec a b : eqb_char a b = true <-> a = b.
Proof. apply bool_decide_eq_true. Qed.

Lemma eqb_char_refl a : eqb_char a a = true.
Proof. by apply eqb_char_spec. Qed.

Lemma str_empty_spec s : str_empty s = true <-> s = EmptyString.
Proof. destruct s; naive_solver. Qed.

Lemma app_nil_r s : s +:+ EmptyString = s.
Proof. induction s as [|a s IH]; cbn; [done|by rewrite IH]. Qed.

Lemma app_assoc_s (a b c : string) : (a +:+ b) +:+ c = a +:+ b +:+ c.
Proof. induction a as [|x a IH]; cbn; [done|by rewrite IH]. Qed.

Lemma length_app_s (a b : string) :
  String.length (a +:+ b) = (String.length a + String.length b)%nat.
Proof. induction a as [|x a IH]; cbn; [done|by rewrite IH]. Qed.

Lemma find_char_app c a s :
  str_forall (not_char c) a = true -> find_char c (a +:+ String c s) = Some (String.length a).
Proof.
  induction a as [|x a IH]; cbn; [by rewrite eqb_char_refl|].
  unfold not_char at 1. destruct (eqb_char x c); cbn; [done|]. intros H. by rewrite IH.
Qed.

Lemma find_char_None c s : find_char c s = None <-> str_forall (not_char c) s = true.
Proof.
  induction s as [|x s IH]; cbn; [done|]. unfold not_char at 1.
  destruct (eqb_char x c); cbn; [naive_solver|].
  rewrite <- IH. destruct (find_char c s); naive_solver.
Qed.

Lemma find_char_Some c s n :
  find_char c s = Some n ->
  exists a b, s = a +:+ String c b /\ n = String.length a /\ str_forall (not_char c) a = true.
Proof.
  revert n; induction s as [|x s IH]; cbn; intros n; [done|].
  destruct (eqb_char x c) eqn:E.
  - apply eqb_char_spec in E. intros [= <-]. subst. by exists EmptyString, s.
  - destruct (find_char c s) as [k|] eqn:F; cbn; [|done]. intros [= <-].
    destruct (IH k eq_refl) as (a & b & -> & -> & Ha).
    exists (String x a), b. cbn. unfold not_char at 1. by rewrite E.
Qed.

Lemma rfind_char_None c s : rfind_char c s = None <-> str_forall (not_char c) s = true.
Proof.
  induction s as [|x s IH]; cbn; [done|]. unfold not_char at 1.
  destruct (rfind_char c s), (eqb_char x c); cbn; naive_solver.
Qed.

Lemma rfind_char_app c a s :
  str_forall (not_char c) s = true -> rfind_char c (a +:+ String c s) = Some (String.length a).
Proof.
  intros Hs. apply rfind_char_None in Hs.
  induction a as [|x a IH]; cbn; [by rewrite Hs, eqb_char_refl|by rewrite IH].
Qed.

Lemma rfind_char_Some c s n :
  rfind_char c s = Some n ->
  exists a b, s = a +:+ String c b /\ n = String.length a /\ str_forall (not_char c) b = true.
Proof.
  revert n; induction s as [|x s IH]; cbn; intros n; [done|].
  destruct (rfind_char c s) as [k|] eqn:F.
  - intros [= <-]. destruct (IH k eq_refl) as (a & b & -> & -> & Hb).
    by exists (String x a), b.
  - destruct (eqb_char x c) eqn:E; [|done]. intros [= <-].
    apply eqb_char_spec in E. subst. apply rfind_char_None in F. by exists EmptyString, s.
Qed.

Lemma str_drop_app a b : str_drop (String.length a) (a +:+ b) = b.
Proof. induction a as [|x a IH]; cbn; [by destruct b|done]. Qed.

Lemma str_drop_app_S a c b : str_drop (S (String.length a)) (a +:+ String c b) = b.
Proof. induction a as [|x a IH]; cbn; [by destruct b|done]. Qed.

Lemma str_take_app a b : str_take (String.length a) (a +:+ b) = a.
Proof. induction a as [|x a IH]; cbn; [by destruct b|by rewrite IH]. Qed.

Lemma str_take_length_le n s : (String.length (str_take n s) <= n)%nat.
Proof. revert s; induction n as [|n IH]; intros [|a s]; cbn; try lia; specialize (IH s); lia. Qed.

Lemma app_nil_r_s (s : string) : s +:+ "" = s.
Proof. induction s as [|c s IH]; cbn; [done|by rewrite IH]. Qed.

Lemma str_drop_all n s : (String.length s <= n)%nat -> str_drop n s = "".
Proof. revert s; induction n as [|n IH]; intros [|a s]; cbn; intros; try done; [lia|]. apply IH. lia. Qed.

Lemma length_str_take n s : String.length (str_take n s) = Nat.min n (String.length s).
Proof. revert s; induction n as [|n IH]; intros [|a s]; cbn; try done. by rewrite IH. Qed.

Lemma length_str_drop n s : String.length (str_drop n s) = (String.length s - n)%nat.
Proof. revert s; induction n as [|n IH]; intros [|a s]; cbn; auto. Qed.

Lemma str_take_drop n s : str_take n s +:+ str_drop n s = s.
Proof. revert s; induction n as [|n IH]; intros [|a s]; cbn; try done. by rewrite IH. Qed.

Lemma str_take_all n s : (String.length s <= n)%nat -> str_take n s = s.
Proof.
  revert s; induction n as [|n IH]; intros [|a s]; cbn; try done; [lia|].
  intros H. by rewrite IH by lia.
Qed.

Lemma str_forall_app p a b : str_forall p (a +:+ b) = str_forall p a && str_forall p b.
Proof. induction a as [|x a IH]; cbn; [done|]. by rewrite IH, andb_assoc. Qed.

Lemma str_forall_impl (p q : ascii -> bool) s :
  (forall a, p a = true -> q a = true) -> str_forall p s = true -> str_forall q s = true.
Proof. intros H. induction s as [|x s IH]; cbn; [done|]. rewrite !andb_true_iff. naive_solver. Qed.

Lemma starts_with_app p s : starts_with p (p +:+ s) = true.
Proof. induction p as [|a p IH]; cbn; [done|]. by rewrite eqb_char_refl, IH. Qed.

Lemma starts_with_Some p s : starts_with p s = true <-> exists t, s = p +:+ t.
Proof.
  split.
  - revert s; induction p as [|a p IH]; intros s; cbn; [by exists s|].
    destruct s as [|b s]; [done|]. rewrite andb_true_iff, eqb_char_spec. intros [-> H].
    destruct (IH s H) as [t ->]. by exists t.
  - intros [t ->]. apply starts_with_app.
Qed.

Lemma to_lower_length s : String.length (to_lower s) = String.length s.
Proof. induction s as [|a s IH]; cbn; [done|by rewrite IH]. Qed.

Lemma to_lower_app a b : to_lower (a +:+ b) = to_lower a +:+ to_lower b.
Proof. induction a as [|x a IH]; cbn; [done|by rewrite IH]. Qed.

Lemma lower_char_idem c : lower_char (lower_char c) = lower_char c.
Proof.
  destruct c as [b0 b1 b2 b3 b4 b5 b6 b7].
  destruct b0, b1, b2, b3, b4, b5, b6, b7; vm_compute; reflexivity.
Qed.

Lemma to_lower_idem s : to_lower (to_lower s) = to_lower s.
Proof. induction s as [|a s IH]; cbn; [done|]. by rewrite IH, lower_char_idem. Qed.

Lemma split_go_token p cur t s :
  str_forall (fun a => negb (p a)) t = true ->
  split_go p cur false (t +:+ s) = split_go p (cur +:+ t) false s.
Proof.
  revert cur; induction t as [|a t IH]; intros cur; cbn; [by rewrite app_nil_r|].
  destruct (p a); cbn; [done|]. intros H. rewrite IH by done. by rewrite app_assoc_s.
Qed.

Lemma split_go_token_sep p a t s :
  p a = false -> str_forall (fun a => negb (p a)) t = true ->
  split_go p EmptyString true (String a t +:+ s) = split_go p (String a t) false s.
Proof. intros Ha Ht. cbn. rewrite Ha. by rewrite split_go_token. Qed.

(** Joining non-empty separator-free tokens and splitting gives them back. *)
Lemma split_join p c (l : list string) :
  p c = true -> l <> [] ->
  Forall (fun t => t <> EmptyString /\ str_forall (fun a => negb (p a)) t = true) l ->
  split p (join (String c EmptyString) l) = l.
Proof.
  intros Hc Hne Hl. unfold split.
  destruct l as [|t l]; [done|]. clear Hne. inversion Hl as [|? ? [Ht1 Ht2] Hl']; subst.
  assert (Hgo : forall l t cur, t <> EmptyString -> str_forall (fun a => negb (p a)) t = true ->
    Forall (fun t => t <> EmptyString /\ str_forall (fun a => negb (p a)) t = true) l ->
    split_go p cur false (join (String c EmptyString) (t :: l)) = (cur +:+ t) :: l).
  { clear -Hc. induction l as [|u l IH]; intros t cur Hne Ht Hl.
    - cbn [join]. rewrite <- (app_nil_r t) at 1. by rewrite split_go_token.
    - inversion Hl as [|? ? [Hu1 Hu2] Hl']; subst.
      change (join _ (t :: u :: l)) with (t +:+ String c EmptyString +:+ join (String c EmptyString) (u :: l)).
      rewrite split_go_token by done. cbn -[join]. rewrite Hc. f_equal.
      destruct u as [|a u]; [done|]. cbn in Hu2. apply andb_true_iff in Hu2 as [Ha Hu2].
      apply negb_true_iff in Ha.
      transitivity (split_go p EmptyString false (join (String c EmptyString) (String a u :: l))).
      + destruct l; cbn; by rewrite Ha.
      + apply (IH (String a u) EmptyString); [done| |done]. cbn. by rewrite Ha, Hu2. }
  by apply Hgo.
Qed.

(** ** Machine integers *)

Definition u64_modulus : Z := 2 ^ 64.
Definition u64_max : Z := u64_modulus - 1.
(** Conversion of a value to [uint64_t], and the result of an unsigned 64-bit
    addition or multiplication. *)
Definition to_u64 (z : Z) : Z := z mod u64_modulus.
(** Conversion to [unsigned int] *)
Definition to_u32 (z : Z) : Z := z mod 2 ^ 32.
Definition int_min : Z := - 2 ^ 31.
Definition int_max : Z := 2 ^ 31 - 1.
Definition is_u64 (z : Z) : Prop := 0 <= z <= u64_max.

Lemma to_u64_small z : is_u64 z -> to_u64 z = z.
Proof. unfold is_u64, u64_max, to_u64. intros H. apply Z.mod_small. lia. Qed.

Lemma to_u64_range z : is_u64 (to_u64 z).
Proof.
  unfold is_u64, to_u64, u64_max.
  pose proof (Z.mod_pos_bound z u64_modulus ltac:(done)). lia.
Qed.

(** The overflow test the sources use, [a + b < a || a + b < b] on
    [uint64_t], detects exactly the sums that do not fit. *)
Lemma u64_add_overflow a b :
  is_u64 a -> is_u64 b ->
  (to_u64 (a + b) <? a) || (to_u64 (a + b) <? b) = negb (a + b <=? u64_max).
Proof.
  unfold is_u64, u64_max, to_u64. intros Ha Hb.
  destruct (Z.leb_spec (a + b) (u64_modulus - 1)) as [H|H]; cbn.
  - rewrite (Z.mod_small (a + b)) by lia. lia.
  - replace (a + b) with ((a + b - u64_modulus) + 1 * u64_modulus) by lia.
    rewrite Z.mod_add, Z.mod_small by (unfold u64_modulus in *; lia). lia.
Qed.

(** *** [std::stoi]

    [std::stoi(s, nullptr, base)] by [strtol]: leading white space, a sign, for
    base 0 the [0x] and [0] prefixes, then the longest run of digits;
    [invalid_argument] if there is none, [out_of_range] if the value is not an
    [int]. *)
Definition is_space (c : ascii) : bool :=
  let n := nat_of_ascii c in Nat.eqb n 32 || (Nat.leb 9 n && Nat.leb n 13).

Definition digit_val (c : ascii) : Z :=
  let n := Z.of_nat (nat_of_ascii c) in
  if (48 <=? n) && (n <=? 57) then n - 48
  else if (97 <=? n) && (n <=? 122) then n - 87
  else if (65 <=? n) && (n <=? 90) then n - 55
  else 99.

Fixpoint read_digits (base acc : Z) (s : string) : Z :=
  match s with
  | String c s' =>
      if digit_val c <? base then read_digits base (acc * base + digit_val c) s' else acc
  | EmptyString => acc
  end.

Definition starts_with_digit (base : Z) (s : string) : bool :=
  match s with String c _ => digit_val c <? base | EmptyString => false end.

Definition strip_sign (s : string) : bool * string :=
  match s with
  | String "-" s' => (true, s')
  | String "+" s' => (false, s')
  | _ => (false, s)
  end.

Definition detect_base (base : Z) (s : string) : Z * string :=
  if base =? 0 then
    match s with
    | String "0" (String x s') =>
        if (eqb_char x "x" || eqb_char x "X") && starts_with_digit 16 s' then (16, s') else (8, s)
    | String "0" _ => (8, s)
    | _ => (10, s)
    end
  else (base, s).

(** [name] is the function, whose results lie between [lo] and [hi]. *)
Definition str_to_int (lo hi : Z) (name : string) (base : Z) (s : string) : outcome Z :=
  let '(neg, s1) := strip_sign (trim_left_if is_space s) in
  let '(b, s2) := detect_base base s1 in
  if starts_with_digit b s2 then
    let v := read_digits b 0 s2 in
    let v := if neg : bool then - v else v in
    if (lo <=? v) && (v <=? hi) then Ret v else throw out_of_range name
  else throw invalid_argument name.

Definition stoi : Z -> string -> outcome Z := str_to_int int_min int_max "stoi".
(** [std::stoll] *)
Definition stoll : Z -> string -> outcome Z := str_to_int (- 2 ^ 63) (2 ^ 63 - 1) "stoll".

Lemma stoi_range base s v : stoi base s = Ret v -> int_min <= v <= int_max.
Proof.
  unfold stoi, str_to_int. destruct (strip_sign _) as [neg s1], (detect_base _ _) as [b s2].
  destruct (starts_with_digit b s2); [|done].
  destruct neg; case_match eqn:E; intros [= <-]; apply andb_true_iff in E as [E1 E2]; lia.
Qed.

Definition EXIT_SUCCESS : Z := 0.
Definition EXIT_FAILURE : Z := 1.

(** [std::to_string] of an integer *)
Definition to_string (z : Z) : string := pretty z.

(** *** Printing and reading of numbers *)

Lemma digit_val_char (k : N) : (k < 10)%N -> digit_val (pretty_N_char k) = Z.of_N k.
Proof. intros Hk. destruct k as [|p]; [done|]. do 4 (destruct p as [p|p|]; try done). Qed.

Lemma read_digits_go n s : read_digits 10 0 (pretty_N_go n s) = read_digits 10 (Z.of_N n) s.
Proof.
  revert s. induction (N.lt_wf_0 n) as [n _ IH]; intros s.
  destruct (decide (n = 0%N)) as [->|Hn]; [by rewrite pretty_N_go_0|].
  rewrite pretty_N_go_step, IH by (lia || (apply N.div_lt; lia)). cbn [read_digits].
  pose proof (N.mod_lt n 10 ltac:(done)) as Hm. rewrite digit_val_char by done.
  rewrite (proj2 (Z.ltb_lt _ _)) by lia. f_equal. pose proof (N.div_mod n 10 ltac:(done)). lia.
Qed.

(** The first character of a printed number is a digit. *)
Lemma pretty_go_head n s :
  (n <> 0)%N \/ (exists k s', (k < 10)%N /\ s = String (pretty_N_char k) s') ->
  exists k s', (k < 10)%N /\ pretty_N_go n s = String (pretty_N_char k) s'.
Proof.
  revert s. induction (N.lt_wf_0 n) as [n _ IH]; intros s Hs.
  destruct (decide (n = 0%N)) as [->|Hn]; [rewrite pretty_N_go_0; by destruct Hs|].
  rewrite pretty_N_go_step by lia. apply IH; [apply N.div_lt; lia|].
  right. eexists _, _. split; [|done]. by apply N.mod_lt.
Qed.

Lemma str_to_int_digits lo hi name k s :
  (k < 10)%N -> str_to_int lo hi name 10 (String (pretty_N_char k) s) =
  let v := read_digits 10 0 (String (pretty_N_char k) s) in
  if (lo <=? v) && (v <=? hi) then Ret v else throw out_of_range name.
Proof. intros Hk. destruct k as [|p]; [done|]. do 4 (destruct p as [p|p|]; try done). Qed.

(** A number that is not negative is read back as it was printed, or does not fit. *)
Lemma str_to_int_to_string lo hi name z :
  0 <= z ->
  str_to_int lo hi name 10 (to_string z) =
  if (lo <=? z) && (z <=? hi) then Ret z else throw out_of_range name.
Proof.
  intros Hz. destruct z as [|p|p]; [done| |lia].
  change (to_string (Z.pos p)) with (pretty_N_go (N.pos p) "").
  destruct (pretty_go_head (N.pos p) "") as (k & s' & Hk & E); [by left|].
  rewrite E, str_to_int_digits by done. rewrite <- E. by rewrite (read_digits_go (N.pos p)).
Qed.

Lemma stoi_to_string z : 0 <= z <= int_max -> stoi 10 (to_string z) = Ret z.
Proof.
  intros Hz. unfold stoi. rewrite str_to_int_to_string by lia.
  unfold int_min, int_max in *. rewrite andb_true_intro; [done|]. lia.
Qed.

(** ** Lists *)

(** [std::find(l.begin(), l.end(), x) != l.end()] on strings *)
Definition mem (x : string) (l : list string) : bool := existsb (String.eqb x) l.

Lemma mem_spec x l : mem x l = true <-> x ∈ l.
Proof.
  unfold mem. rewrite existsb_exists, list_elem_of_In. setoid_rewrite String.eqb_eq.
  split; [by intros (y & H & ->)|by exists x].
Qed.

Lemma mem_false x l : mem x l = false <-> x ∉ l.
Proof. rewrite <- mem_spec. destruct (mem x l); naive_solver. Qed.

(** The last element satisfying [p]: a search from [rbegin()]. *)
Definition find_last {A} (p : A -> bool) (l : list A) : option A := List.find p (rev l).

Lemma find_Some {A} (p : A -> bool) l x : List.find p l = Some x -> x ∈ l /\ p x = true.
Proof. intros H. apply List.find_some in H. by rewrite list_elem_of_In. Qed.

Lemma find_None {A} (p : A -> bool) l : List.find p l = None <-> forall x, x ∈ l -> p x = false.
Proof.
  split.
  - intros H x Hx. apply (List.find_none _ _ H). by apply list_elem_of_In.
  - induction l as [|y l IH]; cbn; [done|]. intros H.
    rewrite (H y) by set_solver. apply IH. set_solver.
Qed.

(** ** Automation

    [mstep] runs the monads symbolically; [osplit] takes apart a hypothesis
    that a chain of binds returned. *)
Ltac mstep :=
  unfold mbind, mret, M_bind, M_ret, outcome_bind, outcome_ret, gets, modify, lift, throwM,
    throw, exec, run in *; cbn [fst snd] in *.

Lemma bind_Ret {A B} (m : outcome A) (f : A -> outcome B) b :
  m ≫= f = Ret b <-> exists a, m = Ret a /\ f a = Ret b.
Proof. destruct m; cbn; naive_solver. Qed.

Lemma M_bind_Ret {S A B} (m : M S A) (f : A -> M S B) s b s' :
  (m ≫= f) s = (Ret b, s') <-> exists a s1, m s = (Ret a, s1) /\ f a s1 = (Ret b, s').
Proof. unfold mbind, M_bind. destruct (m s) as [[a|e] s1]; naive_solver. Qed.

(** A step that does not change the state. *)
Lemma bind_lift {S A B} (o : outcome A) (k : A -> M S B) a s : o = Ret a -> (lift o ≫= k) s = k a s.
Proof. by intros ->. Qed.
Lemma bind_gets {S A B} (q : S -> A) (k : A -> M S B) s : (gets q ≫= k) s = k (q s) s.
Proof. done. Qed.
Lemma bind_run {S A B} (m : M S A) (k : A -> M S B) a s s' : m s = (Ret a, s') -> (m ≫= k) s = k a s'.
Proof. unfold mbind, M_bind. by intros ->. Qed.

(** Takes the first step of a run that returned, [lift] or [gets], off [H]. *)
Ltac pure_step H x Hx :=
  let s1 := fresh "s" in let H1 := fresh "H" in
  apply M_bind_Ret in H as (x & s1 & H1 & H); unfold lift, gets in H1; injection H1 as Hx <-.

Ltac osplit H :=
  repeat (apply bind_Ret in H; let x := fresh "v" in let Hx := fresh "Hv" in
          destruct H as (x & Hx & H)).

(** Close a goal by splitting every match and [if] of it and of [H]. *)
Ltac cases_in H :=
  repeat (match type of H with
          | context [match ?x with _ => _ end] => destruct x eqn:?
          end; try discriminate).

Create HintDb aklite.

(** ** Relations a run maintains

    [preserves R m]: however [m] ends, the state it ends in is [R]-related to
    the state it started in. For a preorder [R] it composes along the code. *)
Definition preserves {S A} (R : S -> S -> Prop) (m : M S A) : Prop := forall s, R s (exec m s).

Section preserves.
Context {S : Type} (R : S -> S -> Prop) `{!PreOrder R}.

Lemma preserves_ret {A} (a : A) : preserves R (mret a : M S A).
Proof. intros s. apply reflexivity. Qed.
Lemma preserves_gets {A} (f : S -> A) : preserves R (gets f).
Proof. intros s. apply reflexivity. Qed.
Lemma preserves_lift {A} (o : outcome A) : preserves R (lift o).
Proof. intros s. apply reflexivity. Qed.
Lemma preserves_modify (f : S -> S) : (forall s, R s (f s)) -> preserves R (modify f).
Proof. intros H s. apply H. Qed.
Lemma preserves_bind {A B} (m : M S A) (f : A -> M S B) :
  preserves R m -> (forall a, preserves R (f a)) -> preserves R (m ≫= f).
Proof.
  intros Hm Hf s. specialize (Hm s). unfold exec, mbind, M_bind in *.
  destruct (m s) as [[a|e] s1]; [|done]. cbn in *. etransitivity; [exact Hm|apply (Hf a)].
Qed.
Lemma preserves_try {A} (m : M S A) (h : exn -> M S A) :
  preserves R m -> (forall e, preserves R (h e)) -> preserves R (try_catch m h).
Proof.
  intros Hm Hh s. specialize (Hm s). unfold exec, try_catch in *.
  destruct (m s) as [[a|e] s1]; [done|]. cbn in *. etransitivity; [exact Hm|apply (Hh e)].
Qed.
Lemma preserves_forM {A} (l : list A) (body : A -> M S unit) :
  (forall a, a ∈ l -> preserves R (body a)) -> preserves R (forM l body).
Proof.
  induction l as [|x l IH]; cbn; intros Hb; [apply preserves_ret|].
  apply preserves_bind; [apply Hb; set_solver|]. intros _. apply IH. intros a Ha. apply Hb. set_solver.
Qed.
End preserves.

(** [pstep] goes through the code, leaving the calls the hints do not know. *)
Ltac pstep :=
  repeat (cbn zeta;
    lazymatch goal with
    | |- forall _, preserves _ _ => intros ?
    | |- preserves _ (mret _) => apply (preserves_ret _)
    | |- preserves _ (gets _) => apply (preserves_gets _)
    | |- preserves _ (lift _) => apply (preserves_lift _)
    | |- preserves _ (throwM _ _) => apply (preserves_lift _)
    | |- preserves _ (mbind _ _) => apply (preserves_bind _)
    | |- preserves _ (try_catch _ _) => apply (preserves_try _)
    | |- preserves _ (match ?x with _ => _ end) => destruct x eqn:?
    | |- preserves _ _ => solve [eauto with aklite]
    end).

#[export] Hint Resolve to_u64_range to_lower_length starts_with_app : aklite.
#[export] Hint Unfold is_u64 u64_max : aklite.
Create Rewrite HintDb aklite_str.
#[export] Hint Rewrite app_nil_r app_assoc_s length_app_s to_lower_app to_lower_idem
  to_lower_length length_str_take length_str_drop : aklite_str.
