(* ===== verification/Json.v ===== *)
(** * JSON documents

    The [Json::Value] documents the program passes around (TUF targets and
    their custom data, manifests, Docker and HTTP answers), as data, with the
    accessors the sources call. An object keeps its members sorted by name,
    the order its iterators follow. An accessor applied to a document of the
    wrong type throws, as the library's assertions do. Documents with
    fractional numbers are left out. *)

From S2P Require Import Prelude.

Inductive json :=
  | JNull
  | JBool (b : bool)
  | JInt (z : Z)
  | JString (s : string)
  | JArray (l : list json)
  | JObject (m : list (string * json)).

#[export] Instance json_eq_dec : EqDecision json.
Proof.
  refine (fix go (x y : json) : Decision (x = y) :=
    let _ : EqDecision json := @go in
    match x, y with
    | JNull, JNull => left _
    | JBool a, JBool b => cast_if (decide (a = b))
    | JInt a, JInt b => cast_if (decide (a = b))
    | JString a, JString b => cast_if (decide (a = b))
    | JArray a, JArray b => cast_if (decide (a = b))
    | JObject a, JObject b => cast_if (decide (a = b))
    | _, _ => right _
    end); congruence.
Defined.

(** [Json::Value::operator==] *)
Definition json_eqb (x y : json) : bool := bool_decide (x = y).

(** ** Members of an object *)

Fixpoint obj_lookup (k : string) (m : list (string * json)) : option json :=
  match m with
  | [] => None
  | (k', v) :: m' => if String.eqb k k' then Some v else obj_lookup k m'
  end.

Fixpoint obj_insert (k : string) (v : json) (m : list (string * json)) : list (string * json) :=
  match m with
  | [] => [(k, v)]
  | (k', v') :: m' =>
      match String.compare k k' with
      | Lt => (k, v) :: m
      | Eq => (k, v) :: m'
      | Gt => (k', v') :: obj_insert k v m'
      end
  end.

Fixpoint obj_remove (k : string) (m : list (string * json)) : list (string * json) :=
  match m with
  | [] => []
  | (k', v) :: m' => if String.eqb k k' then m' else (k', v) :: obj_remove k m'
  end.

(** ** Type tests *)

Definition jisNull (v : json) : bool := match v with JNull => true | _ => false end.
Definition jisString (v : json) : bool := match v with JString _ => true | _ => false end.
Definition jisObject (v : json) : bool := match v with JObject _ => true | _ => false end.
Definition jisArray (v : json) : bool := match v with JArray _ => true | _ => false end.
Definition jisUInt (v : json) : bool :=
  match v with JInt z => (0 <=? z) && (z <? 2 ^ 32) | _ => false end.
Definition jisInt64 (v : json) : bool :=
  match v with JInt z => (- 2 ^ 63 <=? z) && (z <? 2 ^ 63) | _ => false end.
Definition jisUInt64 (v : json) : bool :=
  match v with JInt z => (0 <=? z) && (z <? 2 ^ 64) | _ => false end.

(** [size()] and [empty()] *)
Definition jsize (v : json) : nat :=
  match v with JArray l => length l | JObject m => length m | _ => O end.
Definition jempty (v : json) : bool :=
  match v with
  | JNull => true
  | JArray l => match l with [] => true | _ => false end
  | JObject m => match m with [] => true | _ => false end
  | _ => false
  end.

(** ** Accessors *)

(** [v[k]] and [v.get(k, null)] on a constant document *)
Definition jindex (v : json) (k : string) : outcome json :=
  match v with
  | JNull => Ret JNull
  | JObject m => Ret (default JNull (obj_lookup k m))
  | _ => throw json_error "requires objectValue or nullValue"
  end.

(** [v.isMember(k)] *)
Definition jisMember (v : json) (k : string) : outcome bool :=
  match v with
  | JNull => Ret false
  | JObject m => Ret (match obj_lookup k m with Some _ => true | None => false end)
  | _ => throw json_error "requires objectValue or nullValue"
  end.

(** [v[i]] on a constant document *)
Definition jnth (v : json) (i : nat) : outcome json :=
  match v with
  | JNull => Ret JNull
  | JArray l => Ret (default JNull (l !! i))
  | _ => throw json_error "requires arrayValue"
  end.

(** [v.asString()] *)
Definition jasString (v : json) : outcome string :=
  match v with
  | JNull => Ret EmptyString
  | JString s => Ret s
  | JBool b => Ret (if b then "true" else "false")
  | JInt z => Ret (to_string z)
  | _ => throw json_error "Type is not convertible to string"
  end.

(** [v.asInt64()], [v.asUInt64()] *)
Definition jasInt64 (v : json) : outcome Z :=
  match v with
  | JNull => Ret 0
  | JBool b => Ret (if b then 1 else 0)
  | JInt z => if jisInt64 v then Ret z else throw json_error "out of Int64 range"
  | _ => throw json_error "Value is not convertible to Int64."
  end.
Definition jasUInt64 (v : json) : outcome Z :=
  match v with
  | JNull => Ret 0
  | JBool b => Ret (if b then 1 else 0)
  | JInt z => if jisUInt64 v then Ret z else throw json_error "out of UInt64 range"
  | _ => throw json_error "Value is not convertible to UInt64."
  end.
Definition jasInt (v : json) : outcome Z :=
  match v with
  | JNull => Ret 0
  | JBool b => Ret (if b then 1 else 0)
  | JInt z => if (int_min <=? z) && (z <=? int_max) then Ret z
              else throw json_error "out of Int range"
  | _ => throw json_error "Value is not convertible to Int."
  end.

(** [v.asBool()] *)
Definition jasBool (v : json) : outcome bool :=
  match v with
  | JNull => Ret false
  | JBool b => Ret b
  | JInt z => Ret (negb (z =? 0))
  | _ => throw json_error "Value is not convertible to bool."
  end.

(** Iteration from [begin()] to [end()]: the values, and the values with
    [key().asString()]. *)
Definition jelems (v : json) : list json :=
  match v with JArray l => l | JObject m => m.*2 | _ => [] end.
Definition jitems (v : json) : list (string * json) :=
  match v with
  | JArray l => imap (fun i x => (pretty i, x)) l
  | JObject m => m
  | _ => []
  end.

(** [v[k] = x] *)
Definition jset (v : json) (k : string) (x : json) : outcome json :=
  match v with
  | JNull => Ret (JObject [(k, x)])
  | JObject m => Ret (JObject (obj_insert k x m))
  | _ => throw json_error "requires objectValue"
  end.

(** [v.append(x)] *)
Definition jappend (v x : json) : outcome json :=
  match v with
  | JNull => Ret (JArray [x])
  | JArray l => Ret (JArray (l ++ [x]))
  | _ => throw json_error "requires arrayValue"
  end.

(** [v.removeMember(k)] *)
Definition jremove (v : json) (k : string) : outcome json :=
  match v with
  | JNull => Ret JNull
  | JObject m => Ret (JObject (obj_remove k m))
  | _ => throw json_error "requires objectValue"
  end.

(** [v[a][b] = x] *)
Definition jset2 (v : json) (a b : string) (x : json) : outcome json :=
  sub ← jindex v a; sub' ← jset sub b x; jset v a sub'.

(** ** Lemmas *)

Lemma obj_lookup_insert_eq k v m : obj_lookup k (obj_insert k v m) = Some v.
Proof.
  induction m as [|[k' v'] m IH]; cbn; [by rewrite String.eqb_refl|].
  destruct (String.compare k k') eqn:E; cbn; rewrite ?String.eqb_refl; try done.
  destruct (String.eqb_spec k k') as [->|]; [|done].
  pose proof (String.compare_antisym k' k') as A. rewrite E in A. done.
Qed.

Lemma obj_lookup_insert_ne k k0 v m :
  k <> k0 -> obj_lookup k (obj_insert k0 v m) = obj_lookup k m.
Proof.
  intros Hne. induction m as [|[k' v'] m IH]; cbn.
  - by destruct (String.eqb_spec k k0).
  - destruct (String.compare k0 k') eqn:E; cbn.
    + apply String.compare_eq_iff in E. subst. by destruct (String.eqb_spec k k').
    + by destruct (String.eqb_spec k k0).
    + by rewrite IH.
Qed.

Lemma obj_lookup_In k v m : obj_lookup k m = Some v -> (k, v) ∈ m.
Proof.
  induction m as [|[k' v'] m IH]; cbn; [done|].
  destruct (String.eqb_spec k k') as [->|]; [intros [= ->]|]; set_solver.
Qed.

Lemma obj_lookup_NoDup k v m : NoDup m.*1 -> (k, v) ∈ m -> obj_lookup k m = Some v.
Proof.
  induction m as [|[k' v'] m IH]; cbn; [set_solver|].
  rewrite NoDup_cons, elem_of_cons. intros [Hn Hd] [[= <- <-]|H].
  - by rewrite String.eqb_refl.
  - destruct (String.eqb_spec k k') as [->|]; [|auto].
    destruct Hn. by apply (list_elem_of_fmap_2 fst m (k', v)).
Qed.

Lemma obj_remove_lookup_ne k k0 m : k <> k0 -> obj_lookup k (obj_remove k0 m) = obj_lookup k m.
Proof.
  intros Hne. induction m as [|[k' v'] m IH]; cbn; [done|].
  destruct (String.eqb_spec k0 k') as [->|]; cbn.
  - by destruct (String.eqb_spec k k').
  - by rewrite IH.
Qed.

Lemma obj_remove_lookup_eq k m : NoDup m.*1 -> obj_lookup k (obj_remove k m) = None.
Proof.
  induction m as [|[k' v'] m IH]; cbn; [done|]. rewrite NoDup_cons. intros [Hn Hd].
  destruct (String.eqb_spec k k') as [->|Hne]; cbn.
  - destruct (obj_lookup k' m) eqn:E; [|done]. destruct Hn.
    by apply obj_lookup_In, (list_elem_of_fmap_2 fst) in E.
  - destruct (String.eqb_spec k k'); [done|]. by apply IH.
Qed.

(** Members chosen by their name are found by it. *)
Lemma obj_lookup_filter (p : string -> bool) k m :
  obj_lookup k (List.filter (fun e : string * json => p e.1) m) = if p k then obj_lookup k m else None.
Proof.
  induction m as [|[k' v'] m IH]; cbn; [by destruct (p k)|].
  destruct (String.eqb_spec k k') as [->|Hne].
  - destruct (p k') eqn:E; cbn; [by rewrite String.eqb_refl|]. by rewrite IH.
  - destruct (p k') eqn:E; cbn; [destruct (String.eqb_spec k k'); done|done].
Qed.

Lemma jindex_set_eq v k x v' : jset v k x = Ret v' -> jindex v' k = Ret x.
Proof.
  destruct v; cbn; intros [= <-]; cbn; [by rewrite String.eqb_refl|].
  by rewrite obj_lookup_insert_eq.
Qed.

Lemma jindex_set_ne v k k0 x v' : k <> k0 -> jset v k0 x = Ret v' -> jindex v' k = jindex v k.
Proof.
  intros Hne. destruct v; cbn; intros [= <-]; cbn.
  - by destruct (String.eqb_spec k k0).
  - by rewrite obj_lookup_insert_ne.
Qed.
