(* ===== verification/Targets.v ===== *)
(** * Targets

    [src/include/aktualizr-lite/tuf/tuf.h] (class [TufTarget]),
    [src/src/target.h] and [src/src/target.cc] (class [Target], the functions on
    [Uptane::Target]) and the functions of [src/src/helpers.cc] on targets.

    [Uptane::Target] belongs to libaktualizr: its values are the record
    [UTarget] of what its accessors return, and its constructor and the
    accessors that compute are the class [UptaneTargets]. *)

From S2P Require Import Prelude Json.

(** ** [MetadataNotFoundException]: its two messages *)
Definition MetadataNotFound_path (path : string) : string := "Metadata hasn't been found; file path: " +:+ path.
Definition MetadataNotFound_role (role version : string) : string :=
  "Metadata hasn't been found; role: " +:+ role +:+ "; version: " +:+ version.

(** ** [Uptane::Target] *)

Record UTarget := {
  filename : string;
  sha256Hash : string;
  target_length : Z;
  custom_data : json;
  correlation_id : string;
  target_type : string;
  IsValid : bool;
}.

(** [t.setCorrelationId(id)] *)
Definition setCorrelationId (t : UTarget) (id : string) : UTarget :=
  {| filename := filename t; sha256Hash := sha256Hash t; target_length := target_length t;
     custom_data := custom_data t; correlation_id := id; target_type := target_type t;
     IsValid := IsValid t |}.

Class UptaneTargets := {
  (** [Uptane::Target(filename, json)] *)
  make_target : string -> json -> UTarget;
  (** [Uptane::Target::Unknown()] *)
  Unknown : UTarget;
  (** [t.custom_version()] *)
  custom_version : UTarget -> string;
  (** [t.updateCustom(json)] *)
  update_custom : UTarget -> json -> UTarget;
}.

(** The JSON of a target as the sources build it. *)
Definition target_json (sha : string) (len : Z) (custom : json) : json :=
  JObject [("custom", custom); ("hashes", JObject [("sha256", JString sha)]); ("length", JInt len)].

(** What the sources rely on of [Uptane::Target]. *)
Class UptaneTargetsSpec `{UptaneTargets} : Prop := {
  make_filename n j : filename (make_target n j) = n;
  make_sha256 n h l c : sha256Hash (make_target n (target_json h l c)) = h;
  make_custom n h l c : custom_data (make_target n (target_json h l c)) = c;
  make_length n h l c : target_length (make_target n (target_json h l c)) = l;
  make_valid n j : IsValid (make_target n j) = true;
  Unknown_filename : filename Unknown = "unknown";
  Unknown_invalid : IsValid Unknown = false;
  custom_version_ext t t' : custom_data t = custom_data t' -> custom_version t = custom_version t';
  update_custom_filename t c : filename (update_custom t c) = filename t;
  update_custom_sha256 t c : sha256Hash (update_custom t c) = sha256Hash t;
}.

(** ** [TufTarget] *)

Record TufTarget := {
  Name : string;
  Sha256Hash : string;
  Version : Z;
  Custom : json;
}.

(** [TufTarget()] *)
Definition TufTarget_unknown : TufTarget :=
  {| Name := "unknown"; Sha256Hash := ""; Version := -1; Custom := JNull |}.

Definition AppsJson (t : TufTarget) : outcome json := jindex (Custom t) "docker_compose_apps".

Definition IsUnknown (t : TufTarget) : bool := String.eqb (Name t) "unknown".

(** [operator==]; [&&] does not evaluate [AppsJson] once a field differs. *)
Definition TufTarget_eqb (t other : TufTarget) : outcome bool :=
  if String.eqb (Name other) (Name t) && String.eqb (Sha256Hash other) (Sha256Hash t)
     && (Version other =? Version t) then
    a ← AppsJson other; b ← AppsJson t; mret (json_eqb a b)
  else mret false.

(** Some element of the list makes [p] return [true]; the search stops there. *)
Fixpoint any_outcome {A} (p : A -> outcome bool) (l : list A) : outcome bool :=
  match l with
  | [] => mret false
  | x :: l' => b ← p x; if b : bool then mret true else any_outcome p l'
  end.

Definition HasOneOfTags (t : TufTarget) (tags : list string) : outcome bool :=
  has ← jisMember (Custom t) "tags";
  if negb has then mret false
  else
    target_tags ← jindex (Custom t) "tags";
    if negb (jisArray target_tags) then mret false
    else
      any_outcome (fun tag =>
        any_outcome (fun x => s ← jasString x; mret (String.eqb s tag)) (jelems target_tags)) tags.

Definition HardwareId (t : TufTarget) : outcome string :=
  ids ← jindex (Custom t) "hardwareIds";
  if jisNull ids || negb (Nat.eqb (jsize ids) 1) then mret ""
  else x ← jnth ids 0; jasString x.

(** ** [Target::Apps] and [TufTarget::Apps] *)

Record AppDesc := { app_name : string; app_uri : string }.

Definition make_AppDesc (name : string) (app_json : json) : outcome AppDesc :=
  if jisNull app_json || negb (jisObject app_json) then
    throw runtime_error "Invalid format of App in Target json"
  else
    has ← jisMember app_json "uri";
    if negb has then throw runtime_error "Invalid format of App in Target json"
    else u ← jindex app_json "uri"; s ← jasString u; mret {| app_name := name; app_uri := s |}.

(** The whole iteration over the apps, in key order. *)
Fixpoint app_descs (items : list (string * json)) : outcome (list AppDesc) :=
  match items with
  | [] => mret []
  | (k, v) :: items' => d ← make_AppDesc k v; ds ← app_descs items'; mret (d :: ds)
  end.

Definition isPresent (apps : json) (name : string) : outcome bool := jisMember apps name.

Definition app_at (apps : json) (name : string) : outcome AppDesc :=
  v ← jindex apps name; make_AppDesc name v.

(** ** [Target::...] on [Uptane::Target] *)

Section target.
Context `{UptaneTargets}.

Definition InitialTarget : string := "Initial Target".

Definition hasTag (target : UTarget) (tags : list string) : outcome bool :=
  match tags with
  | [] => mret true
  | _ =>
      target_tags ← jindex (custom_data target) "tags";
      any_outcome (fun x => s ← jasString x; mret (mem s tags)) (jelems target_tags)
  end.

(** [uuid] is the random suffix. *)
Definition setCorrelationID (uuid : string) (target : UTarget) : UTarget :=
  let id := custom_version target in
  let id := if str_empty id then filename target else id in
  setCorrelationId target (id +:+ "-" +:+ uuid).

Definition ostreeURI (target : UTarget) : outcome string :=
  uri_json ← jindex (custom_data target) "compose-apps-uri";
  if jempty uri_json then mret "" else jasString uri_json.

Definition appsJson (target : UTarget) : outcome json :=
  jindex (custom_data target) "docker_compose_apps".

Definition appsStr (target : UTarget) (app_shortlist : option (list string)) : outcome string :=
  apps ← appsJson target;
  ds ← app_descs (jitems apps);
  mret (join "," (List.filter (fun n => match app_shortlist with
                                        | None => true
                                        | Some l => mem n l
                                        end) (app_name <$> ds))).

(** [Target::log]: the lines of the log. Listing the apps throws if one of them is not well formed. *)
Definition Target_log (prefix : string) (target : UTarget) (app_shortlist : option (list string))
    : outcome (list string) :=
  let tab := String (Ascii.ascii_of_nat 9) "" in
  let name := if Nat.ltb 0 (String.length (custom_version target)) then custom_version target else filename target in
  apps ← appsJson target;
  ds ← app_descs (jitems apps);
  let line a :=
    tab +:+ (match app_shortlist with
             | None => "on "
             | Some l => if mem (app_name a) l then "on " else "off"
             end) +:+ ": " +:+ app_name a +:+ " -> " +:+ app_uri a in
  mret ((prefix +:+ name +:+ tab +:+ "sha256:" +:+ sha256Hash target)
        :: match ds with [] => [] | _ => (tab +:+ "Docker Compose Apps:") :: (line <$> ds) end).

Definition fromTufTarget (target : TufTarget) : UTarget :=
  make_target (Name target) (target_json (Sha256Hash target) 0 (Custom target)).

Definition isInitial (target : UTarget) : bool := String.eqb (filename target) InitialTarget.

(** Only [std::invalid_argument] is caught. *)
Definition toTufTarget (target : UTarget) : outcome TufTarget :=
  ver ← (if isInitial target then mret (-1)
         else match stoi 0 (custom_version target) with
              | Throw (Exn invalid_argument _) => mret (-1)
              | r => r
              end);
  mret {| Name := filename target; Sha256Hash := sha256Hash target; Version := ver;
          Custom := custom_data target |}.

Definition updateCustom (target : UTarget) (custom : json) : UTarget :=
  make_target (filename target) (target_json (sha256Hash target) (target_length target) custom).

Definition isUnknown (target : UTarget) : bool :=
  IsValid target && String.eqb (filename target) "unknown".

Definition toInitial (target : UTarget) (hw_id : string) : UTarget :=
  make_target InitialTarget
    (target_json (sha256Hash target) 0
       (JObject [("hardwareIds", JArray [JString hw_id]); ("targetFormat", JString (target_type target))])).

(** ** Functions of [helpers.cc] *)

(** [generate_correlation_id]: [std::to_string] never returns an empty string. *)
Definition generate_correlation_id (uuid : string) (t : TufTarget) : string :=
  let id := to_string (Version t) in
  let id := if str_empty id then Name t else id in
  id +:+ "-" +:+ uuid.

Definition target_has_tags (t : UTarget) (config_tags : list string) : outcome bool :=
  match config_tags with
  | _ :: _ =>
      tags ← jindex (custom_data t) "tags";
      any_outcome (fun i => tag ← jasString i; mret (mem tag config_tags)) (jelems tags)
  | [] => mret true
  end.

(** The loop of [known_local_target], over the reversed list; [pending] is the
    pending target the storage holds. *)
Fixpoint known_local_target_loop (pending : option UTarget) (t : UTarget) (rl : list UTarget) : bool :=
  match rl with
  | [] => false
  | it :: rl' =>
      if String.eqb (filename it) (filename t) then
        match pending with
        | Some p => if String.eqb (sha256Hash it) (sha256Hash p)
                    then known_local_target_loop pending t rl' else true
        | None => true
        end
      else known_local_target_loop pending t rl'
  end.

Definition known_local_target (pending : option UTarget) (t : UTarget)
    (known_but_not_installed_versions : list UTarget) : bool :=
  known_local_target_loop pending t (rev known_but_not_installed_versions).

(** [known] and [installed] are the two installation logs the storage returns. *)
Definition get_known_but_not_installed_versions (known installed : list UTarget) : list UTarget :=
  List.filter (fun t => negb (existsb (fun t1 => String.eqb (filename t) (filename t1)) installed))
    known.
End target.

(** [appListChanged]: [found] are the directories under [apps_dir], empty if it
    is not a directory. *)
Fixpoint remove_not_member (target_apps : json) (cfg : list string) : outcome (list string) :=
  match cfg with
  | [] => mret []
  | app :: cfg' =>
      m ← jisMember target_apps app;
      rest ← remove_not_member target_apps cfg';
      mret (if m : bool then app :: rest else rest)
  end.

Definition appListChanged (target_apps : json) (cfg_apps_in found : list string) : outcome bool :=
  cfg_apps ← (if jisNull target_apps then mret cfg_apps_in
              else remove_not_member target_apps cfg_apps_in);
  mret (negb (bool_decide (merge_sort String.le found = merge_sort String.le cfg_apps))).

(** ** Properties *)

Lemma any_outcome_pure {A} (p : A -> outcome bool) (q : A -> bool) l :
  (forall x, x ∈ l -> p x = Ret (q x)) -> any_outcome p l = Ret (existsb q l).
Proof.
  induction l as [|x l IH]; cbn; intros H; [done|].
  rewrite (H x) by set_solver. cbn. destruct (q x); [done|]. apply IH. set_solver.
Qed.

Definition common (tags ts : list string) : bool := existsb (fun x => mem x ts) tags.

Lemma common_spec tags ts : common tags ts = true <-> exists x, x ∈ tags /\ x ∈ ts.
Proof.
  unfold common. rewrite existsb_exists. setoid_rewrite mem_spec.
  by setoid_rewrite <- list_elem_of_In.
Qed.

Lemma common_sym tags ts : common tags ts = common ts tags.
Proof. apply eq_true_iff_eq. rewrite !common_spec. naive_solver. Qed.

Lemma HasOneOfTags_spec t ts tags :
  jindex (Custom t) "tags" = Ret (JArray (JString <$> ts)) ->
  jisMember (Custom t) "tags" = Ret true ->
  HasOneOfTags t tags = Ret (common tags ts).
Proof.
  intros Hi Hm. unfold HasOneOfTags. rewrite Hm. cbn. rewrite Hi. cbn.
  apply any_outcome_pure. intros tag _. clear.
  induction ts as [|s ts IH]; cbn; [done|]. rewrite (String.eqb_sym tag s).
  destruct (String.eqb s tag); [done|]. apply IH.
Qed.

Lemma hasTag_spec `{UptaneTargets} u ts tags :
  tags <> [] -> jindex (custom_data u) "tags" = Ret (JArray (JString <$> ts)) ->
  hasTag u tags = Ret (common tags ts).
Proof.
  intros Hne Hi. unfold hasTag. destruct tags as [|t0 tags]; [done|]. rewrite Hi. cbn -[mem common].
  rewrite common_sym. clear. induction ts as [|s ts IH]; cbn -[mem]; [done|].
  by destruct (mem s (t0 :: tags)).
Qed.

(** on a TUF target whose custom data lists its tags as an array of strings,
    the two tag filters of the program ([TufTarget::HasOneOfTags], used when
    filtering TUF targets, and [Target::hasTag] on the [Uptane::Target] made from
    it) agree for every non-empty list of device tags: they hold exactly when a
    tag is common to the device and the target. *)
Theorem tag_filters_agree `{UptaneTargetsSpec} (t : TufTarget) (ts tags : list string) :
  tags <> [] ->
  jindex (Custom t) "tags" = Ret (JArray (JString <$> ts)) ->
  jisMember (Custom t) "tags" = Ret true ->
  HasOneOfTags t tags = hasTag (fromTufTarget t) tags
  /\ (HasOneOfTags t tags = Ret true <-> exists x, x ∈ tags /\ x ∈ ts).
Proof.
  intros Hne Hi Hm. rewrite (HasOneOfTags_spec _ ts) by done.
  rewrite (hasTag_spec _ ts) by (unfold fromTufTarget; by rewrite ?make_custom).
  split; [done|]. rewrite <- common_spec. split; [by intros [= ->]|by intros ->].
Qed.

(** [Target::toTufTarget] undoes [Target::fromTufTarget]: name, hash, version
    and custom data survive, provided the version of the target is the one its
    custom data states (minus one for the initial target). *)
Theorem fromTufTarget_toTufTarget `{UptaneTargetsSpec} (t : TufTarget) :
  (if String.eqb (Name t) InitialTarget then Version t = -1
   else stoi 0 (custom_version (fromTufTarget t)) = Ret (Version t)) ->
  toTufTarget (fromTufTarget t) = Ret t.
Proof.
  intros Hv. unfold toTufTarget, isInitial.
  assert (filename (fromTufTarget t) = Name t) as -> by apply make_filename.
  assert (sha256Hash (fromTufTarget t) = Sha256Hash t) as -> by apply make_sha256.
  assert (custom_data (fromTufTarget t) = Custom t) as -> by apply make_custom.
  destruct (String.eqb (Name t) InitialTarget).
  - cbn. rewrite <- Hv. by destruct t.
  - rewrite Hv. by destruct t.
Qed.

(** a version that is a number but not an [int] makes [Target::toTufTarget]
    throw [std::out_of_range], while one that is no number is turned into -1:
    only [std::invalid_argument] is caught. *)
Theorem toTufTarget_version_errors `{UptaneTargets} (t : UTarget) (w : string) :
  filename t <> InitialTarget ->
  (stoi 0 (custom_version t) = Throw (Exn out_of_range w) ->
     toTufTarget t = Throw (Exn out_of_range w))
  /\ (stoi 0 (custom_version t) = Throw (Exn invalid_argument w) ->
     returns (toTufTarget t) (fun tt => Version tt = -1)).
Proof.
  intros Hn. unfold toTufTarget, isInitial.
  destruct (String.eqb_spec (filename t) InitialTarget); [done|].
  by split; intros ->.
Qed.

Lemma known_local_target_loop_true `{UptaneTargets} pending t rl :
  known_local_target_loop pending t rl = true <->
  exists k, k ∈ rl /\ filename k = filename t /\
    forall p, pending = Some p -> sha256Hash k <> sha256Hash p.
Proof.
  induction rl as [|k rl IH]; cbn; [set_solver|].
  destruct (String.eqb_spec (filename k) (filename t)) as [E|E].
  - destruct pending as [p|].
    + destruct (String.eqb_spec (sha256Hash k) (sha256Hash p)) as [Es|Es].
      * rewrite IH. split; [set_solver|]. intros (x & [->|Hx]%elem_of_cons & Hf & Hp); [|eauto].
        by destruct (Hp p eq_refl).
      * split; [|done]. intros _. exists k. split; [set_solver|]. split; [done|]. by intros ? [= <-].
    + split; [|done]. intros _. exists k. split; [set_solver|]. by split.
  - rewrite IH. split; [set_solver|]. intros (x & [->|Hx]%elem_of_cons & Hf & Hp); [done|]. eauto.
Qed.

Lemma get_known_elem known installed k :
  k ∈ get_known_but_not_installed_versions known installed <->
  k ∈ known /\ forall i, i ∈ installed -> filename i <> filename k.
Proof.
  unfold get_known_but_not_installed_versions. rewrite !list_elem_of_In, List.filter_In.
  rewrite negb_true_iff, <- not_true_iff_false, existsb_exists. setoid_rewrite String.eqb_eq.
  setoid_rewrite list_elem_of_In. naive_solver.
Qed.

(** the composition of [get_known_but_not_installed_versions] and
    [known_local_target] (the test behind [LiteClient::isRollback]) holds exactly
    for a target that is logged, was never installed under that name, and is not
    logged only with the hash of the pending target. *)
Theorem known_local_target_spec `{UptaneTargets} pending t known installed :
  known_local_target pending t (get_known_but_not_installed_versions known installed) = true <->
  exists k, k ∈ known /\ filename k = filename t /\
    (forall i, i ∈ installed -> filename i <> filename t) /\
    (forall p, pending = Some p -> sha256Hash k <> sha256Hash p).
Proof.
  unfold known_local_target. rewrite known_local_target_loop_true.
  split.
  - intros (k & Hk & Hf & Hp). rewrite list_elem_of_In, <- in_rev, <- list_elem_of_In in Hk.
    apply get_known_elem in Hk as [Hk Hi]. rewrite Hf in Hi. eauto.
  - intros (k & Hk & Hf & Hi & Hp). exists k.
    rewrite list_elem_of_In, <- in_rev, <- list_elem_of_In, get_known_elem, Hf. eauto.
Qed.

Lemma remove_not_member_spec m cfg :
  remove_not_member (JObject m) cfg
  = Ret (filter (fun a => is_Some (obj_lookup a m)) cfg).
Proof.
  induction cfg as [|a cfg IH]; [done|]. cbn [remove_not_member]. rewrite IH, filter_cons.
  cbn -[filter]. destruct (obj_lookup a m); case_decide as D; try done. by destruct D.
Qed.

Lemma merge_sort_eq_iff l1 l2 :
  merge_sort String.le l1 = merge_sort String.le l2 <-> l1 ≡ₚ l2.
Proof.
  split; intros E.
  - by rewrite <- (merge_sort_Permutation String.le l1), E, merge_sort_Permutation.
  - apply (StronglySorted_unique String.le); [apply StronglySorted_merge_sort; apply _..|].
    by rewrite !merge_sort_Permutation.
Qed.

(** the app-list check answers "unchanged" exactly when the app directories
    found on disk are, up to order, the configured apps that the target
    defines; apps configured but absent from the target are ignored, extra
    directories are not. *)
Theorem appListChanged_spec (m : list (string * json)) (cfg found : list string) :
  appListChanged (JObject m) cfg found = Ret false <->
  found ≡ₚ filter (fun a => is_Some (obj_lookup a m)) cfg.
Proof.
  unfold appListChanged. cbn. rewrite remove_not_member_spec. cbn.
  rewrite <- merge_sort_eq_iff. split.
  - intros [= H%negb_false_iff]. by apply bool_decide_eq_true in H.
  - intros H. by rewrite bool_decide_eq_true_2.
Qed.

(** ** A concrete [Uptane::Target]

    An instance of the interface, on which the witnesses of the theorems below
    and of the client files are evaluated. *)

Definition jfield (v : json) (k : string) : json :=
  match jindex v k with Ret x => x | Throw _ => JNull end.
Definition jstr (v : json) : string := match jasString v with Ret s => s | Throw _ => "" end.
Definition jint (v : json) : Z := match v with JInt z => z | _ => 0 end.

Definition simple_make (n : string) (j : json) : UTarget :=
  {| filename := n; sha256Hash := jstr (jfield (jfield j "hashes") "sha256");
     target_length := jint (jfield j "length"); custom_data := jfield j "custom";
     correlation_id := ""; target_type := "OSTREE"; IsValid := true |}.

#[export] Instance simple_targets : UptaneTargets := {
  make_target := simple_make;
  Unknown := {| filename := "unknown"; sha256Hash := ""; target_length := 0; custom_data := JNull;
                correlation_id := ""; target_type := ""; IsValid := false |};
  custom_version t := jstr (jfield (custom_data t) "version");
  update_custom t c :=
    {| filename := filename t; sha256Hash := sha256Hash t; target_length := target_length t;
       custom_data := c; correlation_id := correlation_id t; target_type := target_type t;
       IsValid := IsValid t |};
}.

#[export] Instance simple_targets_spec : UptaneTargetsSpec.
Proof. split; try done. intros t t'. cbn. by intros ->. Qed.

(** A sample target of the TUF repository. *)
Definition sample_tuf (name sha : string) (ver : Z) (tags : list string) (apps : json) : TufTarget :=
  {| Name := name; Sha256Hash := sha; Version := ver;
     Custom := JObject [("docker_compose_apps", apps); ("hardwareIds", JArray [JString "hw"]);
                        ("tags", JArray (JString <$> tags)); ("targetFormat", JString "OSTREE");
                        ("version", JString (to_string ver))] |}.

Lemma tag_filters_agree_witness :
  let t := sample_tuf "lmp-7" "abc" 7 ["master"; "devel"] JNull in
  HasOneOfTags t ["devel"] = hasTag (fromTufTarget t) ["devel"]
  /\ (HasOneOfTags t ["devel"] = Ret true <-> exists x, x ∈ ["devel"] /\ x ∈ ["master"; "devel"]).
Proof. intros t. apply (tag_filters_agree t ["master"; "devel"] ["devel"]); [done|reflexivity|reflexivity]. Defined.

Lemma fromTufTarget_toTufTarget_witness :
  toTufTarget (fromTufTarget (sample_tuf "lmp-42" "abc" 42 [] JNull))
  = Ret (sample_tuf "lmp-42" "abc" 42 [] JNull).
Proof. apply fromTufTarget_toTufTarget. vm_compute. reflexivity. Defined.

Lemma toTufTarget_version_errors_witness :
  toTufTarget (fromTufTarget (sample_tuf "lmp" "abc" 4294967296 [] JNull))
  = Throw (Exn out_of_range "stoi").
Proof.
  refine (proj1 (toTufTarget_version_errors
    (fromTufTarget (sample_tuf "lmp" "abc" 4294967296 [] JNull)) "stoi" _) _).
  - intros E. vm_compute in E. discriminate E.
  - vm_compute. reflexivity.
Defined.
