(* ===== verification/Registry.v ===== *)
(** * Docker registry client

    [src/src/docker/docker.h] and [src/src/docker/docker.cc]: digests and pinned
    URIs, descriptors and manifests, the Bearer challenge of the registry, the
    download of manifests and blobs. The HTTP client, SHA256, Base64 and the
    JSON parser are outside the sources: they are the record [RegistryEnv]. *)

From S2P Require Import Prelude Json.

(** ** [HashedDigest] *)

Record HashedDigest := { digest_ : string; hash : string; shortHash : string }.

Definition DigestType : string := "sha256:".

Definition make_HashedDigest (hash_digest : string) : outcome HashedDigest :=
  let digest := to_lower hash_digest in
  if negb (String.eqb DigestType (substr 0 (String.length DigestType) digest)) then
    throw invalid_argument ("Unsupported hash type: " +:+ hash_digest)
  else
    let h := str_drop (String.length DigestType) digest in
    if negb (Nat.eqb 64 (String.length h)) then
      throw invalid_argument ("Invalid hash size: " +:+ hash_digest)
    else mret {| digest_ := digest; hash := h; shortHash := substr 0 7 h |}.

(** ** [Uri] *)

Record Uri := {
  digest : HashedDigest;
  app : string;
  factory : string;
  repo : string;
  registryHostname : string;
}.

(** [std::string::npos + 1] is 0: without a [/] the whole name is the app. *)
Definition parseUri (uri : string) (factory_app : bool) : outcome Uri :=
  match find_char "@" uri with
  | None => throw invalid_argument ("Invalid URI: digest/'@' not found in " +:+ uri)
  | Some split_pos =>
      let digest_str := str_drop (S split_pos) uri in
      match find_char "/" uri with
      | None => throw invalid_argument ("Invalid URI: image name/path is not found in " +:+ uri)
      | Some name_pos_start =>
          if Nat.leb split_pos (name_pos_start + 1) then
            throw invalid_argument
              ("Invalid URI: image name/path is not present before digest; uri: " +:+ uri)
          else
            let registry_hostname := substr 0 name_pos_start uri in
            let name := substr (name_pos_start + 1) (split_pos - name_pos_start - 1) uri in
            let '(factory, app) :=
              match rfind_char "/" name with
              | Some app_pos_start =>
                  (substr 0 app_pos_start name,
                   substr (app_pos_start + 1) (String.length name - app_pos_start - 1) name)
              | None => ("", name)
              end in
            if factory_app && (str_empty factory || match find_char "/" factory with
                                                    | Some _ => true
                                                    | None => false
                                                    end) then
              throw invalid_argument
                ("Invalid URI: invalid name format of a factory image, must be <factory>/<repo>; uri: " +:+ uri)
            else
              d ← make_HashedDigest digest_str;
              mret {| digest := d; app := app; factory := factory; repo := name;
                      registryHostname := registry_hostname |}
      end
  end.

Definition createUri (u : Uri) (digest_in : HashedDigest) : Uri :=
  {| digest := digest_in; app := app u; factory := factory u; repo := repo u;
     registryHostname := registryHostname u |}.

(** The text of a URI that [pullApp] stores in the app's [uri] file. *)
Definition uri_str (u : Uri) : string :=
  registryHostname u +:+ "/" +:+ repo u +:+ "@" +:+ digest_ (digest u).

Definition composeManifestUrl (u : Uri) : string :=
  "https://" +:+ registryHostname u +:+ "/v2/" +:+ repo u +:+ "/manifests/" +:+ digest_ (digest u).

Definition composeBlobUrl (u : Uri) : string :=
  "https://" +:+ registryHostname u +:+ "/v2/" +:+ repo u +:+ "/blobs/" +:+ digest_ (digest u).

(** ** [Descriptor] and manifests *)

Record Descriptor := { descr_digest : HashedDigest; descr_size : Z; mediaType : string }.

Definition require_field (v : json) (f : string) : outcome unit :=
  b ← jisMember v f;
  if b : bool then mret tt
  else throw runtime_error ("Got invalid descriptor, missing required field; field: " +:+ f).

Definition jstring_at (v : json) (k : string) : outcome string := x ← jindex v k; jasString x.

Definition make_Descriptor (value : json) : outcome Descriptor :=
  require_field value "mediaType";;
  require_field value "digest";;
  require_field value "size";;
  ds ← jstring_at value "digest";
  d ← make_HashedDigest ds;
  sz_json ← jindex value "size";
  sz ← jasInt64 sz_json;
  mt ← jstring_at value "mediaType";
  mret {| descr_digest := d; descr_size := sz; mediaType := mt |}.

(** [Descriptor{}]: the digest of the empty string and size 0. *)
Definition empty_sha256 : string :=
  "e3b0c44298fc1c149afbf4c8996fb92427ae41e4649b934ca495991b7852b855".
Definition Descriptor_default : Descriptor :=
  {| descr_digest := {| digest_ := DigestType +:+ empty_sha256; hash := empty_sha256;
                        shortHash := substr 0 7 empty_sha256 |};
     descr_size := 0; mediaType := "" |}.

(** [operator bool] of a descriptor; [digest()] is the digest string. *)
Definition Descriptor_bool (d : Descriptor) : bool :=
  negb (str_empty (digest_ (descr_digest d)) && (descr_size d =? 0)).

(** [Manifest(json)]: the document itself, checked. *)
Definition make_Manifest (value : json) : outcome json :=
  ann ← jindex value "annotations";
  v ← jstring_at ann "compose-app";
  if str_empty v then throw runtime_error "Got invalid App manifest, missing a manifest version"
  else if negb (String.eqb "v1" v) then throw runtime_error "Got unsupported App manifest version"
  else mret value.

Definition archiveDigest (m : json) : outcome string :=
  ls ← jindex m "layers"; l0 ← jnth ls 0; d ← jstring_at l0 "digest";
  if str_empty d then
    throw runtime_error "Got invalid App manifest, failed to extract App Archive digest from App manifest"
  else mret d.

Definition archiveSize (m : json) : outcome Z :=
  ls ← jindex m "layers"; l0 ← jnth ls 0; sz ← jindex l0 "size"; arch_size ← jasUInt64 sz;
  if (arch_size =? 0) || (u64_max <? arch_size) then
    throw runtime_error "Invalid size of App Archive is specified in App manifest"
  else mret arch_size.

Fixpoint find_arch (arch : string) (ms : list json) : outcome json :=
  match ms with
  | [] => mret JNull
  | m :: ms' =>
      p ← jindex m "platform"; a ← jstring_at p "architecture";
      if String.eqb arch a then mret m else find_arch arch ms'
  end.

Definition layersManifest (m : json) (arch : string) : outcome json :=
  manifests ← jindex m "manifests";
  if negb (jisArray manifests) then mret JNull else find_arch arch (jelems manifests).

Definition layersMetaDescr (m : json) : outcome Descriptor :=
  ls ← jindex m "layers";
  if Nat.ltb (jsize ls) 2 then mret Descriptor_default
  else
    desc_json ← jnth ls 1;
    has_ann ← jisMember desc_json "annotations";
    if negb has_ann then mret Descriptor_default
    else
      ann ← jindex desc_json "annotations";
      has_meta ← jisMember ann "layers-meta";
      if negb has_meta then mret Descriptor_default
      else
        v ← jstring_at ann "layers-meta";
        if negb (String.eqb v "v1") then mret Descriptor_default else make_Descriptor desc_json.

Definition ImageFormat : string := "application/vnd.docker.distribution.manifest.v2+json".

Fixpoint require_fields (v : json) (fs : list string) : outcome unit :=
  match fs with
  | [] => mret tt
  | f :: fs' =>
      b ← jisMember v f;
      if b : bool then require_fields v fs'
      else throw runtime_error ("Got invalid image manifest, missing required field; field: " +:+ f)
  end.

Definition make_ImageManifest (value : json) : outcome json :=
  require_fields value ["mediaType"; "schemaVersion"; "config"; "layers"];;
  format ← jstring_at value "mediaType";
  if negb (String.eqb format ImageFormat) then throw runtime_error "Unsupported image manifest format"
  else
    version ← jstring_at value "schemaVersion";
    if negb (String.eqb version "2") then throw runtime_error "Unsupported image manifest schema version"
    else mret value.

Fixpoint descriptors (l : list json) : outcome (list Descriptor) :=
  match l with
  | [] => mret []
  | v :: l' => d ← make_Descriptor v; ds ← descriptors l'; mret (d :: ds)
  end.

Definition ImageManifest_layers (m : json) : outcome (list Descriptor) :=
  ls ← jindex m "layers"; descriptors (jelems ls).

Definition ImageManifest_config (m : json) : outcome Descriptor :=
  c ← jindex m "config"; make_Descriptor c.

(** The members [Layers] and [RepoTags] are set only if there is an element. *)
Definition toLoadManifest (m : json) (blobs_dir : string) (refs : list string) : outcome json :=
  c ← ImageManifest_config m;
  l ← ImageManifest_layers m;
  let arr k (xs : list string) (v : json) :=
    match xs with [] => mret v | _ => jset v k (JArray (JString <$> xs)) end in
  v1 ← jset JNull "Config" (JString (hash (descr_digest c)));
  v2 ← arr "RepoTags" refs v1;
  v3 ← arr "Layers" ((fun d => hash (descr_digest d)) <$> l) v2;
  jset v3 "LayersRoot" (JString blobs_dir).

(** ** [RegistryClient::BearerAuth] *)

Record BearerAuth := { Realm : string; Service : string; Scope : string }.

Definition BearerAuth_uri (b : BearerAuth) : string :=
  Realm b +:+ "?service=" +:+ Service b +:+ "&scope=" +:+ Scope b.

Definition AuthType : string := "bearer".

(** [s.rfind(sub)] *)
Fixpoint str_rfind (sub s : string) : option nat :=
  match s with
  | EmptyString => if starts_with sub s then Some O else None
  | String _ s' =>
      match str_rfind sub s' with
      | Some n => Some (S n)
      | None => if starts_with sub s then Some O else None
      end
  end.

(** [s.find(c, pos)] *)
Definition find_char_from (c : ascii) (pos : nat) (s : string) : option nat :=
  (fun n => (pos + n)%nat) <$> find_char c (str_drop pos s).

Definition dquote : ascii := "034".

(** The parameter loop of the constructor from [param_begin_pos]; [None] when
    the fuel does not suffice. *)
Fixpoint bearer_params_loop (fuel : nat) (header s : string) (param_begin_pos : option nat)
    (params : gmap string string) : option (outcome (gmap string string)) :=
  match fuel with
  | O => None
  | S fuel' =>
      match param_begin_pos with
      | None => Some (Ret params)
      | Some begin =>
        match find_char_from "=" begin s with
        | None => Some (Ret params)
        | Some eq_pos =>
          match find_char_from dquote begin s with
          | None => Some (throw invalid_argument ("Invalid value of Bearer auth parameters; missing openning quote in " +:+ header))
          | Some val_beg =>
            if Nat.ltb val_beg eq_pos then
              Some (throw invalid_argument ("Invalid value of Bearer auth parameters; quote before `=` in " +:+ header))
            else if negb (str_forall (fun c => eqb_char c " ") (substr (eq_pos + 1) (val_beg - eq_pos - 1) s)) then
              Some (throw invalid_argument ("Invalid value of Bearer auth parameters; missing openning quote in " +:+ header))
            else
              match find_char_from dquote (val_beg + 1) s with
              | None => Some (throw invalid_argument ("Invalid value of Bearer auth parameters; missing clossing quote in " +:+ header))
              | Some val_end =>
                  let name := trim_if is_space (substr begin (eq_pos - begin) s) in
                  let value := trim_if is_space (substr (val_beg + 1) (val_end - val_beg - 1) s) in
                  bearer_params_loop fuel' header s (S <$> find_char_from "," val_end s)
                    (<[name := value]> params)
              end
          end
        end
      end
  end.

(** The string the loop reads is shorter than the header, which bounds the
    number of its rounds. *)
Definition make_BearerAuth (auth_header_value : string) : option (outcome BearerAuth) :=
  if negb (starts_with AuthType auth_header_value) then
    Some (throw invalid_argument ("Unsupported authentication type to access Registry: " +:+ auth_header_value))
  else
    let pos := default O (str_rfind AuthType auth_header_value) in
    let bearer_val := trim_if is_space (str_drop (pos + String.length AuthType) auth_header_value) in
    match bearer_params_loop (S (S (String.length bearer_val))) auth_header_value bearer_val (Some O) ∅ with
    | None => None
    | Some (Throw e) => Some (Throw e)
    | Some (Ret params) =>
        let missing := List.filter (fun p => match params !! p with Some _ => false | None => true end)
                         ["realm"; "service"; "scope"] in
        match missing with
        | _ :: _ => Some (throw invalid_argument ("Missing required auth param(s): " +:+ join ", " missing))
        | [] => Some (mret {| Realm := default "" (params !! "realm");
                              Service := default "" (params !! "service");
                              Scope := default "" (params !! "scope") |})
        end
    end.

(** ** Requests *)

Record HttpResponse := {
  body : string;
  http_status_code : Z;
  isOk : bool;
  resp_headers : gmap string string;
}.

Record RegistryEnv := {
  (** [http_client_factory_(headers, _)->get(url, maxsize)] *)
  http_get : list string -> string -> Z -> HttpResponse;
  (** [...->download(url, handler, ...)]: the chunks curl hands to the handler
      and the response it ends with when the handler takes them all *)
  http_download : list string -> string -> list string * HttpResponse;
  (** [ota_lite_client_->get(url, maxsize)] *)
  ota_get : string -> Z -> HttpResponse;
  (** lower-case hexadecimal SHA256 *)
  sha256_hex : string -> string;
  toBase64 : string -> string;
  parseJSON : string -> json;
}.

Definition len (s : string) : Z := Z.of_nat (String.length s).

Section client.
Context (env : RegistryEnv).
Context (auth_creds_endpoint_ : string).

Definition AuthMaterialMaxSize : Z := 1024.
Definition DefManifestMaxSize : Z := 16384.
Definition AuthHeader : string := "www-authenticate".

Definition getBasicAuthHeader : outcome string :=
  let creds_resp := ota_get env auth_creds_endpoint_ AuthMaterialMaxSize in
  if negb (isOk creds_resp) then
    throw runtime_error ("Failed to get Docker Registry credentials from " +:+ auth_creds_endpoint_)
  else
    let creds_json := parseJSON env (body creds_resp) in
    username ← jstring_at creds_json "Username";
    secret ← jstring_at creds_json "Secret";
    if str_empty username || str_empty secret then
      throw runtime_error ("Got invalid Docker Registry credentials: " +:+ body creds_resp)
    else mret ("authorization: basic " +:+ toBase64 env (username +:+ ":" +:+ secret)).

Definition getBearerAuthHeader (bearer : BearerAuth) : outcome string :=
  basic ← getBasicAuthHeader;
  let token_resp := http_get env [basic] (BearerAuth_uri bearer) AuthMaterialMaxSize in
  if negb (isOk token_resp) then
    throw runtime_error ("Failed to get Auth Token at Docker Registry " +:+ Realm bearer)
  else
    token ← jstring_at (parseJSON env (body token_resp)) "token";
    if str_empty token then
      throw runtime_error ("Got invalid token from Docker Registry: " +:+ body token_resp)
    else mret ("authorization: bearer " +:+ token).

(** The header to add after a 401 answer. *)
Definition auth_after_401 (resp : HttpResponse) : outcome string :=
  match resp_headers resp !! AuthHeader with
  | None => throw runtime_error ("No `" +:+ AuthHeader +:+ "` header found in the 401 response")
  | Some h =>
      match make_BearerAuth h with
      | Some o => b ← o; getBearerAuthHeader b
      | None => throw runtime_error "unreachable: out of fuel"
      end
  end.

Definition getAppManifest (uri : Uri) (format : string) (manifest_size : option Z) : outcome string :=
  let manifest_url := composeManifestUrl uri in
  let request_headers := ["accept:" +:+ format] in
  let manifest_max_size := default DefManifestMaxSize manifest_size in
  let resp1 := http_get env request_headers manifest_url manifest_max_size in
  manifest_resp ←
    (if http_status_code resp1 =? 401 then
       auth_header ← auth_after_401 resp1;
       mret (http_get env (request_headers ++ [auth_header]) manifest_url manifest_max_size)
     else mret resp1);
  if negb (isOk manifest_resp) then
    throw runtime_error ("Failed to download App manifest: " +:+ body manifest_resp)
  else if match manifest_size with
          | Some sz => negb (len (body manifest_resp) =? sz)
          | None => manifest_max_size <? len (body manifest_resp)
          end then
    throw runtime_error "Size of received App manifest"
  else if negb (String.eqb (sha256_hex env (body manifest_resp)) (hash (digest uri))) then
    throw runtime_error "Hash of received App manifest and the hash specified in Target do not match"
  else mret (body manifest_resp).

(** *** [DownloadCtx]

    The output file as its content and write position; a write that would
    grow the file past [capacity] fails, and a failed stream has position -1
    ([tellp]) and accepts nothing. [hashed] is what the hasher was fed. *)
Record DownloadCtx := {
  content : string;
  pos : nat;
  good : bool;
  hashed : string;
  expected_size : Z;
  written_size : Z;
  received_size : Z;
}.

Context (capacity : nat).

(** Bytes of [data] replace the ones from [p] on. *)
Definition overwrite (c : string) (p : nat) (data : string) : string :=
  str_take p c +:+ data +:+ str_drop (p + String.length data) c.

Definition DownloadCtx_write (ctx : DownloadCtx) (data : string) : DownloadCtx * Z :=
  let size := len data in
  let received := written_size ctx + size in
  if expected_size ctx <? received then
    ({| content := content ctx; pos := pos ctx; good := good ctx; hashed := hashed ctx;
        expected_size := expected_size ctx; written_size := written_size ctx;
        received_size := received |}, size + 1)
  else if negb (good ctx) then
    ({| content := content ctx; pos := pos ctx; good := good ctx; hashed := hashed ctx;
        expected_size := expected_size ctx; written_size := written_size ctx;
        received_size := received |}, size + 1)
  else if Nat.leb (pos ctx + String.length data) capacity then
    ({| content := overwrite (content ctx) (pos ctx) data; pos := pos ctx + String.length data;
        good := true; hashed := hashed ctx +:+ data; expected_size := expected_size ctx;
        written_size := written_size ctx + size; received_size := received |}, size)
  else
    let diff := to_u64 (-1 - Z.of_nat (pos ctx)) in
    ({| content := content ctx; pos := pos ctx; good := false; hashed := hashed ctx +:+ data;
        expected_size := expected_size ctx; written_size := to_u64 (written_size ctx + diff);
        received_size := received |}, diff).

Definition DownloadCtx_reset (ctx : DownloadCtx) : DownloadCtx :=
  {| content := content ctx; pos := if good ctx then O else pos ctx; good := good ctx;
     hashed := ""; expected_size := expected_size ctx; written_size := 0; received_size := 0 |}.

(** curl calls the handler chunk by chunk and fails the transfer when the
    handler does not return the size of the chunk. *)
Fixpoint feed (ctx : DownloadCtx) (chunks : list string) : DownloadCtx * bool :=
  match chunks with
  | [] => (ctx, true)
  | data :: chunks' =>
      let '(ctx', n) := DownloadCtx_write ctx data in
      if n =? len data then feed ctx' chunks' else (ctx', false)
  end.

Definition doDownloadBlobRequest (headers : list string) (url : string) (ctx : DownloadCtx)
    : DownloadCtx * HttpResponse :=
  let '(chunks, resp) := http_download env headers url in
  let '(ctx', accepted) := feed ctx chunks in
  (ctx', {| body := body resp; http_status_code := http_status_code resp;
            isOk := isOk resp && accepted; resp_headers := resp_headers resp |}).

(** A client that goes on after the handler refused a block, and answers as if it had not, as the registry of an
    offline update does *)
Definition feed_all (ctx : DownloadCtx) (chunks : list string) : DownloadCtx :=
  fold_left (fun c d => (DownloadCtx_write c d).1) chunks ctx.
Definition unchecked_request (headers : list string) (url : string) (ctx : DownloadCtx) : DownloadCtx * HttpResponse :=
  let '(chunks, resp) := http_download env headers url in (feed_all ctx chunks, resp).

(** The outcome, and the file at [filepath] when the call ends ([None]: removed). [request] is a download
    through the HTTP client that the factory makes. *)
Definition downloadBlob_by (request : list string -> string -> DownloadCtx -> DownloadCtx * HttpResponse)
    (uri : Uri) (expected : Z) : outcome unit * option string :=
  let url := composeBlobUrl uri in
  let ctx0 := {| content := ""; pos := O; good := true; hashed := ""; expected_size := expected;
                 written_size := 0; received_size := 0 |} in
  let '(ctx1, resp1) := request [] url ctx0 in
  let '(r, ctx) :=
    if http_status_code resp1 =? 401 then
      match auth_after_401 resp1 with
      | Throw e => (Throw e, ctx1)
      | Ret auth_header =>
          let '(ctx2, resp2) := request [auth_header] url (DownloadCtx_reset ctx1) in
          (Ret resp2, ctx2)
      end
    else (Ret resp1, ctx1) in
  match r with
  | Throw e => (Throw e, Some (content ctx))
  | Ret get_blob_resp =>
      if negb (isOk get_blob_resp) then
        (throw runtime_error "Failed to download App blob", Some (content ctx))
      else if negb (written_size ctx =? expected) then
        (throw runtime_error "Size of downloaded App blob does not equal to the expected one", None)
      else if negb (String.eqb (sha256_hex env (hashed ctx)) (hash (digest uri))) then
        (throw runtime_error "Hash of downloaded App blob does not equal to the expected one", None)
      else (Ret tt, Some (content ctx))
  end.

(** With curl *)
Definition downloadBlob : Uri -> Z -> outcome unit * option string := downloadBlob_by doDownloadBlobRequest.
End client.

(** ** Properties *)

Lemma substr_0 n s : substr 0 n s = str_take n s.
Proof. done. Qed.

Lemma make_HashedDigest_Ret s d :
  make_HashedDigest s = Ret d ->
  digest_ d = to_lower s /\ digest_ d = DigestType +:+ hash d /\ String.length (hash d) = 64%nat
  /\ shortHash d = substr 0 7 (hash d).
Proof.
  unfold make_HashedDigest. rewrite substr_0.
  destruct (String.eqb_spec DigestType (str_take (String.length DigestType) (to_lower s))) as [E|]; [|done].
  destruct (Nat.eqb_spec 64 (String.length (str_drop (String.length DigestType) (to_lower s)))) as [L|]; [|done].
  cbn -[DigestType str_take str_drop]. intros [= <-]. cbn -[DigestType str_take str_drop].
  repeat split; [|done]. by rewrite E at 1; rewrite str_take_drop.
Qed.

(** A digest is in lower case already, so building it again changes nothing. *)
Lemma make_HashedDigest_idem s d :
  make_HashedDigest s = Ret d -> make_HashedDigest (digest_ d) = Ret d.
Proof.
  intros H. pose proof (make_HashedDigest_Ret s d H) as (Hd & _).
  rewrite <- H. unfold make_HashedDigest. rewrite Hd, to_lower_idem.
  destruct (negb (String.eqb _ _)) eqn:E1.
  { unfold make_HashedDigest in H. by rewrite E1 in H. }
  destruct (negb (Nat.eqb _ _)) eqn:E2; [|done].
  unfold make_HashedDigest in H. by rewrite E1, E2 in H.
Qed.

(** [name] is [factory/app] with the last [/], or just [app]. *)
Definition name_split (name factory app : string) : Prop :=
  str_forall (not_char "/") app = true /\
  ((factory = "" /\ name = app /\ str_forall (not_char "/") name = true)
   \/ name = factory +:+ String "/" app).

(** The part of [parseUri] after the positions are found. *)
Definition split_name (name : string) : string * string :=
  match rfind_char "/" name with
  | Some p => (substr 0 p name, substr (p + 1) (String.length name - p - 1) name)
  | None => ("", name)
  end.

Lemma split_name_spec name : name_split name (split_name name).1 (split_name name).2.
Proof.
  unfold split_name, name_split. destruct (rfind_char "/" name) as [p|] eqn:E; cbn [fst snd].
  - apply rfind_char_Some in E as (a & b & -> & -> & Hb). rewrite substr_0, str_take_app.
    assert (substr (String.length a + 1)
              (String.length (a +:+ String "/" b) - String.length a - 1) (a +:+ String "/" b) = b) as ->.
    { unfold substr. rewrite Nat.add_1_r, str_drop_app_S. apply str_take_all.
      rewrite length_app_s. cbn. lia. }
    split; [done|]. by right.
  - apply rfind_char_None in E. split; [done|]. by left.
Qed.

(** A URI text in which the first [@] follows the first [/], with something in
    between: what [parseUri] needs before it looks at the name and the digest. *)
Lemma parseUri_shape host name dig fa :
  str_forall (not_char "/") host = true -> str_forall (not_char "@") host = true ->
  str_forall (not_char "@") name = true -> name <> "" ->
  parseUri (host +:+ String "/" (name +:+ String "@" dig)) fa =
    (let '(f, a) := split_name name in
     if fa && (str_empty f || match find_char "/" f with Some _ => true | None => false end) then
       throw invalid_argument
         ("Invalid URI: invalid name format of a factory image, must be <factory>/<repo>; uri: "
          +:+ (host +:+ String "/" (name +:+ String "@" dig)))
     else d ← make_HashedDigest dig;
          mret {| digest := d; app := a; factory := f; repo := name; registryHostname := host |}).
Proof.
  intros Hh1 Hh2 Hn Hne. unfold parseUri.
  rewrite (find_char_app "/" host) by done.
  replace (host +:+ String "/" (name +:+ String "@" dig))
    with ((host +:+ String "/" name) +:+ String "@" dig) by (by rewrite app_assoc_s).
  rewrite find_char_app by (rewrite str_forall_app, Hh2; cbn; by rewrite Hn).
  rewrite length_app_s. cbn [String.length].
  destruct (Nat.leb_spec (String.length host + S (String.length name)) (String.length host + 1)) as [L|L].
  { destruct name; [done|]. cbn in L. lia. }
  assert (substr 0 (String.length host) ((host +:+ String "/" name) +:+ String "@" dig) = host) as ->.
  { rewrite substr_0, app_assoc_s. apply str_take_app. }
  assert (substr (String.length host + 1) (String.length host + S (String.length name) - String.length host - 1)
            ((host +:+ String "/" name) +:+ String "@" dig) = name) as ->.
  { unfold substr. rewrite app_assoc_s, Nat.add_1_r. cbn [String.append]. rewrite str_drop_app_S.
    replace (String.length host + S (String.length name) - String.length host - 1)%nat
      with (String.length name) by lia. apply str_take_app. }
  assert (str_drop (S (String.length host + S (String.length name)))
            ((host +:+ String "/" name) +:+ String "@" dig) = dig) as ->.
  { replace (String.length host + S (String.length name))%nat
      with (String.length (host +:+ String "/" name)) by (by rewrite length_app_s).
    apply str_drop_app_S. }
  unfold split_name. by destruct (rfind_char "/" name).
Qed.

(** Inversion: a text [parseUri] accepts has that shape. *)
Lemma parseUri_Ret s fa u :
  parseUri s fa = Ret u ->
  exists dig, s = registryHostname u +:+ String "/" (repo u +:+ String "@" dig)
    /\ make_HashedDigest dig = Ret (digest u)
    /\ str_forall (not_char "/") (registryHostname u) = true
    /\ str_forall (not_char "@") (registryHostname u) = true
    /\ str_forall (not_char "@") (repo u) = true /\ repo u <> ""
    /\ (factory u, app u) = split_name (repo u)
    /\ fa && (str_empty (factory u)
              || match find_char "/" (factory u) with Some _ => true | None => false end) = false.
Proof.
  intros H.
  destruct (find_char "@" s) as [p|] eqn:Ep; [|unfold parseUri in H; by rewrite Ep in H].
  destruct (find_char "/" s) as [q|] eqn:Eq; [|unfold parseUri in H; by rewrite Ep, Eq in H].
  destruct (Nat.leb p (q + 1)) eqn:L; [unfold parseUri in H; by rewrite Ep, Eq, L in H|].
  apply Nat.leb_gt in L.
  apply find_char_Some in Eq as (host & rest & -> & -> & Hh).
  apply find_char_Some in Ep as (pre & dig & Epre & -> & Hpre).
  assert (exists name, pre = host +:+ String "/" name) as [name ->].
  { clear -Epre L. revert pre Epre L. induction host as [|c host IH]; intros [|c' pre]; cbn; intros E L; try lia.
    - injection E as <- _. by exists pre.
    - injection E as <- E. destruct (IH pre E ltac:(lia)) as [name ->]. by exists name. }
  rewrite app_assoc_s in Epre. apply (f_equal (str_drop (S (String.length host)))) in Epre.
  rewrite str_drop_app_S in Epre. cbn [String.append] in Epre. rewrite str_drop_app_S in Epre. subst rest.
  rewrite str_forall_app in Hpre. cbn in Hpre. apply andb_true_iff in Hpre as [Hh2 Hn].
  assert (name <> "") as Hne. { intros ->. rewrite length_app_s in L. cbn in L. lia. }
  rewrite parseUri_shape in H by done.
  destruct (split_name name) as [f a] eqn:Es.
  destruct (fa && _) eqn:C; [done|].
  destruct (make_HashedDigest dig) as [d|] eqn:Ed; [|done].
  injection H as <-. cbn. exists dig. by rewrite Es.
Qed.

(** printing a parsed URI and parsing it again gives the same URI: the
    text the restorable store keeps in an app's [uri] file identifies the same
    app, name, registry and digest, for factory apps and for images. *)
Theorem parseUri_uri_str (s : string) (factory_app : bool) (u : Uri) :
  parseUri s factory_app = Ret u -> parseUri (uri_str u) factory_app = Ret u.
Proof.
  intros H. apply parseUri_Ret in H as (dig & _ & Hd & Hh1 & Hh2 & Hn & Hne & Hs & C).
  unfold uri_str. change ("/" +:+ ?x) with (String "/" x).
  change ("@" +:+ ?x) with (String "@" x).
  rewrite parseUri_shape by done. rewrite <- Hs. rewrite C.
  rewrite (make_HashedDigest_idem _ _ Hd). by destruct u.
Qed.

(** What [parseUri] accepts is well formed: the text is
    [host/name@digest]; the digest is [sha256:] and 64 characters in lower
    case; the app is the last component of the name; and a factory app has
    exactly one factory component. *)
Theorem parseUri_sound (s : string) (factory_app : bool) (u : Uri) :
  parseUri s factory_app = Ret u ->
  to_lower s = to_lower (uri_str u)
  /\ digest_ (digest u) = "sha256:" +:+ hash (digest u) /\ String.length (hash (digest u)) = 64%nat
  /\ name_split (repo u) (factory u) (app u)
  /\ (factory_app = true ->
        factory u <> "" /\ str_forall (not_char "/") (factory u) = true
        /\ repo u = factory u +:+ String "/" (app u)).
Proof.
  intros H. apply parseUri_Ret in H as (dig & -> & Hd & Hh1 & Hh2 & Hn & Hne & Hs & C).
  pose proof (make_HashedDigest_Ret _ _ Hd) as (Hd1 & Hd2 & Hd3 & _).
  pose proof (split_name_spec (repo u)) as Hsp. rewrite <- Hs in Hsp. cbn [fst snd] in Hsp.
  split; [|split; [done|split; [done|split; [done|]]]].
  - unfold uri_str. change ("/" +:+ ?x) with (String "/" x). change ("@" +:+ ?x) with (String "@" x).
    rewrite !to_lower_app. cbn [to_lower]. rewrite !to_lower_app. cbn [to_lower].
    by rewrite Hd1, to_lower_idem.
  - intros ->. cbn in C. apply orb_false_iff in C as [C1 C2].
    destruct (find_char "/" (factory u)) eqn:F; [done|]. apply find_char_None in F.
    assert (factory u <> "") as Hf by (intros E; by rewrite E in C1).
    destruct Hsp as [_ [(E & _)|E]]; [done|]. done.
Qed.

Lemma find_char_lt c s n : find_char c s = Some n -> (n < String.length s)%nat.
Proof.
  intros H. apply find_char_Some in H as (a & b & -> & -> & _). rewrite length_app_s. cbn. lia.
Qed.

Lemma find_char_from_bound c p s n :
  find_char_from c p s = Some n -> (p <= n < String.length s)%nat.
Proof.
  unfold find_char_from. destruct (find_char c (str_drop p s)) as [k|] eqn:E; cbn; [|done].
  intros [= <-]. apply find_char_lt in E. rewrite length_str_drop in E. lia.
Qed.

(** Each round of the parameter loop starts after a comma found past the
    previous start. *)
Lemma bearer_params_loop_fuel fuel header s p params :
  (1 <= fuel)%nat ->
  match p with Some b => (String.length s + 1 <= b + fuel)%nat | None => True end ->
  bearer_params_loop fuel header s p params <> None.
Proof.
  revert p params; induction fuel as [|fuel IH]; intros p params H1 Hf; [lia|].
  cbn [bearer_params_loop]. destruct p as [b|]; [|done].
  destruct (find_char_from "=" b s) as [e|] eqn:Ee; [|done].
  destruct (find_char_from dquote b s) as [v|] eqn:Ev; [|done].
  destruct (Nat.ltb v e); [done|]. destruct (negb _); [done|].
  destruct (find_char_from dquote (v + 1) s) as [w|] eqn:Ew; [|done].
  apply find_char_from_bound in Ee, Ev, Ew. apply IH; [lia|].
  destruct (find_char_from "," w s) as [k|] eqn:Ek; cbn; [|done].
  apply find_char_from_bound in Ek. lia.
Qed.

(** parsing a Bearer challenge terminates on every header: the parameter
    loop ends within as many rounds as the header has characters, with a
    result or an [invalid_argument]. *)
Theorem make_BearerAuth_total (header : string) :
  exists o, make_BearerAuth header = Some o /\
    match o with Ret _ => True | Throw e => exn_kind e = invalid_argument end.
Proof.
  unfold make_BearerAuth. destruct (negb _); [by eexists|].
  set (s := trim_if _ _).
  pose proof (bearer_params_loop_fuel (S (S (String.length s))) header s (Some O) ∅ ltac:(lia) ltac:(cbn; lia)) as H.
  destruct (bearer_params_loop _ _ _ _ _) as [[params|e]|] eqn:E; [| |done].
  - destruct (List.filter _ _); by eexists.
  - eexists. split; [done|]. clear H. revert E. generalize (Some O) (∅ : gmap string string).
    generalize (S (S (String.length s))) as fuel.
    induction fuel as [|fuel IH]; intros p m; cbn [bearer_params_loop]; [done|].
    destruct p as [b|]; [|done].
    destruct (find_char_from "=" b s); [|done].
    destruct (find_char_from dquote b s); [|by intros [= <-]].
    destruct (Nat.ltb _ _); [by intros [= <-]|]. destruct (negb _); [by intros [= <-]|].
    destruct (find_char_from dquote _ s); [|by intros [= <-]]. apply IH.
Qed.

(** the challenge of a registry whose authentication realm contains the
    word "bearer" is rejected although it is well formed: the scheme is cut off
    at its last occurrence in the header, not at the first. *)
Theorem BearerAuth_realm_with_bearer :
  let challenge realm :=
    "bearer realm=" +:+ String dquote (realm +:+ String dquote (",service=" +:+ String dquote ("reg" +:+
      String dquote (",scope=" +:+ String dquote ("pull" +:+ String dquote ""))))) in
  make_BearerAuth (challenge "https://host/token")
    = Some (Ret {| Realm := "https://host/token"; Service := "reg"; Scope := "pull" |})
  /\ exists w, make_BearerAuth (challenge "https://host/bearer/token") = Some (throw invalid_argument w).
Proof. split; [vm_compute; reflexivity|]. eexists. vm_compute. reflexivity. Qed.

(** every descriptor tests true, the default one included: the default
    digest is that of the empty string, never the empty string, so the branch
    "no layers metadata" of the app size check is never taken. *)
Theorem Descriptor_bool_always (m : json) (d : Descriptor) :
  layersMetaDescr m = Ret d -> Descriptor_bool d = true.
Proof.
  assert (Hm : forall v d, make_Descriptor v = Ret d -> Descriptor_bool d = true).
  { intros v d' H. unfold make_Descriptor in H. osplit H. injection H as <-.
    unfold Descriptor_bool. cbn. apply make_HashedDigest_Ret in Hv3 as (_ & -> & _). done. }
  unfold layersMetaDescr. intros H. osplit H. destruct (Nat.ltb _ _); [by injection H as <-|].
  osplit H. destruct (negb v1); [by injection H as <-|].
  osplit H. destruct (negb v3); [by injection H as <-|].
  osplit H. destruct (negb _); [by injection H as <-|eauto].
Qed.

Lemma getAppManifest_Ret env endpoint uri format size m :
  getAppManifest env endpoint uri format size = Ret m ->
  sha256_hex env m = hash (digest uri)
  /\ match size with Some n => len m = n | None => len m <= DefManifestMaxSize end
  /\ exists headers, m = body (http_get env headers (composeManifestUrl uri)
                                 (default DefManifestMaxSize size))
     /\ (headers = ["accept:" +:+ format]
         \/ exists token, headers = ["accept:" +:+ format; "authorization: bearer " +:+ token]).
Proof.
  unfold getAppManifest. intros H. osplit H.
  destruct (isOk v) eqn:Ok; [|done]. cbn in H.
  destruct (match size with Some _ => _ | None => _ end) eqn:Sz; [done|].
  destruct (String.eqb_spec (sha256_hex env (body v)) (hash (digest uri))) as [Eh|]; [|done].
  injection H as <-. split; [done|]. split.
  { destruct size; cbn in Sz |- *; [apply negb_false_iff in Sz|]; lia. }
  destruct (http_status_code _ =? 401).
  - osplit Hv. injection Hv as <-. eexists. split; [done|]. right.
    unfold auth_after_401 in Hv0. destruct (_ !! _); [|done]. destruct (make_BearerAuth _); [|done].
    osplit Hv0. unfold getBearerAuthHeader in Hv0. osplit Hv0. destruct (negb _); [done|].
    osplit Hv0. destruct (str_empty _); [done|]. injection Hv0 as <-. by eexists.
  - injection Hv as <-. eexists. by split; [done|left].
Qed.

(** a manifest the client accepts is the one the URI pins: its SHA256 is
    the digest, its size is the announced one or at most 16384 bytes, and it
    came from the manifest URL of that very URI, if necessary with a Bearer
    token added to the request. *)
Theorem getAppManifest_integrity env endpoint uri format size m :
  getAppManifest env endpoint uri format size = Ret m ->
  sha256_hex env m = hash (digest uri)
  /\ match size with Some n => len m = n | None => len m <= DefManifestMaxSize end
  /\ exists headers, m = body (http_get env headers (composeManifestUrl uri)
                                 (default DefManifestMaxSize size))
     /\ (headers = ["accept:" +:+ format]
         \/ exists token, headers = ["accept:" +:+ format; "authorization: bearer " +:+ token]).
Proof. apply getAppManifest_Ret. Qed.

Section download.
Context (env : RegistryEnv) (capacity : nat).

(** While the stream is good it holds, up to its position, exactly what was
    hashed; the file never outgrows the expected size. *)
Definition ctx_inv (c : DownloadCtx) : Prop :=
  len (content c) <= expected_size c /\
  (good c = true ->
     written_size c = Z.of_nat (pos c) /\ hashed c = str_take (pos c) (content c)
     /\ (pos c <= String.length (content c))%nat).

Lemma str_take_overwrite c p d :
  (p <= String.length c)%nat ->
  str_take (p + String.length d) (overwrite c p d) = str_take p c +:+ d
  /\ String.length (overwrite c p d) = Nat.max (String.length c) (p + String.length d).
Proof.
  intros H. unfold overwrite. split.
  - rewrite <- app_assoc_s.
    replace (p + String.length d)%nat with (String.length (str_take p c +:+ d))
      by (rewrite length_app_s, length_str_take; lia).
    apply str_take_app.
  - rewrite !length_app_s, length_str_take, length_str_drop. lia.
Qed.

Lemma write_inv c d :
  ctx_inv c -> ctx_inv (DownloadCtx_write capacity c d).1
  /\ expected_size (DownloadCtx_write capacity c d).1 = expected_size c.
Proof.
  intros [Hle Hg]. unfold DownloadCtx_write.
  destruct (Z.ltb_spec (expected_size c) (written_size c + len d)) as [L|L]; [done|].
  destruct (good c) eqn:G; cbn -[len]; [|done].
  destruct (Nat.leb_spec (pos c + String.length d) capacity) as [C|C]; cbn -[len]; [|done].
  destruct (Hg eq_refl) as (Hw & Hh & Hp).
  destruct (str_take_overwrite (content c) (pos c) d Hp) as [Ht Hl].
  split; [|done]. unfold ctx_inv, len in *. cbn. rewrite Hl. split; [lia|]. intros _.
  split; [lia|]. split; [by rewrite Hh, Ht|lia].
Qed.

Lemma feed_inv chunks c :
  ctx_inv c -> ctx_inv (feed capacity c chunks).1
  /\ expected_size (feed capacity c chunks).1 = expected_size c.
Proof.
  revert c; induction chunks as [|d chunks IH]; intros c Hc; cbn; [done|].
  destruct (write_inv c d Hc) as [Hw He]. destruct (DownloadCtx_write capacity c d) as [c' n]. cbn in *.
  destruct (n =? len d); [|done]. rewrite <- He. by apply IH.
Qed.

(** The size that a failing write computes does not look like the one of the chunk: the expected
    size or, file and chunk together, their bound is below the largest [uint64_t]. *)
Definition no_wrap (c : DownloadCtx) (chunks : list string) : Prop :=
  expected_size c < u64_max
  \/ ((good c = true -> (pos c <= capacity)%nat) /\ forall d, d ∈ chunks -> Z.of_nat capacity + len d < u64_max).

(** A transfer the handler accepted left the stream as good as it was; on a
    failed stream that means that nothing was received. *)
Lemma feed_accepted chunks c :
  ctx_inv c -> no_wrap c chunks -> (feed capacity c chunks).2 = true ->
  good (feed capacity c chunks).1 = good c
  /\ (good c = false -> (feed capacity c chunks).1 = c).
Proof.
  revert c; induction chunks as [|d chunks IH]; intros c Hc He; cbn; [done|].
  destruct (write_inv c d Hc) as [Hw He']. destruct Hc as [Hle Hg].
  unfold DownloadCtx_write in *.
  destruct (Z.ltb_spec (expected_size c) (written_size c + len d)) as [L|L].
  { destruct (Z.eqb_spec (len d + 1) (len d)); [lia|done]. }
  destruct (good c) eqn:G; cbn -[len to_u64] in *.
  2: { destruct (Z.eqb_spec (len d + 1) (len d)); [lia|done]. }
  destruct (Nat.leb (pos c + String.length d) capacity) eqn:C.
  - rewrite Z.eqb_refl. intros A. split; [|done]. apply (IH _ Hw); [|done]. apply Nat.leb_le in C.
    destruct He as [He|(_ & Hd)]; [by left|right]. split; [done|]. intros x Hx. apply Hd. set_solver.
  - destruct (Hg eq_refl) as (Hw1 & _). cbn.
    destruct (Z.eqb_spec (to_u64 (-1 - Z.of_nat (pos c))) (len d)) as [E|]; [|done].
    exfalso. assert (Hb : Z.of_nat (pos c) + len d < u64_max).
    { destruct He as [He|(Hp & Hd)]; [lia|]. specialize (Hd d ltac:(set_solver)). specialize (Hp G). lia. }
    unfold to_u64 in E. unfold u64_max, len in *.
    rewrite <- (Z.mod_add _ 1), Z.mod_small in E by (unfold u64_modulus in *; lia). lia.
Qed.

Lemma ctx_inv_reset c : ctx_inv c -> ctx_inv (DownloadCtx_reset c).
Proof.
  intros [Hle Hg]. split; [done|]. cbn. intros ->. cbn. by destruct (content c); repeat split; lia.
Qed.

(** At the end of an accepted transfer of the expected size, the file is what
    was hashed. *)
Lemma ctx_inv_complete c :
  ctx_inv c -> good c = true -> written_size c = expected_size c ->
  content c = hashed c /\ len (content c) = expected_size c.
Proof.
  intros [Hle Hg] G Hw. destruct (Hg G) as (H1 & H2 & H3). unfold len in *.
  split; [|lia]. rewrite H2, str_take_all; [done|lia].
Qed.

Lemma request_accepted headers url c :
  ctx_inv c -> no_wrap c (http_download env headers url).1 ->
  let r := doDownloadBlobRequest env capacity headers url c in
  ctx_inv r.1 /\ expected_size r.1 = expected_size c
  /\ (isOk r.2 = true -> good r.1 = good c /\ (good c = false -> r.1 = c)).
Proof.
  intros Hc He. unfold doDownloadBlobRequest.
  destruct (http_download env headers url) as [chunks resp].
  pose proof (feed_inv chunks c Hc) as [H1 H2].
  pose proof (feed_accepted chunks c Hc He) as H3.
  destruct (feed capacity c chunks) as [c' acc]. cbn in *.
  split; [done|]. split; [done|]. rewrite andb_true_iff. intros [_ A]. by apply H3.
Qed.
End download.

(** What [downloadBlob] relies on: a request hands what it receives to the write handler, and when it is answered with
    success it left a stream that was at its start as good as it was, and a failed one as it was. *)
Definition request_law (request : list string -> string -> DownloadCtx -> DownloadCtx * HttpResponse)
    (url : string) (expected : Z) : Prop :=
  forall headers c, ctx_inv c -> expected_size c = expected -> (good c = true -> pos c = O) ->
  let r := request headers url c in
  ctx_inv r.1 /\ expected_size r.1 = expected_size c
  /\ (isOk r.2 = true -> good r.1 = good c
      /\ (good c = false -> written_size r.1 = written_size c /\ hashed r.1 = hashed c)).

Lemma downloadBlob_by_file env endpoint request uri expected file :
  0 <= expected -> request_law request (composeBlobUrl uri) expected ->
  downloadBlob_by env endpoint request uri expected = (Ret tt, file) ->
  exists data, file = Some data /\ sha256_hex env data = hash (digest uri) /\ len data = expected.
Proof.
  intros He Hlaw. unfold downloadBlob_by. set (c0 := {| content := "" |}).
  assert (H0 : ctx_inv c0). { unfold ctx_inv, len; cbn. repeat split; lia. }
  pose proof (Hlaw [] c0 H0 eq_refl (fun _ => eq_refl)) as R1.
  destruct (request [] (composeBlobUrl uri) c0) as [c1 r1]. cbn in R1. destruct R1 as (I1 & E1 & A1).
  assert (Hfin : forall c, ctx_inv c -> expected_size c = expected ->
    (good c = true \/ (written_size c = 0 /\ hashed c = "")) -> written_size c = expected ->
    content c = hashed c /\ len (content c) = expected).
  { intros c I E [G|[W Hh]] Hw; [rewrite <- E; apply ctx_inv_complete; congruence|].
    destruct I as [Hle _]. rewrite Hh. destruct (content c) eqn:C; [by rewrite <- Hw, W|].
    unfold len in Hle. cbn in Hle. lia. }
  assert (Hend : forall c (r : HttpResponse), ctx_inv c -> expected_size c = expected ->
    (isOk r = true -> good c = true \/ (written_size c = 0 /\ hashed c = "")) ->
    (if negb (isOk r) then (throw runtime_error "Failed to download App blob", Some (content c))
     else if negb (written_size c =? expected) then
       (throw runtime_error "Size of downloaded App blob does not equal to the expected one", None)
     else if negb (String.eqb (sha256_hex env (hashed c)) (hash (digest uri))) then
       (throw runtime_error "Hash of downloaded App blob does not equal to the expected one", None)
     else (Ret tt, Some (content c))) = (Ret tt, file) ->
    exists data, file = Some data /\ sha256_hex env data = hash (digest uri) /\ len data = expected).
  { intros c r I E A. destruct (isOk r); [|done]. cbn.
    destruct (Z.eqb_spec (written_size c) expected) as [Ew|]; [|done]. cbn.
    destruct (String.eqb_spec (sha256_hex env (hashed c)) (hash (digest uri))) as [Es|]; [|done].
    intros [= <-]. destruct (Hfin c I E (A eq_refl) Ew) as [Hc Hl]. exists (content c).
    split; [done|]. split; [by rewrite Hc|done]. }
  destruct (http_status_code r1 =? 401).
  - destruct (auth_after_401 env endpoint r1) as [h|e]; [|done].
    pose proof (Hlaw [h] (DownloadCtx_reset c1) (ctx_inv_reset _ I1) E1 ltac:(cbn; by intros ->)) as R2.
    destruct (request [h] _ (DownloadCtx_reset c1)) as [c2 r2]. cbn in R2.
    destruct R2 as (I2 & E2 & A2). apply (Hend c2 r2 I2); [by rewrite E2, E1|].
    intros [Hg Hb]%A2. destruct (good c1); [by left|]. right. by destruct (Hb eq_refl) as [-> ->].
  - apply (Hend c1 r1 I1 E1). intros [Hg _]%A1. by left.
Qed.

Lemma curl_request_law env capacity url expected :
  (expected < u64_max \/ forall h d, d ∈ (http_download env h url).1 -> Z.of_nat capacity + len d < u64_max) ->
  request_law (doDownloadBlobRequest env capacity) url expected.
Proof.
  intros Hnw h c Hc He Hp. assert (Hn : no_wrap capacity c (http_download env h url).1).
  { destruct Hnw as [|Hd]; [left; lia|right]. split; [|eauto]. intros G. rewrite (Hp G). lia. }
  destruct (request_accepted env capacity h url c Hc Hn) as (I & E & A). split_and!; [done..|].
  intros [Hg Hb]%A. split; [done|]. by intros ->%Hb.
Qed.

(** *** A client that does not stop *)

Definition total_length (chunks : list string) : nat := fold_right (fun d n => String.length d + n)%nat O chunks.

Lemma feed_all_failed capacity chunks c :
  good c = false ->
  let c' := feed_all capacity c chunks in
  good c' = false /\ written_size c' = written_size c /\ hashed c' = hashed c /\ content c' = content c
  /\ expected_size c' = expected_size c.
Proof.
  revert c; induction chunks as [|d l IH]; intros c Hg; [done|]. cbn -[DownloadCtx_write] in *.
  assert (E : let c' := (DownloadCtx_write capacity c d).1 in good c' = false /\ written_size c' = written_size c
    /\ hashed c' = hashed c /\ content c' = content c /\ expected_size c' = expected_size c).
  { unfold DownloadCtx_write. rewrite Hg. by destruct (_ <? _). }
  destruct E as (G & W & Hh & Hc & He). rewrite <- W, <- Hh, <- Hc, <- He. by apply IH.
Qed.

Lemma feed_all_good capacity chunks c :
  ctx_inv c -> good c = true -> (pos c + total_length chunks <= capacity)%nat ->
  let c' := feed_all capacity c chunks in
  ctx_inv c' /\ good c' = true /\ expected_size c' = expected_size c.
Proof.
  revert c; induction chunks as [|d l IH]; intros c Hi Hg Hl; [done|]. cbn -[DownloadCtx_write total_length] in *.
  destruct (write_inv capacity c d Hi) as [I1 E1]. rewrite <- E1.
  assert (G : good (DownloadCtx_write capacity c d).1 = true
    /\ (pos (DownloadCtx_write capacity c d).1 <= pos c + String.length d)%nat).
  { unfold DownloadCtx_write. rewrite Hg. destruct (_ <? _); [cbn; by split; [|lia]|].
    change (total_length (d :: l)) with (String.length d + total_length l)%nat in Hl.
    destruct (Nat.leb_spec (pos c + String.length d) capacity); [done|lia]. }
  apply IH; [done|apply G|]. change (total_length (d :: l)) with (String.length d + total_length l)%nat in Hl. lia.
Qed.

(** What it receives must fit. *)
Lemma unchecked_request_law env capacity url expected :
  (forall h, total_length (http_download env h url).1 <= capacity)%nat ->
  request_law (unchecked_request env capacity) url expected.
Proof.
  intros Hfit h c Hc He Hp. specialize (Hfit h). revert Hfit. unfold unchecked_request.
  destruct (http_download env h url) as [chunks resp]. cbn -[total_length feed_all]. intros Hfit. destruct (good c) eqn:G.
  - destruct (feed_all_good capacity chunks c Hc G) as (I & G' & E); [rewrite (Hp eq_refl); lia|].
    split_and!; [done..|]. intros _. by rewrite G'.
  - destruct (feed_all_failed capacity chunks c G) as (G' & W & Hh & Hcn & E). split_and!; [|done|].
    + destruct Hc as [Hle _]. split; [by rewrite Hcn, E|by rewrite G'].
    + intros _. by rewrite G'.
Qed.

Lemma downloadBlob_file env endpoint capacity uri expected file :
  0 <= expected ->
  (expected < u64_max
   \/ forall h d, d ∈ (http_download env h (composeBlobUrl uri)).1 -> Z.of_nat capacity + len d < u64_max) ->
  downloadBlob env endpoint capacity uri expected = (Ret tt, file) ->
  exists data, file = Some data /\ sha256_hex env data = hash (digest uri) /\ len data = expected.
Proof. intros He Hnw. by apply downloadBlob_by_file, curl_request_law. Qed.

(** C39: a blob that [downloadBlob] reports as downloaded is on disk, and the file
    holds exactly the bytes whose SHA256 is the digest of the URI and whose
    number is the expected one, even if a first attempt was answered with 401
    and wrote the body of that answer to the same file. *)
Theorem downloadBlob_integrity env endpoint capacity uri expected file :
  0 <= expected < u64_max ->
  downloadBlob env endpoint capacity uri expected = (Ret tt, file) ->
  exists data, file = Some data /\ sha256_hex env data = hash (digest uri) /\ len data = expected.
Proof. intros [H1 H2]. apply downloadBlob_file; auto. Qed.

(** ** Witnesses *)

Definition sample_hash : string := "7ca42b1567ca068dfd6a5392432a5a36700a4aa3e321922e91d974f832a2f243".
Definition sample_uri_str : string := "hub.foundries.io/acme/Shellhttpd@SHA256:" +:+ sample_hash.
Definition sample_uri : Uri :=
  {| digest := {| digest_ := "sha256:" +:+ sample_hash; hash := sample_hash; shortHash := "7ca42b1" |};
     app := "Shellhttpd"; factory := "acme"; repo := "acme/Shellhttpd";
     registryHostname := "hub.foundries.io" |}.

(** A registry that challenges the first request and then serves a manifest and
    a blob, and a hash function that maps everything to [sample_hash]. *)
Definition sample_challenge : string :=
  "bearer realm=" +:+ String dquote ("https://host/token" +:+ String dquote (",service=" +:+ String dquote ("reg" +:+
    String dquote (",scope=" +:+ String dquote ("pull" +:+ String dquote ""))))).
Definition sample_401 : HttpResponse :=
  {| body := "denied"; http_status_code := 401; isOk := false;
     resp_headers := {["www-authenticate" := sample_challenge]} |}.
Definition sample_200 (b : string) : HttpResponse :=
  {| body := b; http_status_code := 200; isOk := true; resp_headers := ∅ |}.
Definition sample_env : RegistryEnv :=
  {| http_get h url _ := if starts_with "https://host/token" url then sample_200 "tok"
                         else if Nat.ltb (List.length h) 2 then sample_401 else sample_200 "mf";
     http_download h _ := match h with
                          | [] => (["den"; "ied"], sample_401)
                          | _ => (["ab"; "c"], sample_200 "")
                          end;
     ota_get _ _ := sample_200 "creds";
     sha256_hex _ := sample_hash;
     toBase64 s := s;
     parseJSON _ := JObject [("Secret", JString "s"); ("Username", JString "u"); ("token", JString "t")] |}.

Lemma parseUri_uri_str_witness : parseUri (uri_str sample_uri) true = Ret sample_uri.
Proof. apply (parseUri_uri_str sample_uri_str true sample_uri). vm_compute. reflexivity. Defined.

Lemma parseUri_sound_witness : name_split (repo sample_uri) (factory sample_uri) (app sample_uri).
Proof.
  apply (parseUri_sound sample_uri_str true sample_uri). vm_compute. reflexivity.
Defined.

Lemma Descriptor_bool_always_witness : Descriptor_bool Descriptor_default = true.
Proof. apply (Descriptor_bool_always JNull Descriptor_default). vm_compute. reflexivity. Defined.

Lemma getAppManifest_integrity_witness : sha256_hex sample_env "mf" = hash (digest sample_uri).
Proof.
  apply (getAppManifest_integrity sample_env "creds" sample_uri "fmt" (Some 2) "mf").
  vm_compute. reflexivity.
Defined.

Lemma downloadBlob_integrity_witness :
  exists data, Some "abc" = Some data /\ sha256_hex sample_env data = hash (digest sample_uri)
    /\ len data = 3.
Proof.
  apply (downloadBlob_integrity sample_env "creds" 100 sample_uri 3 (Some "abc")).
  - unfold u64_max, u64_modulus. lia.
  - vm_compute. reflexivity.
Defined.
