(* ===== verification/Volume.v ===== *)
(** * Storage usage

    [src/include/aktualizr-lite/storage/stat.h] and [src/src/storage/stat.cc].
    The number of reserved blocks is computed in double precision and the
    percentages in single precision; both are modelled bit for bit with the
    standard library's specification of IEEE 754 numbers ([SpecFloat]), and so is
    the text a usage is printed as. *)

From S2P Require Import Prelude.
From Stdlib Require Import SpecFloat.

(** ** Binary64 *)

Definition prec : Z := 53.
Definition emax : Z := 1024.

(** Conversion of an unsigned integer to [double]. *)
Definition double_of (z : Z) : spec_float := binary_normalize prec emax z 0 false.
Definition double_mul : spec_float -> spec_float -> spec_float := SFmul prec emax.
Definition double_div : spec_float -> spec_float -> spec_float := SFdiv prec emax.

(** [static_cast<uint64_t>(std::ceil(d))] of a non-negative [d] *)
Definition ceil_to_u64 (d : spec_float) : Z :=
  match d with
  | S754_finite false m e =>
      to_u64 (if 0 <=? e then Z.pos m * 2 ^ e else (Z.pos m + 2 ^ (- e) - 1) / 2 ^ (- e))
  | _ => 0
  end.

(** [float] *)
Definition fprec : Z := 24.
Definition femax : Z := 128.
Definition float_of (z : Z) : spec_float := binary_normalize fprec femax z 0 false.
Definition float_sub : spec_float -> spec_float -> spec_float := SFsub fprec femax.
Definition float_zero : spec_float := S754_zero false.
(** Conversion of a [double] to [float] *)
Definition double_to_float (d : spec_float) : spec_float :=
  match d with
  | S754_finite s m e => binary_normalize fprec femax (if s then Z.neg m else Z.pos m) e s
  | _ => d
  end.
(** [static_cast<int>] of a [float] whose value an [int] has *)
Definition float_to_int (f : spec_float) : Z :=
  match f with
  | S754_finite s m e =>
      let v := if 0 <=? e then Z.pos m * 2 ^ e else Z.pos m / 2 ^ (- e) in if s then - v else v
  | _ => 0
  end.

(** *** [os << f]

    The default format, [%g]: six significant digits, no trailing zeros, an
    exponent if it is below -4 or not below 6. [n / d] is the value, [n] and [d]
    positive. The sign of a NaN, which depends on the processor, is left out. *)

(** [n / d], rounded to the nearest integer, ties to even *)
Definition round_div (n d : Z) : Z :=
  let q := n / d in let r := 2 * (n mod d) in
  if (r <? d) || ((r =? d) && Z.even q) then q else q + 1.
Definition scaled (n d k : Z) : Z * Z := if 0 <=? k then (n * 10 ^ k, d) else (n, d * 10 ^ (- k)).
(** The exponents a [float] can have, the largest first *)
Definition exponents : list Z := (fun k => 39 - Z.of_nat k) <$> seq 0 86.
Definition exponent10 (n d : Z) : Z :=
  default 0 (List.find (fun x => let '(n', d') := scaled n d (- x) in d' <=? n') exponents).
Fixpoint zeros (k : nat) : string := match k with O => "" | S k' => String "0" (zeros k') end.
Definition is_zero_digit (c : ascii) : bool := eqb_char c "0".
Definition with_fraction (i f : string) : string :=
  let f' := trim_right_if is_zero_digit f in if str_empty f' then i else i +:+ "." +:+ f'.
Definition show_positive (n d : Z) : string :=
  let x0 := exponent10 n d in
  let '(n', d') := scaled n d (5 - x0) in
  let r := round_div n' d' in
  let '(digits, x) := if r =? 10 ^ 6 then (10 ^ 5, x0 + 1) else (r, x0) in
  let ds := to_string digits in
  if (x <? -4) || (6 <=? x) then
    with_fraction (str_take 1 ds) (str_drop 1 ds) +:+ "e" +:+ (if x <? 0 then "-" else "+")
      +:+ (if Z.abs x <? 10 then "0" else "") +:+ to_string (Z.abs x)
  else if x <? 0 then with_fraction "0" (zeros (Z.to_nat (- x - 1)) +:+ ds)
  else with_fraction (str_take (Z.to_nat (x + 1)) ds) (str_drop (Z.to_nat (x + 1)) ds).
Definition show_float (f : spec_float) : string :=
  match f with
  | S754_zero s => if s then "-0" else "0"
  | S754_infinity s => if s then "-inf" else "inf"
  | S754_nan => "nan"
  | S754_finite s m e =>
      (if s then "-" else "")
        +:+ (if 0 <=? e then show_positive (Z.pos m * 2 ^ e) 1 else show_positive (Z.pos m) (2 ^ (- e)))
  end.

(** ** [storage::Volume] *)

Record Stat := { blockSize : Z; freeBlockNumber : Z; blockNumb : Z }.

(** What [open] and [fstatvfs] report of a path; [open_err] is the text of the
    error if the directory cannot be opened. *)
Record FsStat := { f_blocks : Z; f_bavail : Z; f_bfree : Z; f_bsize : Z }.
Record StatEnv := {
  open_err : string -> option string;
  fstatvfs : string -> string + FsStat;
  is_root : bool;
}.

(** The error message, empty on success, and the statistics. *)
Definition getStat (env : StatEnv) (path : string) : string * Stat :=
  let zero := {| blockSize := 0; freeBlockNumber := 0; blockNumb := 0 |} in
  match open_err env path with
  | Some e => ("Failed to open a file/directory; path: " +:+ path +:+ ", err: " +:+ e, zero)
  | None =>
      match fstatvfs env path with
      | inl e =>
          ("Failed to obtain statistic about the path volume; path: " +:+ path +:+ ", err: " +:+ e, zero)
      | inr fs =>
          ("", {| blockNumb := f_blocks fs;
                  freeBlockNumber := if is_root env then f_bfree fs else f_bavail fs;
                  blockSize := f_bsize fs |})
      end
  end.

(** Each amount is a pair of bytes and of a percentage; the second component of
    [x] is [x_pc]. *)
Record UsageInfo := {
  path : string;
  size : Z;
  size_pc : spec_float;
  free : Z;
  free_pc : spec_float;
  reserved : Z;
  reserved_pc : spec_float;
  reserved_by : string;
  available : Z;
  available_pc : spec_float;
  required : Z;
  required_pc : spec_float;
  err : string;
}.

Definition UsageInfo_err (e : string) : UsageInfo :=
  {| path := ""; size := 0; size_pc := float_zero; free := 0; free_pc := float_zero; reserved := 0;
     reserved_pc := float_zero; reserved_by := ""; available := 0; available_pc := float_zero; required := 0;
     required_pc := float_zero; err := e |}.

Definition UsageInfo_isOk (u : UsageInfo) : bool := str_empty (err u).

(** [static_cast<double>(a) / b * 100], stored in a [float] *)
Definition percentage (a b : Z) : spec_float :=
  double_to_float (double_mul (double_div (double_of a) (double_of b)) (double_of 100)).

Definition reserved_blocks (blocks percentage : Z) : Z :=
  ceil_to_u64 (double_mul (double_of blocks) (double_div (double_of percentage) (double_of 100))).

Definition getUsageInfo (env : StatEnv) (p : string) (reserved_percentage : Z) (by_ : string) : UsageInfo :=
  let '(e, stat) := getStat env p in
  if negb (str_empty e) then UsageInfo_err e
  else
    let free := to_u64 (blockSize stat * freeBlockNumber stat) in
    let free_pc := percentage (freeBlockNumber stat) (blockNumb stat) in
    let reserved := to_u64 (blockSize stat * reserved_blocks (blockNumb stat) reserved_percentage) in
    let reserved_pc := float_of reserved_percentage in
    let available := if reserved <? free then free - reserved else 0 in
    let available_pc := if SFltb reserved_pc free_pc then float_sub free_pc reserved_pc else float_zero in
    {| path := p; size := to_u64 (blockSize stat * blockNumb stat); size_pc := float_of 100;
       free := free; free_pc := free_pc; reserved := reserved; reserved_pc := reserved_pc; reserved_by := by_;
       available := available; available_pc := available_pc; required := 0; required_pc := float_zero; err := "" |}.

Definition withRequired (u : UsageInfo) (val : Z) : UsageInfo :=
  {| path := path u; size := size u; size_pc := size_pc u; free := free u; free_pc := free_pc u;
     reserved := reserved u; reserved_pc := reserved_pc u; reserved_by := reserved_by u;
     available := available u; available_pc := available_pc u; required := val;
     required_pc := if UsageInfo_isOk u && (0 <? size u) then percentage val (size u) else float_zero;
     err := err u |}.

(** [operator<<] on an amount and on a usage; [str] *)
Definition Type_str (bytes : Z) (pc : spec_float) : string := to_string bytes +:+ "B " +:+ show_float pc +:+ "%".
Definition UsageInfo_str (t : UsageInfo) : string :=
  if negb (UsageInfo_isOk t) then
    (if 0 <? required t then "required: " +:+ to_string (required t) +:+ "B unknown%" else "")
    +:+ "; fstatvfs err: " +:+ err t
  else
    (if 0 <? required t then "required: " +:+ Type_str (required t) (required_pc t) +:+ ", " else "")
    +:+ "available: " +:+ Type_str (available t) (available_pc t) +:+ " at " +:+ path t
    +:+ ", size: " +:+ Type_str (size t) (size_pc t) +:+ ", free: " +:+ Type_str (free t) (free_pc t)
    +:+ ", reserved: " +:+ Type_str (reserved t) (reserved_pc t) +:+ "(by `" +:+ reserved_by t +:+ "`)".

(** ** Properties *)

(** the storage reported as available never underflows: it is a [uint64_t],
    and it is what remains of the free storage after the reserved part, or
    nothing when the free storage does not exceed the reserve; on an error of
    the statistics every amount is zero and the report is not ok. *)
Theorem getUsageInfo_available (env : StatEnv) (p : string) (pct : Z) (by_ : string) :
  let u := getUsageInfo env p pct by_ in
  is_u64 (available u)
  /\ available u = Z.max 0 (free u - reserved u)
  /\ (UsageInfo_isOk u = true -> path u = p /\ reserved_by u = by_)
  /\ (UsageInfo_isOk u = false -> available u = 0 /\ free u = 0 /\ reserved u = 0 /\ required u = 0).
Proof.
  unfold getUsageInfo. destruct (getStat env p) as [e st].
  destruct (str_empty e) eqn:E; cbn -[to_u64 Z.ltb].
  - pose proof (to_u64_range (blockSize st * freeBlockNumber st)) as H1.
    pose proof (to_u64_range (blockSize st * reserved_blocks (blockNumb st) pct)) as H2.
    unfold is_u64 in *.
    destruct (Z.ltb_spec (to_u64 (blockSize st * reserved_blocks (blockNumb st) pct))
                (to_u64 (blockSize st * freeBlockNumber st))); repeat split; try done; lia.
  - unfold UsageInfo_isOk, is_u64, u64_max, u64_modulus. cbn -[str_empty]. rewrite E.
    repeat split; done || lia.
Qed.

Example reserved_blocks_ex : reserved_blocks 1000000 3 = 30000 /\ reserved_blocks 10 25 = 3.
Proof. split; vm_compute; reflexivity. Qed.

(** The text of a usage: 30 of 90 blocks free, 3 percent reserved. *)
Example UsageInfo_str_ex :
  UsageInfo_str (withRequired (getUsageInfo
    {| open_err _ := None; fstatvfs _ := inr {| f_blocks := 90; f_bavail := 30; f_bfree := 31; f_bsize := 4096 |};
       is_root := false |} "/sysroot" 3 "by") 1000)
  = "required: 1000B 0.271267%, available: 110592B 30.3333% at /sysroot, size: 368640B 100%, free: 122880B 33.3333%, reserved: 12288B 3%(by `by`)".
Proof. vm_compute. reflexivity. Qed.
Example show_float_ex :
  show_float (float_of 16777217) = "1.67772e+07" /\ show_float (percentage 1 8388608) = "1.19209e-05"
  /\ show_float (percentage 999999999 1000000000) = "100" /\ show_float (percentage 1 3) = "33.3333"
  /\ show_float (percentage 0 0) = "nan" /\ show_float (percentage 1 0) = "inf" /\ show_float (percentage 0 7) = "0"
  /\ show_float (percentage 3 4096) = "0.0732422".
Proof. repeat split; vm_compute; reflexivity. Qed.

(** A percentage a client configured is read back unchanged from the usage it was put into. *)
Lemma reserved_pc_exact (k : Z) : 0 <= k <= 100 -> float_to_int (float_of k) = k.
Proof.
  intros Hk. assert (Hall : forallb (fun n => float_to_int (float_of (Z.of_nat n)) =? Z.of_nat n) (seq 0 101) = true)
    by (vm_compute; reflexivity).
  rewrite forallb_forall in Hall. specialize (Hall (Z.to_nat k)).
  rewrite Z2Nat.id, Z.eqb_eq in Hall by lia. apply Hall, in_seq. lia.
Qed.
