(* ===== verification/Restorable.v ===== *)
(** * The restorable app engine: storage accounting

    The part of [src/src/docker/restorableappengine.cc] that decides whether an
    app update fits: the watermark, the size of the layers to pull, the checks
    of the skopeo and docker stores, the archive check of [pullApp] and the limits
    read by the constructor. *)

From S2P Require Import Prelude Json Volume Registry.

(** ** Exceptions of the engine

    [InsufficientSpaceError] carries the storage usage; the other exceptions
    are the shared ones. *)
Inductive eng_outcome (A : Type) :=
  | EOk (a : A)
  | InsufficientSpaceError (store : string) (stat : UsageInfo)
  | EExn (e : exn).
Arguments EOk {A} a.
Arguments InsufficientSpaceError {A} store stat.
Arguments EExn {A} e.

#[export] Instance eng_ret : MRet eng_outcome := @EOk.
#[export] Instance eng_bind : MBind eng_outcome := fun A B f m =>
  match m with
  | EOk a => f a
  | InsufficientSpaceError s u => InsufficientSpaceError s u
  | EExn e => EExn e
  end.

Definition eng_lift {A} (o : outcome A) : eng_outcome A :=
  match o with Ret a => EOk a | Throw e => EExn e end.

(** ** The watermark *)

Definition LowWatermarkLimit : Z := 20.
Definition HighWatermarkLimit : Z := 95.

(** The function [GetDefStorageSpaceFunc] returns, from a path to its usage. *)
Definition GetDefStorageSpaceFunc (env : StatEnv) (watermark : Z) : outcome (string -> UsageInfo) :=
  if (watermark <? LowWatermarkLimit) || (HighWatermarkLimit <? watermark) then
    throw invalid_argument
      ("Unsupported value of a storage watermark (sota.toml:pacman:storage_watermark); should be within ["
       +:+ to_string LowWatermarkLimit +:+ "," +:+ to_string HighWatermarkLimit +:+ "] range, got "
       +:+ to_string watermark)
  else
    mret (fun p => getUsageInfo env p (if watermark <? 100 then 100 - watermark else 0)
                     "pacman:storage_watermark").

(** ** Parallel pulls, from the environment variable of the constructor *)

Definition SkopeoMaxParallelPullsLowLimit : Z := 1.
Definition SkopeoMaxParallelPullsHighLimit : Z := 10.

(** [cast] is [boost::lexical_cast<int>]; the member starts at -1. *)
Definition max_parallel_pulls (cast : string -> option Z) (var : option string) : Z :=
  match var with
  | None => -1
  | Some s =>
      match cast s with
      | None => -1
      | Some v =>
          let v := if SkopeoMaxParallelPullsHighLimit <? v then SkopeoMaxParallelPullsHighLimit else v in
          if v <? SkopeoMaxParallelPullsLowLimit then SkopeoMaxParallelPullsLowLimit else v
      end
  end.

(** ** Update size

    [store_blobs] are the names of the files in the blob directory. *)

Fixpoint getAppUpdateSize_loop (store_blobs : gset string) (total : Z) (layers : list json) : outcome Z :=
  match layers with
  | [] => mret total
  | layer :: layers' =>
      ds ← jstring_at layer "digest";
      d ← make_HashedDigest ds;
      if bool_decide (hash d ∉ store_blobs) then
        size_obj ← jindex layer "size";
        if negb (jisInt64 size_obj) then
          throw range_error "Invalid value of a layer size, must be int64"
        else
          size ← jasInt64 size_obj;
          if size <? 0 then throw range_error "Invalid value of a layer size, must be > 0"
          else
            let new_total := to_u64 (total + size) in
            if (new_total <? total) || (new_total <? size) then
              throw overflow_error "Sum of layer sizes exceeded the maximum allowed value"
            else getAppUpdateSize_loop store_blobs new_total layers'
      else getAppUpdateSize_loop store_blobs total layers'
  end.

Definition getAppUpdateSize (store_blobs : gset string) (app_layers : json) : outcome Z :=
  getAppUpdateSize_loop store_blobs 0 (jelems app_layers).

Definition getDockerStoreSizeForAppUpdate (compressed_update_size average_compression_ratio : Z) : outcome Z :=
  let prod := compressed_update_size * average_compression_ratio in
  if u64_max <? prod then
    throw overflow_error "Docker total update size exceeds the maximum allowed value"
  else mret prod.

(** A 64-bit signed value converted to [uint64_t] in the comparison. *)
Fixpoint getPreciseAppUpdateSize_loop (store_blobs : gset string) (skopeo docker : Z)
    (layers : list (string * json)) : outcome (Z * Z) :=
  match layers with
  | [] => mret (skopeo, docker)
  | (key, layer) :: layers' =>
      d ← make_HashedDigest key;
      if bool_decide (hash d ∈ store_blobs) then
        getPreciseAppUpdateSize_loop store_blobs skopeo docker layers'
      else
        has ← jisMember layer "usage";
        if negb has then throw range_error "Invalid layers metadata; `usage` field is missing"
        else
          u ← jindex layer "usage";
          if negb (jisInt64 u) then throw range_error "Invalid value of a layer usage, must be int64"
          else
            size_json ← jindex layer "size";
            size ← jasInt64 size_json;
            usage ← jasInt64 u;
            archive_json ← jindex layer "archive_size";
            archive_size ← jasInt64 archive_json;
            let new_skopeo := to_u64 (skopeo + archive_size) in
            if (new_skopeo <? skopeo) || (new_skopeo <? to_u64 archive_size) then
              throw overflow_error "Sum of layer sizes exceeded the maximum allowed value"
            else
              let new_docker := to_u64 (docker + usage) in
              if (new_docker <? docker) || (new_docker <? to_u64 usage) then
                throw overflow_error "Sum of layer sizes exceeded the maximum allowed value"
              else getPreciseAppUpdateSize_loop store_blobs new_skopeo new_docker layers'
  end.

Definition getPreciseAppUpdateSize (store_blobs : gset string) (app_layers : json) : outcome (Z * Z) :=
  getPreciseAppUpdateSize_loop store_blobs 0 0 (jitems app_layers).

(** ** Room in the stores

    [W] is the state of the file systems, [storage_space_func] the usage of a
    path in it and [removeTmpFiles] what removing skopeo's temporary files
    makes of it. *)
Section stores.
Context {W : Type} (storage_space_func : W -> string -> UsageInfo) (removeTmpFiles : W -> W).
Context (store_root docker_root : string) (docker_and_skopeo_same_volume : bool).

Definition checkRoomInStore (w : W) (store_name : string) (required_storage : Z) (store_path : string)
    : eng_outcome unit :=
  let usage_info := storage_space_func w store_path in
  if available usage_info <? required_storage then
    InsufficientSpaceError store_name (withRequired usage_info required_storage)
  else EOk tt.

(** [try { check } catch (InsufficientSpaceError) { removeTmpFiles; check }] *)
Definition checkRoomRetry (w : W) (store_name : string) (required_storage : Z) (store_path : string)
    : eng_outcome unit * W :=
  match checkRoomInStore w store_name required_storage store_path with
  | InsufficientSpaceError _ _ =>
      let w' := removeTmpFiles w in
      (checkRoomInStore w' store_name required_storage store_path, w')
  | r => (r, w)
  end.

Definition checkAvailableStorageInStores (skopeo_required docker_required : Z) (w : W)
    : eng_outcome unit * W :=
  match checkRoomRetry w "skopeo" skopeo_required store_root with
  | (EOk _, w1) =>
      match checkRoomInStore w1 "docker" docker_required docker_root with
      | EOk _ =>
          if docker_and_skopeo_same_volume then
            let combined := to_u64 (skopeo_required + docker_required) in
            if (combined <? skopeo_required) || (combined <? docker_required) then
              (EExn (Exn overflow_error
                 "Sum of skopeo and docker update sizes exceeds the maximum allowed value"), w1)
            else checkRoomRetry w1 "skopeo & docker" combined store_root
          else (EOk tt, w1)
      | r => (r, w1)
      end
  | r => r
  end.

(** The space check of [pullApp] before the app archive is downloaded: the
    product is a [uint64_t]. *)
Definition pullApp_space_check (manifest : json) (w : W) : eng_outcome unit :=
  let usage_info := storage_space_func w store_root in
  if UsageInfo_isOk usage_info then
    sz ← eng_lift (archiveSize manifest);
    let need_storage := to_u64 (sz * 3) in
    if available usage_info <? need_storage then
      InsufficientSpaceError "skopeo apps" (withRequired usage_info need_storage)
    else EOk tt
  else EOk tt.
End stores.

(** [statvfs] is the identifier of the volume of a path, [None] if the call fails. *)
Definition getPathVolumeID (statvfs : string -> option Z) (path : string) : Z * bool :=
  match statvfs path with None => (0, false) | Some f_fsid => (f_fsid, true) end.
(** [parent_path()] of a path without repeated slashes *)
Definition dir_of (path : string) : string :=
  match rfind_char "/" path with
  | None => ""
  | Some O => "/"
  | Some p => str_take p path
  end.
Definition areDockerAndSkopeoOnTheSameVolume (statvfs : string -> option Z) (skopeo_path docker_path : string) : bool :=
  (getPathVolumeID statvfs (dir_of skopeo_path)).1 =? (getPathVolumeID statvfs (dir_of docker_path)).1.

(** A path whose volume is unknown counts as on the volume with the identifier 0 only. *)
Lemma unknown_volume statvfs a b :
  statvfs (dir_of a) = None ->
  areDockerAndSkopeoOnTheSameVolume statvfs a b = true <-> statvfs (dir_of b) = None \/ statvfs (dir_of b) = Some 0.
Proof.
  intros Ha. unfold areDockerAndSkopeoOnTheSameVolume, getPathVolumeID. rewrite Ha, Z.eqb_eq.
  destruct (statvfs (dir_of b)) as [n|]; cbn; split; try naive_solver.
Qed.

(** ** Properties *)

(** A layer of a layers manifest, and its JSON. *)
Record layer := { layer_digest : HashedDigest; layer_size : Z }.
Definition layer_json (l : layer) : json :=
  JObject [("digest", JString (digest_ (layer_digest l))); ("size", JInt (layer_size l))].
Definition layer_ok (l : layer) : Prop :=
  make_HashedDigest (digest_ (layer_digest l)) = Ret (layer_digest l) /\ 0 <= layer_size l < 2 ^ 63.

(** The reference definition: the sum of the sizes of the layers that are not
    in the store. *)
Definition missing_size (store_blobs : gset string) (ls : list layer) : Z :=
  foldr Z.add 0 (layer_size <$> filter (fun l => hash (layer_digest l) ∉ store_blobs) ls).

Lemma missing_size_cons store_blobs l ls :
  missing_size store_blobs (l :: ls) =
  (if bool_decide (hash (layer_digest l) ∉ store_blobs) then layer_size l else 0)
  + missing_size store_blobs ls.
Proof.
  unfold missing_size. rewrite filter_cons.
  by destruct (decide (hash (layer_digest l) ∉ store_blobs)) as [D|D];
    [rewrite bool_decide_eq_true_2|rewrite bool_decide_eq_false_2].
Qed.

Lemma missing_size_nonneg store_blobs ls : Forall layer_ok ls -> 0 <= missing_size store_blobs ls.
Proof.
  induction 1 as [|l ls [_ Hl] _ IH]; [done|]. rewrite missing_size_cons. case_match; lia.
Qed.

Lemma layer_json_fields l :
  jstring_at (layer_json l) "digest" = Ret (digest_ (layer_digest l))
  /\ jindex (layer_json l) "size" = Ret (JInt (layer_size l)).
Proof. done. Qed.

Lemma jint64_ok z : 0 <= z < 2 ^ 63 -> jisInt64 (JInt z) = true /\ jasInt64 (JInt z) = Ret z.
Proof.
  intros Hz. assert (jisInt64 (JInt z) = true) as E by (cbn -[Z.pow]; lia).
  split; [done|]. unfold jasInt64. by rewrite E.
Qed.

Lemma getAppUpdateSize_loop_spec store_blobs ls total :
  Forall layer_ok ls -> is_u64 total ->
  getAppUpdateSize_loop store_blobs total (layer_json <$> ls) =
  if total + missing_size store_blobs ls <=? u64_max then Ret (total + missing_size store_blobs ls)
  else throw overflow_error "Sum of layer sizes exceeded the maximum allowed value".
Proof.
  intros Hls. revert total. induction Hls as [|l ls [Hd Hs] Hls IH]; intros total Ht.
  { cbn. unfold missing_size. cbn. rewrite Z.add_0_r. by destruct (Z.leb_spec total u64_max); [|unfold is_u64 in Ht; lia]. }
  rewrite fmap_cons, missing_size_cons. cbn [getAppUpdateSize_loop].
  destruct (layer_json_fields l) as [-> Hsz]. cbn -[layer_json jisInt64 jasInt64 to_u64]. rewrite Hd.
  cbn -[layer_json jisInt64 jasInt64 to_u64].
  case_bool_decide as D; [|by rewrite IH].
  rewrite Hsz. destruct (jint64_ok (layer_size l) Hs) as [E1 E2].
  cbn -[layer_json jisInt64 jasInt64 to_u64]. rewrite E1. cbn -[jasInt64 to_u64]. rewrite E2. cbn -[to_u64].
  destruct (Z.ltb_spec (layer_size l) 0); [lia|].
  assert (is_u64 (layer_size l)) by (unfold is_u64, u64_max, u64_modulus; lia).
  rewrite u64_add_overflow by done. pose proof (missing_size_nonneg store_blobs ls Hls).
  destruct (Z.leb_spec (total + layer_size l) u64_max) as [L|L]; cbn -[to_u64].
  - rewrite to_u64_small by (unfold is_u64 in *; lia). rewrite IH by (unfold is_u64 in *; lia).
    by rewrite Z.add_assoc.
  - destruct (Z.leb_spec (total + (layer_size l + missing_size store_blobs ls)) u64_max); [lia|done].
Qed.

(** C40: the size of an app update computed by the loop over the layers equals the
    sum of the sizes of the layers missing from the blob store, and an
    [overflow_error] is thrown exactly when that sum does not fit in 64 bits:
    the wrap-around tests of the loop neither miss an overflow nor raise a
    false one. *)
Theorem getAppUpdateSize_correct (store_blobs : gset string) (ls : list layer) :
  Forall layer_ok ls ->
  getAppUpdateSize store_blobs (JArray (layer_json <$> ls)) =
  if missing_size store_blobs ls <=? u64_max then Ret (missing_size store_blobs ls)
  else throw overflow_error "Sum of layer sizes exceeded the maximum allowed value".
Proof.
  intros Hls. unfold getAppUpdateSize. cbn [jelems].
  rewrite getAppUpdateSize_loop_spec by (done || (unfold is_u64, u64_max, u64_modulus; lia)).
  by rewrite Z.add_0_l.
Qed.

Lemma checkRoom_EOk {W} (space : W -> string -> UsageInfo) w name req p a :
  checkRoomInStore space w name req p = EOk a -> req <= available (space w p).
Proof. unfold checkRoomInStore. destruct (Z.ltb_spec (available (space w p)) req); [done|lia]. Qed.

Lemma checkRoomRetry_EOk {W} (space : W -> string -> UsageInfo) rm w name req p a w' :
  checkRoomRetry space rm w name req p = (EOk a, w') ->
  req <= available (space w' p) /\ (w' = w \/ w' = rm w).
Proof.
  unfold checkRoomRetry. destruct (checkRoomInStore space w name req p) eqn:E; try done.
  - intros [= <- <-]. split; [by eapply checkRoom_EOk|by left].
  - intros [= E' <-]. split; [by eapply checkRoom_EOk|by right].
Qed.

(** when the storage check of an app update passes, the update fits: the
    skopeo part in the skopeo store, the docker part in the docker store, and,
    if the two stores share a volume, their sum, computed without wrap-around,
    in that volume; temporary files are removed at most once before the first
    two checks and once before the last. *)
Theorem checkAvailableStorage_sound {W} (space : W -> string -> UsageInfo) (rm : W -> W)
    store_root docker_root same skopeo docker (w w' : W) :
  is_u64 skopeo -> is_u64 docker ->
  checkAvailableStorageInStores space rm store_root docker_root same skopeo docker w = (EOk tt, w') ->
  exists w1, (w1 = w \/ w1 = rm w) /\ (w' = w1 \/ w' = rm w1)
    /\ skopeo <= available (space w1 store_root)
    /\ docker <= available (space w1 docker_root)
    /\ (same = true -> skopeo + docker <= available (space w' store_root)).
Proof.
  intros Hs Hd. unfold checkAvailableStorageInStores.
  destruct (checkRoomRetry space rm w "skopeo" skopeo store_root) as [[[]| |] w1] eqn:E1; try done.
  apply checkRoomRetry_EOk in E1 as [R1 W1].
  destruct (checkRoomInStore space w1 "docker" docker docker_root) eqn:E2; try done.
  apply checkRoom_EOk in E2. destruct same.
  - rewrite u64_add_overflow by done.
    destruct (Z.leb_spec (skopeo + docker) u64_max) as [L|L]; [|done]. cbn -[to_u64].
    intros H. apply checkRoomRetry_EOk in H as [R3 W3].
    rewrite to_u64_small in R3 by (unfold is_u64 in *; lia). by exists w1.
  - intros [= <-]. exists w1. repeat split; auto; done.
Qed.

(** the check that precedes the download of an app archive can pass although
    three times the archive does not fit, since that product is computed modulo
    2^64: an archive announced with 6148914691236517206 bytes "needs" 2 bytes. *)
Theorem pullApp_space_check_wraps :
  let manifest := JObject [("layers", JArray [JObject [("size", JInt 6148914691236517206)]])] in
  let usage := fun (_ : unit) (p : string) =>
    {| path := p; size := 100; size_pc := float_of 100; free := 100; free_pc := float_of 100; reserved := 0;
       reserved_pc := float_of 0; reserved_by := ""; available := 2; available_pc := float_of 2; required := 0;
       required_pc := float_zero; err := "" |} in
  archiveSize manifest = Ret 6148914691236517206
  /\ pullApp_space_check usage "/var/sota/reset-apps" manifest tt = EOk tt
  /\ available (usage tt "/var/sota/reset-apps") < 6148914691236517206.
Proof. repeat split; vm_compute; reflexivity. Qed.

(** the default storage function exists exactly for a watermark between 20
    and 95, and it then reserves the rest of the volume, between 5 and 80
    percent, whatever the path. *)
Theorem GetDefStorageSpaceFunc_watermark env w :
  (LowWatermarkLimit <= w <= HighWatermarkLimit <->
     is_throw (GetDefStorageSpaceFunc env w) = false)
  /\ (forall f p, GetDefStorageSpaceFunc env w = Ret f -> UsageInfo_isOk (f p) = true ->
        float_to_int (reserved_pc (f p)) = 100 - w /\ 5 <= 100 - w <= 80).
Proof.
  unfold GetDefStorageSpaceFunc, LowWatermarkLimit, HighWatermarkLimit. split.
  - destruct (_ || _) eqn:E; cbn; lia.
  - intros f p. destruct (_ || _) eqn:E; [done|]. intros [= <-].
    assert ((w <? 100) = true) as -> by lia. unfold getUsageInfo.
    destruct (getStat env p) as [e st].
    destruct (str_empty e) eqn:Ee; cbn -[str_empty Z.sub float_of float_to_int];
      [rewrite reserved_pc_exact by lia; lia|].
    unfold UsageInfo_isOk. cbn -[str_empty]. by rewrite Ee.
Qed.

(** ** Witnesses *)

Definition sample_layer (size : Z) : layer :=
  {| layer_digest := digest sample_uri; layer_size := size |}.

Lemma getAppUpdateSize_correct_witness :
  getAppUpdateSize ∅ (JArray (layer_json <$> [sample_layer 5; sample_layer 7])) = Ret 12.
Proof.
  refine (getAppUpdateSize_correct ∅ [sample_layer 5; sample_layer 7] _).
  repeat constructor; vm_compute; congruence.
Defined.

Lemma checkAvailableStorage_sound_witness :
  exists w1 : unit, (w1 = tt \/ w1 = tt) /\ (tt = w1 \/ tt = w1) /\ 10 <= 100 /\ 20 <= 100
    /\ (true = true -> 10 + 20 <= 100).
Proof.
  refine (checkAvailableStorage_sound
    (fun (_ : unit) p => {| path := p; size := 100; size_pc := float_of 100; free := 100; free_pc := float_of 100;
       reserved := 0; reserved_pc := float_of 0; reserved_by := ""; available := 100;
       available_pc := float_of 100; required := 0; required_pc := float_zero; err := "" |})
    (fun w => w) "a" "b" true 10 20 tt tt _ _ _).
  - unfold is_u64, u64_max, u64_modulus. lia.
  - unfold is_u64, u64_max, u64_modulus. lia.
  - vm_compute. reflexivity.
Defined.
