(* ===== verification/Exec.v ===== *)
(** * Running programs

    [exec] ([src/src/exec.cc]): a shell command is run, its output is read from
    two pipes until both are closed or the time is over, and an exit code other
    than 0 becomes an [ExecError]. What the program does to the state [W] of the
    device, and what the system calls answer, are parameters. *)

From S2P Require Import Prelude.

Definition convertToSeconds (input : string) : outcome Z :=
  if str_empty input then mret 0
  else
    let n := (String.length input - 1)%nat in
    value ← stoll 10 (substr 0 n input);
    match str_drop n input with
    | "h" => mret (value * 3600)
    | "m" => mret (value * 60)
    | "s" => mret value
    | _ => throw invalid_argument ("Invalid time interval " +:+ input)
    end.

(** ** The pipes of the process

    What one turn of the loop sees: whether [select] failed, what [read] returns
    for a pipe that is ready, and the time in seconds since the start. *)
Inductive read_result := RData (d : string) | REof | RAgain | RError.
Record turn := { select_ok : bool; out_ready : option read_result; err_ready : option read_result; elapsed : Z }.

(** A pipe: whether it is open, and the data read from it. *)
Definition pipe_step (ready : option read_result) (p : bool * string) : bool * string :=
  let '(open, data) := p in
  if open then
    match ready with
    | Some (RData d) => (true, data +:+ d)
    | Some REof | Some RError => (false, data)
    | Some RAgain | None => (true, data)
    end
  else p.

Definition timeout_error : exn :=
  Exn runtime_error "Timeout occurred while waiting for a child process completion".

(** The loop. A program that is silent after the turns given is waited for until the limit; [None] if
    there is no limit. *)
Fixpoint readFromBothPipes (limit : option Z) (out err : bool * string) (turns : list turn)
    : option (outcome (string * string)) :=
  if out.1 || err.1 then
    match turns with
    | [] => match limit with Some _ => Some (Throw timeout_error) | None => None end
    | t :: turns' =>
        if negb (select_ok t) then Some (throw runtime_error "exec: Error creating pipes")
        else
          let out := pipe_step (out_ready t) out in
          let err := pipe_step (err_ready t) err in
          if match limit with Some l => l <? elapsed t | None => false end
          then Some (Throw timeout_error)
          else readFromBothPipes limit out err turns'
    end
  else Some (mret (out.2, err.2)).

Record ProcessResult := { stdout_output : string; stderr_output : string; exit_code : Z }.

(** How a command ends: the process cannot be started, or the turns of the loop that reads its
    output, and its exit code ([None] if a signal ended it). *)
Inductive process := NotStarted (why : string) | Started (turns : list turn) (exited : option Z).

(** [Process::execute] on a process; [None] if it never ends. *)
Definition execute_process (timeout : string) (p : process) : option (outcome ProcessResult) :=
  match p with
  | NotStarted why => Some (throw runtime_error why)
  | Started turns exited =>
      match (if str_empty timeout then mret None else l ← convertToSeconds timeout; mret (Some l)) with
      | Throw e => Some (Throw e)
      | Ret limit =>
          match readFromBothPipes limit (true, "") (true, "") turns with
          | None => None
          | Some (Throw e) => Some (Throw e)
          | Some (Ret (o, e)) =>
              Some (mret {| stdout_output := o; stderr_output := e; exit_code := default (-1) exited |})
          end
      end
  end.

(** ** [exec] *)

(** [run_process] is the shell: the process a command becomes and what it does to the device.
    [is_tty] says whether the standard output is a terminal. *)
Record ExecEnv (W : Type) := {
  run_process : string -> W -> process * W;
  is_tty : bool;
}.
Arguments run_process {W}.
Arguments is_tty {W}.

Definition tab : string := String (Ascii.ascii_of_nat 9) "".
Definition newline : string := String (Ascii.ascii_of_nat 10) "".

Definition exec_command (is_tty print_output : bool) (start_dir cmd : string) : string :=
  let command := (if print_output && is_tty then "PARENT_HAS_TTY=1 " else "") +:+ cmd in
  if str_empty start_dir then command else "cd " +:+ start_dir +:+ " && " +:+ command.

(** [ExecError]: the exception carries the exit code and the error output. *)
Definition exec_error (err_msg_prefix cmd : string) (r : ProcessResult) : exn :=
  Exn (ExecError (exit_code r) (stderr_output r))
    (err_msg_prefix +:+ newline +:+ tab +:+ "cmd: " +:+ cmd +:+ newline +:+ tab +:+ "err: " +:+ stderr_output r).

Section exec.
Context {W : Type} (env : ExecEnv W).

(** The output of the command. Without a time limit the call may never return; the sources always
    give one ([exec_ends]), and [never_ends] stands for the result that is then missing. *)
Definition never_ends : exn := Exn runtime_error "the process does not end".

Definition exec_cmd (cmd err_msg_prefix start_dir timeout : string) (print_output : bool) : M W string := fun w =>
  let '(p, w') := run_process env (exec_command (is_tty env) print_output start_dir cmd) w in
  match execute_process timeout p with
  | None => (Throw never_ends, w')
  | Some (Throw e) => (Throw e, w')
  | Some (Ret r) =>
      if negb (exit_code r =? EXIT_SUCCESS) then (Throw (exec_error err_msg_prefix cmd r), w')
      else (Ret (stdout_output r), w')
  end.

(** With the default timeout and without printing. *)
Definition exec_in (cmd err_msg_prefix start_dir : string) : M W string :=
  exec_cmd cmd err_msg_prefix start_dir "900s" false.
End exec.

(** ** Theorems *)

(** What a pipe has delivered at the end of some turns. *)
Definition pipe_after (sel : turn -> option read_result) (turns : list turn) (p : bool * string) : bool * string :=
  fold_left (fun p t => pipe_step (sel t) p) turns p.

Lemma readFromBothPipes_done limit turns out err o e :
  readFromBothPipes limit out err turns = Some (Ret (o, e)) ->
  exists used rest, turns = used ++ rest /\
    pipe_after out_ready used out = (false, o) /\ pipe_after err_ready used err = (false, e) /\
    Forall (fun t => select_ok t = true /\ match limit with Some l => elapsed t <= l | None => True end) used.
Proof.
  revert out err. induction turns as [|t turns IH]; intros [oo od] [eo ed]; cbn [readFromBothPipes fst snd].
  - destruct oo, eo; cbn; try (by destruct limit). intros [= -> ->]. by exists [], [].
  - destruct (oo || eo) eqn:Hopen.
    + destruct (select_ok t) eqn:Hs; cbn [negb]; [|done].
      destruct (match limit with Some l => l <? elapsed t | None => false end) eqn:Hl; [done|].
      intros E. apply IH in E as (used & rest & -> & Ho & He & Hf). exists (t :: used), rest.
      split_and!; [done|done|done|]. constructor; [|done]. split; [done|]. destruct limit; [lia|done].
    + apply orb_false_iff in Hopen as [-> ->]. intros [= -> ->]. by exists [], (t :: turns).
Qed.

Lemma readFromBothPipes_limited l out err turns :
  is_Some (readFromBothPipes (Some l) out err turns).
Proof.
  revert out err. induction turns as [|t turns IH]; intros out err; cbn [readFromBothPipes].
  - destruct (_ || _); by eexists.
  - destruct (_ || _); [|by eexists]. destruct (negb _); [by eexists|]. destruct (_ <? _); [by eexists|apply IH].
Qed.


(** The time limits in the sources. *)
Lemma time_limits : convertToSeconds "900s" = Ret 900 /\ convertToSeconds "4h" = Ret 14400.
Proof. split; vm_compute; reflexivity. Qed.

