(* ===== verification/Fs.v ===== *)
(** * Files and directories

    The part of the file system the app engines work on: a finite map from
    absolute paths, as lists of names, to directories and files with their
    content, and the functions of [boost::filesystem], [std::filesystem] and
    libaktualizr's [Utils] that the sources call on it. Links, permissions and
    the names [.] and [..] are left out. *)

From S2P Require Import Prelude Json.

Inductive node := Dir | File (content : string).
#[export] Instance node_eq_dec : EqDecision node.
Proof. solve_decision. Defined.

Abbreviation Path := (list string).
Abbreviation FS := (gmap (list string) node).

(** The names of a relative path. *)
Fixpoint path_parts_go (cur s : string) : list string :=
  match s with
  | EmptyString => if str_empty cur then [] else [cur]
  | String c s' =>
      if eqb_char c "/" then (if str_empty cur then [] else [cur]) ++ path_parts_go "" s'
      else path_parts_go (cur +:+ String c "") s'
  end.
Definition path_parts (s : string) : list string := path_parts_go "" s.

(** [p / s] *)
Definition path_join (p : Path) (s : string) : Path := p ++ path_parts s.
Infix "//" := path_join (at level 40, left associativity) : aklite_scope.

(** [p.string()] *)
Definition path_str (p : Path) : string := "/" +:+ join "/" p.

Definition parent_path (p : Path) : Path := take (length p - 1) p.

(** The file system of a device beyond its content: which writes fail (for lack of room or rights),
    what reading a file that does not exist yields, and in which order directories are read. *)
Record FsEnv := {
  write_ok : Path -> string -> bool;
  read_missing : string;
  readdir : list Path -> list Path;
}.
Class FsEnvSpec (env : FsEnv) : Prop := { readdir_perm l : readdir env l ≡ₚ l }.

(** ** Queries *)

Definition fs_exists (p : Path) (f : FS) : bool := bool_decide (is_Some (f !! p)).
Definition is_directory (p : Path) (f : FS) : bool := bool_decide (f !! p = Some Dir).
Definition read (p : Path) (f : FS) : option string :=
  match f !! p with Some (File c) => Some c | _ => None end.

Definition file_size (p : Path) (f : FS) : outcome Z :=
  match read p f with
  | Some c => mret (Z.of_nat (String.length c))
  | None => throw runtime_error ("file_size: " +:+ path_str p)
  end.

(** [p] is [d] or below it. *)
Definition below (d p : Path) : bool := bool_decide (d `prefix_of` p).

(** The paths below [d], and those directly below it. *)
Definition descendants (d : Path) (f : FS) : list Path :=
  filter (fun p => below d p && negb (bool_decide (p = d)) = true) ((map_to_list f).*1).
Definition entries (d : Path) (f : FS) : list Path :=
  filter (fun p => bool_decide (length p = length d + 1)%nat = true) (descendants d f).

(** The last name of a path. *)
Definition filename_of (p : Path) : string := default "" (last p).

(** ** Changes *)

Section fs.
Context (env : FsEnv).

Definition readFile (p : Path) (f : FS) : string := default (read_missing env) (read p f).

(** [directory_iterator(d)] *)
Definition directory_entries (d : Path) (f : FS) : outcome (list Path) :=
  if is_directory d f then mret (readdir env (entries d f))
  else throw runtime_error ("directory iterator cannot open directory: " +:+ path_str d).

(** [create_directories(base / rest)], [base] being there *)
Fixpoint mkdirs (base : Path) (rest : list string) : M FS unit :=
  match rest with
  | [] => mret tt
  | n :: rest' =>
      let p := base ++ [n] in
      x ← gets (fun f : FS => f !! p);
      match x with
      | Some (File _) => throwM runtime_error ("create_directories: " +:+ path_str p)
      | Some Dir => mkdirs p rest'
      | None => modify <[p := Dir]>;; mkdirs p rest'
      end
  end.
Definition create_directories (p : Path) : M FS unit := mkdirs [] p.

Definition remove_all (p : Path) (f : FS) : FS := filter (fun kv => below p kv.1 = false) f.

(** [remove(p)]: a file or an empty directory *)
Definition remove_path (p : Path) : M FS unit :=
  x ← gets (fun f : FS => f !! p);
  match x with
  | None => mret tt
  | Some (File _) => modify (delete p)
  | Some Dir =>
      l ← gets (descendants p);
      if bool_decide (l = []) then modify (delete p) else throwM runtime_error ("remove: " +:+ path_str p)
  end.

(** [Utils::writeFile] with the directories above the file *)
Definition writeFile (p : Path) (c : string) : M FS unit :=
  create_directories (parent_path p);;
  dir ← gets (is_directory p);
  if dir || negb (write_ok env p c) then throwM runtime_error ("Failed to write " +:+ path_str p)
  else modify <[p := File c]>.
End fs.

(** ** Lemmas *)

Lemma path_parts_go_plain cur s :
  str_forall (fun c => negb (eqb_char c "/")) s = true -> str_empty (cur +:+ s) = false ->
  path_parts_go cur s = [cur +:+ s].
Proof.
  revert cur. induction s as [|c s IH]; intros cur Hs Hne; cbn [path_parts_go].
  - rewrite app_nil_r in *. by rewrite Hne.
  - cbn in Hs. apply andb_true_iff in Hs as [Hc Hs]. destruct (eqb_char c "/"); [done|].
    rewrite IH by (done || by destruct cur). by rewrite app_assoc_s.
Qed.

(** A single name. *)
Lemma path_join_name p s :
  str_forall (fun c => negb (eqb_char c "/")) s = true -> str_empty s = false -> p // s = p ++ [s].
Proof. intros Hs Hne. unfold path_join, path_parts. by rewrite path_parts_go_plain. Qed.

Lemma below_spec d p : below d p = true <-> exists r, p = d ++ r.
Proof. unfold below. rewrite bool_decide_eq_true. done. Qed.

Lemma below_refl d : below d d = true.
Proof. apply below_spec. exists []. by rewrite List.app_nil_r. Qed.

Lemma remove_all_lookup (p q : Path) (f : FS) :
  remove_all p f !! q = if below p q then None else f !! q.
Proof.
  unfold remove_all. destruct (below p q) eqn:E.
  - apply map_lookup_filter_None. right. intros x _ H. cbn in H. congruence.
  - rewrite map_lookup_filter. destruct (f !! q) as [n|]; cbn; [|done]. by rewrite option_guard_True.
Qed.

Lemma elem_of_descendants (d p : Path) (f : FS) :
  p ∈ descendants d f <-> is_Some (f !! p) /\ below d p = true /\ p <> d.
Proof.
  unfold descendants. rewrite list_elem_of_filter, andb_true_iff, negb_true_iff, bool_decide_eq_false.
  assert (p ∈ (map_to_list f).*1 <-> is_Some (f !! p)) as ->.
  { rewrite list_elem_of_fmap. split.
    - intros ([q n] & -> & H). apply elem_of_map_to_list in H. by exists n.
    - intros [n H]. exists (p, n). split; [done|]. by apply elem_of_map_to_list. }
  tauto.
Qed.

Lemma elem_of_entries (d p : Path) (f : FS) : p ∈ entries d f <-> is_Some (f !! p) /\ exists n, p = d ++ [n].
Proof.
  unfold entries. rewrite list_elem_of_filter, elem_of_descendants, bool_decide_eq_true, below_spec. split.
  - intros (L & ? & (r & ->) & Hne). split; [done|]. rewrite length_app in L.
    destruct r as [|n [|n' r]]; cbn in L; [lia|by exists n|lia].
  - intros (? & n & ->). rewrite length_app. cbn. split_and!; [lia|done|by exists [n]|].
    intros E. apply (f_equal length) in E. rewrite length_app in E. cbn in E. lia.
Qed.

Lemma parent_path_snoc d n : parent_path (d ++ [n]) = d.
Proof. unfold parent_path. rewrite length_app. cbn. rewrite Nat.add_sub. by rewrite take_app_length. Qed.

Lemma filename_of_snoc d n : filename_of (d ++ [n]) = n.
Proof. unfold filename_of. by rewrite last_snoc. Qed.

(** *** Directories *)

(** Every path above and including [p] is a directory. *)
Definition dirs (p : Path) (f : FS) : Prop := forall q, q <> [] -> q `prefix_of` p -> f !! q = Some Dir.

(** Creating directories changes nothing else, whether or not it succeeds. *)
Lemma mkdirs_lookup base rest f q :
  exec (mkdirs base rest) f !! q = f !! q \/
  (f !! q = None /\ exec (mkdirs base rest) f !! q = Some Dir /\ q `prefix_of` base ++ rest).
Proof.
  revert base f. induction rest as [|n rest IH]; intros base f; cbn [mkdirs]; [by left|].
  assert (E : base ++ n :: rest = (base ++ [n]) ++ rest) by by rewrite <- app_assoc.
  unfold exec, gets, mbind, M_bind in *. cbn [fst snd].
  destruct (f !! (base ++ [n])) as [[|c]|] eqn:L; rewrite E.
  - apply IH.
  - by left.
  - unfold modify. destruct (IH (base ++ [n]) (<[base ++ [n] := Dir]> f)) as [H|(H1 & H2 & H3)].
    + destruct (decide (q = base ++ [n])) as [->|Hne].
      * right. rewrite H, lookup_insert_eq. split_and!; [done..|]. by exists rest.
      * left. by rewrite H, lookup_insert_ne by done.
    + destruct (decide (q = base ++ [n])) as [->|Hne]; [by rewrite lookup_insert_eq in H1|].
      rewrite lookup_insert_ne in H1 by done. by right.
Qed.

Lemma mkdirs_dirs base rest f f' q r :
  mkdirs base rest f = (Ret tt, f') -> base ++ rest = q ++ r -> (length base < length q)%nat -> f' !! q = Some Dir.
Proof.
  revert base f. induction rest as [|n rest IH]; intros base f H E L.
  - exfalso. apply (f_equal length) in E. rewrite !length_app in E. cbn in E. lia.
  - cbn [mkdirs] in H. unfold gets, mbind, M_bind in H. cbn [fst snd] in H.
    assert (E' : (base ++ [n]) ++ rest = q ++ r) by by rewrite <- app_assoc.
    destruct (decide (q = base ++ [n])) as [->|Hne].
    + pose proof (mkdirs_lookup (base ++ [n]) rest) as K. unfold exec in K.
      destruct (f !! (base ++ [n])) as [[|c]|] eqn:Lk; [|discriminate H|].
      * destruct (K f (base ++ [n])) as [K'|(_ & K' & _)]; rewrite H in K'; cbn in K'; congruence.
      * unfold modify in H. destruct (K (<[base ++ [n] := Dir]> f) (base ++ [n])) as [K'|(_ & K' & _)];
          rewrite H in K'; cbn in K'; [|done]. by rewrite lookup_insert_eq in K'.
    + assert (L' : (length (base ++ [n]) < length q)%nat).
      { rewrite length_app. cbn. destruct (decide (length q = length base + 1)%nat) as [El|]; [|lia].
        exfalso. apply Hne. apply (f_equal (take (length base + 1))) in E'. rewrite take_app_le in E' by (rewrite length_app; cbn; lia).
        rewrite <- El, take_app_length in E'. rewrite El in E'. rewrite take_ge in E' by (rewrite length_app; cbn; lia). done. }
      destruct (f !! (base ++ [n])) as [[|c]|]; [exact (IH _ _ H E' L')|discriminate H|exact (IH _ _ H E' L')].
Qed.

Lemma create_directories_lookup p f q :
  exec (create_directories p) f !! q = f !! q \/
  (f !! q = None /\ exec (create_directories p) f !! q = Some Dir /\ q `prefix_of` p).
Proof. apply (mkdirs_lookup [] p). Qed.

Lemma create_directories_dirs p f f' : create_directories p f = (Ret tt, f') -> dirs p f'.
Proof.
  intros H q Hne [r E]. eapply (mkdirs_dirs [] p f f' q r H E). destruct q; [done|cbn; lia].
Qed.

Lemma mkdirs_same base rest f :
  (forall q r, base ++ rest = q ++ r -> (length base < length q)%nat -> f !! q = Some Dir) ->
  mkdirs base rest f = (Ret tt, f).
Proof.
  revert base. induction rest as [|n rest IH]; intros base H; cbn [mkdirs]; [done|].
  unfold gets, mbind, M_bind. cbn [fst snd].
  rewrite (H (base ++ [n]) rest) by (rewrite ?length_app, <- ?app_assoc; cbn; lia || done).
  apply IH. intros q r E L. apply (H q r); [by rewrite <- E, <- app_assoc|]. rewrite length_app in L. lia.
Qed.

Lemma create_directories_same p f : dirs p f -> create_directories p f = (Ret tt, f).
Proof. intros H. apply mkdirs_same. intros q r E L. apply H; [by destruct q; cbn in L; [lia|]|by exists r]. Qed.

(** *** Writing a file *)

Lemma writeFile_lookup env d n c f q :
  q <> d ++ [n] ->
  exec (writeFile env (d ++ [n]) c) f !! q = f !! q \/
  (f !! q = None /\ exec (writeFile env (d ++ [n]) c) f !! q = Some Dir /\ q `prefix_of` d).
Proof.
  intros Hq. unfold writeFile. rewrite parent_path_snoc.
  pose proof (create_directories_lookup d f q) as K. unfold exec, mbind, M_bind, gets, modify in *.
  destruct (create_directories d f) as [[]f1]; cbn [snd] in *; [|done].
  destruct (_ || _); [done|]. cbn [snd]. by rewrite !lookup_insert_ne by done.
Qed.

Lemma writeFile_Ret env d n c f f' :
  writeFile env (d ++ [n]) c f = (Ret tt, f') ->
  dirs d f' /\ f' !! (d ++ [n]) = Some (File c) /\ write_ok env (d ++ [n]) c = true.
Proof.
  unfold writeFile. rewrite parent_path_snoc. rewrite M_bind_Ret. intros ([] & f1 & H1 & H).
  unfold gets, mbind, M_bind in H. destruct (_ || _) eqn:E; [discriminate H|]. injection H as <-.
  apply orb_false_iff in E as [_ E%negb_false_iff]. rewrite lookup_insert_eq. split_and!; [|done..].
  apply create_directories_dirs in H1. intros q Hq Hp. rewrite lookup_insert_ne; [by apply H1|].
  intros <-. apply prefix_length in Hp. rewrite length_app in Hp. cbn in Hp. lia.
Qed.

Lemma writeFile_same env d n c f :
  dirs d f -> f !! (d ++ [n]) = Some (File c) -> write_ok env (d ++ [n]) c = true ->
  writeFile env (d ++ [n]) c f = (Ret tt, f).
Proof.
  intros Hd Hf Hw. unfold writeFile. rewrite parent_path_snoc. unfold mbind at 1, M_bind.
  rewrite (create_directories_same _ _ Hd). unfold gets, mbind, M_bind, is_directory. rewrite Hf, Hw.
  rewrite bool_decide_eq_false_2 by done. cbn. unfold modify. by rewrite insert_id.
Qed.

Lemma mkdirs_ok base rest f :
  (forall q, q <> [] -> q `prefix_of` base ++ rest -> f !! q = None \/ f !! q = Some Dir) ->
  exists f', mkdirs base rest f = (Ret tt, f').
Proof.
  revert base f. induction rest as [|n rest IH]; intros base f H; cbn [mkdirs]; [by exists f|].
  unfold gets, mbind, M_bind, modify. cbn [fst snd].
  assert (E : base ++ n :: rest = (base ++ [n]) ++ rest) by by rewrite <- app_assoc. rewrite E in H.
  destruct (H (base ++ [n])) as [Hn|Hn]; [by destruct base|by exists rest| |]; rewrite Hn; apply IH; [|done].
  intros q Hq Hp. destruct (decide (q = base ++ [n])) as [->|Hne]; [right; by rewrite lookup_insert_eq|].
  rewrite lookup_insert_ne by done. by apply H.
Qed.
Lemma create_directories_ok p f :
  (forall q, q <> [] -> q `prefix_of` p -> f !! q = None \/ f !! q = Some Dir) ->
  exists f', create_directories p f = (Ret tt, f').
Proof. apply (mkdirs_ok [] p). Qed.

Lemma mkdirs_root base rest f : exec (mkdirs base rest) f !! [] = f !! [].
Proof.
  revert base f. induction rest as [|n rest IH]; intros base f; cbn [mkdirs]; [done|].
  unfold exec, gets, mbind, M_bind, modify in *. cbn [fst snd]. destruct (f !! (base ++ [n])) as [[]|]; [apply IH|done|].
  rewrite IH. rewrite lookup_insert_ne; [done|]. by destruct base.
Qed.

Lemma writeFile_root fe dir n c f f' : writeFile fe (dir ++ [n]) c f = (Ret tt, f') -> f' !! [] = f !! [].
Proof.
  intros H. unfold writeFile in H. rewrite parent_path_snoc in H. apply M_bind_Ret in H as ([] & f1 & H1 & H).
  pose proof (mkdirs_root [] dir f) as R. unfold exec in R. unfold create_directories in H1. rewrite H1 in R. cbn in R.
  rewrite bind_gets in H. destruct (_ || _); [discriminate H|]. injection H as <-.
  rewrite lookup_insert_ne; [done|]. by destruct dir.
Qed.

(** The directories above a file that could be written. *)
Lemma writeFile_above fe dir n c f f' q :
  writeFile fe (dir ++ [n]) c f = (Ret tt, f') -> q <> [] -> q `prefix_of` dir -> f !! q = None \/ f !! q = Some Dir.
Proof.
  intros H Hq Hp. pose proof (writeFile_Ret _ _ _ _ _ _ H) as (Hd & _ & _). specialize (Hd q Hq Hp).
  assert (Hne : q <> dir ++ [n]) by (intros ->; apply prefix_length in Hp; rewrite length_app in Hp; cbn in Hp; lia).
  pose proof (writeFile_lookup fe dir n c f q Hne) as K. unfold exec in K. rewrite H in K. cbn [snd] in K.
  destruct K as [K|(K & _)]; [right; congruence|by left].
Qed.

Lemma writeFile_below fe dir n c f f' q :
  writeFile fe (dir ++ [n]) c f = (Ret tt, f') -> q <> dir ++ [n] -> ~ q `prefix_of` dir -> f' !! q = f !! q.
Proof.
  intros H Hq Hn. pose proof (writeFile_lookup fe dir n c f q Hq) as K. unfold exec in K. rewrite H in K.
  destruct K as [K|(_ & _ & K)]; [done|by apply Hn in K].
Qed.

Lemma writeFile_ok fe dir n c f :
  (forall q, q <> [] -> q `prefix_of` dir -> f !! q = None \/ f !! q = Some Dir) -> f !! (dir ++ [n]) <> Some Dir ->
  write_ok fe (dir ++ [n]) c = true -> exists f', writeFile fe (dir ++ [n]) c f = (Ret tt, f').
Proof.
  intros Hd Hn Hw. destruct (create_directories_ok dir f Hd) as [f1 H1]. unfold writeFile. rewrite parent_path_snoc.
  rewrite (bind_run _ _ tt f f1) by done. rewrite bind_gets, Hw.
  assert (is_directory (dir ++ [n]) f1 = false) as ->; [|unfold modify; cbn; eauto].
  apply bool_decide_eq_false. pose proof (create_directories_lookup dir f (dir ++ [n])) as K. unfold exec in K.
  rewrite H1 in K. cbn [snd] in K. destruct K as [->|(_ & _ & P)]; [done|].
  apply prefix_length in P. rewrite length_app in P. cbn in P. lia.
Qed.
