(* ===== verification/DockerClient.v ===== *)
(** * The docker client

    [DockerClient] ([src/src/docker/dockerclient.cc]): the requests to the docker
    daemon over its socket. The daemon is its state [D], its answers to the
    requests are the record [DockerEnv]. *)

From S2P Require Import Prelude Json Registry.

Record DockerEnv (D : Type) := {
  (** [http_client_->get(url, kNoLimit)] *)
  docker_get : D -> string -> HttpResponse;
  (** [http_client_->post(url, content_type, data)] *)
  docker_post : string -> string -> D -> HttpResponse * D;
  docker_parseJSON : string -> json;
  jsonToStr : json -> string;
  (** [resp.getStatusStr()] *)
  status_str : HttpResponse -> string;
  (** libarchive's ustar archive of one file, written to a buffer of the size given; [Throw] if a call
      of the library fails *)
  ustar : string -> string -> Z -> outcome string;
}.
Arguments docker_get {D}.
Arguments docker_post {D}.
Arguments docker_parseJSON {D}.
Arguments jsonToStr {D}.
Arguments status_str {D}.
Arguments ustar {D}.

(** ** The socket of the daemon ([DefaultHttpClientFactory]) *)

(** [docker_host.find_first_of(docker_host_prefix) == 0] *)
Definition is_docker_host (docker_host : string) : bool :=
  match docker_host with
  | String c _ => is_any_of "unix://" c
  | EmptyString => false
  end.

(** The socket and the timeout in ms; [DOCKER_HOST] and [COMPOSE_HTTP_TIMEOUT] are environment
    variables, [cast] is [boost::lexical_cast<int64_t>]. *)
Definition docker_socket (docker_host_in : string) (DOCKER_HOST : option string) : outcome string :=
  let docker_host := default docker_host_in DOCKER_HOST in
  if negb (is_docker_host docker_host) then
    throw invalid_argument ("Invalid docker host value, must start with unix:// : " +:+ docker_host)
  else if Nat.ltb (String.length docker_host) 7 then throw out_of_range "basic_string::substr"
  else mret (str_drop 7 docker_host).

(** The product is not bounded here: its overflow has no defined result. *)
Definition docker_timeout_ms (cast : string -> option Z) (COMPOSE_HTTP_TIMEOUT : option string) : Z :=
  match COMPOSE_HTTP_TIMEOUT with
  | None => 60000
  | Some s => match cast s with Some timeout_s => timeout_s * 1000 | None => 60000 end
  end.

Section client.
Context {D : Type} (env : DockerEnv D).

Definition getJson (resp : HttpResponse) : json := docker_parseJSON env (body resp).

(** ** Containers *)

Definition containers_url : string := "http://localhost/containers/json?all=1".

Definition getContainers (d : D) : outcome json :=
  let resp := docker_get env d containers_url in
  let root := if isOk resp then getJson resp else JNull in
  if jisNull root then throw runtime_error ("Request to dockerd has failed: " +:+ containers_url) else mret root.

Definition label (val : json) (name : string) : outcome string :=
  labels ← jindex val "Labels"; jstring_at labels name.
Definition project_label : string := "com.docker.compose.project".
Definition service_label : string := "com.docker.compose.service".
Definition hash_label : string := "io.compose-spec.config-hash".

Fixpoint container_state_loop (l : list json) (app service hash : string) : outcome (bool * string) :=
  match l with
  | [] => mret (false, "")
  | val :: l' =>
      p ← label val project_label;
      if negb (String.eqb p app) then container_state_loop l' app service hash
      else
        s ← label val service_label;
        if negb (String.eqb s service) then container_state_loop l' app service hash
        else
          h ← label val hash_label;
          if negb (String.eqb h hash) then container_state_loop l' app service hash
          else state ← jstring_at val "State"; mret (true, state)
  end.

(** Whether the container of the service exists, and its state. *)
Definition getContainerState (root : json) (app service hash : string) : outcome (bool * string) :=
  container_state_loop (jelems root) app service hash.

Definition getContainerInfo (d : D) (id : string) : outcome json :=
  let cmd := "http://localhost/containers/" +:+ id +:+ "/json" in
  let resp := docker_get env d cmd in
  if negb (isOk resp) then throw runtime_error ("Request to dockerd has failed: " +:+ cmd) else mret (getJson resp).

Definition getContainerLogs (d : D) (id : string) (tail : Z) : outcome string :=
  let cmd := "http://localhost/containers/" +:+ id +:+ "/logs?stderr=1&tail=" +:+ to_string tail in
  let resp := docker_get env d cmd in
  if negb (isOk resp) then throw runtime_error ("Request to dockerd has failed: " +:+ cmd) else mret (body resp).

(** ** Running apps *)

Definition container_health (d : D) (val : json) (state status : string) : outcome string :=
  if str_contains "health" status then
    id ← jstring_at val "Id"; info ← getContainerInfo d id;
    st ← jindex info "State"; h ← jindex st "Health"; jstring_at h "Status"
  else if String.eqb state "dead" then mret "unhealthy"
  else if String.eqb state "exited" then
    id ← jstring_at val "Id"; info ← getContainerInfo d id;
    st ← jindex info "State"; c ← jindex st "ExitCode"; code ← jasInt c;
    mret (if negb (code =? 0) then "unhealthy" else "healthy")
  else mret "healthy".

(** The members in the order of their names. *)
Definition service_attributes (d : D) (val : json) : outcome json :=
  state ← jstring_at val "State";
  status ← jstring_at val "Status";
  name ← label val service_label;
  hash ← label val hash_label;
  image ← jstring_at val "Image";
  health ← container_health d val state status;
  logs ← (if String.eqb health "healthy" then mret []
          else id ← jstring_at val "Id"; l ← getContainerLogs d id 5; mret [("logs", JString l)]);
  mret (JObject ([("hash", JString hash); ("health", JString health); ("image", JString image)] ++ logs
                 ++ [("name", JString name); ("state", JString state); ("status", JString status)])).

(** One container; [ext_func] completes the description of its app. *)
Definition running_apps_step (d : D) (ext_func : option (string -> json -> outcome json)) (apps val : json)
    : outcome json :=
  app_name ← label val project_label;
  if str_empty app_name then mret apps
  else
    attrs ← service_attributes d val;
    app ← jindex apps app_name;
    services ← jindex app "services";
    services' ← jappend services attrs;
    app' ← jset app "services" services';
    app'' ← match ext_func with Some f => f app_name app' | None => mret app' end;
    jset apps app_name app''.

Fixpoint running_apps_loop (d : D) (ext_func : option (string -> json -> outcome json)) (l : list json) (apps : json)
    : outcome json :=
  match l with
  | [] => mret apps
  | val :: l' => apps' ← running_apps_step d ext_func apps val; running_apps_loop d ext_func l' apps'
  end.

Definition getRunningApps (ext_func : option (string -> json -> outcome json)) (d : D) : outcome json :=
  containers ← getContainers d;
  running_apps_loop d ext_func (jelems containers) JNull.

(** ** Changes of the store of the daemon *)

Definition prune_images_url : string :=
  "http://localhost/images/prune?filters=%7B%22dangling%22%3A%7B%22false%22%3Atrue%7D%2C%22label%21%22%3A%7B%22aktualizr-no-prune%22%3Atrue%7D%7D".
Definition prune_containers_url : string :=
  "http://localhost/containers/prune?filters=%7B%22label%21%22%3A%7B%22aktualizr-no-prune%22%3Atrue%7D%7D".

Definition post (url data : string) : M D HttpResponse := fun d =>
  let '(resp, d') := docker_post env url data d in (Ret resp, d').

Definition pruneImages : M D unit :=
  resp ← post prune_images_url (jsonToStr env JNull);
  if negb (isOk resp) then throwM runtime_error ("Failed to prune unused images: " +:+ status_str env resp)
  else mret tt.
Definition pruneContainers : M D unit :=
  resp ← post prune_containers_url (jsonToStr env JNull);
  if negb (isOk resp) then throwM runtime_error ("Failed to prune unused containers: " +:+ status_str env resp)
  else mret tt.

(** ** Images *)

Definition tar_block_size : Z := 512.

(** [(size + 511) & ~511] on [size_t] *)
Definition aligned_data_size (size : Z) : Z :=
  Z.land (to_u64 (size + tar_block_size - 1)) (to_u64 (Z.lnot (tar_block_size - 1))).
Definition estimated_archive_size (size : Z) : Z :=
  to_u64 (tar_block_size + aligned_data_size size + 512 * 2).

Definition tarString (data file_name_in_tar : string) : outcome string :=
  if str_empty data then throw invalid_argument "the specified data for tar is empty"
  else if str_empty file_name_in_tar then throw invalid_argument "the specified filename to add to tar is empty"
  else if tar_block_size / 2 <? len file_name_in_tar then
    throw invalid_argument ("the specified filename length exceeds the maximum allowed: "
                            +:+ to_string (tar_block_size / 2))
  else ustar env data file_name_in_tar (estimated_archive_size (len data)).

Definition load_url : string := "http://localhost/images/load?quiet=1".

Definition loadImage (image_uri : string) (load_manifest : json) : M D unit :=
  let load_manifest_str := jsonToStr env (JArray [load_manifest]) in
  tarred_manifest ← lift (tarString load_manifest_str "manifest.json");
  resp ← post load_url tarred_manifest;
  if negb (isOk resp) then throwM runtime_error ("Failed to load image: " +:+ status_str env resp)
  else
    let json_resp := getJson resp in
    has ← lift (jisMember json_resp "stream");
    if has : bool then _ ← lift (jstring_at json_resp "stream"); mret tt
    else throwM runtime_error ("Failed to load image: " +:+ jsonToStr env json_resp).

(** ** The constructor *)

Definition version_url : string := "http://localhost/version".
Definition getEngineInfo (d : D) : outcome json :=
  let resp := docker_get env d version_url in
  let info := if isOk resp then getJson resp else JNull in
  if jisNull info then
    throw runtime_error ("Request to the dockerd's /version endpoint has failed: " +:+ version_url)
  else mret info.

(** [arch_] *)
Definition docker_arch (d : D) : outcome string :=
  info ← getEngineInfo d;
  has ← jisMember info "Arch";
  if has : bool then jstring_at info "Arch" else mret "".
End client.

(** ** Theorems *)

Lemma land_block_mask x : 0 <= x < 2 ^ 64 -> Z.land x (2 ^ 64 - 512) = 512 * (x / 512).
Proof.
  intros Hx. change (2 ^ 64 - 512) with (Z.shiftl (Z.ones 55) 9).
  replace (512 * (x / 512)) with (Z.shiftl (Z.shiftr x 9) 9)
    by (rewrite Z.shiftl_mul_pow2, Z.shiftr_div_pow2 by lia; change (2 ^ 9) with 512; lia).
  apply Z.bits_inj'. intros n Hn. rewrite Z.land_spec. destruct (Z.ltb_spec n 9).
  - by rewrite !Z.shiftl_spec_low, andb_false_r by lia.
  - rewrite !Z.shiftl_spec, Z.shiftr_spec by lia. replace (n - 9 + 9) with n by lia.
    destruct (Z.ltb_spec n 64).
    + rewrite Z.ones_spec_low by lia. by rewrite andb_true_r.
    + rewrite Z.ones_spec_high by lia. rewrite andb_false_r. symmetry. apply Z.bits_above_log2; [lia|].
      destruct (Z.eq_dec x 0) as [->|]; [cbn; lia|]. apply Z.log2_lt_pow2; [lia|].
      apply Z.lt_le_trans with (2 ^ 64); [lia|]. apply Z.pow_le_mono_r; lia.
Qed.

(** The buffer for the archive of a load manifest has room for it: the header block, the data rounded
    up to the next multiple of a block, and the two blocks of the end marker, computed on 64 bits
    without wrapping around for every size of data that can be in memory. *)
Theorem archive_size_enough (n : Z) :
  0 < n <= 2 ^ 64 - 2048 ->
  exists k, aligned_data_size n = 512 * k /\ n <= 512 * k < n + 512 /\
    estimated_archive_size n = 512 + 512 * k + 1024 /\ estimated_archive_size n < 2 ^ 64.
Proof.
  intros Hn. exists ((n + 511) / 512). unfold estimated_archive_size, aligned_data_size, tar_block_size.
  replace (n + 512 - 1) with (n + 511) by lia.
  rewrite (to_u64_small (n + 511)) by (unfold is_u64, u64_max, u64_modulus; lia).
  change (to_u64 (Z.lnot (512 - 1))) with (2 ^ 64 - 512). rewrite land_block_mask by lia.
  pose proof (Z.div_mod (n + 511) 512 ltac:(lia)). pose proof (Z.mod_pos_bound (n + 511) 512 ltac:(lia)).
  rewrite to_u64_small by (unfold is_u64, u64_max, u64_modulus; lia). lia.
Qed.

Lemma archive_size_enough_witness :
  0 < 700 <= 2 ^ 64 - 2048 /\ exists k, aligned_data_size 700 = 512 * k /\ 700 <= 512 * k < 700 + 512 /\
    estimated_archive_size 700 = 512 + 512 * k + 1024 /\ estimated_archive_size 700 < 2 ^ 64.
Proof. split; [lia|]. apply (archive_size_enough 700). lia. Defined.

(** The test of the docker host accepts every host that starts with one of the characters of [unix://]:
    the path of the socket without a scheme passes, and its first seven characters are cut off. *)
Theorem docker_host_not_checked :
  docker_socket "unix:///var/run/docker.sock" (Some "/var/run/docker.sock") = Ret "n/docker.sock".
Proof. vm_compute. reflexivity. Qed.

Section client_theorems.
Context {D : Type} (env : DockerEnv D).

(** The labels of the container of a service. *)
Definition is_container (app service hash : string) (val : json) : Prop :=
  label val project_label = Ret app /\ label val service_label = Ret service /\ label val hash_label = Ret hash.

(** A container is found only if it has the project, the service and the hash asked for. *)
Lemma container_state_found l app service hash st :
  container_state_loop l app service hash = Ret (true, st) ->
  exists val, val ∈ l /\ is_container app service hash val /\ jstring_at val "State" = Ret st.
Proof.
  induction l as [|val l IH]; cbn [container_state_loop]; [done|].
  destruct (label val project_label) as [p|] eqn:Ep; cbn [mbind outcome_bind]; [|done].
  destruct (String.eqb_spec p app) as [->|]; cbn [negb]; [|intros E; destruct (IH E) as (v & ? & ?); exists v; set_solver].
  destruct (label val service_label) as [s|] eqn:Es; cbn [mbind outcome_bind]; [|done].
  destruct (String.eqb_spec s service) as [->|]; cbn [negb]; [|intros E; destruct (IH E) as (v & ? & ?); exists v; set_solver].
  destruct (label val hash_label) as [h|] eqn:Eh; cbn [mbind outcome_bind]; [|done].
  destruct (String.eqb_spec h hash) as [->|]; cbn [negb]; [|intros E; destruct (IH E) as (v & ? & ?); exists v; set_solver].
  destruct (jstring_at val "State") as [x|] eqn:Ex; [|done]. intros [= <-]. exists val. split; [set_solver|done].
Qed.

(** An image counts as loaded only if the daemon accepted the request and its answer says that it
    loaded the image. *)
Lemma loadImage_loaded uri lm (d d' : D) :
  loadImage env uri lm d = (Ret tt, d') ->
  exists tarred resp, tarString env (jsonToStr env (JArray [lm])) "manifest.json" = Ret tarred /\
    docker_post env load_url tarred d = (resp, d') /\ isOk resp = true /\
    jisMember (getJson env resp) "stream" = Ret true.
Proof.
  unfold loadImage. intros E. apply M_bind_Ret in E as (tarred & d1 & Et & E). injection Et as Et <-.
  apply M_bind_Ret in E as (resp & d2 & Ep & E). unfold post in Ep.
  destruct (docker_post env load_url tarred d) as [r d3] eqn:Er. injection Ep as -> ->.
  destruct (isOk resp) eqn:Hok; cbn [negb] in E; [|done]. apply M_bind_Ret in E as (has & d3 & Eh & E).
  injection Eh as Eh <-. destruct has; [|done]. apply M_bind_Ret in E as (x & d3 & Ex & E).
  injection Ex as _ <-. injection E as <-. by exists tarred, resp.
Qed.
End client_theorems.
