(* ===== verification/Platform.v ===== *)
(** * The platform under the client

    The interfaces the client is written against: the app engine
    ([src/src/appengine.h]), the installed-versions storage, libaktualizr's
    [OstreeManager] and the ostree sysroot, and the process-wide state on which
    the member functions of the package managers and of the client run. Every
    call that changes something outside the process is also recorded in a trace,
    so that the theorems can speak about the order of the effects. *)

From S2P Require Import Prelude Json Targets Volume.

(** ** Installation results of libaktualizr *)

Inductive ResultCode :=
  | kOk | kNeedCompletion | kInstallFailed | kDownloadFailed | kCustomError | kVerificationFailed
  | kUnknown | kOther (code : Z).

#[export] Instance ResultCode_eq_dec : EqDecision ResultCode.
Proof. solve_decision. Defined.

Record InstallationResult := { result_code : ResultCode; description : string }.

Definition IR (c : ResultCode) (d : string) : InstallationResult :=
  {| result_code := c; description := d |}.
(** [res.description += d] *)
Definition add_description (r : InstallationResult) (d : string) : InstallationResult :=
  IR (result_code r) (description r +:+ d).
Definition is_code (r : InstallationResult) (c : ResultCode) : bool := bool_decide (result_code r = c).

(** [InstallationResult::isSuccess()] and [needCompletion()] *)
Class InstallationResults := {
  isSuccess : InstallationResult -> bool;
  needCompletion : InstallationResult -> bool;
}.
Class InstallationResultsSpec `{InstallationResults} : Prop := {
  isSuccess_kOk r : result_code r = kOk -> isSuccess r = true;
  isSuccess_failure r :
    result_code r ∈ [kNeedCompletion; kInstallFailed; kDownloadFailed; kCustomError; kVerificationFailed;
                     kUnknown] -> isSuccess r = false;
  isSuccess_code r r' : result_code r = result_code r' -> isSuccess r = isSuccess r';
  needCompletion_iff r : needCompletion r = true <-> result_code r = kNeedCompletion;
}.

Inductive TargetStatus := kGood | kNotFound | kInvalid | kOtherStatus (code : Z).
#[export] Instance TargetStatus_eq_dec : EqDecision TargetStatus.
Proof. solve_decision. Defined.

Inductive InstalledVersionUpdateMode := kNone | kCurrent | kPending | kBadTarget.
#[export] Instance UpdateMode_eq_dec : EqDecision InstalledVersionUpdateMode.
Proof. solve_decision. Defined.

(** ** [AppEngine] *)

Record App := { app_name : string; app_uri : string }.
#[export] Instance App_eq_dec : EqDecision App.
Proof. solve_decision. Defined.

Inductive ResultID := OK | Failed | InsufficientSpace | ImagePullFailure.
#[export] Instance ResultID_eq_dec : EqDecision ResultID.
Proof. solve_decision. Defined.

Record Result := { status : ResultID; res_err : string; stat : UsageInfo }.
Definition Result_bool (r : Result) : bool := bool_decide (status r = OK).
Definition noSpace (r : Result) : bool := bool_decide (status r = InsufficientSpace).
Definition imagePullFailure (r : Result) : bool := bool_decide (status r = ImagePullFailure).

(** [operator&(apps, app)] *)
Definition apps_contain (apps : list App) (app : App) : bool := bool_decide (app ∈ apps).

(** The engine on its state [EN]; the [const] queries read it. [app_dirs] is the
    content of the directory of installed apps, [None] if it is not a
    directory. *)
Class AppEngine (EN : Type) := {
  fetch : App -> M EN Result;
  verify : App -> M EN Result;
  install : App -> M EN Result;
  run_app : App -> M EN Result;
  stop : App -> M EN unit;
  remove : App -> M EN unit;
  prune : list App -> M EN unit;
  isFetched : EN -> App -> bool;
  isRunning : EN -> App -> bool;
  getInstalledApps : EN -> outcome (list App);
  getRunningAppsInfo : EN -> outcome json;
  app_dirs : EN -> option (list string);
}.

(** What the package manager relies on: an app that was fetched is fetched, and
    fetching an app of another name does not undo it. A fetch that fails may
    remove what there was of the app, and an engine may keep one version of an
    app only. The engine promises this for the apps that are [ok], and of the
    states that satisfy [inv], which fetching maintains. *)
Class AppEngineSpec {EN : Type} `{AppEngine EN} (ok : App -> Prop) (inv : EN -> Prop) : Prop := {
  fetch_inv a e : ok a -> inv e -> inv (exec (fetch a) e);
  fetch_fetched a e r e' :
    ok a -> inv e -> fetch a e = (Ret r, e') -> Result_bool r = true -> isFetched e' a = true;
  fetch_keeps a b e r e' :
    ok a -> inv e -> fetch a e = (Ret r, e') -> Result_bool r = true -> app_name a <> app_name b ->
    isFetched e b = true -> isFetched e' b = true;
}.

(** ** Storage of installed versions ([INvStorage]) *)
Class INvStorage (DB : Type) := {
  saveInstalledVersion : UTarget -> InstalledVersionUpdateMode -> DB -> DB;
  (** current and pending *)
  loadInstalledVersions : DB -> option UTarget * option UTarget;
  (** [loadPrimaryInstallationLog(only_installed, allow_current)], oldest first *)
  loadInstallationLog : bool -> bool -> DB -> list UTarget;
  (** [loadInstallationLog(ecu_serial, only_installed)] *)
  loadEcuInstallationLog : bool -> DB -> list UTarget;
}.

(** ** The TUF repository of the device ([Uptane::ImageRepository] and its storage) *)
Class TufRepo (DB : Type) := {
  (** [image_repo_.updateMeta(storage, fetcher)] *)
  repo_updateMeta : M DB unit;
  repo_checkMetaOffline : M DB unit;
  (** [image_repo_.updateRoot(storage, fetcher)], with the fetcher's [fetchRole] for a role and a version *)
  repo_updateRoot : (string -> Z -> outcome string) -> M DB unit;
  clearMetadata : DB -> DB;
  (** [loadRoot(..., Version(2))] succeeds *)
  has_root_v2 : DB -> bool;
  (** [Uptane::Role::Roles()], by their names, and two of them *)
  roles : list string;
  role_Root : string;
  role_Targets : string;
  (** [loadRoot(&meta, Image(), Version())] and [loadNonRoot(&meta, Image(), role)] *)
  load_latest_root : DB -> option string;
  load_non_root : DB -> string -> option string;
  extractVersionUntrusted : string -> Z;
  parse_meta : string -> json;
  (** the constructor of [Uptane::Targets] *)
  make_Targets : json -> outcome (list UTarget);
  (** [image_repo_.getTargets()->targets], empty if there is none *)
  image_targets : DB -> list UTarget;
}.

(** [LiteClient::forEachRoleVersion]: the stored version of a role, -1 if there is none *)
Definition role_version {DB} `{TufRepo DB} (d : DB) (role : string) : Z :=
  let meta := if String.eqb role role_Root then load_latest_root d else load_non_root d role in
  match meta with Some m => extractVersionUntrusted m | None => -1 end.

(** [LiteClient::getTargetList]: the targets of the stored metadata, if they can be read *)
Definition stored_targets {DB} `{TufRepo DB} (d : DB) : option (list UTarget) :=
  match load_non_root d role_Targets with
  | None => None
  | Some meta =>
      let meta_json := parse_meta meta in
      if jempty meta_json || negb (jisObject meta_json) then None
      else match make_Targets meta_json with Ret targets => Some targets | Throw _ => None end
  end.

(** What the client relies on: saving a version as pending, as current or as
    failing decides what is pending afterwards. *)
Class INvStorageSpec (DB : Type) `{INvStorage DB} : Prop := {
  save_pending t db : (loadInstalledVersions (saveInstalledVersion t kPending db)).2 = Some t;
  save_current_pending t db : (loadInstalledVersions (saveInstalledVersion t kCurrent db)).2 = None;
  save_none_pending t db p :
    (loadInstalledVersions db).2 = Some p -> sha256Hash p = sha256Hash t -> filename p = filename t ->
    (loadInstalledVersions (saveInstalledVersion t kNone db)).2 = None;
  save_none_idle t db :
    (loadInstalledVersions db).2 = None -> (loadInstalledVersions (saveInstalledVersion t kNone db)).2 = None;
  save_bad_pending t db :
    (loadInstalledVersions (saveInstalledVersion t kBadTarget db)).2 ∈ [None; (loadInstalledVersions db).2];
}.

(** ** [OstreeManager] and the sysroot *)
Inductive Deployment := DCurrent | DPending | DRollback.

Class Ostree (DB SR : Type) := {
  (** [OstreeManager::getCurrent] *)
  getCurrent : DB -> SR -> UTarget;
  ostree_install : UTarget -> M SR InstallationResult;
  ostree_finalizeInstall : UTarget -> M SR InstallationResult;
  ostree_verifyTarget : UTarget -> SR -> TargetStatus;
  (** [OstreeManager::pull(sysroot, url, keys, target, ..., remote, headers)] *)
  pull : string -> UTarget -> option string -> gmap string string -> M SR InstallationResult;
  (** [OSTree::Repo::addRemote(name, url, ...)], with or without the credentials *)
  addRemote : string -> string -> bool -> M SR unit;
  updateNotify : SR -> SR;
  (** [OstreeManager::installNotify], which notifies the bootloader *)
  ostree_installNotify : UTarget -> SR -> SR;
  (** [Sysroot::reload] *)
  reload : SR -> SR;
  getDeploymentHash : SR -> Deployment -> string;
}.

(** ** Effects *)

(** The report events of libaktualizr the client enqueues *)
Inductive ReportType :=
  | MetadataUpdateCompleted | EcuDownloadStarted | EcuDownloadCompleted | EcuInstallationStarted
  | EcuInstallationApplied | EcuInstallationCompleted.

Inductive Event :=
  | EvStop (a : App)
  | EvRemove (a : App)
  | EvFetch (a : App) (ok : bool)
  | EvInstall (a : App) (ok : bool)
  | EvRun (a : App) (ok : bool)
  | EvPrune (apps : list App)
  | EvPull (url commit : string) (ok : bool)
  | EvOstreeInstall (commit : string)
  | EvOstreeFinalize (commit : string)
  | EvUpdateNotify
  | EvInstallNotify (commit : string)
  | EvSave (t : UTarget) (mode : InstalledVersionUpdateMode)
  | EvCallback (msg env_variables : string)
  | EvReport (event : ReportType) (correlation target version : string) (success : option bool)
      (details : option string)
  | EvSecondaryReport (event : ReportType) (serial correlation target version : string) (success : option bool)
      (details : option string)
  | EvSend (url : string) (ok : bool)
  | EvWriteCurrentTarget (target : string)
  | EvReboot (command : string).

(** ** The state

    What lies outside the process ([db], [sr], [en]), the trace, and the mutable
    members of the package manager and of the client. *)
Abbreviation AppsContainer := (gmap string string).

(** The members of [LiteClient] that only its reports use. *)
Record ClientMembers := {
  last_network_info_reported : json;
  hwinfo_reported : bool;
  apps_state_ : json;
  tuf_update_details : gmap string (Z * Z);
  targets_ : option (list UTarget);
}.

Record St (DB SR EN : Type) := mkSt {
  db : DB;
  sr : SR;
  en : EN;
  trace : list Event;
  cur_apps_to_fetch_and_update : AppsContainer;
  cur_apps_to_fetch : AppsContainer;
  are_apps_checked : bool;
  is_reboot_required : bool;
  request_headers : gmap string string;
  cl : ClientMembers;
}.
Arguments mkSt {DB SR EN}.
Arguments db {DB SR EN}.
Arguments sr {DB SR EN}.
Arguments en {DB SR EN}.
Arguments trace {DB SR EN}.
Arguments cur_apps_to_fetch_and_update {DB SR EN}.
Arguments cur_apps_to_fetch {DB SR EN}.
Arguments are_apps_checked {DB SR EN}.
Arguments is_reboot_required {DB SR EN}.
Arguments request_headers {DB SR EN}.
Arguments cl {DB SR EN}.

Section state.
Context {DB SR EN : Type}.
Abbreviation S := (St DB SR EN).

Definition set_db (x : DB) (s : S) : S :=
  mkSt x (sr s) (en s) (trace s) (cur_apps_to_fetch_and_update s) (cur_apps_to_fetch s)
    (are_apps_checked s) (is_reboot_required s) (request_headers s) (cl s).
Definition set_sr (x : SR) (s : S) : S :=
  mkSt (db s) x (en s) (trace s) (cur_apps_to_fetch_and_update s) (cur_apps_to_fetch s)
    (are_apps_checked s) (is_reboot_required s) (request_headers s) (cl s).
Definition set_en (x : EN) (s : S) : S :=
  mkSt (db s) (sr s) x (trace s) (cur_apps_to_fetch_and_update s) (cur_apps_to_fetch s)
    (are_apps_checked s) (is_reboot_required s) (request_headers s) (cl s).
Definition set_trace (x : list Event) (s : S) : S :=
  mkSt (db s) (sr s) (en s) x (cur_apps_to_fetch_and_update s) (cur_apps_to_fetch s)
    (are_apps_checked s) (is_reboot_required s) (request_headers s) (cl s).
Definition set_cur_update (x : AppsContainer) (s : S) : S :=
  mkSt (db s) (sr s) (en s) (trace s) x (cur_apps_to_fetch s)
    (are_apps_checked s) (is_reboot_required s) (request_headers s) (cl s).
Definition set_cur_fetch (x : AppsContainer) (s : S) : S :=
  mkSt (db s) (sr s) (en s) (trace s) (cur_apps_to_fetch_and_update s) x
    (are_apps_checked s) (is_reboot_required s) (request_headers s) (cl s).
Definition set_checked (x : bool) (s : S) : S :=
  mkSt (db s) (sr s) (en s) (trace s) (cur_apps_to_fetch_and_update s) (cur_apps_to_fetch s)
    x (is_reboot_required s) (request_headers s) (cl s).
Definition set_reboot (x : bool) (s : S) : S :=
  mkSt (db s) (sr s) (en s) (trace s) (cur_apps_to_fetch_and_update s) (cur_apps_to_fetch s)
    (are_apps_checked s) x (request_headers s) (cl s).
Definition set_headers (x : gmap string string) (s : S) : S :=
  mkSt (db s) (sr s) (en s) (trace s) (cur_apps_to_fetch_and_update s) (cur_apps_to_fetch s)
    (are_apps_checked s) (is_reboot_required s) x (cl s).
Definition set_cl (x : ClientMembers) (s : S) : S :=
  mkSt (db s) (sr s) (en s) (trace s) (cur_apps_to_fetch_and_update s) (cur_apps_to_fetch s)
    (are_apps_checked s) (is_reboot_required s) (request_headers s) x.

Definition emit (e : Event) : M S unit := modify (fun s => set_trace (trace s ++ [e]) s).

(** Run a call of the engine, of the storage, of the sysroot. *)
Definition on_en {A} (m : M EN A) : M S A := fun s =>
  let '(o, e) := m (en s) in (o, set_en e s).
Definition on_db {A} (m : M DB A) : M S A := fun s =>
  let '(o, x) := m (db s) in (o, set_db x s).
Definition on_sr {A} (m : M SR A) : M S A := fun s =>
  let '(o, x) := m (sr s) in (o, set_sr x s).

(** The calls, each with its event. *)
Context `{AppEngine EN, INvStorage DB, Ostree DB SR, InstallationResults}.

Definition do_stop (a : App) : M S unit := emit (EvStop a);; on_en (stop a).
Definition do_remove (a : App) : M S unit := emit (EvRemove a);; on_en (remove a).
Definition do_prune (l : list App) : M S unit := emit (EvPrune l);; on_en (prune l).
Definition do_fetch (a : App) : M S Result :=
  r ← on_en (fetch a); emit (EvFetch a (Result_bool r));; mret r.
Definition do_install (a : App) : M S Result :=
  r ← on_en (install a); emit (EvInstall a (Result_bool r));; mret r.
Definition do_run (a : App) : M S Result :=
  r ← on_en (run_app a); emit (EvRun a (Result_bool r));; mret r.
Definition do_save (t : UTarget) (mode : InstalledVersionUpdateMode) : M S unit :=
  modify (fun s => set_db (saveInstalledVersion t mode (db s)) s);; emit (EvSave t mode).
Definition do_pull (url : string) (t : UTarget) (remote : option string) (headers : gmap string string)
    : M S InstallationResult :=
  r ← on_sr (pull url t remote headers);
  emit (EvPull url (sha256Hash t) (isSuccess r));; mret r.
Definition do_ostree_install (t : UTarget) : M S InstallationResult :=
  emit (EvOstreeInstall (sha256Hash t));; on_sr (ostree_install t).
Definition do_ostree_finalize (t : UTarget) : M S InstallationResult :=
  emit (EvOstreeFinalize (sha256Hash t));; on_sr (ostree_finalizeInstall t).
Definition do_updateNotify : M S unit :=
  emit EvUpdateNotify;; modify (fun s => set_sr (updateNotify (sr s)) s).
Definition do_installNotify (t : UTarget) : M S unit :=
  emit (EvInstallNotify (sha256Hash t));; modify (fun s => set_sr (ostree_installNotify t (sr s)) s).
Definition current : M S UTarget := gets (fun s => getCurrent (db s) (sr s)).
Definition pending_of (d : DB) : option UTarget := (loadInstalledVersions d).2.
End state.

(** ** What a run emits

    [emits P]: the trace only grows, by events that satisfy [P]. *)
Section emits.
Context {DB SR EN : Type}.
Abbreviation S := (St DB SR EN).

Definition emits (P : Event -> Prop) (s s' : S) : Prop :=
  exists evs, trace s' = trace s ++ evs /\ Forall P evs.

#[export] Instance emits_preorder P : PreOrder (emits P).
Proof.
  split.
  - intros s. exists []. by rewrite List.app_nil_r.
  - intros s1 s2 s3 (e1 & E1 & F1) (e2 & E2 & F2). exists (e1 ++ e2).
    rewrite E2, E1, app_assoc. by split; [|apply Forall_app].
Qed.

Lemma emits_impl (P Q : Event -> Prop) (s s' : S) : (forall e, P e -> Q e) -> emits P s s' -> emits Q s s'.
Proof. intros H (evs & E & F). exists evs. split; [done|]. by eapply Forall_impl. Qed.
Lemma emits_weaken (P Q : Event -> Prop) {A} (m : M S A) :
  (forall e, P e -> Q e) -> preserves (emits P) m -> preserves (emits Q) m.
Proof. intros HPQ Hm s. by eapply emits_impl, Hm. Qed.

Lemma emits_same P (s s' : S) : trace s' = trace s -> emits P s s'.
Proof. intros E. exists []. by rewrite List.app_nil_r. Qed.

Lemma emits_modify P (f : S -> S) : (forall s, trace (f s) = trace s) -> preserves (emits P) (modify f).
Proof. intros Hf s. by apply emits_same. Qed.
Lemma emits_on_en P {A} (m : M EN A) : preserves (emits P) (on_en m).
Proof. intros s. unfold exec, on_en. destruct (m (en s)). by apply emits_same. Qed.
Lemma emits_on_db P {A} (m : M DB A) : preserves (emits P) (on_db m).
Proof. intros s. unfold exec, on_db. destruct (m (db s)). by apply emits_same. Qed.
Lemma emits_on_sr P {A} (m : M SR A) : preserves (emits P) (on_sr m).
Proof. intros s. unfold exec, on_sr. destruct (m (sr s)). by apply emits_same. Qed.
Lemma emits_emit (P : Event -> Prop) e : P e -> preserves (emits P) (emit e : M S unit).
Proof. intros He s. exists [e]. split; [done|]. by constructor. Qed.

Context `{AppEngine EN, INvStorage DB, Ostree DB SR, InstallationResults}.
Variable P : Event -> Prop.

#[local] Hint Resolve emits_on_en emits_on_sr emits_emit : aklite.

Lemma emits_stop a : P (EvStop a) -> preserves (emits P) (do_stop a : M S _).
Proof. intros. unfold do_stop. pstep. Qed.
Lemma emits_remove a : P (EvRemove a) -> preserves (emits P) (do_remove a : M S _).
Proof. intros. unfold do_remove. pstep. Qed.
Lemma emits_prune l : P (EvPrune l) -> preserves (emits P) (do_prune l : M S _).
Proof. intros. unfold do_prune. pstep. Qed.
Lemma emits_fetch a : (forall b, P (EvFetch a b)) -> preserves (emits P) (do_fetch a : M S _).
Proof. intros. unfold do_fetch. pstep. Qed.
Lemma emits_install a : (forall b, P (EvInstall a b)) -> preserves (emits P) (do_install a : M S _).
Proof. intros. unfold do_install. pstep. Qed.
Lemma emits_run a : (forall b, P (EvRun a b)) -> preserves (emits P) (do_run a : M S _).
Proof. intros. unfold do_run. pstep. Qed.
Lemma emits_save t m : P (EvSave t m) -> preserves (emits P) (do_save t m : M S _).
Proof. intros. unfold do_save. pstep. by apply emits_modify. Qed.
Lemma emits_pull u t r h :
  (forall b, P (EvPull u (sha256Hash t) b)) -> preserves (emits P) (do_pull u t r h : M S _).
Proof. intros. unfold do_pull. pstep. Qed.
Lemma emits_ostree_install t :
  P (EvOstreeInstall (sha256Hash t)) -> preserves (emits P) (do_ostree_install t : M S _).
Proof. intros. unfold do_ostree_install. pstep. Qed.
Lemma emits_ostree_finalize t :
  P (EvOstreeFinalize (sha256Hash t)) -> preserves (emits P) (do_ostree_finalize t : M S _).
Proof. intros. unfold do_ostree_finalize. pstep. Qed.
Lemma emits_updateNotify : P EvUpdateNotify -> preserves (emits P) (do_updateNotify : M S _).
Proof. intros. unfold do_updateNotify. pstep. by apply emits_modify. Qed.
Lemma emits_installNotify t :
  P (EvInstallNotify (sha256Hash t)) -> preserves (emits P) (do_installNotify t : M S _).
Proof. intros. unfold do_installNotify. pstep. by apply emits_modify. Qed.
End emits.

#[export] Hint Resolve emits_on_en emits_on_db emits_on_sr emits_emit emits_stop emits_remove emits_prune emits_fetch
  emits_install emits_run emits_save emits_pull emits_ostree_install emits_ostree_finalize
  emits_updateNotify emits_installNotify : aklite.
#[export] Hint Extern 5 (preserves _ current) => apply (preserves_gets _) : aklite.

(** ** What a run leaves alone

    [same_members]: the members of the package manager and of the client keep
    their values; [same_db]: the storage of versions does. *)
Section members.
Context {DB SR EN : Type}.
Abbreviation S := (St DB SR EN).

Definition same_members (s s' : S) : Prop :=
  cur_apps_to_fetch_and_update s' = cur_apps_to_fetch_and_update s /\
  cur_apps_to_fetch s' = cur_apps_to_fetch s /\ are_apps_checked s' = are_apps_checked s /\
  is_reboot_required s' = is_reboot_required s /\ request_headers s' = request_headers s.
#[export] Instance same_members_preorder : PreOrder same_members.
Proof. split; [done|]. unfold same_members. intros x y z. naive_solver congruence. Qed.

Definition same_db (s s' : S) : Prop := db s' = db s.
#[export] Instance same_db_preorder : PreOrder same_db.
Proof. split; [done|]. unfold same_db. intros x y z. congruence. Qed.

Definition same_en (s s' : S) : Prop := en s' = en s.
#[export] Instance same_en_preorder : PreOrder same_en.
Proof. split; [done|]. unfold same_en. intros x y z. congruence. Qed.

Lemma en_on_sr {A} (m : M SR A) : preserves same_en (on_sr m).
Proof. intros s. unfold exec, on_sr. by destruct (m (sr s)). Qed.
Lemma en_emit e : preserves same_en (emit e : M S unit).
Proof. by intros s. Qed.
Lemma members_on_en {A} (m : M EN A) : preserves same_members (on_en m).
Proof. intros s. unfold exec, on_en. by destruct (m (en s)). Qed.
Lemma members_on_db {A} (m : M DB A) : preserves same_members (on_db m).
Proof. intros s. unfold exec, on_db. by destruct (m (db s)). Qed.
Lemma en_on_db {A} (m : M DB A) : preserves same_en (on_db m).
Proof. intros s. unfold exec, on_db. by destruct (m (db s)). Qed.
Lemma members_on_sr {A} (m : M SR A) : preserves same_members (on_sr m).
Proof. intros s. unfold exec, on_sr. by destruct (m (sr s)). Qed.
Lemma members_emit e : preserves same_members (emit e : M S unit).
Proof. by intros s. Qed.
Lemma db_on_en {A} (m : M EN A) : preserves same_db (on_en m).
Proof. intros s. unfold exec, on_en. by destruct (m (en s)). Qed.
Lemma db_on_sr {A} (m : M SR A) : preserves same_db (on_sr m).
Proof. intros s. unfold exec, on_sr. by destruct (m (sr s)). Qed.
Lemma db_emit e : preserves same_db (emit e : M S unit).
Proof. by intros s. Qed.
End members.
#[export] Hint Resolve members_on_en members_on_db en_on_db members_on_sr members_emit db_on_en db_on_sr db_emit
  en_on_sr en_emit : aklite.

(** The calls are built from these. *)
Ltac psolve :=
  unfold do_stop, do_remove, do_prune, do_fetch, do_install, do_run, do_save, do_pull, do_ostree_install,
    do_ostree_finalize, do_updateNotify, do_installNotify, current;
  pstep; try solve [apply (preserves_modify _); by intros ?].

Section members_calls.
Context {DB SR EN : Type} `{AppEngine EN, INvStorage DB, Ostree DB SR, InstallationResults}.
Abbreviation S := (St DB SR EN).
Lemma members_stop a : preserves same_members (do_stop a : M S _). Proof. psolve. Qed.
Lemma members_remove a : preserves same_members (do_remove a : M S _). Proof. psolve. Qed.
Lemma members_prune a : preserves same_members (do_prune a : M S _). Proof. psolve. Qed.
Lemma members_fetch a : preserves same_members (do_fetch a : M S _). Proof. psolve. Qed.
Lemma members_install a : preserves same_members (do_install a : M S _). Proof. psolve. Qed.
Lemma members_run a : preserves same_members (do_run a : M S _). Proof. psolve. Qed.
Lemma members_save t m : preserves same_members (do_save t m : M S _). Proof. psolve. Qed.
Lemma members_pull u t n h : preserves same_members (do_pull u t n h : M S _). Proof. psolve. Qed.
Lemma db_stop a : preserves same_db (do_stop a : M S _). Proof. psolve. Qed.
Lemma db_remove a : preserves same_db (do_remove a : M S _). Proof. psolve. Qed.
Lemma db_prune a : preserves same_db (do_prune a : M S _). Proof. psolve. Qed.
Lemma db_fetch a : preserves same_db (do_fetch a : M S _). Proof. psolve. Qed.
Lemma db_install a : preserves same_db (do_install a : M S _). Proof. psolve. Qed.
Lemma db_run a : preserves same_db (do_run a : M S _). Proof. psolve. Qed.
Lemma db_pull u t n h : preserves same_db (do_pull u t n h : M S _). Proof. psolve. Qed.
End members_calls.
#[export] Hint Resolve members_stop members_remove members_prune members_fetch members_install members_run
  members_save members_pull db_stop db_remove db_prune db_fetch db_install db_run db_pull : aklite.
