(* ===== verification/Sysroot.v ===== *)
(** * The ostree repository and the sysroot

    [src/src/ostree/repo.cc] and [src/src/ostree/sysroot.cc] with their headers: the
    wrappers of libostree the package manager, the bootloader and the bundles are
    written against. libostree and GLib are not in the sources; they are the
    classes [KeyFile], [LibOstree], [InputStream] and [OstreeSysroot], whose laws
    state what their documentation promises. *)

From S2P Require Import Prelude Json Targets Volume Platform.

(** ** GLib and libostree *)

(** A call that returns a value or sets a [GError], whose message is kept. *)
Definition gresult (A : Type) : Type := string + A.

(** [GKeyFile], the configuration of a repository: group, key, value. *)
Class KeyFile (K : Type) := {
  g_key_file_has_key : K -> string -> string -> bool;
  (** a null pointer if the key is not there or the value cannot be interpreted *)
  g_key_file_get_string : K -> string -> string -> option string;
  g_key_file_set_string : K -> string -> string -> string -> K;
}.
Class KeyFileSpec (K : Type) `{KeyFile K} : Prop := {
  has_key_set k g n v : g_key_file_has_key (g_key_file_set_string k g n v) g n = true;
  get_string_set k g n v : g_key_file_get_string (g_key_file_set_string k g n v) g n = Some v;
}.

(** The options of a remote and of a pull, [a{sv}]. *)
Inductive gvariant := GBool (b : bool) | GString (s : string) | GStrv (l : list string).
Definition goptions : Type := list (string * gvariant).
Inductive RemoteChange := DELETE_IF_EXISTS | ADD_IF_NOT_EXISTS.

(** The functions of libostree on repositories. [OS] is the state of the storage and
    of the objects of libostree, [P] the type [OstreeRepo*], [F] a [GFile] in a
    commit, [ST] an open file. *)
Class LibOstree (OS K P F ST : Type) := {
  ostree_repo_create : string -> OS -> gresult P * OS;
  ostree_repo_open : string -> OS -> gresult P * OS;
  ostree_repo_remote_change : P -> RemoteChange -> string -> string -> goptions -> OS -> gresult unit * OS;
  ostree_repo_pull_with_options : P -> string -> goptions -> OS -> gresult unit * OS;
  ostree_repo_read_commit : P -> string -> OS -> gresult F;
  g_file_resolve_relative_path : F -> string -> F;
  g_file_query_info : F -> OS -> gresult unit;
  ostree_repo_checkout_tree : P -> F -> string -> OS -> gresult unit * OS;
  ostree_repo_list_refs : P -> OS -> gresult (list (string * string));
  g_file_read : F -> OS -> gresult ST;
  ostree_repo_get_config : P -> OS -> K;
  ostree_repo_write_config : P -> K -> OS -> gresult unit * OS;
  ostree_repo_reload_config : P -> OS -> gresult unit * OS;
  ostree_repo_has_object : P -> string -> OS -> gresult bool;
}.

(** One [read] of an open file into a buffer: the number of bytes, -1 for an error,
    and the bytes. *)
Class InputStream (ST : Type) := {
  g_input_stream_read : ST -> Z -> (Z * string) * ST;
}.
(** [left]: what was not read yet. A read that does not fail gives the next bytes, at
    least one unless the file is at its end. *)
Class InputStreamSpec (ST : Type) `{InputStream ST} (left : ST -> string) : Prop := {
  read_spec st n r chunk st' :
    0 < n -> g_input_stream_read st n = ((r, chunk), st') ->
    r = -1 \/ (r = Z.of_nat (String.length chunk) /\ r <= n /\ left st = chunk +:+ left st' /\
               (r = 0 -> left st = ""));
}.

(** What [addRemote] and the reserved percentage rely on. [remotes] are the remotes
    of a repository. *)
Class LibOstreeSpec (OS K P F ST : Type) `{LibOstree OS K P F ST}
    (remotes : OS -> P -> string -> option (string * goptions)) : Prop := {
  remote_delete p name url opts s s' :
    ostree_repo_remote_change p DELETE_IF_EXISTS name url opts s = (inr tt, s') ->
    forall n, remotes s' p n = if decide (n = name) then None else remotes s p n;
  remote_add p name url opts s s' :
    ostree_repo_remote_change p ADD_IF_NOT_EXISTS name url opts s = (inr tt, s') ->
    forall n, remotes s' p n =
      if decide (n = name) then (match remotes s p n with Some r => Some r | None => Some (url, opts) end)
      else remotes s p n;
  (** the new configuration is in the object and in the file *)
  write_config_object p k s s' :
    ostree_repo_write_config p k s = (inr tt, s') -> ostree_repo_get_config p s' = k;
  write_config_file path p k s0 s1 s2 p' s3 :
    ostree_repo_open path s0 = (inr p, s1) -> ostree_repo_write_config p k s1 = (inr tt, s2) ->
    ostree_repo_open path s2 = (inr p', s3) -> ostree_repo_get_config p' s3 = k;
}.

(** ** [OSTree::Repo] *)

Definition MinFreeSpacePercentDefaultValue : Z := 3.

Section repo.
Context {OS K P F ST : Type} `{KeyFile K, LibOstree OS K P F ST, InputStream ST}.

(** A call that fails becomes a [std::runtime_error]. *)
Definition gcall {A} (m : OS -> gresult A * OS) (msg : string -> string) : M OS A :=
  r ← (fun s => let '(r, s') := m s in (Ret r, s')) : M OS (gresult A);
  match r with
  | inl e => throwM runtime_error (msg e)
  | inr a => mret a
  end.
Definition gquery {A} (q : OS -> gresult A) (msg : string -> string) : M OS A :=
  gcall (fun s => (q s, s)) msg.

Record Repo := { repo_path : string; repo_ : P }.

(** The constructor, which calls [init] *)
Definition Repo_init (path : string) (create : bool) : M OS Repo :=
  p ← (if create
       then gcall (ostree_repo_create path)
              (fun e => "Failed to create or init an ostree repo at `" +:+ path +:+ "`: " +:+ e)
       else gcall (ostree_repo_open path)
              (fun e => "Failed to init an ostree repo at `" +:+ path +:+ "`: " +:+ e));
  mret {| repo_path := path; repo_ := p |}.

Definition remote_options (ca cert key : string) : goptions :=
  [("gpg-verify", GBool false)]
  ++ (if str_empty ca then []
      else [("tls-ca-path", GString ca); ("tls-client-cert-path", GString cert);
            ("tls-client-key-path", GString key)]).

Definition repo_addRemote (r : Repo) (name url ca cert key : string) : M OS unit :=
  let opts := remote_options ca cert key in
  gcall (ostree_repo_remote_change (repo_ r) DELETE_IF_EXISTS name url opts)
    (fun e => "Failed to delete a current remote from " +:+ repo_path r +:+ ": " +:+ e);;
  gcall (ostree_repo_remote_change (repo_ r) ADD_IF_NOT_EXISTS name url opts)
    (fun e => "Failed to add a remote to " +:+ repo_path r +:+ ": " +:+ e).

Definition pull_options (branch commit_hash : string) : goptions :=
  [("refs", GStrv [branch]); ("override-commit-ids", GStrv [commit_hash])].
Definition repo_pull (r : Repo) (remote_name branch commit_hash : string) : M OS unit :=
  gcall (ostree_repo_pull_with_options (repo_ r) remote_name (pull_options branch commit_hash))
    (fun e => "Failed to pull " +:+ branch +:+ "@" +:+ commit_hash +:+ ": " +:+ e).

Definition repo_checkout (r : Repo) (commit_hash src_dir dst_dir : string) : M OS unit :=
  root ← gquery (ostree_repo_read_commit (repo_ r) commit_hash)
    (fun e => "Failed to read commit " +:+ commit_hash +:+ ": " +:+ e);
  let src := g_file_resolve_relative_path root src_dir in
  gquery (g_file_query_info src) (fun e => "Failed to query file info " +:+ src_dir +:+ ": " +:+ e);;
  gcall (ostree_repo_checkout_tree (repo_ r) src dst_dir)
    (fun e => "Failed to checkout tree form repo " +:+ commit_hash +:+ ": " +:+ e).

(** [emplace] keeps the first value of a key. *)
Definition addRefInfo (refs : gmap string string) (kv : string * string) : gmap string string :=
  match refs !! kv.1 with Some _ => refs | None => <[kv.1 := kv.2]> refs end.
Definition getRefs (r : Repo) : M OS (gmap string string) :=
  refs ← gquery (ostree_repo_list_refs (repo_ r)) (fun e => "Failed to list repo refs: " +:+ e);
  mret (fold_left addRefInfo refs ∅).

(** The loop of [readFile]. The result of the read is kept in a [size_t], so an
    error, -1, is a positive number, and a string of that length cannot be made. The
    test for -1 after the loop is never true. [fuel] bounds the turns; [None] if it
    is used up. *)
Fixpoint read_loop (fuel : nat) (st : ST) (file_content : string) : option (outcome string) :=
  match fuel with
  | O => None
  | S fuel' =>
      let '((r, chunk), st') := g_input_stream_read st 1024 in
      let read_res := to_u64 r in
      if 0 <? read_res then
        if read_res =? u64_max then Some (throw length_error "basic_string::_M_create")
        else read_loop fuel' st' (file_content +:+ chunk)
      else Some (Ret file_content)
  end.

Definition readFile (fuel : nat) (r : Repo) (commit_hash file : string) : M OS (option string) :=
  root ← gquery (ostree_repo_read_commit (repo_ r) commit_hash)
    (fun e => "Failed to read commit; commit: " +:+ commit_hash +:+ ", err: " +:+ e);
  let f := g_file_resolve_relative_path root file in
  st ← gquery (g_file_read f)
    (fun e => "Failed to open file; commit: " +:+ commit_hash +:+ ", file: " +:+ file +:+ ", err: " +:+ e);
  match read_loop fuel st "" with
  | None => mret None
  | Some o => c ← lift o; mret (Some c)
  end.

Definition setFreeSpacePercent (r : Repo) (min_free_space : Z) (hot_reload : bool) : M OS unit :=
  config ← gets (ostree_repo_get_config (repo_ r));
  let config := g_key_file_set_string config "core" "min-free-space-percent" (to_string min_free_space) in
  gcall (ostree_repo_write_config (repo_ r) config)
    (fun e => "Failed to set `min-free-space-percent`; value: " +:+ to_string min_free_space +:+ ", err: " +:+ e);;
  if hot_reload
  then gcall (ostree_repo_reload_config (repo_ r))
         (fun e => "Failed to reload ostree repo config; repo path: " +:+ repo_path r +:+ ", err: " +:+ e)
  else mret tt.

(** The value of the configuration as an [unsigned int]; the default value if there is
    none or if it is no [int]. *)
Definition free_space_percent (config : K) : Z :=
  if negb (g_key_file_has_key config "core" "min-free-space-percent") then MinFreeSpacePercentDefaultValue
  else match g_key_file_get_string config "core" "min-free-space-percent" with
       | None => MinFreeSpacePercentDefaultValue
       | Some v => match stoi 10 v with
                   | Ret low_watermark_val => to_u32 low_watermark_val
                   | Throw _ => MinFreeSpacePercentDefaultValue
                   end
       end.
Definition getFreeSpacePercent (r : Repo) : M OS Z :=
  config ← gets (ostree_repo_get_config (repo_ r)); mret (free_space_percent config).

Definition repo_hasCommit (r : Repo) (commit_hash : string) : M OS bool :=
  gquery (ostree_repo_has_object (repo_ r) commit_hash)
    (fun e => "Failed to check if commit is present; commit hash: " +:+ commit_hash +:+ ", err: " +:+ e).
End repo.
Arguments Repo : clear implicits.

(** ** [OSTree::Sysroot] *)

Definition ReservedStorageSpacePercentageOstreeParamName : string := "sysroot_ostree_reserved_space_percentage".
Definition MinReservedStorageSpacePercentageOstree : Z := 3.
Definition MaxReservedStorageSpacePercentageOstree : Z := 50.

(** libaktualizr's configuration of the package manager: the members read here *)
Inductive BootedType := kBooted | kStaged | kOtherBoot (code : Z).
Record SysrootPackageConfig := {
  pc_sysroot : string;
  pc_booted : BootedType;
  pc_os : string;
  pc_extra : gmap string string;
}.

Record SysrootConfig := {
  ReservedStorageSpacePercentageOstree : Z;
  sysroot_path : string;
  boot_type : BootedType;
  osname : string;
}.

(** [Config(pconfig)]; [cast] is [boost::lexical_cast<unsigned int>]. *)
Definition make_SysrootConfig (cast : string -> option Z) (pconfig : SysrootPackageConfig) : SysrootConfig := {|
  sysroot_path := pc_sysroot pconfig;
  boot_type := pc_booted pconfig;
  osname := if str_empty (pc_os pconfig) then "lmp" else pc_os pconfig;
  ReservedStorageSpacePercentageOstree :=
    match pc_extra pconfig !! ReservedStorageSpacePercentageOstreeParamName with
    | None => -1
    | Some val_str =>
        match cast val_str with
        | None => -1
        | Some val => if val <? MinReservedStorageSpacePercentageOstree then -1
                      else if MaxReservedStorageSpacePercentageOstree <? val then -1
                      else val
        end
    end |}.

(** A loaded [OstreeSysroot], of type [SO]; [D] is a deployment. [load_sysroot] is
    [OstreeManager::LoadSysroot], which throws if the sysroot cannot be loaded. *)
Class OstreeSysroot (OS SO D : Type) := {
  load_sysroot : string -> OS -> outcome SO;
  (** whether the call succeeded, and the object *)
  ostree_sysroot_load_if_changed : SO -> OS -> bool * SO;
  ostree_sysroot_get_booted_deployment : SO -> option D;
  (** the pending and the rollback deployment of an OS *)
  ostree_sysroot_query_deployments_for : SO -> string -> option D * option D;
  ostree_sysroot_get_deployments : SO -> option (list D);
  ostree_deployment_get_csum : D -> string;
  ostree_deployment_get_osname : D -> string;
}.

Section sysroot.
Context {OS K P F ST SO D : Type} `{KeyFile K, LibOstree OS K P F ST, OstreeSysroot OS SO D}.

Record Sysroot := {
  sysroot_cfg : SysrootConfig;
  repo_path_ : string;
  deployment_path_ : string;
  sysroot_ : SO;
}.

(** What the constructor does to the configuration of the repository *)
Definition override_reserved (cfg : SysrootConfig) (repo : Repo P) : M OS unit :=
  if ReservedStorageSpacePercentageOstree cfg =? -1 then mret tt
  else try_catch
    (setFreeSpacePercent repo (ReservedStorageSpacePercentageOstree cfg) false;;
     _ ← getFreeSpacePercent repo; mret tt)
    (fun _ => mret tt).

Definition make_Sysroot (cast : string -> option Z) (pconfig : SysrootPackageConfig) : M OS Sysroot :=
  let cfg := make_SysrootConfig cast pconfig in
  let repo_path := sysroot_path cfg +:+ "/ostree/repo" in
  repo ← Repo_init repo_path false;
  _ ← getFreeSpacePercent repo;
  override_reserved cfg repo;;
  loaded ← gets (load_sysroot (sysroot_path cfg)); so ← lift loaded;
  mret {| sysroot_cfg := cfg; repo_path_ := repo_path;
          deployment_path_ := sysroot_path cfg +:+ "/ostree/deploy/" +:+ osname cfg +:+ "/deploy";
          sysroot_ := so |}.

Definition sysroot_reload (os : OS) : M Sysroot bool :=
  sys ← gets id;
  match boot_type (sysroot_cfg sys) with
  | kBooted =>
      let '(ok, so) := ostree_sysroot_load_if_changed (sysroot_ sys) os in
      modify (fun sys => {| sysroot_cfg := sysroot_cfg sys; repo_path_ := repo_path_ sys;
                            deployment_path_ := deployment_path_ sys; sysroot_ := so |});;
      mret ok
  | _ => mret true
  end.

Definition reservedStorageSpacePercentageOstree (sys : Sysroot) : M OS Z :=
  repo ← Repo_init (repo_path_ sys) false; getFreeSpacePercent repo.

Definition getDeploymentIfBooted (so : SO) (os_name : string) (deployment_type : Deployment) : option D :=
  match deployment_type with
  | DCurrent => ostree_sysroot_get_booted_deployment so
  | DPending => (ostree_sysroot_query_deployments_for so os_name).1
  | DRollback => (ostree_sysroot_query_deployments_for so os_name).2
  end.

Definition getDeploymentIfStaged (so : SO) (os_name : string) (deployment_type : Deployment) : option D :=
  match deployment_type with
  | DCurrent | DPending => (ostree_sysroot_query_deployments_for so os_name).1
  | DRollback =>
      match ostree_sysroot_get_deployments so with
      | Some (_ :: d :: _) => if String.eqb (ostree_deployment_get_osname d) os_name then Some d else None
      | _ => None
      end
  end.

Definition deployment_hash (d : option D) : string := from_option ostree_deployment_get_csum "" d.

(** [None]: a null pointer is dereferenced. *)
Definition sysroot_getDeploymentHash (sys : Sysroot) (deployment_type : Deployment) (os : OS)
    : outcome (option string) :=
  let cfg := sysroot_cfg sys in
  match boot_type cfg with
  | kBooted => mret (Some (deployment_hash (getDeploymentIfBooted (sysroot_ sys) (osname cfg) deployment_type)))
  | kStaged =>
      match deployment_type with
      | DPending =>
          let cur_deployment := getDeploymentIfStaged (sysroot_ sys) (osname cfg) DPending in
          changed_sysroot ← load_sysroot (sysroot_path cfg) os;
          let pend_deployment := getDeploymentIfStaged changed_sysroot (osname cfg) DPending in
          mret (pend ← pend_deployment; cur ← cur_deployment;
                Some (if String.eqb (ostree_deployment_get_csum pend) (ostree_deployment_get_csum cur) then ""
                      else ostree_deployment_get_csum pend))
      | _ => mret (Some (deployment_hash (getDeploymentIfStaged (sysroot_ sys) (osname cfg) deployment_type)))
      end
  | kOtherBoot code => throw runtime_error ("Invalid boot type: " +:+ to_string code)
  end.
End sysroot.
Arguments Sysroot : clear implicits.

(** ** Theorems *)

Lemma reserved_percentage_range (cast : string -> option Z) (pconfig : SysrootPackageConfig) :
  let r := ReservedStorageSpacePercentageOstree (make_SysrootConfig cast pconfig) in
  r = -1 \/ MinReservedStorageSpacePercentageOstree <= r <= MaxReservedStorageSpacePercentageOstree.
Proof.
  cbn. unfold MinReservedStorageSpacePercentageOstree, MaxReservedStorageSpacePercentageOstree.
  repeat case_match; try by left. right. lia.
Qed.

(** The percentage of the configuration is used only between its limits: it is the one of the
    parameter exactly if that is a number from 3 to 50, and else -1, which stands for none. *)
Theorem reserved_percentage_limits (cast : string -> option Z) (pconfig : SysrootPackageConfig) (v : Z) :
  MinReservedStorageSpacePercentageOstree <= v <= MaxReservedStorageSpacePercentageOstree ->
  (ReservedStorageSpacePercentageOstree (make_SysrootConfig cast pconfig) = v <->
   exists t, pc_extra pconfig !! ReservedStorageSpacePercentageOstreeParamName = Some t /\ cast t = Some v).
Proof.
  cbn. unfold MinReservedStorageSpacePercentageOstree, MaxReservedStorageSpacePercentageOstree. intros Hv.
  destruct (pc_extra pconfig !! _) as [t|]; [|naive_solver lia].
  destruct (cast t) as [w|] eqn:E; [|naive_solver lia].
  destruct (Z.ltb_spec w 3), (Z.ltb_spec 50 w); try lia;
    (split; [intros <-|intros (t' & [= <-] & E')]); try lia; try congruence; try (exists t; done);
    rewrite E in E'; injection E' as <-; lia.
Qed.

Section repo_theorems.
Context {OS K P F ST : Type} `{KeyFile K, LibOstree OS K P F ST, InputStream ST}.

Lemma gcall_Ret {A} (m : OS -> gresult A * OS) msg s a s' :
  gcall m msg s = (Ret a, s') <-> m s = (inr a, s').
Proof. unfold gcall. mstep. destruct (m s) as [[e|x] s1]; naive_solver. Qed.

Section spec.
Context (remotes : OS -> P -> string -> option (string * goptions)).
Context `{!KeyFileSpec K, !LibOstreeSpec OS K P F ST remotes}.

Lemma free_space_percent_set k n :
  0 <= n -> free_space_percent (g_key_file_set_string k "core" "min-free-space-percent" (to_string n))
  = if n <=? int_max then n else MinFreeSpacePercentDefaultValue.
Proof.
  intros Hn. unfold free_space_percent. rewrite has_key_set, get_string_set. cbn [negb].
  unfold stoi. rewrite str_to_int_to_string by done. unfold int_min, int_max.
  rewrite (proj2 (Z.leb_le _ _)) by lia. cbn [andb]. destruct (Z.leb_spec n (2 ^ 31 - 1)); [|done].
  apply Z.mod_small. lia.
Qed.

(** What [setFreeSpacePercent] leaves in the file *)
Lemma setFreeSpacePercent_writes (r : Repo P) n s s' :
  setFreeSpacePercent r n false s = (Ret tt, s') ->
  ostree_repo_write_config (repo_ r)
    (g_key_file_set_string (ostree_repo_get_config (repo_ r) s) "core" "min-free-space-percent" (to_string n)) s
  = (inr tt, s').
Proof.
  unfold setFreeSpacePercent. rewrite bind_gets. cbn zeta. intros E.
  apply M_bind_Ret in E as ([] & s1 & E1 & E2). injection E2 as <-. by apply gcall_Ret in E1.
Qed.

(** C37: the percentage of free space that was set is the one that is read back, for every [unsigned int]
    that an [int] can hold; a larger one is stored but read back as the default, 3. *)
Theorem free_space_percent_roundtrip (r : Repo P) (n : Z) (s s' : OS) :
  0 <= n -> setFreeSpacePercent r n false s = (Ret tt, s') ->
  getFreeSpacePercent r s' = (Ret (if n <=? int_max then n else MinFreeSpacePercentDefaultValue), s').
Proof.
  intros Hn E%setFreeSpacePercent_writes. unfold getFreeSpacePercent. rewrite bind_gets.
  erewrite write_config_object by exact E. by rewrite free_space_percent_set.
Qed.

(** [addRemote] replaces: whatever the remote was before, it now has this URL and these options,
    signatures of commits are not asked for, and the other remotes are as they were. *)
Theorem addRemote_replaces (r : Repo P) (name url ca cert key : string) (s s' : OS) :
  repo_addRemote r name url ca cert key s = (Ret tt, s') ->
  remotes s' (repo_ r) name = Some (url, remote_options ca cert key) /\
  (forall n, n <> name -> remotes s' (repo_ r) n = remotes s (repo_ r) n).
Proof.
  unfold repo_addRemote. intros E. apply M_bind_Ret in E as ([] & s1 & E1 & E2).
  apply gcall_Ret in E1, E2. pose proof (remote_delete _ _ _ _ _ _ E1) as Hdel.
  pose proof (remote_add _ _ _ _ _ _ E2) as Hadd. split.
  - rewrite Hadd, decide_True, Hdel, decide_True by done. done.
  - intros n Hn. by rewrite Hadd, decide_False, Hdel, decide_False by done.
Qed.
End spec.

(** The references do not depend on the order in which the table is gone through. *)
Lemma addRefInfo_lookup l (m : gmap string string) k :
  fold_left addRefInfo l m !! k =
  match m !! k with Some v => Some v | None => snd <$> List.find (fun kv => String.eqb kv.1 k) l end.
Proof.
  revert m. induction l as [|[k' v'] l IH]; intros m; cbn; [by destruct (m !! k)|].
  rewrite IH. unfold addRefInfo. cbn. destruct (String.eqb_spec k' k) as [->|Hk].
  - destruct (m !! k) eqn:E; [by rewrite E|]. by rewrite lookup_insert_eq.
  - destruct (m !! k') eqn:E; [done|]. by rewrite lookup_insert_ne.
Qed.

Section read.
Context (left : ST -> string) `{!InputStreamSpec ST left}.

Lemma read_loop_ends fuel st acc :
  (String.length (left st) < fuel)%nat ->
  read_loop fuel st acc = Some (Ret (acc +:+ left st)) \/
  read_loop fuel st acc = Some (throw length_error "basic_string::_M_create").
Proof.
  revert st acc. induction fuel as [|fuel IH]; intros st acc Hf; [lia|]. cbn [read_loop].
  destruct (g_input_stream_read st 1024) as [[r chunk] st'] eqn:E.
  destruct (read_spec st 1024 r chunk st' ltac:(done) E) as [->|(-> & Hle & Hl & Hz)]; [by right|].
  rewrite to_u64_small by (unfold is_u64, u64_max, u64_modulus; lia).
  destruct chunk as [|c chunk].
  - rewrite Hz by done. rewrite app_nil_r. by left.
  - rewrite (proj2 (Z.ltb_lt _ _)) by (cbn; lia).
    rewrite (proj2 (Z.eqb_neq _ _)) by (unfold u64_max, u64_modulus; lia).
    rewrite Hl, <- app_assoc_s. apply IH. rewrite Hl, length_app_s in Hf. cbn in Hf. lia.
Qed.

End read.
End repo_theorems.

Section sysroot_theorems.
Context {OS K P F ST SO D : Type} `{KeyFile K, LibOstree OS K P F ST, InputStream ST, OstreeSysroot OS SO D}.
Context (remotes : OS -> P -> string -> option (string * goptions)).
Context `{!KeyFileSpec K, !LibOstreeSpec OS K P F ST remotes}.

Lemma Repo_init_opens path s r s' :
  Repo_init path false s = (Ret r, s') -> ostree_repo_open path s = (inr (repo_ r), s').
Proof.
  unfold Repo_init. intros E. apply M_bind_Ret in E as (p & s1 & E1 & E2). apply gcall_Ret in E1.
  by injection E2 as <- <-.
Qed.

Lemma override_reserved_writes cfg (r : Repo P) s s' :
  MinReservedStorageSpacePercentageOstree <= ReservedStorageSpacePercentageOstree cfg ->
  (forall k, exists s1, ostree_repo_write_config (repo_ r) k s = (inr tt, s1)) ->
  override_reserved cfg r s = (Ret tt, s') ->
  setFreeSpacePercent r (ReservedStorageSpacePercentageOstree cfg) false s = (Ret tt, s').
Proof.
  unfold MinReservedStorageSpacePercentageOstree. intros Hr Hw. unfold override_reserved.
  rewrite (proj2 (Z.eqb_neq _ _)) by lia. unfold setFreeSpacePercent, try_catch, gcall, getFreeSpacePercent. mstep.
  edestruct Hw as [s1 ->]. cbn. intros [= <-]. done.
Qed.

(** A percentage configured between the limits is the one in force: once the sysroot object is made
    and the configuration of the repository can be written, the client reads this percentage back
    whenever it asks for it, and it is what is kept free of an update. *)
Theorem reserved_percentage_in_force (cast : string -> option Z) (pconfig : SysrootPackageConfig)
    (v : Z) (t : string) (sys : Sysroot SO) (n : Z) (s s' s'' : OS) :
  pc_extra pconfig !! ReservedStorageSpacePercentageOstreeParamName = Some t -> cast t = Some v ->
  MinReservedStorageSpacePercentageOstree <= v <= MaxReservedStorageSpacePercentageOstree ->
  (forall p k s1, ostree_repo_open (pc_sysroot pconfig +:+ "/ostree/repo") s = (inr p, s1) ->
     exists s2, ostree_repo_write_config p k s1 = (inr tt, s2)) ->
  make_Sysroot cast pconfig s = (Ret sys, s') ->
  reservedStorageSpacePercentageOstree sys s' = (Ret n, s'') ->
  n = v.
Proof.
  intros Ht Hc Hv Hw E1 E2. set (cfg := make_SysrootConfig cast pconfig).
  assert (Hcfg : ReservedStorageSpacePercentageOstree cfg = v).
  { unfold MinReservedStorageSpacePercentageOstree, MaxReservedStorageSpacePercentageOstree in Hv.
    unfold cfg. cbn. rewrite Ht, Hc. unfold MinReservedStorageSpacePercentageOstree, MaxReservedStorageSpacePercentageOstree.
    destruct (Z.ltb_spec v 3), (Z.ltb_spec 50 v); lia. }
  unfold make_Sysroot in E1. fold cfg in E1. cbn zeta in E1.
  apply M_bind_Ret in E1 as (r & s1 & Er%Repo_init_opens & E1).
  apply M_bind_Ret in E1 as (? & s2 & E3 & E1). injection E3 as _ <-.
  apply M_bind_Ret in E1 as ([] & s3 & E3 & E1).
  pure_step E1 o Ho. pure_step E1 so Hso. injection E1 as <- <-.
  apply override_reserved_writes in E3; [|lia|intros k; by apply Hw]. rewrite Hcfg in E3.
  apply setFreeSpacePercent_writes in E3.
  unfold reservedStorageSpacePercentageOstree in E2. cbn [repo_path_] in E2.
  apply M_bind_Ret in E2 as (r' & s4 & Er'%Repo_init_opens & E2).
  unfold getFreeSpacePercent in E2. rewrite bind_gets in E2. injection E2 as <- <-.
  rewrite (write_config_file _ _ _ _ _ _ _ _ Er E3 Er').
  unfold MinReservedStorageSpacePercentageOstree, MaxReservedStorageSpacePercentageOstree in Hv.
  rewrite free_space_percent_set by lia. rewrite (proj2 (Z.leb_le _ _)) by (unfold int_max; lia). done.
Qed.

(** In a system that is not booted from its sysroot, a pending deployment is reported exactly if the
    sysroot on disk begins with another commit than the one that was loaded: the reported commit is
    then the one on disk, and the current one is still the loaded one, also after a reload. *)
Theorem staged_pending (sys : Sysroot SO) (os os' : OS) (so : SO) (cur pend : D) :
  boot_type (sysroot_cfg sys) = kStaged ->
  load_sysroot (sysroot_path (sysroot_cfg sys)) os = Ret so ->
  (ostree_sysroot_query_deployments_for (sysroot_ sys) (osname (sysroot_cfg sys))).1 = Some cur ->
  (ostree_sysroot_query_deployments_for so (osname (sysroot_cfg sys))).1 = Some pend ->
  sysroot_reload os' sys = (Ret true, sys) /\
  sysroot_getDeploymentHash sys DCurrent os = Ret (Some (ostree_deployment_get_csum cur)) /\
  sysroot_getDeploymentHash sys DPending os =
    Ret (Some (if decide (ostree_deployment_get_csum pend = ostree_deployment_get_csum cur) then ""
               else ostree_deployment_get_csum pend)).
Proof.
  intros Hb Hl Hc Hp. unfold sysroot_reload, sysroot_getDeploymentHash, getDeploymentIfStaged, deployment_hash.
  mstep. unfold id. rewrite Hb, Hl, Hc, Hp. split_and!; [done..|]. cbn.
  destruct (String.eqb_spec (ostree_deployment_get_csum pend) (ostree_deployment_get_csum cur)) as [E|E];
    by case_decide.
Qed.

(** Without a deployment of the OS, asking for the pending one dereferences a null pointer. *)
Theorem staged_pending_null (sys : Sysroot SO) (os : OS) (so : SO) :
  boot_type (sysroot_cfg sys) = kStaged ->
  load_sysroot (sysroot_path (sysroot_cfg sys)) os = Ret so ->
  (ostree_sysroot_query_deployments_for (sysroot_ sys) (osname (sysroot_cfg sys))).1 = None ->
  sysroot_getDeploymentHash sys DPending os = Ret None.
Proof.
  intros Hb Hl Hc. unfold sysroot_getDeploymentHash, getDeploymentIfStaged.
  rewrite Hb, Hl, Hc. cbn. by destruct ((ostree_sysroot_query_deployments_for so _).1).
Qed.
End sysroot_theorems.

(** ** A concrete repository and sysroot

    Repositories by their path, each with its configuration and its remotes; a commit
    is a map from paths to contents; the deployments of an OS, the newest first. *)
Module SampleOstree.
Abbreviation keyfile := (gmap (string * string) string).
#[export] Instance keyfile_ops : KeyFile keyfile := {
  g_key_file_has_key k g n := bool_decide (is_Some (k !! (g, n)));
  g_key_file_get_string k g n := k !! (g, n);
  g_key_file_set_string k g n v := <[(g, n) := v]> k;
}.
#[export] Instance keyfile_spec : KeyFileSpec keyfile.
Proof.
  split; intros k g n v; [|apply lookup_insert_eq].
  change (bool_decide (is_Some (<[(g, n) := v]> k !! (g, n))) = true).
  apply bool_decide_eq_true. rewrite lookup_insert_eq. by eexists.
Qed.

Record disk := {
  configs : gmap string keyfile;
  remote_table : gmap (string * string) (string * goptions);
  commits : gmap string (gmap string string);
  deployed : list (string * string);
}.
Definition set_config (p : string) (k : keyfile) (d : disk) : disk :=
  {| configs := <[p := k]> (configs d); remote_table := remote_table d; commits := commits d; deployed := deployed d |}.
Definition set_remotes (t : gmap (string * string) (string * goptions)) (d : disk) : disk :=
  {| configs := configs d; remote_table := t; commits := commits d; deployed := deployed d |}.

Definition change_remote (p : string) (c : RemoteChange) (n u : string) (o : goptions) (d : disk) : disk :=
  match c, remote_table d !! (p, n) with
  | DELETE_IF_EXISTS, _ => set_remotes (delete (p, n) (remote_table d)) d
  | ADD_IF_NOT_EXISTS, Some _ => d
  | ADD_IF_NOT_EXISTS, None => set_remotes (<[(p, n) := (u, o)]> (remote_table d)) d
  end.

(** An open file gives at most four bytes at a time. *)
#[export] Instance stream_ops : InputStream string := {
  g_input_stream_read st n :=
    let k := Z.to_nat (Z.min 4 n) in
    ((Z.of_nat (String.length (str_take k st)), str_take k st), str_drop k st);
}.
#[export] Instance stream_spec : InputStreamSpec string id.
Proof.
  split. intros st n r chunk st' Hn E. cbn -[Z.min Z.to_nat] in E. injection E as <- <- <-. right.
  rewrite str_take_drop, length_str_take.
  split_and!; [done|lia|done|]. intros E. assert (String.length st = 0%nat) as E' by lia. by destruct st.
Qed.

#[export] Instance disk_ops : LibOstree disk keyfile string (gmap string string * string) string := {
  ostree_repo_create p d := (inr p, set_config p (default ∅ (configs d !! p)) d);
  ostree_repo_open p d := match configs d !! p with Some _ => (inr p, d) | None => (inl "no such repository", d) end;
  ostree_repo_remote_change p c n u o d := (inr tt, change_remote p c n u o d);
  ostree_repo_pull_with_options p r o d := (inl "no network", d);
  ostree_repo_read_commit p c d := match commits d !! c with Some f => inr (f, "") | None => inl "no such commit" end;
  g_file_resolve_relative_path f p := (f.1, p);
  g_file_query_info f d := match f.1 !! f.2 with Some _ => inr tt | None => inl "no such file" end;
  ostree_repo_checkout_tree p f dst d := (inr tt, d);
  ostree_repo_list_refs p d := inr [];
  g_file_read f d := match f.1 !! f.2 with Some c => inr c | None => inl "no such file" end;
  ostree_repo_get_config p d := default ∅ (configs d !! p);
  ostree_repo_write_config p k d := (inr tt, set_config p k d);
  ostree_repo_reload_config p d := (inr tt, d);
  ostree_repo_has_object p c d := inr (bool_decide (is_Some (commits d !! c)));
}.
Definition disk_remotes (d : disk) (p n : string) : option (string * goptions) := remote_table d !! (p, n).
#[export] Instance disk_spec : LibOstreeSpec disk keyfile string (gmap string string * string) string disk_remotes.
Proof.
  split; cbn.
  - intros p n u o s s' [= <-] m. unfold disk_remotes. cbn. case_decide as E; subst;
      [apply lookup_delete_eq|apply lookup_delete_ne; congruence].
  - intros p n u o s s' [= <-] m. unfold disk_remotes, change_remote.
    destruct (remote_table s !! (p, n)) eqn:E; case_decide as E'; subst; cbn; rewrite ?E; try done;
      [apply lookup_insert_eq|apply lookup_insert_ne; congruence].
  - intros p k s s' [= <-]. cbn. by rewrite lookup_insert_eq.
  - intros path p k s0 s1 s2 p' s3 E1 [= <-] E2. cbn in E2.
    destruct (configs s0 !! path) eqn:E; [|done]. injection E1 as <- <-.
    rewrite lookup_insert_eq in E2. injection E2 as <- <-. cbn. by rewrite lookup_insert_eq.
Qed.

(** A loaded sysroot is the list of deployments, OS name and commit. *)
#[export] Instance disk_sysroot : OstreeSysroot disk (list (string * string)) (string * string) := {
  load_sysroot _ d := Ret (deployed d);
  ostree_sysroot_load_if_changed _ d := (true, deployed d);
  ostree_sysroot_get_booted_deployment so := head so;
  ostree_sysroot_query_deployments_for so os :=
    let l := filter (fun x => x.1 = os) so in (l !! 0%nat, l !! 1%nat);
  ostree_sysroot_get_deployments so := Some so;
  ostree_deployment_get_csum := snd;
  ostree_deployment_get_osname := fst;
}.

Definition sample_disk : disk :=
  {| configs := {["/ostree/repo" := ∅]}; remote_table := {[("/ostree/repo", "gw") := ("http://old", [])]};
     commits := {["abc" := {["/v" := "bootfirmware_version=2"]}]}; deployed := [("lmp", "new"); ("lmp", "old")] |}.
Definition sample_pconfig (percentage : string) : SysrootPackageConfig :=
  {| pc_sysroot := ""; pc_booted := kStaged; pc_os := "";
     pc_extra := {[ReservedStorageSpacePercentageOstreeParamName := percentage]} |}.
Definition sample_cast (s : string) : option Z := match stoi 10 s with Ret v => Some v | Throw _ => None end.
Definition sample_repo : Repo string := {| repo_path := "/ostree/repo"; repo_ := "/ostree/repo" |}.
Definition sample_sysroot (so : list (string * string)) : Sysroot (list (string * string)) :=
  {| sysroot_cfg := make_SysrootConfig sample_cast (sample_pconfig "20"); repo_path_ := "/ostree/repo";
     deployment_path_ := "/ostree/deploy/lmp/deploy"; sysroot_ := so |}.
End SampleOstree.
Import SampleOstree.

(** ** Witnesses *)

Lemma free_space_percent_roundtrip_witness :
  getFreeSpacePercent sample_repo (exec (setFreeSpacePercent sample_repo 20 false) sample_disk)
  = (Ret 20, exec (setFreeSpacePercent sample_repo 20 false) sample_disk).
Proof.
  refine (free_space_percent_roundtrip disk_remotes sample_repo 20 sample_disk _ _ _); [lia|].
  vm_compute. reflexivity.
Defined.

Lemma addRemote_replaces_witness :
  disk_remotes (exec (repo_addRemote sample_repo "gw" "http://new" "ca" "cert" "key") sample_disk) "/ostree/repo" "gw"
  = Some ("http://new", remote_options "ca" "cert" "key").
Proof.
  refine (proj1 (addRemote_replaces disk_remotes sample_repo "gw" "http://new" "ca" "cert" "key" sample_disk _ _)).
  vm_compute. reflexivity.
Defined.


Lemma reserved_percentage_in_force_witness :
  exists sys s', make_Sysroot sample_cast (sample_pconfig "20") sample_disk = (Ret sys, s') /\
    exists n s'', reservedStorageSpacePercentageOstree sys s' = (Ret n, s'') /\ n = 20.
Proof.
  eexists _, _. split; [reflexivity|]. eexists _, _. split; [reflexivity|].
  refine (reserved_percentage_in_force disk_remotes sample_cast (sample_pconfig "20") 20 "20" _ _ sample_disk _ _
            _ _ _ _ _ _).
  - reflexivity.
  - reflexivity.
  - vm_compute. split; discriminate.
  - intros p k s1 _. by eexists.
  - reflexivity.
  - reflexivity.
Defined.

Lemma staged_pending_witness :
  sysroot_getDeploymentHash (sample_sysroot [("lmp", "old")]) DPending sample_disk = Ret (Some "new").
Proof.
  exact (proj2 (proj2 (staged_pending (sample_sysroot [("lmp", "old")]) sample_disk sample_disk
                         [("lmp", "new"); ("lmp", "old")] ("lmp", "old") ("lmp", "new") eq_refl eq_refl eq_refl eq_refl))).
Defined.
