(* ===== verification/Bootloader.v ===== *)
(** * The bootloader

    [bootloader::BootloaderLite] ([src/src/bootloader/bootloaderlite.cc]): the
    environment of the bootloader, read and written by shell commands that
    depend on the rollback mode, the version of the boot firmware a target
    carries, and the request to upgrade it after an installation. The queries
    the package manager makes are stated as the class [BootFwUpdateStatus]. *)

From S2P Require Import Prelude Json Targets.

Inductive RollbackMode := kBootloaderNone | kUbootGeneric | kUbootMasked | kFioVB | kFioEFI.
#[export] Instance RollbackMode_eq_dec : EqDecision RollbackMode.
Proof. solve_decision. Defined.

Definition setCmds (m : RollbackMode) : option string :=
  match m with
  | kUbootMasked => Some "fw_setenv"
  | kFioVB => Some "fiovb_setenv"
  | kFioEFI => Some "fioefi_setenv"
  | _ => None
  end.
Definition getCmds (m : RollbackMode) : option string :=
  match m with
  | kUbootMasked => Some "fw_printenv -n"
  | kFioVB => Some "fiovb_printenv"
  | kFioEFI => Some "fioefi_printenv"
  | _ => None
  end.
Definition noneCmd : string := "".

(** What the package manager asks the bootloader, on the state [SR]. *)
Class BootFwUpdateStatus (SR : Type) := {
  isUpdateInProgress : M SR bool;
  isUpdateSupported : bool;
  isRollbackProtectionEnabled : M SR bool;
  getTargetVersion : string -> M SR string;
  getCurrentVersion : M SR (string * bool);
}.

Definition VersionFile : string := "/usr/lib/firmware/version.txt".
Definition OstreeTargetPathVar : string := "FIO_OSTREE_TARGET_SYSROOT".

(** ** The system around it

    [shell] is [Utils::shell], with the exit code and the output;
    [list_dir] iterates over a directory, telling which entries are
    directories, and throws if it cannot; [repo_readFile] is
    [OSTree::Repo::readFile]; [show_mode] prints a mode in a message. *)
Class BootWorld (W : Type) := {
  shell : string -> W -> (Z * string) * W;
  list_dir : W -> string -> outcome (list (string * bool));
  read_file : W -> string -> option string;
  repo_readFile : W -> string -> string -> outcome string;
  show_mode : RollbackMode -> string;
}.

(** The world, the mutable member [env_cmd_vars_], and the commands run. *)
Record BL (W : Type) := mkBL { world : W; env_cmd_vars : string; cmds : list string }.
Arguments mkBL {W}.
Arguments world {W}.
Arguments env_cmd_vars {W}.
Arguments cmds {W}.

Definition watermark : string := "bootfirmware_version".
Definition blanks : string := String " " (String "009" (String "013" (String "010" ""))).

Definition extractVersionValue (version_line : string) : outcome string :=
  match str_find watermark version_line with
  | None =>
      throw invalid_argument ("Failed to parse the bootloader version line; no `" +:+ watermark +:+
                              "` is found in `" +:+ version_line +:+ "`")
  | Some ver_pos =>
      let version := str_take ver_pos version_line
                     +:+ str_drop (ver_pos + (String.length watermark + 1)) version_line in
      Ret (trim_if (is_any_of blanks) version)
  end.

(** [boost::lexical_cast<uint64_t>] is the argument [cast]. *)
Definition verStrToNumber (cast : string -> option Z) (ver_str : string) : Z * bool :=
  match cast ver_str with Some v => (v, true) | None => (0, false) end.

Section bootloader.
Context {W : Type} `{BootWorld W}.
Variables (rollback_mode : RollbackMode) (deployment_path : string).

Definition get_env_cmd : string := default noneCmd (getCmds rollback_mode).
Definition set_env_cmd : string := default noneCmd (setCmds rollback_mode).

Definition run_shell (cmd : string) : M (BL W) (Z * string) := fun b =>
  let '(r, w) := shell cmd (world b) in (Ret r, mkBL w (env_cmd_vars b) (cmds b ++ [cmd])).

Definition setEnvVar (var_name var_val : string) : M (BL W) (string * bool) :=
  if str_empty set_env_cmd then
    mret ("No command to set an environment variable found for the given bootloader type: `"
          +:+ show_mode rollback_mode +:+ "`", false)
  else
    vars ← gets env_cmd_vars;
    let cmd := vars +:+ " " +:+ set_env_cmd +:+ " " +:+ var_name +:+ " " +:+ var_val in
    '(rc, output) ← run_shell cmd;
    if negb (rc =? 0) then
      mret ("Failed to set a bootloader environment variable; cmd: " +:+ cmd +:+ ", err: " +:+ output, false)
    else mret ("", true).

Definition getEnvVar (var_name : string) : M (BL W) (string * bool) :=
  if str_empty get_env_cmd then
    mret ("No command to read an environment variable found for the given bootloader type: `"
          +:+ show_mode rollback_mode +:+ "`", false)
  else
    vars ← gets env_cmd_vars;
    let cmd := vars +:+ " " +:+ get_env_cmd +:+ " " +:+ var_name in
    '(rc, output) ← run_shell cmd;
    if negb (rc =? 0) then
      mret ("Failed to get a bootloader environment variable; cmd: " +:+ cmd +:+ ", err: " +:+ output, false)
    else mret (trim_if (is_any_of blanks) output, true).

Definition lite_isUpdateSupported : bool := negb (str_empty get_env_cmd).

Definition lite_isUpdateInProgress : M (BL W) bool :=
  if negb lite_isUpdateSupported then mret false
  else
    '(val, ok) ← getEnvVar "bootupgrade_available";
    if negb ok then mret false else mret (String.eqb val "1").

Definition lite_isRollbackProtectionEnabled : M (BL W) bool :=
  if negb lite_isUpdateSupported then mret false
  else
    '(val, ok) ← getEnvVar "rollback_protection";
    if negb ok then mret false else mret (String.eqb val "1").

Definition lite_getTargetVersion (target_hash : string) : M (BL W) string :=
  w ← gets world;
  lift (version_line ← repo_readFile w target_hash VersionFile; extractVersionValue version_line).

Definition lite_getCurrentVersion : M (BL W) (string * bool) := getEnvVar watermark.

#[export] Instance BootloaderLite : BootFwUpdateStatus (BL W) := {|
  isUpdateInProgress := lite_isUpdateInProgress;
  isUpdateSupported := lite_isUpdateSupported;
  isRollbackProtectionEnabled := lite_isRollbackProtectionEnabled;
  getTargetVersion := lite_getTargetVersion;
  getCurrentVersion := lite_getCurrentVersion;
|}.

Definition getTargetDir (w : W) (deployment_dir target_hash : string) : outcome string :=
  entries ← list_dir w deployment_dir;
  mret (match List.find (fun p : string * bool => p.2 && str_contains target_hash p.1) entries with
        | Some (dir, _) => dir
        | None => ""
        end).

(** Every exception is caught and reported as an unknown version. *)
Definition getVersion (w : W) (deployment_dir hash ver_file : string) : string :=
  match (target_dir ← getTargetDir w deployment_dir hash;
         if str_empty target_dir then mret ""
         else match read_file w (target_dir +:+ ver_file) with
              | None => mret ""
              | Some version_line => extractVersionValue version_line
              end) with
  | Ret v => v
  | Throw _ => ""
  end.

Definition getDeploymentVersion (w : W) (hash : string) : string * bool :=
  let ver_str := getVersion w deployment_path hash VersionFile in
  (ver_str, negb (str_empty ver_str)).

(** The common branch of the modes with a bootloader environment. *)
Definition notify_upgrade (hash : string) : M (BL W) unit :=
  w ← gets world;
  let '(target_version, known) := getDeploymentVersion w hash in
  if negb known then mret tt
  else
    '(cur_version, is_current_ver_valid) ← lite_getCurrentVersion;
    _ ← lite_isRollbackProtectionEnabled;
    if negb is_current_ver_valid || negb (String.eqb target_version cur_version) then
      _ ← setEnvVar "bootupgrade_available" "1"; mret tt
    else mret tt.

(** The EFI case falls through to the next one. *)
Definition installNotify (target : UTarget) : M (BL W) unit :=
  match rollback_mode with
  | kBootloaderNone | kUbootGeneric => mret tt
  | kFioEFI =>
      w ← gets world;
      dir ← lift (getTargetDir w deployment_path (sha256Hash target));
      modify (fun b => mkBL (world b) (OstreeTargetPathVar +:+ "=" +:+ dir) (cmds b));;
      notify_upgrade (sha256Hash target)
  | kUbootMasked | kFioVB => notify_upgrade (sha256Hash target)
  end.
End bootloader.

(** ** Theorems *)

Lemma trim_left_id p s : match s with String a _ => p a = false | "" => True end -> trim_left_if p s = s.
Proof. destruct s as [|a s]; cbn; [done|by intros ->]. Qed.

Lemma trim_left_all p a s : str_forall p a = true -> trim_left_if p (a +:+ s) = trim_left_if p s.
Proof. induction a as [|x a IH]; cbn; [done|]. by destruct (p x). Qed.

Lemma trim_right_all p s : str_forall p s = true -> trim_right_if p s = "".
Proof. induction s as [|x s IH]; cbn; [done|]. destruct (p x); cbn; [|done]. intros Hs. by rewrite IH. Qed.

Lemma trim_right_app p a s : str_forall p s = true -> trim_right_if p (a +:+ s) = trim_right_if p a.
Proof. intros Hs. induction a as [|x a IH]; cbn; [by apply trim_right_all|by rewrite IH]. Qed.

(** A word without characters of [p] survives trimming of what surrounds it. *)
Lemma trim_if_word p l w r :
  str_forall p l = true -> str_forall p r = true -> str_forall (fun a => negb (p a)) w = true ->
  trim_if p (l +:+ w +:+ r) = w.
Proof.
  intros Hl Hr Hw. unfold trim_if. rewrite trim_left_all by done.
  destruct w as [|a w].
  - cbn. rewrite <- (app_nil_r r). rewrite trim_left_all by done. done.
  - rewrite trim_left_id by (cbn in *; by destruct (p a)).
    rewrite trim_right_app by done. clear -Hw. revert Hw. generalize (String a w) as s.
    induction s as [|x s IH]; cbn; [done|]. rewrite andb_true_iff, negb_true_iff. intros [Hx Hs].
    rewrite IH by done. destruct s; [by rewrite Hx|done].
Qed.

(** A version line [bootfirmware_version<sep><version>], possibly with white space around the
    version, yields exactly the version. *)
Theorem extractVersionValue_line (sep : ascii) (l v r : string) :
  str_forall (is_any_of blanks) l = true -> str_forall (is_any_of blanks) r = true ->
  str_forall (fun a => negb (is_any_of blanks a)) v = true ->
  extractVersionValue (watermark +:+ String sep (l +:+ v +:+ r)) = Ret v.
Proof.
  intros Hl Hr Hv. unfold extractVersionValue.
  assert (E : str_find watermark (watermark +:+ String sep (l +:+ v +:+ r)) = Some O) by reflexivity.
  rewrite E. change (Ret (trim_if (is_any_of blanks) (l +:+ v +:+ r)) = Ret v).
  by rewrite trim_if_word.
Qed.

Lemma extractVersionValue_line_witness :
  extractVersionValue (watermark +:+ String "=" ("" +:+ "10" +:+ String "010" "")) = Ret "10".
Proof. apply (extractVersionValue_line "=" "" "10" (String "010" "")); reflexivity. Defined.

Section installNotify.
Context {W : Type} `{BootWorld W}.
Variables (mode : RollbackMode) (path : string).

(** The commands of a run. *)
Definition get_cmd (vars var : string) : string :=
  vars +:+ " " +:+ get_env_cmd mode +:+ " " +:+ var.
Definition upgrade_cmd (vars : string) : string :=
  vars +:+ " " +:+ set_env_cmd mode +:+ " bootupgrade_available 1".

(** The member [env_cmd_vars_] as [installNotify] leaves it. *)
Definition notify_vars (b : BL W) (dir : string) : string :=
  match mode with kFioEFI => OstreeTargetPathVar +:+ "=" +:+ dir | _ => env_cmd_vars b end.

(** What [getEnvVar] makes of the outcome of its command. *)
Definition env_value (r : Z * string) : option string :=
  if r.1 =? 0 then Some (trim_if (is_any_of blanks) r.2) else None.

Lemma getEnvVar_eq var (b : BL W) :
  getCmds mode <> None ->
  let '(r, w) := shell (get_cmd (env_cmd_vars b) var) (world b) in
  exists m, getEnvVar mode var b =
    (Ret (default m (env_value r), match env_value r with Some _ => true | None => false end),
     mkBL w (env_cmd_vars b) (cmds b ++ [get_cmd (env_cmd_vars b) var])).
Proof.
  intros Hm. destruct (shell _ _) as [[rc out] w] eqn:E.
  unfold getEnvVar. unfold get_cmd in *.
  assert (Hc : str_empty (get_env_cmd mode) = false) by (destruct mode; done).
  rewrite Hc. unfold run_shell. mstep. rewrite E. unfold env_value. cbn [fst snd].
  destruct (rc =? 0); cbn; eauto.
Qed.

Lemma setEnvVar_cmds var val (b : BL W) :
  setCmds mode <> None ->
  exists r w, setEnvVar mode var val b =
    (Ret r, mkBL w (env_cmd_vars b)
      (cmds b ++ [env_cmd_vars b +:+ " " +:+ set_env_cmd mode +:+ " " +:+ var +:+ " " +:+ val])).
Proof.
  intros Hm. unfold setEnvVar.
  assert (Hc : str_empty (set_env_cmd mode) = false) by (destruct mode; done).
  rewrite Hc. unfold run_shell. mstep. destruct (shell _ _) as [[rc out] w].
  destruct (rc =? 0); cbn; eauto.
Qed.

Lemma rollback_protection_cmds (b : BL W) :
  getCmds mode <> None ->
  exists v w, lite_isRollbackProtectionEnabled mode b =
    (Ret v, mkBL w (env_cmd_vars b) (cmds b ++ [get_cmd (env_cmd_vars b) "rollback_protection"])).
Proof.
  intros Hm. pose proof (getEnvVar_eq "rollback_protection" b Hm) as G.
  destruct (shell _ _) as [r w]. destruct G as [m G].
  unfold lite_isRollbackProtectionEnabled, lite_isUpdateSupported.
  assert (Hc : str_empty (get_env_cmd mode) = false) by (destruct mode; done).
  rewrite Hc. cbn [negb]. mstep. rewrite G. destruct (env_value r); cbn; eauto.
Qed.

Lemma notify_upgrade_cmds (hash : string) (b : BL W) :
  getCmds mode <> None ->
  let tv := getVersion (world b) path hash VersionFile in
  let g1 := get_cmd (env_cmd_vars b) watermark in
  let g2 := get_cmd (env_cmd_vars b) "rollback_protection" in
  run (notify_upgrade mode path hash) b = Ret tt /\
  cmds (exec (notify_upgrade mode path hash) b) =
    cmds b ++ (if str_empty tv then []
               else [g1; g2] ++
                 if bool_decide (env_value (shell g1 (world b)).1 = Some tv) then []
                 else [upgrade_cmd (env_cmd_vars b)]).
Proof.
  intros Hm. cbn zeta. unfold notify_upgrade, run, exec, getDeploymentVersion. mstep.
  destruct (str_empty _) eqn:Htv; cbn [negb]; [by rewrite List.app_nil_r|].
  pose proof (getEnvVar_eq watermark b Hm) as G1. unfold lite_getCurrentVersion.
  destruct (shell (get_cmd (env_cmd_vars b) watermark) (world b)) as [r1 w1].
  destruct G1 as [m1 ->].
  destruct (rollback_protection_cmds (mkBL w1 (env_cmd_vars b)
    (cmds b ++ [get_cmd (env_cmd_vars b) watermark])) Hm) as (v & w2 & ->). cbn [env_cmd_vars cmds].
  assert (Hs : setCmds mode <> None) by (destruct mode; done).
  destruct (setEnvVar_cmds "bootupgrade_available" "1" (mkBL w2 (env_cmd_vars b)
    ((cmds b ++ [get_cmd (env_cmd_vars b) watermark])
     ++ [get_cmd (env_cmd_vars b) "rollback_protection"])) Hs) as (r & w & G3).
  cbn [env_cmd_vars cmds] in G3. fold (upgrade_cmd (env_cmd_vars b)) in G3.
  cbn [fst snd]. destruct (env_value r1) as [cv|]; cbn [default from_option id negb orb fst snd].
  - destruct (String.eqb_spec (getVersion (world b) path hash VersionFile) cv) as [<-|Hne]; cbn [negb].
    + rewrite bool_decide_true by done. cbn [fst snd cmds]. by rewrite <- !app_assoc.
    + rewrite bool_decide_false by congruence. rewrite G3. cbn [fst snd cmds]. by rewrite <- !app_assoc.
  - rewrite bool_decide_false by done. rewrite G3. cbn [fst snd cmds]. by rewrite <- !app_assoc.
Qed.

(** The directory of the target's deployment, as the EFI mode looks it up. *)
Definition notify_dir (b : BL W) (hash : string) : outcome string :=
  match mode with kFioEFI => getTargetDir (world b) path hash | _ => Ret "" end.

(** In a mode with a bootloader environment, [installNotify] requests a boot firmware upgrade
    exactly when the version of the target's firmware is known and differs from the version the
    bootloader reports (or the latter cannot be read), as the last of its commands; in EFI mode
    every command is prefixed with the path of the target's deployment. *)
Theorem installNotify_cmds (target : UTarget) (b : BL W) (dir : string) :
  getCmds mode <> None -> notify_dir b (sha256Hash target) = Ret dir ->
  let tv := getVersion (world b) path (sha256Hash target) VersionFile in
  let vars := notify_vars b dir in
  let g1 := get_cmd vars watermark in
  run (installNotify mode path target) b = Ret tt /\
  cmds (exec (installNotify mode path target) b) =
    cmds b ++ (if str_empty tv then []
               else [g1; get_cmd vars "rollback_protection"] ++
                 if bool_decide (env_value (shell g1 (world b)).1 = Some tv) then []
                 else [upgrade_cmd vars]).
Proof.
  intros Hm Hd. cbn zeta. unfold installNotify, notify_dir, notify_vars in *.
  pose proof (notify_upgrade_cmds (sha256Hash target) (mkBL (world b)
    (notify_vars b dir) (cmds b)) Hm) as [R C]. unfold notify_vars, run, exec in *.
  destruct mode; try done; mstep; [by destruct b|by destruct b|]. by rewrite Hd.
Qed.

(** Without a bootloader environment the hook runs no command, and the bootloader is reported
    as neither updating nor protected against rollbacks. *)
Theorem no_bootloader_env (target : UTarget) (b : BL W) :
  getCmds mode = None ->
  installNotify mode path target b = (Ret tt, b) /\
  lite_isUpdateInProgress mode b = (Ret false, b) /\
  lite_isRollbackProtectionEnabled mode b = (Ret false, b).
Proof. unfold lite_isUpdateInProgress, lite_isRollbackProtectionEnabled. destruct mode; done. Qed.
End installNotify.

(** ** A concrete system: the firmware environment as a map *)

Definition sample_world : Type := gmap string string.

(** [fw_printenv -n <var>] and [fw_setenv <var> <val>] on the environment. *)
#[export] Instance sample_boot_world : BootWorld sample_world := {|
  shell cmd w :=
    match w !! cmd with Some v => ((0, v +:+ String "010" ""), w) | None => ((1, "error"), w) end;
  list_dir _ _ := Ret [("/deploy/abc.0", true); ("/deploy/abc.0.origin", false)];
  read_file _ f := if String.eqb f ("/deploy/abc.0" +:+ VersionFile)
                   then Some ("bootfirmware_version=2" +:+ String "010" "") else None;
  repo_readFile _ _ _ := Ret ("bootfirmware_version=2" +:+ String "010" "");
  show_mode _ := "mode";
|}.

Definition sample_bl : BL sample_world :=
  mkBL (<[" fw_printenv -n bootfirmware_version" := "1"]> ∅) "" [].

Definition sample_sha (sha : string) : UTarget :=
  {| filename := "t"; sha256Hash := sha; target_length := 0; custom_data := JNull; correlation_id := "";
     target_type := ""; IsValid := true |}.

Lemma installNotify_cmds_witness :
  run (installNotify kUbootMasked "/deploy" (sample_sha "abc")) sample_bl = Ret tt /\
  cmds (exec (installNotify kUbootMasked "/deploy" (sample_sha "abc")) sample_bl) =
    [" fw_printenv -n bootfirmware_version"; " fw_printenv -n rollback_protection";
     " fw_setenv bootupgrade_available 1"].
Proof.
  destruct (installNotify_cmds kUbootMasked "/deploy" (sample_sha "abc") sample_bl ""
              ltac:(done) ltac:(reflexivity)) as [R C].
  split; [exact R|]. rewrite C. vm_compute. reflexivity.
Defined.

Lemma no_bootloader_env_witness :
  installNotify kUbootGeneric "/deploy" (sample_sha "abc") sample_bl = (Ret tt, sample_bl).
Proof. apply (no_bootloader_env kUbootGeneric "/deploy" (sample_sha "abc") sample_bl). reflexivity. Defined.
