(* ===== verification/Sample.v ===== *)
(** * A concrete platform

    A small device on which the definitions run: a storage of versions, a
    sysroot with a current and a pending deployment and a boot firmware
    version, and an app engine that keeps the fetched and the running apps.
    The theorems are instantiated on it. *)

From S2P Require Import Prelude Json Targets Registry Volume Platform Bootloader.

Definition SimpleCode (r : InstallationResult) : bool := bool_decide (result_code r = kOk).

#[export] Instance simple_results : InstallationResults := {|
  isSuccess := SimpleCode;
  needCompletion r := bool_decide (result_code r = kNeedCompletion);
|}.
#[export] Instance simple_results_spec : InstallationResultsSpec.
Proof.
  split; cbn; unfold SimpleCode; intros r; [| |by intros r' ->|].
  - intros E. by apply bool_decide_eq_true.
  - intros E. apply bool_decide_eq_false. intros E'. rewrite E' in E.
    by apply list_elem_of_In in E; cbn in E; naive_solver.
  - apply bool_decide_eq_true.
Qed.

(** ** Storage *)
Record SimpleDB := { s_current : option UTarget; s_pending : option UTarget; s_log : list UTarget;
                     s_bad : list UTarget; s_targets : list UTarget }.

Definition same_version (a b : UTarget) : bool :=
  String.eqb (sha256Hash a) (sha256Hash b) && String.eqb (filename a) (filename b).

Definition simple_save (t : UTarget) (m : InstalledVersionUpdateMode) (d : SimpleDB) : SimpleDB :=
  match m with
  | kPending => {| s_current := s_current d; s_pending := Some t; s_log := s_log d; s_bad := s_bad d; s_targets := s_targets d |}
  | kCurrent => {| s_current := Some t; s_pending := None; s_log := s_log d ++ [t]; s_bad := s_bad d; s_targets := s_targets d |}
  | kNone | kBadTarget =>
      {| s_current := s_current d;
         s_pending := match s_pending d with
                      | Some p => if same_version p t then None else Some p
                      | None => None
                      end;
         s_log := s_log d;
         s_bad := s_bad d ++ [t];
         s_targets := s_targets d |}
  end.

#[export] Instance simple_storage : INvStorage SimpleDB := {|
  saveInstalledVersion := simple_save;
  loadInstalledVersions d := (s_current d, s_pending d);
  loadInstallationLog only_installed allow_current d :=
    if only_installed then s_log d else s_log d ++ s_bad d;
  loadEcuInstallationLog only_installed d := if only_installed then s_log d else s_log d ++ s_bad d;
|}.
#[export] Instance simple_storage_spec : INvStorageSpec SimpleDB.
Proof.
  split; cbn; try done.
  - intros t d p E H1 H2. rewrite E. unfold same_version. by rewrite H1, H2, !String.eqb_refl.
  - by intros t d ->.
  - intros t d. destruct (s_pending d) as [p|]; [destruct (same_version p t)|]; set_solver.
Qed.

(** The TUF metadata are always up to date. *)
#[export] Instance simple_repo : TufRepo SimpleDB := {|
  repo_updateMeta d := (Ret tt, d);
  repo_checkMetaOffline d := (Ret tt, d);
  repo_updateRoot _ d := (Ret tt, d);
  clearMetadata d := d;
  has_root_v2 _ := true;
  roles := ["Root"; "Targets"; "Snapshot"; "Timestamp"];
  role_Root := "Root";
  role_Targets := "Targets";
  load_latest_root _ := Some "root";
  load_non_root _ role := Some role;
  extractVersionUntrusted _ := 1;
  parse_meta m := JObject [("signed", JString m)];
  make_Targets _ := Ret [];
  image_targets := s_targets;
|}.

(** ** Sysroot *)
Record SimpleSR := { sr_current : string; sr_pending : string; sr_good_url : string;
                     sr_fw : string; sr_protected : bool; sr_upgrading : bool;
                     sr_commits : list string }.

Definition simple_target (name sha : string) : UTarget := simple_make name (target_json sha 0 JNull).
Definition simple_unknown : UTarget := simple_target "unknown" "".

Definition simple_getCurrent (d : SimpleDB) (x : SimpleSR) : UTarget :=
  match find_last (fun t => String.eqb (sha256Hash t) (sr_current x)) (s_log d) with
  | Some t => t
  | None => simple_make "unknown" (target_json (sr_current x) 0 JNull)
  end.

Definition set_sr_pending (h : string) (x : SimpleSR) : SimpleSR :=
  {| sr_current := sr_current x; sr_pending := h; sr_good_url := sr_good_url x; sr_fw := sr_fw x;
     sr_protected := sr_protected x; sr_upgrading := sr_upgrading x; sr_commits := sr_commits x |}.

Definition add_commit (h : string) (x : SimpleSR) : SimpleSR :=
  {| sr_current := sr_current x; sr_pending := sr_pending x; sr_good_url := sr_good_url x; sr_fw := sr_fw x;
     sr_protected := sr_protected x; sr_upgrading := sr_upgrading x; sr_commits := h :: sr_commits x |}.

#[export] Instance simple_ostree : Ostree SimpleDB SimpleSR := {|
  getCurrent := simple_getCurrent;
  ostree_install t x := (Ret (IR kNeedCompletion "reboot"), set_sr_pending (sha256Hash t) x);
  ostree_finalizeInstall t x :=
    (Ret (if String.eqb (sr_current x) (sha256Hash t) then IR kOk "booted" else IR kInstallFailed "wrong version"), x);
  ostree_verifyTarget t x := if mem (sha256Hash t) (sr_current x :: sr_commits x) then kGood else kNotFound;
  pull url t _ _ x :=
    if String.eqb url (sr_good_url x) then (Ret (IR kOk ""), add_commit (sha256Hash t) x)
    else (Ret (IR kDownloadFailed "not reachable"), x);
  addRemote _ _ _ x := (Ret tt, x);
  updateNotify x := x;
  ostree_installNotify _ x := x;
  reload x := x;
  getDeploymentHash x d := match d with DCurrent => sr_current x | DPending => sr_pending x | DRollback => "" end;
|}.

#[export] Instance simple_boot : BootFwUpdateStatus SimpleSR := {|
  isUpdateInProgress x := (Ret (sr_upgrading x), x);
  isUpdateSupported := true;
  isRollbackProtectionEnabled x := (Ret (sr_protected x), x);
  getTargetVersion h x := (Ret h, x);
  getCurrentVersion x := (Ret (sr_fw x, true), x);
|}.

(** ** App engine: an app can be fetched if its URI is known to the registry *)
Record SimpleEN := { e_registry : list string; e_fetched : list App; e_running : list App;
                     e_installed : list App }.

Definition simple_result (r : ResultID) : Result := {| status := r; res_err := ""; stat := UsageInfo_err "" |}.
Definition apps_without (a : App) (l : list App) : list App := filter (fun b => b <> a) l.

#[export] Instance simple_engine : AppEngine SimpleEN := {|
  fetch a e :=
    if mem (app_uri a) (e_registry e)
    then (Ret (simple_result OK), {| e_registry := e_registry e; e_fetched := a :: e_fetched e;
                                     e_running := e_running e; e_installed := e_installed e |})
    else (Ret (simple_result Failed), e);
  verify a e := (Ret (simple_result OK), e);
  install a e :=
    if apps_contain (e_fetched e) a
    then (Ret (simple_result OK), {| e_registry := e_registry e; e_fetched := e_fetched e;
                                     e_running := e_running e; e_installed := a :: e_installed e |})
    else (Ret (simple_result Failed), e);
  run_app a e :=
    if apps_contain (e_fetched e) a
    then (Ret (simple_result OK), {| e_registry := e_registry e; e_fetched := e_fetched e;
                                     e_running := a :: e_running e; e_installed := a :: e_installed e |})
    else (Ret (simple_result ImagePullFailure), e);
  stop a e := (Ret tt, {| e_registry := e_registry e; e_fetched := e_fetched e;
                          e_running := apps_without a (e_running e); e_installed := e_installed e |});
  remove a e := (Ret tt, {| e_registry := e_registry e; e_fetched := apps_without a (e_fetched e);
                            e_running := apps_without a (e_running e);
                            e_installed := apps_without a (e_installed e) |});
  prune l e := (Ret tt, {| e_registry := e_registry e; e_fetched := filter (fun a => a ∈ l) (e_fetched e);
                           e_running := e_running e; e_installed := e_installed e |});
  isFetched e a := apps_contain (e_fetched e) a;
  isRunning e a := apps_contain (e_running e) a;
  getInstalledApps e := Ret (e_installed e);
  getRunningAppsInfo e :=
    Ret (JObject ((fun a => (app_name a, JObject [("uri", JString (app_uri a)); ("state", JString "healthy")]))
                  <$> e_running e));
  app_dirs e := Some (app_name <$> e_installed e);
|}.

#[export] Instance simple_engine_spec : AppEngineSpec (fun _ => True) (fun _ : SimpleEN => True).
Proof.
  split; cbn; unfold apps_contain.
  - done.
  - intros a e r e' _ _. destruct (mem _ _); intros [= <- <-]; [|done]. intros _. apply bool_decide_eq_true. set_solver.
  - intros a b e r e' _ _. destruct (mem _ _); intros [= <- <-]; [|done]. rewrite !bool_decide_eq_true. set_solver.
Qed.

Definition SimpleSt : Type := St SimpleDB SimpleSR SimpleEN.

(** A device booted on the commit [cur], recorded as the version [name], with
    [reg] the URIs of the registry. *)
Definition simple_device (name cur : string) (reg : list string) : SimpleSt :=
  {| db := {| s_current := Some (simple_target name cur); s_pending := None;
              s_log := [simple_target name cur]; s_bad := []; s_targets := [] |};
     sr := {| sr_current := cur; sr_pending := ""; sr_good_url := "https://good"; sr_fw := "2";
              sr_protected := true; sr_upgrading := false; sr_commits := [] |};
     en := {| e_registry := reg; e_fetched := []; e_running := []; e_installed := [] |};
     trace := []; cur_apps_to_fetch_and_update := ∅; cur_apps_to_fetch := ∅; are_apps_checked := false;
     is_reboot_required := false; request_headers := ∅;
     cl := {| last_network_info_reported := JNull; hwinfo_reported := false; apps_state_ := JNull;
              tuf_update_details := ∅; targets_ := None |} |}.
