(* ===== verification/RootfsTree.v ===== *)
(** * The root file system package manager

    [RootfsTreeManager] ([src/src/rootfstreemanager.cc]): download of an ostree
    commit from the remotes the gateway names, with the check of the storage by
    the static delta statistics, its installation, and the protection against a
    rollback of the boot firmware. *)

From S2P Require Import Prelude Json Targets Registry Volume Platform Sysroot Bootloader Sample.

(** ** [DownloadResult] *)
Inductive DownloadStatus := DOk | DownloadFailed | VerificationFailed | DownloadFailed_NoSpace.
#[export] Instance DownloadStatus_eq_dec : EqDecision DownloadStatus.
Proof. solve_decision. Defined.

Record DownloadResult := {
  dr_status : DownloadStatus;
  dr_description : string;
  destination_path : string;
  dr_stat : UsageInfo;
}.
Definition DR (st : DownloadStatus) (d p : string) : DownloadResult :=
  {| dr_status := st; dr_description := d; destination_path := p; dr_stat := UsageInfo_err "" |}.
Definition DR_stat (st : DownloadStatus) (d p : string) (u : UsageInfo) : DownloadResult :=
  {| dr_status := st; dr_description := d; destination_path := p; dr_stat := u |}.
Definition DR_bool (r : DownloadResult) : bool := bool_decide (dr_status r = DOk).
Definition DR_noSpace (r : DownloadResult) : bool := bool_decide (dr_status r = DownloadFailed_NoSpace).

(** ** Configuration and remotes *)

(** [Config::UpdateBlock] from the extra parameters *)
Definition UpdateBlockParamName : string := "ostree_update_block".
Definition UpdateBlock (extra : gmap string string) : bool :=
  match extra !! UpdateBlockParamName with
  | Some val => negb (String.eqb val "0") && negb (String.eqb val "false")
  | None => true
  end.

Record Remote := {
  remote_name : string;
  baseUrl : string;
  headers : gmap string string;
  remote_keys : bool;
  isRemoteSet : bool;
}.

Record DeltaStatsRef := { ref_sha256 : string; ref_size : Z }.
Record DeltaStat := { delta_size : Z; uncompressedSize : Z }.

(** What the manager is constructed with, and the libraries it calls:
    [gateway_post] posts to the device gateway, [cast_u64] is
    [boost::lexical_cast<uint64_t>] and [cast_what] the text of its exception,
    [stat_env] and [reserved_pct] describe the volume of the repository. *)
Record RootfsEnv (SR : Type) := {
  update_block : bool;
  remote : string;
  ostree_server : string;
  gateway_url : string;
  repoPath : string;
  gateway_post : string -> HttpResponse;
  http : RegistryEnv;
  cast_u64 : string -> option Z;
  cast_what : string;
  stat_env : SR -> StatEnv;
  reserved_pct : SR -> outcome Z;
}.
Arguments update_block {SR}.
Arguments remote {SR}.
Arguments ostree_server {SR}.
Arguments gateway_url {SR}.
Arguments repoPath {SR}.
Arguments gateway_post {SR}.
Arguments http {SR}.
Arguments cast_u64 {SR}.
Arguments cast_what {SR}.
Arguments stat_env {SR}.
Arguments reserved_pct {SR}.

(** ** Static delta statistics *)

Definition getDeltaStatsRef (v : json) : outcome (option DeltaStatsRef) :=
  has ← jisMember v "delta-stats";
  if negb has then mret None
  else
    ref ← jindex v "delta-stats";
    has_sha ← jisMember ref "sha256";
    sha ← (if has_sha : bool then jindex ref "sha256" else mret JNull);
    if negb has_sha || negb (jisString sha) then mret None
    else
      has_size ← jisMember ref "size";
      sz ← (if has_size : bool then jindex ref "size" else mret JNull);
      if negb has_size || negb (jisUInt sz) then mret None
      else
        sha_str ← jasString sha; sz_int ← jasUInt64 sz;
        mret (Some {| ref_sha256 := sha_str; ref_size := sz_int |}).

Definition DeltaStatsMaxSize : Z := 1024 * 1024.

Definition downloadDeltaStats (env : RegistryEnv) (ref : DeltaStatsRef) (r : Remote) : json :=
  let uri := baseUrl r +:+ "/delta-stats/" +:+ ref_sha256 ref in
  if DeltaStatsMaxSize <? ref_size ref then JNull
  else
    let extra_headers := (fun h : string * string => h.1 +:+ ": " +:+ h.2) <$> map_to_list (headers r) in
    let resp := http_get env extra_headers uri (ref_size ref) in
    if negb (isOk resp) then JNull
    else if negb (len (body resp) =? ref_size ref) then JNull
    else if negb (String.eqb (sha256_hex env (body resp)) (ref_sha256 ref)) then JNull
    else parseJSON env (body resp).

Definition uint64_field (v : json) (k : string) : outcome (option Z) :=
  has ← jisMember v k;
  x ← (if has : bool then jindex v k else mret JNull);
  if negb has || negb (jisUInt64 x) then mret None else z ← jasUInt64 x; mret (Some z).

Definition findDeltaStatForUpdate (delta_stats : json) (from to : string) : outcome (option DeltaStat) :=
  has ← jisMember delta_stats to;
  if negb has then mret None
  else
    to_json ← jindex delta_stats to;
    let found_delta :=
      match List.find (fun p : string * json => String.eqb p.1 from) (jitems to_json) with
      | Some p => p.2
      | None => JNull
      end in
    if jisNull found_delta then mret None
    else
      sz ← uint64_field found_delta "size";
      match sz with
      | None => mret None
      | Some sz =>
          usz ← uint64_field found_delta "u_size";
          mret (match usz with
                | None => None
                | Some usz => Some {| delta_size := sz; uncompressedSize := usz |}
                end)
      end.

(** [0 == url.find_first_of("file://")]: the first character is one of these. *)
Definition looks_local (url : string) : bool :=
  match url with String c _ => is_any_of "file://" c | EmptyString => false end.

Definition getDeltaStatIfAvailable (env : RegistryEnv) (current_hash : string) (target : TufTarget)
    (r : Remote) : option DeltaStat :=
  if looks_local (baseUrl r) then None
  else
    match (ref ← getDeltaStatsRef (Custom target);
           match ref with
           | None => mret None
           | Some ref =>
               let delta_stats_json := downloadDeltaStats env ref r in
               if jisNull delta_stats_json then mret None
               else findDeltaStatForUpdate delta_stats_json current_hash (Sha256Hash target)
           end) with
    | Ret res => res
    | Throw _ => None
    end.

(** The text of ostree errors that stand for a lack of storage *)
Definition pull_no_space (description : string) : bool :=
  (str_contains "would be exceeded, at least" description &&
   (str_contains "min-free-space-size" description || str_contains "min-free-space-percent" description)) ||
  (str_contains "Delta requires" description && str_contains "free space, but only" description).

(** ** The manager *)
Section rootfs.
Context {DB SR EN : Type}.
Context `{INvStorage DB, Ostree DB SR, BootFwUpdateStatus SR, InstallationResults, UptaneTargets}.
Context (env : RootfsEnv SR).
Abbreviation S := (St DB SR EN).

Definition rootfs_getUsageInfo : M S UsageInfo :=
  pct ← gets (fun s => reserved_pct env (sr s)); pct ← lift pct;
  gets (fun s => getUsageInfo (stat_env env (sr s)) (repoPath env) pct ReservedStorageSpacePercentageOstreeParamName).

Definition getCurrentHash (s : S) : string := getDeploymentHash (sr s) DCurrent.

Fixpoint add_remotes (target_name : string) (its : list json) (remotes : list Remote)
    : outcome (list Remote) :=
  match its with
  | [] => mret remotes
  | it :: its' =>
      url ← jstring_at it "download_url";
      token ← jstring_at it "access_token";
      add_remotes target_name its'
        ({| remote_name := "gcs"; baseUrl := url;
            headers := <["X-Correlation-ID" := target_name]>
                         {["Authorization" := "Bearer " +:+ token]};
            remote_keys := false; isRemoteSet := false |} :: remotes)
  end.

Definition getAdditionalRemotes (remotes : list Remote) (target_name : string) : outcome (list Remote) :=
  let resp := gateway_post env (gateway_url env +:+ "/download-urls") in
  if negb (isOk resp) then mret remotes
  else add_remotes target_name (jelems (parseJSON (http env) (body resp))) remotes.

Definition setRemote (r : Remote) : M S unit := on_sr (addRemote (remote_name r) (baseUrl r) (remote_keys r)).

(** The storage check before a pull: the answer that ends the download, or the
    usage info to go on with. *)
Definition pre_pull_check (delta_stat : option DeltaStat) (pre : UsageInfo) : DownloadResult + UsageInfo :=
  match delta_stat with
  | Some d =>
      let pre' := withRequired pre (uncompressedSize d) in
      if UsageInfo_isOk pre && (available pre <? uncompressedSize d) then
        inl (DR_stat DownloadFailed_NoSpace ("Insufficient storage available; " +:+ UsageInfo_str pre')
               (repoPath env) pre')
      else inr pre'
  | None =>
      if UsageInfo_isOk pre && (available pre =? 0) then
        let pre' := withRequired pre (4096 * 10) in
        inl (DR_stat DownloadFailed_NoSpace ("No available storage left; " +:+ UsageInfo_str pre')
               (repoPath env) pre')
      else inr pre
  end.

(** The loop over the remotes, [res] and [error_desc] being its variables. *)
Fixpoint download_loop (target : TufTarget) (remotes : list Remote) (error_desc : string)
    (res : DownloadResult) : M S DownloadResult :=
  match remotes with
  | [] => mret res
  | r :: remotes' =>
      (if negb (isRemoteSet r) then setRemote r else mret tt);;
      current_hash ← gets getCurrentHash;
      let delta_stat := getDeltaStatIfAvailable (http env) current_hash target r in
      pre ← rootfs_getUsageInfo;
      match pre_pull_check delta_stat pre with
      | inl no_space => mret no_space
      | inr pre =>
          pull_err ← do_pull (baseUrl r) (fromTufTarget target)
                       (if isRemoteSet r then None else Some (remote_name r)) (headers r);
          post ← rootfs_getUsageInfo;
          let usage := "before ostree pull; " +:+ UsageInfo_str pre +:+ String "010" ""
                       +:+ "after ostree pull; " +:+ UsageInfo_str post in
          if isSuccess pull_err then mret (DR DOk usage (repoPath env))
          else if pull_no_space (description pull_err) then
            mret (DR_stat DownloadFailed_NoSpace
                    ("Insufficient storage available; " +:+ description pull_err
                     +:+ String "010" "" +:+ usage) (repoPath env)
                    (match delta_stat with
                     | Some d => withRequired post (uncompressedSize d)
                     | None => withRequired post (to_u64 (available post + 4096 * 10))
                     end))
          else
            let error_desc := error_desc +:+ description pull_err +:+ String "010" "" +:+ usage in
            download_loop target remotes' error_desc (DR DownloadFailed error_desc (repoPath env))
      end
  end.

Definition rootfs_remotes (target : TufTarget) : outcome (list Remote) :=
  let remotes := [ {| remote_name := remote env; baseUrl := ostree_server env;
                      headers := {["X-Correlation-ID" := Name target]};
                      remote_keys := true; isRemoteSet := false |} ] in
  if negb (str_empty (ostree_server env)) && starts_with "http" (ostree_server env)
  then getAdditionalRemotes remotes (Name target) else mret remotes.

Definition rootfs_Download (target : TufTarget) : M S DownloadResult :=
  remotes ← lift (rootfs_remotes target);
  download_loop target remotes "" (DR DOk "" "").

(** *** Installation *)

(** The second half of [verifyBootloaderUpdate]. *)
Definition check_rollback_protection (target : UTarget) : M S InstallationResult :=
  protected ← on_sr isRollbackProtectionEnabled;
  if negb protected then mret (IR kOk "")
  else
    ver ← try_catch (v ← on_sr (getTargetVersion (sha256Hash target)); mret (inl v))
            (fun e => mret (inr (if decide (exn_kind e = invalid_argument)
                                 then IR kInstallFailed (what e) else IR kOk "")));
    match ver with
    | inr res => mret res
    | inl target_ver_str =>
        match cast_u64 env target_ver_str with
        | None => mret (IR kInstallFailed (cast_what env))
        | Some target_ver =>
            '(cur, is_current_ver_valid) ← on_sr getCurrentVersion;
            let cur_ver_str := if is_current_ver_valid : bool then cur else "0" in
            let cur_ver := default 0 (cast_u64 env cur_ver_str) in
            if target_ver <? cur_ver then
              mret (IR kInstallFailed ("bootloader rollback from version " +:+ cur_ver_str +:+ " to "
                                       +:+ target_ver_str +:+ " has been detected"))
            else mret (IR kOk "")
        end
    end.

Definition verifyBootloaderUpdate (target : UTarget) : M S InstallationResult :=
  in_progress ← (if update_block env then on_sr isUpdateInProgress else mret false);
  if in_progress : bool then mret (IR kNeedCompletion "bootloader update is in progress")
  else check_rollback_protection target.

(** [RootfsTreeManager::installNotify] *)
Definition rootfs_installNotify (target : UTarget) : M S unit :=
  modify (fun s => set_sr (reload (sr s)) s);; do_installNotify target.

(** The method of the old interface *)
Definition rootfs_fetchTarget : M S bool :=
  throwM runtime_error "Using obsolete method of package manager: fetchTarget()".

Definition same_as_current : InstallationResult := IR kOk "OSTree hash already installed, same as current".

Definition rootfs_install (target : UTarget) : M S InstallationResult :=
  cur ← current;
  let same := String.eqb (sha256Hash cur) (sha256Hash target) in
  verified ← (if negb same && isUpdateSupported then verifyBootloaderUpdate target else mret (IR kOk ""));
  if negb (is_code verified kOk) then mret verified
  else
    pending_hash ← gets (fun s => getDeploymentHash (sr s) DPending);
    if negb same || (negb (str_empty pending_hash) && negb (String.eqb pending_hash (sha256Hash target))) then
      do_updateNotify;;
      res ← do_ostree_install target;
      if is_code res kInstallFailed then mret res
      else
        rootfs_installNotify target;;
        if same && is_code res kNeedCompletion then do_updateNotify;; mret same_as_current
        else mret res
    else mret same_as_current.

Definition rootfs_Install (target : TufTarget) : M S InstallationResult :=
  rootfs_install (fromTufTarget target).

(** [completeInitialTarget] is virtual. *)
Definition setInitialTargetIfNeeded (completeInitialTarget : UTarget -> M S UTarget) (hw_id : string)
    : M S unit :=
  cur ← current;
  if negb (isUnknown cur) then mret tt
  else try_catch (init_target ← completeInitialTarget (toInitial cur hw_id);
                  do_save init_target kCurrent)
         (fun _ => mret tt).
End rootfs.

(** ** The bootloader's answers

    What the package manager relies on: the queries answer from a view of the
    bootloader and leave that view as it is. *)
Record BootView := {
  v_in_progress : bool;
  v_protected : bool;
  v_target_version : string -> outcome string;
  v_current_version : string * bool;
}.

Class BootFwUpdateStatusSpec (SR : Type) `{BootFwUpdateStatus SR} := {
  boot_view : SR -> BootView;
  in_progress_view x : exists x',
    isUpdateInProgress x = (Ret (v_in_progress (boot_view x)), x') /\ boot_view x' = boot_view x;
  protected_view x : exists x',
    isRollbackProtectionEnabled x = (Ret (v_protected (boot_view x)), x') /\ boot_view x' = boot_view x;
  target_version_view h x : exists x',
    getTargetVersion h x = (v_target_version (boot_view x) h, x') /\ boot_view x' = boot_view x;
  current_version_view x : exists x',
    getCurrentVersion x = (Ret (v_current_version (boot_view x)), x') /\ boot_view x' = boot_view x;
}.

(** [BootloaderLite] is such a bootloader when reading a variable changes nothing. *)
Section lite_spec.
Context {W : Type} `{BootWorld W} (mode : RollbackMode).
Hypothesis get_pure : forall cmd w, (shell cmd w).2 = w.

Definition read_var (b : BL W) (var : string) : string * bool := 
  match run (getEnvVar mode var) b with Ret r => r | Throw _ => ("", false) end.

Definition lite_view (b : BL W) : BootView := {|
  v_in_progress := lite_isUpdateSupported mode && (read_var b "bootupgrade_available").2
                   && String.eqb (read_var b "bootupgrade_available").1 "1";
  v_protected := lite_isUpdateSupported mode && (read_var b "rollback_protection").2
                 && String.eqb (read_var b "rollback_protection").1 "1";
  v_target_version h := run (lite_getTargetVersion h) b;
  v_current_version := read_var b watermark;
|}.

Lemma getEnvVar_view (b : BL W) var : exists b',
  getEnvVar mode var b = (Ret (read_var b var), b') /\ lite_view b' = lite_view b.
Proof.
  unfold read_var, run. unfold getEnvVar at 1 2. destruct (str_empty (get_env_cmd mode)) eqn:Hc.
  - exists b. done.
  - unfold run_shell. mstep. pose proof (get_pure (env_cmd_vars b +:+ " " +:+ get_env_cmd mode +:+ " " +:+ var)
      (world b)) as Hp. destruct (shell _ (world b)) as [[rc out] w]. cbn in Hp. subst w. cbn [fst snd].
    assert (Hv : forall c, lite_view (mkBL (world b) (env_cmd_vars b) c) = lite_view b).
    { intros c. assert (Hr : forall v, read_var (mkBL (world b) (env_cmd_vars b) c) v = read_var b v).
      { intros v. unfold read_var, run, getEnvVar, run_shell. rewrite Hc. mstep. cbn [env_cmd_vars world].
        destruct (shell _ _) as [[rc' out'] w']. by destruct (rc' =? 0). }
      unfold lite_view. by rewrite !Hr. }
    destruct (rc =? 0); cbn [negb fst]; eexists; split; try reflexivity; apply Hv.
Qed.

Lemma flag_view (b : BL W) var : exists b',
  (if negb (lite_isUpdateSupported mode) then mret false
   else '(val, ok) ← getEnvVar mode var;
        if negb ok then mret false else mret (String.eqb val "1")) b =
  (Ret (lite_isUpdateSupported mode && (read_var b var).2 && String.eqb (read_var b var).1 "1"), b')
  /\ lite_view b' = lite_view b.
Proof.
  destruct (lite_isUpdateSupported mode); cbn [negb andb]; [|by exists b].
  destruct (getEnvVar_view b var) as (b' & E & V). exists b'. mstep. rewrite E.
  destruct (read_var b var) as [v []]; done.
Qed.

#[export] Instance BootloaderLiteSpec :
  @BootFwUpdateStatusSpec (BL W) (BootloaderLite mode).
Proof.
  refine {| boot_view := lite_view |}; cbn.
  - intros b. apply flag_view.
  - intros b. apply flag_view.
  - intros h b. exists b. done.
  - intros b. apply getEnvVar_view.
Defined.
End lite_spec.

(** ** Theorems *)

Lemma uint64_field_range v k z : uint64_field v k = Ret (Some z) -> is_u64 z.
Proof.
  unfold uint64_field. intros Hz. osplit Hz.
  destruct v0; cbn [negb orb] in Hz; [|done]. destruct (jisUInt64 v1) eqn:E; cbn [negb] in Hz; [|done].
  osplit Hz. injection Hz as <-. destruct v1; try done. cbn in E, Hv1. rewrite E in Hv1.
  injection Hv1 as <-. apply andb_true_iff in E as [E1 E2]. unfold is_u64, u64_max, u64_modulus. lia.
Qed.

Lemma findDelta_u64 v from to d :
  findDeltaStatForUpdate v from to = Ret (Some d) -> is_u64 (delta_size d) /\ is_u64 (uncompressedSize d).
Proof.
  unfold findDeltaStatForUpdate. intros Hf. osplit Hf. destruct v0; cbn [negb] in Hf; [|done]. osplit Hf.
  destruct (jisNull _); [done|]. osplit Hf. destruct v1 as [sz|]; [|done]. osplit Hf.
  destruct v1 as [usz|]; [|done]. injection Hf as <-. cbn. eauto using uint64_field_range.
Qed.

(** A static delta statistic is used for the size check only if it comes from the document the
    target refers to: at most 1 MiB, of exactly the referenced size and SHA256, and listing the pair
    of the current and the requested commit; the sizes are [uint64_t] values. *)
Theorem getDeltaStatIfAvailable_integrity (env : RegistryEnv) (cur : string) (target : TufTarget)
    (r : Remote) (d : DeltaStat) :
  getDeltaStatIfAvailable env cur target r = Some d ->
  exists ref hs, let resp := http_get env hs (baseUrl r +:+ "/delta-stats/" +:+ ref_sha256 ref) (ref_size ref) in
    getDeltaStatsRef (Custom target) = Ret (Some ref) /\
    ref_size ref <= DeltaStatsMaxSize /\ len (body resp) = ref_size ref /\
    sha256_hex env (body resp) = ref_sha256 ref /\
    findDeltaStatForUpdate (parseJSON env (body resp)) cur (Sha256Hash target) = Ret (Some d) /\
    is_u64 (delta_size d) /\ is_u64 (uncompressedSize d).
Proof.
  unfold getDeltaStatIfAvailable. destruct (looks_local _); [done|].
  destruct (getDeltaStatsRef (Custom target)) as [[ref|]|e] eqn:Hr; cbn [mbind outcome_bind mret outcome_ret];
    [|done..].
  unfold downloadDeltaStats. destruct (Z.ltb_spec DeltaStatsMaxSize (ref_size ref)); [done|].
  set (resp := http_get _ _ _ _). destruct (isOk resp); cbn [negb]; [|done].
  destruct (Z.eqb_spec (len (body resp)) (ref_size ref)); cbn [negb]; [|done].
  destruct (String.eqb_spec (sha256_hex env (body resp)) (ref_sha256 ref)); cbn [negb]; [|done].
  destruct (jisNull _); [done|].
  destruct (findDeltaStatForUpdate _ _ _) as [o|e'] eqn:Hf; [|done]. intros ->.
  eexists ref, _. cbn zeta. repeat split_and!; try done; clear -Hf.
  all: by apply findDelta_u64 in Hf as [[? ?] [? ?]].
Qed.

Section theorems.
Context {DB SR EN : Type}.
Context `{INvStorage DB, Ostree DB SR, BootFwUpdateStatus SR, InstallationResults, UptaneTargets}.
Context (env : RootfsEnv SR).
Abbreviation S := (St DB SR EN).

(** *** Download *)

Definition failed_pulls (h : string) (rs : list Remote) : list Event :=
  (fun r => EvPull (baseUrl r) h false) <$> rs.

(** How a download over [rs] ends: all the remotes of a prefix failed, and the
    next one, if any, decided. *)
Inductive download_end (h : string) : list Remote -> DownloadStatus -> list Event -> Prop :=
  | dl_ok rs r rs' :
      download_end h (rs ++ r :: rs') DOk (failed_pulls h rs ++ [EvPull (baseUrl r) h true])
  | dl_no_room rs r rs' : download_end h (rs ++ r :: rs') DownloadFailed_NoSpace (failed_pulls h rs)
  | dl_out_of_room rs r rs' :
      download_end h (rs ++ r :: rs') DownloadFailed_NoSpace
        (failed_pulls h rs ++ [EvPull (baseUrl r) h false])
  | dl_failed rs : rs <> [] -> download_end h rs DownloadFailed (failed_pulls h rs).

Lemma download_end_cons h r rs st evs :
  download_end h rs st evs -> download_end h (r :: rs) st (EvPull (baseUrl r) h false :: evs).
Proof.
  intros [rs0 r0 rs'|rs0 r0 rs'|rs0 r0 rs'|rs0 Hne].
  - apply (dl_ok h (r :: rs0)).
  - apply (dl_no_room h (r :: rs0)).
  - apply (dl_out_of_room h (r :: rs0)).
  - by apply (dl_failed h (r :: rs0)).
Qed.

Lemma on_sr_trace {A} (m : M SR A) (s : S) : trace (exec (on_sr m) s) = trace s.
Proof. unfold exec, on_sr. by destruct (m (sr s)). Qed.

Lemma setRemote_trace r (s s1 : S) o :
  (if negb (isRemoteSet r) then setRemote r else mret tt) s = (o, s1) -> trace s1 = trace s.
Proof.
  intros E. pose proof (on_sr_trace (addRemote (remote_name r) (baseUrl r) (remote_keys r)) s) as T.
  unfold exec, setRemote in *. destruct (isRemoteSet r); cbn in E; [by injection E as <- <-|].
  by rewrite E in T.
Qed.

Lemma do_pull_trace u t n h (s s1 : S) res :
  do_pull u t n h s = (Ret res, s1) -> trace s1 = trace s ++ [EvPull u (sha256Hash t) (isSuccess res)].
Proof.
  unfold do_pull, on_sr. mstep. destruct (pull u t n h (sr s)) as [[r|e] x]; [|done].
  cbn. by intros [= <- <-].
Qed.

(** The usage is read, nothing else. *)
Lemma rootfs_getUsageInfo_same (s s' : S) o : rootfs_getUsageInfo env s = (o, s') -> s' = s.
Proof. unfold rootfs_getUsageInfo. mstep. destruct (reserved_pct env (sr s)); cbn; by intros [= _ <-]. Qed.

Lemma download_loop_end target rs ed res0 (s s' : S) res :
  rs <> [] \/ dr_status res0 = DownloadFailed ->
  download_loop env target rs ed res0 s = (Ret res, s') ->
  exists evs, trace s' = trace s ++ evs /\
    (rs = [] /\ evs = [] /\ res = res0 \/ 
     download_end (sha256Hash (fromTufTarget target)) rs (dr_status res) evs).
Proof.
  revert ed res0 s. induction rs as [|r rs IH]; intros ed res0 s Hne.
  - intros [= <- <-]. exists []. rewrite List.app_nil_r. auto.
  - cbn [download_loop]. rewrite M_bind_Ret. intros ([] & s1 & E1 & E).
    apply setRemote_trace in E1. mstep.
    destruct (rootfs_getUsageInfo env s1) as [[pre0|e] s1'] eqn:Eu; [|done].
    apply rootfs_getUsageInfo_same in Eu as ->.
    destruct (pre_pull_check _ _ _) as [nr|pre] eqn:Hpre.
    { injection E as <- <-. exists []. rewrite List.app_nil_r. split; [done|]. right.
      assert (Hst : dr_status nr = DownloadFailed_NoSpace).
      { unfold pre_pull_check in Hpre. cases_in Hpre; by injection Hpre as <-. }
      rewrite Hst. apply (dl_no_room _ [] r rs). }
    destruct (do_pull _ _ _ _ s1) as [[pe|e] s2] eqn:E2; [|done].
    apply do_pull_trace in E2. rewrite E1 in E2.
    destruct (rootfs_getUsageInfo env s2) as [[post|e] s2'] eqn:Eu; [|done].
    apply rootfs_getUsageInfo_same in Eu as ->.
    destruct (isSuccess pe) eqn:Hs; [|destruct (pull_no_space _)].
    + injection E as <- <-. eexists. split; [exact E2|]. right. apply (dl_ok _ [] r rs).
    + injection E as <- <-. eexists. split; [exact E2|]. right. apply (dl_out_of_room _ [] r rs).
    + apply IH in E as (evs & T & Hend); [|by right].
      exists (EvPull (baseUrl r) (sha256Hash (fromTufTarget target)) false :: evs).
      rewrite T, E2, <- app_assoc. split; [done|]. right.
      destruct Hend as [(-> & -> & ->)|Hend].
      * by apply (dl_failed _ [r]).
      * by apply download_end_cons.
Qed.

Lemma add_remotes_nonempty n its rs rs' : rs <> [] -> add_remotes n its rs = Ret rs' -> rs' <> [].
Proof.
  revert rs. induction its as [|it its IH]; cbn; intros rs Hne E; [by injection E as <-|].
  osplit E. by eapply IH; [|exact E].
Qed.

Lemma rootfs_remotes_nonempty target rs : rootfs_remotes env target = Ret rs -> rs <> [].
Proof.
  unfold rootfs_remotes, getAdditionalRemotes. destruct (_ && _); [|by intros [= <-]].
  destruct (isOk _); cbn [negb]; [|by intros [= <-]]. by apply add_remotes_nonempty.
Qed.

(** A download tries the remotes in order, the gateway's first and the configured server last;
    it ends with success exactly at the first pull that succeeds, at a lack of storage without
    trying further remotes, and with a failure only after every remote failed. *)
Theorem rootfs_Download_end (target : TufTarget) (s s' : S) (res : DownloadResult) :
  rootfs_Download env target s = (Ret res, s') ->
  exists rs evs, rootfs_remotes env target = Ret rs /\ trace s' = trace s ++ evs /\
    download_end (sha256Hash (fromTufTarget target)) rs (dr_status res) evs.
Proof.
  unfold rootfs_Download. rewrite M_bind_Ret. intros (rs & s1 & E1 & E).
  injection E1 as Hrs <-.
  assert (Hne : rs <> []) by (by eapply rootfs_remotes_nonempty).
  destruct (download_loop_end target rs _ _ _ _ _ (or_introl Hne) E) as (evs & T & [(? & _)|Hend]); [done|].
  by exists rs, evs.
Qed.

(** If the volume of the ostree repository reports less available storage than the static delta
    needs, nothing is pulled from that remote: the download ends there with the no-space status,
    and its storage report carries the required amount. *)
Theorem download_no_room (target : TufTarget) (r : Remote) (rs : list Remote) (ed : string)
    (res0 : DownloadResult) (s s1 : S) (d : DeltaStat) (u : UsageInfo) :
  (if negb (isRemoteSet r) then setRemote r else mret tt) s = (Ret tt, s1) ->
  getDeltaStatIfAvailable (http env) (getCurrentHash s1) target r = Some d ->
  rootfs_getUsageInfo env s1 = (Ret u, s1) -> err u = "" -> available u < uncompressedSize d ->
  exists res, download_loop env target (r :: rs) ed res0 s = (Ret res, s1) /\ trace s1 = trace s /\
    dr_status res = DownloadFailed_NoSpace /\ required (dr_stat res) = uncompressedSize d /\
    available (dr_stat res) < required (dr_stat res).
Proof.
  intros E Hd Hu He Ha. pose proof (setRemote_trace _ _ _ _ E) as T.
  cbn [download_loop]. mstep. rewrite E. mstep. rewrite Hu, Hd. cbn [pre_pull_check].
  unfold UsageInfo_isOk. rewrite He. cbn [str_empty andb].
  rewrite (proj2 (Z.ltb_lt _ _) Ha). by eexists.
Qed.

(** *** Installation *)

Lemma verify_trace t (s : S) : trace (exec (verifyBootloaderUpdate env t) s) = trace s.
Proof.
  assert (P : preserves (emits (fun _ => False)) (verifyBootloaderUpdate env t : M S _)).
  { unfold verifyBootloaderUpdate, check_rollback_protection. pstep. }
  destruct (P s) as (evs & E & F). destruct evs as [|e evs]; [|by inversion F].
  by rewrite List.app_nil_r in E.
Qed.

(** What an installation of commit [h] did, with its result: nothing because the commit is already
    the current one, or because the bootloader check refused; a failed deployment; a deployment
    the bootloader is notified of; the removal of a pending deployment in favour of the current
    one. *)
Definition install_did (h : string) (same : bool) (verified r : outcome InstallationResult)
    (evs : list Event) : Prop :=
  (evs = [] /\ same = true /\ r = Ret same_as_current) \/
  (evs = [] /\ same = false /\ r = verified /\
     match r with Ret x => result_code x <> kOk | Throw _ => True end) \/
  (evs = [EvUpdateNotify; EvOstreeInstall h] /\
     match r with Ret x => result_code x = kInstallFailed | Throw _ => True end) \/
  (evs = [EvUpdateNotify; EvOstreeInstall h; EvInstallNotify h] /\
     exists x, r = Ret x /\ result_code x <> kInstallFailed /\
               (same = true -> result_code x <> kNeedCompletion)) \/
  (evs = [EvUpdateNotify; EvOstreeInstall h; EvInstallNotify h; EvUpdateNotify] /\
     same = true /\ r = Ret same_as_current).

Definition same_commit (s : S) (t : UTarget) : bool :=
  String.eqb (sha256Hash (getCurrent (db s) (sr s))) (sha256Hash t).

(** The deployment part of the installation. *)
Definition deploy (same : bool) (target : UTarget) : M S InstallationResult :=
  do_updateNotify;;
  res ← do_ostree_install target;
  if is_code res kInstallFailed then mret res
  else
    rootfs_installNotify target;;
    if same && is_code res kNeedCompletion then do_updateNotify;; mret same_as_current
    else mret res.

Lemma deploy_did same t v (s : S) :
  exists evs, trace (exec (deploy same t) s) = trace s ++ evs /\
    install_did (sha256Hash t) same v (run (deploy same t) s) evs.
Proof.
  unfold deploy, exec, run, rootfs_installNotify, do_installNotify, do_updateNotify, do_ostree_install, emit,
    on_sr. mstep. cbn [set_sr set_trace trace sr].
  destruct (ostree_install t (updateNotify (sr s))) as [[x|e] sr1] eqn:E; cbn.
  - unfold is_code. case_bool_decide as Hf; cbn.
    + eexists. rewrite <- app_assoc. split; [reflexivity|]. do 2 right. by left.
    + case_bool_decide as Hn; destruct same; cbn; eexists; rewrite <- !app_assoc;
        (split; [reflexivity|]); do 3 right; [by right|left..]; naive_solver.
  - eexists. rewrite <- app_assoc. split; [reflexivity|]. do 2 right. by left.
Qed.

(** Installing a root file system: nothing happens if the commit is current and nothing else is
    pending, or if the bootloader check refuses (its verdict is returned); otherwise the update is
    announced before the deployment, the bootloader is notified after it and only if it did not
    fail, and undeploying a pending target in favour of the current one is reported as done. *)
Theorem rootfs_install_cases (t : UTarget) (s : S) :
  exists evs, trace (exec (rootfs_install env t) s) = trace s ++ evs /\
    install_did (sha256Hash t) (same_commit s t) (run (verifyBootloaderUpdate env t) s)
      (run (rootfs_install env t) s) evs.
Proof.
  unfold rootfs_install, exec, run, current, same_commit. mstep.
  set (same := String.eqb _ _). pose proof (verify_trace t s) as Tv. unfold exec in Tv.
  fold (deploy same t).
  destruct (negb same && isUpdateSupported) eqn:Hv.
  - apply andb_true_iff in Hv as [Hs _]. apply negb_true_iff in Hs. rewrite Hs.
    destruct (verifyBootloaderUpdate env t s) as [[v|e] s1] eqn:Ev; cbn [fst snd] in *.
    + destruct (is_code v kOk) eqn:Hc; cbn [negb orb].
      * rewrite <- Tv. apply (deploy_did false t (Ret v) s1).
      * cbn. exists []. rewrite List.app_nil_r. split; [done|]. right. left.
        by apply bool_decide_eq_false in Hc.
    + exists []. rewrite List.app_nil_r. split; [done|]. right. by left.
  - cbn [is_code result_code IR negb]. unfold is_code. rewrite bool_decide_true by done. cbn [negb].
    set (dep := negb same || _). destruct dep eqn:Hd; cbn [fst snd].
    + apply deploy_did.
    + subst dep. apply orb_false_iff in Hd as [Hs _]. apply negb_false_iff in Hs. rewrite Hs.
      exists []. rewrite List.app_nil_r. split; [done|]. by left.
Qed.

(** *** Rollback protection of the boot firmware *)
Context `{!BootFwUpdateStatusSpec SR}.

(** The number the current boot firmware version stands for. *)
Definition current_fw (v : BootView) : Z :=
  default 0 (cast_u64 env (if (v_current_version v).2 then (v_current_version v).1 else "0")).

Lemma on_sr_view {A} (m : M SR A) (s : S) a x' :
  m (sr s) = (Ret a, x') -> on_sr m s = (Ret a, set_sr x' s).
Proof. unfold on_sr. by intros ->. Qed.

Lemma verify_refuses_rollback (t : UTarget) (s : S) tv n :
  let v := boot_view (sr s) in
  v_protected v = true -> v_target_version v (sha256Hash t) = Ret tv -> cast_u64 env tv = Some n ->
  n < current_fw v ->
  exists r, run (verifyBootloaderUpdate env t) s = Ret r /\
    result_code r = if update_block env && v_in_progress v then kNeedCompletion else kInstallFailed.
Proof.
  intros v Hp Ht Hn Hlt. unfold verifyBootloaderUpdate, run.
  assert (Hrest : forall s1 : S, boot_view (sr s1) = v -> exists r,
    (check_rollback_protection env t s1).1 = Ret r /\ result_code r = kInstallFailed).
  { intros s1 Hv1. destruct (protected_view (sr s1)) as (x2 & E2 & V2).
    unfold check_rollback_protection. mstep. rewrite (on_sr_view _ _ _ _ E2), Hv1, Hp. cbn [negb]. mstep.
    destruct (target_version_view (sha256Hash t) x2) as (x3 & E3 & V3).
    rewrite V2, Hv1, Ht in E3. unfold try_catch.
    rewrite (on_sr_view _ (set_sr x2 s1) _ _ E3), Hn.
    destruct (current_version_view x3) as (x4 & E4 & V4). rewrite V3, V2, Hv1 in E4.
    rewrite (on_sr_view _ (set_sr x3 (set_sr x2 s1)) _ _ E4).
    unfold current_fw in Hlt. destruct (v_current_version v) as [cv b]. cbn [fst snd] in Hlt.
    rewrite (proj2 (Z.ltb_lt _ _) Hlt). by eexists. }
  destruct (update_block env); cbn [andb].
  - destruct (in_progress_view (sr s)) as (x1 & E1 & V1). unfold mbind at 1, M_bind at 1.
    rewrite (on_sr_view _ _ _ _ E1). fold v. destruct (v_in_progress v); [by eexists|].
    apply (Hrest (set_sr x1 s)). exact V1.
  - apply (Hrest s). done.
Qed.

(** C23: With rollback protection on, a target whose boot firmware version is lower than the current
    one is never deployed: the installation fails (or asks for the pending firmware update to be
    completed first) and neither the bootloader nor the sysroot is told of it. *)
Theorem bootloader_rollback_blocked (t : UTarget) (s : S) (tv : string) (n : Z) :
  isUpdateSupported = true -> same_commit s t = false ->
  v_protected (boot_view (sr s)) = true ->
  v_target_version (boot_view (sr s)) (sha256Hash t) = Ret tv -> cast_u64 env tv = Some n ->
  n < current_fw (boot_view (sr s)) ->
  exists r, run (rootfs_install env t) s = Ret r /\
    result_code r = (if update_block env && v_in_progress (boot_view (sr s))
                     then kNeedCompletion else kInstallFailed) /\
    trace (exec (rootfs_install env t) s) = trace s.
Proof.
  intros Hsup Hsame Hp Ht Hn Hlt.
  destruct (verify_refuses_rollback t s tv n Hp Ht Hn Hlt) as (r & Er & Hr).
  pose proof (verify_trace t s) as Tv. exists r.
  unfold rootfs_install, exec, run, current, same_commit in *. mstep.
  rewrite Hsame, Hsup. cbn [negb andb].
  destruct (verifyBootloaderUpdate env t s) as [o s1]. cbn [fst snd] in *. subst o.
  assert (Hc : is_code r kOk = false) by (unfold is_code; rewrite Hr; by destruct (_ && _)).
  by rewrite Hc.
Qed.
End theorems.

(** *** What a download and an installation leave alone *)
Section frame.
Context {DB SR EN : Type}.
Context `{INvStorage DB, Ostree DB SR, BootFwUpdateStatus SR, InstallationResults, UptaneTargets}.
Context (env : RootfsEnv SR).
Abbreviation S := (St DB SR EN).

Lemma rootfs_Download_members t : preserves same_members (rootfs_Download env t : M S _).
Proof.
  unfold rootfs_Download. pstep.
  assert (G : forall rs ed res, preserves same_members (download_loop env t rs ed res : M S _)).
  { induction rs as [|r rs IH]; intros ed res; cbn [download_loop]; unfold setRemote, rootfs_getUsageInfo; pstep. }
  apply G.
Qed.
Lemma rootfs_Download_db t : preserves same_db (rootfs_Download env t : M S _).
Proof.
  unfold rootfs_Download. pstep.
  assert (G : forall rs ed res, preserves same_db (download_loop env t rs ed res : M S _)).
  { induction rs as [|r rs IH]; intros ed res; cbn [download_loop]; unfold setRemote, rootfs_getUsageInfo; pstep. }
  apply G.
Qed.
Lemma rootfs_Download_en t : preserves same_en (rootfs_Download env t : M S _).
Proof.
  unfold rootfs_Download. pstep.
  assert (G : forall rs ed res, preserves same_en (download_loop env t rs ed res : M S _)).
  { induction rs as [|r rs IH]; intros ed res; cbn [download_loop]; unfold setRemote, rootfs_getUsageInfo, do_pull; pstep. }
  apply G.
Qed.
Lemma rootfs_install_members t : preserves same_members (rootfs_install env t : M S _).
Proof.
  unfold rootfs_install, verifyBootloaderUpdate, check_rollback_protection, rootfs_installNotify. psolve.
Qed.
Lemma rootfs_install_db t : preserves same_db (rootfs_install env t : M S _).
Proof.
  unfold rootfs_install, verifyBootloaderUpdate, check_rollback_protection, rootfs_installNotify. psolve.
Qed.
End frame.
#[export] Hint Resolve rootfs_Download_members rootfs_Download_db rootfs_Download_en rootfs_install_members rootfs_install_db : aklite.

(** ** The theorems on the concrete platform *)

#[export] Instance simple_boot_spec : BootFwUpdateStatusSpec SimpleSR.
Proof.
  refine {| boot_view x := {| v_in_progress := sr_upgrading x; v_protected := sr_protected x;
                              v_target_version h := Ret h; v_current_version := (sr_fw x, true) |} |};
    intros; by eexists.
Defined.

(** The delta statistics of [abc -> def]: 4096 bytes. *)
Definition sample_stats : json :=
  JObject [("def", JObject [("abc", JObject [("size", JInt 100); ("u_size", JInt 4096)])])].
Definition sample_http : RegistryEnv := {|
  http_get _ _ _ := {| body := "stats"; http_status_code := 200; isOk := true; resp_headers := ∅ |};
  http_download _ _ := ([], {| body := ""; http_status_code := 404; isOk := false; resp_headers := ∅ |});
  ota_get _ _ := {| body := ""; http_status_code := 404; isOk := false; resp_headers := ∅ |};
  sha256_hex s := s;
  toBase64 s := s;
  parseJSON _ := sample_stats;
|}.

(** A gateway that names no further remote; [blocks] free blocks of 1024 bytes. *)
Definition sample_rootfs (blocks : Z) : RootfsEnv SimpleSR := {|
  update_block := true;
  remote := "aktualizr-remote";
  ostree_server := "https://good";
  gateway_url := "https://gateway";
  repoPath := "/sysroot/ostree/repo";
  gateway_post _ := {| body := ""; http_status_code := 404; isOk := false; resp_headers := ∅ |};
  http := sample_http;
  cast_u64 s := match s with "1" => Some 1 | "2" => Some 2 | "3" => Some 3 | _ => None end;
  cast_what := "bad lexical cast";
  stat_env _ := {| open_err _ := None;
                   fstatvfs _ := inr {| f_blocks := 100; f_bavail := blocks; f_bfree := blocks; f_bsize := 1024 |};
                   is_root := true |};
  reserved_pct _ := Ret 0;
|}.

Definition sample_update (sha : string) : TufTarget :=
  {| Name := "lmp-2"; Sha256Hash := sha; Version := 2;
     Custom := JObject [("delta-stats", JObject [("sha256", JString "stats"); ("size", JInt 5)])] |}.

Definition sample_remote : Remote :=
  {| remote_name := "aktualizr-remote"; baseUrl := "https://good";
     headers := {["X-Correlation-ID" := "lmp-2"]}; remote_keys := true; isRemoteSet := false |}.

Lemma getDeltaStatIfAvailable_integrity_witness :
  exists ref hs, let resp := http_get sample_http hs ("https://good/delta-stats/" +:+ ref_sha256 ref) (ref_size ref) in
    getDeltaStatsRef (Custom (sample_update "def")) = Ret (Some ref) /\ len (body resp) = ref_size ref.
Proof.
  destruct (getDeltaStatIfAvailable_integrity sample_http "abc" (sample_update "def") sample_remote
              {| delta_size := 100; uncompressedSize := 4096 |}) as (ref & hs & H1 & _ & H2 & _).
  { vm_compute. reflexivity. }
  exists ref, hs. split; [exact H1|exact H2].
Defined.

Lemma rootfs_Download_end_witness :
  exists rs evs, rootfs_remotes (sample_rootfs 50) (sample_update "def") = Ret rs /\
    trace (exec (rootfs_Download (sample_rootfs 50) (sample_update "def")) (simple_device "lmp-1" "abc" [])) = evs /\
    download_end (sha256Hash (fromTufTarget (sample_update "def"))) rs DOk evs.
Proof.
  destruct (rootfs_Download (sample_rootfs 50) (sample_update "def") (simple_device "lmp-1" "abc" []))
    as [[res|e] s'] eqn:E.
  - pose proof E as E'. vm_compute in E'. injection E' as <- <-.
    destruct (rootfs_Download_end _ _ _ _ _ E) as (rs & evs & H1 & H2 & H3).
    exists rs, evs. unfold exec. rewrite E. split; [exact H1|]. split; [exact H2|exact H3].
  - vm_compute in E. discriminate E.
Defined.

Lemma download_no_room_witness :
  exists res, download_loop (sample_rootfs 3) (sample_update "def") [sample_remote] "" (DR DOk "" "")
      (simple_device "lmp-1" "abc" []) = (Ret res, simple_device "lmp-1" "abc" []) /\
    dr_status res = DownloadFailed_NoSpace /\ required (dr_stat res) = 4096.
Proof.
  edestruct (download_no_room (sample_rootfs 3) (sample_update "def") sample_remote [] "" (DR DOk "" "")
              (simple_device "lmp-1" "abc" []) (simple_device "lmp-1" "abc" [])
              {| delta_size := 100; uncompressedSize := 4096 |}) as (res & H1 & _ & H2 & H3 & _);
    [reflexivity|vm_compute; reflexivity|reflexivity|reflexivity|vm_compute; reflexivity|].
  exists res. split; [exact H1|]. split; [exact H2|exact H3].
Defined.

Lemma bootloader_rollback_blocked_witness :
  exists r, run (rootfs_install (sample_rootfs 50) (simple_target "lmp-2" "1")) (simple_device "lmp-1" "abc" []) = Ret r
    /\ result_code r = kInstallFailed.
Proof.
  destruct (bootloader_rollback_blocked (sample_rootfs 50) (simple_target "lmp-2" "1")
              (simple_device "lmp-1" "abc" []) "1" 1) as (r & H1 & H2 & _);
    [reflexivity|vm_compute; reflexivity|reflexivity|reflexivity|reflexivity|vm_compute; reflexivity|].
  exists r. split; [exact H1|exact H2].
Defined.
