(* ===== verification/Reserve.v ===== *)
(** The reserved storage from its configuration to a download.

    ostree/sysroot.cc writes the configured percentage to the configuration of the ostree repository, and
    rootfstreemanager.cc reads it back before it pulls a commit. This file puts the two together. *)
From stdpp Require Import base strings list gmap.
From S2P Require Import Prelude Targets Registry Volume Platform Sysroot Bootloader Sample RootfsTree.

Section reserve.
Context {DB SR EN OS K P F ST SO D : Type}.
Context `{INvStorage DB, Ostree DB SR, BootFwUpdateStatus SR, InstallationResults, UptaneTargets}.
Context `{KeyFile K, LibOstree OS K P F ST, OstreeSysroot OS SO D}.
Context (remotes : OS -> P -> string -> option (string * goptions)).
Context `{!KeyFileSpec K, !LibOstreeSpec OS K P F ST remotes}.
Abbreviation S := (St DB SR EN).

(** The package manager has this sysroot: it is asked for the percentage, in the storage of libostree
    that belongs to the state of the device. *)
Definition uses_sysroot (env : RootfsEnv SR) (sys : Sysroot SO) (os_of : SR -> OS) : Prop :=
  forall x, reserved_pct env x = (reservedStorageSpacePercentageOstree sys (os_of x)).1.

(** What is kept free of a volume, and what is free of it *)
Definition reserve_bytes (fs : FsStat) (pct : Z) : Z := to_u64 (f_bsize fs * reserved_blocks (f_blocks fs) pct).
Definition free_bytes (e : StatEnv) (fs : FsStat) : Z :=
  to_u64 (f_bsize fs * (if is_root e then f_bfree fs else f_bavail fs)).
(** What a pull needs: the size of the static delta, or anything at all *)
Definition needed (delta_stat : option DeltaStat) : Z := from_option uncompressedSize 1 delta_stat.

Lemma getUsageInfo_ok e p fs pct by_ :
  open_err e p = None -> fstatvfs e p = inr fs ->
  let u := getUsageInfo e p pct by_ in
  UsageInfo_isOk u = true /\ available u = Z.max 0 (free_bytes e fs - reserve_bytes fs pct).
Proof.
  intros Ho Hf u. pose proof (getUsageInfo_available e p pct by_) as (_ & Ha & _). fold u in Ha.
  assert (Hu : free u = free_bytes e fs /\ reserved u = reserve_bytes fs pct /\ err u = "").
  { unfold u, getUsageInfo, getStat. rewrite Ho, Hf. done. }
  destruct Hu as (E1 & E2 & E3). unfold UsageInfo_isOk. by rewrite E3, Ha, E1, E2.
Qed.

Lemma pre_pull_refuses env d u :
  UsageInfo_isOk u = true -> 0 < needed d -> 0 <= available u < needed d ->
  exists res, pre_pull_check (SR := SR) env d u = inl res /\ dr_status res = DownloadFailed_NoSpace.
Proof.
  intros Ho Hn Ha. unfold pre_pull_check, needed in *. destruct d as [d|]; cbn in *; rewrite Ho; cbn.
  - rewrite (proj2 (Z.ltb_lt _ _)) by lia. by eexists.
  - rewrite (proj2 (Z.eqb_eq _ _)) by lia. by eexists.
Qed.

(** C36: the configured reserve is respected by a download. With a percentage between its limits in the
    configuration, a sysroot object that was made, and a repository whose configuration could be written, nothing
    is pulled from a remote if the free space less that percentage of the volume does not hold what the
    pull needs: the download ends with the status for a lack of space, or with an exception because the repository
    cannot be opened. *)
Theorem reserve_respected (cast : string -> option Z) (pconfig : SysrootPackageConfig) (v : Z) (t : string)
    (os os' : OS) (sys : Sysroot SO) (env : RootfsEnv SR) (os_of : SR -> OS) (target : TufTarget) (r : Remote)
    (rs : list Remote) (ed : string) (res0 : DownloadResult) (s s1 : S) (fs : FsStat) :
  pc_extra pconfig !! ReservedStorageSpacePercentageOstreeParamName = Some t -> cast t = Some v ->
  MinReservedStorageSpacePercentageOstree <= v <= MaxReservedStorageSpacePercentageOstree ->
  (forall p k o1, ostree_repo_open (pc_sysroot pconfig +:+ "/ostree/repo") os = (inr p, o1) ->
     exists o2, ostree_repo_write_config p k o1 = (inr tt, o2)) ->
  make_Sysroot cast pconfig os = (Ret sys, os') -> uses_sysroot env sys os_of -> os_of (sr s1) = os' ->
  (if negb (isRemoteSet r) then setRemote r else mret tt) s = (Ret tt, s1) ->
  open_err (stat_env env (sr s1)) (repoPath env) = None ->
  fstatvfs (stat_env env (sr s1)) (repoPath env) = inr fs ->
  let d := getDeltaStatIfAvailable (http env) (getCurrentHash s1) target r in
  0 < needed d -> free_bytes (stat_env env (sr s1)) fs < reserve_bytes fs v + needed d ->
  exists o, download_loop env target (r :: rs) ed res0 s = (o, s1) /\ trace s1 = trace s /\
    match o with
    | Ret res => dr_status res = DownloadFailed_NoSpace
    | Throw e => (reservedStorageSpacePercentageOstree sys os').1 = Throw e
    end.
Proof.
  intros Ht Hc Hv Hw Hs Hu Hos Hr Ho Hf d Hn Hfree. pose proof (setRemote_trace _ _ _ _ Hr) as T.
  cbn [download_loop]. mstep. rewrite Hr. mstep. unfold rootfs_getUsageInfo. mstep. rewrite Hu, Hos.
  destruct (reservedStorageSpacePercentageOstree sys os') as [[n|e] o2] eqn:En; cbn; [|by eexists].
  assert (n = v) as -> by (by eapply (reserved_percentage_in_force remotes cast pconfig v t sys n os os' o2)).
  destruct (getUsageInfo_ok (stat_env env (sr s1)) (repoPath env) fs v ReservedStorageSpacePercentageOstreeParamName
              Ho Hf) as [Hok Hav].
  destruct (pre_pull_refuses env d _ Hok Hn ltac:(rewrite Hav; lia)) as (res & Hres & Hst).
  fold d. unfold mbind, M_bind, gets, mret, M_ret. cbn. rewrite Hres. by eexists.
Qed.
End reserve.

(** ** Witness: 20 of 100 blocks are free, and 20 percent are reserved. *)
Import SampleOstree.

Definition reserve_made : outcome (Sysroot (list (string * string))) * disk :=
  make_Sysroot sample_cast (sample_pconfig "20") sample_disk.
Definition reserve_sys : Sysroot (list (string * string)) := the (sample_sysroot []) reserve_made.1.
Definition reserve_disk : disk := reserve_made.2.
Definition reserve_rootfs : RootfsEnv SimpleSR :=
  let e := sample_rootfs 20 in {|
  update_block := update_block e; remote := remote e; ostree_server := ostree_server e; gateway_url := gateway_url e;
  repoPath := repoPath e; gateway_post := gateway_post e; http := http e; cast_u64 := cast_u64 e;
  cast_what := cast_what e; stat_env := stat_env e;
  reserved_pct _ := (reservedStorageSpacePercentageOstree reserve_sys reserve_disk).1 |}.

Lemma reserve_respected_witness :
  exists o, download_loop reserve_rootfs (sample_update "def") [sample_remote] "" (DR DOk "" "")
      (simple_device "lmp-1" "abc" []) = (o, simple_device "lmp-1" "abc" []) /\
    match o with Ret res => dr_status res = DownloadFailed_NoSpace | Throw _ => False end.
Proof.
  edestruct (reserve_respected (DB := SimpleDB) (SR := SimpleSR) (EN := SimpleEN) (D := string * string)
               disk_remotes sample_cast (sample_pconfig "20") 20 "20" sample_disk reserve_disk reserve_sys reserve_rootfs
               (fun _ => reserve_disk) (sample_update "def") sample_remote [] "" (DR DOk "" "")
               (simple_device "lmp-1" "abc" []) (simple_device "lmp-1" "abc" [])) as (o & E1 & _ & E2).
  - reflexivity.
  - reflexivity.
  - vm_compute. split; discriminate.
  - intros p k s1 _. by eexists.
  - vm_compute. reflexivity.
  - intros x. reflexivity.
  - reflexivity.
  - reflexivity.
  - reflexivity.
  - reflexivity.
  - vm_compute. reflexivity.
  - vm_compute. reflexivity.
  - exists o. split; [exact E1|]. destruct o; [exact E2|]. vm_compute in E2. discriminate E2.
Defined.
