(* ===== verification/ComposeApps.v ===== *)
(** * The compose apps package manager

    [ComposeAppManager] ([src/src/composeappmanager.cc]): which apps of a target
    are enabled, which of them have to be updated or only fetched, the download,
    the installation and the finalization of a target with its apps, and the
    reports on the running apps. *)

From S2P Require Import Prelude Json Targets Registry Volume Restorable Platform Bootloader Sample RootfsTree.

(** ** [ComposeAppManager::Config] *)
Record ComposeConfig := {
  apps : option (list string);
  reset_apps : option (list string);
  apps_root : string;
  reset_apps_root : string;
  compose_bin : string;
  skopeo_bin : string;
  composectl_bin : string;
  apps_proxy : string;
  apps_proxy_ca : string;
  docker_prune : bool;
  force_update : bool;
  apps_tree : string;
  create_apps_tree : bool;
  images_data_root : string;
  docker_images_reload_cmd : string;
  hub_auth_creds_endpoint : string;
  create_containers_before_reboot : bool;
  stop_apps_before_update : bool;
  storage_watermark : Z;
}.

(** [!!cfg_.reset_apps] *)
Definition has_reset_apps (c : ComposeConfig) : bool :=
  match reset_apps c with Some _ => true | None => false end.

(** [boost::split(out, val, boost::is_any_of(", "), boost::token_compress_on)] *)
Definition app_list (val : string) : list string :=
  if str_empty val then [] else split (is_any_of ", ") val.

(** [cast_bool] is [boost::lexical_cast<bool>]. *)
Definition parse_ComposeConfig (cast_bool : string -> outcome bool) (raw : gmap string string)
    : outcome ComposeConfig :=
  let opt k d := default d (raw !! k) in
  let flag k d := match raw !! k with Some v => cast_bool v | None => mret d end in
  create_tree ← flag "create_apps_tree" false;
  force ← flag "force_update" false;
  create ← flag "create_containers_before_reboot" true;
  stop_before ← flag "stop_apps_before_update" true;
  watermark ← match raw !! "storage_watermark" with Some v => stoi 10 v | None => mret 80 end;
  mret {|
    apps := app_list <$> raw !! "compose_apps";
    reset_apps := app_list <$> raw !! "reset_apps";
    apps_root := opt "compose_apps_root" "/var/sota/compose-apps";
    reset_apps_root := opt "reset_apps_root" "/var/sota/reset-apps";
    compose_bin := opt "docker_compose_bin" "/usr/bin/docker";
    skopeo_bin := opt "skopeo_bin" "/sbin/skopeo";
    composectl_bin := opt "composectl_bin" "/usr/bin/composectl";
    apps_proxy := opt "compose_apps_proxy" "";
    apps_proxy_ca := opt "compose_apps_proxy_ca" "";
    docker_prune := match raw !! "docker_prune" with
                    | Some v => negb (String.eqb (to_lower v) "0") && negb (String.eqb (to_lower v) "false")
                    | None => true
                    end;
    force_update := force;
    apps_tree := opt "compose_apps_tree" "/var/sota/compose-apps-tree";
    create_apps_tree := create_tree;
    images_data_root := opt "images_data_root" "/var/lib/docker";
    docker_images_reload_cmd := opt "docker_images_reload_cmd" "systemctl reload docker";
    hub_auth_creds_endpoint := opt "hub_auth_creds_endpoint" "https://ota-lite.foundries.io:8443/hub-creds/";
    create_containers_before_reboot := create;
    stop_apps_before_update := stop_before;
    storage_watermark := watermark;
  |}.

(** What else the manager is constructed with; [uninit] is the value of the
    local [check_apps_to_fetch] that [checkForAppsToUpdate] leaves
    uninitialised on one path, [now] the time stamp, [volume_id] the
    identifier of the volume of a path. *)
Record ComposeEnv (SR EN : Type) := {
  rootfs_env : RootfsEnv SR;
  cfg : ComposeConfig;
  is_restorable_engine : bool;
  apps_stat_env : EN -> StatEnv;
  volume_id : string -> option Z;
  uninit : bool;
  now : string;
}.
Arguments rootfs_env {SR EN}.
Arguments cfg {SR EN}.
Arguments is_restorable_engine {SR EN}.
Arguments apps_stat_env {SR EN}.
Arguments volume_id {SR EN}.
Arguments uninit {SR EN}.
Arguments now {SR EN}.

Inductive InstallMode := All | OstreeOnly.
#[export] Instance InstallMode_eq_dec : EqDecision InstallMode.
Proof. solve_decision. Defined.

(** A pair of an [AppsContainer] as the app the engine is called with. *)
Definition mkApp (p : string * string) : App := {| app_name := p.1; app_uri := p.2 |}.
Definition apps_of (c : AppsContainer) : list App := mkApp <$> map_to_list c.

(** ** The apps of a target *)

(** One step of the loop of [getApps] *)
Definition getApps_step (enabled : option (list string)) (acc : AppsContainer) (it : string * json)
    : outcome AppsContainer :=
  has ← (if jisObject it.2 then jisMember it.2 "uri" else mret false);
  if has : bool then
    u ← jindex it.2 "uri"; uri ← jasString u;
    mret (match enabled with
          | Some l => if mem it.1 l then <[it.1 := uri]> acc else acc
          | None => <[it.1 := uri]> acc
          end)
  else mret acc.

Fixpoint foldO {A B} (f : A -> B -> outcome A) (acc : A) (l : list B) : outcome A :=
  match l with [] => mret acc | x :: l' => acc' ← f acc x; foldO f acc' l' end.

Definition getApps (c : ComposeConfig) (t : UTarget) : outcome AppsContainer :=
  target_apps ← jindex (custom_data t) "docker_compose_apps";
  foldO (getApps_step (apps c)) ∅ (jitems target_apps).

(** [Target::Apps]: the names of the iteration *)
Definition app_names (target_apps : json) : outcome (list string) :=
  ds ← app_descs (jitems target_apps); mret (map Targets.app_name ds).

Definition getRequiredApps (c : ComposeConfig) (target : UTarget) : outcome AppsContainer :=
  target_apps ← appsJson target;
  u1 ← match apps c with Some l => mret l | None => app_names target_apps end;
  u2 ← match reset_apps c with
       | None => mret []
       | Some l => if bool_decide (l = ["*"]) then app_names target_apps else mret l
       end;
  let cfg_apps_union : gset string := list_to_set (u1 ++ u2) in
  foldO (fun (acc : AppsContainer) name =>
           present ← isPresent target_apps name;
           if negb present then mret acc
           else d ← app_at target_apps name; mret (<[Targets.app_name d := Targets.app_uri d]> acc))
    ∅ (elements cfg_apps_union).

(** ** The manager *)
Section compose.
Context {DB SR EN : Type}.
Context `{AppEngine EN, INvStorage DB, Ostree DB SR, BootFwUpdateStatus SR, InstallationResults, UptaneTargets}.
Context (env : ComposeEnv SR EN).
Abbreviation S := (St DB SR EN).
Abbreviation conf := (cfg env).

Definition isAppRunning (app : App) : M S bool := gets (fun s => isRunning (en s) app).

(** The variables of the loop of [getAppsToUpdate]. *)
Record UpdateCheck := { to_update : AppsContainer; reasons : gmap string string; fetched : gset string }.

Definition mark_update (u : UpdateCheck) (p : string * string) (reason : string) : UpdateCheck :=
  {| to_update := <[p.1 := p.2]> (to_update u); reasons := <[p.1 := reason]> (reasons u);
     fetched := fetched u |}.

Definition getAppsToUpdate_step (e : EN) (installed : json) (u : UpdateCheck) (p : string * string)
    : outcome UpdateCheck :=
  app_data ← jindex installed p.1;
  if jempty app_data then mret (mark_update u p "new app in target")
  else
    cur ← jindex app_data "uri"; cur_uri ← jasString cur;
    if negb (String.eqb p.2 cur_uri) then mret (mark_update u p "new version in target")
    else if negb (isRunning e (mkApp p)) then mret (mark_update u p "not running")
    else if negb (isFetched e (mkApp p)) then mret (mark_update u p "not fetched")
    else mret {| to_update := to_update u; reasons := reasons u; fetched := {[p.1]} ∪ fetched u |}.

Definition getAppsToUpdate (t : UTarget) (s : S) : outcome UpdateCheck :=
  installed ← appsJson (getCurrent (db s) (sr s));
  new_target_apps ← getApps conf t;
  foldO (getAppsToUpdate_step (en s) installed) {| to_update := ∅; reasons := ∅; fetched := ∅ |}
    (map_to_list new_target_apps).

(** [checked] and [fetched_apps] are the pointers that may be null. *)
Definition needs_fetch (checked : option AppsContainer) (fetched_apps : option (gset string)) (e : EN)
    (p : string * string) : bool :=
  negb (match checked with Some c => bool_decide (is_Some (c !! p.1)) | None => false end) &&
  negb (match fetched_apps with Some f => bool_decide (p.1 ∈ f) | None => false end) &&
  negb (isFetched e (mkApp p)).

Definition getAppsToFetch (target : UTarget) (check_store : bool) (checked : option AppsContainer)
    (fetched_apps : option (gset string)) (e : EN) : outcome AppsContainer :=
  enabled_apps ← getRequiredApps conf target;
  mret (if negb check_store then enabled_apps
        else filter (fun p => needs_fetch checked fetched_apps e p = true) enabled_apps).

Definition checkForAppsToUpdate (target : UTarget) : M S (gmap string string) :=
  r ← (if negb (force_update conf) then
         u ← (fun s => (getAppsToUpdate target s, s));
         modify (set_cur_update (to_update u));;
         mret (reasons u, fetched u, true)
       else
         a ← lift (getApps conf target);
         modify (set_cur_update a);;
         mret ((fun _ => "forced update") <$> a, ∅, uninit env));
  let '(apps_and_reasons, fetched_apps, check_apps_to_fetch) := r in
  (if has_reset_apps conf then
     c ← gets cur_apps_to_fetch_and_update;
     e ← gets en;
     f ← lift (getAppsToFetch target check_apps_to_fetch (Some c) (Some fetched_apps) e);
     modify (set_cur_fetch f)
   else mret tt);;
  modify (set_checked true);;
  cf ← gets cur_apps_to_fetch;
  mret (apps_and_reasons ∪ ((fun _ => "not fetched (reset apps)") <$> cf)).

(** *** Storage report *)
Definition getAppsFsUsageInfo (e : EN) : string :=
  let info p := UsageInfo_str (getUsageInfo (apps_stat_env env e) p (to_u32 (100 - storage_watermark conf))
                                      "pacman:storage_watermark") in
  info (images_data_root conf) +:+
  (if is_restorable_engine env &&
      negb (areDockerAndSkopeoOnTheSameVolume (volume_id env) (apps_root conf) (images_data_root conf))
   then String "010" (info (apps_root conf)) else "").

(** *** Download *)

(** The loop: the first app that cannot be fetched ends it. *)
Fixpoint fetch_apps (l : list App) : M S (option (App * Result)) :=
  match l with
  | [] => mret None
  | a :: l' =>
      r ← do_fetch a;
      if negb (Result_bool r) then mret (Some (a, r)) else fetch_apps l'
  end.

Definition all_apps_to_fetch (s : S) : AppsContainer :=
  cur_apps_to_fetch_and_update s ∪ cur_apps_to_fetch s.

Definition nl : string := String "010" "".

Definition compose_Download (target : TufTarget) : M S DownloadResult :=
  res ← rootfs_Download (rootfs_env env) target;
  if negb (DR_bool res) then mret res
  else
    all ← gets all_apps_to_fetch;
    let none := bool_decide (all = ∅) in
    pre ← gets (fun s => getAppsFsUsageInfo (en s));
    let stat_msg := if none then "" else dr_description res +:+ nl +:+ "before apps pull: " +:+ pre in
    failed ← fetch_apps (apps_of all);
    let '(res, stat_msg) :=
      match failed with
      | None => (res, stat_msg)
      | Some (a, fetch_res) =>
          let msg := stat_msg +:+ nl +:+ "failed to fetch App; app: " +:+ app_name a +:+ "; uri: " +:+ app_uri a
                     +:+ "; " +:+ res_err fetch_res in
          (if noSpace fetch_res
           then DR_stat DownloadFailed_NoSpace msg (path (stat fetch_res)) (stat fetch_res)
           else DR DownloadFailed "" "", msg)
      end in
    post ← gets (fun s => getAppsFsUsageInfo (en s));
    mret (if negb none && negb (DR_noSpace res)
          then DR_stat (dr_status res) (stat_msg +:+ nl +:+ "after apps pull: " +:+ post)
                 (destination_path res) (dr_stat res)
          else res).

(** The method of the old interface *)
Definition compose_fetchTarget : M S bool :=
  throwM runtime_error "Using obsolete method of package manager: fetchTarget()".

(** *** Verification *)
Fixpoint verify_apps (l : list App) : M S TargetStatus :=
  match l with
  | [] => mret kGood
  | a :: l' =>
      f ← gets (fun s => isFetched (en s) a);
      if negb f then mret kNotFound
      else v ← on_en (verify a); if negb (Result_bool v) then mret kInvalid else verify_apps l'
  end.

Definition verifyTarget (target : UTarget) : M S TargetStatus :=
  st ← gets (fun s => ostree_verifyTarget target (sr s));
  if negb (bool_decide (st = kGood)) then mret st
  else all ← gets all_apps_to_fetch; verify_apps (apps_of all).

(** *** Reports on the running apps *)
Definition service_line (sv : json) : outcome string :=
  n ← jstring_at sv "name"; h ← jstring_at sv "hash"; i ← jstring_at sv "image";
  st ← jstring_at sv "state"; ss ← jstring_at sv "status";
  mret (String "009" n +:+ ": " +:+ h +:+ "; image: " +:+ i +:+ "; state: " +:+ st +:+ "; status: " +:+ ss +:+ nl).

Definition app_report (acc : string) (it : string * json) : outcome string :=
  u ← jstring_at it.2 "uri"; st ← jstring_at it.2 "state";
  services ← jindex it.2 "services";
  foldO (fun acc sv => l ← service_line sv; mret (acc +:+ l))
    (acc +:+ it.1 +:+ ": " +:+ u +:+ "; state: " +:+ st +:+ nl) (jelems services).

Definition getRunningAppsInfoForReport (e : EN) : outcome string :=
  apps_info ← getRunningAppsInfo e; foldO app_report "" (jitems apps_info).

Definition add_report (r : InstallationResult) : M S InstallationResult :=
  rep ← (fun s => (getRunningAppsInfoForReport (en s), s));
  mret (add_description r (nl +:+ "# Apps running:" +:+ nl +:+ rep)).

(** *** Disabled apps *)

Definition removed_apps (target : UTarget) (dirs : list string) : outcome (list App) :=
  current_apps ← getApps conf target;
  mret ((fun n => {| app_name := n; app_uri := "" |}) <$> List.filter (fun n => bool_decide (current_apps !! n = None)) dirs).

Definition forEachRemovedApp (target : UTarget) (action : App -> M S unit) : M S unit :=
  dirs ← gets (fun s => app_dirs (en s));
  match dirs with
  | None => mret tt
  | Some dirs => l ← lift (removed_apps target dirs); forM l action
  end.

Definition stopDisabledComposeApps (target : UTarget) : M S unit := forEachRemovedApp target do_stop.
Definition removeDisabledComposeApps (target : UTarget) : M S unit := forEachRemovedApp target do_remove.

Definition prune_unused (target : UTarget) : M S unit :=
  e ← gets en;
  enabled ← lift (getAppsToFetch target false None None e);
  do_prune (apps_of enabled).

Definition handleRemovedApps (target : UTarget) : M S unit :=
  removeDisabledComposeApps target;;
  if docker_prune conf && has_reset_apps conf then prune_unused target else mret tt.

(** *** Installation *)

Fixpoint install_apps (just_install : bool) (l : list App) (res : InstallationResult)
    : M S InstallationResult :=
  match l with
  | [] => mret res
  | a :: l' =>
      run_res ← (if just_install then do_install a else do_run a);
      let res' :=
        if negb (Result_bool run_res) then
          IR (if imagePullFailure run_res then kDownloadFailed else kInstallFailed)
             ("failed to install App; app: " +:+ app_name a +:+ "; uri: " +:+ app_uri a +:+ "; err: "
              +:+ res_err run_res)
        else add_description res (nl +:+ app_uri a) in
      install_apps just_install l' res'
  end.

(** The part after the ostree installation. *)
Definition install_target_apps (target : UTarget) (res : InstallationResult) : M S InstallationResult :=
  let just_install := is_code res kNeedCompletion in
  l ← gets (fun s => apps_of (cur_apps_to_fetch_and_update s));
  res ← (if negb just_install || create_containers_before_reboot conf then
           let res := if bool_decide (l = []) then res else add_description res (nl +:+ "# Apps installed:") in
           install_apps just_install l res
         else mret (add_description res
                      (nl +:+ "# Fetched Apps' containers will be created and started after reboot" +:+ nl)));
  let prune_images := docker_prune conf && (negb just_install || create_containers_before_reboot conf) in
  (if isSuccess res then
     handleRemovedApps target;;
     if prune_images then prune_unused target else mret tt
   else mret tt);;
  modify (set_cur_update ∅);;
  modify (set_cur_fetch ∅);;
  add_report res.

Definition compose_install (target : UTarget) : M S InstallationResult :=
  stopDisabledComposeApps target;;
  cur ← current;
  (if negb (String.eqb (sha256Hash cur) (sha256Hash target)) || stop_apps_before_update conf then
     l ← gets (fun s => apps_of (cur_apps_to_fetch_and_update s)); forM l do_stop
   else mret tt);;
  res ← rootfs_install (rootfs_env env) target;
  if is_code res kInstallFailed then add_report res else install_target_apps target res.

Definition compose_Install (target : TufTarget) (mode : InstallMode) : M S InstallationResult :=
  match mode with
  | OstreeOnly => rootfs_Install (rootfs_env env) target
  | All => compose_install (fromTufTarget target)
  end.

(** *** Finalization *)

(** Whether an app was part of the update before the reboot. *)
Definition app_in_context (ctx : json) (a : App) : outcome bool :=
  if jempty ctx then mret true
  else
    has ← jisMember ctx "apps";
    if negb has then mret true
    else
      ctx_apps ← jindex ctx "apps";
      m ← jisMember ctx_apps (app_name a);
      if negb m then mret false
      else v ← jindex ctx_apps (app_name a); mret (json_eqb v (JString (app_uri a))).

(** The loop: the apps are started in turn; the first failure ends it. The
    string is the message on newly enabled apps. *)
Fixpoint finalize_apps (ctx : json) (l : list App) (msg : string) : M S (string * option (App * Result)) :=
  match l with
  | [] => mret (msg, None)
  | a :: l' =>
      inc ← lift (app_in_context ctx a);
      if negb inc then
        finalize_apps ctx l' (if str_empty msg then nl +:+ "# Newly enabled apps are detected: " +:+ app_name a
                              else msg +:+ ", " +:+ app_name a)
      else
        run_res ← do_run a;
        if negb (Result_bool run_res) then mret (msg, Some (a, run_res)) else finalize_apps ctx l' msg
  end.

Definition compose_finalizeInstall (target : UTarget) : M S InstallationResult :=
  ir ← do_ostree_finalize target;
  if is_code ir kOk then
    stopDisabledComposeApps target;;
    ctx ← lift (jindex (custom_data target) "install-context");
    l ← lift (a ← getApps conf target; mret (apps_of a));
    '(msg, failed) ← finalize_apps ctx l "";
    match failed with
    | Some (a, run_res) =>
        add_report (IR (if imagePullFailure run_res then kDownloadFailed else kCustomError)
          (description ir +:+ ", however failed to start App after booting on a new sysroot version; app: "
           +:+ app_name a +:+ "; uri: " +:+ app_uri a +:+ "; err: " +:+ res_err run_res +:+ msg))
    | None =>
        handleRemovedApps target;;
        (if docker_prune conf then prune_unused target else mret tt);;
        add_report (add_description ir msg)
    end
  else if negb (is_code ir kNeedCompletion) then add_report ir
  else mret ir.

(** *** The initial target *)
Definition completeInitialTarget (init_target : UTarget) : M S UTarget :=
  e ← gets en;
  lift (installed_apps ← getInstalledApps e;
        apps_json ← foldO (fun j (a : App) => jset2 j (app_name a) "uri" (JString (app_uri a))) JNull installed_apps;
        custom ← jset (custom_data init_target) "docker_compose_apps" apps_json;
        mret (update_custom init_target custom)).

(** *** State of the apps *)

(** [v[k]] on a mutable document creates the member. *)
Definition touch (v : json) (k : string) : outcome json := x ← jindex v k; jset v k x.

(** One service: the document with its health filled in, and whether it is
    unhealthy. *)
Definition service_health (sv : json) : outcome (json * bool) :=
  has ← jisMember sv "health";
  if has : bool then h ← jindex sv "health"; mret (sv, negb (json_eqb h (JString "healthy")))
  else
    sv ← touch sv "state"; state ← jstring_at sv "state";
    '(sv, bad) ← (if String.eqb state "dead" then mret (sv, true)
                  else if String.eqb state "exited" then
                    sv ← touch sv "status"; status ← jstring_at sv "status";
                    mret (sv, negb (str_contains "Exited (0)" status))
                  else mret (sv, false));
    sv ← jset sv "health" (JString (if bad : bool then "unhealthy" else "healthy"));
    mret (sv, bad).

(** The loop over the services stops at the first unhealthy one. *)
Fixpoint services_health (svs : list json) : outcome (list json * bool) :=
  match svs with
  | [] => mret ([], false)
  | sv :: svs' =>
      '(sv', bad) ← service_health sv;
      if bad : bool then mret (sv' :: svs', true)
      else '(rest, bad') ← services_health svs'; mret (sv' :: rest, bad')
  end.

(** A list of values put back in the container they come from. *)
Definition with_elems (v : json) (l : list json) : json :=
  match v with
  | JArray _ => JArray l
  | JObject m => JObject (zip (m.*1) l)
  | _ => v
  end.

Definition app_state (app : json) : outcome json :=
  services ← jindex app "services";
  app ← touch app "services";
  '(svs, bad) ← services_health (jelems services);
  app ← jset app "state" (JString (if bad : bool then "unhealthy" else "healthy"));
  app ← jset app "services" (with_elems services svs);
  has ← jisMember app "uri";
  if has : bool then mret app else jset app "uri" (JString "").

Fixpoint apps_states (l : list json) : outcome (list json) :=
  match l with [] => mret [] | a :: l' => a' ← app_state a; r ← apps_states l'; mret (a' :: r) end.

Definition getAppsState (s : S) : json :=
  match (running ← getRunningAppsInfo (en s);
         states ← apps_states (jelems running);
         mret (JObject [("apps", with_elems running states); ("deviceTime", JString (now env));
                        ("ostree", JString (getDeploymentHash (sr s) DCurrent))])) with
  | Ret v => v
  | Throw _ => JNull
  end.
End compose.

(** Comparison of two reports, ignoring what changes with time. *)
Definition app_states_eq (l r : json) : outcome bool :=
  ls ← jindex l "state"; rs ← jindex r "state"; lu ← jindex l "uri"; ru ← jindex r "uri";
  if negb (json_eqb ls rs) || negb (json_eqb lu ru) then mret false
  else lv ← jindex l "services"; rv ← jindex r "services"; mret (Nat.eqb (jsize lv) (jsize rv)).

Fixpoint apps_states_eq (ls : list (string * json)) (right_apps : json) : outcome bool :=
  match ls with
  | [] => mret true
  | (n, l) :: ls' =>
      m ← jisMember right_apps n;
      if negb m then mret false
      else r ← jindex right_apps n; e ← app_states_eq l r;
           if negb e then mret false else apps_states_eq ls' right_apps
  end.

Definition compareAppsStates (left right : json) : outcome bool :=
  l ← jisMember left "apps"; r ← jisMember right "apps";
  if negb l && negb r then mret true
  else if negb (Nat.eqb (jsize left) (jsize right)) then mret false
  else
    la ← jindex left "apps"; ra ← jindex right "apps";
    if negb (Nat.eqb (jsize la) (jsize ra)) then mret false
    else apps_states_eq (jitems la) ra.

(** ** Theorems *)

Lemma elem_of_snoc {A} (x y : A) (l : list A) : x ∈ l ++ [y] <-> x = y \/ x ∈ l.
Proof. rewrite elem_of_app, list_elem_of_singleton. tauto. Qed.

Lemma foldO_ind {A B} (P : A -> list B -> Prop) (f : A -> B -> outcome A) acc0 l acc :
  P acc0 [] ->
  (forall acc done x acc', x ∈ l -> P acc done -> f acc x = Ret acc' -> P acc' (done ++ [x])) ->
  foldO f acc0 l = Ret acc -> P acc l.
Proof.
  intros H0 Hs. change l with ([] ++ l) at 2. revert acc0 H0. generalize (@nil B) as done.
  induction l as [|x l IH]; intros done acc0 H0; cbn.
  - intros [= <-]. by rewrite List.app_nil_r.
  - intros E. osplit E. replace (done ++ x :: l) with ((done ++ [x]) ++ l) by by rewrite <- app_assoc.
    apply (IH ltac:(intros; eapply Hs; [set_solver|done..]) _ v); [|done]. eapply Hs; [set_solver|done..].
Qed.

(** A list of app names in the configuration is read back as it is written, with commas and
    spaces between the names in any mixture; an empty value is the empty list. *)
Theorem app_list_join (names : list string) (sep : ascii) :
  sep ∈ [","%char; " "%char] -> names <> [] ->
  Forall (fun n => n <> "" /\ str_forall (fun a => negb (is_any_of ", " a)) n = true) names ->
  app_list (join (String sep "") names) = names.
Proof.
  intros Hsep Hne Hn. unfold app_list.
  destruct (str_empty (join _ names)) eqn:E.
  - exfalso. apply str_empty_spec in E. destruct names as [|n [|n' names]]; [done|..];
      inversion Hn as [|? ? [Hx _] _]; subst; cbn in E; by destruct n.
  - apply split_join; [|done|done]. set_unfold. destruct Hsep as [->|[->|[]]]; reflexivity.
Qed.

Lemma app_list_join_witness : app_list "app1,app2,app3" = ["app1"; "app2"; "app3"].
Proof.
  apply (app_list_join ["app1"; "app2"; "app3"] ","%char); [set_solver|done|].
  repeat constructor; done.
Defined.

Definition enabled (c : ComposeConfig) (n : string) : bool :=
  match apps c with Some l => mem n l | None => true end.

(** The URI of an app's entry. *)
Definition entry_uri (v : json) (u : string) : Prop :=
  exists o j, v = JObject o /\ obj_lookup "uri" o = Some j /\ jasString j = Ret u.

Lemma getApps_step_spec c acc it acc' :
  getApps_step (apps c) acc it = Ret acc' ->
  (exists u, entry_uri it.2 u /\ enabled c it.1 = true /\ acc' = <[it.1 := u]> acc) \/
  (acc' = acc /\ forall u, entry_uri it.2 u -> enabled c it.1 = false).
Proof.
  destruct it as [n v]. unfold getApps_step, enabled. cbn [fst snd]. intros E.
  destruct v as [|b|z|s|l|o]; cbn in E; try (injection E as <-; right; split; [done|]; by intros u (?&?&?&_)).
  destruct (obj_lookup "uri" o) as [j|] eqn:Ho; cbn in E.
  - osplit E. assert (Eu : entry_uri (JObject o) v) by (by exists o, j).
    destruct (apps c) as [l|]; [destruct (mem n l)|]; injection E as <-; eauto.
  - injection E as <-. right. split; [done|]. intros u (o' & j & [= <-] & Hj & _). congruence.
Qed.

Lemma entry_uri_det v u u' : entry_uri v u -> entry_uri v u' -> u = u'.
Proof. intros (o & j & -> & Hj & Hu) (o' & j' & [= <-] & Hj' & Hu'). congruence. Qed.

Lemma getApps_lookup (c : ComposeConfig) (t : UTarget) (m : list (string * json)) (a : AppsContainer) :
  jindex (custom_data t) "docker_compose_apps" = Ret (JObject m) -> NoDup m.*1 -> getApps c t = Ret a ->
  forall n u, a !! n = Some u <-> exists v, (n, v) ∈ m /\ entry_uri v u /\ enabled c n = true.
Proof.
  unfold getApps. intros Ht Hnd E. rewrite Ht in E. cbn [mbind outcome_bind jitems] in E.
  assert (G : NoDup m.*1 ->
    forall n u, a !! n = Some u <-> exists v, (n, v) ∈ m /\ entry_uri v u /\ enabled c n = true); [|auto].
  revert E. apply (foldO_ind (fun (a : AppsContainer) l => NoDup l.*1 -> forall n u, a !! n = Some u <->
    exists v, (n, v) ∈ l /\ entry_uri v u /\ enabled c n = true)).
  - intros _ n u. rewrite lookup_empty. set_solver.
  - intros acc l [k v] acc' _ IH E Hd n u. rewrite fmap_app in Hd. apply NoDup_app in Hd as (Hd & Hk & _).
    specialize (IH Hd). cbn [fmap list_fmap fst] in Hk.
    apply getApps_step_spec in E as [(w & Hw & Hen & ->)|(-> & Hdis)]; cbn [fst snd] in *.
    + destruct (decide (n = k)) as [->|Hnk].
      * rewrite lookup_insert_eq. split.
        -- intros [= <-]. exists v. rewrite elem_of_snoc. auto.
        -- intros (v' & Hin & Hu & _). apply elem_of_app in Hin as [Hin|Hin].
           { exfalso. apply (Hk k); [by apply (list_elem_of_fmap_2 fst l (k, v'))|by left]. }
           apply list_elem_of_singleton in Hin as [= ->]. f_equal. by eapply entry_uri_det.
      * rewrite lookup_insert_ne, IH by done. setoid_rewrite elem_of_snoc. naive_solver.
    + rewrite IH. setoid_rewrite elem_of_snoc. split; [naive_solver|].
      intros (v' & [[= -> ->]|Hin] & Hu & He); [by rewrite (Hdis u Hu) in He|eauto].
Qed.

(** The configuration asks for the app [n], if the target has it. *)
Definition wanted (c : ComposeConfig) (n : string) : bool :=
  enabled c n || match reset_apps c with
                 | None => false
                 | Some l => bool_decide (l = ["*"]) || mem n l
                 end.

Lemma make_AppDesc_entry n v d :
  make_AppDesc n v = Ret d -> Targets.app_name d = n /\ entry_uri v (Targets.app_uri d).
Proof.
  unfold make_AppDesc. destruct v as [| | | | |o]; try discriminate. cbn.
  destruct (obj_lookup "uri" o) as [j|] eqn:Hj; cbn; [|discriminate].
  intros E. osplit E. injection E as <-. cbn. split; [done|]. by exists o, j.
Qed.

Lemma app_names_keys m l : app_names (JObject m) = Ret l -> l = m.*1.
Proof.
  unfold app_names. cbn [jitems]. revert l. induction m as [|[k v] m IH]; intros l; cbn; [by intros [= <-]|].
  destruct (make_AppDesc k v) as [d|e] eqn:Hd; cbn; [|discriminate].
  destruct (app_descs m) as [ds|e] eqn:Hm; cbn; [|discriminate].
  intros [= <-]. cbn. f_equal; [by apply make_AppDesc_entry in Hd as [-> _]|]. by apply IH.
Qed.

Lemma wanted_names c m n u1 u2 :
  match apps c with Some l => mret l | None => app_names (JObject m) end = Ret u1 ->
  match reset_apps c with
  | None => mret []
  | Some l => if bool_decide (l = ["*"]) then app_names (JObject m) else mret l
  end = Ret u2 ->
  n ∈ m.*1 -> n ∈ u1 ++ u2 <-> wanted c n = true.
Proof.
  intros H1 H2 Hn. rewrite elem_of_app. unfold wanted, enabled. rewrite orb_true_iff. f_equiv.
  - destruct (apps c) as [l|]; [injection H1 as <-; by rewrite mem_spec|]. apply app_names_keys in H1. by subst.
  - destruct (reset_apps c) as [l|]; [|injection H2 as <-; set_solver].
    case_bool_decide; cbn [orb]; [|injection H2 as <-; by rewrite mem_spec].
    apply app_names_keys in H2. by subst.
Qed.

(** The required apps: those of the target that the configuration asks for. *)
Lemma getRequiredApps_lookup (c : ComposeConfig) (t : UTarget) (m : list (string * json)) (r : AppsContainer) :
  appsJson t = Ret (JObject m) -> getRequiredApps c t = Ret r ->
  forall n u, r !! n = Some u <-> wanted c n = true /\ exists v, obj_lookup n m = Some v /\ entry_uri v u.
Proof.
  unfold getRequiredApps. intros Ht E n u. rewrite Ht in E. cbn [mbind outcome_bind] in E. osplit E.
  transitivity (n ∈ v ++ v0 /\ exists w, obj_lookup n m = Some w /\ entry_uri w u).
  - rewrite <- (elem_of_list_to_set (C := gset string)), <- elem_of_elements. revert E.
    apply (foldO_ind (fun (a : AppsContainer) l => a !! n = Some u <->
      n ∈ l /\ exists w, obj_lookup n m = Some w /\ entry_uri w u)); [rewrite lookup_empty; set_solver|].
    intros acc l x acc' _ IH E. rewrite elem_of_snoc. cbn in E.
    destruct (obj_lookup x m) as [w|] eqn:Hx; cbn in E.
    + osplit E. injection E as <-. apply make_AppDesc_entry in Hv1 as [-> Hw].
      destruct (decide (n = x)) as [->|Hnx]; [|rewrite lookup_insert_ne by done; naive_solver].
      rewrite lookup_insert_eq. split; [intros [= <-]; split; [by left|by exists w]|].
      intros (_ & w' & Hw' & Hu). rewrite Hx in Hw'. injection Hw' as <-. f_equal. by eapply entry_uri_det.
    + injection E as <-. rewrite IH. split; [naive_solver|]. intros ([->|Hin] & w & Hw & Hu); [congruence|naive_solver].
  - split; intros (H1 & w & H2 & H3); (split; [|by exists w]);
      apply (wanted_names c m n v v0 Hv Hv0) in H1 || apply (wanted_names c m n v v0 Hv Hv0); try done;
      by apply obj_lookup_In, (list_elem_of_fmap_2 fst) in H2.
Qed.

(** A required app has the URI of its entry. *)
Lemma getRequiredApps_entry (c : ComposeConfig) (t : UTarget) (m : list (string * json)) (r : AppsContainer) n u :
  appsJson t = Ret (JObject m) -> getRequiredApps c t = Ret r -> r !! n = Some u ->
  exists v, obj_lookup n m = Some v /\ entry_uri v u.
Proof. intros Ht Hr Hn. by apply (getRequiredApps_lookup c t m r Ht Hr) in Hn as [_ ?]. Qed.

Section update_check.
Context {DB SR EN : Type}.
Context `{AppEngine EN, INvStorage DB, Ostree DB SR, BootFwUpdateStatus SR, InstallationResults, UptaneTargets}.
Context (env : ComposeEnv SR EN).
Abbreviation S := (St DB SR EN).
Abbreviation conf := (cfg env).

(** The app [n] of URI [u] needs nothing: the current target has it, and it is running and fetched. *)
Definition up_to_date (s : S) (installed : json) (n u : string) : Prop :=
  (exists d cur, jindex installed n = Ret d /\ jempty d = false /\
     jindex d "uri" = Ret cur /\ jasString cur = Ret u) /\
  isRunning (en s) (mkApp (n, u)) = true /\ isFetched (en s) (mkApp (n, u)) = true.

(** What holds of the variables of the loop after the apps of [l]. *)
Definition check_inv (s : S) (installed : json) (r : UpdateCheck) (l : list (string * string)) : Prop :=
  NoDup l.*1 ->
  (forall n u, (n, u) ∈ l ->
    (to_update r !! n = Some u /\ is_Some (reasons r !! n) /\ n ∉ fetched r) \/
    (to_update r !! n = None /\ reasons r !! n = None /\ n ∈ fetched r /\ up_to_date s installed n u)) /\
  (forall n, n ∉ l.*1 -> to_update r !! n = None /\ reasons r !! n = None /\ n ∉ fetched r).

Lemma getAppsToUpdate_step_cases e installed r n u r' :
  getAppsToUpdate_step e installed r (n, u) = Ret r' ->
  (exists reason, r' = mark_update r (n, u) reason) \/
  (to_update r' = to_update r /\ reasons r' = reasons r /\ fetched r' = {[n]} ∪ fetched r /\
   (exists d cur, jindex installed n = Ret d /\ jempty d = false /\
     jindex d "uri" = Ret cur /\ jasString cur = Ret u) /\
   isRunning e (mkApp (n, u)) = true /\ isFetched e (mkApp (n, u)) = true).
Proof.
  unfold getAppsToUpdate_step. cbn [fst snd]. intros E. osplit E.
  destruct (jempty v) eqn:Hd; [injection E as <-; eauto|]. osplit E.
  destruct (String.eqb_spec u v1) as [->|]; cbn [negb] in E; [|injection E as <-; eauto].
  destruct (isRunning _ _); cbn [negb] in E; [|injection E as <-; eauto].
  destruct (isFetched _ _); cbn [negb] in E; injection E as <-; [|eauto]. right. cbn.
  split_and!; try done. by exists v, v0.
Qed.

Lemma check_inv_step s installed r l n u r' :
  check_inv s installed r l -> getAppsToUpdate_step (en s) installed r (n, u) = Ret r' ->
  check_inv s installed r' (l ++ [(n, u)]).
Proof.
  intros IH E Hd. rewrite fmap_app in Hd. apply NoDup_app in Hd as (Hd & Hn & _).
  destruct (IH Hd) as [I1 I2]. cbn [fmap list_fmap fst] in Hn.
  assert (Hnl : n ∉ l.*1) by (intros Hin; apply (Hn n Hin); by left).
  destruct (I2 n Hnl) as (J1 & J2 & J3).
  assert (Hne : forall n' u', (n', u') ∈ l -> n' <> n).
  { intros n' u' Hin ->. apply Hnl. by apply (list_elem_of_fmap_2 fst l (n, u')). }
  rewrite fmap_app. cbn [fmap list_fmap fst].
  apply getAppsToUpdate_step_cases in E as [[reason ->]|(E1 & E2 & E3 & Hup & Hr & Hf)].
  - cbn. split.
    + intros n' u'. rewrite elem_of_snoc. intros [[= -> ->]|Hin].
      * left. rewrite !lookup_insert_eq. eauto.
      * specialize (Hne _ _ Hin). rewrite !lookup_insert_ne by done. auto.
    + intros n'. rewrite elem_of_snoc. intros Hn'. rewrite !lookup_insert_ne by naive_solver.
      apply I2. naive_solver.
  - rewrite E1, E2, E3. split.
    + intros n' u'. rewrite elem_of_snoc. intros [[= -> ->]|Hin].
      * right. unfold up_to_date. set_solver.
      * specialize (Hne _ _ Hin). destruct (I1 _ _ Hin) as [?|?]; [left|right]; set_solver.
    + intros n'. rewrite elem_of_snoc. intros Hn'. specialize (I2 n'). set_solver.
Qed.

Lemma getAppsToUpdate_inv t s r installed a :
  getAppsToUpdate env t s = Ret r -> appsJson (getCurrent (db s) (sr s)) = Ret installed ->
  getApps conf t = Ret a -> check_inv s installed r (map_to_list a).
Proof.
  unfold getAppsToUpdate. intros E Hi Ha. rewrite Hi, Ha in E. cbn [mbind outcome_bind] in E.
  revert E. apply foldO_ind.
  - intros _. cbn. split; [set_solver|]. intros n _. rewrite !lookup_empty. set_solver.
  - intros r0 l [n u] r1 _. apply check_inv_step.
Qed.

Lemma getAppsToUpdate_sub t s r a n u :
  getAppsToUpdate env t s = Ret r -> getApps conf t = Ret a -> to_update r !! n = Some u -> a !! n = Some u.
Proof.
  intros E Ha Hn. assert (exists installed, appsJson (getCurrent (db s) (sr s)) = Ret installed) as [installed Hi].
  { unfold getAppsToUpdate in E. destruct (appsJson _) as [i|e]; [by exists i|done]. }
  destruct (getAppsToUpdate_inv t s r installed a E Hi Ha (NoDup_fst_map_to_list a)) as [I1 I2].
  destruct (decide (n ∈ (map_to_list a).*1)) as [Hin|Hin]; [|by destruct (I2 n Hin) as [? _]; congruence].
  apply list_elem_of_fmap in Hin as ([n' u'] & -> & Hin). cbn in *.
  destruct (I1 _ _ Hin) as [(? & _)|(? & _)]; [|congruence]. apply elem_of_map_to_list in Hin. congruence.
Qed.

(** The check for apps to update is exact: an enabled app of the target is marked, with its new
    URI and a reason, unless the current target has it with that URI, it is running, and its blobs
    are in the store; no other app is marked. *)
Theorem getAppsToUpdate_exact (t : UTarget) (s : S) (r : UpdateCheck) (installed : json) (a : AppsContainer) :
  appsJson (getCurrent (db s) (sr s)) = Ret installed -> getApps conf t = Ret a ->
  getAppsToUpdate env t s = Ret r ->
  (forall n u, a !! n = Some u ->
    (to_update r !! n = Some u /\ is_Some (reasons r !! n) /\ n ∉ fetched r) \/
    (to_update r !! n = None /\ reasons r !! n = None /\ n ∈ fetched r /\ up_to_date s installed n u)) /\
  (forall n, a !! n = None -> to_update r !! n = None /\ reasons r !! n = None /\ n ∉ fetched r).
Proof.
  intros Hi Ha E. destruct (getAppsToUpdate_inv t s r installed a E Hi Ha (NoDup_fst_map_to_list a)) as [I1 I2].
  split.
  - intros n u Hn. apply I1. by apply elem_of_map_to_list.
  - intros n Hn. apply I2. intros Hin. apply list_elem_of_fmap in Hin as ([n' u] & -> & Hin).
    apply elem_of_map_to_list in Hin. cbn in Hn. congruence.
Qed.
End update_check.

Section update.
Context {DB SR EN : Type}.
Context `{AppEngine EN, INvStorage DB, Ostree DB SR, BootFwUpdateStatus SR, InstallationResults, UptaneTargets}.
Context (env : ComposeEnv SR EN).
Abbreviation S := (St DB SR EN).
Abbreviation conf := (cfg env).

(** The two ways [checkForAppsToUpdate] computes the apps to update. *)
Lemma checkForAppsToUpdate_run t (s s' : S) rs :
  has_reset_apps conf = true ->
  checkForAppsToUpdate env t s = (Ret rs, s') ->
  exists cu fetched_apps check f,
    (force_update conf = false /\ check = true /\
       (exists r, getAppsToUpdate env t s = Ret r /\ cu = to_update r /\ fetched_apps = fetched r) \/
     force_update conf = true /\ check = uninit env /\ getApps conf t = Ret cu /\ fetched_apps = ∅) /\
    getAppsToFetch env t check (Some cu) (Some fetched_apps) (en s) = Ret f /\
    cur_apps_to_fetch_and_update s' = cu /\ cur_apps_to_fetch s' = f /\ are_apps_checked s' = true /\
    db s' = db s /\ sr s' = sr s /\ en s' = en s /\ trace s' = trace s.
Proof.
  unfold checkForAppsToUpdate. intros Hr. destruct (force_update conf); cbn [negb].
  - mstep. destruct (getApps conf t) as [a|e] eqn:Ha; [|done]. rewrite Hr. cbn [cur_apps_to_fetch_and_update set_cur_update en].
    destruct (getAppsToFetch env t (uninit env) _ _ _) as [f|e] eqn:Hf; [|done]. intros [= <- <-].
    exists a, ∅, (uninit env), f. split_and!; [by right|done..].
  - mstep. destruct (getAppsToUpdate env t s) as [r|e] eqn:Ha; [|done]. rewrite Hr.
    cbn [cur_apps_to_fetch_and_update set_cur_update en].
    destruct (getAppsToFetch env t true _ _ _) as [f|e] eqn:Hf; [|done]. intros [= <- <-].
    exists (to_update r), (fetched r), true, f. split_and!; [|done..]. left. split_and!; [done..|by exists r].
Qed.

Lemma required_apps_covered (t : UTarget) (s s' : S) (rs : gmap string string)
    (m : list (string * json)) (installed : json) (req : AppsContainer) :
  has_reset_apps conf = true -> force_update conf && negb (uninit env) = false ->
  appsJson t = Ret (JObject m) -> NoDup m.*1 ->
  appsJson (getCurrent (db s) (sr s)) = Ret installed ->
  checkForAppsToUpdate env t s = (Ret rs, s') -> getRequiredApps conf t = Ret req ->
  forall n u, req !! n = Some u ->
    all_apps_to_fetch s' !! n = Some u \/
    all_apps_to_fetch s' !! n = None /\ isFetched (en s') (mkApp (n, u)) = true.
Proof.
  intros Hrs Hforce Ht Hnd Hi E Hreq n u Hn.
  destruct (checkForAppsToUpdate_run t s s' rs Hrs E)
    as (cu & fa & check & f & Hcu & Hf & Ecu & Ef & _ & _ & _ & Een & _).
  destruct (getRequiredApps_entry _ _ _ _ _ _ Ht Hreq Hn) as (v & Hv & Hu).
  assert (Hcheck : check = true).
  { destruct Hcu as [(_ & -> & _)|(Hfo & -> & _)]; [done|]. rewrite Hfo in Hforce. by destruct (uninit env). }
  subst check. unfold getAppsToFetch in Hf. rewrite Hreq in Hf. injection Hf as Hf.
  unfold all_apps_to_fetch. rewrite Ecu, Ef, Een.
  assert (Ha : exists a, getApps conf t = Ret a).
  { destruct Hcu as [(_ & _ & r & Hr & _)|(_ & _ & Ha & _)]; [|eauto].
    unfold getAppsToUpdate in Hr. osplit Hr. eauto. }
  destruct Ha as [a Ha].
  assert (Hau : forall u', a !! n = Some u' -> u' = u).
  { intros u' Hu'. apply (getApps_lookup conf t m a Ht Hnd Ha) in Hu' as (w & Hw & Hwu & _).
    apply (obj_lookup_NoDup _ _ _ Hnd) in Hw. rewrite Hv in Hw. injection Hw as <-. by eapply entry_uri_det. }
  destruct (cu !! n) as [u'|] eqn:Hc.
  - left. apply lookup_union_Some_l. rewrite Hc. f_equal. apply Hau.
    destruct Hcu as [(_ & _ & r & Hr & -> & _)|(_ & _ & Ha' & _)]; [|congruence].
    by eapply getAppsToUpdate_sub.
  - destruct (isFetched (en s) (mkApp (n, u))) eqn:Hfe.
    { right. split; [|done]. apply lookup_union_None. split; [done|]. subst f. apply map_lookup_filter_None. right.
      intros u' Hu'. rewrite Hn in Hu'. injection Hu' as <-. unfold needs_fetch. rewrite Hfe. by rewrite andb_false_r. }
    left.
    rewrite lookup_union_r by done. subst f. apply map_lookup_filter_Some. split; [done|].
    unfold needs_fetch. rewrite Hfe. cbn [fst negb].
    rewrite (bool_decide_false (is_Some _)) by (rewrite Hc; by apply is_Some_None). cbn.
    rewrite bool_decide_false; [done|]. intros Hin.
    destruct Hcu as [(_ & _ & r & Hr & -> & ->)|(_ & _ & _ & ->)]; [|set_solver].
    destruct (getAppsToUpdate_inv env t s r installed a Hr Hi Ha (NoDup_fst_map_to_list a)) as [I1 I2].
    destruct (decide (n ∈ (map_to_list a).*1)) as [Hin'|Hin'].
    + apply list_elem_of_fmap in Hin' as ([n' u''] & -> & Hin'). cbn in *.
      destruct (I1 _ _ Hin') as [(? & _ & ?)|(_ & _ & _ & _ & _ & Hfe')]; [done|].
      apply elem_of_map_to_list in Hin'. apply Hau in Hin'. subst. congruence.
    + by destruct (I2 n Hin') as (_ & _ & ?).
Qed.

(** After a successful check for apps to update, every app the configuration requires of the
    target (the enabled apps and the reset apps) is either among the apps to fetch, with the URI of
    the target, or already in the store. With [force_update] this holds on the path where the
    uninitialised flag happens to be set. *)
Theorem checkForAppsToUpdate_complete (t : UTarget) (s s' : S) (rs : gmap string string)
    (m : list (string * json)) (installed : json) (req : AppsContainer) :
  has_reset_apps conf = true -> force_update conf && negb (uninit env) = false ->
  appsJson t = Ret (JObject m) -> NoDup m.*1 ->
  appsJson (getCurrent (db s) (sr s)) = Ret installed ->
  checkForAppsToUpdate env t s = (Ret rs, s') -> getRequiredApps conf t = Ret req ->
  forall n u, req !! n = Some u ->
    all_apps_to_fetch s' !! n = Some u \/ isFetched (en s') (mkApp (n, u)) = true.
Proof.
  intros Hr Hf Ha Hd Hi E Hq n u Hn.
  destruct (required_apps_covered t s s' rs m installed req Hr Hf Ha Hd Hi E Hq n u Hn) as [|[_ ?]]; auto.
Qed.

(** *** Download *)

Lemma do_fetch_run a (s s' : S) r :
  do_fetch a s = (Ret r, s') ->
  trace s' = trace s ++ [EvFetch a (Result_bool r)] /\ fetch a (en s) = (Ret r, en s').
Proof.
  unfold do_fetch, on_en. mstep. destruct (fetch a (en s)) as [[x|e] e'] eqn:E; [|done].
  by intros [= <- <-].
Qed.

Lemma fetch_apps_run l (s s' : S) o :
  fetch_apps l s = (Ret o, s') ->
  match o with
  | None => trace s' = trace s ++ ((fun a => EvFetch a true) <$> l)
  | Some (a, r) => exists l1 l2, l = l1 ++ a :: l2 /\ Result_bool r = false /\
      trace s' = trace s ++ ((fun a => EvFetch a true) <$> l1) ++ [EvFetch a false]
  end.
Proof.
  revert s. induction l as [|a l IH]; intros s; cbn [fetch_apps].
  - intros [= <- <-]. cbn. by rewrite List.app_nil_r.
  - rewrite M_bind_Ret. intros (r & s1 & E1 & E). apply do_fetch_run in E1 as [T1 _].
    destruct (Result_bool r) eqn:Hr; cbn [negb] in E.
    + apply IH in E. rewrite T1 in E. destruct o as [[b rb]|].
      * destruct E as (l1 & l2 & -> & Hb & E). exists (a :: l1), l2. split_and!; [done..|].
        by rewrite E, <- app_assoc.
      * by rewrite E, <- app_assoc.
    + injection E as <- <-. exists [], l. rewrite T1. by cbn.
Qed.

(** What a download of a target with apps did. *)
Definition download_did (s1 s' : S) (ostree_res res : DownloadResult) : Prop :=
  (DR_bool ostree_res = false /\ res = ostree_res /\ s' = s1) \/
  (DR_bool ostree_res = true /\ DR_bool res = true /\
     trace s' = trace s1 ++ ((fun a => EvFetch a true) <$> apps_of (all_apps_to_fetch s1))) \/
  (DR_bool ostree_res = true /\
     exists l1 a l2, apps_of (all_apps_to_fetch s1) = l1 ++ a :: l2 /\
       trace s' = trace s1 ++ ((fun a => EvFetch a true) <$> l1) ++ [EvFetch a false] /\
       (dr_status res = DownloadFailed \/ dr_status res = DownloadFailed_NoSpace)).

Lemma compose_Download_run t (s s' : S) res :
  compose_Download env t s = (Ret res, s') ->
  exists ostree_res s1, rootfs_Download (rootfs_env env) t s = (Ret ostree_res, s1) /\
    (DR_bool ostree_res = false /\ res = ostree_res /\ s' = s1 \/
     DR_bool ostree_res = true /\ exists failed,
       fetch_apps (apps_of (all_apps_to_fetch s1)) s1 = (Ret failed, s') /\
       dr_status res = match failed with
                       | None => DOk
                       | Some (_, r) => if noSpace r then DownloadFailed_NoSpace else DownloadFailed
                       end).
Proof.
  unfold compose_Download. rewrite M_bind_Ret. intros (ores & s1 & E1 & E). exists ores, s1. split; [done|].
  destruct (DR_bool ores) eqn:Hb; cbn [negb] in E; [right|left; by injection E as <- <-].
  split; [done|]. mstep. destruct (fetch_apps _ s1) as [[failed|e] s2]; [|done]. exists failed.
  apply bool_decide_eq_true in Hb.
  destruct failed as [[a r]|].
  - destruct (noSpace r); injection E as <- <-; (split; [done|]); by destruct (_ && _).
  - injection E as <- <-. split; [done|]. by destruct (_ && _).
Qed.

(** The apps of a target are fetched only after its ostree commit was downloaded; the download
    succeeds exactly when every app to fetch was fetched, and the first app that cannot be fetched
    ends it, with the no-space status when the engine reports a lack of storage. *)
Theorem compose_Download_did (t : TufTarget) (s s' : S) (res : DownloadResult) :
  compose_Download env t s = (Ret res, s') ->
  exists ostree_res s1, rootfs_Download (rootfs_env env) t s = (Ret ostree_res, s1) /\
    download_did s1 s' ostree_res res.
Proof.
  intros E. destruct (compose_Download_run t s s' res E) as (ores & s1 & E1 & H'). exists ores, s1.
  split; [done|]. destruct H' as [?|(Hb & failed & Ef & Hst)]; [by left|right].
  apply fetch_apps_run in Ef. destruct failed as [[a r]|].
  - right. split; [done|]. destruct Ef as (l1 & l2 & El & _ & T). exists l1, a, l2.
    split_and!; [done..|]. rewrite Hst. destruct (noSpace r); auto.
  - left. split_and!; [done| |done]. by apply bool_decide_eq_true.
Qed.

(** *** From the check to the store *)
Context (ok : App -> Prop) (inv : EN -> Prop) `{!AppEngineSpec ok inv}.

Lemma fetch_apps_fetched l (s s' : S) :
  (forall a, a ∈ l -> ok a) -> inv (en s) -> fetch_apps l s = (Ret None, s') -> NoDup (app_name <$> l) ->
  inv (en s') /\
  (forall b, app_name b ∉ app_name <$> l -> isFetched (en s) b = true -> isFetched (en s') b = true) /\
  (forall a, a ∈ l -> isFetched (en s') a = true).
Proof.
  revert s. induction l as [|a l IH]; intros s; cbn [fetch_apps].
  - intros _ Hinv [= <-] _. split_and!; [done..|set_solver].
  - intros Hok Hinv. rewrite M_bind_Ret. intros (r & s1 & E1 & E) Hnd. apply do_fetch_run in E1 as [_ E1].
    assert (Hinv1 : inv (en s1)) by (pose proof (fetch_inv a _ (Hok a ltac:(set_solver)) Hinv) as Hi; unfold exec in Hi; by rewrite E1 in Hi).
    rewrite fmap_cons in Hnd. apply NoDup_cons in Hnd as [Ha Hnd].
    destruct (Result_bool r) eqn:Hr; cbn [negb] in E; [|discriminate E].
    apply (fun H => IH _ (fun x Hx => Hok x ltac:(set_solver)) Hinv1 H Hnd) in E as (Hinv2 & I1 & I2). split_and!; [done|..].
    + intros b Hb Hf. rewrite fmap_cons in Hb. apply I1; [set_solver|].
      apply (fetch_keeps a b _ _ _ (Hok a ltac:(set_solver)) Hinv E1 Hr); [set_solver|done].
    + intros b Hb. apply elem_of_cons in Hb as [->|Hb]; [|auto]. apply I1; [done|]. exact (fetch_fetched a _ _ _ (Hok a ltac:(set_solver)) Hinv E1 Hr).
Qed.

Lemma apps_of_NoDup (m : AppsContainer) : NoDup (app_name <$> apps_of m).
Proof.
  unfold apps_of. rewrite <- list_fmap_compose. apply (NoDup_fst_map_to_list m).
Qed.

(** The apps to fetch are apps of the target. *)
Lemma to_fetch_of_target (t : UTarget) (s s' : S) (rs : gmap string string) (a req : AppsContainer) :
  has_reset_apps conf = true -> checkForAppsToUpdate env t s = (Ret rs, s') ->
  getApps conf t = Ret a -> getRequiredApps conf t = Ret req ->
  forall n u, all_apps_to_fetch s' !! n = Some u -> a !! n = Some u \/ req !! n = Some u.
Proof.
  intros Hrs E Ha Hreq n u Hn.
  destruct (checkForAppsToUpdate_run t s s' rs Hrs E) as (cu & fa & check & f & Hcu & Hf & Ecu & Ef & _).
  unfold all_apps_to_fetch in Hn. rewrite Ecu, Ef in Hn. apply lookup_union_Some_raw in Hn as [Hn|[_ Hn]].
  - left. destruct Hcu as [(_ & _ & r & Hr & -> & _)|(_ & _ & Ha' & _)]; [|congruence].
    by eapply getAppsToUpdate_sub.
  - right. unfold getAppsToFetch in Hf. rewrite Hreq in Hf. injection Hf as <-.
    destruct check; cbn [negb] in Hn; [by apply map_lookup_filter_Some in Hn as [? _]|done].
Qed.

(** The download may start after steps that touch neither the members of the manager nor the store of the engine. *)
Lemma download_leaves_required (t : UTarget) (tuf : TufTarget) (s s1 s1b s2 : S) (rs : gmap string string)
    (res : DownloadResult) (m : list (string * json)) (installed : json) (req : AppsContainer) :
  (forall a, a ∈ apps_of (all_apps_to_fetch s1) -> ok a) -> inv (en s1) ->
  has_reset_apps conf = true -> force_update conf && negb (uninit env) = false ->
  appsJson t = Ret (JObject m) -> NoDup m.*1 ->
  appsJson (getCurrent (db s) (sr s)) = Ret installed -> getRequiredApps conf t = Ret req ->
  checkForAppsToUpdate env t s = (Ret rs, s1) -> same_members s1 s1b -> same_en s1 s1b ->
  compose_Download env tuf s1b = (Ret res, s2) -> DR_bool res = true ->
  inv (en s2) /\ forall n u, req !! n = Some u -> isFetched (en s2) (mkApp (n, u)) = true.
Proof.
  intros Hap Hinv Hrs Hforce Ht Hnd Hi Hreq E1 (M1 & M2 & _) Hen E2 Hok. unfold same_en in Hen.
  destruct (compose_Download_run tuf s1b s2 res E2) as (ores & s1' & Ed & [(Hb & -> & _)|(_ & failed & Ef & Hst)]);
    [congruence|].
  apply bool_decide_eq_true in Hok. rewrite Hok in Hst.
  assert (failed = None) as -> by (destruct failed as [[? r]|]; [by destruct (noSpace r)|done]).
  pose proof (rootfs_Download_members (EN := EN) (rootfs_env env) tuf s1b) as (M3 & M4 & _).
  pose proof (rootfs_Download_en (EN := EN) (rootfs_env env) tuf s1b) as Men.
  unfold exec, same_en in *. rewrite Ed in *. cbn [snd] in *. rewrite M1 in M3. rewrite M2 in M4. rewrite Hen in Men.
  assert (Hall : all_apps_to_fetch s1' = all_apps_to_fetch s1) by (unfold all_apps_to_fetch; congruence).
  rewrite Hall in *.
  destruct (fetch_apps_fetched _ _ _ Hap ltac:(by rewrite Men) Ef (apps_of_NoDup _)) as (Hinv2 & K & F).
  split; [done|]. intros n u Hn.
  destruct (required_apps_covered t s s1 rs m installed req Hrs Hforce Ht Hnd Hi E1 Hreq n u Hn) as [Hin|[Hnone Hf]].
  - apply F. unfold apps_of. apply list_elem_of_fmap. exists (n, u). split; [done|]. by apply elem_of_map_to_list.
  - apply K; [|by rewrite Men]. intros Hin. unfold apps_of in Hin. rewrite <- list_fmap_compose in Hin.
    apply list_elem_of_fmap in Hin as ([n' u'] & En & Hin). cbn in En. subst n'. apply elem_of_map_to_list in Hin.
    congruence.
Qed.

End update.

(** ** Installation and finalization *)

(** The events of the three phases of an installation. *)
Definition before_apps (e : Event) : Prop :=
  match e with EvStop _ | EvUpdateNotify | EvOstreeInstall _ | EvInstallNotify _ => True | _ => False end.
Definition cleanup (e : Event) : Prop :=
  match e with EvRemove _ | EvPrune _ => True | _ => False end.
Definition app_event (just_install : bool) (a : App) (ok : bool) : Event :=
  if just_install then EvInstall a ok else EvRun a ok.

#[export] Hint Extern 1 (before_apps _) => exact I : aklite.
#[export] Hint Extern 1 (cleanup _) => exact I : aklite.

Lemma emits_run_inv {DB SR EN A} P (m : M (St DB SR EN) A) s o s' :
  preserves (emits P) m -> m s = (o, s') -> exists evs, trace s' = trace s ++ evs /\ Forall P evs.
Proof. intros Hm E. specialize (Hm s). unfold exec in Hm. by rewrite E in Hm. Qed.

Lemma preserves_run_inv {S A} R (m : M S A) s o s' : preserves R m -> m s = (o, s') -> R s s'.
Proof. intros Hm E. specialize (Hm s). unfold exec in Hm. by rewrite E in Hm. Qed.

Section install.
Context {DB SR EN : Type}.
Context `{AppEngine EN, INvStorage DB, Ostree DB SR, BootFwUpdateStatus SR, InstallationResults, UptaneTargets}.
Context `{!InstallationResultsSpec}.
Context (env : ComposeEnv SR EN).
Abbreviation S := (St DB SR EN).
Abbreviation conf := (cfg env).

Lemma do_app_run ji a (s s' : S) r :
  (if ji : bool then do_install a else do_run a) s = (Ret r, s') ->
  trace s' = trace s ++ [app_event ji a (Result_bool r)] /\ same_members s s'.
Proof.
  destruct ji; unfold do_install, do_run, on_en; mstep;
    [destruct (install a (en s)) as [[x|e] e']|destruct (run_app a (en s)) as [[x|e] e']]; try done;
    by intros [= <- <-].
Qed.

Lemma install_apps_run ji l res (s s' : S) r :
  install_apps ji l res s = (Ret r, s') ->
  same_members s s' /\
  exists oks, length oks = length l /\ trace s' = trace s ++ zip_with (app_event ji) l oks /\
    (forallb id oks = true -> result_code r = result_code res) /\
    (forallb id oks = false -> result_code r = kDownloadFailed \/ result_code r = kInstallFailed).
Proof.
  revert s res. induction l as [|a l IH]; intros s res; cbn [install_apps].
  - intros [= <- <-]. split; [done|]. exists []. cbn. rewrite List.app_nil_r. done.
  - rewrite M_bind_Ret. intros (x & s1 & E1 & E). apply do_app_run in E1 as [T1 M1].
    apply IH in E as (M2 & oks & Hl & T2 & C1 & C2). split; [by etransitivity|].
    exists (Result_bool x :: oks). split_and!; cbn; [by rewrite Hl|by rewrite T2, T1, <- app_assoc|..].
    + intros [Hx Ho]%andb_true_iff. rewrite C1 by done. by rewrite Hx.
    + destruct (forallb id oks) eqn:Ho; [|intros _; by apply C2]. rewrite andb_true_r. intros Hx.
      rewrite C1 by done. unfold id in Hx. rewrite Hx. cbn. destruct (imagePullFailure x); auto.
Qed.

Lemma forEachRemovedApp_emits P t action :
  (forall a, preserves (emits P) (action a : M S unit)) -> preserves (emits P) (forEachRemovedApp env t action).
Proof. intros Ha. unfold forEachRemovedApp. pstep. apply (preserves_forM _). auto. Qed.
Lemma forEachRemovedApp_members t action :
  (forall a, preserves same_members (action a : M S unit)) ->
  preserves same_members (forEachRemovedApp env t action).
Proof. intros Ha. unfold forEachRemovedApp. pstep. apply (preserves_forM _). auto. Qed.

Lemma stopDisabled_emits (P : Event -> Prop) t :
  (forall a, P (EvStop a)) -> preserves (emits P) (stopDisabledComposeApps env t : M S _).
Proof. intros HP. apply forEachRemovedApp_emits. eauto with aklite. Qed.
Lemma stopDisabled_members t : preserves same_members (stopDisabledComposeApps env t : M S _).
Proof. apply forEachRemovedApp_members. eauto with aklite. Qed.
Lemma prune_unused_emits (P : Event -> Prop) t :
  (forall l, P (EvPrune l)) -> preserves (emits P) (prune_unused env t : M S _).
Proof. intros HP. unfold prune_unused. pstep. Qed.
Lemma prune_unused_members t : preserves same_members (prune_unused env t : M S _).
Proof. unfold prune_unused. pstep. Qed.
Lemma handleRemovedApps_emits (P : Event -> Prop) t :
  (forall a, P (EvRemove a)) -> (forall l, P (EvPrune l)) ->
  preserves (emits P) (handleRemovedApps env t : M S _).
Proof.
  intros HP HQ. unfold handleRemovedApps, removeDisabledComposeApps. pstep.
  - apply forEachRemovedApp_emits. eauto with aklite.
  - by apply prune_unused_emits.
Qed.
Lemma handleRemovedApps_members t : preserves same_members (handleRemovedApps env t : M S _).
Proof.
  unfold handleRemovedApps, removeDisabledComposeApps. pstep.
  - apply forEachRemovedApp_members. eauto with aklite.
  - apply prune_unused_members.
Qed.
Lemma rootfs_install_emits t : preserves (emits before_apps) (rootfs_install (rootfs_env env) t : M S _).
Proof.
  unfold rootfs_install, verifyBootloaderUpdate, check_rollback_protection, rootfs_installNotify, current.
  pstep; by apply emits_modify.
Qed.

Lemma add_report_run r (s s' : S) r' :
  add_report r s = (Ret r', s') -> s' = s /\ result_code r' = result_code r.
Proof.
  unfold add_report. mstep. destruct (getRunningAppsInfoForReport _) as [x|e]; [|done]. by intros [= <- <-].
Qed.

(** What an installation of a target with apps did. [l] are the apps marked for the update. *)
Definition compose_did (l : list App) (s s' : S) (r : InstallationResult) : Prop :=
  exists pre mid post, trace s' = trace s ++ pre ++ mid ++ post /\ Forall before_apps pre /\
    Forall cleanup post /\
    (** the root file system was refused: no app is touched *)
    ((result_code r = kInstallFailed /\ mid = [] /\ post = [] /\ same_members s s') \/
    (** it was deployed, or is the current one *)
     (cur_apps_to_fetch_and_update s' = ∅ /\ cur_apps_to_fetch s' = ∅ /\
      exists just_install oks, mid = zip_with (app_event just_install) l oks /\
        (length oks = length l \/
         oks = [] /\ just_install = true /\ create_containers_before_reboot conf = false) /\
        (** an app that failed makes the update fail, and nothing is cleaned up *)
        (forallb id oks = false ->
           post = [] /\ (result_code r = kDownloadFailed \/ result_code r = kInstallFailed)) /\
        (** otherwise the apps run, or wait for the reboot *)
        (forallb id oks = true ->
           result_code r <> kInstallFailed /\
           if just_install then result_code r = kNeedCompletion /\ post = []
           else result_code r <> kNeedCompletion) /\
        (isSuccess r = false -> post = []))).

Lemma isSuccess_not r : isSuccess r = true ->
  result_code r <> kNeedCompletion /\ result_code r <> kDownloadFailed /\ result_code r <> kInstallFailed.
Proof.
  intros Hs. split_and!; intros E; rewrite isSuccess_failure in Hs; try done; rewrite E; set_solver.
Qed.

Lemma cleanup_phase t (r : InstallationResult) b (s s' : S) :
  (if isSuccess r then handleRemovedApps env t;; if b : bool then prune_unused env t else mret tt
   else mret tt) s = (Ret tt, s') ->
  same_members s s' /\
  exists post, trace s' = trace s ++ post /\ Forall cleanup post /\ (isSuccess r = false -> post = []).
Proof.
  intros E. destruct (isSuccess r).
  - assert (P1 : preserves same_members (handleRemovedApps env t;; if b then prune_unused env t else mret tt : M S _)).
    { pstep; eauto using handleRemovedApps_members, prune_unused_members. }
    assert (P2 : preserves (emits cleanup) (handleRemovedApps env t;; if b then prune_unused env t else mret tt : M S _)).
    { pstep; [by apply handleRemovedApps_emits|by apply prune_unused_emits]. }
    split; [by apply (preserves_run_inv _ _ _ _ _ P1 E)|].
    destruct (emits_run_inv _ _ _ _ _ P2 E) as (post & T & F). by exists post.
  - injection E as <-. split; [done|]. exists []. by rewrite List.app_nil_r.
Qed.

Lemma install_target_apps_did t res (s s' : S) r :
  result_code res <> kInstallFailed ->
  install_target_apps env t res s = (Ret r, s') ->
  exists mid post, trace s' = trace s ++ mid ++ post /\ Forall cleanup post /\
    cur_apps_to_fetch_and_update s' = ∅ /\ cur_apps_to_fetch s' = ∅ /\
    exists just_install oks, mid = zip_with (app_event just_install) (apps_of (cur_apps_to_fetch_and_update s)) oks /\
      (length oks = length (apps_of (cur_apps_to_fetch_and_update s)) \/
       oks = [] /\ just_install = true /\ create_containers_before_reboot conf = false) /\
      (forallb id oks = false ->
         post = [] /\ (result_code r = kDownloadFailed \/ result_code r = kInstallFailed)) /\
      (forallb id oks = true ->
         result_code r <> kInstallFailed /\
         if just_install then result_code r = kNeedCompletion /\ post = []
         else result_code r <> kNeedCompletion) /\
      (isSuccess r = false -> post = []).
Proof.
  intros Hnf. unfold install_target_apps. rewrite M_bind_Ret. intros (l & s0 & E0 & E).
  injection E0 as <- <-. rewrite M_bind_Ret in E. destruct E as (res1 & s1 & E1 & E).
  rewrite M_bind_Ret in E. destruct E as ([] & s2 & E2 & E).
  apply cleanup_phase in E2 as (M2 & post & T2 & F2 & Hpost).
  mstep. apply add_report_run in E as [-> Hcode].
  set (ji := is_code res kNeedCompletion) in *. set (l := apps_of _) in *.
  assert (E1' : same_members s s1 /\ exists oks,
    (length oks = length l \/ oks = [] /\ ji = true /\ create_containers_before_reboot conf = false) /\
    trace s1 = trace s ++ zip_with (app_event ji) l oks /\
    (forallb id oks = true -> result_code res1 = result_code res) /\
    (forallb id oks = false -> result_code res1 = kDownloadFailed \/ result_code res1 = kInstallFailed)).
  { destruct (negb ji || _) eqn:Hb.
    - apply install_apps_run in E1 as (M1 & oks & Hl & T1 & C1 & C2). split; [done|]. exists oks.
      split_and!; [by left|done| |done]. intros Ho. rewrite C1 by done. by case_bool_decide.
    - injection E1 as <- <-. split; [done|]. exists []. apply orb_false_iff in Hb as [Hb1 Hb2].
      apply negb_false_iff in Hb1. split_and!; [by right|by destruct l; rewrite List.app_nil_r|done..]. }
  destruct E1' as (M1 & oks & Hl & T1 & C1 & C2).
  exists (zip_with (app_event ji) l oks), post. cbn. rewrite T2, T1, <- app_assoc. split_and!; [done..|].
  exists ji, oks. rewrite (isSuccess_code r res1) by done. rewrite Hcode.
  split_and!; [done..| | |done].
  - intros Ho. split; [|auto]. apply Hpost. destruct (isSuccess res1) eqn:Hs; [|done].
    apply isSuccess_not in Hs as (_ & ? & ?). by destruct (C2 Ho).
  - intros Ho. rewrite C1 by done. split; [done|]. subst ji. unfold is_code in *. case_bool_decide as Hn; [|done].
    split; [done|]. apply Hpost. destruct (isSuccess res1) eqn:Hs; [|done].
    apply isSuccess_not in Hs as (? & _). by rewrite C1 in *.
Qed.

Lemma stop_phase t (s s' : S) o :
  (stopDisabledComposeApps env t;;
   cur ← current;
   if negb (String.eqb (sha256Hash cur) (sha256Hash t)) || stop_apps_before_update conf then
     l ← gets (fun s => apps_of (cur_apps_to_fetch_and_update s)); forM l do_stop
   else mret tt) s = (o, s') ->
  same_members s s' /\ exists pre, trace s' = trace s ++ pre /\ Forall before_apps pre.
Proof.
  intros E. split.
  - revert E. apply preserves_run_inv. psolve; [apply stopDisabled_members|].
    apply (preserves_forM _). eauto with aklite.
  - revert E. apply emits_run_inv. psolve; [by apply stopDisabled_emits|].
    apply (preserves_forM _). eauto with aklite.
Qed.


(** *** Finalization *)
Definition in_ctx (ctx : json) (a : App) : bool :=
  match app_in_context ctx a with Ret b => b | Throw _ => false end.
Definition runs_ok (ctx : json) (l : list App) : list Event :=
  (fun a => EvRun a true) <$> List.filter (in_ctx ctx) l.

Lemma finalize_apps_run ctx l msg (s s' : S) msg' o :
  finalize_apps ctx l msg s = (Ret (msg', o), s') ->
  match o with
  | None => trace s' = trace s ++ runs_ok ctx l
  | Some (a, r) => Result_bool r = false /\ exists l1 l2, l = l1 ++ a :: l2 /\ in_ctx ctx a = true /\
      trace s' = trace s ++ runs_ok ctx l1 ++ [EvRun a false]
  end.
Proof.
  revert s msg. induction l as [|a l IH]; intros s msg; cbn [finalize_apps].
  - intros [= <- <- <-]. by rewrite List.app_nil_r.
  - rewrite M_bind_Ret. intros (inc & s0 & E0 & E). injection E0 as Hc <-.
    assert (Hin : in_ctx ctx a = inc) by (unfold in_ctx; by rewrite Hc).
    destruct inc; cbn [negb] in E.
    + rewrite M_bind_Ret in E. destruct E as (r & s1 & E1 & E).
      apply (do_app_run false) in E1 as [T1 _]. cbn [app_event] in T1.
      destruct (Result_bool r) eqn:Hr; cbn [negb] in E.
      * apply IH in E. destruct o as [[b rb]|].
        -- destruct E as (Hb & l1 & l2 & -> & Hib & E). split; [done|]. exists (a :: l1), l2.
           split_and!; [done..|]. rewrite E, T1. unfold runs_ok. cbn [List.filter]. rewrite Hin.
           by rewrite <- app_assoc.
        -- rewrite E, T1. unfold runs_ok. cbn [List.filter]. rewrite Hin. by rewrite <- app_assoc.
      * injection E as <- <- <-. split; [done|]. exists [], l. by rewrite T1.
    + apply IH in E. destruct o as [[b rb]|].
      * destruct E as (Hb & l1 & l2 & -> & Hib & E). split; [done|]. exists (a :: l1), l2.
        split_and!; [done..|]. rewrite E. unfold runs_ok. cbn [List.filter]. by rewrite Hin.
      * rewrite E. unfold runs_ok. cbn [List.filter]. by rewrite Hin.
Qed.

(** What a finalization did, [ir] being the verdict of the ostree finalization. *)
Definition finalize_did (t : UTarget) (ir r : InstallationResult) (evs : list Event) : Prop :=
  (result_code ir <> kOk /\ result_code r = result_code ir /\ evs = []) \/
  (result_code ir = kOk /\ exists ctx a stops, jindex (custom_data t) "install-context" = Ret ctx /\
     getApps conf t = Ret a /\ Forall (fun e => exists b, e = EvStop b) stops /\
     ((result_code r = kOk /\ exists post, evs = stops ++ runs_ok ctx (apps_of a) ++ post /\ Forall cleanup post) \/
      (exists l1 b l2, apps_of a = l1 ++ b :: l2 /\ in_ctx ctx b = true /\
         evs = stops ++ runs_ok ctx l1 ++ [EvRun b false] /\
         (result_code r = kCustomError \/ result_code r = kDownloadFailed)))).

(** C33: Finalizing a target after the reboot: if the device did not boot the new root file system
    the verdict of ostree is returned and no app is touched; otherwise the disabled apps are
    stopped and exactly the apps that were part of the update are started, in turn; the first one
    that cannot be started ends it with an error, and only a complete start ends with success and
    cleans up. *)
Theorem compose_finalizeInstall_did (t : UTarget) (s s' : S) (r : InstallationResult) :
  compose_finalizeInstall env t s = (Ret r, s') ->
  exists ir x evs, ostree_finalizeInstall t (sr s) = (Ret ir, x) /\
    trace s' = trace s ++ EvOstreeFinalize (sha256Hash t) :: evs /\ finalize_did t ir r evs.
Proof.
  unfold compose_finalizeInstall. rewrite M_bind_Ret. intros (ir & s1 & E1 & E).
  unfold do_ostree_finalize, on_sr, emit in E1. mstep. cbn [set_trace sr] in E1.
  destruct (ostree_finalizeInstall t (sr s)) as [o x]. injection E1 as -> <-. exists ir, x.
  set (s1 := set_sr x _) in *.
  assert (T1 : trace s1 = trace s ++ [EvOstreeFinalize (sha256Hash t)]) by done.
  destruct (is_code ir kOk) eqn:Hc; unfold is_code in *.
  - apply bool_decide_eq_true in Hc.
    destruct (stopDisabledComposeApps env t s1) as [[[]|e] s2] eqn:E2; [|done].
    assert (P2 : preserves (emits (fun e => exists b, e = EvStop b)) (stopDisabledComposeApps env t : M S _))
      by (apply stopDisabled_emits; eauto).
    destruct (emits_run_inv _ _ _ _ _ P2 E2) as (stops & T2 & F2).
    destruct (jindex _ _) as [ctx|e] eqn:Hctx; [|done].
    destruct (getApps conf t) as [a|e] eqn:Ha; [|done].
    destruct (finalize_apps ctx (apps_of a) "" s2) as [[[msg o]|e] s3] eqn:E3; [|done].
    apply finalize_apps_run in E3. destruct o as [[b rb]|].
    + destruct E3 as (Hb & l1 & l2 & El & Hib & T3). apply add_report_run in E as [-> Hr]. eexists.
      split; [done|]. split; [rewrite T3, T2, T1, <- !app_assoc; reflexivity|].
      right. split; [done|]. exists ctx, a, stops. split_and!; [done..|]. right. exists l1, b, l2.
      split_and!; [done..|]. rewrite Hr. cbn. destruct (imagePullFailure rb); auto.
    + destruct (handleRemovedApps env t s3) as [[[]|e] s4] eqn:E4; [|done].
      assert (P4 : preserves (emits cleanup) (handleRemovedApps env t : M S _)) by (by apply handleRemovedApps_emits).
      destruct (emits_run_inv _ _ _ _ _ P4 E4) as (post1 & T4 & F4).
      assert (E5 : exists s5 post2, trace s5 = trace s4 ++ post2 /\ Forall cleanup post2 /\
                     add_report (add_description ir msg) s5 = (Ret r, s')).
      { destruct (docker_prune conf).
        - destruct (prune_unused env t s4) as [[[]|e] s5] eqn:E5; [|done].
          assert (P5 : preserves (emits cleanup) (prune_unused env t : M S _)) by (by apply prune_unused_emits).
          destruct (emits_run_inv _ _ _ _ _ P5 E5) as (post2 & T5 & F5). by exists s5, post2.
        - exists s4, []. by rewrite List.app_nil_r. }
      destruct E5 as (s5 & post2 & T5 & F5 & E5). apply add_report_run in E5 as [-> Hr]. eexists.
      split; [done|]. split; [rewrite T5, T4, E3, T2, T1, <- !app_assoc; reflexivity|].
      right. split; [done|]. exists ctx, a, stops. split_and!; [done..|]. left. rewrite Hr. split; [done|].
      exists (post1 ++ post2). split; [by rewrite <- ?app_assoc|]. by apply Forall_app.
  - apply bool_decide_eq_false in Hc. exists []. split; [done|].
    assert (Hs : s' = s1 /\ result_code r = result_code ir).
    { destruct (negb _); [by apply add_report_run in E as [-> Hr]|by injection E as <- <-]. }
    destruct Hs as [-> Hr]. split; [done|]. by left.
Qed.

(** *** Disabled apps *)
Lemma forM_trace {A} (l : list A) (body : A -> M S unit) (ev : A -> Event) (s s' : S) :
  (forall a s1 s2, body a s1 = (Ret tt, s2) -> trace s2 = trace s1 ++ [ev a]) ->
  forM l body s = (Ret tt, s') -> trace s' = trace s ++ (ev <$> l).
Proof.
  intros Hb. revert s. induction l as [|x l IH]; intros s; cbn [forM].
  - intros [= <-]. by rewrite List.app_nil_r.
  - rewrite M_bind_Ret. intros ([] & s1 & E1 & E). apply Hb in E1. apply IH in E. rewrite E, E1, <- app_assoc. done.
Qed.

Lemma on_en_event {A} e (m : M EN A) (s s' : S) o : (emit e;; on_en m) s = (o, s') -> trace s' = trace s ++ [e].
Proof.
  unfold emit, on_en. mstep. destruct (m _) as [x y]. by intros [= <- <-].
Qed.

(** The apps stopped before an update, and removed after it, are exactly the installed ones that
    the target or the configuration no longer names. *)
Theorem disabled_apps_exact (t : UTarget) (s s' : S) (dirs : list string) (a : AppsContainer) (remove : bool) :
  app_dirs (en s) = Some dirs -> getApps conf t = Ret a ->
  (if remove then removeDisabledComposeApps env t else stopDisabledComposeApps env t) s = (Ret tt, s') ->
  trace s' = trace s ++
    ((fun n => let app := {| app_name := n; app_uri := "" |} in if remove then EvRemove app else EvStop app)
       <$> List.filter (fun n => bool_decide (a !! n = None)) dirs).
Proof.
  intros Hd Ha E.
  unfold removeDisabledComposeApps, stopDisabledComposeApps, forEachRemovedApp, removed_apps in E. mstep.
  destruct remove; rewrite Hd, Ha in E;
    [apply (forM_trace _ _ EvRemove) in E|apply (forM_trace _ _ EvStop) in E];
    try (intros b s1 s2; apply on_en_event); by rewrite E, <- list_fmap_compose.
Qed.
End install.

(** ** Comparison of the states of the apps *)

(** Two apps are in the same state. *)
Definition same_app_state (l r : json) : Prop :=
  exists ls lu lv rv, jindex l "state" = Ret ls /\ jindex r "state" = Ret ls /\
    jindex l "uri" = Ret lu /\ jindex r "uri" = Ret lu /\
    jindex l "services" = Ret lv /\ jindex r "services" = Ret rv /\ jsize lv = jsize rv.

Lemma app_states_eq_spec l r : app_states_eq l r = Ret true <-> same_app_state l r.
Proof.
  unfold app_states_eq, same_app_state, json_eqb. split.
  - destruct (jindex l "state") as [ls|], (jindex r "state") as [rs|], (jindex l "uri") as [lu|],
      (jindex r "uri") as [ru|]; try done. cbn. do 2 (case_bool_decide; subst; cbn; [|done]).
    destruct (jindex l "services") as [lv|], (jindex r "services") as [rv|]; try done.
    intros [= E]. apply Nat.eqb_eq in E. by exists rs, ru, lv, rv.
  - intros (ls & lu & lv & rv & E1 & E2 & E3 & E4 & E5 & E6 & E7). rewrite E1, E2, E3, E4, E5, E6. cbn.
    rewrite !bool_decide_true by done. cbn. by rewrite E7, Nat.eqb_refl.
Qed.

Lemma same_app_state_sym l r : same_app_state l r -> same_app_state r l.
Proof. intros (ls & lu & lv & rv & ?). exists ls, lu, rv, lv. naive_solver. Qed.

Lemma apps_states_eq_spec ls rm :
  apps_states_eq ls (JObject rm) = Ret true <->
  forall n l, (n, l) ∈ ls -> exists r, obj_lookup n rm = Some r /\ same_app_state l r.
Proof.
  induction ls as [|[n l] ls IH]; cbn [apps_states_eq]; [set_solver|].
  cbn [jisMember jindex mbind outcome_bind]. destruct (obj_lookup n rm) as [r|] eqn:Hn; cbn.
  - split.
    + intros E. osplit E. destruct v; cbn in E; [|done]. apply app_states_eq_spec in Hv.
      intros n' l' [[= -> ->]|Hin]%elem_of_cons; [eauto|]. by apply IH.
    + intros Hall. destruct (Hall n l ltac:(by left)) as (r' & Hr' & Hs). rewrite Hn in Hr'. injection Hr' as <-.
      apply app_states_eq_spec in Hs. rewrite Hs. cbn. apply IH. intros n' l' Hin. apply Hall. by right.
  - split; [done|]. intros Hall. destruct (Hall n l ltac:(by left)) as (r & Hr & _). congruence.
Qed.

(** A report as [getAppsState] builds it. *)
Definition apps_report (time ostree : json) (m : list (string * json)) : json :=
  JObject [("apps", JObject m); ("deviceTime", time); ("ostree", ostree)].

Lemma compareAppsStates_spec t1 o1 m1 t2 o2 m2 :
  compareAppsStates (apps_report t1 o1 m1) (apps_report t2 o2 m2) = Ret true <->
  length m1 = length m2 /\
  forall n l, (n, l) ∈ m1 -> exists r, obj_lookup n m2 = Some r /\ same_app_state l r.
Proof.
  unfold compareAppsStates. cbn -[Nat.eqb]. rewrite <- apps_states_eq_spec.
  destruct (Nat.eqb_spec (length m1) (length m2)); cbn; naive_solver.
Qed.

(** Two reports of the running apps compare equal exactly when they list the same apps, each with
    the same state, URI and number of services; the comparison does not depend on the time stamps or
    the service statuses, and it is symmetric although the code only walks the first report. *)
Theorem compareAppsStates_sym (t1 o1 t2 o2 : json) (m1 m2 : list (string * json)) :
  NoDup m1.*1 -> NoDup m2.*1 ->
  compareAppsStates (apps_report t1 o1 m1) (apps_report t2 o2 m2) = Ret true ->
  compareAppsStates (apps_report t2 o2 m2) (apps_report t1 o1 m1) = Ret true /\
  (forall n, n ∈ m1.*1 <-> n ∈ m2.*1).
Proof.
  rewrite !compareAppsStates_spec. intros N1 N2 [Hlen Hall].
  assert (Hsub : m1.*1 ⊆ m2.*1).
  { intros n Hn. apply list_elem_of_fmap in Hn as ([n' l] & -> & Hin). destruct (Hall _ _ Hin) as (r & Hr & _).
    apply obj_lookup_In in Hr. by apply (list_elem_of_fmap_2 fst m2 (n', r)). }
  assert (Hperm : m1.*1 ≡ₚ m2.*1).
  { apply submseteq_length_Permutation; [by apply NoDup_submseteq|]. rewrite !length_fmap. lia. }
  split.
  - split; [done|]. intros n r Hin.
    assert (Hn : n ∈ m1.*1) by (rewrite Hperm; by apply (list_elem_of_fmap_2 fst m2 (n, r))).
    apply list_elem_of_fmap in Hn as ([n' l] & -> & Hin'). cbn in *. exists l.
    split; [by apply obj_lookup_NoDup|]. destruct (Hall _ _ Hin') as (r' & Hr' & Hs).
    apply (obj_lookup_NoDup _ _ _ N2) in Hin. rewrite Hr' in Hin. injection Hin as <-. by apply same_app_state_sym.
  - intros n. by rewrite Hperm.
Qed.

(** ** The theorems on the concrete platform *)

Definition sample_config : ComposeConfig := {|
  apps := Some ["app1"; "app2"]; reset_apps := Some ["app3"];
  apps_root := "/var/sota/compose-apps"; reset_apps_root := "/var/sota/reset-apps";
  compose_bin := "/usr/bin/docker"; skopeo_bin := "/sbin/skopeo"; composectl_bin := "/usr/bin/composectl";
  apps_proxy := ""; apps_proxy_ca := ""; docker_prune := true; force_update := false;
  apps_tree := "/var/sota/compose-apps-tree"; create_apps_tree := false; images_data_root := "/var/lib/docker";
  docker_images_reload_cmd := "systemctl reload docker";
  hub_auth_creds_endpoint := "https://ota-lite.foundries.io:8443/hub-creds/";
  create_containers_before_reboot := true; stop_apps_before_update := true; storage_watermark := 80 |}.

Definition sample_compose : ComposeEnv SimpleSR SimpleEN := {|
  rootfs_env := sample_rootfs 50; cfg := sample_config; is_restorable_engine := true;
  apps_stat_env _ := stat_env (sample_rootfs 50) (sr (simple_device "" "" []));
  volume_id _ := Some 0; uninit := false; now := "now" |}.

Definition sample_app (u : string) : json := JObject [("uri", JString u)].
Definition sample_apps : list (string * json) :=
  [("app1", sample_app "uri1"); ("app2", sample_app "uri2"); ("app3", sample_app "uri3")].
Definition sample_target (sha : string) : UTarget :=
  simple_make "lmp-2" (target_json sha 0 (JObject [("docker_compose_apps", JObject sample_apps)])).
Definition sample_tuf_apps (sha : string) : TufTarget :=
  {| Name := "lmp-2"; Sha256Hash := sha; Version := 2;
     Custom := JObject [("docker_compose_apps", JObject sample_apps)] |}.

(** A device on the commit [abc] without apps, and the same after the check for [lmp-2]. *)
Definition sample_device : SimpleSt := simple_device "lmp-1" "abc" ["uri1"; "uri2"; "uri3"].
Definition sample_checked : SimpleSt := exec (checkForAppsToUpdate sample_compose (sample_target "3")) sample_device.
Definition sample_downloaded : SimpleSt :=
  exec (compose_Download sample_compose (sample_tuf_apps "3")) sample_checked.

Definition sample_required : AppsContainer :=
  {["app1" := "uri1"; "app2" := "uri2"; "app3" := "uri3"]}.

Lemma getAppsToUpdate_exact_witness :
  exists r, getAppsToUpdate sample_compose (sample_target "3") sample_device = Ret r /\
    to_update r !! "app1" = Some "uri1".
Proof.
  destruct (getAppsToUpdate sample_compose (sample_target "3") sample_device) as [r|e] eqn:E;
    [|vm_compute in E; discriminate E].
  exists r. split; [reflexivity|].
  destruct (getAppsToUpdate_exact sample_compose (sample_target "3") sample_device r JNull
              {["app1" := "uri1"; "app2" := "uri2"]}) as [H1 _];
    [vm_compute; reflexivity|vm_compute; reflexivity|exact E|].
  destruct (H1 "app1" "uri1") as [(H2 & _)|(_ & _ & _ & H2 & _)]; [vm_compute; reflexivity|exact H2|].
  destruct H2 as (d & cur & Hd & He & _). vm_compute in Hd. injection Hd as <-. discriminate He.
Defined.

Lemma sample_check_run :
  checkForAppsToUpdate sample_compose (sample_target "3") sample_device =
  (Ret (the ∅ (run (checkForAppsToUpdate sample_compose (sample_target "3")) sample_device)), sample_checked).
Proof.
  unfold sample_checked. rewrite <- (run_the ∅ (checkForAppsToUpdate sample_compose (sample_target "3")) sample_device);
    [reflexivity|]. vm_compute. reflexivity.
Qed.

Lemma sample_download_run :
  compose_Download sample_compose (sample_tuf_apps "3") sample_checked =
  (Ret (the (DR DOk "" "") (run (compose_Download sample_compose (sample_tuf_apps "3")) sample_checked)),
   sample_downloaded).
Proof.
  unfold sample_downloaded.
  rewrite <- (run_the (DR DOk "" "") (compose_Download sample_compose (sample_tuf_apps "3")) sample_checked);
    [reflexivity|]. vm_compute. reflexivity.
Qed.

Lemma sample_apps_NoDup : NoDup sample_apps.*1.
Proof. apply (bool_decide_unpack _). vm_compute. exact I. Qed.

Lemma checkForAppsToUpdate_complete_witness :
  all_apps_to_fetch sample_checked !! "app3" = Some "uri3" \/
  isFetched (en sample_checked) (mkApp ("app3", "uri3")) = true.
Proof.
  exact (checkForAppsToUpdate_complete sample_compose (sample_target "3") sample_device sample_checked _ sample_apps
           JNull sample_required eq_refl eq_refl eq_refl sample_apps_NoDup eq_refl sample_check_run
           ltac:(vm_compute; reflexivity) "app3" "uri3" ltac:(vm_compute; reflexivity)).
Defined.

Lemma compose_Download_did_witness :
  exists ostree_res s1, rootfs_Download (rootfs_env sample_compose) (sample_tuf_apps "3") sample_checked
                        = (Ret ostree_res, s1) /\
    download_did s1 sample_downloaded ostree_res
      (the (DR DOk "" "") (run (compose_Download sample_compose (sample_tuf_apps "3")) sample_checked)).
Proof. exact (compose_Download_did _ _ _ _ _ sample_download_run). Defined.


Lemma compose_finalizeInstall_did_witness :
  let m := compose_finalizeInstall sample_compose (sample_target "abc") in
  exists ir x evs, ostree_finalizeInstall (sample_target "abc") (sr sample_downloaded) = (Ret ir, x) /\
    trace (exec m sample_downloaded) = trace sample_downloaded ++ EvOstreeFinalize "abc" :: evs /\
    finalize_did sample_compose (sample_target "abc") ir (the (IR kUnknown "") (run m sample_downloaded)) evs.
Proof.
  apply (compose_finalizeInstall_did sample_compose (sample_target "abc") sample_downloaded).
  apply (run_the (IR kUnknown "") (compose_finalizeInstall sample_compose (sample_target "abc")) sample_downloaded).
  vm_compute. reflexivity.
Defined.

Lemma disabled_apps_exact_witness :
  trace (exec (stopDisabledComposeApps sample_compose (sample_target "3"))
           (set_en {| e_registry := []; e_fetched := []; e_running := [];
                      e_installed := [mkApp ("app0", "uri0"); mkApp ("app1", "uri1")] |} sample_device))
  = [EvStop {| app_name := "app0"; app_uri := "" |}].
Proof.
  set (s := set_en _ _).
  rewrite (disabled_apps_exact sample_compose (sample_target "3") s _ ["app0"; "app1"]
             {["app1" := "uri1"; "app2" := "uri2"]} false);
    [vm_compute; reflexivity|reflexivity|vm_compute; reflexivity|vm_compute; reflexivity].
Defined.

Lemma compareAppsStates_sym_witness :
  compareAppsStates (apps_report (JString "t2") (JString "abc") [("app1", sample_app "uri1")])
    (apps_report (JString "t1") (JString "abc") [("app1", sample_app "uri1")]) = Ret true.
Proof.
  apply (compareAppsStates_sym (JString "t1") (JString "abc") (JString "t2") (JString "abc")
           [("app1", sample_app "uri1")] [("app1", sample_app "uri1")]).
  - apply (bool_decide_unpack _). vm_compute. exact I.
  - apply (bool_decide_unpack _). vm_compute. exact I.
  - vm_compute. reflexivity.
Defined.
