(* ===== verification/Client.v ===== *)
(** * The client

    [LiteClient] ([src/src/liteclient.cc]): it drives the package manager, records
    in the storage which version is current, pending or failing, runs the
    callback program, sends the reports, and keeps the request headers and the
    file [current-target] up to date. *)

From S2P Require Import Prelude Json Targets Registry Volume Restorable Platform Bootloader Sample RootfsTree.
From S2P Require Import ComposeApps.

Definition MaxDetailsSize : nat := 2048.

Inductive ClientType := Undefined | Dev | Prod.
#[export] Instance ClientType_eq_dec : EqDecision ClientType.
Proof. solve_decision. Defined.

(** What the client is constructed with and the libraries it calls. [is_compose]
    tells the package manager type; [bc] is the business category of the device
    certificate, [None] if it cannot be read; [uuid] a random identifier;
    [path_exists] a test on the file system; [MatchTarget] and
    [MatchTargetVector] are libaktualizr's. *)
Record ClientEnv (DB SR EN : Type) := {
  compose : ComposeEnv SR EN;
  is_compose : bool;
  callback_program : string;
  storage_path : string;
  metadata_path : string;
  tls_server : string;
  tags : list string;
  reboot_command : string;
  uuid : string;
  bc : option string;
  cert : option string;
  path_exists : string -> bool;
  MatchTarget : UTarget -> UTarget -> bool;
  MatchTargetVector : list UTarget -> list UTarget -> bool;
  http_put : string -> json -> HttpResponse;
  http_post : string -> json -> HttpResponse;
  report_config : bool;
  report_network : bool;
  conf_str : string;
  conf_hash_is_stored : DB -> bool;
  store_conf_hash : DB -> DB;
  network_info : json;
  hw_info : json;
  (** [key_manager_->loadKeys()] *)
  loadKeys : outcome unit;
  (** a file of metadata, its name for a role and a version, and the version in messages; -1 is [Version()] *)
  meta_file : string -> option string;
  RoleFileName : string -> Z -> string;
  show_Version : Z -> string;
}.
Arguments compose {DB SR EN}.
Arguments is_compose {DB SR EN}.
Arguments callback_program {DB SR EN}.
Arguments storage_path {DB SR EN}.
Arguments metadata_path {DB SR EN}.
Arguments tls_server {DB SR EN}.
Arguments tags {DB SR EN}.
Arguments reboot_command {DB SR EN}.
Arguments uuid {DB SR EN}.
Arguments bc {DB SR EN}.
Arguments cert {DB SR EN}.
Arguments path_exists {DB SR EN}.
Arguments MatchTarget {DB SR EN}.
Arguments MatchTargetVector {DB SR EN}.
Arguments http_put {DB SR EN}.
Arguments http_post {DB SR EN}.
Arguments report_config {DB SR EN}.
Arguments report_network {DB SR EN}.
Arguments conf_str {DB SR EN}.
Arguments conf_hash_is_stored {DB SR EN}.
Arguments store_conf_hash {DB SR EN}.
Arguments network_info {DB SR EN}.
Arguments hw_info {DB SR EN}.
Arguments loadKeys {DB SR EN}.
Arguments meta_file {DB SR EN}.
Arguments RoleFileName {DB SR EN}.
Arguments show_Version {DB SR EN}.

(** ** The text of reports *)

(** [AkLiteReportQueue::checkConnectivity]: whether curl could be set up, and whether it failed because the
    name of the server could not be resolved *)
Definition checkConnectivity (curl_init : bool) (couldnt_resolve_host : string -> bool) (server : string) : bool :=
  if curl_init then negb (couldnt_resolve_host server) else true.

Definition truncated : string := "[TRUNCATED]".

(** In [notify] *)
Definition truncate_details (detail_str : string) : string :=
  if Nat.ltb MaxDetailsSize (String.length detail_str)
  then str_take (MaxDetailsSize - String.length truncated) detail_str +:+ truncated
  else detail_str.

(** In [DetailedInstallCompletedReport] *)
Definition err_tail_size : nat := 1024.
Definition truncated_mid : string := String "010" "[TRUNCATED]" +:+ String "010" "".
Definition install_completed_details (success : bool) (details : string) : string :=
  if negb success && Nat.ltb MaxDetailsSize (String.length details) then
    let head_size := (MaxDetailsSize - err_tail_size - String.length truncated_mid)%nat in
    str_take head_size details +:+ truncated_mid
    +:+ substr (String.length details - err_tail_size) err_tail_size details
  else details.

(** ** [OfflineMetaFetcher::fetchRole]

    A role of the directory [tuf_repo_path]; roots only up to [max_root_ver], if it is specified. *)
Definition offline_fetchRole {DB SR EN} `{TufRepo DB} (env : ClientEnv DB SR EN) (tuf_repo_path : string)
    (max_root_ver : Z) (role : string) (version : Z) : outcome string :=
  let not_found := throw MetadataNotFoundException (MetadataNotFound_role role (show_Version env version)) in
  match meta_file env (tuf_repo_path +:+ "/" +:+ RoleFileName env role version) with
  | None => not_found
  | Some content =>
      if String.eqb role role_Root && negb (max_root_ver =? -1) && (max_root_ver <? version)
      then not_found else mret content
  end.

Definition quote : string := String dquote "".

Section client.
Context {DB SR EN : Type}.
Context `{AppEngine EN, INvStorage DB, TufRepo DB, Ostree DB SR, BootFwUpdateStatus SR, InstallationResults,
          UptaneTargets}.
Context (env : ClientEnv DB SR EN).
Abbreviation S := (St DB SR EN).
Abbreviation conf := (cfg (compose env)).

(** ** The package manager *)

Definition pm_Download (t : TufTarget) : M S DownloadResult :=
  if is_compose env then compose_Download (compose env) t else rootfs_Download (rootfs_env (compose env)) t.
Definition pm_Install (t : TufTarget) (mode : InstallMode) : M S InstallationResult :=
  if is_compose env then compose_Install (compose env) t mode else rootfs_Install (rootfs_env (compose env)) t.
Definition pm_finalizeInstall (t : UTarget) : M S InstallationResult :=
  if is_compose env then compose_finalizeInstall (compose env) t else do_ostree_finalize t.
Definition pm_verifyTarget (t : UTarget) : M S TargetStatus :=
  if is_compose env then verifyTarget t else gets (fun s => ostree_verifyTarget t (sr s)).

(** ** Callbacks and reports *)

Definition callback (msg : string) (install_target : UTarget) (result : string) : M S unit :=
  if str_empty (callback_program env) then mret tt
  else
    cur ← current;
    let var n v := n +:+ "=" +:+ quote +:+ v +:+ quote +:+ " " in
    let env_variables :=
      var "MESSAGE" msg +:+ var "CURRENT_TARGET" (storage_path env +:+ "/current-target")
      +:+ (if negb (MatchTarget env cur Unknown) then var "CURRENT_TARGET_NAME" (filename cur) else "")
      +:+ (if negb (MatchTarget env install_target Unknown) then var "INSTALL_TARGET_NAME" (filename install_target)
           else "")
      +:+ (if negb (str_empty result) then var "RESULT" result else "") in
    emit (EvCallback msg env_variables).

Definition notify (t : UTarget) (event : ReportType) (cor_id : string) (success : option bool)
    (details : option string) : M S unit :=
  if negb (str_empty (tls_server env)) then
    emit (EvReport event cor_id (filename t) (custom_version t) success (truncate_details <$> details))
  else mret tt.

(** ** Request headers and the file [current-target] *)

Definition getAppShortlist : option (list string) := if is_compose env then apps conf else None.

(** The log is not kept; what remains is the exception for an app that is not well formed. *)
Definition logTarget (prefix : string) (target : UTarget) : M S unit :=
  _ ← lift (Target_log prefix target getAppShortlist); mret tt.

(** [HttpClient::updateHeader]: the value of a header the HTTP client was created with; no header is added. *)
Definition updateHeader (name value : string) : M S unit :=
  modify (fun s => set_headers (alter (fun _ => value) name (request_headers s)) s).

Definition updateRequestHeaders : M S unit :=
  cur ← current;
  updateHeader "x-ats-target" (filename cur);;
  updateHeader "x-ats-ostreehash" (sha256Hash cur);;
  if is_compose env then
    a ← lift (appsStr cur (apps conf));
    updateHeader "x-ats-dockerapps" a
  else mret tt.

Definition target_line (name val : string) : string := name +:+ "=" +:+ quote +:+ val +:+ quote +:+ nl.

Definition current_target_text (t : UTarget) : outcome string :=
  let opt key name := v ← jstring_at (custom_data t) key; mret (if str_empty v then "" else target_line name v) in
  lmp ← opt "lmp-manifest-sha" "LMP_MANIFEST_SHA";
  overrides ← opt "meta-subscriber-overrides-sha" "META_SUBSCRIBER_OVERRIDES_SHA";
  containers ← opt "containers-sha" "CONTAINERS_SHA";
  ts ← jindex (custom_data t) "tags";
  tag_strs ← foldO (fun acc x => v ← jasString x; mret (acc ++ [v])) [] (jelems ts);
  mret (target_line "TARGET_NAME" (filename t) +:+ target_line "CUSTOM_VERSION" (custom_version t)
        +:+ lmp +:+ overrides +:+ containers +:+ target_line "TAG" (join "," tag_strs)).

Definition writeCurrentTarget (t : UTarget) : M S unit :=
  text ← lift (current_target_text t); emit (EvWriteCurrentTarget text).

(** ** Notifications *)

Definition notifyDownloadStarted (t : UTarget) (reason : string) : M S unit :=
  callback "download-pre" t "";;
  notify t EcuDownloadStarted (correlation_id t) None (Some reason).

Definition notifyDownloadFinished (t : UTarget) (success : bool) (err_msg : string) : M S unit :=
  callback "download-post" t (if success then "OK" else "FAILED");;
  notify t EcuDownloadCompleted (correlation_id t) (Some success) (Some err_msg).

Definition notifyInstallStarted (t : UTarget) : M S unit :=
  callback "install-pre" t "";;
  notify t EcuInstallationStarted (correlation_id t) None None.

Definition notifyInstallFinished (t : UTarget) (ir : InstallationResult) : M S unit :=
  if needCompletion ir then
    callback "install-post" t "NEEDS_COMPLETION";;
    notify t EcuInstallationApplied (correlation_id t) None (Some (description ir))
  else if is_code ir kOk then
    writeCurrentTarget t;;
    callback "install-post" t "OK";;
    notify t EcuInstallationCompleted (correlation_id t) (Some true)
      (Some (install_completed_details true (description ir)))
  else
    callback "install-post" t "FAILED";;
    notify t EcuInstallationCompleted (correlation_id t) (Some false)
      (Some (install_completed_details false (description ir))).

(** ** Finalization *)

(** The mode the pending target is saved with after a finalization, if it is saved. *)
Definition finalize_mode (ret : InstallationResult) : option InstalledVersionUpdateMode :=
  if isSuccess ret then Some kCurrent
  else if is_code ret kInstallFailed || is_code ret kCustomError then Some kNone
  else None.

Definition finalizePendingUpdate (target : UTarget) : M S InstallationResult :=
  ret ← pm_finalizeInstall target;
  match finalize_mode ret with
  | Some mode => do_save target mode
  | None => mret tt
  end;;
  mret ret.

(** The second half of [finalizeInstall]. *)
Definition after_finalize (pending : option UTarget) (ret : InstallationResult) : M S (bool * InstallationResult) :=
  cur ← current;
  writeCurrentTarget cur;;
  updateRequestHeaders;;
  match pending with
  | Some p => if negb (needCompletion ret) then notifyInstallFinished p ret else mret tt
  | None => mret tt
  end;;
  mret (is_code ret kOk, ret).

Definition client_finalizeInstall : M S (bool * InstallationResult) :=
  pending ← gets (fun s => pending_of (db s));
  ret ← match pending with
        | Some p => callback "install-final-pre" p "";; finalizePendingUpdate p
        | None => mret (IR kOk "")
        end;
  after_finalize pending ret.

(** ** Queries on the versions *)

Definition getRollbackTarget (allow_current : bool) (s : S) : UTarget :=
  default Unknown (last (loadInstallationLog true allow_current (db s))).

Definition getPendingTarget (s : S) : UTarget := default Unknown (pending_of (db s)).

Definition isPendingTarget (target : UTarget) (s : S) : bool :=
  String.eqb (sha256Hash target) (sha256Hash (getPendingTarget s)).

Definition isBootFwUpdateInProgress : M S bool := on_sr isUpdateInProgress.

Definition wasTargetInstalled (target : UTarget) (s : S) : bool :=
  existsb (fun t => String.eqb (filename target) (filename t) && String.eqb (sha256Hash target) (sha256Hash t))
    (loadEcuInstallationLog true (db s)).

Definition isTargetActive (target : UTarget) (s : S) : bool :=
  let cur := getCurrent (db s) (sr s) in
  String.eqb (filename target) (filename cur) && String.eqb (sha256Hash target) (sha256Hash cur).

Definition isRollback (target : UTarget) (s : S) : bool :=
  known_local_target (pending_of (db s)) target
    (get_known_but_not_installed_versions (loadInstallationLog false true (db s))
       (loadInstallationLog true true (db s))).

Definition composeAppsChanged (s : S) : outcome bool :=
  if is_compose env then
    match apps conf with
    | None => mret false
    | Some l => j ← jindex (custom_data (getCurrent (db s) (sr s))) "docker_compose_apps";
                appListChanged j l (default [] (app_dirs (en s)))
    end
  else mret false.

Definition isRebootRequired (s : S) : bool * string := (is_reboot_required s, reboot_command env).

Definition client_isAppRunning (app : App) : M S bool :=
  if is_compose env then isAppRunning app else mret false.

Definition setAppsNotChecked : M S unit := if is_compose env then modify (set_checked false) else mret tt.

Definition appsToUpdate (target : UTarget) (cleanup_removed_apps : bool) : M S (gmap string string) :=
  if is_compose env then
    apps_to_update ← checkForAppsToUpdate (compose env) target;
    (if cleanup_removed_apps && bool_decide (apps_to_update = ∅) then
       cur ← current; handleRemovedApps (compose env) cur
     else mret tt);;
    mret apps_to_update
  else mret ∅.

Definition appsInSync (target : UTarget) : M S bool :=
  a ← appsToUpdate target true; mret (bool_decide (a = ∅)).

(** ** Download and installation *)

Definition max_tries : nat := 3.

(** The loop of [downloadImage], with [tries_left] attempts left; [can_continue]
    is what the flow control token, if any, answers. *)
Fixpoint download_tries (can_continue : bool) (tries_left : nat) (target : UTarget) (res : DownloadResult)
    : M S DownloadResult :=
  match tries_left with
  | O => mret res
  | Datatypes.S n =>
      t ← lift (toTufTarget target);
      res ← pm_Download t;
      if DR_bool res || DR_noSpace res || negb can_continue then mret res
      else download_tries can_continue n target res
  end.

Definition downloadImage (can_continue : bool) (target : UTarget) : M S DownloadResult :=
  lift (loadKeys env);;
  download_tries can_continue max_tries target (DR DownloadFailed "" "").

Definition client_download (target : UTarget) (reason : string) : M S DownloadResult :=
  notifyDownloadStarted target reason;;
  res ← downloadImage true target;
  notifyDownloadFinished target (DR_bool res) (dr_description res);;
  mret res.

Definition installPackage (target : UTarget) (install_mode : InstallMode) : M S InstallationResult :=
  try_catch (t ← lift (toTufTarget target); pm_Install t install_mode)
    (fun ex => mret (IR kInstallFailed (what ex))).

(** The bookkeeping after an installation, by its result code. *)
Definition record_install (target : UTarget) (install_mode : InstallMode) (iresult : InstallationResult)
    : M S InstallationResult :=
  if is_code iresult kNeedCompletion then
    modify (set_reboot true);;
    pending_hash ← gets (fun s => getDeploymentHash (sr s) DPending);
    (if String.eqb (sha256Hash target) pending_hash then do_save target kPending else mret tt);;
    mret iresult
  else if is_code iresult kOk then
    match install_mode with
    | OstreeOnly =>
        do_save target kPending;;
        mret (IR kNeedCompletion "finalization must be called to install and start Apps")
    | All =>
        do_save target kCurrent;;
        writeCurrentTarget target;;
        updateRequestHeaders;;
        mret iresult
    end
  else if is_code iresult kDownloadFailed then mret iresult
  else do_save target kNone;; mret iresult.

Definition client_install (target : UTarget) (install_mode : InstallMode) : M S InstallationResult :=
  notifyInstallStarted target;;
  iresult ← installPackage target install_mode;
  iresult ← record_install target install_mode iresult;
  notifyInstallFinished target iresult;;
  mret iresult.

(** ** TUF metadata *)

(** Every exception is reported by its message. *)
Definition updateImageMeta : M S (bool * string) :=
  try_catch (on_db repo_updateMeta;; mret (true, "")) (fun e => mret (false, what e)).

Definition checkImageMetaOffline : M S bool :=
  try_catch (on_db repo_checkMetaOffline;; mret true) (fun _ => mret false).

Definition allTargets (s : S) : list UTarget := image_targets (db s).

(** The roles are visited in order; [from] or [to] of each is set. *)
Definition set_from (d : DB) (m : gmap string (Z * Z)) : gmap string (Z * Z) :=
  fold_left (fun m r => <[r := (role_version d r, (default (0, 0) (m !! r)).2)]> m) roles m.
Definition set_to (d : DB) (m : gmap string (Z * Z)) : gmap string (Z * Z) * bool :=
  fold_left (fun '(m, _) r =>
    let from := (default (0, 0) (m !! r)).1 in
    (<[r := (from, role_version d r)]> m, negb (from =? role_version d r))) roles (m, false).

Definition set_details (m : gmap string (Z * Z)) (c : ClientMembers) : ClientMembers :=
  {| last_network_info_reported := last_network_info_reported c; hwinfo_reported := hwinfo_reported c;
     apps_state_ := apps_state_ c; tuf_update_details := m; targets_ := targets_ c |}.
Definition set_targets (l : option (list UTarget)) (c : ClientMembers) : ClientMembers :=
  {| last_network_info_reported := last_network_info_reported c; hwinfo_reported := hwinfo_reported c;
     apps_state_ := apps_state_ c; tuf_update_details := tuf_update_details c; targets_ := l |}.

Definition notifyTufUpdateStarted : M S unit :=
  callback "check-for-update-pre" Unknown "";;
  modify (fun s => set_cl (set_details (set_from (db s) (tuf_update_details (cl s))) (cl s)) s);;
  modify (fun s => set_cl (set_targets (stored_targets (db s)) (cl s)) s).

(** The roles with their versions, in the order of the map. *)
Definition tuf_details (m : gmap string (Z * Z)) : string :=
  join "; " ((fun r => let '(from, to) := default (0, 0) (m !! r) in
                       r +:+ ": " +:+ to_string from +:+ (if from =? to then "" else " -> " +:+ to_string to))
             <$> merge_sort String.le (elements (dom m))).

Definition tuf_report (err : string) (was_updated : bool) (m : gmap string (Z * Z)) : string :=
  let details := if negb (str_empty err) || was_updated then tuf_details m else "" in
  let need_separator := (negb (str_empty err) || was_updated) && negb (bool_decide (m = ∅)) in
  if negb (str_empty err) then details +:+ (if need_separator then "; err: " else "") +:+ err else details.

Definition notifyTufUpdateFinished (err : string) (t : UTarget) : M S unit :=
  callback "check-for-update-post" t (if str_empty err then "OK" else "FAILED: " +:+ err);;
  u ← gets (fun s => set_to (db s) (tuf_update_details (cl s)));
  modify (fun s => set_cl (set_details u.1 (cl s)) s);;
  before ← gets (fun s => targets_ (cl s));
  now_ ← gets (fun s => stored_targets (db s));
  let was_updated := match u.2, before, now_ with
                     | true, Some b, Some n => negb (MatchTargetVector env n b)
                     | w, _, _ => w
                     end in
  let details := tuf_report err was_updated u.1 in
  if negb (str_empty details) then
    cur ← current;
    notify (if IsValid t then t else cur) MetadataUpdateCompleted ("tuf-meta-" +:+ uuid env)
      (Some (str_empty err)) (Some details)
  else mret tt.

Definition checkForUpdatesBegin : M S bool :=
  notifyTufUpdateStarted;;
  '(ok, err) ← updateImageMeta;
  (if negb ok then notifyTufUpdateFinished err Unknown else mret tt);;
  mret ok.
Definition checkForUpdatesEnd (target : UTarget) : M S unit := notifyTufUpdateFinished "" target.
Definition checkForUpdatesEndWithFailure (err : string) : M S unit := notifyTufUpdateFinished err Unknown.

(** *** Import of root metadata *)
Definition isRootMetaImportNeeded (s : S) : bool * string :=
  if has_root_v2 (db s) then (false, "")
  else
    let tuf_meta_src := if String.eqb (metadata_path env) "/metadata" then "/usr/lib/sota/tuf"
                        else metadata_path env in
    if negb (path_exists env tuf_meta_src) then (false, "") else (true, tuf_meta_src).

Definition importRootMeta (src : string) (max_ver : Z) : M S bool :=
  try_catch (on_db (repo_updateRoot (offline_fetchRole env src max_ver));; mret true)
    (fun e =>
       if decide (exn_kind e = MetadataNotFoundException \/ exn_kind e = ExpiredMetadata) then mret true
       else modify (fun s => set_db (clearMetadata (db s)) s);; mret false).

Definition getClientType : ClientType :=
  match bc env with
  | None => Undefined
  | Some b => if String.eqb b "production" then Prod else Dev
  end.
Definition isRegistered : bool := match cert env with Some c => negb (str_empty c) | None => false end.

Definition importRootMetaIfNeededAndPresent : M S unit :=
  import ← gets isRootMetaImportNeeded;
  if negb import.1 then mret tt
  else
    let prod := bool_decide (getClientType = Prod) in
    let max_ver := if decide (getClientType = Undefined) then 2 else -1 in
    let import_src := import.2 +:+ "/" +:+ (if prod then "prod" else "ci") in
    if prod && negb (path_exists env (import_src +:+ "/1.root.json")) then mret tt
    else _ ← importRootMeta import_src max_ver; mret tt.

(** ** Telemetry *)
Definition send (put : string -> json -> HttpResponse) (url : string) (v : json) : M S bool :=
  let ok := isOk (put url v) in emit (EvSend url ok);; mret ok.

Definition reportAktualizrConfiguration : M S unit :=
  stored ← gets (fun s => conf_hash_is_stored env (db s));
  if negb (report_config env) || stored then mret tt
  else
    ok ← send (http_put env) (tls_server env +:+ "/system_info/config") (JString (conf_str env));
    if ok : bool then modify (fun s => set_db (store_conf_hash env (db s)) s) else mret tt.

Definition set_network (v : json) (c : ClientMembers) : ClientMembers :=
  {| last_network_info_reported := v; hwinfo_reported := hwinfo_reported c;
     apps_state_ := apps_state_ c; tuf_update_details := tuf_update_details c; targets_ := targets_ c |}.
Definition set_hwinfo (c : ClientMembers) : ClientMembers :=
  {| last_network_info_reported := last_network_info_reported c; hwinfo_reported := true;
     apps_state_ := apps_state_ c; tuf_update_details := tuf_update_details c; targets_ := targets_ c |}.
Definition set_apps_state (v : json) (c : ClientMembers) : ClientMembers :=
  {| last_network_info_reported := last_network_info_reported c; hwinfo_reported := hwinfo_reported c;
     apps_state_ := v; tuf_update_details := tuf_update_details c; targets_ := targets_ c |}.

Definition reportNetworkInfo : M S unit :=
  last ← gets (fun s => last_network_info_reported (cl s));
  if negb (report_network env) || json_eqb (network_info env) last then mret tt
  else
    ok ← send (http_put env) (tls_server env +:+ "/system_info/network") (network_info env);
    if ok : bool then modify (fun s => set_cl (set_network (network_info env) (cl s)) s) else mret tt.

Definition reportHwInfo : M S unit :=
  reported ← gets (fun s => hwinfo_reported (cl s));
  if negb (report_network env) || reported || jempty (hw_info env) then mret tt
  else
    ok ← send (http_put env) (tls_server env +:+ "/system_info") (hw_info env);
    if ok : bool then modify (fun s => set_cl (set_hwinfo (cl s)) s) else mret tt.

Definition reportAppsState : M S unit :=
  if negb (is_compose env) then mret tt
  else
    apps_state ← gets (getAppsState (compose env));
    if jisNull apps_state then mret tt
    else
      last ← gets (fun s => apps_state_ (cl s));
      same ← lift (compareAppsStates last apps_state);
      if same : bool then mret tt
      else
        ok ← send (http_post env) (tls_server env +:+ "/apps-states") apps_state;
        if ok : bool then modify (fun s => set_cl (set_apps_state apps_state (cl s)) s) else mret tt.
End client.

(** ** Theorems *)

(** *** Reports *)

Lemma truncate_details_length d : (String.length (truncate_details d) <= MaxDetailsSize)%nat.
Proof.
  unfold truncate_details. destruct (Nat.ltb_spec MaxDetailsSize (String.length d)) as [Hl|Hl]; [|done].
  rewrite length_app_s, length_str_take. unfold MaxDetailsSize in *. cbn [String.length truncated]. lia.
Qed.

(** The details of a failed installation longer than the limit are cut in the middle: what is
    reported has exactly the maximum size, starts as the details start, and ends with their last 1024
    characters, where the error is; the cut of [notify] leaves it as it is. *)
Theorem failed_install_details (d : string) :
  (MaxDetailsSize < String.length d)%nat ->
  exists head tail, truncate_details (install_completed_details false d) = head +:+ truncated_mid +:+ tail /\
    (exists rest, d = head +:+ rest) /\ (exists front, d = front +:+ tail) /\
    String.length tail = err_tail_size /\
    String.length (truncate_details (install_completed_details false d)) = MaxDetailsSize.
Proof.
  intros Hd. unfold install_completed_details. rewrite (proj2 (Nat.ltb_lt _ _) Hd). cbn [negb andb].
  set (hs := (MaxDetailsSize - err_tail_size - String.length truncated_mid)%nat).
  set (head := str_take hs d). set (tail := substr _ _ d).
  assert (Ht : tail = str_drop (String.length d - err_tail_size) d).
  { unfold tail, substr. apply str_take_all. rewrite length_str_drop. lia. }
  assert (Lt : String.length tail = err_tail_size).
  { rewrite Ht, length_str_drop. unfold err_tail_size, MaxDetailsSize in *. lia. }
  assert (Lh : String.length head = hs).
  { unfold head. rewrite length_str_take. unfold hs, err_tail_size, MaxDetailsSize in *. lia. }
  assert (Ll : String.length (head +:+ truncated_mid +:+ tail) = MaxDetailsSize).
  { rewrite !length_app_s, Lt, Lh. reflexivity. }
  assert (Hno : truncate_details (head +:+ truncated_mid +:+ tail) = head +:+ truncated_mid +:+ tail).
  { unfold truncate_details. by rewrite Ll, Nat.ltb_irrefl. }
  exists head, tail. rewrite Hno. split_and!; [done| | |done|done].
  - exists (str_drop hs d). symmetry. apply str_take_drop.
  - exists (str_take (String.length d - err_tail_size) d). rewrite Ht. symmetry. apply str_take_drop.
Qed.

Fixpoint repeat_char (c : ascii) (n : nat) : string :=
  match n with O => "" | S n' => String c (repeat_char c n') end.

Lemma failed_install_details_witness :
  String.length (truncate_details (install_completed_details false (repeat_char "x" 3000))) = MaxDetailsSize.
Proof.
  destruct (failed_install_details (repeat_char "x" 3000)) as (head & tail & _ & _ & _ & _ & Hl).
  - apply Nat.ltb_lt. vm_compute. reflexivity.
  - exact Hl.
Defined.

(** *** What the calls leave alone *)
Section frame.
Context {DB SR EN : Type}.
Context `{AppEngine EN, INvStorage DB, TufRepo DB, Ostree DB SR, BootFwUpdateStatus SR, InstallationResults,
          UptaneTargets}.
Context (env : ClientEnv DB SR EN).
Abbreviation S := (St DB SR EN).
Abbreviation cenv := (compose env).

Lemma callback_db m t r : preserves same_db (callback env m t r : M S _).
Proof. unfold callback. psolve. Qed.
Lemma notify_db t e c b d : preserves same_db (notify env t e c b d : M S _).
Proof. unfold notify. psolve. Qed.
Lemma writeCurrentTarget_db t : preserves same_db (writeCurrentTarget t : M S _).
Proof. unfold writeCurrentTarget. psolve. Qed.
Lemma logTarget_same p t (s s' : S) : logTarget env p t s = (Ret tt, s') -> s' = s.
Proof. unfold logTarget. mstep. by destruct (Target_log _ _ _); intros [= <-]. Qed.
(** Logging a target changes nothing. *)
Lemma logTarget_then {X} p t (m : M S X) (s : S) :
  (logTarget env p t ;; m) s = m s \/ exists e, (logTarget env p t ;; m) s = (Throw e, s).
Proof. unfold logTarget. mstep. destruct (Target_log _ _ _) as [l|e]; [by left|right; by exists e]. Qed.
Lemma updateRequestHeaders_db : preserves same_db (updateRequestHeaders env : M S _).
Proof. unfold updateRequestHeaders, updateHeader. psolve. Qed.
#[local] Hint Resolve callback_db notify_db writeCurrentTarget_db updateRequestHeaders_db : aklite.
Lemma callback_members m t r : preserves same_members (callback env m t r : M S _).
Proof. unfold callback. psolve. Qed.
Lemma notify_members t e c b d : preserves same_members (notify env t e c b d : M S _).
Proof. unfold notify. psolve. Qed.
Lemma writeCurrentTarget_members t : preserves same_members (writeCurrentTarget t : M S _).
Proof. unfold writeCurrentTarget. psolve. Qed.
#[local] Hint Resolve callback_members notify_members writeCurrentTarget_members : aklite.
Lemma notifyInstallFinished_members t ir : preserves same_members (notifyInstallFinished env t ir : M S _).
Proof. unfold notifyInstallFinished. psolve. Qed.
Lemma after_finalize_db p r : preserves same_db (after_finalize env p r : M S _).
Proof. unfold after_finalize. psolve. unfold notifyInstallFinished. psolve. Qed.
Lemma after_finalize_run p r (s s' : S) ok ret :
  after_finalize env p r s = (Ret (ok, ret), s') ->
  db s' = db s /\ ok = bool_decide (result_code ret = kOk) /\ r = ret.
Proof.
  intros E. split; [exact (preserves_run_inv _ _ _ _ _ (after_finalize_db p r) E)|].
  revert E. unfold after_finalize, current. mstep. destruct (writeCurrentTarget (getCurrent (db s) (sr s)) s) as [[[]|e] s1]; [|done].
  destruct (updateRequestHeaders env s1) as [[[]|e] s2]; [|done].
  destruct p as [p|]; [destruct (negb _)|].
  - destruct (notifyInstallFinished env p r s2) as [[[]|e] s3]; [|done]. by intros [= <- <- _].
  - by intros [= <- <- _].
  - by intros [= <- <- _].
Qed.
Lemma notifyInstallStarted_db t : preserves same_db (notifyInstallStarted env t : M S _).
Proof. unfold notifyInstallStarted. psolve. Qed.
Lemma notifyInstallFinished_db t ir : preserves same_db (notifyInstallFinished env t ir : M S _).
Proof. unfold notifyInstallFinished. psolve. Qed.

Lemma forEachRemovedApp_db t action :
  (forall a, preserves same_db (action a : M S unit)) -> preserves same_db (forEachRemovedApp cenv t action).
Proof. intros Ha. unfold forEachRemovedApp. pstep. apply (preserves_forM _). auto. Qed.
Lemma handleRemovedApps_db t : preserves same_db (handleRemovedApps cenv t : M S _).
Proof.
  unfold handleRemovedApps, removeDisabledComposeApps, prune_unused. pstep.
  apply forEachRemovedApp_db. eauto with aklite.
Qed.
Lemma stopDisabled_db t : preserves same_db (stopDisabledComposeApps cenv t : M S _).
Proof. apply forEachRemovedApp_db. eauto with aklite. Qed.
Lemma install_apps_db ji l res : preserves same_db (install_apps ji l res : M S _).
Proof. revert res. induction l as [|a l IH]; intros res; cbn [install_apps]; pstep. Qed.
Lemma finalize_apps_db ctx l msg : preserves same_db (finalize_apps ctx l msg : M S _).
Proof. revert msg. induction l as [|a l IH]; intros msg; cbn [finalize_apps]; pstep. Qed.
Lemma fetch_apps_db l : preserves same_db (fetch_apps l : M S _).
Proof. induction l as [|a l IH]; cbn [fetch_apps]; pstep. Qed.
Lemma add_report_db r : preserves same_db (add_report r : M S _).
Proof. unfold add_report. pstep. intros s. done. Qed.
#[local] Hint Resolve handleRemovedApps_db stopDisabled_db install_apps_db finalize_apps_db fetch_apps_db
  add_report_db : aklite.
Lemma compose_install_db t : preserves same_db (compose_install cenv t : M S _).
Proof.
  unfold compose_install, install_target_apps, prune_unused. psolve.
  apply (preserves_forM _). eauto with aklite.
Qed.
Lemma ostree_finalize_db t : preserves same_db (do_ostree_finalize t : M S _).
Proof. psolve. Qed.
#[local] Hint Resolve ostree_finalize_db : aklite.
Lemma compose_finalizeInstall_db t : preserves same_db (compose_finalizeInstall cenv t : M S _).
Proof. unfold compose_finalizeInstall, prune_unused. pstep. Qed.
Lemma compose_Download_db t : preserves same_db (compose_Download cenv t : M S _).
Proof. unfold compose_Download. pstep. Qed.
#[local] Hint Resolve compose_install_db compose_finalizeInstall_db compose_Download_db : aklite.

Lemma pm_finalizeInstall_db t : preserves same_db (pm_finalizeInstall env t : M S _).
Proof. unfold pm_finalizeInstall. pstep. Qed.
Lemma pm_Download_db t : preserves same_db (pm_Download env t : M S _).
Proof. unfold pm_Download. pstep. Qed.
Lemma installPackage_db t m : preserves same_db (installPackage env t m : M S _).
Proof. unfold installPackage, pm_Install, compose_Install, rootfs_Install. pstep. Qed.
End frame.
#[export] Hint Resolve callback_db notify_db writeCurrentTarget_db updateRequestHeaders_db notifyInstallStarted_db
  notifyInstallFinished_db pm_finalizeInstall_db pm_Download_db installPackage_db : aklite.

Section theorems.
Context {DB SR EN : Type}.
Context `{AppEngine EN, INvStorage DB, TufRepo DB, Ostree DB SR, BootFwUpdateStatus SR, InstallationResults,
          UptaneTargets}.
Context (env : ClientEnv DB SR EN).
Abbreviation S := (St DB SR EN).

(** *** Installation *)

(** What the storage holds after an installation that returned [r0]; [deployed]
    is the commit of the pending deployment. *)
Definition db_after_install (t : UTarget) (mode : InstallMode) (r0 : InstallationResult) (deployed : string)
    (d : DB) : DB :=
  match result_code r0 with
  | kNeedCompletion => if String.eqb (sha256Hash t) deployed then saveInstalledVersion t kPending d else d
  | kOk => saveInstalledVersion t (match mode with OstreeOnly => kPending | All => kCurrent end) d
  | kDownloadFailed => d
  | _ => saveInstalledVersion t kNone d
  end.

Lemma record_install_run t mode r0 (s s' : S) r :
  record_install env t mode r0 s = (Ret r, s') ->
  db s' = db_after_install t mode r0 (getDeploymentHash (sr s) DPending) (db s) /\
  (result_code r0 = kNeedCompletion -> is_reboot_required s' = true) /\
  result_code r = match result_code r0, mode with kOk, OstreeOnly => kNeedCompletion | c, _ => c end.
Proof.
  unfold record_install, is_code, db_after_install.
  destruct (decide (result_code r0 = kNeedCompletion)) as [E1|N1]; [rewrite (bool_decide_true _ E1), E1|
    rewrite (bool_decide_false _ N1)].
  { unfold do_save, emit. mstep. cbn [sr set_reboot]. destruct (String.eqb _ _); intros [= <- <-]; split_and!; (done || exact E1). }
  destruct (decide (result_code r0 = kOk)) as [E2|N2]; [rewrite (bool_decide_true _ E2), E2|
    rewrite (bool_decide_false _ N2)].
  { destruct mode.
    - rewrite M_bind_Ret. intros ([] & s1 & E3 & E). rewrite M_bind_Ret in E. destruct E as ([] & s2 & E4 & E).
      rewrite M_bind_Ret in E. destruct E as ([] & s3 & E5 & E). injection E as <- <-.
      pose proof (preserves_run_inv _ _ _ _ _ (writeCurrentTarget_db t) E4) as D4.
      pose proof (preserves_run_inv _ _ _ _ _ (updateRequestHeaders_db env) E5) as D5.
      unfold same_db in *. rewrite D5, D4. unfold do_save, emit in E3. mstep. injection E3 as <-.
      split_and!; (done || exact E2).
    - unfold do_save, emit. mstep. intros [= <- <-]. split_and!; done. }
  destruct (decide (result_code r0 = kDownloadFailed)) as [E3|N3]; [rewrite (bool_decide_true _ E3), E3|
    rewrite (bool_decide_false _ N3)].
  { intros [= <- <-]. split_and!; (done || exact E3). }
  unfold do_save, emit. mstep. intros [= <- <-]. destruct (result_code r0); try done; by destruct mode.
Qed.

Lemma client_install_run (t : UTarget) (mode : InstallMode) (s s' : S) (r : InstallationResult) :
  client_install env t mode s = (Ret r, s') ->
  exists r0 s1 s2, installPackage env t mode s1 = (Ret r0, s2) /\ db s1 = db s /\
    db s' = db_after_install t mode r0 (getDeploymentHash (sr s2) DPending) (db s) /\
    (result_code r0 = kNeedCompletion -> is_reboot_required s' = true) /\
    result_code r = match result_code r0, mode with kOk, OstreeOnly => kNeedCompletion | c, _ => c end.
Proof.
  unfold client_install. rewrite M_bind_Ret. intros ([] & s1 & E1 & E).
  rewrite M_bind_Ret in E. destruct E as (r0 & s2 & E2 & E).
  rewrite M_bind_Ret in E. destruct E as (r1 & s3 & E3 & E).
  rewrite M_bind_Ret in E. destruct E as ([] & s4 & E4 & E). injection E as <- <-.
  pose proof (preserves_run_inv _ _ _ _ _ (notifyInstallStarted_db env t) E1) as D1.
  pose proof (preserves_run_inv _ _ _ _ _ (installPackage_db env t mode) E2) as D2.
  pose proof (preserves_run_inv _ _ _ _ _ (notifyInstallFinished_db env t r1) E4) as D4.
  pose proof (preserves_run_inv _ _ _ _ _ (notifyInstallFinished_members env t r1) E4) as M4.
  unfold same_db in *. apply record_install_run in E3 as (D3 & Hrb & Hc).
  exists r0, s1, s2. rewrite D4, D3, D2, D1. split_and!; [done..| |done].
  intros Hn. destruct M4 as (_ & _ & _ & -> & _). auto.
Qed.

(** C11: After [LiteClient::install] the storage records the outcome, and nothing else of the versions
    changes: the target is current after a complete installation, pending after one that needs a
    reboot if its commit is really the pending deployment (or the apps are left for the
    finalization), unchanged if the images could not be loaded so that the installation is tried
    again, and failing otherwise; an installation that throws counts as failed, and a needed reboot
    is remembered. *)
Theorem client_install_records (t : UTarget) (mode : InstallMode) (s s' : S) (r : InstallationResult) :
  client_install env t mode s = (Ret r, s') ->
  exists r0 s1 s2, installPackage env t mode s1 = (Ret r0, s2) /\ db s1 = db s /\
    db s' = db_after_install t mode r0 (getDeploymentHash (sr s2) DPending) (db s) /\
    (result_code r0 = kNeedCompletion -> is_reboot_required s' = true) /\
    result_code r = match result_code r0, mode with kOk, OstreeOnly => kNeedCompletion | c, _ => c end.
Proof. exact (client_install_run t mode s s' r). Qed.

(** An installation never throws: exceptions of the package manager become a failure. *)
Lemma installPackage_returns t mode (s : S) : exists r, run (installPackage env t mode) s = Ret r.
Proof.
  unfold installPackage, run, try_catch. mstep. destruct (toTufTarget t) as [tt'|e]; [|by eexists].
  destruct (pm_Install env tt' mode s) as [[r|e] s1]; by eexists.
Qed.

(** *** Finalization *)
Context `{!INvStorageSpec DB}.

Lemma client_finalizeInstall_run (s s' : S) (ok : bool) (ret : InstallationResult) :
  client_finalizeInstall env s = (Ret (ok, ret), s') ->
  ok = bool_decide (result_code ret = kOk) /\
  match pending_of (db s) with
  | None => ok = true /\ db s' = db s
  | Some p =>
      (exists s1 s2, pm_finalizeInstall env p s1 = (Ret ret, s2) /\ db s1 = db s) /\
      match finalize_mode ret with
      | Some m => db s' = saveInstalledVersion p m (db s) /\ pending_of (db s') = None
      | None => db s' = db s /\ pending_of (db s') = Some p
      end
  end.
Proof.
  unfold client_finalizeInstall. mstep. intros E. destruct (pending_of (db s)) as [p|] eqn:Hp.
  - destruct (callback env "install-final-pre" p "" s) as [[[]|e] s1] eqn:E1; [|done].
    pose proof (preserves_run_inv _ _ _ _ _ (callback_db env _ p "") E1) as D1.
    unfold finalizePendingUpdate in E. mstep.
    destruct (pm_finalizeInstall env p s1) as [[r0|e] s2] eqn:E2; [|done].
    pose proof (preserves_run_inv _ _ _ _ _ (pm_finalizeInstall_db env p) E2) as D2.
    assert (Hsave : exists s3, db s3 = match finalize_mode r0 with
                                       | Some m => saveInstalledVersion p m (db s) | None => db s end /\
              after_finalize env (Some p) r0 s3 = (Ret (ok, ret), s')).
    { unfold same_db in *. destruct (finalize_mode r0) as [m|]; eexists; (split; [|exact E]); cbn;
        by rewrite D2, D1. }
    clear E. destruct Hsave as (s3 & D3 & E). apply after_finalize_run in E as (D4 & -> & ->).
    split; [done|]. split; [by exists s1, s2|]. rewrite D4, D3.
    destruct (finalize_mode ret) as [m|] eqn:Hm; [|done]. split; [done|].
    unfold finalize_mode in Hm. destruct (isSuccess ret); [injection Hm as <-; apply save_current_pending|].
    destruct (_ || _); [|done]. injection Hm as <-. by apply (save_none_pending p (db s) p).
  - fold (after_finalize env None (IR kOk "") s) in E. apply after_finalize_run in E as (D4 & -> & <-).
    split; [done|]. split; [done|exact D4].
Qed.

End theorems.

Section download.
Context {DB SR EN : Type}.
Context `{AppEngine EN, INvStorage DB, TufRepo DB, Ostree DB SR, BootFwUpdateStatus SR, InstallationResults,
          UptaneTargets}.
Context (env : ClientEnv DB SR EN).
Abbreviation S := (St DB SR EN).

(** [n] attempts from [s] to [s'], each failed for another reason than a lack of storage. *)
Inductive retried (t : TufTarget) : nat -> S -> S -> Prop :=
  | retried_O s : retried t O s s
  | retried_S n s s1 s2 res :
      pm_Download env t s = (Ret res, s1) -> dr_status res <> DOk -> dr_status res <> DownloadFailed_NoSpace ->
      retried t n s1 s2 -> retried t (Datatypes.S n) s s2.

Lemma download_tries_run k target res0 (s s' : S) res :
  download_tries env true (Datatypes.S k) target res0 s = (Ret res, s') ->
  exists n t s1, toTufTarget target = Ret t /\ (n <= k)%nat /\ retried t n s s1 /\
    pm_Download env t s1 = (Ret res, s') /\
    ((n < k)%nat -> dr_status res = DOk \/ dr_status res = DownloadFailed_NoSpace).
Proof.
  revert res0 s. induction k as [|k IH]; intros res0 s; cbn [download_tries]; rewrite M_bind_Ret;
    intros (t & s0 & E0 & E); injection E0 as Ht <-; rewrite M_bind_Ret in E; destruct E as (r & s1 & E1 & E);
    rewrite orb_false_r in E; destruct (DR_bool r || DR_noSpace r) eqn:Hb.
  - injection E as <- <-. exists O, t, s. split_and!; [done|lia|constructor|done|lia].
  - injection E as <- <-. exists O, t, s. split_and!; [done|lia|constructor|done|lia].
  - injection E as <- <-. exists O, t, s. split_and!; [done|lia|constructor|done|].
    intros _. apply orb_true_iff in Hb. unfold DR_bool, DR_noSpace in Hb. by rewrite !bool_decide_eq_true in Hb.
  - destruct (IH r s1 E) as (n & t' & s2 & Ht' & Hn & Hr & Ed & Hl). rewrite Ht in Ht'. injection Ht' as <-.
    apply orb_false_iff in Hb. unfold DR_bool, DR_noSpace in Hb. rewrite !bool_decide_eq_false in Hb.
    exists (Datatypes.S n), t, s2. split_and!; [done|lia| |done|intros ?; apply Hl; lia].
    destruct Hb. by econstructor.
Qed.

(** A target is downloaded in at most three attempts: the result is that of the last one, every
    earlier attempt failed, and only a success or a lack of storage ends the attempts early. *)
Theorem downloadImage_attempts (target : UTarget) (s s' : S) (res : DownloadResult) :
  downloadImage env true target s = (Ret res, s') ->
  exists n t s1, toTufTarget target = Ret t /\ (n < max_tries)%nat /\ retried t n s s1 /\
    pm_Download env t s1 = (Ret res, s') /\
    ((n < max_tries - 1)%nat -> dr_status res = DOk \/ dr_status res = DownloadFailed_NoSpace).
Proof.
  unfold downloadImage. intros E. pure_step E u Hu. destruct (download_tries_run 2 target (DR DownloadFailed "" "") s s' res E) as (n & t & s1 & H1' & H2' & H3' & H4' & H5').
  exists n, t, s1. unfold max_tries. split_and!; [done|lia|done|done|exact H5'].
Qed.

(** *** The callbacks around a download *)
Lemma callback_event m t r (s s' : S) o :
  str_empty (callback_program env) = false -> callback env m t r s = (o, s') ->
  o = Ret tt /\ exists v, trace s' = trace s ++ [EvCallback m v].
Proof.
  unfold callback, current, emit. intros ->. mstep. intros [= <- <-]. split; [done|]. by eexists.
Qed.

Definition is_report (e : Event) : Prop :=
  match e with EvReport _ _ _ _ _ _ => True | _ => False end.
Definition is_fetch (e : Event) : Prop :=
  match e with EvPull _ _ _ | EvFetch _ _ => True | _ => False end.

Lemma notify_emits t e c b d : preserves (emits is_report) (notify env t e c b d : M S _).
Proof. unfold notify. pstep. by apply emits_emit. Qed.

Lemma rootfs_Download_fetches renv t : preserves (emits is_fetch) (rootfs_Download renv t : M S _).
Proof.
  unfold rootfs_Download. pstep.
  assert (G : forall rs ed res, preserves (emits is_fetch) (download_loop renv t rs ed res : M S _)).
  { induction rs as [|r rs IH]; intros ed res; cbn [download_loop]; unfold setRemote, rootfs_getUsageInfo; pstep.
    by apply emits_pull. }
  apply G.
Qed.
Lemma fetch_apps_fetches l : preserves (emits is_fetch) (fetch_apps l : M S _).
Proof. induction l as [|a l IH]; cbn [fetch_apps]; pstep. by apply emits_fetch. Qed.
#[local] Hint Resolve rootfs_Download_fetches fetch_apps_fetches : aklite.
Lemma pm_Download_fetches t : preserves (emits is_fetch) (pm_Download env t : M S _).
Proof. unfold pm_Download, compose_Download. pstep. Qed.
Lemma downloadImage_fetches b t : preserves (emits is_fetch) (downloadImage env b t : M S _).
Proof.
  assert (G : forall k res, preserves (emits is_fetch) (download_tries env b k t res : M S _)).
  { induction k as [|k IH]; intros res; cbn [download_tries]; pstep. apply pm_Download_fetches. }
  unfold downloadImage. pstep.
Qed.

(** A download runs the callback program before the first byte is fetched and after the last, the
    second time with the outcome; the reports to the backend follow the callbacks. *)
Theorem client_download_events (target : UTarget) (reason : string) (s s' : S) (res : DownloadResult) :
  str_empty (callback_program env) = false ->
  client_download env target reason s = (Ret res, s') ->
  exists v1 r1 fs v2 r2, trace s' = trace s ++ EvCallback "download-pre" v1 :: r1 ++ fs
                                    ++ EvCallback "download-post" v2 :: r2 /\
    Forall is_report r1 /\ Forall is_fetch fs /\ Forall is_report r2.
Proof.
  intros Hcb. unfold client_download, notifyDownloadStarted, notifyDownloadFinished. mstep. intros E.
  destruct (callback env "download-pre" target "" s) as [o s1] eqn:E1.
  apply (callback_event _ _ _ _ _ _ Hcb) in E1 as [-> [v1 T1]].
  destruct (notify env target EcuDownloadStarted _ _ _ s1) as [[[]|e] s2] eqn:E2; [|done].
  destruct (emits_run_inv _ _ _ _ _ (notify_emits _ _ _ _ _) E2) as (r1 & T2 & F2).
  destruct (downloadImage env true target s2) as [[r|e] s3] eqn:E3; [|done].
  destruct (emits_run_inv _ _ _ _ _ (downloadImage_fetches _ _) E3) as (fs & T3 & F3).
  destruct (callback env "download-post" _ _ s3) as [o s4] eqn:E4.
  apply (callback_event _ _ _ _ _ _ Hcb) in E4 as [-> [v2 T4]].
  destruct (notify env target EcuDownloadCompleted _ _ _ s4) as [[[]|e] s5] eqn:E5; [|done].
  destruct (emits_run_inv _ _ _ _ _ (notify_emits _ _ _ _ _) E5) as (r2 & T5 & F5).
  injection E as <- <-. exists v1, r1, fs, v2, r2.
  rewrite T5, T4, T3, T2, T1, <- !app_assoc. done.
Qed.
End download.

(** ** The theorems on the concrete platform *)

Definition sample_client : ClientEnv SimpleDB SimpleSR SimpleEN := {|
  compose := sample_compose; is_compose := true; callback_program := "/usr/bin/callback";
  storage_path := "/var/sota"; metadata_path := "/metadata"; tls_server := "https://gateway"; tags := ["devel"];
  reboot_command := "/sbin/reboot"; uuid := "0000"; bc := Some "production"; cert := Some "cert";
  path_exists _ := true; MatchTarget a b := String.eqb (filename a) (filename b);
  MatchTargetVector a b := bool_decide (filename <$> a = filename <$> b);
  http_put _ _ := {| body := ""; http_status_code := 200; isOk := true; resp_headers := ∅ |};
  http_post _ _ := {| body := ""; http_status_code := 200; isOk := true; resp_headers := ∅ |};
  report_config := true; report_network := true; conf_str := ""; conf_hash_is_stored _ := false;
  store_conf_hash d := d; network_info := JNull; hw_info := JNull; loadKeys := mret tt; meta_file _ := None;
  RoleFileName role v := to_string v +:+ "." +:+ role +:+ ".json"; show_Version := to_string |}.

Lemma client_install_records_witness :
  let m := client_install sample_client (sample_target "3") All in
  exists r0 s1 s2, installPackage sample_client (sample_target "3") All s1 = (Ret r0, s2) /\
    db (exec m sample_downloaded) =
      db_after_install (sample_target "3") All r0 (getDeploymentHash (sr s2) DPending) (db sample_downloaded).
Proof.
  destruct (client_install_records sample_client (sample_target "3") All sample_downloaded
              (exec (client_install sample_client (sample_target "3") All) sample_downloaded)
              (the (IR kUnknown "") (run (client_install sample_client (sample_target "3") All) sample_downloaded)))
    as (r0 & s1 & s2 & H1 & _ & H2 & _).
  - apply (run_the (IR kUnknown "") (client_install sample_client (sample_target "3") All) sample_downloaded).
    vm_compute. reflexivity.
  - exists r0, s1, s2. split; [exact H1|exact H2].
Defined.

(** The device after the installation and a reboot on the new commit *)
Definition sample_rebooted : SimpleSt :=
  let s := exec (client_install sample_client (sample_target "3") All) sample_downloaded in
  set_sr {| sr_current := "3"; sr_pending := ""; sr_good_url := ""; sr_fw := "3"; sr_protected := true;
            sr_upgrading := false; sr_commits := [] |} s.


Lemma downloadImage_attempts_witness :
  exists n t s1, toTufTarget (sample_target "3") = Ret t /\ (n < max_tries)%nat /\
    retried sample_client t n sample_checked s1.
Proof.
  destruct (downloadImage_attempts sample_client (sample_target "3") sample_checked
              (exec (downloadImage sample_client true (sample_target "3")) sample_checked)
              (the (DR DOk "" "") (run (downloadImage sample_client true (sample_target "3")) sample_checked)))
    as (n & t & s1 & H1 & H2 & H3 & _).
  - apply (run_the (DR DOk "" "") (downloadImage sample_client true (sample_target "3")) sample_checked).
    vm_compute. reflexivity.
  - exists n, t, s1. split; [exact H1|]. split; [exact H2|exact H3].
Defined.

Lemma client_download_events_witness :
  let m := client_download sample_client (sample_target "3") "update" in
  exists v1 r1 fs v2 r2, trace (exec m sample_checked) = trace sample_checked
      ++ EvCallback "download-pre" v1 :: r1 ++ fs ++ EvCallback "download-post" v2 :: r2 /\
    Forall is_report r1 /\ Forall is_fetch fs /\ Forall is_report r2.
Proof.
  apply (client_download_events sample_client (sample_target "3") "update" sample_checked
           (exec (client_download sample_client (sample_target "3") "update") sample_checked)
           (the (DR DOk "" "") (run (client_download sample_client (sample_target "3") "update") sample_checked)));
    [reflexivity|].
  apply (run_the (DR DOk "" "") (client_download sample_client (sample_target "3") "update") sample_checked).
  vm_compute. reflexivity.
Defined.
