(* ===== verification/Setup.v ===== *)
(** * The construction of a client

    The constructors of [LiteClient] ([src/src/liteclient.cc]) and of [ComposeAppManager]
    ([src/src/composeappmanager.cc]): how the configuration of a device becomes the environment the
    other files work with. They open the storage, give the device its identity, make the sysroot
    object, choose the package manager and the app engine, and record the initial target. *)

From S2P Require Import Prelude Json Targets Registry Volume Restorable Platform Sysroot Bootloader Sample RootfsTree.
From S2P Require Import ComposeApps Client.

(** ** Configuration *)

Definition ComposeAppManager_Name : string := "ostree+compose_apps".
Definition RootfsTreeManager_Name : string := "ostree".
(** libaktualizr's [PACKAGE_MANAGER_NONE] *)
Definition PACKAGE_MANAGER_NONE : string := "none".
Definition DefAuthCredsEndpoint : string := "https://ota-lite.foundries.io:8443/hub-creds/".

(** The members of libaktualizr's [Config] the constructors read; [cc_tls_cacert] is the path of the root
    certificate in the storage. *)
Record ClientConfig := {
  cc_extra : gmap string string;
  cc_pacman_type : string;
  cc_sysroot : string;
  cc_booted : BootedType;
  cc_os : string;
  cc_ostree_server : string;
  cc_repo_server : string;
  cc_primary_ecu_serial : string;
  cc_primary_ecu_hardware_id : string;
  cc_tls_cacert : string;
}.

Definition parse_tags (raw : gmap string string) : list string :=
  match raw !! "tags" with
  | Some val => if Nat.ltb 0 (String.length val) then split (is_any_of ", ") val else []
  | None => []
  end.

Definition find_callback_program (file_exists : string -> bool) (raw : gmap string string) : string :=
  match raw !! "callback_program" with
  | Some p => if file_exists p then p else ""
  | None => ""
  end.

(** The endpoint of the credentials of the registry: a sibling of the repository *)
Definition auth_creds_endpoint (repo_endpoint : string) : string :=
  if str_empty repo_endpoint then DefAuthCredsEndpoint
  else match rfind_char "/" repo_endpoint with
       | Some endpoint_pos => str_take endpoint_pos repo_endpoint +:+ "/hub-creds/"
       | None => DefAuthCredsEndpoint
       end.

(** The type of the package manager, if the configuration does not tell *)
Definition deduce_type (app_engine_given : bool) (file_exists : string -> bool) (type : string) : string :=
  if String.eqb type PACKAGE_MANAGER_NONE then
    if app_engine_given || (file_exists "/usr/bin/dockerd" && file_exists "/usr/bin/docker")
    then ComposeAppManager_Name else RootfsTreeManager_Name
  else type.

(** The parameters of the package manager for apps *)
Definition compose_extra (app_engine_given registered : bool) (tls_cacert : string) (extra : gmap string string)
    : gmap string string :=
  let enforced :=
    if negb app_engine_given && bool_decide (extra !! "reset_apps" = None) && negb registered
       && bool_decide (extra !! "enforce_composeapp_engine" = None)
    then <["reset_apps" := ""]> extra else extra in
  <["compose_apps_proxy_ca" := tls_cacert]> enforced.

(** ** The app engine *)

(** The engine that is made, with what it is made with *)
Inductive EngineKind :=
  | EngineGiven
  | EngineRestorable (skopeo_cmd docker_host compose_cmd : string)
  | EngineComposectl (composectl_cmd docker_host compose_cmd : string) (with_proxy : bool)
  | EngineCompose (compose_cmd : string).
Definition restorable_kind (k : EngineKind) : bool :=
  match k with EngineRestorable _ _ _ | EngineComposectl _ _ _ _ => true | _ => false end.

(** The system and the libraries; [canonical_path] is [boost::filesystem::canonical], [shell_code] the exit code of a
    command, [EN] the state of the engine and [construct_engine] its constructor. *)
Record SetupEnv (DB EN : Type) := {
  new_storage : bool -> outcome unit;
  import_data : M DB unit;
  load_ecu_serials : DB -> option (list (string * string));
  store_ecu_serials : list (string * string) -> DB -> DB;
  (** the limits libaktualizr checks on a serial and a hardware id *)
  valid_ecu : string -> string -> outcome unit;
  hostname : string;
  random_uuid : string;
  file_exists : string -> bool;
  load_keys : outcome unit;
  cast_uint : string -> option Z;
  cast_bool_ : string -> outcome bool;
  canonical_path : string -> outcome string;
  shell_code : string -> Z;
  DOCKER_HOST : option string;
  USE_COMPOSEAPP_ENGINE : bool;
  volume_env : StatEnv;
  construct_engine : ComposeConfig -> EngineKind -> M EN unit;
}.
Arguments new_storage {DB EN}.
Arguments import_data {DB EN}.
Arguments load_ecu_serials {DB EN}.
Arguments store_ecu_serials {DB EN}.
Arguments valid_ecu {DB EN}.
Arguments hostname {DB EN}.
Arguments random_uuid {DB EN}.
Arguments file_exists {DB EN}.
Arguments load_keys {DB EN}.
Arguments cast_uint {DB EN}.
Arguments cast_bool_ {DB EN}.
Arguments canonical_path {DB EN}.
Arguments shell_code {DB EN}.
Arguments DOCKER_HOST {DB EN}.
Arguments USE_COMPOSEAPP_ENGINE {DB EN}.
Arguments volume_env {DB EN}.
Arguments construct_engine {DB EN}.

(** [path.filename()] of a path that does not end with a slash *)
Definition path_filename (p : string) : string :=
  match rfind_char "/" p with Some n => str_drop (S n) p | None => p end.

Section manager.
Context {DB EN : Type} (env : SetupEnv DB EN).

(** The command that runs compose: [docker compose] if the program is docker and supports it *)
Definition compose_command (conf : ComposeConfig) : outcome string :=
  p ← canonical_path env (compose_bin conf);
  let compose_cmd := p +:+ " " in
  if String.eqb (path_filename (compose_bin conf)) "docker" then
    let compose_cmd := compose_cmd +:+ "compose " in
    if negb (shell_code env compose_cmd =? EXIT_SUCCESS) then
      p ← canonical_path env "/usr/bin/docker-compose"; mret (p +:+ " ")
    else mret compose_cmd
  else mret compose_cmd.

(** The constructor of [ComposeAppManager]: the engine *)
Definition choose_engine (conf : ComposeConfig) (app_engine_given : bool) : outcome EngineKind :=
  if app_engine_given then mret EngineGiven
  else
    compose_cmd ← compose_command conf;
    if has_reset_apps conf then
      let docker_host := default "unix:///var/run/docker.sock" (DOCKER_HOST env) in
      if USE_COMPOSEAPP_ENGINE env then
        composectl_cmd ← canonical_path env (composectl_bin conf);
        _ ← GetDefStorageSpaceFunc (volume_env env) (storage_watermark conf);
        mret (EngineComposectl composectl_cmd docker_host compose_cmd (negb (str_empty (apps_proxy conf))))
      else
        skopeo_cmd ← canonical_path env (skopeo_bin conf);
        _ ← GetDefStorageSpaceFunc (volume_env env) (storage_watermark conf);
        mret (EngineRestorable skopeo_cmd docker_host compose_cmd)
    else mret (EngineCompose compose_cmd).

(** The proxy the composectl engine asks for before a download: the URL, empty on an error, and the
    certificate. [post] posts to the gateway. *)
Definition proxy_provider (post : string -> HttpResponse) (conf : ComposeConfig) : string * string :=
  let resp := post (apps_proxy conf) in
  (if isOk resp then body resp else "", apps_proxy_ca conf).

(** The identity of the device: the one of the storage, or a new one that is stored *)
Definition primary_ecu_of (config : ClientConfig) : M DB (string * string) :=
  stored ← gets (load_ecu_serials env);
  match stored with
  | Some ecu_serials => mret (default ("", "") (head ecu_serials))
  | None =>
      let hwid := if str_empty (cc_primary_ecu_hardware_id config) then hostname env
                  else cc_primary_ecu_hardware_id config in
      let serial := if str_empty (cc_primary_ecu_serial config) then random_uuid env
                    else cc_primary_ecu_serial config in
      lift (valid_ecu env serial hwid);;
      modify (store_ecu_serials env [(serial, hwid)]);;
      mret (serial, hwid)
  end.
End manager.

(** ** [LiteClient] *)

Section client_setup.
Context {DB SR EN OS K P F ST SO D : Type}.
Context `{AppEngine EN, INvStorage DB, TufRepo DB, Ostree DB SR, BootFwUpdateStatus SR, InstallationResults,
          UptaneTargets, KeyFile K, LibOstree OS K P F ST, OstreeSysroot OS SO D}.
Context (env : SetupEnv DB EN).
Abbreviation S := (St DB SR EN).

(** The device, and the storage of libostree *)
Record SetupSt := { setup_dev : S; setup_os : OS }.
Definition on_dev {A} (m : M S A) : M SetupSt A := fun s =>
  let '(o, d) := m (setup_dev s) in (o, {| setup_dev := d; setup_os := setup_os s |}).
Definition on_os {A} (m : M OS A) : M SetupSt A := fun s =>
  let '(o, x) := m (setup_os s) in (o, {| setup_dev := setup_dev s; setup_os := x |}).

(** The environment of the client, on top of [base], which has what the constructors do not set *)
Definition with_rootfs (config : ClientConfig) (extra : gmap string string) (r : RootfsEnv SR) : RootfsEnv SR := {|
  update_block := UpdateBlock extra; remote := remote r; ostree_server := cc_ostree_server config;
  gateway_url := cc_ostree_server config; repoPath := cc_sysroot config +:+ "/ostree/repo";
  gateway_post := gateway_post r; http := http r; cast_u64 := cast_u64 r; cast_what := cast_what r;
  stat_env := stat_env r; reserved_pct := reserved_pct r |}.
Definition client_env (base : ClientEnv DB SR EN) (config : ClientConfig) (extra : gmap string string)
    (conf : ComposeConfig) (restorable compose_type : bool) : ClientEnv DB SR EN := {|
  compose := {| rootfs_env := with_rootfs config extra (rootfs_env (compose base)); cfg := conf;
                is_restorable_engine := restorable; apps_stat_env := apps_stat_env (compose base);
                volume_id := volume_id (compose base); uninit := uninit (compose base);
                now := now (compose base) |};
  is_compose := compose_type;
  callback_program := find_callback_program (file_exists env) (cc_extra config);
  storage_path := storage_path base; metadata_path := metadata_path base; tls_server := tls_server base;
  tags := parse_tags (cc_extra config); reboot_command := reboot_command base; uuid := uuid base; bc := bc base;
  cert := cert base; path_exists := path_exists base; MatchTarget := MatchTarget base;
  MatchTargetVector := MatchTargetVector base; http_put := http_put base; http_post := http_post base;
  report_config := report_config base; report_network := report_network base; conf_str := conf_str base;
  conf_hash_is_stored := conf_hash_is_stored base; store_conf_hash := store_conf_hash base;
  network_info := network_info base; hw_info := hw_info base; loadKeys := loadKeys base; meta_file := meta_file base;
  RoleFileName := RoleFileName base; show_Version := show_Version base |}.

(** The headers of the HTTP client, names and values, made before the type is deduced *)
Definition initRequestHeaders (config : ClientConfig) : list (string * string) :=
  [("x-ats-ostreehash", "unknown"); ("x-ats-target", "unknown")]
  ++ (if String.eqb (cc_pacman_type config) ComposeAppManager_Name then [("x-ats-dockerapps", "unknown")] else [])
  ++ [("x-ats-tags", join "," (parse_tags (cc_extra config)))].

(** The members a new client and its package manager start with *)
Definition new_client_members (headers : list (string * string)) (s : S) : S :=
  mkSt (db s) (sr s) (en s) (trace s) ∅ ∅ false false (list_to_map headers)
    {| last_network_info_reported := JNull; hwinfo_reported := false; apps_state_ := JNull; tuf_update_details := ∅;
       targets_ := None |}.

(** The end of the constructor *)
Definition finish_client (config : ClientConfig) (extra : gmap string string)
    (completeInitialTarget : UTarget -> M S UTarget) (c : ClientEnv DB SR EN) : M S (ClientEnv DB SR EN) :=
  (if bool_decide (extra !! "x-fio-test-no-init-target" = None)
   then setInitialTargetIfNeeded completeInitialTarget (cc_primary_ecu_hardware_id config) else mret tt);;
  updateRequestHeaders c;;
  mret c.

(** What is made: the environment, the identity, the sysroot and the engine; the members are in the state. *)
Record LiteClientParts := {
  lc_env : ClientEnv DB SR EN;
  lc_primary_ecu : string * string;
  lc_sysroot : Sysroot SO;
  lc_engine : option EngineKind;
}.

(** The constructor of [LiteClient]. The dynamic casts of the package manager to its two interfaces always succeed;
    the parameters of a package manager for the root file system alone are parsed when they are used. *)
Definition make_LiteClient (base : ClientEnv DB SR EN) (config : ClientConfig) (app_engine_given read_only_storage : bool)
    : M SetupSt LiteClientParts :=
  lift (new_storage env read_only_storage);;
  on_dev (on_db (import_data env));;
  let extra := <["hub_auth_creds_endpoint" := auth_creds_endpoint (cc_repo_server config)]> (cc_extra config) in
  ecu ← on_dev (on_db (primary_ecu_of env config));
  sysroot ← on_os (make_Sysroot (cast_uint env)
    {| pc_sysroot := cc_sysroot config; pc_booted := cc_booted config; pc_os := cc_os config; pc_extra := extra |});
  on_dev (modify (new_client_members (initRequestHeaders config)));;
  lift (load_keys env);;
  let type := deduce_type app_engine_given (file_exists env) (cc_pacman_type config) in
  if String.eqb type ComposeAppManager_Name then
    let extra := compose_extra app_engine_given (isRegistered base) (cc_tls_cacert config) extra in
    conf ← lift (parse_ComposeConfig (cast_bool_ env) extra);
    engine ← lift (choose_engine env conf app_engine_given);
    on_dev (on_en (construct_engine env conf engine));;
    c ← on_dev (finish_client config extra completeInitialTarget
                  (client_env base config extra conf (restorable_kind engine) true));
    mret {| lc_env := c; lc_primary_ecu := ecu; lc_sysroot := sysroot;
            lc_engine := Some engine |}
  else if String.eqb type RootfsTreeManager_Name then
    let conf := the (cfg (compose base)) (parse_ComposeConfig (cast_bool_ env) extra) in
    c ← on_dev (finish_client config extra mret (client_env base config extra conf false false));
    mret {| lc_env := c; lc_primary_ecu := ecu; lc_sysroot := sysroot;
            lc_engine := None |}
  else throwM runtime_error ("Unsupported package manager type: " +:+ type).
End client_setup.
Arguments SetupSt : clear implicits.
Arguments LiteClientParts : clear implicits.

(** ** Theorems *)

(** The pieces of a string that was split have no separator. *)
Lemma split_go_tokens p cur sep s :
  str_forall (fun a => negb (p a)) cur = true ->
  Forall (fun t => str_forall (fun a => negb (p a)) t = true) (split_go p cur sep s).
Proof.
  revert cur sep. induction s as [|a s IH]; intros cur sep Hc; cbn [split_go].
  - by constructor.
  - destruct (p a) eqn:Ha; [destruct sep; [by apply IH|constructor; [done|by apply IH]]|].
    apply IH. rewrite str_forall_app, Hc. cbn. by rewrite Ha.
Qed.

Lemma parse_ComposeConfig_fields cast raw conf :
  parse_ComposeConfig cast raw = Ret conf ->
  reset_apps conf = app_list <$> raw !! "reset_apps" /\
  hub_auth_creds_endpoint conf = default DefAuthCredsEndpoint (raw !! "hub_auth_creds_endpoint") /\
  apps_proxy_ca conf = default "" (raw !! "compose_apps_proxy_ca").
Proof.
  unfold parse_ComposeConfig. intros E. do 5 (apply bind_Ret in E as (? & _ & E)). by injection E as <-.
Qed.

Lemma choose_engine_spec {DB EN} (env : SetupEnv DB EN) conf given k :
  choose_engine env conf given = Ret k ->
  (k = EngineGiven <-> given = true) /\
  (given = false -> restorable_kind k = has_reset_apps conf) /\
  (restorable_kind k = true -> LowWatermarkLimit <= storage_watermark conf <= HighWatermarkLimit).
Proof.
  unfold choose_engine. destruct given; [intros [= <-]; naive_solver|]. intros E.
  apply bind_Ret in E as (cmd & _ & E).
  assert (W : forall f, GetDefStorageSpaceFunc (volume_env env) (storage_watermark conf) = Ret f ->
    LowWatermarkLimit <= storage_watermark conf <= HighWatermarkLimit).
  { intros f. unfold GetDefStorageSpaceFunc. destruct (_ || _) eqn:E'; [done|]. intros _.
    apply orb_false_iff in E' as [E1 E2]. lia. }
  destruct (has_reset_apps conf) eqn:Hr; [|injection E as <-; naive_solver].
  destruct (USE_COMPOSEAPP_ENGINE env); (apply bind_Ret in E as (? & _ & E); apply bind_Ret in E as (f & Hf & E);
    injection E as <-; specialize (W f Hf); naive_solver).
Qed.

(** Every device has one identity: the one that is made at the first start is the one of all later starts, whatever
    the configuration says then. *)
Theorem primary_ecu_stable {DB EN} (env : SetupEnv DB EN) (config config' : ClientConfig) (d d' : DB) (e : string * string) :
  (forall l x, l <> [] -> load_ecu_serials env (store_ecu_serials env l x) = Some l) ->
  primary_ecu_of env config d = (Ret e, d') -> primary_ecu_of env config' d' = (Ret e, d').
Proof.
  intros Hs. unfold primary_ecu_of. rewrite !bind_gets. destruct (load_ecu_serials env d) as [l|] eqn:El.
  - intros [= <- <-]. by rewrite El.
  - intros E. apply M_bind_Ret in E as ([] & d1 & E1 & E). injection E1 as _ <-.
    apply M_bind_Ret in E as ([] & d2 & E2 & E). injection E2 as <-. injection E as <- <-. by rewrite Hs.
Qed.

(** The credentials of the registry are asked for beside the repository, or at the default server. *)
Lemma auth_creds_endpoint_sibling base name :
  str_forall (not_char "/") name = true ->
  auth_creds_endpoint (base +:+ "/" +:+ name) = base +:+ "/hub-creds/".
Proof.
  intros Hn. unfold auth_creds_endpoint.
  destruct (str_empty (base +:+ "/" +:+ name)) eqn:E; [apply str_empty_spec in E; by destruct base|].
  change (base +:+ "/" +:+ name) with (base +:+ String "/" name).
  rewrite rfind_char_app by done. by rewrite str_take_app.
Qed.

Section setup_theorems.
Context {DB SR EN OS K P F ST SO D : Type}.
Context `{AppEngine EN, INvStorage DB, TufRepo DB, Ostree DB SR, BootFwUpdateStatus SR, InstallationResults,
          UptaneTargets, KeyFile K, LibOstree OS K P F ST, OstreeSysroot OS SO D}.
Context (env : SetupEnv DB EN) (base : ClientEnv DB SR EN) (config : ClientConfig) (given ro : bool).
Abbreviation parts := (LiteClientParts DB SR EN SO).

(** The configuration of the client is well formed. *)
Definition client_wf (p : parts) : Prop :=
  let c := lc_env p in
  Forall (fun t => str_forall (fun a => negb (is_any_of ", " a)) t = true) (tags c) /\
  (callback_program c = "" \/ file_exists env (callback_program c) = true) /\
  (is_compose c = true <-> exists k, lc_engine p = Some k) /\
  (forall k, lc_engine p = Some k ->
     is_restorable_engine (compose c) = restorable_kind k /\
     hub_auth_creds_endpoint (cfg (compose c)) = auth_creds_endpoint (cc_repo_server config) /\
     (restorable_kind k = true -> LowWatermarkLimit <= storage_watermark (cfg (compose c)) <= HighWatermarkLimit)) /\
  (let r := ReservedStorageSpacePercentageOstree (sysroot_cfg (lc_sysroot p)) in
   r = -1 \/ MinReservedStorageSpacePercentageOstree <= r <= MaxReservedStorageSpacePercentageOstree).

Lemma parse_tags_wf raw : Forall (fun t => str_forall (fun a => negb (is_any_of ", " a)) t = true) (parse_tags raw).
Proof.
  unfold parse_tags. destruct (raw !! "tags") as [v|]; [|constructor].
  destruct (Nat.ltb 0 (String.length v)); [by apply split_go_tokens|constructor].
Qed.
Lemma find_callback_program_wf ex raw : find_callback_program ex raw = "" \/ ex (find_callback_program ex raw) = true.
Proof. unfold find_callback_program. destruct (raw !! _) as [p|]; [|by left]. destruct (ex p) eqn:E; auto. Qed.

Lemma finish_client_same extra complete (c : ClientEnv DB SR EN) s c' s' :
  finish_client config extra complete c s = (Ret c', s') -> c' = c.
Proof. unfold finish_client. intros E. do 2 (apply M_bind_Ret in E as (? & ? & _ & E)). by injection E as <- _. Qed.

Lemma on_dev_Ret {A} (m : M (St DB SR EN) A) (s s' : SetupSt DB SR EN OS) a :
  on_dev m s = (Ret a, s') -> exists d, m (setup_dev s) = (Ret a, d).
Proof. unfold on_dev. destruct (m (setup_dev s)) as [o d]. intros [= -> _]. by exists d. Qed.
Lemma on_os_Ret {A} (m : M OS A) (s s' : SetupSt DB SR EN OS) a :
  on_os m s = (Ret a, s') -> exists d, m (setup_os s) = (Ret a, d).
Proof. unfold on_os. destruct (m (setup_os s)) as [o d]. intros [= -> _]. by exists d. Qed.

Lemma make_Sysroot_cfg cast pc s sys s' :
  make_Sysroot cast pc s = (Ret sys, s') -> sysroot_cfg sys = make_SysrootConfig cast pc.
Proof.
  unfold make_Sysroot. intros E. do 5 (apply M_bind_Ret in E as (? & ? & _ & E)). by injection E as <- _.
Qed.

(** What the constructor made *)
Lemma make_LiteClient_run s p s' :
  make_LiteClient env base config given ro s = (Ret p, s') ->
  (exists pc, sysroot_cfg (lc_sysroot p) = make_SysrootConfig (cast_uint env) pc) /\
  let type := deduce_type given (file_exists env) (cc_pacman_type config) in
  ((type = ComposeAppManager_Name /\ exists extra conf k,
     extra = compose_extra given (isRegistered base) (cc_tls_cacert config)
       (<["hub_auth_creds_endpoint" := auth_creds_endpoint (cc_repo_server config)]> (cc_extra config)) /\
     parse_ComposeConfig (cast_bool_ env) extra = Ret conf /\ choose_engine env conf given = Ret k /\
     lc_engine p = Some k /\ lc_env p = client_env env base config extra conf (restorable_kind k) true) \/
   (type = RootfsTreeManager_Name /\ lc_engine p = None /\
    exists extra conf, lc_env p = client_env env base config extra conf false false)).
Proof.
  unfold make_LiteClient. intros E. do 2 (apply M_bind_Ret in E as (? & ? & _ & E)). cbn zeta in E.
  apply M_bind_Ret in E as (ecu & ? & _ & E). apply M_bind_Ret in E as (sys & ? & Esys & E).
  apply on_os_Ret in Esys as [? Esys%make_Sysroot_cfg]. do 2 (apply M_bind_Ret in E as (? & ? & _ & E)).
  cbn zeta. destruct (String.eqb_spec (deduce_type given (file_exists env) (cc_pacman_type config)) ComposeAppManager_Name)
    as [Ht|Ht]; [|destruct (String.eqb_spec (deduce_type given (file_exists env) (cc_pacman_type config))
                              RootfsTreeManager_Name) as [Ht'|Ht']; [|done]].
  - pure_step E conf Hconf. pure_step E k Hk. apply M_bind_Ret in E as (? & ? & _ & E).
    apply M_bind_Ret in E as (c & ? & Ec & E). injection E as <- <-.
    apply on_dev_Ret in Ec as [? ->%finish_client_same]. split; [by eexists|]. left. split; [done|]. by eexists _, conf, k.
  - apply M_bind_Ret in E as (c & ? & Ec & E). injection E as <- <-.
    apply on_dev_Ret in Ec as [? ->%finish_client_same]. split; [by eexists|]. right. split_and!; [done..|]. by eexists _, _.
Qed.

(** A client that was made is well formed: its tags have no separators in them, its callback program exists, it has an
    app engine exactly if it manages apps, the watermark of a restorable engine is between 20 and 95 percent, and
    the reserved percentage of the sysroot is between 3 and 50 if there is one. *)
Theorem make_LiteClient_wf (s s' : SetupSt DB SR EN OS) (p : parts) :
  make_LiteClient env base config given ro s = (Ret p, s') -> client_wf p.
Proof.
  intros E%make_LiteClient_run. destruct E as [[pc Hpc] [(Ht & extra & conf & k & Hx & Hc & Hk & He & Hl)|(Ht & He & extra & conf & Hl)]];
    unfold client_wf; cbn zeta; rewrite Hl, He, Hpc; cbn;
    (split_and!; [apply parse_tags_wf|apply find_callback_program_wf| | |apply reserved_percentage_range]).
  - split; [by exists k|done].
  - intros k' [= <-]. split; [done|]. destruct (choose_engine_spec _ _ _ _ Hk) as (_ & _ & Hw).
    split; [|done]. apply parse_ComposeConfig_fields in Hc as (_ & -> & _). subst extra. unfold compose_extra.
    rewrite lookup_insert_ne by done. case_match; [rewrite lookup_insert_ne by done|]; by rewrite lookup_insert_eq.
  - split; [done|by intros [k Hk]].
  - by intros k.
Qed.

(** The app engine is the one that was given; if none was, it is one that keeps the apps of a target in a store
    exactly if the configuration lists apps to restore, or if the device is not registered and the
    configuration does not ask for the other one. *)
Theorem make_LiteClient_engine (s s' : SetupSt DB SR EN OS) (p : parts) (k : EngineKind) :
  make_LiteClient env base config given ro s = (Ret p, s') -> lc_engine p = Some k ->
  (k = EngineGiven <-> given = true) /\
  (given = false ->
   (restorable_kind k = true <->
    (exists l, cc_extra config !! "reset_apps" = Some l) \/
    (isRegistered base = false /\ cc_extra config !! "enforce_composeapp_engine" = None))).
Proof.
  intros E%make_LiteClient_run Hk'.
  destruct E as [_ [(Ht & extra & conf & k1 & Hx & Hc & Hk & He & Hl)|(_ & He & _)]]; [|congruence].
  rewrite He in Hk'. injection Hk' as ->. destruct (choose_engine_spec _ _ _ _ Hk) as (Hg & Hr & _).
  split; [done|]. intros Hgiven. rewrite Hr by done. apply parse_ComposeConfig_fields in Hc as (Hc & _ & _).
  unfold has_reset_apps. rewrite Hc. subst extra given. unfold compose_extra. cbn [negb andb].
  rewrite lookup_insert_ne by done. rewrite !(lookup_insert_ne _ "hub_auth_creds_endpoint") by done.
  destruct (cc_extra config !! "reset_apps") as [l|] eqn:El.
  - rewrite bool_decide_false by done. cbn. rewrite lookup_insert_ne, El by done. cbn. naive_solver.
  - rewrite bool_decide_true by done. cbn [andb]. destruct (isRegistered base); cbn [negb andb].
    + rewrite lookup_insert_ne, El by done. cbn. naive_solver.
    + destruct (cc_extra config !! "enforce_composeapp_engine") as [x|] eqn:Ex.
      * rewrite bool_decide_false by done. rewrite lookup_insert_ne, El by done. cbn. naive_solver.
      * rewrite bool_decide_true by done. rewrite lookup_insert_eq. cbn. naive_solver.
Qed.

(** The constructor touches the state of the engine only to construct the engine. *)
Lemma on_dev_en {A} (m : M (St DB SR EN) A) o (s s' : SetupSt DB SR EN OS) :
  preserves same_en m -> on_dev m s = (o, s') -> en (setup_dev s') = en (setup_dev s).
Proof. intros Hm E. specialize (Hm (setup_dev s)). unfold exec, on_dev in *. destruct (m (setup_dev s)). by injection E as _ <-. Qed.
Lemma on_os_en {A} (m : M OS A) o (s s' : SetupSt DB SR EN OS) : on_os m s = (o, s') -> en (setup_dev s') = en (setup_dev s).
Proof. unfold on_os. destruct (m (setup_os s)). by intros [= _ <-]. Qed.
Lemma finish_client_en extra complete (c : ClientEnv DB SR EN) :
  (forall t, preserves same_en (complete t)) -> preserves same_en (finish_client config extra complete c).
Proof. intros Hc. unfold finish_client, setInitialTargetIfNeeded, updateRequestHeaders, updateHeader. psolve. Qed.

Theorem make_LiteClient_constructs (s s' : SetupSt DB SR EN OS) (p : parts) :
  make_LiteClient env base config given ro s = (Ret p, s') ->
  en (setup_dev s') = match lc_engine p with
                      | Some k => exec (construct_engine env (cfg (compose (lc_env p))) k) (en (setup_dev s))
                      | None => en (setup_dev s)
                      end.
Proof.
  unfold make_LiteClient. intros E. cbn zeta in E. apply M_bind_Ret in E as ([] & s1 & E1 & E). injection E1 as _ <-.
  apply M_bind_Ret in E as ([] & s2 & E2%on_dev_en & E); [|psolve].
  apply M_bind_Ret in E as (ecu & s3 & E3%on_dev_en & E); [|psolve].
  apply M_bind_Ret in E as (sys & s4 & E4%on_os_en & E).
  apply M_bind_Ret in E as ([] & s5 & E5 & E). injection E5 as <-. pure_step E u Hu.
  rewrite <- E2, <- E3, <- E4. destruct (String.eqb _ ComposeAppManager_Name); [|destruct (String.eqb _ RootfsTreeManager_Name); [|done]].
  - pure_step E conf Hconf. pure_step E k Hk. apply M_bind_Ret in E as ([] & s6 & E6 & E).
    apply M_bind_Ret in E as (c & s7 & E7 & E). injection E as <- <-. cbn [lc_engine lc_env].
    pose proof (on_dev_Ret _ _ _ _ E7) as [x ->%finish_client_same].
    assert (Hc : forall t, preserves same_en (completeInitialTarget t : M (St DB SR EN) _)) by (intros t; unfold completeInitialTarget; psolve).
    rewrite (on_dev_en _ _ _ _ (finish_client_en _ _ _ Hc) E7). cbn.
    revert E6. unfold on_dev, on_en, exec. cbn. destruct (construct_engine env conf k _) as [o e]. by intros [= _ <-].
  - apply M_bind_Ret in E as (c & s7 & E7 & E). injection E as <- <-. cbn [lc_engine].
    assert (Hc : forall t : UTarget, preserves same_en (mret t : M (St DB SR EN) _)) by (intros t; psolve).
    by rewrite (on_dev_en _ _ _ _ (finish_client_en _ _ _ Hc) E7).
Qed.

(** The only effect of the constructor that the trace shows is that the initial target is recorded. *)
Definition records_initial (e : Event) : Prop :=
  match e with EvSave t kCurrent => isInitial t = true | _ => False end.
Definition setup_emits (s s' : SetupSt DB SR EN OS) : Prop := emits records_initial (setup_dev s) (setup_dev s').
#[local] Instance setup_emits_preorder : PreOrder setup_emits.
Proof. split; [intros s; by apply emits_same|]. intros x y z E1 E2. unfold setup_emits in *. by transitivity (setup_dev y). Qed.
Lemma on_dev_emits {A} (m : M (St DB SR EN) A) : preserves (emits records_initial) m -> preserves setup_emits (on_dev m : M (SetupSt DB SR EN OS) A).
Proof. intros Hm s. specialize (Hm (setup_dev s)). unfold exec, setup_emits, on_dev in *. by destruct (m (setup_dev s)). Qed.
Lemma on_os_emits {A} (m : M OS A) : preserves setup_emits (on_os m : M (SetupSt DB SR EN OS) A).
Proof. intros s. unfold exec, setup_emits, on_os. destruct (m (setup_os s)). by apply emits_same. Qed.

Lemma finish_client_emits `{!UptaneTargetsSpec} extra (complete : UTarget -> M (St DB SR EN) UTarget) (c : ClientEnv DB SR EN) :
  (forall t s t' s', complete t s = (Ret t', s') -> filename t' = filename t) ->
  (forall t, preserves (emits records_initial) (complete t)) ->
  preserves (emits records_initial) (finish_client config extra complete c).
Proof.
  intros Hn Hc.
  assert (Hi : forall cur, preserves (emits records_initial)
    (init_target ← complete (toInitial cur (cc_primary_ecu_hardware_id config)); do_save init_target kCurrent)).
  { intros cur s. unfold exec, mbind, M_bind. pose proof (Hc (toInitial cur (cc_primary_ecu_hardware_id config)) s) as Hs.
    unfold exec in Hs. destruct (complete _ s) as [[t|e] s1] eqn:E; cbn [snd] in Hs; [|done]. etransitivity; [exact Hs|].
    apply Hn in E. unfold toInitial in E. rewrite make_filename in E. apply emits_save. cbn. unfold isInitial. by rewrite E. }
  assert (Hset : preserves (emits records_initial) (setInitialTargetIfNeeded complete (cc_primary_ecu_hardware_id config))).
  { unfold setInitialTargetIfNeeded. apply (preserves_bind _); [pstep|]. intros cur. destruct (negb _); [pstep|].
    apply (preserves_try _); [apply Hi|]. intros e. pstep. }
  unfold finish_client, updateRequestHeaders, updateHeader. pstep; by apply emits_modify.
Qed.

Lemma make_LiteClient_emits `{!UptaneTargetsSpec} : preserves setup_emits (make_LiteClient env base config given ro).
Proof.
  assert (Hfin : forall extra (c : ClientEnv DB SR EN),
    preserves setup_emits (on_dev (finish_client config extra completeInitialTarget c) : M (SetupSt DB SR EN OS) _)).
  { intros extra c. apply on_dev_emits, finish_client_emits; [|intros t; unfold completeInitialTarget; pstep].
    intros t s t' s' E. unfold completeInitialTarget in E. rewrite bind_gets in E. injection E as E _.
    do 3 (apply bind_Ret in E as (? & _ & E)). injection E as <-. apply update_custom_filename. }
  assert (Hret : forall extra (c : ClientEnv DB SR EN),
    preserves setup_emits (on_dev (finish_client config extra mret c) : M (SetupSt DB SR EN OS) _)).
  { intros extra c. apply on_dev_emits, finish_client_emits; [by intros t s t' s' [= -> _]|intros t; pstep]. }
  unfold make_LiteClient. pose proof (fun A => @on_os_emits A).
  assert (forall A (m : M DB A), preserves setup_emits (on_dev (on_db m) : M (SetupSt DB SR EN OS) _)) by (intros; apply on_dev_emits; psolve).
  assert (forall A (m : M EN A), preserves setup_emits (on_dev (on_en m) : M (SetupSt DB SR EN OS) _)) by (intros; apply on_dev_emits; psolve).
  pstep. apply on_dev_emits, (preserves_modify _). intros s. by apply emits_same.
Qed.

(** A client whose type is not configured never sends the header for its apps, also when it manages apps. *)
Definition no_apps_header (s : St DB SR EN) : Prop := request_headers s !! "x-ats-dockerapps" = None.
Definition keeps_no_apps_header (s s' : St DB SR EN) : Prop := no_apps_header s -> no_apps_header s'.
#[local] Instance keeps_no_apps_header_preorder : PreOrder keeps_no_apps_header.
Proof. split; [by intros ? ?|]. unfold keeps_no_apps_header. intros ? ? ?. auto. Qed.
Lemma members_no_apps_header {A} (m : M (St DB SR EN) A) : preserves same_members m -> preserves keeps_no_apps_header m.
Proof. intros Hm s Hs. destruct (Hm s) as (_ & _ & _ & _ & E). unfold no_apps_header. by rewrite E. Qed.

Lemma finish_client_headers extra complete (c : ClientEnv DB SR EN) :
  (forall t, preserves same_members (complete t)) -> preserves keeps_no_apps_header (finish_client config extra complete c).
Proof.
  intros Hc. assert (Hu : forall k v, preserves keeps_no_apps_header (updateHeader k v : M (St DB SR EN) _)).
  { intros k v s Hs. unfold exec, updateHeader, no_apps_header in *. cbn. by rewrite lookup_alter_None. }
  unfold finish_client, updateRequestHeaders. psolve.
  apply members_no_apps_header. unfold setInitialTargetIfNeeded. psolve.
Qed.

Lemma finish_client_apps_header extra complete (c c' : ClientEnv DB SR EN) (s s' : SetupSt DB SR EN OS) :
  (forall t, preserves same_members (complete t)) -> no_apps_header (setup_dev s) ->
  on_dev (finish_client config extra complete c) s = (Ret c', s') -> no_apps_header (setup_dev s').
Proof.
  intros Hc Hs. pose proof (finish_client_headers extra complete c Hc (setup_dev s) Hs) as Hf. revert Hf.
  unfold exec, on_dev. destruct (finish_client _ _ _ _ _) as [o d]. by intros Hf [= _ <-].
Qed.

Theorem dockerapps_header_missing (s s' : SetupSt DB SR EN OS) (p : parts) :
  make_LiteClient env base config given ro s = (Ret p, s') -> cc_pacman_type config = PACKAGE_MANAGER_NONE ->
  no_apps_header (setup_dev s').
Proof.
  intros E Hn. unfold make_LiteClient in E. cbn zeta in E. do 4 (apply M_bind_Ret in E as (? & ? & _ & E)).
  apply M_bind_Ret in E as ([] & s1 & E1 & E). injection E1 as <-. pure_step E u Hu.
  assert (Hh : forall d, no_apps_header (new_client_members (initRequestHeaders config) d)).
  { intros d. unfold no_apps_header, initRequestHeaders. rewrite Hn. vm_compute. reflexivity. }
  destruct (String.eqb _ ComposeAppManager_Name); [|destruct (String.eqb _ RootfsTreeManager_Name); [|done]].
  - pure_step E conf Hconf. pure_step E k Hk. apply M_bind_Ret in E as ([] & s2 & E2 & E).
    apply M_bind_Ret in E as (c & s3 & E3 & E). injection E as _ <-.
    refine (finish_client_apps_header _ _ _ _ _ _ _ _ E3); [intros t; unfold completeInitialTarget; psolve|].
    revert E2. unfold on_dev, on_en. destruct (construct_engine env conf k _) as [o e]. intros [= _ <-]. apply Hh.
  - apply M_bind_Ret in E as (c & s3 & E3 & E). injection E as _ <-.
    refine (finish_client_apps_header _ _ _ _ _ _ _ _ E3); [intros t; pstep|apply Hh].
Qed.
End setup_theorems.

(** ** A concrete device *)

Import SampleOstree.
Definition sample_setup : SetupEnv SimpleDB SimpleEN := {|
  new_storage _ := Ret tt; import_data := mret tt; load_ecu_serials _ := Some [("serial", "hw")];
  store_ecu_serials _ d := d; valid_ecu _ _ := Ret tt; hostname := "host"; random_uuid := "0000";
  file_exists p := mem p ["/usr/bin/docker"; "/usr/bin/dockerd"; "/usr/bin/callback"]; load_keys := Ret tt;
  cast_uint := sample_cast; cast_bool_ s := Ret (String.eqb s "1"); canonical_path := Ret; shell_code _ := 0;
  DOCKER_HOST := None; USE_COMPOSEAPP_ENGINE := false; volume_env := stat_env (sample_rootfs 50) (sr sample_device);
  construct_engine _ _ := mret tt |}.
Definition sample_client_config (extra : gmap string string) : ClientConfig := {|
  cc_extra := extra; cc_pacman_type := PACKAGE_MANAGER_NONE; cc_sysroot := ""; cc_booted := kStaged; cc_os := "lmp";
  cc_ostree_server := "https://gw/treehub"; cc_repo_server := "https://gw/repo"; cc_primary_ecu_serial := "";
  cc_primary_ecu_hardware_id := "hw"; cc_tls_cacert := "/var/sota/root.crt" |}.
Definition sample_extra : gmap string string :=
  {["tags" := "main, devel"; "callback_program" := "/usr/bin/callback"; "reset_apps" := "app3"]}.
Definition sample_setup_state : SetupSt SimpleDB SimpleSR SimpleEN disk :=
  {| setup_dev := sample_device; setup_os := sample_disk |}.
Abbreviation sample_made :=
  (make_LiteClient sample_setup sample_client (sample_client_config sample_extra) false false sample_setup_state).

(** A stored identity survives another configuration. *)
Definition store_setup : SetupEnv (option (list (string * string))) unit := {|
  new_storage _ := Ret tt; import_data := mret tt; load_ecu_serials d := d; store_ecu_serials l _ := Some l;
  valid_ecu _ _ := Ret tt; hostname := "host"; random_uuid := "0000"; file_exists _ := false; load_keys := Ret tt;
  cast_uint := sample_cast; cast_bool_ s := Ret (String.eqb s "1"); canonical_path := Ret; shell_code _ := 0;
  DOCKER_HOST := None; USE_COMPOSEAPP_ENGINE := false; volume_env := volume_env sample_setup;
  construct_engine _ _ := mret tt |}.
Lemma primary_ecu_stable_witness :
  primary_ecu_of store_setup (sample_client_config sample_extra) (Some [("0000", "hw")])
  = (Ret ("0000", "hw"), Some [("0000", "hw")]).
Proof.
  refine (primary_ecu_stable store_setup (sample_client_config ∅) (sample_client_config sample_extra) None _ _ _ _);
    [done|]. vm_compute. reflexivity.
Defined.

Lemma make_LiteClient_wf_witness :
  exists p s', sample_made = (Ret p, s') /\ client_wf sample_setup (sample_client_config sample_extra) p.
Proof.
  destruct sample_made as [[p|e] s'] eqn:E; [|vm_compute in E; discriminate E]. exists p, s'. split; [done|].
  exact (make_LiteClient_wf sample_setup sample_client (sample_client_config sample_extra) false false _ _ _ E).
Defined.

Lemma make_LiteClient_engine_witness :
  exists p s' k, sample_made = (Ret p, s') /\ lc_engine p = Some k /\ restorable_kind k = true.
Proof.
  destruct sample_made as [[p|e] s'] eqn:E; [|vm_compute in E; discriminate E].
  destruct (lc_engine p) as [k|] eqn:Ek.
  - exists p, s', k. split_and!; [done..|].
    apply (proj2 (make_LiteClient_engine sample_setup sample_client (sample_client_config sample_extra) false false _ _ _ k E Ek)
             eq_refl). left. exists "app3". reflexivity.
  - exfalso. revert Ek. vm_compute in E. injection E as <- _. discriminate.
Defined.

Lemma dockerapps_header_missing_witness :
  exists p s', sample_made = (Ret p, s') /\ is_compose (lc_env p) = true /\ no_apps_header (setup_dev s').
Proof.
  destruct sample_made as [[p|e] s'] eqn:E; [|vm_compute in E; discriminate E]. exists p, s'. split_and!; [done| |].
  - vm_compute in E. injection E as <- _. reflexivity.
  - exact (dockerapps_header_missing sample_setup sample_client (sample_client_config sample_extra) false false _ _ _ E eq_refl).
Defined.
