(* ===== verification/Bundle.v ===== *)
(** * Offline update bundles

    The functions of [src/src/api.cc] that decide whether an offline bundle may
    be applied, and which of its targets are available: the chain of root
    metadata, the signatures and the expiration of the bundle metadata, its
    type and its tag, the apps the bundle was made for, and the content found
    in the local directories. *)

From S2P Require Import Prelude Json Targets Registry Volume Restorable Platform Bootloader Sample RootfsTree.
From S2P Require Import ComposeApps Client.

(** ** [BundleMetaError] *)
Inductive BundleError :=
  | NotFound | RootMetaNotFound | InvalidMetadata | BadSignature | UnmetSignatureThreshold | Expired
  | IncorrectType | IncorrectTagType.
#[export] Instance BundleError_eq_dec : EqDecision BundleError.
Proof. solve_decision. Defined.

(** A call that returns, throws a [BundleMetaError], or throws anything else. *)
Inductive bundle_outcome (A : Type) :=
  | BOk (a : A)
  | BErr (type : BundleError) (msg : string)
  | BExn (e : exn).
Arguments BOk {A} a.
Arguments BErr {A} type msg.
Arguments BExn {A} e.

#[export] Instance bundle_ret : MRet bundle_outcome := @BOk.
#[export] Instance bundle_bind : MBind bundle_outcome := fun A B f m =>
  match m with BOk a => f a | BErr t w => BErr t w | BExn e => BExn e end.

Definition blift {A} (o : outcome A) : bundle_outcome A :=
  match o with Ret a => BOk a | Throw e => BExn e end.

Lemma bundle_bind_ok {A B} (m : bundle_outcome A) (f : A -> bundle_outcome B) b :
  m ≫= f = BOk b <-> exists a, m = BOk a /\ f a = BOk b.
Proof. destruct m; cbn; naive_solver. Qed.
Lemma blift_ok {A} (o : outcome A) a : blift o = BOk a <-> o = Ret a.
Proof. destruct o; cbn; naive_solver. Qed.

(** ** Root metadata

    [R] is [Uptane::ImageRepository]; [fetch_root] reads a root of the bundle
    directory, [None] if there is none ([MetadataNotFoundException]). *)
Class RootRepo (R : Type) := {
  empty_repo : R;
  initRoot : string -> R -> outcome R;
  verifyRoot : string -> R -> outcome R;
  rootVersion : R -> Z;
}.

Record BundleEnv := {
  fetch_root : Z -> option string;
  (** [bundle-targets.json] of the bundle directory: where it is and its content *)
  bundle_path : string;
  bundle_file : option string;
  parse_json : string -> json;
  canonical : json -> string;
  (** [PublicKey{key}.VerifySignature(sig, body)] *)
  VerifySignature : json -> string -> string -> bool;
  (** [TimeStamp(expires).IsExpiredAt(Now())], which throws on a malformed date *)
  is_expired : string -> outcome bool;
  (** for the messages: [Json::Value::toStyledString] and [TimeStamp(expires).ToString()] *)
  toStyledString : json -> string;
  timestamp_str : string -> string;
}.

Definition jpath (v : json) (ks : list string) : outcome json :=
  fold_left (fun acc k => x ← acc; jindex x k) ks (Ret v).

(** At most [p] steps of a loop, which ends when a step gives its result. *)
Fixpoint iter_pos {A B} (step : A -> A + B) (p : positive) (a : A) : A + B :=
  match p with
  | xH => step a
  | xO q => match iter_pos step q a with inl a' => iter_pos step q a' | r => r end
  | xI q =>
      match step a with
      | inl a' => match iter_pos step q a' with inl a'' => iter_pos step q a'' | r => r end
      | r => r
      end
  end.

(** [device_root] is the latest root the device has, [device_tuf_repo->GetRoot(-1)],
    empty if it has none. *)
Section root.
Context {R : Type} `{RootRepo R} (env : BundleEnv) (device_root : string).

(** One turn of the loop of [checkAndGetRootMeta], on [version], [repo] and [latest_root]. *)
Definition root_step (a : Z * R * string) : Z * R * string + outcome (string * Z) :=
  let '(version, repo, latest_root) := a in
  let version := version + 1 in
  match fetch_root env version with
  | None => inr (Ret (latest_root, version))
  | Some root =>
      match (if 0 <? rootVersion repo then verifyRoot root repo else initRoot root repo) with
      | Throw (Exn MetadataNotFoundException _) => inr (Ret (root, version))
      | Throw e => inr (Throw e)
      | Ret repo' => if version <? int_max then inl (version, repo', root) else inr (Ret (root, version))
      end
  end.

Definition root_loop (turns : positive) (version : Z) (repo : R) (latest_root : string)
    : outcome (string * Z) :=
  match iter_pos root_step turns (version, repo, latest_root) with
  | inr o => o
  | inl (version, _, latest_root) => Ret (latest_root, version)
  end.

Definition checkAndGetRootMeta_upto (turns : positive) : bundle_outcome json :=
  '(repo, version) ← blift (if str_empty device_root then Ret (empty_repo, 0)
                            else repo ← initRoot device_root empty_repo; mret (repo, rootVersion repo));
  '(latest_root, version) ← blift (root_loop turns version repo device_root);
  if str_empty latest_root
  then BErr RootMetaNotFound ("Failed to find root metadata; missing version: " +:+ to_string version)
  else mret (parse_json env latest_root).

(** The version grows with every turn and stays below [int_max]: [2 ^ 31] turns are enough. *)
Definition checkAndGetRootMeta : bundle_outcome json :=
  checkAndGetRootMeta_upto 2147483648.
End root.

(** ** Bundle metadata *)
Section bundle.
Context (env : BundleEnv).

Fixpoint strings_of (l : list json) : outcome (list string) :=
  match l with [] => mret [] | x :: l' => s ← jasString x; r ← strings_of l'; mret (s :: r) end.

(** The keys of the targets role: the ids the role lists, with the keys of the root. *)
Definition targets_keys (root_meta : json) : outcome (gmap string json) :=
  keyids ← jpath root_meta ["signed"; "roles"; "targets"; "keyids"];
  ids ← strings_of (jelems keyids);
  keys ← jpath root_meta ["signed"; "keys"];
  mret (list_to_map (List.filter (fun p : string * json => mem p.1 ids) (jitems keys))).

(** A signature of the right form: its key id and its value. *)
Definition signature_fields (sg : json) : outcome (option (string * string)) :=
  if negb (jisObject sg) then mret None
  else
    k ← jindex sg "keyid"; s ← jindex sg "sig"; m ← jindex sg "method";
    if jisString k && jisString s && jisString m then
      keyid ← jasString k; sig ← jasString s; mret (Some (keyid, sig))
    else mret None.

Fixpoint check_signatures (keys : gmap string json) (signed_body : string) (sigs : list json) (found : Z)
    : bundle_outcome Z :=
  match sigs with
  | [] => mret found
  | sg :: sigs' =>
      f ← blift (signature_fields sg);
      match f with
      | None => BErr InvalidMetadata ("Invalid signature metadata was found in the bundle metadata: "
                                         +:+ toStyledString env sg)
      | Some (keyid, sig) =>
          match keys !! keyid with
          | None => BErr BadSignature ("The bundle is signed with an unknown key: " +:+ keyid)
          | Some key =>
              if negb (VerifySignature env key sig signed_body)
              then BErr BadSignature ("An invalid signature was found for the bundle; key ID: " +:+ keyid)
              else check_signatures keys signed_body sigs' (found + 1)
          end
      end
  end.

Definition has_signed_fields (v : json) : outcome bool :=
  if jisNull v || jempty v then mret false
  else a ← jisMember v "signed"; b ← (if a : bool then jisMember v "signatures" else mret false); mret (a && b).

Definition checkBundle (root_meta : json) : bundle_outcome json :=
  keys ← blift (targets_keys root_meta);
  threshold ← blift (t ← jpath root_meta ["signed"; "roles"; "targets"; "threshold"]; jasInt t);
  match bundle_file env with
  | None => BErr NotFound ("Failed to find the bundle metadata: " +:+ bundle_path env)
  | Some text =>
      let v := parse_json env text in
      ok ← blift (has_signed_fields v);
      if negb ok then BErr InvalidMetadata ("The bundle metadata is invalid;"
                                          +:+ " expecting JSON with `signed` and `signatures` fields; got: " +:+ nl +:+ text)
      else
        sigs ← blift (jindex v "signatures");
        if negb (jisArray sigs) then BErr InvalidMetadata ("The bundle metadata is invalid;"
                                                       +:+ " the `signatures` field is not an array; got: " +:+ nl +:+ text)
        else
          signed ← blift (jindex v "signed");
          n ← check_signatures keys (canonical env signed) (jelems sigs) 0;
          if n <? threshold then BErr UnmetSignatureThreshold
                                    ("An insufficient number of signatures for the bundle were found; required: "
                                     +:+ to_string threshold +:+ ", found: " +:+ to_string n)
          else
            expires ← blift (jstring_at signed "expires");
            expired ← blift (is_expired env expires);
            if expired : bool then BErr Expired ("The offline bundle metadata has expired: " +:+ timestamp_str env expires)
            else mret v
  end.

Definition checkAndGetBundleMeta {R} `{RootRepo R} (device_root : string) : bundle_outcome json :=
  root_meta ← checkAndGetRootMeta (R := R) env device_root; checkBundle root_meta.
End bundle.

Definition bundle_field (bundle_meta : json) (f : string) : outcome json :=
  jpath bundle_meta ["signed"; "x-fio-offline-bundle"; f].

Definition checkBundleType (bundle_meta : json) (client_type : ClientType) : bundle_outcome unit :=
  if decide (client_type = Undefined) then mret tt
  else
    ty ← blift (v ← bundle_field bundle_meta "type"; jasString v);
    if (String.eqb ty "ci" && negb (bool_decide (client_type = Dev)))
       || (String.eqb ty "prod" && negb (bool_decide (client_type = Prod)))
    then BErr IncorrectType ("Cannot apply the update bundle to the device:  the bundle type `" +:+ ty
                             +:+ "` differs from the device type `"
                             +:+ (if decide (client_type = Prod) then "production" else "CI") +:+ "`")
    else mret tt.

Definition checkBundleTag (bundle_meta : json) (tags : list string) : bundle_outcome unit :=
  match tags with
  | [] => mret tt
  | _ =>
      tag ← blift (v ← bundle_field bundle_meta "tag"; jasString v);
      if mem tag tags then mret tt
      else BErr IncorrectTagType ("Cannot apply the update bundle to the device:  the bundle tag `" +:+ tag
                                  +:+ "` differs from the device tag(s) `" +:+ join "," tags +:+ "`")
  end.

(** Every target of the device's metadata the bundle names, in the order of the bundle. *)
Definition getTrustedBundleTargets (tuf_targets : list TufTarget) (bundle_meta : json)
    : outcome (list TufTarget) :=
  ts ← bundle_field bundle_meta "targets";
  mret (flat_map (fun b => List.filter (fun t => json_eqb b (JString (Name t))) tuf_targets) (jelems ts)).

Definition getTrustedTargets (tuf_targets : list TufTarget) (bundle_meta : json) : outcome (list TufTarget) :=
  if jempty bundle_meta then mret tuf_targets else getTrustedBundleTargets tuf_targets bundle_meta.

(** ** Apps of an offline update *)
Inductive ShortlistType := AllTargetApps | NoneOfTargetApps | OnlyShortlistedApps.
#[export] Instance ShortlistType_eq_dec : EqDecision ShortlistType.
Proof. solve_decision. Defined.

(** A member that is a non-empty string. *)
Definition str_member (v : json) (k : string) : outcome (option string) :=
  x ← jindex v k;
  mret (match x with JString s => if str_empty s then None else Some s | _ => None end).

Fixpoint present_apps (target_apps : json) (l : list string) : outcome (list string) :=
  match l with
  | [] => mret []
  | a :: l' => p ← isPresent target_apps a; r ← present_apps target_apps l';
               mret (if p : bool then a :: r else r)
  end.

Definition getAppsFetchedForOfflineUpdate (custom target_apps : json) : outcome (ShortlistType * gset string) :=
  has ← jisMember custom "fetched-apps";
  fetched ← (if has : bool then jindex custom "fetched-apps" else mret JNull);
  if negb (jisObject fetched) then mret (AllTargetApps, ∅)
  else
    uri ← str_member fetched "uri";
    match uri with
    | None => mret (NoneOfTargetApps, ∅)
    | Some _ =>
        shortlist ← str_member fetched "shortlist";
        match shortlist with
        | None => mret (AllTargetApps, ∅)
        | Some l =>
            present ← present_apps target_apps (elements (list_to_set (C := gset string) (split (is_any_of ", ") l)));
            mret (if bool_decide (present = []) then (NoneOfTargetApps, ∅)
                  else (OnlyShortlistedApps, list_to_set present))
        end
    end.

(** ** Content of the local directories *)

(** [UpdateSrc], with what is found there: the apps by the URI in their directory
    ([parseUpdateContent]) and the commits of the ostree repository. *)
Record UpdateSrc := {
  TufDir : string;
  OstreeRepoDir : string;
  AppsDir : string;
  found_apps : gset string;
  (** [OSTree::Repo(dir)] throws if it cannot be opened *)
  open_repo : outcome unit;
  hasCommit : string -> bool;
}.

Definition LocalSrcDirKey : string := "local-src-dir".

Section available.
Context `{UptaneTargets}.
Context (is_compose_pm : bool) (pconfig : ComposeConfig) (src : UpdateSrc).

Definition with_local_dirs (t : UTarget) (custom : json) (with_apps : bool) : outcome UTarget :=
  c ← jset2 custom LocalSrcDirKey "ostree" (JString (OstreeRepoDir src));
  c ← (if with_apps then jset2 c LocalSrcDirKey "apps" (JString (AppsDir src)) else mret c);
  mret (updateCustom t c).

(** [set.count(x) == 1] *)
Definition in_set (X : gset string) (x : string) : bool := bool_decide (x ∈ X).

(** The target's custom data with only the shortlisted apps. *)
Definition shortlist_apps (ty : ShortlistType) (shortlist : gset string) (custom : json) : outcome json :=
  has ← jisMember custom "docker_compose_apps";
  tapps ← (if has : bool then jindex custom "docker_compose_apps" else mret JNull);
  if bool_decide (ty = OnlyShortlistedApps) && jisObject tapps then
    let l := List.filter (fun p : string * json => in_set shortlist p.1) (jitems tapps) in
    if bool_decide (l = []) then jremove custom "docker_compose_apps"
    else jset custom "docker_compose_apps" (JObject l)
  else mret custom.

Definition missing_app (ty : ShortlistType) (shortlist : gset string) (p : string * string) : bool :=
  negb (in_set (found_apps src) p.2) && (bool_decide (ty = AllTargetApps) || in_set shortlist p.1).

(** One target of the loop: the target to offer, if its content is complete. *)
Definition available_target (t : UTarget) : outcome (option UTarget) :=
  if negb (hasCommit src (sha256Hash t)) then mret None
  else if negb is_compose_pm then t' ← with_local_dirs t (custom_data t) false; mret (Some t')
  else
    tapps ← appsJson t;
    '(ty, shortlist) ← getAppsFetchedForOfflineUpdate (custom_data t) tapps;
    if decide (ty = NoneOfTargetApps) then
      (* the source sets the directory first and then removes the apps *)
      c ← jset2 (custom_data t) LocalSrcDirKey "ostree" (JString (OstreeRepoDir src));
      c ← jremove c "docker_compose_apps";
      mret (Some (updateCustom t c))
    else
      required ← getRequiredApps pconfig t;
      if existsb (missing_app ty shortlist) (map_to_list required) then mret None
      else
        c ← shortlist_apps ty shortlist (custom_data t);
        t' ← with_local_dirs t c true; mret (Some t').

Fixpoint available_loop (allowed_targets : list UTarget) : outcome (list UTarget) :=
  match allowed_targets with
  | [] => mret []
  | t :: l => o ← available_target t; r ← available_loop l;
              mret (match o with Some t' => t' :: r | None => r end)
  end.

Definition getAvailableTargets (allowed_targets : list UTarget) : outcome (list UTarget) :=
  match allowed_targets with
  | [] => mret []
  | _ => _ ← open_repo src; available_loop allowed_targets
  end.
End available.

(** ** Theorems *)

(** *** The chain of roots *)

(** What [ImageRepository] promises: its checks fail with other exceptions than a missing file does,
    and versions are not negative. *)
Class RootRepoSpec (R : Type) `{RootRepo R} : Prop := {
  initRoot_exn x (r : R) e : initRoot x r = Throw e -> exn_kind e <> MetadataNotFoundException;
  verifyRoot_exn x (r : R) e : verifyRoot x r = Throw e -> exn_kind e <> MetadataNotFoundException;
  initRoot_version x (r r' : R) : initRoot x r = Ret r' -> 0 <= rootVersion r';
}.

(** An invariant of the steps, with a measure they increase. *)
Lemma iter_pos_inv {A B} (step : A -> A + B) (P : A -> Prop) (Q : B -> Prop) (mu : A -> Z) :
  (forall a, P a -> match step a with inl a' => P a' /\ mu a' = mu a + 1 | inr b => Q b end) ->
  forall p a, P a ->
    match iter_pos step p a with inl a' => P a' /\ mu a' = mu a + Z.pos p | inr b => Q b end.
Proof.
  intros Hs. induction p as [p IH|p IH|]; intros a Ha; cbn [iter_pos]; [| |by apply Hs].
  - specialize (Hs a Ha). destruct (step a) as [a1|b]; [|done]. destruct Hs as [H1 M1].
    specialize (IH a1 H1) as H2. destruct (iter_pos step p a1) as [a2|b]; [|done]. destruct H2 as [H2 M2].
    specialize (IH a2 H2) as H3. destruct (iter_pos step p a2) as [a3|b]; [|done]. destruct H3. split; [done|lia].
  - specialize (IH a Ha) as H2. destruct (iter_pos step p a) as [a2|b]; [|done]. destruct H2 as [H2 M2].
    specialize (IH a2 H2) as H3. destruct (iter_pos step p a2) as [a3|b]; [|done]. destruct H3. split; [done|lia].
Qed.

Section root_theorems.
Context {R : Type} `{RootRepoSpec R} (env : BundleEnv) (device_root : string).

(** A root of the bundle is accepted by the roots before it. *)
Definition accepts (r : R) (root : string) (r' : R) : Prop :=
  (if 0 <? rootVersion r then verifyRoot root r else initRoot root r) = Ret r'.

(** [root_chain v0 r0 n r x]: from version [v0] with the repository [r0] and the
    device's root, the bundle's roots [v0 + 1], ..., [n] are accepted one after
    the other, which leads to the repository [r] and the root [x]. *)
Inductive root_chain (v0 : Z) (r0 : R) : Z -> R -> string -> Prop :=
  | chain_start : root_chain v0 r0 v0 r0 device_root
  | chain_step v r x root r1 :
      root_chain v0 r0 v r x -> fetch_root env (v + 1) = Some root -> accepts r root r1 ->
      root_chain v0 r0 (v + 1) r1 root.

(** How the loop may end. *)
Definition chain_result (v0 : Z) (r0 : R) (o : outcome (string * Z)) : Prop :=
  match o with
  | Ret (latest, _) => exists n r, root_chain v0 r0 n r latest /\ (fetch_root env (n + 1) = None \/ int_max <= n)
  | Throw e => exn_kind e <> MetadataNotFoundException
  end.

Lemma root_step_chain v0 r0 a :
  (let '(v, r, x) := a in root_chain v0 r0 v r x /\ (v < int_max \/ v = v0)) ->
  match root_step env a with
  | inl (v', r', x') => (root_chain v0 r0 v' r' x' /\ (v' < int_max \/ v' = v0)) /\ v' = a.1.1 + 1
  | inr o => chain_result v0 r0 o
  end.
Proof.
  destruct a as [[v r] x]. intros [Hc Hv]. unfold root_step. cbn [fst].
  destruct (fetch_root env (v + 1)) as [root|] eqn:Ef; [|exists v, r; split; [done|by left]].
  destruct (if 0 <? rootVersion r then _ else _) as [r1|[ek ew]] eqn:Ev.
  - assert (Hc1 : root_chain v0 r0 (v + 1) r1 root) by by eapply chain_step.
    destruct (Z.ltb_spec (v + 1) int_max); [by split; [split; [|left]|]|]. exists (v + 1), r1. split; [done|by right].
  - assert (Hne : ek <> MetadataNotFoundException).
    { destruct (0 <? rootVersion r); [by apply verifyRoot_exn in Ev|by apply initRoot_exn in Ev]. }
    by destruct ek.
Qed.

Lemma root_loop_chain p v0 (r0 : R) :
  int_max < v0 + Z.pos p -> chain_result v0 r0 (root_loop env p v0 r0 device_root).
Proof.
  intros Hp. unfold root_loop.
  pose proof (iter_pos_inv (root_step env)
    (fun a => let '(v, r, x) := a in root_chain v0 r0 v r x /\ (v < int_max \/ v = v0)) (chain_result v0 r0)
    (fun a => a.1.1)) as Hi.
  specialize (Hi ltac:(intros a Ha; pose proof (root_step_chain v0 r0 a Ha);
    destruct (root_step env a) as [[[v' r'] x']|]; done) p (v0, r0, device_root)
    ltac:(split; [constructor|by right])).
  destruct (iter_pos _ _ _) as [[[v r] x]|o]; [|exact Hi]. destruct Hi as [[_ Hv] Hm]. cbn [fst] in Hm. lia.
Qed.

(** The repository the chain starts from. *)
Definition starts (r0 : R) (v0 : Z) : Prop :=
  if str_empty device_root then r0 = empty_repo /\ v0 = 0
  else initRoot device_root empty_repo = Ret r0 /\ v0 = rootVersion r0.

Lemma starts_run r0 v0 :
  starts r0 v0 ->
  (if str_empty device_root then Ret (empty_repo, 0)
   else repo ← initRoot device_root empty_repo; mret (repo, rootVersion repo)) = Ret (r0, v0) /\ 0 <= v0.
Proof.
  unfold starts. destruct (str_empty device_root); intros [E1 E2]; [by subst|].
  rewrite E1. cbn. rewrite <- E2. split; [done|]. rewrite E2. by eapply initRoot_version.
Qed.

(** What the check of the roots may answer. *)
Definition root_meta_result (v0 : Z) (r0 : R) (o : bundle_outcome json) : Prop :=
  match o with
  | BOk meta =>
      exists n r latest, root_chain v0 r0 n r latest /\ meta = parse_json env latest /\
        latest <> "" /\ (fetch_root env (n + 1) = None \/ int_max <= n)
  | BErr t _ => t = RootMetaNotFound /\ exists n r, root_chain v0 r0 n r ""
  | BExn e => exn_kind e <> MetadataNotFoundException
  end.

Lemma root_meta_chain p (r0 : R) (v0 : Z) :
  int_max < v0 + Z.pos p -> starts r0 v0 ->
  root_meta_result v0 r0 (checkAndGetRootMeta_upto (R := R) env device_root p).
Proof.
  intros Hp Hs. apply starts_run in Hs as [E Hv0]. unfold checkAndGetRootMeta_upto. rewrite E.
  cbn [blift mbind bundle_bind]. pose proof (root_loop_chain p v0 r0 Hp) as Hc.
  destruct (root_loop env p v0 r0 device_root) as [[latest n]|e]; [|exact Hc].
  destruct Hc as (m & r & Hc & Hn). cbn [blift mbind bundle_bind]. destruct (str_empty latest) eqn:El.
  - apply str_empty_spec in El. subst. cbn. eauto.
  - exists m, r, latest. split_and!; [done|done| |done]. intros ->. discriminate El.
Qed.

(** C14: The root metadata the bundle is checked against is reached from the device's own root, or from
    the bundle's first root if the device has none, by a chain in which each root was accepted by the
    ones before it, and no root of the bundle that follows the chain is left out. The search always
    ends; without any root the bundle is refused, and a root that is not accepted ends the check with
    the exception of the repository. *)
Theorem checkAndGetRootMeta_chain (r0 : R) (v0 : Z) :
  starts r0 v0 -> root_meta_result v0 r0 (checkAndGetRootMeta (R := R) env device_root).
Proof.
  intros Hs. assert (Hp : int_max < v0 + Z.pos 2147483648).
  { apply starts_run in Hs as [_ Hv0]. unfold int_max. lia. }
  exact (root_meta_chain 2147483648 r0 v0 Hp Hs).
Qed.
End root_theorems.

(** *** Signatures *)
Section signatures.
Context (env : BundleEnv).

(** A signature by one of [keys] that verifies over [body]. *)
Definition valid_signature (keys : gmap string json) (body : string) (sg : json) : Prop :=
  exists keyid sig key, signature_fields sg = Ret (Some (keyid, sig)) /\ keys !! keyid = Some key /\
    VerifySignature env key sig body = true.

Lemma check_signatures_spec keys body sigs found n :
  check_signatures env keys body sigs found = BOk n <->
  Forall (valid_signature keys body) sigs /\ n = found + Z.of_nat (length sigs).
Proof.
  revert found. induction sigs as [|sg sigs IH]; intros found; cbn [check_signatures].
  - cbn [length]. rewrite Z.add_0_r. split; [intros [= <-]; split; [constructor|done]|by intros [_ ->]].
  - rewrite Forall_cons, bundle_bind_ok. setoid_rewrite blift_ok. split.
    + intros (f & Hf & E). destruct f as [[keyid sig]|]; [|discriminate E].
      destruct (keys !! keyid) as [key|] eqn:Hk; [|discriminate E].
      destruct (VerifySignature env key sig body) eqn:Hv; [|discriminate E].
      apply IH in E as [HF ->]. cbn [length]. split; [|lia]. split; [|done]. by exists keyid, sig, key.
    + intros [[(keyid & sig & key & Hf & Hk & Hv) HF] ->]. exists (Some (keyid, sig)). split; [done|].
      rewrite Hk, Hv. apply IH. cbn [length]. split; [done|lia].
Qed.

Lemma strings_of_spec l r : strings_of l = Ret r <-> Forall2 (fun x s => jasString x = Ret s) l r.
Proof.
  revert r. induction l as [|x l IH]; intros r; cbn [strings_of].
  - split; [intros [= <-]; constructor|by inversion 1].
  - split.
    + intros E. osplit E. injection E as <-. constructor; [done|by apply IH].
    + inversion 1 as [|? s ? r' Hx Hl]; subst. apply IH in Hl. rewrite Hx. cbn. by rewrite Hl.
Qed.

(** Every accepted key is one the targets role of the root lists. *)
Lemma targets_keys_listed root keys keyid key :
  targets_keys root = Ret keys -> keys !! keyid = Some key ->
  exists listed x, jpath root ["signed"; "roles"; "targets"; "keyids"] = Ret listed /\
    x ∈ jelems listed /\ jasString x = Ret keyid.
Proof.
  unfold targets_keys. intros E Hk. osplit E. injection E as <-.
  apply elem_of_list_to_map_2, list_elem_of_In, filter_In in Hk as [_ Hm]. cbn in Hm.
  apply mem_spec, list_elem_of_lookup in Hm as [i Hi]. apply strings_of_spec in Hv0.
  destruct (Forall2_lookup_r _ _ _ _ _ Hv0 Hi) as (x & Hx & Ex).
  exists v, x. split_and!; [done| |done]. by eapply list_elem_of_lookup_2.
Qed.

(** What the check requires of a bundle. *)
Record acceptable (root v : json) : Prop := {
  acc_file : exists text, bundle_file env = Some text /\ v = parse_json env text;
  acc_fields : has_signed_fields v = Ret true;
  acc_sigs : exists keys threshold signed sigs, targets_keys root = Ret keys /\
    (t ← jpath root ["signed"; "roles"; "targets"; "threshold"]; jasInt t) = Ret threshold /\
    jindex v "signed" = Ret signed /\ jindex v "signatures" = Ret (JArray sigs) /\
    Forall (valid_signature keys (canonical env signed)) sigs /\ threshold <= Z.of_nat (length sigs);
  acc_fresh : exists signed expires, jindex v "signed" = Ret signed /\
    jstring_at signed "expires" = Ret expires /\ is_expired env expires = Ret false;
}.

Lemma checkBundle_accepts_iff (root v : json) : checkBundle env root = BOk v <-> acceptable root v.
Proof.
  unfold checkBundle. split.
  - rewrite bundle_bind_ok. intros (keys & Hk & E). rewrite bundle_bind_ok in E. destruct E as (th & Ht & E).
    apply blift_ok in Hk, Ht. destruct (bundle_file env) as [text|] eqn:Hf; [|discriminate E].
    rewrite bundle_bind_ok in E. destruct E as (b & Hb & E). destruct b; [|discriminate E]. cbn [negb] in E.
    rewrite bundle_bind_ok in E. destruct E as (sigs & Hs & E). apply blift_ok in Hb, Hs.
    destruct sigs as [| | | |l|]; try discriminate E. cbn [jisArray negb jelems] in E.
    rewrite bundle_bind_ok in E. destruct E as (signed & Hsg & E).
    rewrite bundle_bind_ok in E. destruct E as (n & Hn & E). apply check_signatures_spec in Hn as [HF ->].
    destruct (Z.ltb_spec (0 + Z.of_nat (length l)) th) as [|Hth]; [discriminate E|].
    rewrite bundle_bind_ok in E. destruct E as (ex & Hex & E).
    rewrite bundle_bind_ok in E. destruct E as (d & Hd & E). destruct d; [discriminate E|].
    apply blift_ok in Hsg, Hex, Hd. injection E as <-. split.
    + by exists text.
    + done.
    + exists keys, th, signed, l. split_and!; [done..|lia].
    + by exists signed, ex.
  - intros [(text & Hf & ->) Hb (keys & th & signed & l & Hk & Ht & Hsg & Hs & HF & Hth)
             (signed' & ex & Hsg' & Hex & Hd)].
    rewrite Hsg in Hsg'. injection Hsg' as <-.
    rewrite Hk. apply bundle_bind_ok. exists keys. split; [done|].
    apply bundle_bind_ok. exists th. split; [by rewrite Ht|]. rewrite Hf.
    apply bundle_bind_ok. exists true. split; [by rewrite Hb|]. cbn [negb].
    apply bundle_bind_ok. exists (JArray l). split; [by rewrite Hs|]. cbn [jisArray negb jelems].
    apply bundle_bind_ok. exists signed. split; [by rewrite Hsg|].
    apply bundle_bind_ok. exists (0 + Z.of_nat (length l)). split; [by apply check_signatures_spec|].
    rewrite (proj2 (Z.ltb_ge _ _)) by lia.
    apply bundle_bind_ok. exists ex. split; [by rewrite Hex|].
    apply bundle_bind_ok. exists false. by rewrite Hd.
Qed.


(** The signatures are counted, not the keys: copies of one valid signature are accepted as that
    many signatures, so that a single key can meet any threshold. *)
Theorem duplicate_signatures_counted (keys : gmap string json) (body : string) (sg : json) (n : nat) :
  valid_signature keys body sg ->
  check_signatures env keys body (replicate n sg) 0 = BOk (Z.of_nat n).
Proof.
  intros Hv. apply check_signatures_spec. rewrite length_replicate. split; [|lia].
  apply Forall_replicate. done.
Qed.
End signatures.

(** *** Type, tag and targets of a bundle *)

(** A device of a known type takes a bundle only if the bundle's type is not that of the other
    kind of device, and a device with tags only if the bundle's tag is one of them. *)
Theorem bundle_type_and_tag (meta : json) (ty : ClientType) (tags : list string) (bt tag : string) :
  (v ← bundle_field meta "type"; jasString v) = Ret bt -> (v ← bundle_field meta "tag"; jasString v) = Ret tag ->
  (checkBundleType meta ty = BOk tt <->
     (ty = Dev -> bt <> "prod") /\ (ty = Prod -> bt <> "ci")) /\
  (checkBundleTag meta tags = BOk tt <-> tags = [] \/ tag ∈ tags).
Proof.
  intros Hb Ht. split.
  - unfold checkBundleType. rewrite Hb. cbn [blift mbind bundle_bind].
    destruct (String.eqb_spec bt "ci"), (String.eqb_spec bt "prod"), ty; cbn; naive_solver.
  - destruct tags as [|x tags]; [naive_solver|]. unfold checkBundleTag. rewrite Ht. cbn [blift mbind bundle_bind].
    destruct (mem tag (x :: tags)) eqn:E.
    + apply mem_spec in E. split; [by right|done].
    + apply mem_false in E. split; [done|]. by intros [?|?].
Qed.

Lemma getTrustedBundleTargets_elem tuf meta l :
  getTrustedBundleTargets tuf meta = Ret l ->
  exists names, bundle_field meta "targets" = Ret names /\
    forall t, t ∈ l <-> t ∈ tuf /\ JString (Name t) ∈ jelems names.
Proof.
  unfold getTrustedBundleTargets. intros E. osplit E. injection E as <-. exists v. split; [done|].
  intros t. rewrite list_elem_of_In, in_flat_map. setoid_rewrite filter_In. unfold json_eqb.
  rewrite !list_elem_of_In. split.
  - intros (b & Hb & Hin & Heq). apply bool_decide_eq_true in Heq. by subst.
  - intros [Hin Hb]. exists (JString (Name t)). split_and!; [done|done|by apply bool_decide_eq_true].
Qed.

(** With bundle metadata, the targets trusted are exactly the device's own TUF targets that the
    bundle names; a target only the bundle knows is never among them. *)
Theorem getTrustedTargets_subset (tuf : list TufTarget) (meta : json) (l : list TufTarget) :
  getTrustedTargets tuf meta = Ret l -> jempty meta = false ->
  exists names, bundle_field meta "targets" = Ret names /\
    forall t, t ∈ l <-> t ∈ tuf /\ JString (Name t) ∈ jelems names.
Proof. unfold getTrustedTargets. intros E Hne. rewrite Hne in E. by apply getTrustedBundleTargets_elem. Qed.

(** *** Content of the bundle *)

Lemma jset2_other v a b x v' k : k <> a -> jset2 v a b x = Ret v' -> jindex v' k = jindex v k.
Proof. unfold jset2. intros Hk E. osplit E. by eapply jindex_set_ne. Qed.

(** Members of a document are unique. *)
Definition unique_members (v : json) : Prop :=
  match v with JObject m => NoDup m.*1 | _ => True end.

Lemma obj_remove_insert_ne k k0 v m :
  k <> k0 -> obj_lookup k (obj_remove k (obj_insert k0 v m)) = obj_lookup k (obj_remove k m).
Proof.
  intros Hne. induction m as [|[k' v'] m IH]; cbn [obj_insert obj_remove].
  - cbn. by destruct (String.eqb_spec k k0); cbn; [|destruct (String.eqb_spec k k0)].
  - destruct (String.compare k0 k') eqn:E; cbn [obj_remove].
    + apply String.compare_eq_iff in E. subst.
      by destruct (String.eqb_spec k k'); cbn; [|destruct (String.eqb_spec k k')].
    + destruct (String.eqb_spec k k0); [done|]. cbn [obj_lookup].
      by destruct (String.eqb_spec k k0).
    + destruct (String.eqb_spec k k') as [->|]; [by apply obj_lookup_insert_ne|]. cbn [obj_lookup].
      by destruct (String.eqb_spec k k').
Qed.

(** Removing a member after setting another leaves it out. *)
Lemma jset2_remove_gone v a b x v1 k v2 :
  unique_members v -> k <> a -> jset2 v a b x = Ret v1 -> jremove v1 k = Ret v2 -> jindex v2 k = Ret JNull.
Proof.
  unfold jset2. intros Hu Hne E E2. osplit E. destruct v as [| | | | |m]; cbn in E; try discriminate E;
    injection E as <-; injection E2 as <-; cbn.
  - by destruct (String.eqb_spec k a); cbn; [|destruct (String.eqb_spec k a)].
  - by rewrite obj_remove_insert_ne, obj_remove_lookup_eq.
Qed.
Lemma jremove_gone v k v' : unique_members v -> jremove v k = Ret v' -> jindex v' k = Ret JNull.
Proof. destruct v; cbn; intros Hu [= <-]; cbn; [done|]. by rewrite obj_remove_lookup_eq. Qed.

Lemma getRequiredApps_object `{UptaneTargets} c t r n u :
  getRequiredApps c t = Ret r -> r !! n = Some u -> exists m, appsJson t = Ret (JObject m).
Proof.
  unfold getRequiredApps. intros E. osplit E. revert E.
  apply (foldO_ind (fun (a : AppsContainer) _ => a !! n = Some u -> exists m, appsJson t = Ret (JObject m)));
    [by rewrite lookup_empty|].
  intros acc l x acc' _ IH E Hn. osplit E. unfold isPresent in Hv2.
  destruct v as [| | | | |m]; cbn in Hv2; try discriminate Hv2; [|by exists m].
  injection Hv2 as <-. injection E as <-. auto.
Qed.

Section available_theorems.
Context `{UptaneTargetsSpec}.
Context (is_compose_pm : bool) (pconfig : ComposeConfig) (src : UpdateSrc).

Lemma with_local_dirs_same t c b t' :
  with_local_dirs src t c b = Ret t' ->
  filename t' = filename t /\ sha256Hash t' = sha256Hash t /\
  appsJson t' = jindex c "docker_compose_apps".
Proof.
  unfold with_local_dirs. intros E. osplit E. injection E as <-. unfold updateCustom, appsJson.
  rewrite make_filename, make_sha256, make_custom. split_and!; [done..|].
  apply jset2_other with (k := "docker_compose_apps") in Hv; [|done].
  destruct b; [|by injection Hv0 as <-].
  apply jset2_other with (k := "docker_compose_apps") in Hv0; [|done]. by rewrite Hv0.
Qed.

(** The apps of the shortlisted custom data are apps of the target, all on the shortlist. *)
Lemma shortlist_apps_sub ty sl c c' m' n v :
  unique_members c -> ty <> NoneOfTargetApps ->
  shortlist_apps ty sl c = Ret c' -> jindex c' "docker_compose_apps" = Ret (JObject m') ->
  obj_lookup n m' = Some v ->
  exists m, jindex c "docker_compose_apps" = Ret (JObject m) /\ obj_lookup n m = Some v /\
    (ty = AllTargetApps \/ n ∈ sl).
Proof.
  unfold shortlist_apps. intros Hu Hty E Hc' Hn. osplit E.
  destruct (bool_decide (ty = OnlyShortlistedApps) && jisObject v1) eqn:Eb.
  - apply andb_true_iff in Eb as [_ Ho]. destruct v1 as [| | | | |m]; try discriminate Ho. cbn [jitems] in E.
    destruct v0; [|discriminate Hv0]. exists m. split; [done|].
    case_bool_decide.
    + apply jremove_gone in E; [|done]. rewrite E in Hc'. discriminate Hc'.
    + apply jindex_set_eq in E. rewrite E in Hc'. injection Hc' as <-.
      rewrite (obj_lookup_filter (in_set sl)) in Hn. unfold in_set in Hn.
      case_bool_decide; [by split; [|right]|discriminate Hn].
  - injection E as <-. exists m'. split; [done|]. split; [done|]. left.
    destruct ty; [done|done|]. cbn in Eb. exfalso.
    unfold jisMember, jindex in *. destruct c; cbn in *; simplify_eq.
    destruct (obj_lookup "docker_compose_apps" m); simplify_eq; cbn in *; simplify_eq; discriminate Eb.
Qed.

(** Every app the offered target requires is in the source directory. *)
Definition apps_found (t' : UTarget) : Prop :=
  forall req n u, getRequiredApps pconfig t' = Ret req -> req !! n = Some u -> u ∈ found_apps src.

Lemma apps_found_null t' : appsJson t' = Ret JNull -> apps_found t'.
Proof.
  intros Ht req n u Hr Hn. destruct (getRequiredApps_object _ _ _ _ _ Hr Hn) as [m Hm]. congruence.
Qed.

(** No required app is missing, so the target that is offered finds its apps. *)
Lemma shortlisted_apps_found ty sl t c t' req :
  unique_members (custom_data t) -> ty <> NoneOfTargetApps ->
  getRequiredApps pconfig t = Ret req -> existsb (missing_app src ty sl) (map_to_list req) = false ->
  shortlist_apps ty sl (custom_data t) = Ret c -> appsJson t' = jindex c "docker_compose_apps" ->
  apps_found t'.
Proof.
  intros Hu Hty Hr Hm Hc Ha req' n u Hr' Hn.
  destruct (getRequiredApps_object _ _ _ _ _ Hr' Hn) as [m' Hm'].
  destruct (proj1 (getRequiredApps_lookup _ _ _ _ Hm' Hr' n u) Hn) as (Hw & v & Hv & He).
  rewrite Ha in Hm'. destruct (shortlist_apps_sub _ _ _ _ _ _ _ Hu Hty Hc Hm' Hv) as (m & Hcm & Hv' & Hin).
  assert (Hreq : req !! n = Some u) by (apply (getRequiredApps_lookup _ _ m _ Hcm Hr); eauto).
  destruct (decide (u ∈ found_apps src)) as [|Hnf]; [done|]. exfalso.
  assert (Ht : existsb (missing_app src ty sl) (map_to_list req) = true); [|congruence].
  apply existsb_exists. exists (n, u). split; [by apply list_elem_of_In, elem_of_map_to_list|].
  unfold missing_app, in_set. cbn [fst snd]. rewrite (bool_decide_eq_false_2 (u ∈ found_apps src)) by done.
  cbn. apply orb_true_iff. destruct Hin; [left|right]; by apply bool_decide_eq_true_2.
Qed.

Lemma available_target_sound t t' :
  available_target is_compose_pm pconfig src t = Ret (Some t') ->
  filename t' = filename t /\ sha256Hash t' = sha256Hash t /\ hasCommit src (sha256Hash t) = true /\
  (is_compose_pm = true -> unique_members (custom_data t) -> apps_found t').
Proof.
  unfold available_target. destruct (hasCommit src (sha256Hash t)) eqn:Hh; cbn [negb]; [|discriminate].
  destruct is_compose_pm; cbn [negb]; intros E.
  - osplit E. destruct v0 as [ty sl]. destruct (decide (ty = NoneOfTargetApps)) as [->|Hty].
    + osplit E. injection E as <-. unfold updateCustom. rewrite make_filename, make_sha256. split_and!; [done..|].
      intros _ Hu. apply apps_found_null. unfold appsJson. rewrite make_custom.
      by apply (jset2_remove_gone _ _ _ _ _ _ _ Hu (ltac:(done) : "docker_compose_apps" <> LocalSrcDirKey) Hv1 Hv2).
    + osplit E. destruct (existsb _ _) eqn:Hm; [discriminate E|]. osplit E. injection E as <-.
      apply with_local_dirs_same in Hv3 as (-> & -> & Ha). split_and!; [done..|]. intros _ Hu.
      by eapply shortlisted_apps_found.
  - osplit E. injection E as <-. apply with_local_dirs_same in Hv as (-> & -> & _). by split_and!.
Qed.

Lemma getAvailableTargets_elem targets l t' :
  getAvailableTargets is_compose_pm pconfig src targets = Ret l -> t' ∈ l ->
  exists t, t ∈ targets /\ available_target is_compose_pm pconfig src t = Ret (Some t').
Proof.
  intros E. assert (El : available_loop is_compose_pm pconfig src targets = Ret l).
  { destruct targets; [exact E|]. unfold getAvailableTargets in E. by apply bind_Ret in E as (? & _ & E). }
  clear E. revert l El. induction targets as [|t targets IH]; intros l; cbn [available_loop].
  - intros [= <-] Ht'. set_solver.
  - intros E Ht'. osplit E. injection E as <-.
    assert (Hl : t' ∈ v0 -> exists t0, t0 ∈ t :: targets /\
                   available_target is_compose_pm pconfig src t0 = Ret (Some t')).
    { intros Hin. destruct (IH _ Hv0 Hin) as (t2 & ? & ?). exists t2. split; [set_solver|done]. }
    destruct v as [t1|]; [apply elem_of_cons in Ht' as [->|Ht']|]; [|by apply Hl..].
    exists t. split; [set_solver|done].
Qed.

(** Every target an offline check-in offers is an allowed one, its ostree commit is in the local
    repository, and every app that it requires on this device, after the shortlisting, is in the
    local app store: nothing is offered that the bundle cannot install. *)
Theorem getAvailableTargets_complete (targets l : list UTarget) (t' : UTarget) :
  getAvailableTargets is_compose_pm pconfig src targets = Ret l ->
  Forall (fun t => unique_members (custom_data t)) targets -> t' ∈ l ->
  exists t, t ∈ targets /\ filename t' = filename t /\ sha256Hash t' = sha256Hash t /\
    hasCommit src (sha256Hash t) = true /\ (is_compose_pm = true -> apps_found t').
Proof.
  intros E HF Ht'. destruct (getAvailableTargets_elem _ _ _ E Ht') as (t & Ht & Ea).
  exists t. split; [done|]. rewrite Forall_forall in HF. apply available_target_sound in Ea as (-> & -> & Hc & Ha).
  split_and!; [done..|]. intros Hi. apply Ha; [done|by apply HF].
Qed.

(** An allowed target is left out only if its commit is not in the local repository or, on a
    device that runs apps, if the bundle was made with apps and one of them that the device requires
    is not in the local store. *)
Theorem available_target_left_out (t : UTarget) :
  available_target is_compose_pm pconfig src t = Ret None ->
  hasCommit src (sha256Hash t) = false \/
  (is_compose_pm = true /\ exists tapps ty sl req n u, appsJson t = Ret tapps /\
     getAppsFetchedForOfflineUpdate (custom_data t) tapps = Ret (ty, sl) /\ ty <> NoneOfTargetApps /\
     getRequiredApps pconfig t = Ret req /\ req !! n = Some u /\ (u ∉ found_apps src) /\
     (ty = AllTargetApps \/ n ∈ sl)).
Proof.
  unfold available_target. destruct (hasCommit src (sha256Hash t)); cbn [negb]; [|by left].
  destruct is_compose_pm; cbn [negb]; intros E; [|osplit E; discriminate E]. right. split; [done|].
  osplit E. destruct v0 as [ty sl]. destruct (decide (ty = NoneOfTargetApps)); [osplit E; discriminate E|].
  osplit E. destruct (existsb _ _) eqn:Hm; [|osplit E; discriminate E].
  apply existsb_exists in Hm as ([k u] & Hin & Hmiss). apply list_elem_of_In, elem_of_map_to_list in Hin.
  unfold missing_app, in_set in Hmiss. cbn [fst snd] in Hmiss.
  apply andb_true_iff in Hmiss as [Hu Hs]. apply negb_true_iff, bool_decide_eq_false in Hu.
  apply orb_true_iff in Hs. rewrite !bool_decide_eq_true in Hs.
  exists v, ty, sl, v0, k, u. by split_and!.
Qed.
End available_theorems.

(** ** A concrete bundle *)

(** The roots are named by their version, each accepted by its predecessor. *)
#[export] Instance simple_roots : RootRepo Z := {
  empty_repo := 0;
  initRoot x _ :=
    match stoi 10 x with
    | Ret v => if 0 <=? v then Ret v else throw runtime_error "invalid root"
    | Throw _ => throw runtime_error "invalid root"
    end;
  verifyRoot x r :=
    match stoi 10 x with
    | Ret v => if v =? r + 1 then Ret v else throw SecurityException "root version"
    | Throw _ => throw runtime_error "invalid root"
    end;
  rootVersion r := r;
}.
#[export] Instance simple_roots_spec : RootRepoSpec Z.
Proof.
  split; cbn; intros x r e; destruct (stoi 10 x); try case_match; try discriminate; intros [= <-]; try done; lia.
Qed.

Definition sample_signature : json :=
  JObject [("keyid", JString "k1"); ("method", JString "ed25519"); ("sig", JString "good")].
Definition sample_root_meta (threshold : Z) : json :=
  JObject [("signed", JObject [("keys", JObject [("k1", JObject [("keytype", JString "ED25519")])]);
    ("roles", JObject [("targets", JObject [("keyids", JArray [JString "k1"]); ("threshold", JInt threshold)])])])].
Definition sample_bundle (sigs : list json) : json :=
  JObject [("signatures", JArray sigs);
    ("signed", JObject [("expires", JString "2038-01-01T00:00:00Z");
       ("x-fio-offline-bundle", JObject [("tag", JString "devel"); ("targets", JArray [JString "lmp-3"]);
                                          ("type", JString "prod")])])].

Definition sample_bundle_env (threshold : Z) (sigs : list json) : BundleEnv := {|
  fetch_root v := if v =? 2 then Some "2" else None;
  bundle_path := "/bundle/tuf/bundle-targets.json"; toStyledString _ := ""; timestamp_str := id;
  bundle_file := Some "bundle";
  parse_json s := if String.eqb s "bundle" then sample_bundle sigs else sample_root_meta threshold;
  canonical _ := "signed";
  VerifySignature _ sig _ := String.eqb sig "good";
  is_expired _ := Ret false;
|}.

Lemma checkAndGetRootMeta_chain_witness :
  let env := sample_bundle_env 1 [sample_signature] in
  checkAndGetRootMeta (R := Z) env "1" = BOk (sample_root_meta 1) /\
  exists n r latest, root_chain env "1" 1 1 n r latest /\ latest <> "".
Proof.
  cbn zeta. assert (E : checkAndGetRootMeta (R := Z) (sample_bundle_env 1 [sample_signature]) "1"
                        = BOk (sample_root_meta 1)) by (vm_compute; reflexivity).
  split; [exact E|].
  pose proof (checkAndGetRootMeta_chain (sample_bundle_env 1 [sample_signature]) "1" 1 1
                (conj eq_refl eq_refl)) as H. rewrite E in H.
  destruct H as (n & r & latest & Hc & _ & Hl & _). exists n, r, latest. split; [exact Hc|exact Hl].
Defined.

Lemma duplicate_signatures_counted_witness :
  let sg := sample_signature in
  check_signatures (sample_bundle_env 2 [sg; sg]) {["k1" := JNull]} "signed" [sg; sg] 0 = BOk 2 /\
  checkBundle (sample_bundle_env 2 [sg; sg]) (sample_root_meta 2) = BOk (sample_bundle [sg; sg]).
Proof.
  cbn zeta. split; [|vm_compute; reflexivity].
  apply (duplicate_signatures_counted (sample_bundle_env 2 [sample_signature; sample_signature])
           {["k1" := JNull]} "signed" sample_signature 2).
  exists "k1", "good", JNull. split; [reflexivity|]. split; reflexivity.
Defined.

Lemma bundle_type_and_tag_witness :
  (checkBundleType (sample_bundle []) Prod = BOk tt <-> (Prod = Dev -> "prod" <> "prod") /\ (Prod = Prod -> "prod" <> "ci")) /\
  (checkBundleTag (sample_bundle []) ["devel"] = BOk tt <-> ["devel"] = [] \/ "devel" ∈ ["devel"]).
Proof. apply (bundle_type_and_tag (sample_bundle []) Prod ["devel"] "prod" "devel"); reflexivity. Defined.

Lemma getTrustedTargets_subset_witness :
  let tuf := [sample_tuf "lmp-2" "c2" 2 [] JNull; sample_tuf "lmp-3" "c3" 3 [] JNull] in
  exists names, bundle_field (sample_bundle []) "targets" = Ret names /\
    forall t, t ∈ [sample_tuf "lmp-3" "c3" 3 [] JNull] <-> t ∈ tuf /\ JString (Name t) ∈ jelems names.
Proof.
  cbn zeta. apply (getTrustedTargets_subset
    [sample_tuf "lmp-2" "c2" 2 [] JNull; sample_tuf "lmp-3" "c3" 3 [] JNull] (sample_bundle [])
    [sample_tuf "lmp-3" "c3" 3 [] JNull]); vm_compute; reflexivity.
Defined.

(** A local source with the commit [3] and all apps but [app3] *)
Definition sample_src : UpdateSrc := {|
  TufDir := "/bundle/tuf"; OstreeRepoDir := "/bundle/ostree"; AppsDir := "/bundle/apps";
  found_apps := {["uri1"; "uri2"]}; open_repo := Ret tt; hasCommit c := String.eqb c "3" |}.

(** A target fetched with the shortlist [l]. *)
Definition sample_shortlisted (l : string) : UTarget :=
  simple_make "lmp-2" (target_json "3" 0
    (JObject [("docker_compose_apps", JObject sample_apps);
              ("fetched-apps", JObject [("shortlist", JString l); ("uri", JString "fetched-uri")])])).

Lemma getAvailableTargets_complete_witness :
  let l := the [] (getAvailableTargets true sample_config sample_src [sample_shortlisted "app1,app2"]) in
  (exists t', l = [t']) /\ forall t', t' ∈ l -> apps_found sample_config sample_src t'.
Proof.
  cbn zeta. split; [vm_compute; by eexists|]. intros t' Ht'.
  destruct (getAvailableTargets_complete true sample_config sample_src [sample_shortlisted "app1,app2"]
    (the [] (getAvailableTargets true sample_config sample_src [sample_shortlisted "app1,app2"])) t') as (t & _ & _ & _ & _ & Ha).
  - vm_compute. reflexivity.
  - constructor; [|constructor]. apply (bool_decide_unpack (NoDup ["docker_compose_apps"; "fetched-apps"])).
    vm_compute. exact I.
  - exact Ht'.
  - by apply Ha.
Defined.

Lemma available_target_left_out_witness :
  let t := sample_shortlisted "app1 app3" in
  hasCommit sample_src (sha256Hash t) = false \/
  (true = true /\ exists tapps ty sl req n u, appsJson t = Ret tapps /\
     getAppsFetchedForOfflineUpdate (custom_data t) tapps = Ret (ty, sl) /\ ty <> NoneOfTargetApps /\
     getRequiredApps sample_config t = Ret req /\ req !! n = Some u /\ (u ∉ found_apps sample_src) /\
     (ty = AllTargetApps \/ n ∈ sl)).
Proof.
  apply (available_target_left_out true sample_config sample_src (sample_shortlisted "app1 app3")).
  vm_compute. reflexivity.
Defined.
