(* ===== verification/Lock.v ===== *)
(** * The lock of the clients

    [assert_lock], [Init] and the destructor of [AkliteClient] in [src/src/api.cc]: a client that may
    change the device locks the file [/var/lock/aklite.lock], and every client removes that file when
    it is destroyed. The lock belongs to the file that was opened, not to its name, and is
    given up when the process ends. *)

From S2P Require Import Prelude.

(** ** Files and locks

    Inodes and processes are numbers. [lock_file] is the file the name stands for, [held] the files
    locked exclusively, each with the process that has it open. *)
Record LockFs := {
  lock_file : option nat;
  next_inode : nat;
  held : gmap nat nat;
}.

(** The texts of the errors of the two calls other than [EWOULDBLOCK], if they fail *)
Record LockErrors := { open_error : option string; flock_error : option string }.

(** [open("/var/lock/aklite.lock", O_CREAT | O_RDONLY, 0444)], where it does not fail *)
Definition open_lock : M LockFs nat := fun fs =>
  match lock_file fs with
  | Some i => (Ret i, fs)
  | None =>
      let i := next_inode fs in
      (Ret i, {| lock_file := Some i; next_inode := S i; held := held fs |})
  end.

(** [flock(fd, LOCK_NB | LOCK_EX)] on a file that the process just opened: false for [EWOULDBLOCK]. *)
Definition flock (pid i : nat) : M LockFs bool := fun fs =>
  match held fs !! i with
  | Some _ => (Ret false, fs)
  | None => (Ret true, {| lock_file := lock_file fs; next_inode := next_inode fs; held := <[i := pid]> (held fs) |})
  end.

(** [std::system_error] is a [std::runtime_error]. *)
Definition assert_lock (err : LockErrors) (pid : nat) : M LockFs unit :=
  match open_error err with
  | Some e => throwM runtime_error ("An error occurred opening the aklite lock: " +:+ e)
  | None =>
      fd ← open_lock;
      match flock_error err with
      | Some e => throwM runtime_error ("An error occurred obtaining the aklite lock: " +:+ e)
      | None =>
          ok ← flock pid fd;
          if ok : bool then mret tt
          else throwM runtime_error "Failed to obtain the aklite lock, another instance must be running !!!"
      end
  end.

(** [unlink("/var/lock/aklite.lock")] *)
Definition unlink_lock (fs : LockFs) : LockFs :=
  {| lock_file := None; next_inode := next_inode fs; held := held fs |}.

(** The files of a process are closed when it ends. *)
Definition process_exit (pid : nat) (fs : LockFs) : LockFs :=
  {| lock_file := lock_file fs; next_inode := next_inode fs; held := filter (fun kv => kv.2 <> pid) (held fs) |}.

(** ** Clients

    The processes with a client that lives, and whether it asked for the lock: one that is
    not read only and is made with [apply_lock]. *)
Record Clients := { lfs : LockFs; alive : gmap nat bool }.

(** The part of [Init] that concerns the lock. An exception leaves no client, so that no destructor runs. *)
Definition make_client (err : LockErrors) (pid : nat) (read_only apply_lock : bool) (w : Clients) : Clients :=
  if negb read_only && apply_lock then
    match assert_lock err pid (lfs w) with
    | (Ret _, fs) => {| lfs := fs; alive := <[pid := true]> (alive w) |}
    | (Throw _, fs) => {| lfs := fs; alive := alive w |}
    end
  else {| lfs := lfs w; alive := <[pid := false]> (alive w) |}.

(** The destructor of [AkliteClient], and the end of its process *)
Definition destroy_client (pid : nat) (w : Clients) : Clients :=
  {| lfs := process_exit pid (unlink_lock (lfs w)); alive := delete pid (alive w) |}.

Definition no_errors : LockErrors := {| open_error := None; flock_error := None |}.
Definition no_clients : Clients := {| lfs := {| lock_file := None; next_inode := 0; held := ∅ |}; alive := ∅ |}.

(** The steps of the system; a process has at most one client. [may_end] restricts which clients end. *)
Inductive client_step (may_end : Clients -> nat -> Prop) : Clients -> Clients -> Prop :=
  | step_make w err pid read_only apply_lock :
      alive w !! pid = None -> client_step may_end w (make_client err pid read_only apply_lock w)
  | step_destroy w pid locked :
      alive w !! pid = Some locked -> may_end w pid -> client_step may_end w (destroy_client pid w).

(** Two clients that believe to have the lock *)
Definition two_holders (w : Clients) : Prop :=
  exists p q, p <> q /\ alive w !! p = Some true /\ alive w !! q = Some true.

(** ** Theorems *)

(** Clients without the lock end only while nobody has it. *)
Definition orderly (w : Clients) (pid : nat) : Prop :=
  alive w !! pid = Some true \/ forall q, alive w !! q <> Some true.

(** Nobody has the lock, or one process has, on the file of that name. *)
Definition lock_inv (w : Clients) : Prop :=
  (held (lfs w) = ∅ /\ forall q, alive w !! q <> Some true) \/
  (exists p i, lock_file (lfs w) = Some i /\ held (lfs w) = {[i := p]} /\ forall q, alive w !! q = Some true <-> q = p).

Lemma lock_inv_make err pid ro al w : lock_inv w -> alive w !! pid = None -> lock_inv (make_client err pid ro al w).
Proof.
  intros Hinv Hp. unfold make_client. destruct (negb ro && al).
  - destruct w as [[f n h] al']. unfold lock_inv in Hinv. cbn in *. unfold assert_lock.
    destruct (open_error err) as [e1|]; [exact Hinv|].
    destruct Hinv as [[-> Hno]|(p & i & -> & -> & Hone)].
    + assert (Hal : forall q, <[pid := true]> al' !! q = Some true <-> q = pid).
      { intros q. destruct (decide (q = pid)) as [->|Hq]; [rewrite lookup_insert_eq|rewrite lookup_insert_ne by done];
          naive_solver. }
      destruct (flock_error err) as [e2|]; [left; by destruct f|].
      right. destruct f as [i|]; [exists pid, i|exists pid, n]; (split_and!; [done| |exact Hal]);
        mstep; cbn; unfold flock; cbn; rewrite lookup_empty; cbn; apply insert_empty.
    + right. exists p, i. destruct (flock_error err) as [e2|]; mstep; cbn; [done|].
      unfold flock. cbn. rewrite lookup_singleton_eq. cbn. done.
  - destruct Hinv as [[Hh Hno]|(p & i & Hf & Hh & Hone)]; [left|right; exists p, i]; cbn; split_and?; try done;
      intros q; (destruct (decide (q = pid)) as [->|Hq]; [rewrite lookup_insert_eq|rewrite lookup_insert_ne by done]);
      naive_solver.
Qed.

Lemma lock_inv_destroy pid w : lock_inv w -> orderly w pid -> lock_inv (destroy_client pid w).
Proof.
  intros Hinv Ho. left. cbn.
  assert (Hno : forall q, delete pid (alive w) !! q <> Some true).
  { intros q. destruct (decide (q = pid)) as [->|Hq]; [by rewrite lookup_delete_eq|rewrite lookup_delete_ne by done].
    destruct Ho as [Ho|Ho]; [|apply Ho]. destruct Hinv as [[_ Hn]|(p & i & _ & _ & Hone)]; [by destruct (Hn pid)|].
    apply Hone in Ho as ->. rewrite Hone. done. }
  split; [|done]. destruct Hinv as [[-> _]|(p & i & _ & -> & Hone)]; [apply map_filter_empty|].
  destruct Ho as [Ho%Hone|Ho]; [subst pid|by destruct (Ho p); apply Hone].
  apply map_filter_singleton_False. cbn. intros Hn. by apply Hn.
Qed.

Lemma lock_inv_reachable w : rtc (client_step orderly) no_clients w -> lock_inv w.
Proof.
  intros Hr. assert (lock_inv no_clients) as Hi by (left; by split).
  induction Hr as [|w w1 w2 Hs _ IH]; [done|]. apply IH. inversion Hs; subst.
  - by apply lock_inv_make.
  - by apply lock_inv_destroy.
Qed.

(** C21: mutual exclusion: as long as a client that did not ask for the lock ends only while nobody has it,
    there are never two clients that have it. *)
Theorem lock_exclusive (w : Clients) : rtc (client_step orderly) no_clients w -> ~ two_holders w.
Proof.
  intros Hr%lock_inv_reachable (p & q & Hpq & Hp & Hq).
  destruct Hr as [[_ Hno]|(r & i & _ & _ & Hone)]; [by destruct (Hno p)|].
  apply Hone in Hp, Hq. congruence.
Qed.

(** Without that order the lock excludes nobody: while a daemon has the lock, a command that only reads
    ends and removes the file, and the next client gets a lock on a new one. *)
Theorem lock_lost : exists w, rtc (client_step (fun _ _ => True)) no_clients w /\ two_holders w.
Proof.
  exists (make_client no_errors 3 false true (destroy_client 2 (make_client no_errors 2 true false
           (make_client no_errors 1 false true no_clients)))).
  split.
  - eapply rtc_r; [|by apply step_make]. eapply rtc_r; [|by eapply step_destroy].
    do 2 (eapply rtc_r; [|by apply step_make]). apply rtc_refl.
  - exists 1%nat, 3%nat. done.
Qed.

(** A client that asks for the lock while another one has it is not made, and changes nothing. *)
Lemma lock_refused err w p pid :
  lock_inv w -> alive w !! p = Some true -> make_client err pid false true w = w.
Proof.
  intros [[_ Hno]|(r & i & Hf & Hh & Hone)] Hp; [by destruct (Hno p)|].
  unfold make_client, assert_lock. destruct w as [[f n h] al]. cbn in *. subst.
  destruct (open_error err); [done|]. destruct (flock_error err); [done|].
  mstep. cbn. unfold flock. cbn. by rewrite lookup_singleton_eq.
Qed.

(** ** Witnesses *)

Lemma lock_exclusive_witness :
  ~ two_holders (make_client no_errors 2 false true (make_client no_errors 1 false true no_clients)).
Proof.
  apply (lock_exclusive (make_client no_errors 2 false true (make_client no_errors 1 false true no_clients))).
  do 2 (eapply rtc_r; [|by apply step_make]). apply rtc_refl.
Defined.
