(* ===== verification/CheckIn.v ===== *)
(** * Check-in

    The TUF repository of the device ([src/src/tuf/akrepo.cc]) with its sources
    of metadata ([src/src/tuf/localreposource.cc]), and the part of
    [AkliteClient] ([src/src/api.cc]) that looks for updates: the update of the
    metadata with its fallback, the choice of the targets that fit the device,
    and the three check-ins (online, from a local bundle, from what is stored). *)

From S2P Require Import Prelude Json Targets Registry Volume Restorable Platform Bootloader Sample RootfsTree.
From S2P Require Import ComposeApps Client Bundle.

(** ** Sources of metadata *)

Record RepoSource := {
  FetchRoot : Z -> outcome string;
  FetchTimestamp : outcome string;
  FetchSnapshot : outcome string;
  FetchTargets : outcome string;
}.

(** [LocalRepoSource]; [read] is the content of a file, [None] if it does not exist. *)
Definition fetchFile (read : string -> option string) (meta_file_path : string) : outcome string :=
  match read meta_file_path with
  | None => throw MetadataNotFoundException (MetadataNotFound_path meta_file_path)
  | Some content => mret content
  end.

Definition LocalRepoSource (read : string -> option string) (src_dir : string) : RepoSource := {|
  FetchRoot version := fetchFile read (src_dir +:+ "/" +:+ to_string version +:+ ".root.json");
  FetchTimestamp := fetchFile read (src_dir +:+ "/timestamp.json");
  FetchSnapshot := fetchFile read (src_dir +:+ "/snapshot.json");
  FetchTargets := fetchFile read (src_dir +:+ "/targets.json");
|}.

(** ** [AkRepo]

    [TR] is the state of its [Uptane::ImageRepository]; its storage is the
    device's. *)
Inductive Role := RRoot | RTimestamp | RSnapshot | RTargets | ROther (name : string).

Class ImageRepo (DB TR : Type) := {
  (** [updateMeta(storage, fetcher)], with the fetcher's [fetchRole] *)
  image_updateMeta : (Role -> Z -> outcome string) -> M (DB * TR) unit;
  image_checkMetaOffline : M (DB * TR) unit;
  image_getTargets : TR -> option (list UTarget);
  (** [loadRoot(&data, Image(), version)], -1 for the latest *)
  loadRoot : Z -> DB -> option string;
  (** an [Uptane::ImageRepository] that has not read anything *)
  image_repo_new : TR;
  (** [newStorage(config.storage, read_only, kTUF)] and [importData(config.import)] *)
  repo_newStorage : bool -> outcome unit;
  repo_importData : M DB unit;
}.

Definition fetchRole (src : RepoSource) (role : Role) (version : Z) : outcome string :=
  match role with
  | RRoot => FetchRoot src version
  | RTimestamp => FetchTimestamp src
  | RSnapshot => FetchSnapshot src
  | RTargets => FetchTargets src
  | ROther name => throw runtime_error ("Invalid TUF Role " +:+ name)
  end.

(** [fetchLatestRole]: [Uptane::Version()] is -1. *)
Definition fetchLatestRole (src : RepoSource) (role : Role) : outcome string := fetchRole src role (-1).

Section akrepo.
Context {DB TR : Type} `{ImageRepo DB TR, UptaneTargets}.

(** The constructors: on the storage of the device, whose repository it replaces, and on a storage that
    [open] opens at a path. *)
Definition AkRepo (read_only_storage : bool) : M (DB * TR) unit :=
  lift (repo_newStorage read_only_storage);;
  (fun x => let '(o, d) := repo_importData x.1 in (o, (d, x.2)));;
  modify (fun x => (x.1, image_repo_new)).
Definition AkRepo_init (open : string -> outcome DB) (storage_path : string) : outcome (DB * TR) :=
  storage ← open storage_path; mret (storage, image_repo_new).

Definition GetTargets (r : TR) : outcome (list TufTarget) :=
  match image_getTargets r with
  | Some l => foldO (fun acc u => t ← toTufTarget u; mret (acc ++ [t])) [] l
  | None => mret []
  end.
Definition GetRoot (version : Z) (d : DB) : string := default "" (loadRoot version d).
Definition UpdateMeta (src : RepoSource) : M (DB * TR) unit := image_updateMeta (fetchRole src).
Definition CheckMeta : M (DB * TR) unit := image_checkMetaOffline.
End akrepo.

(** ** Results *)

Inductive CheckInStatus :=
  | CiOk | CiOkCached | CiFailed | NoMatchingTargets | NoTargetContent | SecurityError | CiExpiredMetadata
  | CiMetadataFetchFailure | CiMetadataNotFound | BundleMetadataError.
#[export] Instance CheckInStatus_eq_dec : EqDecision CheckInStatus.
Proof. solve_decision. Defined.

Record CheckInResult := { ci_status : CheckInStatus; primary_hwid : string; ci_targets : list TufTarget }.
Definition CIR (st : CheckInStatus) (hw : string) (l : list TufTarget) : CheckInResult :=
  {| ci_status := st; primary_hwid := hw; ci_targets := l |}.

(** [operator bool] *)
Definition status_good (st : CheckInStatus) : bool := bool_decide (st = CiOk) || bool_decide (st = CiOkCached).
Definition CheckInResult_bool (r : CheckInResult) : bool := status_good (ci_status r).

(** The first element that [p] accepts; the search stops there. *)
Fixpoint find_outcome {A} (p : A -> outcome bool) (l : list A) : outcome (option A) :=
  match l with
  | [] => mret None
  | x :: l' => b ← p x; if b : bool then mret (Some x) else find_outcome p l'
  end.

Definition has_hwid (hwid : string) (t : TufTarget) : outcome bool :=
  h ← HardwareId t; mret (String.eqb h hwid).

Definition SelectTarget (r : CheckInResult) (version : Z) (target_name hwid : string) : outcome TufTarget :=
  let hwid := if str_empty hwid then primary_hwid r else hwid in
  found ← (if (version =? -1) && str_empty target_name
           then find_outcome (has_hwid hwid) (rev (ci_targets r))
           else find_outcome (fun t =>
                  if (Version t =? version) || String.eqb (Name t) target_name then has_hwid hwid t else mret false)
                  (ci_targets r));
  mret (default TufTarget_unknown found).

Definition GetLatest (r : CheckInResult) (hwid : string) : outcome TufTarget :=
  ret ← SelectTarget r (-1) "" hwid;
  if IsUnknown ret then throw runtime_error "no target for this hwid" else mret ret.

(** ** Targets that fit the device *)

(** [std::sort] by version: a permutation in which the versions do not decrease;
    which order targets of the same version get is not specified. *)
Class TargetSort := {
  sort_targets : list TufTarget -> list TufTarget;
  sort_targets_perm l : sort_targets l ≡ₚ l;
  sort_targets_sorted l : StronglySorted (fun a b => Version a <= Version b) (sort_targets l);
}.

Definition fits (hwid : string) (tags secondary_hwids : list string) (t : TufTarget) : outcome bool :=
  fmt ← jindex (Custom t) "targetFormat";
  if negb (json_eqb fmt (JString "OSTREE")) then mret false
  else
    tagged ← (if bool_decide (tags = []) then mret true else HasOneOfTags t tags);
    if negb tagged then mret false
    else
      h ← HardwareId t;
      mret (String.eqb h hwid || mem h secondary_hwids).

Fixpoint filter_outcome {A} (p : A -> outcome bool) (l : list A) : outcome (list A) :=
  match l with
  | [] => mret []
  | x :: l' => b ← p x; r ← filter_outcome p l'; mret (if b : bool then x :: r else r)
  end.

Definition filterTargets `{TargetSort} (allTargets : list TufTarget) (hwidToFind : string)
    (tags secondary_hwids : list string) : outcome (list TufTarget) :=
  targets ← filter_outcome (fits hwidToFind tags secondary_hwids) allTargets;
  mret (sort_targets targets).

(** ** [AkliteClient] *)

Record LocalUpdateSource := { tuf_repo : string; ostree_repo : string; app_store : string }.

(** The property tree the HTTPS source is made with *)
Record HttpsProps := { hp_tag : string; hp_dockerapps : string; hp_target : string; hp_ostreehash : string }.

Record ApiEnv (DB SR EN : Type) := {
  client : ClientEnv DB SR EN;
  hw_id : string;
  read_only : bool;
  invoke_post_cb_at_checkin : bool;
  AkHttpsRepoSource : HttpsProps -> RepoSource;
  (** the file system *)
  read_file : string -> option string;
  (** the directories under an app store, each with the URI of its versions; [None] if there is none *)
  app_store_dirs : string -> option (list (string * list string));
  ostree_open : string -> outcome unit;
  ostree_hasCommit : string -> string -> bool;
  parseJSON : string -> json;
  jsonToCanonicalStr : json -> string;
  key_verifies : json -> string -> string -> bool;
  expired_at_now : string -> outcome bool;
  styled_string : json -> string;
  TimeStamp_ToString : string -> string;
  http_get : string -> HttpResponse;
  getStatusStr : HttpResponse -> string;
  assert_lock : outcome unit;
  (** the sysroot and the storage [LocalLiteInstall] opens *)
  open_local_install : LocalUpdateSource -> outcome unit;
  (** the construction of the app engine that fetches from a local app store *)
  make_offline_engine : LocalUpdateSource -> M EN unit;
}.
Arguments client {DB SR EN}.
Arguments hw_id {DB SR EN}.
Arguments read_only {DB SR EN}.
Arguments invoke_post_cb_at_checkin {DB SR EN}.
Arguments AkHttpsRepoSource {DB SR EN}.
Arguments read_file {DB SR EN}.
Arguments app_store_dirs {DB SR EN}.
Arguments ostree_open {DB SR EN}.
Arguments ostree_hasCommit {DB SR EN}.
Arguments parseJSON {DB SR EN}.
Arguments jsonToCanonicalStr {DB SR EN}.
Arguments key_verifies {DB SR EN}.
Arguments expired_at_now {DB SR EN}.
Arguments styled_string {DB SR EN}.
Arguments TimeStamp_ToString {DB SR EN}.
Arguments http_get {DB SR EN}.
Arguments getStatusStr {DB SR EN}.
Arguments assert_lock {DB SR EN}.
Arguments open_local_install {DB SR EN}.
Arguments make_offline_engine {DB SR EN}.

(** The device, its TUF repository and the mutable members of [AkliteClient]. *)
Record ApiSt (DB SR EN TR : Type) := mkApi {
  dev : St DB SR EN;
  tuf : TR;
  configUploaded_ : bool;
  secondary_hwids_ : list string;
  cleanup_removed_apps_ : bool;
}.
Arguments mkApi {DB SR EN TR}.
Arguments dev {DB SR EN TR}.
Arguments tuf {DB SR EN TR}.
Arguments configUploaded_ {DB SR EN TR}.
Arguments secondary_hwids_ {DB SR EN TR}.
Arguments cleanup_removed_apps_ {DB SR EN TR}.

(** [parseUpdateContent]: the URIs found *)
Definition parseUpdateContent (apps_dir : option (list (string * list string))) : gset string :=
  match apps_dir with
  | None => ∅
  | Some dirs => list_to_set (flat_map snd dirs)
  end.

(** The failure of an update of the metadata: the status, the message and
    whether to fall back on the stored metadata. *)
Definition classify_failure (is_offline : bool) (e : exn) : CheckInStatus * string * bool :=
  let prefix := "Failed to update the local TUF repo" in
  let err := what e in
  match exn_kind e with
  | SecurityException =>
      (SecurityError, prefix +:+ "; TUF metadata check failure: " +:+ err,
       negb is_offline || str_contains "Rollback attempt" err)
  | ExpiredMetadata => (CiExpiredMetadata, prefix +:+ "; TUF metadata is expired: " +:+ err, negb is_offline)
  | MetadataFetchFailure =>
      (CiMetadataFetchFailure,
       prefix +:+ "; TUF metadata " +:+ (if is_offline then "not found" else "fetch failure") +:+ ": " +:+ err
       +:+ (if negb is_offline && str_contains "Failed to fetch role timestamp" err
            then "Check the device tag or verify the existence of a wave for the device" else ""),
       negb is_offline)
  | MetadataNotFoundException =>
      (CiMetadataNotFound, prefix +:+ "; TUF metadata not found: " +:+ err, negb is_offline)
  | _ => (CiFailed, prefix +:+ ": " +:+ err, negb is_offline)
  end.

Definition printBundleMeta (bundle_meta : json) : outcome unit :=
  ty ← bundle_field bundle_meta "type"; _ ← jasString ty;
  tag ← bundle_field bundle_meta "tag"; _ ← jasString tag;
  _ ← jpath bundle_meta ["signed"; "version"];
  ex ← jpath bundle_meta ["signed"; "expires"]; _ ← jasString ex;
  ts ← bundle_field bundle_meta "targets";
  _ ← strings_of (jelems ts);
  mret tt.

(** The status of a refused bundle *)
Definition bundle_status (t : BundleError) : CheckInStatus :=
  match t with
  | Expired => CiExpiredMetadata
  | NotFound | RootMetaNotFound => CiMetadataNotFound
  | _ => BundleMetadataError
  end.

(** What [Init] sets in the configuration of the client: the device reports about itself only if there is a server. *)
Definition with_telemetry {DB SR EN} (ro : bool) (c : ClientEnv DB SR EN) : ClientEnv DB SR EN :=
  if ro then c
  else
    let report := negb (str_empty (tls_server c)) in
    {| compose := compose c; is_compose := is_compose c; callback_program := callback_program c;
       storage_path := storage_path c; metadata_path := metadata_path c; tls_server := tls_server c; tags := tags c;
       reboot_command := reboot_command c; uuid := uuid c; bc := bc c; cert := cert c; path_exists := path_exists c;
       MatchTarget := MatchTarget c; MatchTargetVector := MatchTargetVector c; http_put := http_put c;
       http_post := http_post c; report_config := report; report_network := report; conf_str := conf_str c;
       conf_hash_is_stored := conf_hash_is_stored c; store_conf_hash := store_conf_hash c;
       network_info := network_info c; hw_info := hw_info c; loadKeys := loadKeys c; meta_file := meta_file c;
       RoleFileName := RoleFileName c; show_Version := show_Version c |}.

Section api.
Context {DB SR EN TR R : Type}.
Context `{AppEngine EN, INvStorage DB, TufRepo DB, Ostree DB SR, BootFwUpdateStatus SR, InstallationResults,
          UptaneTargets, ImageRepo DB TR, RootRepo R, TargetSort}.
Context (env : ApiEnv DB SR EN).
Abbreviation S := (St DB SR EN).
Abbreviation A := (ApiSt DB SR EN TR).
Abbreviation cenv := (client env).

Definition set_dev (x : S) (a : A) : A :=
  mkApi x (tuf a) (configUploaded_ a) (secondary_hwids_ a) (cleanup_removed_apps_ a).
Definition set_tuf (x : TR) (a : A) : A :=
  mkApi (dev a) x (configUploaded_ a) (secondary_hwids_ a) (cleanup_removed_apps_ a).
Definition set_uploaded (x : bool) (a : A) : A :=
  mkApi (dev a) (tuf a) x (secondary_hwids_ a) (cleanup_removed_apps_ a).
Definition set_secondary_hwids (x : list string) (a : A) : A :=
  mkApi (dev a) (tuf a) (configUploaded_ a) x (cleanup_removed_apps_ a).
Definition set_cleanup (x : bool) (a : A) : A :=
  mkApi (dev a) (tuf a) (configUploaded_ a) (secondary_hwids_ a) x.

(** A call of the client, and one of the TUF repository. *)
Definition on_client {X} (m : M S X) : M A X := fun a =>
  let '(o, s) := m (dev a) in (o, set_dev s a).
Definition on_repo {X} (m : M (DB * TR) X) : M A X := fun a =>
  let '(o, (d, r)) := m (db (dev a), tuf a) in (o, set_tuf r (set_dev (set_db d (dev a)) a)).

(** *** Construction *)

(** [Init]: the lock is taken before a client is made; what is made is changed only afterwards. *)
Definition Init_lock (lock : outcome unit) (ro apply_lock : bool) : M A unit :=
  if negb ro && apply_lock then lift lock else mret tt.
Definition Init_client (finalize : bool) : M A unit :=
  (if read_only env then mret tt
   else
     on_client (importRootMetaIfNeededAndPresent cenv);;
     (if finalize then _ ← on_client (client_finalizeInstall cenv); mret tt else mret tt));;
  on_repo (AkRepo (read_only env)).
(** With a client that is given *)
Definition Init (finalize apply_lock : bool) : M A unit :=
  Init_lock (assert_lock env) (read_only env) apply_lock;;
  Init_client finalize.

(** *** The update of the metadata *)

Definition checkInFailure (check_status : CheckInStatus) (err_msg : string) : M A CheckInResult :=
  on_client (notifyTufUpdateFinished cenv err_msg Unknown);;
  mret (CIR check_status (hw_id env) []).

Definition getRepoSource (local : option LocalUpdateSource) : M A RepoSource :=
  match local with
  | None =>
      cur ← gets (fun a => getCurrent (db (dev a)) (sr (dev a)));
      apps_str ← lift (appsStr cur (apps (cfg (compose cenv))));
      mret (AkHttpsRepoSource env
        {| hp_tag := match tags cenv with [] => "" | x :: _ => x end; hp_dockerapps := apps_str;
           hp_target := filename cur; hp_ostreehash := sha256Hash cur |})
  | Some l => mret (LocalRepoSource (read_file env) (tuf_repo l))
  end.

Definition updateMeta (local : option LocalUpdateSource) : M A (CheckInStatus * string) :=
  let is_offline := match local with Some _ => true | None => false end in
  repo_src ← getRepoSource local;
  r ← try_catch (on_repo (UpdateMeta repo_src);; mret (CiOk, "", negb is_offline))
        (fun e => mret (classify_failure is_offline e));
  let '(check_status, err_msg, fallback_to_current) := r in
  if negb (bool_decide (check_status = CiOk)) && fallback_to_current then
    try_catch (on_repo CheckMeta;; mret (CiOkCached, err_msg))
      (fun e => mret (check_status, "Local TUF repo is invalid: " +:+ what e))
  else mret (check_status, err_msg).

(** *** Online check-in *)

Definition no_target_msg : string :=
  "No Target found for the device; hw ID: " +:+ hw_id env +:+ "; tags: " +:+ join "," (tags cenv).

Definition report_device : M A unit :=
  uploaded ← gets configUploaded_;
  (if uploaded : bool then mret tt
   else on_client (reportAktualizrConfiguration cenv);; modify (set_uploaded true));;
  on_client (reportNetworkInfo cenv);;
  on_client (reportHwInfo cenv);;
  on_client (reportAppsState cenv).

Definition finish_checkin : M A unit :=
  if invoke_post_cb_at_checkin env then on_client (notifyTufUpdateFinished cenv "" Unknown) else mret tt.

(** The targets of the repository, of [trusted] if it is given, that fit the device. *)
Definition matching_targets (trusted : list TufTarget) : M A (list TufTarget) :=
  secondary ← gets secondary_hwids_;
  lift (filterTargets trusted (hw_id env) (tags cenv) secondary).

Definition CheckIn : M A CheckInResult :=
  on_client (notifyTufUpdateStarted cenv);;
  report_device;;
  '(check_status, err_msg) ← updateMeta None;
  if negb (status_good check_status) then checkInFailure check_status err_msg
  else
    targets ← gets (fun a => GetTargets (tuf a)); all ← lift targets;
    matchingTargets ← matching_targets all;
    if bool_decide (matchingTargets = []) then checkInFailure NoMatchingTargets no_target_msg
    else finish_checkin;; mret (CIR CiOk (hw_id env) matchingTargets).

(** *** Check-in from a local source *)

Definition update_src (l : LocalUpdateSource) : UpdateSrc := {|
  TufDir := tuf_repo l; OstreeRepoDir := ostree_repo l; AppsDir := app_store l;
  found_apps := parseUpdateContent (app_store_dirs env (app_store l +:+ "/apps"));
  open_repo := ostree_open env (ostree_repo l);
  hasCommit := ostree_hasCommit env (ostree_repo l);
|}.

Definition bundle_env (l : LocalUpdateSource) : BundleEnv := {|
  fetch_root v :=
    match FetchRoot (LocalRepoSource (read_file env) (tuf_repo l)) v with Ret x => Some x | Throw _ => None end;
  bundle_path := tuf_repo l +:+ "/bundle-targets.json";
  bundle_file := read_file env (tuf_repo l +:+ "/bundle-targets.json");
  parse_json := parseJSON env;
  canonical := jsonToCanonicalStr env;
  VerifySignature := key_verifies env;
  is_expired := expired_at_now env;
  toStyledString := styled_string env;
  timestamp_str := TimeStamp_ToString env;
|}.

Definition getBundleMeta (l : LocalUpdateSource) (a : A) : bundle_outcome json :=
  match read_file env (tuf_repo l +:+ "/bundle-targets.json") with
  | None => mret JNull
  | Some _ =>
      bundle_meta ← checkAndGetBundleMeta (bundle_env l) (R := R) (GetRoot (TR := TR) (-1) (db (dev a)));
      blift (printBundleMeta bundle_meta);;
      checkBundleType bundle_meta (getClientType cenv);;
      checkBundleTag bundle_meta (tags cenv);;
      mret bundle_meta
  end.

Definition fromTufTargets (l : list TufTarget) : list UTarget := fromTufTarget <$> l.
Definition toTufTargets (l : list UTarget) : outcome (list TufTarget) :=
  foldO (fun acc u => t ← toTufTarget u; mret (acc ++ [t])) [] l.

Definition available_tuf_targets (l : LocalUpdateSource) (matching : list TufTarget) : outcome (list UTarget) :=
  getAvailableTargets (is_compose cenv) (cfg (compose cenv)) (update_src l) (fromTufTargets matching).

(** After the bundle was accepted. *)
Definition checkin_bundle (l : LocalUpdateSource) (bundle_meta : json) : M A CheckInResult :=
  '(check_status, err_msg) ← updateMeta (Some l);
  if negb (status_good check_status) then checkInFailure check_status err_msg
  else
    targets ← gets (fun a => GetTargets (tuf a)); all ← lift targets;
    trusted ← lift (getTrustedTargets all bundle_meta);
    if bool_decide (trusted = []) then
      checkInFailure NoMatchingTargets
        "None of the bundle targets are listed among the TUF targets allowed for the device"
    else
      matching ← matching_targets trusted;
      if bool_decide (matching = []) then
        checkInFailure NoMatchingTargets
          ("Couldn't find Targets matching the device's hardware ID; check a tag or a hardware ID of the device and the "
           +:+ "bundle's tag")
      else
        available ← lift (available_tuf_targets l matching);
        if bool_decide (available = []) then
          checkInFailure NoTargetContent ("No update content found in ostree dir  " +:+ ostree_repo l
                                          +:+ " and app dir " +:+ app_store l)
        else
          finish_checkin;;
          res ← lift (toTufTargets available);
          mret (CIR check_status (hw_id env) res).

Definition CheckInLocal (l : LocalUpdateSource) : M A CheckInResult :=
  on_client (notifyTufUpdateStarted cenv);;
  meta ← gets (getBundleMeta l);
  match meta with
  | BErr t w => checkInFailure (bundle_status t) ("The bundle metadata check failed: " +:+ w)
  | BExn e => lift (Throw e)
  | BOk bundle_meta => checkin_bundle l bundle_meta
  end.

(** *** Check-in from the stored metadata *)
Definition checkin_stored (local : option LocalUpdateSource) : M A CheckInResult :=
  targets ← gets (fun a => GetTargets (tuf a)); all ← lift targets;
  matching ← matching_targets all;
  if bool_decide (matching = []) then mret (CIR NoMatchingTargets (hw_id env) [])
  else
    match local with
    | None => mret (CIR CiOkCached (hw_id env) matching)
    | Some l =>
        available ← lift (available_tuf_targets l matching);
        if bool_decide (available = []) then mret (CIR NoTargetContent (hw_id env) [])
        else res ← lift (toTufTargets available); mret (CIR CiOkCached (hw_id env) res)
    end.

Definition CheckInCurrent (local : option LocalUpdateSource) : M A CheckInResult :=
  valid ← try_catch (on_repo CheckMeta;; mret true) (fun _ => mret false);
  if valid : bool then checkin_stored local else mret (CIR SecurityError (hw_id env) []).
End api.

(** ** Theorems *)

(** *** Selection of targets *)

Lemma filter_outcome_Ret {X} (p : X -> outcome bool) l r :
  filter_outcome p l = Ret r <->
  (forall x, x ∈ l -> exists b, p x = Ret b) /\
  r = List.filter (fun x => the false (p x)) l.
Proof.
  revert r. induction l as [|x l IH]; intros r; cbn [filter_outcome List.filter].
  - split; [intros [= <-]; split; [set_solver|done]|by intros [_ ->]].
  - split.
    + intros E. osplit E. injection E as <-. apply IH in Hv0 as [Hl ->]. rewrite Hv. cbn.
      split; [|by destruct v]. intros y. rewrite elem_of_cons. intros [->|Hy]; eauto.
    + intros [Hl ->]. destruct (Hl x) as [b Hb]; [set_solver|]. rewrite Hb. cbn.
      rewrite (proj2 (IH (List.filter (fun x => the false (p x)) l))); [by destruct b|]. split; [set_solver|done].
Qed.

Lemma filter_outcome_elem {X} (p : X -> outcome bool) l r x :
  filter_outcome p l = Ret r -> x ∈ r <-> x ∈ l /\ p x = Ret true.
Proof.
  intros E. apply filter_outcome_Ret in E as [Hl ->]. rewrite !list_elem_of_In, filter_In.
  split; intros [Hx Hp]; (split; [done|]).
  - apply list_elem_of_In in Hx. destruct (Hl x Hx) as [b Hb]. rewrite Hb in *. cbn in Hp. by subst.
  - by rewrite Hp.
Qed.

Lemma filterTargets_elem `{TargetSort} all hw tags sec l :
  filterTargets all hw tags sec = Ret l ->
  StronglySorted (fun a b => Version a <= Version b) l /\
  forall t, t ∈ l <-> t ∈ all /\ fits hw tags sec t = Ret true.
Proof.
  unfold filterTargets. intros E. osplit E. injection E as <-.
  split; [apply sort_targets_sorted|]. intros t. rewrite sort_targets_perm. by apply filter_outcome_elem.
Qed.

(** What it means for a target to fit the device. *)
Lemma fits_spec hw tags sec t :
  fits hw tags sec t = Ret true <->
  jindex (Custom t) "targetFormat" = Ret (JString "OSTREE") /\
  (tags = [] \/ HasOneOfTags t tags = Ret true) /\
  exists h, HardwareId t = Ret h /\ (h = hw \/ h ∈ sec).
Proof.
  unfold fits, json_eqb. split.
  - intros E. apply bind_Ret in E as (fmt & Hf & E). case_bool_decide as Hfmt; [|discriminate E]. subst fmt.
    cbn [negb] in E. apply bind_Ret in E as (tg & Ht & E). destruct tg; [|discriminate E]. cbn [negb] in E.
    apply bind_Ret in E as (h & Hh & E). injection E as E. apply orb_true_iff in E.
    rewrite String.eqb_eq, mem_spec in E. split_and!; [done| |by exists h].
    case_bool_decide; [by left|by right].
  - intros (-> & Ht & h & Hh & Hin). cbn [mbind outcome_bind]. rewrite bool_decide_eq_true_2 by done. cbn [negb].
    replace (if bool_decide (tags = []) then mret true else HasOneOfTags t tags) with (Ret true : outcome bool).
    2: { destruct Ht as [->|Ht]; [done|]. case_bool_decide; [done|by rewrite Ht]. }
    cbn. rewrite Hh. cbn. f_equal. apply orb_true_iff. by rewrite String.eqb_eq, mem_spec.
Qed.

(** The targets a check-in looks at are exactly the OSTREE targets of the list that have one of the
    device's tags, if it has any, and that are made for the hardware of the device or of one of its
    secondaries; they come in the order of their versions. *)
Theorem filterTargets_exact `{TargetSort} (all l : list TufTarget) (hw : string) (tags sec : list string) :
  filterTargets all hw tags sec = Ret l ->
  StronglySorted (fun a b => Version a <= Version b) l /\
  forall t, t ∈ l <-> t ∈ all /\ jindex (Custom t) "targetFormat" = Ret (JString "OSTREE") /\
    (tags = [] \/ HasOneOfTags t tags = Ret true) /\ exists h, HardwareId t = Ret h /\ (h = hw \/ h ∈ sec).
Proof.
  intros E. apply filterTargets_elem in E as [Hs Hl]. split; [done|]. intros t. by rewrite Hl, fits_spec.
Qed.

Lemma find_outcome_Ret {X} (p : X -> outcome bool) l o :
  find_outcome p l = Ret o ->
  match o with
  | Some x => exists l1 l2, l = l1 ++ x :: l2 /\ p x = Ret true /\ Forall (fun y => p y = Ret false) l1
  | None => Forall (fun y => p y = Ret false) l
  end.
Proof.
  induction l as [|x l IH]; cbn [find_outcome]; [by intros [= <-]|].
  intros E. apply bind_Ret in E as (b & Hb & E). destruct b.
  - injection E as <-. exists [], l. split_and!; [done|done|constructor].
  - specialize (IH E). destruct o as [y|]; [|by constructor].
    destruct IH as (l1 & l2 & -> & Hy & HF). exists (x :: l1), l2. split_and!; [done|done|by constructor].
Qed.

Lemma sorted_suffix_max (l l1 l2 : list TufTarget) t :
  StronglySorted (fun a b => Version a <= Version b) l -> rev l = l1 ++ t :: l2 ->
  forall x, x ∈ l2 -> Version x <= Version t.
Proof.
  intros Hs Hr x Hx. assert (Hl : l = rev l2 ++ t :: rev l1).
  { rewrite <- (rev_involutive l), Hr, rev_app_distr. cbn. by rewrite <- app_assoc. }
  rewrite Hl in Hs. apply StronglySorted_app in Hs as (Hs & _ & _). apply Hs; [|set_solver].
  apply list_elem_of_In, in_rev. rewrite rev_involutive. by apply list_elem_of_In.
Qed.

(** Of a check-in's result, the latest target is one of its targets for the hardware asked for, or
    for the primary hardware if none is given, and no other such target has a higher version; without
    any such target the call fails. *)
Theorem GetLatest_latest (r : CheckInResult) (hwid : string) :
  StronglySorted (fun a b => Version a <= Version b) (ci_targets r) ->
  (forall t, t ∈ ci_targets r -> Name t <> "unknown" /\ exists h, HardwareId t = Ret h) ->
  let hw := if str_empty hwid then primary_hwid r else hwid in
  match GetLatest r hwid with
  | Ret t => t ∈ ci_targets r /\ HardwareId t = Ret hw /\
      forall t', t' ∈ ci_targets r -> HardwareId t' = Ret hw -> Version t' <= Version t
  | Throw e => exn_kind e = runtime_error /\ forall t, t ∈ ci_targets r -> HardwareId t <> Ret hw
  end.
Proof.
  intros Hs Hok hw. unfold GetLatest, SelectTarget. fold hw. cbn [str_empty].
  rewrite Z.eqb_refl. cbn [andb].
  assert (Hall : forall t, t ∈ rev (ci_targets r) -> exists h, HardwareId t = Ret h).
  { intros t Ht. apply Hok. by apply list_elem_of_In, in_rev, list_elem_of_In. }
  assert (Hf : exists o, find_outcome (has_hwid hw) (rev (ci_targets r)) = Ret o).
  { clear -Hall. induction (rev (ci_targets r)) as [|x l IH]; cbn [find_outcome]; [by eexists|].
    destruct (Hall x) as [h Hh]; [set_solver|]. unfold has_hwid. rewrite Hh. cbn.
    destruct (String.eqb h hw); [by eexists|]. apply IH. set_solver. }
  destruct Hf as [o Ho]. rewrite Ho. cbn [mbind outcome_bind mret outcome_ret].
  apply find_outcome_Ret in Ho.
  assert (Hhw : forall t b, has_hwid hw t = Ret b -> if b : bool then HardwareId t = Ret hw else HardwareId t <> Ret hw).
  { unfold has_hwid. intros t b E. apply bind_Ret in E as (h & Hh & E). injection E as <-. rewrite Hh.
    destruct (String.eqb_spec h hw) as [->|Hne]; [done|congruence]. }
  destruct o as [t|]; cbn -[IsUnknown].
  - destruct Ho as (l1 & l2 & Hr & Ht & HF).
    assert (Hin : t ∈ ci_targets r).
    { apply list_elem_of_In, in_rev. rewrite Hr. apply in_elt. }
    unfold IsUnknown. destruct (Hok t Hin) as [Hn _]. apply String.eqb_neq in Hn. rewrite Hn.
    split_and!; [done|by apply Hhw in Ht|]. intros t' Ht' Hh'.
    apply list_elem_of_In, in_rev in Ht'. rewrite Hr in Ht'. apply list_elem_of_In, elem_of_app in Ht' as [Ht'|Ht'].
    + rewrite Forall_forall in HF. apply HF, Hhw in Ht'. done.
    + apply elem_of_cons in Ht' as [->|Ht']; [lia|]. by eapply sorted_suffix_max.
  - split; [done|]. intros t Ht. rewrite Forall_forall in Ho.
    apply list_elem_of_In, in_rev, list_elem_of_In in Ht. by apply Ho, Hhw in Ht.
Qed.

(** *** The update of the metadata *)
Section checkin_theorems.
Context {DB SR EN TR R : Type}.
Context `{AppEngine EN, INvStorage DB, TufRepo DB, Ostree DB SR, BootFwUpdateStatus SR, InstallationResults,
          UptaneTargets, ImageRepo DB TR, RootRepo R, TargetSort}.
Context (env : ApiEnv DB SR EN).
Abbreviation S := (St DB SR EN).
Abbreviation A := (ApiSt DB SR EN TR).
Abbreviation cenv := (client env).

(** The TUF repository and the secondaries are as before. *)
Definition same_tuf (a a' : A) : Prop := tuf a' = tuf a /\ secondary_hwids_ a' = secondary_hwids_ a.
#[export] Instance same_tuf_preorder : PreOrder same_tuf.
Proof. split; [done|]. intros x y z [? ?] [? ?]. split; congruence. Qed.

Lemma on_client_tuf {X} (m : M S X) : preserves same_tuf (on_client m : M A X).
Proof. intros a. unfold exec, on_client. by destruct (m (dev a)). Qed.
Lemma finish_checkin_tuf : preserves same_tuf (finish_checkin env : M A _).
Proof. unfold finish_checkin. destruct (invoke_post_cb_at_checkin env); [apply on_client_tuf|apply (preserves_ret _)]. Qed.

Lemma updateMeta_run local a st msg a' :
  updateMeta env local a = (Ret (st, msg), a') ->
  exists src, getRepoSource env local a = (Ret src, a) /\
    ((st = CiOk /\ msg = "" /\ on_repo (UpdateMeta src) a = (Ret tt, a')) \/
     exists e a1, on_repo (UpdateMeta src) a = (Throw e, a1) /\
       let '(st0, _, fb) := classify_failure (match local with Some _ => true | None => false end) e in
       status_good st0 = false /\
       if fb : bool then
         (st = CiOkCached /\ on_repo CheckMeta a1 = (Ret tt, a')) \/
         (st = st0 /\ exists e', on_repo CheckMeta a1 = (Throw e', a'))
       else st = st0 /\ a' = a1).
Proof.
  unfold updateMeta. intros E. apply M_bind_Ret in E as (src & a0 & Es & E).
  assert (a0 = a).
  { unfold getRepoSource in Es. destruct local as [l|]; [by injection Es|].
    cbn in Es. unfold mbind, M_bind, lift in Es. cbn in Es. destruct (appsStr _ _); by injection Es. }
  subst a0. exists src. split; [done|]. unfold mbind at 1, M_bind at 1, try_catch at 1 in E.
  unfold mbind at 1, M_bind at 1 in E. destruct (on_repo (UpdateMeta src) a) as [[[]|e] a1] eqn:Eu.
  - left. cbn in E. by injection E as <- <- <-.
  - right. exists e, a1. split; [done|]. cbn [mret M_ret] in E. destruct (classify_failure _ e) as [[st0 m0] fb] eqn:Ec.
    assert (Hst : status_good st0 = false).
    { unfold classify_failure in Ec. destruct (exn_kind e); injection Ec as <- _ _; reflexivity. }
    split; [done|]. assert (Hne : bool_decide (st0 = CiOk) = false).
    { apply orb_false_iff in Hst as [? _]. done. }
    rewrite Hne in E. cbn [negb andb] in E. destruct fb; [|by injection E as <- _ <-].
    unfold try_catch, mbind, M_bind in E. destruct (on_repo CheckMeta a1) as [[[]|e'] a2] eqn:Ek.
    + left. by injection E as <- _ <-.
    + right. injection E as <- _ <-. split; [done|by exists e'].
Qed.

(** From a local source, the stored metadata are used instead of the source's only if these are
    refused as older than the stored ones and the stored ones are valid; any other defect of the
    source's metadata ends the check-in. *)
Theorem offline_fallback (l : LocalUpdateSource) (a a' : A) (msg : string) :
  updateMeta env (Some l) a = (Ret (CiOkCached, msg), a') ->
  exists e a1, on_repo (UpdateMeta (LocalRepoSource (read_file env) (tuf_repo l))) a = (Throw e, a1) /\
    exn_kind e = SecurityException /\ str_contains "Rollback attempt" (what e) = true /\
    on_repo CheckMeta a1 = (Ret tt, a').
Proof.
  intros E. apply updateMeta_run in E as (src & Es & Hr). injection Es as <-.
  destruct Hr as [(? & _)|(e & a1 & Eu & Hr)]; [done|]. exists e, a1. split; [done|].
  unfold classify_failure in Hr.
  destruct (exn_kind e); cbn [negb orb] in Hr; destruct Hr as [_ Hr];
    try (destruct Hr as [? _]; discriminate).
  destruct (str_contains "Rollback attempt" (what e)); [|by destruct Hr].
  by destruct Hr as [[_ ?]|[? _]].
Qed.

(** An offline update of the metadata always returns a status. *)
Lemma updateMeta_local_returns l (a : A) : exists r, run (updateMeta env (Some l)) a = Ret r.
Proof.
  unfold updateMeta, run, getRepoSource. mstep. unfold try_catch. cbn.
  destruct (on_repo (UpdateMeta _) a) as [[u|e] a1]; cbn; [by eexists|].
  destruct (classify_failure true e) as [[st m] fb]. destruct (_ && fb); [|by eexists].
  destruct (on_repo CheckMeta a1) as [[u|e'] a2]; by eexists.
Qed.

(** The metadata were fetched and verified, or the stored ones verified, just before [a1]. *)
Definition verified (src : RepoSource) (a1 : A) : Prop :=
  exists a0, on_repo (UpdateMeta src) a0 = (Ret tt, a1) \/ on_repo CheckMeta a0 = (Ret tt, a1).

Lemma updateMeta_good local a st msg a' :
  updateMeta env local a = (Ret (st, msg), a') -> status_good st = true ->
  exists src, getRepoSource env local a = (Ret src, a) /\ verified src a'.
Proof.
  intros E Hg. apply updateMeta_run in E as (src & Es & Hr). exists src. split; [done|].
  destruct Hr as [(_ & _ & Eu)|(e & a1 & _ & Hr)]; [exists a; by left|].
  destruct (classify_failure _ e) as [[st0 m0] fb]. destruct Hr as [Hb Hr].
  destruct fb; [destruct Hr as [[_ Ek]|[-> _]]|destruct Hr as [-> _]]; [exists a1; by right|congruence..].
Qed.

Lemma checkInFailure_run st msg (a : A) r a' :
  checkInFailure env st msg a = (Ret r, a') -> r = CIR st (hw_id env) [] /\ same_tuf a a'.
Proof.
  unfold checkInFailure. intros E. apply M_bind_Ret in E as ([] & a1 & E1 & E). injection E as <- <-.
  split; [done|]. exact (preserves_run_inv _ _ _ _ _ (on_client_tuf _) E1).
Qed.

Lemma matching_targets_run trusted (a : A) l a' :
  matching_targets env trusted a = (Ret l, a') ->
  a' = a /\ StronglySorted (fun x y => Version x <= Version y) l /\
  forall t, t ∈ l <-> t ∈ trusted /\ fits (hw_id env) (tags cenv) (secondary_hwids_ a) t = Ret true.
Proof.
  unfold matching_targets. mstep. intros E. destruct (filterTargets _ _ _ _) as [x|] eqn:Ef; [|discriminate E].
  injection E as <- <-. split; [done|]. by apply filterTargets_elem.
Qed.

Lemma GetTargets_run (a a1 : A) ts all :
  gets (fun a => GetTargets (tuf a)) a = (Ret ts, a1) -> forall a2, lift ts a1 = (Ret all, a2) ->
  a2 = a /\ GetTargets (tuf a) = Ret all.
Proof. mstep. intros [= <- <-] a2 [= E <-]. done. Qed.


(** *** Check-in from a local source *)

Lemma notifyTufUpdateStarted_db : preserves same_db (notifyTufUpdateStarted cenv : M S _).
Proof.
  unfold notifyTufUpdateStarted. apply (preserves_bind _); [apply callback_db|]. intros [].
  apply (preserves_bind _); [by intros s|]. intros []. by intros s.
Qed.
Lemma notifyTufUpdateFinished_db err t : preserves same_db (notifyTufUpdateFinished cenv err t : M S _).
Proof.
  unfold notifyTufUpdateFinished. apply (preserves_bind _); [apply callback_db|]. intros [].
  apply (preserves_bind _); [apply (preserves_gets _)|]. intros u.
  apply (preserves_bind _); [by intros s|]. intros []. pstep.
Qed.

(** The storage of the device is as before. *)
Definition same_store (a a' : A) : Prop := db (dev a') = db (dev a).
#[export] Instance same_store_preorder : PreOrder same_store.
Proof. split; [done|]. unfold same_store. intros x y z. congruence. Qed.

Lemma on_client_store {X} (m : M S X) : preserves same_db m -> preserves same_store (on_client m : M A X).
Proof.
  intros Hm a. specialize (Hm (dev a)). unfold exec, on_client in *. by destruct (m (dev a)) as [o s].
Qed.

Lemma getBundleMeta_store l (a a' : A) :
  same_store a a' -> getBundleMeta (R := R) env l a' = getBundleMeta (R := R) env l a.
Proof. unfold same_store, getBundleMeta. by intros ->. Qed.

Lemma CheckInLocal_bundle l (a a' : A) r :
  CheckInLocal (R := R) env l a = (Ret r, a') ->
  exists a1, same_store a a1 /\ same_tuf a a1 /\
    match getBundleMeta (R := R) env l a with
    | BErr t w => checkInFailure env (bundle_status t) ("The bundle metadata check failed: " +:+ w) a1 = (Ret r, a')
    | BExn _ => False
    | BOk meta => checkin_bundle env l meta a1 = (Ret r, a')
    end.
Proof.
  unfold CheckInLocal. intros E. apply M_bind_Ret in E as ([] & a1 & E1 & E).
  pose proof (preserves_run_inv _ _ _ _ _ (on_client_store _ notifyTufUpdateStarted_db) E1) as D1.
  pose proof (preserves_run_inv _ _ _ _ _ (on_client_tuf _) E1) as T1.
  apply M_bind_Ret in E as (meta & a2 & Em & E). injection Em as <- <-.
  exists a1. split_and!; [done|done|]. rewrite (getBundleMeta_store l _ _ D1) in E.
  by destruct (getBundleMeta env l a).
Qed.

(** C34: A bundle whose metadata are refused changes nothing: neither the stored versions and metadata
    nor the targets the device trusts, no target is offered, and the status tells an expired bundle
    and missing metadata from other defects. *)
Theorem bundle_refused (l : LocalUpdateSource) (a a' : A) (r : CheckInResult) (t : BundleError) (w : string) :
  CheckInLocal (R := R) env l a = (Ret r, a') -> getBundleMeta (R := R) env l a = BErr t w ->
  r = CIR (bundle_status t) (hw_id env) [] /\ db (dev a') = db (dev a) /\ tuf a' = tuf a.
Proof.
  intros E Eb. apply CheckInLocal_bundle in E as (a1 & D1 & [T1 _] & E). rewrite Eb in E.
  pose proof (checkInFailure_run _ _ _ _ _ E) as [-> [T2 _]]. split_and!; [done| |congruence].
  unfold checkInFailure in E. apply M_bind_Ret in E as ([] & a2 & E2 & E). injection E as <-.
  apply (preserves_run_inv _ _ _ _ _ (on_client_store _ (notifyTufUpdateFinished_db _ _))) in E2.
  unfold same_store in *. congruence.
Qed.

Lemma toTufTargets_elem l r t : toTufTargets l = Ret r -> t ∈ r -> exists u, u ∈ l /\ toTufTarget u = Ret t.
Proof.
  unfold toTufTargets. apply (foldO_ind (fun r l => t ∈ r -> exists u, u ∈ l /\ toTufTarget u = Ret t)); [set_solver|].
  intros acc dn u acc' _ IH E Ht. osplit E. injection E as <-. apply elem_of_snoc in Ht as [->|Ht].
  - exists u. split; [apply elem_of_snoc; by left|done].
  - destruct (IH Ht) as (u' & ? & ?). exists u'. split; [apply elem_of_snoc; by right|done].
Qed.

Lemma toTufTarget_fields u t : toTufTarget u = Ret t -> Name t = filename u /\ Sha256Hash t = sha256Hash u /\ Custom t = custom_data u.
Proof. unfold toTufTarget. intros E. apply bind_Ret in E as (v & _ & E). by injection E as <-. Qed.

Lemma getTrustedTargets_elem tuf meta l t :
  getTrustedTargets tuf meta = Ret l -> t ∈ l ->
  t ∈ tuf /\ (jempty meta = false -> exists names, bundle_field meta "targets" = Ret names /\
                JString (Name t) ∈ jelems names).
Proof.
  unfold getTrustedTargets. destruct (jempty meta).
  - intros [= <-] Ht. done.
  - intros E Ht. apply getTrustedBundleTargets_elem in E as (names & Hn & Hl). apply Hl in Ht as [? ?]. eauto.
Qed.

(** What makes a target offered from a local source safe to install. *)
Definition offered (l : LocalUpdateSource) (meta : json) (all : list TufTarget) (sec : list string) (t' : TufTarget) : Prop :=
  exists t, t ∈ all /\ Name t' = Name t /\ Sha256Hash t' = Sha256Hash t /\
    fits (hw_id env) (tags cenv) sec t = Ret true /\
    (jempty meta = false -> exists names, bundle_field meta "targets" = Ret names /\ JString (Name t) ∈ jelems names) /\
    ostree_hasCommit env (ostree_repo l) (Sha256Hash t) = true /\
    (is_compose cenv = true -> unique_members (Custom t) ->
     exists u, toTufTarget u = Ret t' /\ apps_found (cfg (compose cenv)) (update_src env l) u).

Context `{!UptaneTargetsSpec}.

Lemma available_offered l meta all sec trusted matching available res t' :
  getTrustedTargets all meta = Ret trusted ->
  (forall t, t ∈ matching <-> t ∈ trusted /\ fits (hw_id env) (tags cenv) sec t = Ret true) ->
  available_tuf_targets env l matching = Ret available -> toTufTargets available = Ret res -> t' ∈ res ->
  offered l meta all sec t'.
Proof.
  intros Et Hm Ea Er Ht'. destruct (toTufTargets_elem _ _ _ Er Ht') as (u & Hu & Eu).
  destruct (getAvailableTargets_elem _ _ _ _ _ _ Ea Hu) as (ut & Hut & Es).
  apply list_elem_of_fmap in Hut as (t & -> & Ht). apply Hm in Ht as [Ht Hf].
  destruct (getTrustedTargets_elem _ _ _ _ Et Ht) as [Hall Hb].
  destruct (toTufTarget_fields _ _ Eu) as (Hn & Hh & _).
  apply available_target_sound in Es as (Ef & Eh & Ec & Ha). unfold fromTufTarget in Ef, Eh, Ec, Ha.
  rewrite make_filename in Ef. rewrite make_sha256 in Eh, Ec. rewrite make_custom in Ha.
  exists t. split_and!; [done|congruence|congruence|done|done|done|]. intros Hc Hu'. exists u. auto.
Qed.

(** C5: A check-in from a local source that succeeds has accepted the bundle's metadata before it
    touched the device's, which were then verified; every target it offers is one of the device's own
    trusted targets, named by the bundle if the bundle has metadata, fits the device, has its ostree
    commit in the local repository, and finds all the apps it requires in the local store. A check-in
    that does not succeed offers nothing. *)
Theorem CheckInLocal_offers (l : LocalUpdateSource) (a a' : A) (r : CheckInResult) :
  CheckInLocal (R := R) env l a = (Ret r, a') ->
  if CheckInResult_bool r then
    exists meta a1 all, getBundleMeta (R := R) env l a = BOk meta /\
      verified (LocalRepoSource (read_file env) (tuf_repo l)) a1 /\ tuf a' = tuf a1 /\
      GetTargets (tuf a1) = Ret all /\ Forall (offered l meta all (secondary_hwids_ a1)) (ci_targets r)
  else ci_targets r = [].
Proof.
  intros E. apply CheckInLocal_bundle in E as (a0 & _ & _ & E).
  destruct (getBundleMeta env l a) as [meta|t w|e] eqn:Eb; [|by apply checkInFailure_run in E as [-> _]; destruct t|done].
  unfold checkin_bundle in E. apply M_bind_Ret in E as ([st msg] & a1 & Eu & E).
  destruct (status_good st) eqn:Hg; cbn [negb] in E.
  2: { apply checkInFailure_run in E as [-> _]. unfold CheckInResult_bool. cbn. by rewrite Hg. }
  apply M_bind_Ret in E as (ts & a2 & Et & E). apply M_bind_Ret in E as (all & a3 & El & E).
  destruct (GetTargets_run _ _ _ _ Et _ El) as [-> Hall].
  apply M_bind_Ret in E as (trusted & a4 & Etr & E). injection Etr as Etr <-.
  case_bool_decide; [by apply checkInFailure_run in E as [-> _]|].
  apply M_bind_Ret in E as (matching & a5 & Em & E). apply matching_targets_run in Em as (-> & _ & Hm).
  case_bool_decide; [by apply checkInFailure_run in E as [-> _]|].
  apply M_bind_Ret in E as (available & a6 & Ea & E). injection Ea as Ea <-.
  case_bool_decide; [by apply checkInFailure_run in E as [-> _]|].
  apply M_bind_Ret in E as ([] & a7 & Ef & E). apply M_bind_Ret in E as (res & a8 & Er & E).
  injection Er as Er <-. injection E as <- <-. unfold CheckInResult_bool. cbn [ci_status ci_targets CIR]. rewrite Hg.
  destruct (updateMeta_good _ _ _ _ _ Eu Hg) as (src & Es & Hv). injection Es as <-.
  apply (preserves_run_inv _ _ _ _ _ finish_checkin_tuf) in Ef as [Ef _].
  exists meta, a1, all. split_and!; [done..|]. apply Forall_forall. intros t' Ht'.
  by eapply available_offered.
Qed.

(** The bundle metadata an accepted check-in used were accepted against the root the device can
    trust, and their type and tag suit the device; without a metadata file nothing is demanded. *)
Theorem getBundleMeta_accepted (l : LocalUpdateSource) (a : A) (meta : json) :
  getBundleMeta (R := R) env l a = BOk meta ->
  match read_file env (tuf_repo l +:+ "/bundle-targets.json") with
  | None => meta = JNull
  | Some _ =>
      exists root, checkAndGetRootMeta (R := R) (bundle_env env l) (GetRoot (TR := TR) (-1) (db (dev a))) = BOk root /\
        acceptable (bundle_env env l) root meta /\
        checkBundleType meta (getClientType cenv) = BOk tt /\ checkBundleTag meta (tags cenv) = BOk tt
  end.
Proof.
  unfold getBundleMeta. destruct (read_file env _); [|by intros [= <-]]. intros E.
  apply bundle_bind_ok in E as (m & Em & E). apply bundle_bind_ok in E as ([] & _ & E).
  apply bundle_bind_ok in E as ([] & Ety & E). apply bundle_bind_ok in E as ([] & Etag & E). injection E as <-.
  unfold checkAndGetBundleMeta in Em. apply bundle_bind_ok in Em as (root & Hr & Hm).
  exists root. split_and!; [done| |done|done]. by apply checkBundle_accepts_iff.
Qed.
End checkin_theorems.

(** ** A concrete client *)

Record SimpleTR := { tr_targets : option (list UTarget) }.

(** The timestamp tells whether the metadata are accepted. *)
#[export] Instance simple_image_repo : ImageRepo SimpleDB SimpleTR := {|
  image_updateMeta fetch x :=
    match fetch RTimestamp (-1) with
    | Throw e => (Throw e, x)
    | Ret ts => if String.eqb ts "older" then (throw SecurityException "Rollback attempt", x)
                else (Ret tt, (x.1, {| tr_targets := Some (s_targets x.1) |}))
    end;
  image_checkMetaOffline x := (Ret tt, (x.1, {| tr_targets := Some (s_targets x.1) |}));
  image_getTargets := tr_targets;
  loadRoot _ _ := Some "1";
  image_repo_new := {| tr_targets := None |};
  repo_newStorage _ := mret tt;
  repo_importData := mret tt;
|}.

Definition by_version (a b : TufTarget) : Prop := Version a <= Version b.
#[export] Instance by_version_dec a b : Decision (by_version a b) := Z_le_dec (Version a) (Version b).
#[export] Instance by_version_total : Total by_version.
Proof. intros a b. unfold by_version. lia. Qed.
#[export] Instance by_version_trans : Transitive by_version.
Proof. intros a b c. unfold by_version. lia. Qed.

#[export] Program Instance simple_sort : TargetSort := {| sort_targets := merge_sort by_version |}.
Next Obligation. apply merge_sort_Permutation. Qed.
Next Obligation. apply (StronglySorted_merge_sort by_version). Qed.

(** A bundle directory: the files with their content. *)
Definition sample_files (timestamp p : string) : option string :=
  if String.eqb p "/bundle/tuf/timestamp.json" then Some timestamp
  else if String.eqb p "/bundle/tuf/bundle-targets.json" then Some "bundle"
  else if String.eqb p "/bundle/tuf/2.root.json" then Some "2"
  else None.

Definition sample_api (timestamp : string) (sigs : list json) : ApiEnv SimpleDB SimpleSR SimpleEN := {|
  client := sample_client; hw_id := "hw"; read_only := false; invoke_post_cb_at_checkin := true;
  AkHttpsRepoSource _ := {| FetchRoot _ := Ret ""; FetchTimestamp := Ret "new"; FetchSnapshot := Ret "";
                            FetchTargets := Ret "" |};
  read_file := sample_files timestamp;
  app_store_dirs _ := Some [("app1", ["uri1"]); ("app2", ["uri2"]); ("app3", ["uri3"])];
  ostree_open _ := Ret tt; ostree_hasCommit _ c := String.eqb c "3";
  parseJSON := parse_json (sample_bundle_env 1 sigs); jsonToCanonicalStr _ := "signed";
  key_verifies _ sig _ := String.eqb sig "good"; expired_at_now _ := Ret false; styled_string _ := ""; TimeStamp_ToString := id;
  http_get _ := {| body := ""; http_status_code := 200; isOk := true; resp_headers := ∅ |};
  getStatusStr _ := ""; assert_lock := Ret tt; open_local_install _ := Ret tt;
  make_offline_engine _ := mret tt |}.

Definition sample_local : LocalUpdateSource :=
  {| tuf_repo := "/bundle/tuf"; ostree_repo := "/bundle/ostree"; app_store := "/bundle/apps" |}.

(** The targets of the repository: [lmp-3] is the newest, [lmp-4] has another tag. *)
Definition sample_tuf_targets : list TufTarget :=
  [sample_tuf "lmp-3" "3" 3 ["devel"] (JObject sample_apps); sample_tuf "lmp-2" "2" 2 ["devel"] (JObject sample_apps);
   sample_tuf "lmp-4" "4" 4 ["master"] (JObject sample_apps)].

Definition sample_api_state : ApiSt SimpleDB SimpleSR SimpleEN SimpleTR :=
  let d := db sample_device in
  {| dev := set_db {| s_current := s_current d; s_pending := s_pending d; s_log := s_log d; s_bad := s_bad d;
                      s_targets := fromTufTarget <$> sample_tuf_targets |} sample_device;
     tuf := {| tr_targets := None |}; configUploaded_ := false; secondary_hwids_ := [];
     cleanup_removed_apps_ := true |}.

Abbreviation no_result := (CIR CiFailed "" []).
Abbreviation sample_checkin := (CheckIn (TR := SimpleTR) (sample_api "new" [])).
Abbreviation sample_checkin_local ts sigs :=
  (CheckInLocal (TR := SimpleTR) (R := Z) (sample_api ts sigs) sample_local).


Lemma filterTargets_exact_witness :
  let l := the [] (filterTargets sample_tuf_targets "hw" ["devel"] []) in
  (Name <$> l = ["lmp-2"; "lmp-3"]) /\ StronglySorted (fun a b => Version a <= Version b) l.
Proof.
  cbn zeta. split; [vm_compute; reflexivity|].
  apply (filterTargets_exact sample_tuf_targets (the [] (filterTargets sample_tuf_targets "hw" ["devel"] []))
           "hw" ["devel"] []).
  vm_compute. reflexivity.
Defined.

Lemma GetLatest_latest_witness :
  let r := CIR CiOk "hw" [sample_tuf "lmp-2" "2" 2 [] JNull; sample_tuf "lmp-3" "3" 3 [] JNull] in
  GetLatest r "" = Ret (sample_tuf "lmp-3" "3" 3 [] JNull) /\
  match GetLatest r "" with
  | Ret t => forall t', t' ∈ ci_targets r -> HardwareId t' = Ret "hw" -> Version t' <= Version t
  | Throw _ => False
  end.
Proof.
  cbn zeta. assert (E : GetLatest (CIR CiOk "hw" [sample_tuf "lmp-2" "2" 2 [] JNull; sample_tuf "lmp-3" "3" 3 [] JNull]) ""
                        = Ret (sample_tuf "lmp-3" "3" 3 [] JNull)) by (vm_compute; reflexivity).
  split; [exact E|].
  pose proof (GetLatest_latest (CIR CiOk "hw" [sample_tuf "lmp-2" "2" 2 [] JNull; sample_tuf "lmp-3" "3" 3 [] JNull]) "") as H.
  cbn [ci_targets CIR] in H. specialize (H ltac:(repeat constructor; cbn; lia)).
  assert (Hok : forall t, t ∈ [sample_tuf "lmp-2" "2" 2 [] JNull; sample_tuf "lmp-3" "3" 3 [] JNull] ->
                  Name t <> "unknown" /\ exists h, HardwareId t = Ret h).
  { intros t Ht. rewrite !elem_of_cons, elem_of_nil in Ht.
    destruct Ht as [->|[->|[]]]; (split; [done|]); exists "hw"; reflexivity. }
  specialize (H Hok). rewrite E in H |- *. cbn [ci_targets CIR]. apply H.
Defined.

Lemma offline_fallback_witness :
  exists e a1, on_repo (UpdateMeta (LocalRepoSource (sample_files "older") "/bundle/tuf")) sample_api_state
               = (Throw e, a1) /\ exn_kind e = SecurityException.
Proof.
  destruct (offline_fallback (sample_api "older" []) sample_local sample_api_state
              (exec (updateMeta (sample_api "older" []) (Some sample_local)) sample_api_state)
              (the (CiOk, "") (run (updateMeta (sample_api "older" []) (Some sample_local)) sample_api_state)).2)
    as (e & a1 & H1 & H2 & _).
  - vm_compute. reflexivity.
  - exists e, a1. split; [exact H1|exact H2].
Defined.


Lemma bundle_refused_witness :
  the no_result (run (sample_checkin_local "new" []) sample_api_state) = CIR BundleMetadataError "hw" [] /\
  tuf (exec (sample_checkin_local "new" []) sample_api_state) = {| tr_targets := None |}.
Proof.
  destruct (bundle_refused (R := Z) (sample_api "new" []) sample_local sample_api_state
              (exec (sample_checkin_local "new" []) sample_api_state)
              (the no_result (run (sample_checkin_local "new" []) sample_api_state))
              UnmetSignatureThreshold "An insufficient number of signatures for the bundle were found; required: 1, found: 0") as (H1 & _ & H2).
  - apply (run_the no_result (sample_checkin_local "new" []) sample_api_state). vm_compute. reflexivity.
  - vm_compute. reflexivity.
  - split; [exact H1|exact H2].
Defined.

Lemma CheckInLocal_offers_witness :
  let m := sample_checkin_local "new" [sample_signature] in
  exists meta (a1 : ApiSt SimpleDB SimpleSR SimpleEN SimpleTR) all,
    getBundleMeta (R := Z) (TR := SimpleTR) (sample_api "new" [sample_signature]) sample_local
                        sample_api_state = BOk meta /\
    GetTargets (tuf a1) = Ret all /\
    Forall (offered (sample_api "new" [sample_signature]) sample_local meta all (secondary_hwids_ a1))
      (ci_targets (the no_result (run m sample_api_state))).
Proof.
  cbn zeta. assert (T : is_throw (run (sample_checkin_local "new" [sample_signature]) sample_api_state) = false)
    by (vm_compute; reflexivity).
  pose proof (CheckInLocal_offers (R := Z) (sample_api "new" [sample_signature]) sample_local sample_api_state
                (exec (sample_checkin_local "new" [sample_signature]) sample_api_state)
                (the no_result (run (sample_checkin_local "new" [sample_signature]) sample_api_state))
                (run_the no_result (sample_checkin_local "new" [sample_signature]) sample_api_state T)) as H.
  assert (E : CheckInResult_bool (the no_result (run (sample_checkin_local "new" [sample_signature]) sample_api_state))
              = true) by (vm_compute; reflexivity).
  rewrite E in H. destruct H as (meta & a1 & all & H1 & _ & _ & H2 & H3).
  exists meta, a1, all. split; [exact H1|]. split; [exact H2|exact H3].
Defined.

Lemma getBundleMeta_accepted_witness :
  exists root, acceptable (bundle_env (sample_api "new" [sample_signature]) sample_local) root
                 (sample_bundle [sample_signature]).
Proof.
  assert (E : getBundleMeta (R := Z) (sample_api "new" [sample_signature]) sample_local sample_api_state
              = BOk (sample_bundle [sample_signature])) by (vm_compute; reflexivity).
  pose proof (getBundleMeta_accepted (R := Z) (sample_api "new" [sample_signature]) sample_local sample_api_state
                (sample_bundle [sample_signature]) E) as H.
  assert (F : read_file (sample_api "new" [sample_signature]) (tuf_repo sample_local +:+ "/bundle-targets.json")
              = Some "bundle") by reflexivity.
  rewrite F in H.
  destruct H as (root & _ & H & _). exists root. exact H.
Defined.
