(* ===== verification/HttpsRepo.v ===== *)
(** * The HTTPS source of metadata

    [src/src/tuf/akhttpsreposource.cc]: the source of TUF metadata on the device gateway, made from the
    configuration of the client or from a section of an ini file. The fetcher of metadata, the HTTP
    client and the PKCS#11 engine are libaktualizr's and are parameters. *)

From S2P Require Import Prelude Json Targets Registry Volume Restorable Platform Bootloader Sample RootfsTree.
From S2P Require Import ComposeApps Client Bundle CheckIn.

(** ** Property trees

    [boost::property_tree], as [read_ini] makes it: the children of the root, each with its name, its
    value (a section has none) and the entries of the section. *)
Record ptree_child := { child_name : string; child_data : string; child_entries : list (string * string) }.
Definition ptree : Type := list ptree_child.
(** [pt.count(key)]: the children of the root with this name *)
Definition ptree_count (pt : ptree) (key : string) : nat :=
  List.length (List.filter (fun c => String.eqb (child_name c) key) pt).
(** [pt.get(key, "")] of a key without a dot: the value of a child of the root *)
Definition ptree_get_child (pt : ptree) (key : string) : string :=
  from_option child_data "" (List.find (fun c => String.eqb (child_name c) key) pt).

(** A tree whose children have no children, as a section is: [get<std::string>(key)], which throws if there
    is no such key, [get(key, default)], and [count(key) > 0]. *)
Definition props : Type := list (string * string).
Definition prop (pt : props) (key : string) : option string :=
  snd <$> List.find (fun kv => String.eqb kv.1 key) pt.
Definition prop_get (pt : props) (key : string) : outcome string :=
  match prop pt key with
  | Some v => mret v
  | None => throw runtime_error ("No such node (" +:+ key +:+ ")")
  end.
Definition prop_has (pt : props) (key : string) : bool := bool_decide (is_Some (prop pt key)).

(** ** The configuration *)

Inductive CryptoSource := kFile | kPkcs11.
#[export] Instance CryptoSource_eq_dec : EqDecision CryptoSource.
Proof. solve_decision. Defined.

(** A credential: where it comes from, its PKCS#11 id and the path of its file *)
Record Credential := { cred_source : CryptoSource; cred_id : string; cred_path : string }.

(** The members of libaktualizr's [Config] that are read or written here *)
Record HttpsConfig := {
  p11_module : string; p11_pass : string; p11_label : string;
  tls_ca : Credential; tls_cert : Credential; tls_pkey : Credential;
  import_base_path : string;
  cfg_repo_server : string;
}.

(** libaktualizr and the build: [strip_quotes] is [Utils::stripQuotes], [based] is [BasedPath::get], [p11_item]
    is [getItemFullId]; [fetcher] is [Uptane::Fetcher], made with the server, the headers and the
    credentials, and asked for a role with the largest size and a version, -1 for the latest. *)
Record HttpsEnv := {
  built_with_p11 : bool;
  strip_quotes : string -> string;
  based : string -> string -> string;
  https_file : string -> option string;
  p11_item : HttpsConfig -> string -> outcome string;
  fetcher : string -> list string -> list (string * CryptoSource) -> Role -> Z -> Z -> outcome string;
  kMaxRootSize : Z; kMaxTimestampSize : Z; kMaxSnapshotSize : Z; kMaxImageTargetsSize : Z;
}.

Section https.
Context (env : HttpsEnv).

Definition unquoted (pt : props) (key : string) : outcome string := v ← prop_get pt key; mret (strip_quotes env v).

(** One credential of [fillConfig] *)
Definition fill_credential (pt : props) (enable_hsm : bool) (id_key path_key : string) (old : Credential)
    : outcome Credential :=
  if enable_hsm && prop_has pt id_key then
    id ← unquoted pt id_key; mret {| cred_source := kPkcs11; cred_id := id; cred_path := cred_path old |}
  else
    p ← unquoted pt path_key; mret {| cred_source := kFile; cred_id := cred_id old; cred_path := p |}.

Definition fillConfig (config : HttpsConfig) (pt : props) : outcome HttpsConfig :=
  let enable_hsm := prop_has pt "p11_module" in
  if negb (built_with_p11 env) && enable_hsm then
    throw runtime_error ("Aktualizr was built without PKCS#11 support, can't use " +:+ quote +:+ "p11_module" +:+ quote)
  else
    p11 ← (if enable_hsm
           then m ← unquoted pt "p11_module"; p ← unquoted pt "p11_pass"; l ← unquoted pt "p11_label"; mret (m, p, l)
           else mret (p11_module config, p11_pass config, p11_label config));
    pkey ← fill_credential pt enable_hsm "tls_pkey_id" "tls_pkey_path" (tls_pkey config);
    ca ← fill_credential pt enable_hsm "tls_cacert_id" "tls_cacert_path" (tls_ca config);
    cert ← fill_credential pt enable_hsm "tls_clientcert_id" "tls_clientcert_path" (tls_cert config);
    uri ← unquoted pt "uri";
    mret {| p11_module := p11.1.1; p11_pass := p11.1.2; p11_label := p11.2; tls_ca := ca; tls_cert := cert;
            tls_pkey := pkey; import_base_path := import_base_path config; cfg_repo_server := uri |}.

Definition readFileIfExists (based_path base : string) : string :=
  if str_empty based_path then "" else default "" (https_file env (based env based_path base)).

(** The value handed to the HTTP client; a build without PKCS#11 always reads the file. *)
Definition credential_value (config : HttpsConfig) (c : Credential) : outcome (string * CryptoSource) :=
  match built_with_p11 env, cred_source c with
  | true, kPkcs11 => id ← p11_item env config (cred_id c); mret (id, kPkcs11)
  | _, _ => mret (readFileIfExists (cred_path c) (import_base_path config), cred_source c)
  end.

Definition https_headers (pt : props) : outcome (list string) :=
  tag ← unquoted pt "tag";
  let header key := "x-ats-" +:+ key +:+ ": " +:+ strip_quotes env (default "" (prop pt key)) in
  mret (("x-ats-tags: " +:+ tag) :: (header <$> ["dockerapps"; "target"; "ostreehash"])).

(** The source over the fetcher of libaktualizr; version -1 asks for the latest. *)
Definition https_source (https_fetchRole : Role -> Z -> Z -> outcome string) : RepoSource := {|
  FetchRoot version := https_fetchRole RRoot (kMaxRootSize env) version;
  FetchTimestamp := https_fetchRole RTimestamp (kMaxTimestampSize env) (-1);
  FetchSnapshot := https_fetchRole RSnapshot (kMaxSnapshotSize env) (-1);
  FetchTargets := https_fetchRole RTargets (kMaxImageTargetsSize env) (-1);
|}.
(** [init], and the source it makes *)
Definition https_init (pt : props) (config : HttpsConfig) : outcome RepoSource :=
  headers ← https_headers pt;
  ca ← credential_value config (tls_ca config);
  cert ← credential_value config (tls_cert config);
  pkey ← credential_value config (tls_pkey config);
  mret (https_source (fetcher env (cfg_repo_server config) headers [ca; cert; pkey])).

(** The constructors: with the configuration of the client, and from a section of an ini file, where
    [config] is the default configuration *)
Definition make_AkHttpsRepoSource (pt : props) (config : HttpsConfig) : outcome RepoSource := https_init pt config.
Definition make_AkHttpsRepoSource_ini (pt : props) (config : HttpsConfig) : outcome RepoSource :=
  config' ← fillConfig config pt; https_init pt config'.

(** The tree [getRepoSource] makes for a check-in *)
Definition checkin_props (p : HttpsProps) : props :=
  [("tag", hp_tag p); ("dockerapps", hp_dockerapps p); ("target", hp_target p); ("ostreehash", hp_ostreehash p)].

(** ** Theorems *)

(** A check-in asks the gateway with the headers that tell its tag and its current target, and always
    gets a source if the build has no PKCS#11 support or no credential uses it. *)
Theorem checkin_source (p : HttpsProps) (config : HttpsConfig) :
  built_with_p11 env = false \/
  (cred_source (tls_ca config) = kFile /\ cred_source (tls_cert config) = kFile /\ cred_source (tls_pkey config) = kFile) ->
  exists src certs, make_AkHttpsRepoSource (checkin_props p) config = Ret src /\
    forall role version, fetchRole src role version =
      match role with
      | ROther name => throw runtime_error ("Invalid TUF Role " +:+ name)
      | _ => fetcher env (cfg_repo_server config)
               ["x-ats-tags: " +:+ strip_quotes env (hp_tag p);
                "x-ats-dockerapps: " +:+ strip_quotes env (hp_dockerapps p);
                "x-ats-target: " +:+ strip_quotes env (hp_target p);
                "x-ats-ostreehash: " +:+ strip_quotes env (hp_ostreehash p)] certs role
               (match role with
                | RRoot => kMaxRootSize env | RTimestamp => kMaxTimestampSize env
                | RSnapshot => kMaxSnapshotSize env | _ => kMaxImageTargetsSize env
                end) (match role with RRoot => version | _ => -1 end)
      end.
Proof.
  intros Hc.
  assert (Hv : forall c, built_with_p11 env = false \/ cred_source c = kFile ->
    exists v, credential_value config c = Ret v).
  { intros c [Hb|Hf]; unfold credential_value; [rewrite Hb|rewrite Hf; destruct (built_with_p11 env)]; by eexists. }
  destruct (Hv (tls_ca config)) as [ca Eca]; [tauto|]. destruct (Hv (tls_cert config)) as [cert Ecert]; [tauto|].
  destruct (Hv (tls_pkey config)) as [pkey Epkey]; [tauto|].
  unfold make_AkHttpsRepoSource, https_init. rewrite Eca, Ecert, Epkey. cbn.
  eexists _, _. split; [reflexivity|]. by intros [].
Qed.

(** A credential of an ini file is taken from the PKCS#11 engine exactly if the module and its id are
    given; a module is refused by a build that does not support it. *)
Theorem fillConfig_credentials (config config' : HttpsConfig) (pt : props) :
  fillConfig config pt = Ret config' ->
  (prop_has pt "p11_module" = true -> built_with_p11 env = true) /\
  (forall c id, (c, id) ∈ [(tls_pkey config', "tls_pkey_id"); (tls_ca config', "tls_cacert_id");
                           (tls_cert config', "tls_clientcert_id")] ->
     (cred_source c = kPkcs11 <-> prop_has pt "p11_module" = true /\ prop_has pt id = true)).
Proof.
  assert (Hf : forall hsm i p old c, fill_credential pt hsm i p old = Ret c ->
    (cred_source c = kPkcs11 <-> hsm = true /\ prop_has pt i = true)).
  { intros hsm i p old c. unfold fill_credential. rewrite <- andb_true_iff.
    destruct (hsm && prop_has pt i); intros E; apply bind_Ret in E as (v & _ & [= <-]); cbn; naive_solver. }
  unfold fillConfig. destruct (negb (built_with_p11 env) && prop_has pt "p11_module") eqn:E; [done|]. intros H.
  apply bind_Ret in H as (p11 & _ & H). apply bind_Ret in H as (pkey & Hpkey & H).
  apply bind_Ret in H as (ca & Hca & H). apply bind_Ret in H as (cert & Hcert & H).
  apply bind_Ret in H as (uri & _ & [= <-]). split.
  - intros Hm. rewrite Hm, andb_true_r in E. by apply negb_false_iff in E.
  - intros c i Hi. cbn in Hi. repeat (apply elem_of_cons in Hi as [[= -> ->]|Hi]); eauto.
    by apply not_elem_of_nil in Hi.
Qed.
End https.

(** ** A concrete gateway *)

Definition sample_https : HttpsEnv := {|
  built_with_p11 := false; strip_quotes s := s; based p b := b +:+ p; https_file _ := Some "pem";
  p11_item _ i := Ret i; fetcher server headers _ role _ _ := Ret (server +:+ join "," headers);
  kMaxRootSize := 64; kMaxTimestampSize := 64; kMaxSnapshotSize := 64; kMaxImageTargetsSize := 64 |}.
Definition sample_credential : Credential := {| cred_source := kFile; cred_id := ""; cred_path := "ca.pem" |}.
Definition sample_https_config : HttpsConfig := {|
  p11_module := ""; p11_pass := ""; p11_label := ""; tls_ca := sample_credential; tls_cert := sample_credential;
  tls_pkey := sample_credential; import_base_path := "/var/sota/import/"; cfg_repo_server := "https://gw/repo" |}.
Definition sample_section : props :=
  [("uri", "https://gw"); ("tag", "main"); ("tls_pkey_path", "k"); ("tls_cacert_path", "c"); ("tls_clientcert_path", "d")].

Example https_ini_source :
  (src ← make_AkHttpsRepoSource_ini sample_https sample_section sample_https_config; FetchTargets src)
  = Ret "https://gwx-ats-tags: main,x-ats-dockerapps: ,x-ats-target: ,x-ats-ostreehash: ".
Proof. vm_compute. reflexivity. Qed.

Lemma checkin_source_witness :
  let p := {| hp_tag := "main"; hp_dockerapps := "app"; hp_target := "lmp-1"; hp_ostreehash := "abc" |} in
  exists src, make_AkHttpsRepoSource sample_https (checkin_props p) sample_https_config = Ret src /\
    fetchRole src RTimestamp 7 =
      Ret "https://gw/repox-ats-tags: main,x-ats-dockerapps: app,x-ats-target: lmp-1,x-ats-ostreehash: abc".
Proof.
  cbn zeta. destruct (checkin_source sample_https
    {| hp_tag := "main"; hp_dockerapps := "app"; hp_target := "lmp-1"; hp_ostreehash := "abc" |} sample_https_config
    (or_introl eq_refl)) as (src & certs & E & F). exists src. split; [exact E|]. rewrite F. reflexivity.
Defined.

Lemma fillConfig_credentials_witness :
  exists config', fillConfig sample_https sample_https_config sample_section = Ret config' /\
    (cred_source (tls_ca config') = kPkcs11 <->
     prop_has sample_section "p11_module" = true /\ prop_has sample_section "tls_cacert_id" = true).
Proof.
  eexists. split; [reflexivity|].
  refine (proj2 (fillConfig_credentials sample_https sample_https_config _ sample_section eq_refl) _ _ _).
  right. left.
Defined.
