(* ===== verification/Tufctl.v ===== *)
(** tufctl: the program of apps/tufctl/main.cpp, which tries the sources of TUF metadata that an ini file lists
    and refreshes a repository from them.

    The ini parser and the JSON printer of Boost, the storage the repository opens and the classes of
    libaktualizr's exceptions are parameters. *)
From stdpp Require Import base strings list.
From S2P Require Import Prelude Targets Registry ComposeApps CheckIn HttpsRepo.

(** [strip_quotes] of the program, and the end of a line *)
Fixpoint tufctl_strip_quotes (value : string) : string :=
  match value with
  | EmptyString => EmptyString
  | String c s => if eqb_char c "034" then tufctl_strip_quotes s else String c (tufctl_strip_quotes s)
  end.
Definition line (s : string) : string := s +:+ nl.

Section tufctl.
Context {DB TR : Type} `{ImageRepo DB TR, UptaneTargets}.
(** [uptane_runtime] tells whether the exceptions of Uptane are [std::runtime_error]s. *)
Context (env : HttpsEnv) (default_config : HttpsConfig) (uptane_runtime : bool).
Context (read_ini : string -> outcome ptree) (write_json : ptree -> string).
(** [INvStorage::newStorage] for a path *)
Context (open_storage : string -> outcome DB).

(** What [catch (std::runtime_error)] catches *)
Definition is_runtime_error (k : exn_class) : bool :=
  match k with
  | runtime_error | overflow_error | range_error | MetadataNotFoundException | LoadImageException | ExecError _ _ => true
  | SecurityException | ExpiredMetadata | MetadataFetchFailure => uptane_runtime
  | invalid_argument | out_of_range | length_error | json_error => false
  end.

Definition file_prefix : string := String "034" "file://".

(** A section of the file as a source. The printed position is that of [rfind], [npos] if there is none. *)
Definition section_source (entries : list (string * string)) : outcome (RepoSource * string) :=
  uri ← prop_get entries "uri";
  let is_file := starts_with file_prefix uri in
  let out := line ("uri " +:+ uri +:+ " " +:+ (if is_file then "0" else to_string u64_max)) in
  if is_file then mret (LocalRepoSource (https_file env) (str_drop 7 (strip_quotes env uri)), out)
  else src ← make_AkHttpsRepoSource_ini env entries default_config; mret (src, out).

(** The loop over the sections: the sources, the path of the storage and what is printed *)
Record Loaded := { ld_sources : list RepoSource; ld_storage : string; ld_out : string }.
Definition load_section (l : Loaded) (c : ptree_child) : outcome Loaded :=
  let out := ld_out l +:+ line (child_name c) in
  l ← (if bool_decide (str_rfind "source " (child_name c) = Some O) then
         '(src, text) ← section_source (child_entries c);
         mret {| ld_sources := ld_sources l ++ [src]; ld_storage := ld_storage l;
                 ld_out := out +:+ line ("got repo " +:+ str_drop 7 (child_name c)) +:+ text |}
       else mret {| ld_sources := ld_sources l; ld_storage := ld_storage l; ld_out := out |});
  if String.eqb (child_name c) "storage" then
    path ← prop_get (child_entries c) "path";
    mret {| ld_sources := ld_sources l; ld_storage := tufctl_strip_quotes path; ld_out := ld_out l |}
  else mret l.
Definition load_sources (pt : ptree) : outcome Loaded :=
  foldO load_section {| ld_sources := []; ld_storage := ""; ld_out := write_json pt |} pt.

(** One fetch: the text it prints; a [std::runtime_error] is printed instead. *)
Definition try_fetch (show : bool) (fetch : outcome string) : outcome string :=
  match fetch with
  | Ret json => mret (if show then line json else "")
  | Throw e => if is_runtime_error (exn_kind e) then mret (line (what e)) else Throw e
  end.
Definition try_source (out : string) (src : RepoSource) : outcome string :=
  root ← try_fetch true (FetchRoot src 1);
  timestamp ← try_fetch true (FetchTimestamp src);
  snapshot ← try_fetch true (FetchSnapshot src);
  targets ← try_fetch false (FetchTargets src);
  mret (out +:+ root +:+ timestamp +:+ snapshot +:+ targets).

(** The exit code and the standard output; an exception that nothing catches ends the program. *)
Definition tufctl_main (args : list string) : outcome (Z * string) :=
  match args with
  | _ :: ini :: _ =>
      pt ← read_ini ini;
      l ← load_sources pt;
      out ← foldO try_source (ld_out l) (ld_sources l);
      repo ← AkRepo_init open_storage (ld_storage l);
      match forM (ld_sources l) UpdateMeta repo with
      | (Throw e, _) => Throw e
      | (Ret _, repo') =>
          targets ← GetTargets repo'.2;
          mret (EXIT_SUCCESS, fold_left (fun o t => o +:+ line (Name t +:+ " " +:+ Sha256Hash t)) targets out)
      end
  | _ => mret (1, "")
  end.

(** ** Theorems *)

(** The sections that become sources *)
Definition source_section (c : ptree_child) : bool := bool_decide (str_rfind "source " (child_name c) = Some O).

Lemma load_section_sources l c l' :
  load_section l c = Ret l' ->
  exists new, ld_sources l' = ld_sources l ++ new /\ List.length new = (if source_section c then 1 else 0)%nat.
Proof.
  unfold load_section, source_section. intros E. osplit E. rename v into l1.
  assert (ld_sources l' = ld_sources l1) as ->.
  { destruct (String.eqb (child_name c) "storage"); osplit E; by injection E as <-. }
  clear E. destruct (bool_decide _); osplit Hv.
  - destruct v as [src text]. injection Hv as <-. by exists [src].
  - injection Hv as <-. exists []. by rewrite List.app_nil_r.
Qed.

(** Every source is refreshed, in the order of the file, before the program ends with success: as many of
    them as there are sections of sources, and none of the refreshes failed. *)
Theorem tufctl_success (prog ini : string) (rest : list string) (code : Z) (out : string) :
  tufctl_main (prog :: ini :: rest) = Ret (code, out) ->
  code = EXIT_SUCCESS /\
  exists pt l repo repo' targets, read_ini ini = Ret pt /\ load_sources pt = Ret l
    /\ List.length (ld_sources l) = List.length (List.filter source_section pt)
    /\ AkRepo_init open_storage (ld_storage l) = Ret repo /\ forM (ld_sources l) UpdateMeta repo = (Ret tt, repo')
    /\ GetTargets repo'.2 = Ret targets.
Proof.
  cbn [tufctl_main]. intros E. osplit E. rename v into pt, v0 into l, v1 into o, v2 into repo.
  destruct (forM (ld_sources l) UpdateMeta repo) as [[[]|e] repo'] eqn:Hf; [|done]. osplit E.
  injection E as <- _. split; [done|]. exists pt, l, repo, repo', v. repeat split; try done.
  clear -Hv0. unfold load_sources in Hv0.
  change (List.length (ld_sources l) = List.length (ld_sources {| ld_sources := []; ld_storage := "";
            ld_out := write_json pt |}) + List.length (List.filter source_section pt))%nat.
  revert Hv0. generalize {| ld_sources := []; ld_storage := ""; ld_out := write_json pt |}.
  induction pt as [|c pt IH]; intros l0; cbn [foldO List.filter].
  - intros [= ->]. cbn. lia.
  - intros E. osplit E. rewrite (IH _ E). apply load_section_sources in Hv as (new & -> & Hn).
    rewrite length_app, Hn. destruct (source_section c); cbn; lia.
Qed.
End tufctl.

(** The function removes every quote, not only those at the ends. *)
Lemma strip_quotes_all s : str_forall (not_char "034") (tufctl_strip_quotes s) = true.
Proof.
  induction s as [|c s IH]; [done|]. cbn [tufctl_strip_quotes]. destruct (eqb_char c "034") eqn:E; [done|].
  cbn [str_forall]. unfold not_char at 1. by rewrite E, IH.
Qed.

(** A section whose name repeats the prefix is not taken for a source. *)
Example repeated_prefix :
  source_section {| child_name := "source my source a"; child_data := ""; child_entries := [] |} = false.
Proof. reflexivity. Qed.
