(* ===== verification/Install.v ===== *)
(** * Installation

    The part of [AkliteClient] ([src/src/api.cc]) that installs: the installer
    and its contexts ([LiteInstall] for the online, [LocalLiteInstall] for the
    offline update), the registry an offline update reads from
    ([OfflineRegistry]), the completion of an installation and the queries on
    the state of the device. *)

From S2P Require Import Prelude Json Targets Registry Volume Restorable Platform Bootloader Sample RootfsTree.
From S2P Require Import ComposeApps Client Bundle CheckIn.

(** ** Results *)

Inductive InstallStatus :=
  | IOk | OkBootFwNeedsCompletion | NeedsCompletion | AppsNeedCompletion | BootFwNeedsCompletion | IFailed
  | IDownloadFailed | DownloadOstreeFailed | IVerificationFailed | IDownloadFailed_NoSpace
  | InstallationInProgress | InstallRollbackFailed | InstallRollbackOk | UnknownError.
#[export] Instance InstallStatus_eq_dec : EqDecision InstallStatus.
Proof. solve_decision. Defined.

Record InstallResult := { ir_status : InstallStatus; ir_description : string }.
Definition IRes (st : InstallStatus) (d : string) : InstallResult := {| ir_status := st; ir_description := d |}.

(** [operator bool] *)
Definition InstallResult_bool (r : InstallResult) : bool :=
  match ir_status r with
  | IOk | OkBootFwNeedsCompletion | NeedsCompletion | AppsNeedCompletion | InstallRollbackOk => true
  | _ => false
  end.

(** [operator<<] of the two kinds of results *)
Definition show_DownloadResult (res : DownloadResult) : string :=
  match dr_status res with
  | DOk => "Ok/"
  | DownloadFailed => "DownloadFailed/"
  | VerificationFailed => "VerificationFailed/"
  | DownloadFailed_NoSpace => "DownloadFailed_NoSpace/"
  end +:+ dr_description res.
Definition show_InstallResult (res : InstallResult) : string :=
  match ir_status res with
  | IOk => "Ok/"
  | OkBootFwNeedsCompletion => "OkBootFwNeedsCompletion/"
  | NeedsCompletion => "NeedsCompletion/"
  | BootFwNeedsCompletion => "BootFwNeedsCompletion/"
  | IFailed => "Failed/"
  | IDownloadFailed => "DownloadFailed/"
  | _ => ""
  end +:+ ir_description res.

(** ** The registry of an offline update

    [read] is the content of a file under the app store, [None] if it does not
    exist; [ok] is what [HttpResponse::isOk()] says of a status code. Every
    request but those below is answered by 501. *)
Section offline_registry.
Context (ok : Z -> bool) (read : string -> option string) (root_dir hostname : string).

Definition http_answer (b : string) (code : Z) : HttpResponse :=
  {| body := b; http_status_code := code; isOk := ok code; resp_headers := ∅ |}.

Definition not_implemented : HttpResponse := http_answer "" 501.
Definition auth_endpoint : string := "https://" +:+ hostname +:+ "/token-auth".
(** [{"token":"token"}] *)
Definition token_answer : string :=
  "{" +:+ quote +:+ "token" +:+ quote +:+ ":" +:+ quote +:+ "token" +:+ quote +:+ "}".
Definition blobs_dir : string := root_dir +:+ "/blobs/sha256".

(** The file of the blob a URL names *)
Definition blob_path (url : string) : option string :=
  match str_rfind "sha256:" url with
  | None => None
  | Some digest_pos => Some (blobs_dir +:+ "/" +:+ str_drop (digest_pos + 7) url)
  end.

Definition getAppItem (url : string) : HttpResponse :=
  match blob_path url with
  | None => http_answer "Invalid URL" 400
  | Some p =>
      match read p with
      | None => http_answer ("The app blob is missing: " +:+ p) 404
      | Some content => http_answer content 200
      end
  end.

Definition registry_get (url : string) : HttpResponse :=
  if starts_with auth_endpoint url then http_answer token_answer 200 else getAppItem url.

(** [RegistryBasicAuthClient::get]: the credentials any request for them gets *)
Definition basic_auth_answer : string :=
  "{" +:+ quote +:+ "Secret" +:+ quote +:+ ":" +:+ quote +:+ "secret" +:+ quote +:+ ","
  +:+ quote +:+ "Username" +:+ quote +:+ ":" +:+ quote +:+ "test-user" +:+ quote +:+ "}".
Definition basic_auth_get : HttpResponse := http_answer basic_auth_answer 200.

(** The blocks of a file as the loop of [download] reads them: full buffers, and the rest, which may be
    empty and ends the stream. *)
Definition buf_size : nat := 4096.
Fixpoint blob_blocks (fuel : nat) (data : string) : list string :=
  match fuel with
  | O => [data]
  | S fuel' =>
      if Nat.ltb (String.length data) buf_size then [data]
      else str_take buf_size data :: blob_blocks fuel' (str_drop buf_size data)
  end.

(** [download]: the answer, and what the write callback is given, block by block. *)
Definition registry_download (url : string) : HttpResponse * list string :=
  match blob_path url with
  | None => (http_answer "Invalid URL" 400, [])
  | Some p =>
      match read p with
      | None => (http_answer ("The app blob is missing: " +:+ p) 404, [])
      | Some data => (http_answer "" 200, blob_blocks (String.length data) data)
      end
  end.
End offline_registry.

(** ** Install contexts *)

(** [LiteInstall], and [LocalLiteInstall] if it has a local source. *)
Record InstallCtx := {
  ctx_target : UTarget;
  ctx_reason : string;
  ctx_mode : InstallMode;
  ctx_local : option LocalUpdateSource;
}.
Definition set_ctx_target (t : UTarget) (c : InstallCtx) : InstallCtx :=
  {| ctx_target := t; ctx_reason := ctx_reason c; ctx_mode := ctx_mode c; ctx_local := ctx_local c |}.

Inductive SecondaryEvent :=
  | SDownloadStarted | SDownloadFailed | SDownloadCompleted
  | SInstallStarted | SInstallNeedsCompletion | SInstallCompleted | SInstallFailed.

Definition secondary_report (event : SecondaryEvent) : ReportType * option bool :=
  match event with
  | SDownloadStarted => (EcuDownloadStarted, None)
  | SDownloadCompleted => (EcuDownloadCompleted, Some true)
  | SDownloadFailed => (EcuDownloadCompleted, Some false)
  | SInstallStarted => (EcuInstallationStarted, None)
  | SInstallCompleted => (EcuInstallationCompleted, Some true)
  | SInstallFailed => (EcuInstallationCompleted, Some false)
  | SInstallNeedsCompletion => (EcuInstallationApplied, None)
  end.

Record SecondaryEcu := { serial : string; ecu_hwid : string; ecu_target_name : string }.

Record DeviceResult := { dev_ok : bool; dev_name : string; dev_factory : string; dev_owner : string; dev_repo_id : string }.

(** The items of an [std::unordered_map]; their order, which only the text of a reason shows, is not specified: they are
    taken by name. *)
Definition sorted_items (m : gmap string string) : list (string * string) :=
  (fun k => (k, default "" (m !! k))) <$> merge_sort String.le (elements (dom m)).

(** The configuration with another ostree server. The package manager is given its engine, so that it does not
    take it for a restorable one. *)
Definition with_ostree_server {SR} (url : string) (r : RootfsEnv SR) : RootfsEnv SR := {|
  update_block := update_block r; remote := remote r; ostree_server := url; gateway_url := gateway_url r;
  repoPath := repoPath r; gateway_post := gateway_post r; http := http r; cast_u64 := cast_u64 r;
  cast_what := cast_what r; stat_env := stat_env r; reserved_pct := reserved_pct r |}.
Definition offline_config {SR EN} (l : LocalUpdateSource) (c : ComposeEnv SR EN) : ComposeEnv SR EN := {|
  rootfs_env := with_ostree_server ("file://" +:+ ostree_repo l) (rootfs_env c); cfg := cfg c;
  is_restorable_engine := false; apps_stat_env := apps_stat_env c; volume_id := volume_id c;
  uninit := uninit c; now := now c |}.

Section install.
Context {DB SR EN TR R : Type}.
Context `{AppEngine EN, INvStorage DB, TufRepo DB, Ostree DB SR, BootFwUpdateStatus SR, InstallationResults,
          UptaneTargets, ImageRepo DB TR, RootRepo R, TargetSort}.
(** [offline_engine] is the app engine that fetches from a local app store; what its construction does to the device is
    [make_offline_engine]. *)
Context (env : ApiEnv DB SR EN) (offline_engine : LocalUpdateSource -> AppEngine EN).
Abbreviation S := (St DB SR EN).
Abbreviation A := (ApiSt DB SR EN TR).
Abbreviation cenv := (client env).
Abbreviation conf := (cfg (compose cenv)).

(** *** [LiteInstall::Install] *)

(** The target with the apps considered for the update in its custom data. *)
Definition with_install_context (t : UTarget) : outcome UTarget :=
  required ← getRequiredApps conf t;
  app_list_json ← foldO (fun j (p : string * string) => jset j p.1 (JString p.2)) JNull (map_to_list required);
  custom ← (if jempty app_list_json then mret (custom_data t)
            else jset2 (custom_data t) "install-context" "apps" app_list_json);
  mret (update_custom t custom).

(** The status of the API for a result of the client. *)
Definition install_status (t : UTarget) (rc : ResultCode) (s : S) : InstallStatus :=
  match rc with
  | kNeedCompletion =>
      if isPendingTarget t s then
        if String.eqb (sha256Hash (getCurrent (db s) (sr s))) (sha256Hash t) then AppsNeedCompletion
        else NeedsCompletion
      else BootFwNeedsCompletion
  | kOk => IOk
  | kDownloadFailed => IDownloadFailed
  | _ => IFailed
  end.

(** The context keeps the target with its new custom data. *)
Definition ctx_Install (c : InstallCtx) : M S (InstallResult * InstallCtx) :=
  logTarget cenv "Installing: " (ctx_target c);;
  st ← pm_verifyTarget cenv (ctx_target c);
  if negb (bool_decide (st = kGood)) then
    mret (IRes IDownloadFailed "Target verification failed, it may not have been pulled", c)
  else
    t ← lift (with_install_context (ctx_target c));
    iresult ← client_install cenv t (ctx_mode c);
    status ← gets (install_status t (result_code iresult));
    mret (IRes status (description iresult), set_ctx_target t c).

(** *** Downloads *)

Definition ctx_download_reason (c : InstallCtx) : string :=
  if str_empty (ctx_reason c) then "Update to " +:+ filename (ctx_target c) else ctx_reason c.

Definition online_Download (c : InstallCtx) : M S DownloadResult :=
  logTarget cenv "Downloading: " (ctx_target c);;
  res ← client_download cenv (ctx_target c) (ctx_download_reason c);
  if negb (DR_bool res) then mret res
  else
    st ← pm_verifyTarget cenv (ctx_target c);
    if negb (bool_decide (st = kGood)) then
      let ires := IR kVerificationFailed "Downloaded target is invalid" in
      notifyInstallFinished cenv (ctx_target c) ires;;
      mret (DR VerificationFailed (description ires) "")
    else mret (DR DOk "" "").

(** The members a new package manager starts with; those of the client come back afterwards. *)
Definition fresh_members (s : S) : S :=
  mkSt (db s) (sr s) (en s) (trace s) ∅ ∅ false (is_reboot_required s) (request_headers s) (cl s).
Definition restore_members (s0 s : S) : S :=
  mkSt (db s) (sr s) (en s) (trace s) (cur_apps_to_fetch_and_update s0) (cur_apps_to_fetch s0)
    (are_apps_checked s0) (is_reboot_required s) (request_headers s) (cl s).
Definition with_new_manager {X} (m : M S X) : M S X := fun s =>
  let '(o, s') := m (fresh_members s) in (o, restore_members s s').

(** [createOfflineDownloader] and [Download] on the manager it makes. *)
Definition offline_prepare (l : LocalUpdateSource) (t : UTarget) : M S unit :=
  if is_compose cenv then
    on_en (make_offline_engine env l);;
    _ ← checkForAppsToUpdate (H := offline_engine l) (offline_config l (compose cenv)) t; mret tt
  else mret tt.
Definition offline_pm_Download (l : LocalUpdateSource) (t : TufTarget) : M S DownloadResult :=
  if is_compose cenv then compose_Download (H := offline_engine l) (offline_config l (compose cenv)) t
  else rootfs_Download (rootfs_env (offline_config l (compose cenv))) t.

(** The notifications do not read the members of the package manager. *)
Definition offline_Download (l : LocalUpdateSource) (c : InstallCtx) : M S DownloadResult :=
  logTarget cenv "Copying: " (ctx_target c);;
  with_new_manager (
    offline_prepare l (ctx_target c);;
    notifyDownloadStarted cenv (ctx_target c) (ctx_download_reason c);;
    t ← lift (toTufTarget (ctx_target c));
    dr ← offline_pm_Download l t;
    notifyDownloadFinished cenv (ctx_target c) (DR_bool dr) (dr_description dr);;
    mret (DR (dr_status dr) (dr_description dr) (destination_path dr))).

Definition ctx_Download (c : InstallCtx) : M S DownloadResult :=
  match ctx_local c with
  | None => online_Download c
  | Some l => offline_Download l c
  end.

Definition QueueEvent (c : InstallCtx) (ecu_serial : string) (event : SecondaryEvent) (details : string) : M S unit :=
  let '(e, success) := secondary_report event in
  emit (EvSecondaryReport e ecu_serial (correlation_id (ctx_target c)) (filename (ctx_target c))
          (custom_version (ctx_target c)) success (if str_empty details then None else Some details)).

(** *** Queries *)
Definition IsInstallationInProgress (a : A) : bool := IsValid (getPendingTarget (dev a)).
Definition GetPendingTarget (a : A) : outcome TufTarget := toTufTarget (getPendingTarget (dev a)).
Definition GetCurrent (a : A) : outcome TufTarget := toTufTarget (getCurrent (db (dev a)) (sr (dev a))).
Definition GetRollbackTarget (allow_current : bool) (a : A) : outcome TufTarget :=
  toTufTarget (getRollbackTarget allow_current (dev a)).
Definition IsRollback (t : TufTarget) (a : A) : bool :=
  isRollback (make_target (Name t) (target_json (Sha256Hash t) 0 (JObject [("targetFormat", JString "OSTREE")]))) (dev a).

Definition GetDevice : outcome DeviceResult :=
  let failed := {| dev_ok := false; dev_name := ""; dev_factory := ""; dev_owner := ""; dev_repo_id := "" |} in
  let http_res := http_get env (tls_server cenv +:+ "/device") in
  if negb (isOk http_res) then mret failed
  else
    let device_info := parseJSON env (body http_res) in
    if jempty device_info then mret failed
    else
      n ← jstring_at device_info "Name"; f ← jstring_at device_info "factory";
      o ← jstring_at device_info "owner"; r ← jstring_at device_info "repo_id";
      mret {| dev_ok := true; dev_name := n; dev_factory := f; dev_owner := o; dev_repo_id := r |}.

(** *** The apps considered for an update, and the reason it gives *)
Definition apps_reason (reason : string) (apps_to_update : gmap string string) : string :=
  if bool_decide (apps_to_update = ∅) then reason
  else
    fold_left (fun r (p : string * string) => r +:+ " - " +:+ p.1 +:+ ": " +:+ p.2 +:+ nl) (sorted_items apps_to_update)
      (if str_empty reason then reason else reason +:+ nl).

Definition checkAndSetAppsForUpdate (target : TufTarget) (reason : string) : M A (gmap string string * string) :=
  on_client (setAppsNotChecked cenv);;
  cleanup ← gets cleanup_removed_apps_;
  apps_to_update ← on_client (appsToUpdate cenv (fromTufTarget target) cleanup);
  modify (set_cleanup false);;
  on_client (setAppsNotChecked cenv);;
  mret (apps_to_update, apps_reason reason apps_to_update).

Definition CheckAppsInSync : M A (option InstallCtx) :=
  cur ← gets GetCurrent; target ← lift cur;
  '(apps_to_update, reason) ← checkAndSetAppsForUpdate target "Sync active target apps";
  if bool_decide (apps_to_update = ∅) then mret None
  else
    let t := setCorrelationId (fromTufTarget target) (to_string (Version target) +:+ "-" +:+ uuid cenv) in
    mret (Some {| ctx_target := t; ctx_reason := reason; ctx_mode := All; ctx_local := None |}).

(** *** The installer *)

(** Does the trusted target [tt] match the one to install? *)
Definition installer_match (local : option LocalUpdateSource) (t tt' : TufTarget) : outcome bool :=
  match local with
  | None => TufTarget_eqb tt' t
  | Some _ => mret (String.eqb (Name tt') (Name t) && String.eqb (Sha256Hash tt') (Sha256Hash t)
                    && (Version tt' =? Version t))
  end.

(** The target to install, if it is trusted. *)
Definition installer_target (t : TufTarget) (local : option LocalUpdateSource) (require_target_in_tuf : bool)
    : M A (option UTarget) :=
  targets ← gets (fun a => GetTargets (tuf a)); all ← lift targets;
  found ← lift (find_outcome (installer_match local t) all);
  match found with
  | Some _ => mret (Some (fromTufTarget t))
  | None =>
      let u := fromTufTarget t in
      installed ← gets (fun a => wasTargetInstalled u (dev a));
      mret (if (negb require_target_in_tuf || isInitial u) && installed then Some u else None)
  end.

Definition max_correlation_id : nat := 63.

(** The context for a target, with the correlation id given to it. *)
Definition make_context (t : TufTarget) (target : UTarget) (reason : string) (install_mode : InstallMode)
    (local : option LocalUpdateSource) : M A (option InstallCtx) :=
  let ctx := {| ctx_target := target; ctx_reason := reason; ctx_mode := install_mode; ctx_local := local |} in
  match local with
  | None => mret (Some ctx)
  | Some l =>
      has ← lift (jisMember (Custom t) LocalSrcDirKey);
      if has : bool then
        lift (open_local_install env l);;
        if is_compose cenv && negb (has_reset_apps conf)
        then throwM invalid_argument "Invalid app engine type" else mret (Some ctx)
      else _ ← lift (AppsJson t); mret None
  end.

Definition Installer (t : TufTarget) (reason correlation_id : string) (install_mode : InstallMode)
    (local : option LocalUpdateSource) (require_target_in_tuf are_apps_checked : bool) : M A (option InstallCtx) :=
  if read_only env then throwM runtime_error "Can't perform this operation from read-only mode"
  else
    on_repo CheckMeta;;
    target ← installer_target t local require_target_in_tuf;
    match target with
    | None => _ ← lift (AppsJson t); mret None
    | Some target =>
        let correlation_id := if str_empty correlation_id
                              then to_string (Version t) +:+ "-" +:+ uuid cenv else correlation_id in
        if Nat.ltb max_correlation_id (String.length correlation_id)
        then throwM runtime_error "Correlation ID's must be less than 64 bytes"
        else
          let target := setCorrelationId target correlation_id in
          reason ← (if are_apps_checked then mret reason
                    else tuf_target ← lift (toTufTarget target);
                         r ← checkAndSetAppsForUpdate tuf_target reason; mret r.2);
          make_context t target reason install_mode local
    end.

(** *** Completion *)
Definition CompleteInstallation : M A InstallResult :=
  '(install_completed, ir) ← on_client (client_finalizeInstall cenv);
  if install_completed : bool then
    in_progress ← on_client isBootFwUpdateInProgress;
    mret (IRes (if in_progress : bool then OkBootFwNeedsCompletion else IOk) (description ir))
  else if needCompletion ir then mret (IRes NeedsCompletion (description ir))
  else mret (IRes IFailed (description ir)).

(** *** Secondaries *)
Definition SetSecondaries (ecus : list SecondaryEcu) : M A InstallResult :=
  if read_only env then throwM runtime_error "Can't perform this operation from read-only mode"
  else
    data ← lift (foldO (fun j e => jset j (serial e)
                   (JObject [("hwid", JString (ecu_hwid e)); ("target", JString (ecu_target_name e))])) JNull ecus);
    let response := http_put cenv (tls_server cenv +:+ "/ecus") data in
    on_client (emit (EvSend (tls_server cenv +:+ "/ecus") (isOk response)));;
    if negb (isOk response) then mret (IRes IFailed (getStatusStr env response))
    else modify (set_secondary_hwids (ecu_hwid <$> ecus));; mret (IRes IOk "").
End install.

(** ** Theorems *)
Section theorems.
Context {DB SR EN TR : Type}.
Context `{AppEngine EN, INvStorage DB, TufRepo DB, Ostree DB SR, BootFwUpdateStatus SR, InstallationResults,
          UptaneTargets, ImageRepo DB TR}.
Context (env : ApiEnv DB SR EN) (offline_engine : LocalUpdateSource -> AppEngine EN).
Abbreviation S := (St DB SR EN).
Abbreviation A := (ApiSt DB SR EN TR).
Abbreviation cenv := (client env).

Lemma verify_apps_db l : preserves same_db (verify_apps l : M S _).
Proof. induction l as [|a l IH]; cbn [verify_apps]; pstep. Qed.
Lemma pm_verifyTarget_db t : preserves same_db (pm_verifyTarget cenv t : M S _).
Proof. unfold pm_verifyTarget, verifyTarget. pstep. apply verify_apps_db. Qed.

Context `{!INvStorageSpec DB, !UptaneTargetsSpec}.

Lemma with_install_context_sha t t' : with_install_context env t = Ret t' -> sha256Hash t' = sha256Hash t.
Proof. unfold with_install_context. intros E. osplit E. injection E as <-. apply update_custom_sha256. Qed.

(** What the status of an installation says about the device. *)
Definition status_means (t : UTarget) (mode : InstallMode) (r0 : InstallationResult) (deployed : string)
    (s s' : S) (st : InstallStatus) : Prop :=
  let pending := exists p, pending_of (db s') = Some p /\ sha256Hash p = sha256Hash t in
  let running := sha256Hash (getCurrent (db s') (sr s')) = sha256Hash t in
  match st with
  | IOk => result_code r0 = kOk /\ mode = All /\ db s' = saveInstalledVersion t kCurrent (db s)
  | NeedsCompletion => pending /\ ~ running
  | AppsNeedCompletion => pending /\ running
  | BootFwNeedsCompletion => result_code r0 = kNeedCompletion /\ deployed <> sha256Hash t /\ db s' = db s
  | IDownloadFailed => result_code r0 = kDownloadFailed /\ db s' = db s
  | IFailed => db s' = saveInstalledVersion t kNone (db s)
  | _ => False
  end.

Lemma install_status_means t mode r0 rc deployed (s s' : S) :
  sha256Hash t <> sha256Hash Unknown ->
  db s' = db_after_install t mode r0 deployed (db s) ->
  rc = match result_code r0, mode with kOk, OstreeOnly => kNeedCompletion | c, _ => c end ->
  status_means t mode r0 deployed s s' (install_status t rc s').
Proof.
  intros Hu Hd Hrc. unfold db_after_install in Hd.
  assert (Hpend : rc = kNeedCompletion -> isPendingTarget t s' = false ->
            result_code r0 = kNeedCompletion /\ deployed <> sha256Hash t).
  { intros -> Hp. unfold isPendingTarget, getPendingTarget, pending_of in Hp. apply String.eqb_neq in Hp.
    destruct (result_code r0), mode; try discriminate Hrc;
      try (rewrite Hd, save_pending in Hp; by destruct Hp);
      (split; [done|]; intros ->; rewrite String.eqb_refl in Hd; rewrite Hd, save_pending in Hp; by destruct Hp). }
  destruct (decide (rc = kNeedCompletion)) as [E|Hne].
  - rewrite E. cbn [install_status]. destruct (isPendingTarget t s') eqn:Hp.
    + assert (Hpd : exists p, pending_of (db s') = Some p /\ sha256Hash p = sha256Hash t).
      { unfold isPendingTarget, getPendingTarget in Hp. apply String.eqb_eq in Hp.
        destruct (pending_of (db s')) as [p|]; [by exists p|done]. }
      destruct (String.eqb_spec (sha256Hash (getCurrent (db s') (sr s'))) (sha256Hash t)); done.
    + destruct (Hpend E eq_refl) as [Hr Hdep]. split_and!; [done|done|]. rewrite Hr in Hd.
      destruct (String.eqb_spec (sha256Hash t) deployed); [congruence|done].
  - destruct (result_code r0) eqn:Hr, mode; subst rc; cbn; try done.
Qed.

Lemma ctx_Install_run (c c' : InstallCtx) (s s' : S) (res : InstallResult) :
  ctx_Install env c s = (Ret (res, c'), s') -> sha256Hash (ctx_target c) <> sha256Hash Unknown ->
  (ir_status res = IDownloadFailed /\ c' = c /\ db s' = db s) \/
  exists t r0 s1 s2, with_install_context env (ctx_target c) = Ret t /\ c' = set_ctx_target t c /\
    installPackage cenv t (ctx_mode c) s1 = (Ret r0, s2) /\ db s1 = db s /\
    status_means t (ctx_mode c) r0 (getDeploymentHash (sr s2) DPending) s s' (ir_status res).
Proof.
  unfold ctx_Install. intros E Hu. apply M_bind_Ret in E as ([] & sl & El & E). apply logTarget_same in El as ->.
  apply M_bind_Ret in E as (st & s0 & Ev & E).
  pose proof (preserves_run_inv _ _ _ _ _ (pm_verifyTarget_db (ctx_target c)) Ev) as D0. unfold same_db in D0.
  case_bool_decide; cbn [negb] in E; [|injection E as <- <- <-; by left]. right.
  apply M_bind_Ret in E as (t & s1 & Et & E). injection Et as Et <-.
  apply M_bind_Ret in E as (ir & s2 & Ei & E). apply M_bind_Ret in E as (stt & s3 & Es & E).
  injection Es as <- <-. injection E as <- <- <-.
  destruct (client_install_run _ _ _ _ _ _ Ei) as (r0 & s4 & s5 & Ep & D4 & D5 & _ & Hrc).
  exists t, r0, s4, s5. split_and!; [done|done|done|congruence|]. cbn [ir_status IRes].
  apply install_status_means; [|by rewrite D5, D0|done]. by rewrite (with_install_context_sha _ _ Et).
Qed.

(** C16: What [Install] answers is what the device is in: a target that does not verify is not
    installed and nothing is recorded; a success is a complete installation; a target that needs a
    reboot, or its apps started, is recorded as pending, and the device runs another commit, or this
    one; if only the boot firmware needs a reboot the target is not deployed and not recorded; images
    that cannot be loaded record nothing; and a failure marks the target as failing. *)
Theorem ctx_Install_status (c c' : InstallCtx) (s s' : S) (res : InstallResult) :
  ctx_Install env c s = (Ret (res, c'), s') -> sha256Hash (ctx_target c) <> sha256Hash Unknown ->
  (ir_status res = IDownloadFailed /\ c' = c /\ db s' = db s) \/
  exists t r0 s1 s2, with_install_context env (ctx_target c) = Ret t /\ c' = set_ctx_target t c /\
    installPackage cenv t (ctx_mode c) s1 = (Ret r0, s2) /\ db s1 = db s /\
    status_means t (ctx_mode c) r0 (getDeploymentHash (sr s2) DPending) s s' (ir_status res).
Proof. apply ctx_Install_run. Qed.

(** *** The installer *)

(** The target [t] may be installed: metadata verified up to [a1] list it, or it was installed before
    and it is the initial target or need not be listed. *)
Definition trusted (t : TufTarget) (local : option LocalUpdateSource) (require : bool) (a1 : A) : Prop :=
  (exists all tt', GetTargets (tuf a1) = Ret all /\ tt' ∈ all /\ installer_match local t tt' = Ret true) \/
  ((require = false \/ isInitial (fromTufTarget t) = true) /\ wasTargetInstalled (fromTufTarget t) (dev a1) = true).

Lemma installer_target_run t local require (a a' : A) u :
  installer_target t local require a = (Ret (Some u), a') ->
  a' = a /\ u = fromTufTarget t /\ trusted t local require a.
Proof.
  unfold installer_target. intros E. apply M_bind_Ret in E as (ts & a1 & Et & E).
  apply M_bind_Ret in E as (all & a2 & El & E). destruct (GetTargets_run _ _ _ _ Et _ El) as [-> Hall].
  apply M_bind_Ret in E as (o & a3 & Eo & E). injection Eo as Eo <-. apply find_outcome_Ret in Eo.
  destruct o as [x|].
  - injection E as <- <-. split_and!; [done|done|]. left. destruct Eo as (l1 & l2 & -> & Hx & _).
    exists (l1 ++ x :: l2), x. split_and!; [done|set_solver|done].
  - apply M_bind_Ret in E as (inst & a4 & Ei & E). injection Ei as <- <-.
    destruct ((negb require || isInitial (fromTufTarget t)) && wasTargetInstalled (fromTufTarget t) (dev a)) eqn:Hb;
      [|discriminate E].
    injection E as <- <-. split_and!; [done|done|]. right.
    apply andb_true_iff in Hb as [Hb ?]. split; [|done]. apply orb_true_iff in Hb as [Hb|Hb]; [left|by right].
    by destruct require.
Qed.

Lemma make_context_run t target reason mode local (a a' : A) ctx :
  make_context env t target reason mode local a = (Ret (Some ctx), a') ->
  ctx = {| ctx_target := target; ctx_reason := reason; ctx_mode := mode; ctx_local := local |} /\
  (local <> None -> jisMember (Custom t) LocalSrcDirKey = Ret true /\
     (is_compose cenv = true -> has_reset_apps (cfg (compose cenv)) = true)).
Proof.
  unfold make_context. destruct local as [l|]; [|by intros [= <- _]]. intros E.
  apply M_bind_Ret in E as (has & a1 & Eh & E). injection Eh as Eh <-.
  destruct has; [|by apply M_bind_Ret in E as (? & ? & _ & E)]. pure_step E u Hu.
  destruct (is_compose cenv && negb (has_reset_apps (cfg (compose cenv)))) eqn:Hb; [discriminate E|].
  injection E as <- _. split; [done|]. intros _. split; [done|]. intros Hc. rewrite Hc in Hb.
  by destruct (has_reset_apps _).
Qed.

Lemma Installer_run (t : TufTarget) (reason cid : string) (mode : InstallMode)
    (local : option LocalUpdateSource) (require checked : bool) (a a' : A) (ctx : InstallCtx) :
  Installer env t reason cid mode local require checked a = (Ret (Some ctx), a') ->
  read_only env = false /\
  (exists a1, on_repo CheckMeta a = (Ret tt, a1) /\ trusted t local require a1) /\
  filename (ctx_target ctx) = Name t /\ sha256Hash (ctx_target ctx) = Sha256Hash t /\
  (String.length (correlation_id (ctx_target ctx)) < 64)%nat /\
  (cid <> "" -> correlation_id (ctx_target ctx) = cid) /\
  ctx_mode ctx = mode /\ ctx_local ctx = local /\
  (local <> None -> jisMember (Custom t) LocalSrcDirKey = Ret true).
Proof.
  unfold Installer. destruct (read_only env); [discriminate|]. intros E. split; [done|].
  apply M_bind_Ret in E as ([] & a1 & Ec & E). apply M_bind_Ret in E as (target & a2 & Et & E).
  destruct target as [u|]; [|by apply M_bind_Ret in E as (? & ? & _ & E)].
  apply installer_target_run in Et as (-> & -> & Ht).
  set (id := if str_empty cid then _ else cid) in E.
  destruct (Nat.ltb_spec max_correlation_id (String.length id)) as [|Hlen]; [discriminate E|].
  apply M_bind_Ret in E as (rsn & a3 & _ & E). apply make_context_run in E as (-> & Hl).
  cbn [ctx_target ctx_mode ctx_local]. unfold setCorrelationId, fromTufTarget. cbn.
  rewrite make_filename, make_sha256. split_and!; [by exists a1|done|done|unfold max_correlation_id in Hlen; lia| |done|done|].
  - intros Hc. unfold id. by destruct cid.
  - intros Hn. by apply Hl.
Qed.


(** *** Completion *)
Context `{!InstallationResultsSpec}.

Lemma CompleteInstallation_run (a a' : A) (r : InstallResult) :
  CompleteInstallation env a = (Ret r, a') ->
  match ir_status r with
  | IOk | OkBootFwNeedsCompletion => pending_of (db (dev a')) = None
  | NeedsCompletion => pending_of (db (dev a')) = pending_of (db (dev a)) /\ pending_of (db (dev a)) <> None
  | IFailed => exists p, pending_of (db (dev a)) = Some p /\
      (db (dev a') = saveInstalledVersion p kNone (db (dev a)) /\ pending_of (db (dev a')) = None \/
       db (dev a') = db (dev a) \/ db (dev a') = saveInstalledVersion p kCurrent (db (dev a)))
  | _ => False
  end.
Proof.
  unfold CompleteInstallation. intros E. apply M_bind_Ret in E as ([ok ir] & a1 & E1 & E).
  unfold on_client in E1. destruct (client_finalizeInstall cenv (dev a)) as [o s1] eqn:Ef. injection E1 as -> <-.
  destruct (client_finalizeInstall_run _ _ _ _ _ Ef) as [Hok Hp].
  destruct ok.
  - assert (Hn : pending_of (db s1) = None).
    { symmetry in Hok. apply bool_decide_eq_true in Hok.
      destruct (pending_of (db (dev a))) as [p|] eqn:Hpd; [|destruct Hp as [_ ->]; done].
      destruct Hp as [_ Hp]. unfold finalize_mode in Hp. rewrite (isSuccess_kOk _ Hok) in Hp. by destruct Hp. }
    apply M_bind_Ret in E as (b & a2 & Eb & E). unfold on_client, isBootFwUpdateInProgress, on_sr in Eb.
    cbn [dev set_dev] in Eb. destruct (isUpdateInProgress (sr s1)) as [o2 x]. injection Eb as -> <-.
    injection E as <- <-. cbn. by destruct b.
  - symmetry in Hok. apply bool_decide_eq_false in Hok.
    destruct (pending_of (db (dev a))) as [p|] eqn:Hpd; [|by destruct Hp].
    destruct Hp as [_ Hp]. unfold finalize_mode in Hp. destruct (needCompletion ir) eqn:Hn.
    + injection E as <- <-. cbn [dev set_dev]. apply needCompletion_iff in Hn.
      rewrite (isSuccess_failure ir) in Hp by (rewrite Hn; set_solver).
      unfold is_code in Hp. rewrite Hn in Hp. cbn in Hp. destruct Hp as [_ ->]. done.
    + injection E as <- <-. cbn [dev set_dev]. exists p. split; [done|].
      destruct (isSuccess ir) eqn:Hs.
      * right; right. by destruct Hp.
      * destruct (_ || _); [left|right; left]; by destruct Hp.
Qed.

(** A completed installation leaves nothing pending; one that needs another reboot keeps the
    pending target; after a failure the target is marked as failing and no longer pending, or it is
    still pending (its images could not be loaded), or it is current (the package manager succeeded
    with another code than [kOk]). *)
Theorem CompleteInstallation_status (a a' : A) (r : InstallResult) :
  CompleteInstallation env a = (Ret r, a') ->
  match ir_status r with
  | IOk | OkBootFwNeedsCompletion => pending_of (db (dev a')) = None
  | NeedsCompletion => pending_of (db (dev a')) = pending_of (db (dev a)) /\ pending_of (db (dev a)) <> None
  | IFailed => exists p, pending_of (db (dev a)) = Some p /\
      (db (dev a') = saveInstalledVersion p kNone (db (dev a)) /\ pending_of (db (dev a')) = None \/
       db (dev a') = db (dev a) \/ db (dev a') = saveInstalledVersion p kCurrent (db (dev a)))
  | _ => False
  end.
Proof. apply CompleteInstallation_run. Qed.

(** *** Offline downloads *)

(** Every pull is from [url]. *)
Definition pulls_from (url : string) (e : Event) : Prop :=
  match e with EvPull u _ _ => u = url | _ => True end.

Lemma download_loop_from url renv t rs ed res :
  Forall (fun r => baseUrl r = url) rs -> preserves (emits (pulls_from url)) (download_loop renv t rs ed res : M S _).
Proof.
  intros Hr. revert ed res. induction Hr as [|r rs Hb Hr IH]; intros ed res; cbn [download_loop]; unfold setRemote, rootfs_getUsageInfo; pstep.
Qed.

Lemma rootfs_Download_local l t :
  preserves (emits (pulls_from ("file://" +:+ ostree_repo l)))
    (rootfs_Download (rootfs_env (offline_config l (compose cenv))) t : M S _).
Proof.
  intros s. unfold rootfs_Download, rootfs_remotes. cbn [rootfs_env offline_config with_ostree_server ostree_server].
  replace (starts_with "http" ("file://" +:+ ostree_repo l)) with false by reflexivity. rewrite andb_false_r.
  apply (download_loop_from ("file://" +:+ ostree_repo l)). by constructor.
Qed.

Lemma fetch_apps_from url eng l : preserves (emits (pulls_from url)) (fetch_apps (H := eng) l : M S _).
Proof. induction l as [|x l IH]; cbn [fetch_apps]; pstep. by apply (emits_fetch (H := eng)). Qed.

Lemma offline_pm_Download_local l t :
  preserves (emits (pulls_from ("file://" +:+ ostree_repo l))) (offline_pm_Download env offline_engine l t : M S _).
Proof.
  unfold offline_pm_Download, compose_Download. pose proof (rootfs_Download_local l t).
  pose proof (fun x => fetch_apps_from ("file://" +:+ ostree_repo l) (offline_engine l) x). pstep.
Qed.

(** What an offline download may do: pull from [url] and leave the storage of versions alone. *)
Definition local_only (url : string) (s s' : S) : Prop := emits (pulls_from url) s s' /\ same_db s s'.
#[export] Instance local_only_preorder url : PreOrder (local_only url).
Proof.
  split; [split; reflexivity|]. intros x y z [E1 D1] [E2 D2]. split; [by transitivity y|by transitivity y].
Qed.
Lemma local_only_both url {X} (m : M S X) :
  preserves (emits (pulls_from url)) m -> preserves same_db m -> preserves (local_only url) m.
Proof. intros He Hd s. split; [apply He|apply Hd]. Qed.

Lemma offline_prepare_local url l t : preserves (local_only url) (offline_prepare env offline_engine l t : M S _).
Proof.
  unfold offline_prepare, checkForAppsToUpdate.
  assert (preserves (local_only url) (on_en (make_offline_engine env l) : M S _)) by (apply local_only_both; psolve).
  pstep; try (apply (preserves_modify _); intros s; split; [by apply emits_same|done]).
Qed.

Lemma callback_local url m t r : preserves (local_only url) (callback cenv m t r : M S _).
Proof.
  apply local_only_both; [|apply callback_db]. unfold callback. pstep. by apply emits_emit.
Qed.
Lemma notify_local url t e cid b d : preserves (local_only url) (notify cenv t e cid b d : M S _).
Proof. apply local_only_both; [|apply notify_db]. unfold notify. pstep. by apply emits_emit. Qed.

Lemma offline_pm_Download_db l t : preserves same_db (offline_pm_Download env offline_engine l t : M S _).
Proof.
  unfold offline_pm_Download, compose_Download. pose proof (fun x => fetch_apps_db (DB := DB) (SR := SR) (H := offline_engine l) x).
  assert (forall renv, preserves same_db (rootfs_Download renv t : M S _)) by auto using rootfs_Download_db. pstep.
Qed.

(** An offline download pulls the commit from the local repository only, records no version, and
    runs on a package manager of its own: what the client's manager knows about the apps to fetch is
    the same afterwards. *)
Theorem offline_Download_isolated (l : LocalUpdateSource) (c : InstallCtx) (s : S) :
  let s' := exec (offline_Download env offline_engine l c) s in
  local_only ("file://" +:+ ostree_repo l) s s' /\
  cur_apps_to_fetch_and_update s' = cur_apps_to_fetch_and_update s /\
  cur_apps_to_fetch s' = cur_apps_to_fetch s /\ are_apps_checked s' = are_apps_checked s.
Proof.
  cbn zeta. unfold exec, offline_Download.
  match goal with |- context [mbind (fun _ => ?m) (logTarget cenv ?p ?t) s] =>
    destruct (logTarget_then cenv p t m s) as [-> | [e ->]]; [|by split; [reflexivity|]] end.
  unfold with_new_manager.
  match goal with |- context [mbind ?f ?m (fresh_members s)] => set (body := mbind f m) end.
  assert (G : preserves (local_only ("file://" +:+ ostree_repo l)) body).
  { unfold body, notifyDownloadStarted, notifyDownloadFinished.
    pose proof (offline_prepare_local ("file://" +:+ ostree_repo l) l (ctx_target c)).
    pose proof (callback_local ("file://" +:+ ostree_repo l)). pose proof (notify_local ("file://" +:+ ostree_repo l)).
    assert (forall t, preserves (local_only ("file://" +:+ ostree_repo l)) (offline_pm_Download env offline_engine l t : M S _)).
    { intros t. apply local_only_both; [apply offline_pm_Download_local|apply offline_pm_Download_db]. }
    pstep. }
  specialize (G (fresh_members s)). unfold exec in G. destruct (body (fresh_members s)) as [o s'].
  cbn [snd] in *. split_and!; [|done..]. exact G.
Qed.
End theorems.

(** ** The theorems on the concrete client *)

Definition sample_ctx : InstallCtx :=
  {| ctx_target := sample_target "3"; ctx_reason := ""; ctx_mode := All; ctx_local := None |}.
Abbreviation sample_install := (ctx_Install (sample_api "new" []) sample_ctx).
Definition no_install : InstallResult * InstallCtx := (IRes UnknownError "", sample_ctx).

Lemma ctx_Install_status_witness :
  let r := the no_install (run sample_install sample_downloaded) in
  ir_status r.1 = NeedsCompletion /\
  ((ir_status r.1 = IDownloadFailed /\ r.2 = sample_ctx /\
    db (exec sample_install sample_downloaded) = db sample_downloaded) \/
   exists t, with_install_context (sample_api "new" []) (sample_target "3") = Ret t).
Proof.
  cbn zeta. assert (T : is_throw (run sample_install sample_downloaded) = false) by (vm_compute; reflexivity).
  split; [vm_compute; reflexivity|].
  destruct (ctx_Install_status (sample_api "new" []) sample_ctx (the no_install (run sample_install sample_downloaded)).2
              sample_downloaded (exec sample_install sample_downloaded)
              (the no_install (run sample_install sample_downloaded)).1)
    as [H|(t & r0 & s1 & s2 & H & _)].
  - rewrite <- surjective_pairing. apply (run_the no_install sample_install sample_downloaded T).
  - intros E. vm_compute in E. discriminate E.
  - left. exact H.
  - right. exists t. exact H.
Defined.

Abbreviation sample_installer :=
  (Installer (TR := SimpleTR) (sample_api "new" []) (sample_tuf "lmp-3" "3" 3 ["devel"] (JObject sample_apps))
     "test" "" All None true false).


Definition sample_rebooted_api : ApiSt SimpleDB SimpleSR SimpleEN SimpleTR :=
  {| dev := sample_rebooted; tuf := {| tr_targets := None |}; configUploaded_ := false; secondary_hwids_ := [];
     cleanup_removed_apps_ := true |}.
Abbreviation sample_complete := (CompleteInstallation (TR := SimpleTR) (sample_api "new" [])).

Lemma CompleteInstallation_status_witness :
  pending_of (db (dev sample_rebooted_api)) = Some (sample_target "3") /\
  pending_of (db (dev (exec sample_complete sample_rebooted_api))) = None.
Proof.
  split; [vm_compute; reflexivity|].
  assert (T : is_throw (run sample_complete sample_rebooted_api) = false) by (vm_compute; reflexivity).
  pose proof (CompleteInstallation_status (sample_api "new" []) sample_rebooted_api
                (exec sample_complete sample_rebooted_api)
                (the (IRes UnknownError "") (run sample_complete sample_rebooted_api))
                (run_the (IRes UnknownError "") sample_complete sample_rebooted_api T)) as H.
  assert (E : ir_status (the (IRes UnknownError "") (run sample_complete sample_rebooted_api)) = IOk)
    by (vm_compute; reflexivity).
  rewrite E in H. exact H.
Defined.
