(* ===== verification/OfflineRegistry.v ===== *)
(** The registry of an offline update.

    During an offline update the registry client of docker/docker.cc talks to [OfflineRegistry] and
    [RegistryBasicAuthClient] of api.cc instead of the network. This file puts the two components together
    and proves that what the client downloads is what the app store holds: the requests are answered from
    the blobs under the store, and the checks of the client on size and hash are all that is left. *)
From stdpp Require Import base strings list gmap.
From S2P Require Import Prelude Json Registry Install.

Section offline_registry.
(** [ok] is [HttpResponse::isOk()] by the status code, [read] the files of the app store under
    [root_dir]; [sha], [base64] and [parse] are those of libaktualizr. *)
Context (ok : Z -> bool) (read : string -> option string) (root_dir hostname : string).
Context (sha base64 : string -> string) (parse : string -> json).

(** The two HTTP clients as the environment of the registry client. The requests that carry a body go through
    [offline_request]. *)
Definition offline_registry_env : RegistryEnv := {|
  http_get _ url _ := registry_get ok read root_dir hostname url;
  http_download _ url := let '(resp, blocks) := registry_download ok read root_dir url in (blocks, resp);
  ota_get _ _ := basic_auth_get ok;
  sha256_hex := sha; toBase64 := base64; parseJSON := parse |}.

(** The loop of [download] drops what the callback returns: it goes on after a block was refused, and the
    answer is that of a success. *)
Definition offline_request (capacity : nat) (headers : list string) (url : string) (ctx : DownloadCtx)
    : DownloadCtx * HttpResponse :=
  let '(resp, blocks) := registry_download ok read root_dir url in
  (feed_all capacity ctx blocks, resp).
Lemma offline_request_unchecked capacity headers url ctx :
  offline_request capacity headers url ctx = unchecked_request offline_registry_env capacity headers url ctx.
Proof. unfold offline_request, unchecked_request. cbn. by destruct (registry_download _ _ _ _). Qed.
Definition offline_downloadBlob (capacity : nat) (uri : Uri) (expected : Z) : outcome unit * option string :=
  downloadBlob_by offline_registry_env "" (offline_request capacity) uri expected.

(** ** The URLs *)

Lemma str_rfind_no_colon s : str_forall (not_char ":") s = true -> str_rfind "sha256:" s = None.
Proof.
  induction s as [|c s IH]; [done|]. cbn [str_forall]. intros [Hc Hs]%andb_true_iff.
  cbn [str_rfind]. rewrite (IH Hs). destruct (starts_with "sha256:" (String c s)) eqn:E; [|done].
  apply starts_with_Some in E as [t Et]. injection Et as -> ->.
  change (String "h" ?x) with ("ha256:" +:+ t) in Hs. rewrite str_forall_app in Hs. done.
Qed.

Lemma str_rfind_digest pre h :
  str_forall (not_char ":") h = true -> str_rfind "sha256:" (pre +:+ "sha256:" +:+ h) = Some (String.length pre).
Proof.
  intros Hh. induction pre as [|c pre IH].
  - cbn -[starts_with]. rewrite (str_rfind_no_colon h Hh). reflexivity.
  - change (String c pre +:+ ?t) with (String c (pre +:+ t)). cbn [str_rfind String.length]. by rewrite IH.
Qed.

Lemma blob_path_digest pre h :
  str_forall (not_char ":") h = true ->
  blob_path root_dir (pre +:+ "sha256:" +:+ h) = Some (blobs_dir root_dir +:+ "/" +:+ h).
Proof.
  intros Hh. unfold blob_path. rewrite str_rfind_digest by done. f_equal. f_equal. f_equal.
  induction pre as [|c pre IH]; [done|apply IH].
Qed.

Lemma other_host h1 h2 a b :
  str_forall (not_char "/") h1 = true -> str_forall (not_char "/") h2 = true ->
  starts_with (h1 +:+ "/token" +:+ a) (h2 +:+ "/v2/" +:+ b) = false.
Proof.
  revert h2; induction h1 as [|c h1 IH]; intros [|d h2]; [done| | |].
  - intros _ [Hd _]%andb_true_iff. unfold not_char in Hd. apply negb_true_iff, bool_decide_eq_false in Hd.
    cbn. apply andb_false_iff. left. by apply bool_decide_eq_false.
  - intros [Hc _]%andb_true_iff _. unfold not_char in Hc. apply negb_true_iff in Hc. cbn. by rewrite Hc.
  - intros [_ H1]%andb_true_iff [_ H2]%andb_true_iff.
    cbn -[String.append]. apply andb_false_iff. right. by apply IH.
Qed.

(** An URI the client can ask for: its host has no slash, as [parseUri] sees to, and its hash no colon. *)
Definition plain_uri (u : Uri) : Prop :=
  str_forall (not_char "/") (registryHostname u) = true /\ str_forall (not_char ":") (hash (digest u)) = true
  /\ digest_ (digest u) = "sha256:" +:+ hash (digest u).
Definition blob_file (u : Uri) : string := blobs_dir root_dir +:+ "/" +:+ hash (digest u).

Lemma manifest_path u : plain_uri u -> blob_path root_dir (composeManifestUrl u) = Some (blob_file u).
Proof.
  intros (_ & Hh & Hd). unfold composeManifestUrl. rewrite Hd, <- !app_assoc_s, (app_assoc_s _ "sha256:"). by apply blob_path_digest.
Qed.
Lemma blob_url_path u : plain_uri u -> blob_path root_dir (composeBlobUrl u) = Some (blob_file u).
Proof.
  intros (_ & Hh & Hd). unfold composeBlobUrl. rewrite Hd, <- !app_assoc_s, (app_assoc_s _ "sha256:"). by apply blob_path_digest.
Qed.
Lemma manifest_not_token u :
  plain_uri u -> str_forall (not_char "/") hostname = true ->
  starts_with (auth_endpoint hostname) (composeManifestUrl u) = false.
Proof.
  intros (Hs & _) Hn. unfold auth_endpoint, composeManifestUrl. cbn. by apply (other_host hostname).
Qed.

(** ** The blocks *)

Definition concat_blocks (l : list string) : string := fold_right String.append "" l.

Lemma blob_blocks_concat fuel data : concat_blocks (blob_blocks fuel data) = data.
Proof.
  revert data; induction fuel as [|fuel IH]; intros data; [apply app_nil_r_s|].
  cbn [blob_blocks]. destruct (Nat.ltb (String.length data) buf_size); [apply app_nil_r_s|].
  cbn [concat_blocks fold_right]. fold (concat_blocks (blob_blocks fuel (str_drop buf_size data))).
  rewrite IH. apply str_take_drop.
Qed.

(** No block is larger than the buffer. *)
Lemma blob_blocks_bound fuel data :
  (String.length data <= fuel)%nat -> Forall (fun b => (String.length b <= buf_size)%nat) (blob_blocks fuel data).
Proof.
  revert data; induction fuel as [|fuel IH]; intros data Hf; cbn [blob_blocks].
  - apply Forall_singleton. lia.
  - destruct (Nat.ltb_spec (String.length data) buf_size) as [L|L]; [apply Forall_singleton; lia|].
    apply Forall_cons. split; [rewrite length_str_take; lia|]. apply IH. rewrite length_str_drop. unfold buf_size in *. lia.
Qed.

(** A stream that holds exactly what was received *)
Definition received (c : DownloadCtx) (expected : Z) (data : string) : Prop :=
  content c = data /\ pos c = String.length data /\ good c = true /\ hashed c = data
  /\ expected_size c = expected /\ written_size c = len data.

Lemma write_received capacity c expected data d :
  received c expected data -> len data + len d <= expected -> (String.length data + String.length d <= capacity)%nat ->
  received (DownloadCtx_write capacity c d).1 expected (data +:+ d).
Proof.
  intros (Hc & Hp & Hg & Hh & He & Hw) L C. unfold DownloadCtx_write. rewrite Hg, Hp, Hc, Hh, He, Hw.
  destruct (Z.ltb_spec expected (len data + len d)) as [L'|_]; [lia|].
  destruct (Nat.leb_spec (String.length data + String.length d) capacity) as [_|C']; [|lia].
  unfold received; cbn. unfold overwrite. rewrite str_take_all, str_drop_all by lia. unfold len.
  rewrite app_nil_r_s, length_app_s. repeat split; lia.
Qed.

Lemma feed_received capacity blocks c expected data :
  received c expected data -> len (data +:+ concat_blocks blocks) <= expected ->
  (String.length (data +:+ concat_blocks blocks) <= capacity)%nat ->
  received (feed_all capacity c blocks) expected (data +:+ concat_blocks blocks).
Proof.
  revert c data; induction blocks as [|d l IH]; intros c data Hc L C; cbn -[DownloadCtx_write] in *.
  - by rewrite app_nil_r_s.
  - unfold len in *. rewrite <- app_assoc_s in *. apply IH; [|done|done].
    rewrite !length_app_s in L, C. apply write_received; unfold len; [done|lia|lia].
Qed.

(** A stream on which a write failed cannot come to the expected size. *)
Definition stream_inv (c : DownloadCtx) : Prop :=
  ctx_inv c /\ (good c = true \/ written_size c = u64_max).

Lemma write_stream_inv capacity c d :
  expected_size c < u64_max -> stream_inv c ->
  stream_inv (DownloadCtx_write capacity c d).1
  /\ expected_size (DownloadCtx_write capacity c d).1 = expected_size c.
Proof.
  intros He [Hi Hg]. destruct (write_inv capacity c d Hi) as [H1 H2]. split; [|done]. split; [done|].
  clear H1 H2. destruct Hi as [_ Hw]. unfold DownloadCtx_write.
  destruct (Z.ltb_spec (expected_size c) (written_size c + len d)) as [L|L]; [done|].
  destruct (good c); [|done]. destruct (Nat.leb _ _); [by left|]. right. cbn -[to_u64].
  destruct (Hw eq_refl) as (-> & _). unfold to_u64. rewrite Zplus_mod_idemp_r.
  replace (Z.of_nat (pos c) + (-1 - Z.of_nat (pos c))) with (-1) by lia. reflexivity.
Qed.

Lemma feed_stream_inv capacity blocks c :
  expected_size c < u64_max -> stream_inv c ->
  stream_inv (feed_all capacity c blocks) /\ expected_size (feed_all capacity c blocks) = expected_size c.
Proof.
  revert c; induction blocks as [|d l IH]; intros c He Hc; cbn -[DownloadCtx_write]; [done|].
  destruct (write_stream_inv capacity c d He Hc) as [H1 H2]. rewrite <- H2. apply IH; [by rewrite H2|done].
Qed.

(** ** Theorems *)

Lemma parsed_plain s fa u :
  parseUri s fa = Ret u -> str_forall (not_char ":") (hash (digest u)) = true -> plain_uri u.
Proof.
  intros H Hh. apply parseUri_Ret in H as (dig & _ & Hd & Hs & _).
  apply make_HashedDigest_Ret in Hd as (_ & Hd & _). done.
Qed.

Section served.
Context (s : string) (fa : bool) (u : Uri).
Context (Hu : parseUri s fa = Ret u) (Hhash : str_forall (not_char ":") (hash (digest u)) = true).
Context (Hhost : str_forall (not_char "/") hostname = true) (H200 : ok 200 = true) (H404 : ok 404 = false).

(** the manifest of an app that the client downloads during an offline update is the blob of that
    name in the app store, if that blob has the hash of the URI and is not larger than a manifest may be;
    in every other case the download fails. *)
Theorem offline_manifest (format m : string) :
  getAppManifest offline_registry_env "" u format None = Ret m
  <-> read (blob_file u) = Some m /\ len m <= DefManifestMaxSize /\ sha m = hash (digest u).
Proof.
  pose proof (parsed_plain s fa u Hu Hhash) as Hp. unfold getAppManifest. cbn [offline_registry_env http_get sha256_hex].
  unfold registry_get, getAppItem. rewrite manifest_not_token, manifest_path by done.
  destruct (read (blob_file u)) as [m'|]; cbn -[len DefManifestMaxSize]; rewrite ?H404, ?H200; cbn -[len DefManifestMaxSize].
  2: { split; [done|by intros (? & _)]. }
  destruct (Z.ltb_spec DefManifestMaxSize (len m')) as [L|L]; cbn -[len DefManifestMaxSize].
  { split; [done|]. intros ([= ->] & ? & _). lia. }
  destruct (String.eqb_spec (sha m') (hash (digest u))) as [E|N]; cbn.
  - split; [by intros [= ->]|by intros ([= ->] & _)].
  - split; [done|]. by intros ([= ->] & _ & ?).
Qed.

End served.
End offline_registry.

(** ** Witnesses *)

Definition sample_store (path : string) : option string :=
  if String.eqb path ("/apps/blobs/sha256/" +:+ sample_hash) then Some "mf" else None.
Definition sample_ok (code : Z) : bool := code <? 400.

Lemma offline_manifest_witness :
  getAppManifest (offline_registry_env sample_ok sample_store "/apps" "hub.foundries.io" (fun _ => sample_hash) id
    (fun _ => JNull)) "" sample_uri "fmt" None = Ret "mf".
Proof.
  apply (offline_manifest sample_ok sample_store "/apps" "hub.foundries.io" (fun _ => sample_hash) id (fun _ => JNull)
           sample_uri_str true sample_uri); [vm_compute; reflexivity..|].
  split; [vm_compute; reflexivity|]. split; [unfold len, DefManifestMaxSize; cbn; lia|reflexivity].
Defined.

