(* ===== verification/ClientExt.v ===== *)
(** * The update cycle

    [AkliteClientExt] ([src/src/aklite_client_ext.cc]): the choice of the target
    to install, its download and installation with the roll back to the current
    target, the roll back a user asks for, and the reboot; and the daemon
    ([src/src/daemon.cc]) that repeats the cycle. *)

From S2P Require Import Prelude Json Targets Registry Volume Restorable Platform Bootloader Sample RootfsTree.
From S2P Require Import ComposeApps Client Bundle CheckIn Install.

(** ** Results *)

Inductive GtiStatus :=
  | TufTargetNotFound | TargetAlreadyInstalled | RollbackTargetNotFound | BadRollbackTarget | BadCheckinStatus
  | NoUpdate | UpdateNewVersion | UpdateSyncApps | UpdateRollback.
#[export] Instance GtiStatus_eq_dec : EqDecision GtiStatus.
Proof. solve_decision. Defined.

Record GetTargetToInstallResult := { gti_status : GtiStatus; selected_target : TufTarget; gti_reason : string }.
Definition GTI (st : GtiStatus) (t : TufTarget) (r : string) : GetTargetToInstallResult :=
  {| gti_status := st; selected_target := t; gti_reason := r |}.

(** [operator bool] *)
Definition GTI_bool (r : GetTargetToInstallResult) : bool :=
  match gti_status r with NoUpdate | UpdateNewVersion | UpdateSyncApps | UpdateRollback => true | _ => false end.

(** [dr2ir], which has every status *)
Definition dr2ir (st : DownloadStatus) : InstallStatus :=
  match st with
  | DOk => IOk
  | DownloadFailed => DownloadOstreeFailed
  | VerificationFailed => IVerificationFailed
  | DownloadFailed_NoSpace => IDownloadFailed_NoSpace
  end.

(** ** State *)

Record NoSpaceDownloadState := { ns_commit : string; ns_cor_id : string; ns_stat : UsageInfo }.
Definition no_space_undefined : NoSpaceDownloadState :=
  {| ns_commit := ""; ns_cor_id := ""; ns_stat := UsageInfo_err "undefined" |}.

(** What the calls need beyond the API's: the statistics of the volumes, whether
    the environment is booted, and the answers of [setuid] and of the reboot command. *)
Record ExtEnv (DB SR EN : Type) := {
  api : ApiEnv DB SR EN;
  offline : LocalUpdateSource -> AppEngine EN;
  usage_env : SR -> StatEnv;
  is_booted_env : bool;
  setuid_ok : bool;
}.
Arguments api {DB SR EN}.
Arguments offline {DB SR EN}.
Arguments usage_env {DB SR EN}.
Arguments is_booted_env {DB SR EN}.
Arguments setuid_ok {DB SR EN}.

Record ExtSt (DB SR EN TR : Type) := mkExt {
  aklite : ApiSt DB SR EN TR;
  state_when_download_failed : NoSpaceDownloadState;
}.
Arguments mkExt {DB SR EN TR}.
Arguments aklite {DB SR EN TR}.
Arguments state_when_download_failed {DB SR EN TR}.

Section ext.
Context {DB SR EN TR : Type}.
Context `{AppEngine EN, INvStorage DB, TufRepo DB, Ostree DB SR, BootFwUpdateStatus SR, InstallationResults,
          UptaneTargets, ImageRepo DB TR, TargetSort}.
Context (env : ExtEnv DB SR EN).
Abbreviation S := (St DB SR EN).
Abbreviation A := (ApiSt DB SR EN TR).
Abbreviation X := (ExtSt DB SR EN TR).
Abbreviation aenv := (api env).
Abbreviation cenv := (client aenv).

Definition device (x : X) : S := dev (aklite x).
Definition set_aklite (a : A) (x : X) : X := mkExt a (state_when_download_failed x).
Definition set_no_space (n : NoSpaceDownloadState) (x : X) : X := mkExt (aklite x) n.

Definition on_api {Y} (m : M A Y) : M X Y := fun x =>
  let '(o, a) := m (aklite x) in (o, set_aklite a x).
Definition on_device {Y} (m : M S Y) : M X Y := on_api (on_client m).

(** ** The target to install *)

(** The callback at the end of a check-in, if the check-in did not run it. *)
Definition post_callback (err : string) (t : UTarget) : M X unit :=
  if invoke_post_cb_at_checkin aenv then mret tt else on_device (notifyTufUpdateFinished cenv err t).

Definition gti_failure (st : GtiStatus) (err reason : string) : M X GetTargetToInstallResult :=
  post_callback err Unknown;; mret (GTI st TufTarget_unknown reason).

(** The branch in which the current target is kept. *)
Definition sync_apps (checkin_res : CheckInResult) (current : TufTarget) (force_apps_sync is_offline_mode : bool)
    : M X GetTargetToInstallResult :=
  '(apps_to_update, reason) ← on_api (checkAndSetAppsForUpdate aenv current "Syncing Active Target Apps");
  if force_apps_sync || negb (bool_decide (apps_to_update = ∅)) then
    t ← lift (SelectTarget checkin_res (Version current) "" "");
    mret (GTI UpdateSyncApps (if IsUnknown t then current else t)
            (fold_left (fun r (p : string * string) => r +:+ "- " +:+ p.1 +:+ ": " +:+ p.2 +:+ nl)
               (sorted_items apps_to_update) reason))
  else mret (GTI (if is_offline_mode then TargetAlreadyInstalled else NoUpdate) TufTarget_unknown reason).

(** The branch in which another target is installed. *)
Definition update_to (current candidate : TufTarget) (rollback_operation : bool) : M X GetTargetToInstallResult :=
  let reason := (if rollback_operation then "Rolling back" else "Updating") +:+ " from " +:+ Name current
                +:+ " to " +:+ Name candidate in
  '(_, reason) ← on_api (checkAndSetAppsForUpdate aenv candidate reason);
  mret (GTI (if rollback_operation then UpdateRollback else UpdateNewVersion) candidate reason).

(** From the candidate on. *)
Definition choose_candidate (checkin_res : CheckInResult) (current candidate : TufTarget)
    (rollback_operation allow_bad_target force_apps_sync is_offline_mode : bool) : M X GetTargetToInstallResult :=
  is_bad_target ← gets (fun x => IsRollback candidate (aklite x));
  if rollback_operation && is_bad_target then
    let err := "A bad target (" +:+ Name candidate +:+ ") was selected for rollback of " +:+ Name current
               +:+ ". This should not happen" in
    gti_failure BadRollbackTarget err err
  else
    res ← (if negb (String.eqb (Name candidate) (Name current)) && (negb is_bad_target || allow_bad_target)
           then update_to current candidate rollback_operation
           else sync_apps checkin_res current force_apps_sync is_offline_mode);
    post_callback "" (fromTufTarget candidate);;
    mret res.

Definition GetTargetToInstall (checkin_res : CheckInResult) (version : Z) (target_name : string)
    (allow_bad_target force_apps_sync is_offline_mode auto_downgrade : bool) : M X GetTargetToInstallResult :=
  if negb (CheckInResult_bool checkin_res) then
    let err := "Can't select target to install using a failed check-in result" in
    gti_failure BadCheckinStatus err err
  else
    candidate ← lift (SelectTarget checkin_res version target_name "");
    if IsUnknown candidate then gti_failure TufTargetNotFound "No matching target" "No matching target"
    else
      cur ← gets (fun x => GetCurrent (aklite x)); current ← lift cur;
      if negb auto_downgrade && (version =? -1) && str_empty target_name && (Version candidate <? Version current)
      then gti_failure NoUpdate "" ""
      else
        failing ← gets (fun x => IsRollback current (aklite x));
        if failing && String.eqb (Name current) (Name candidate) then
          rt ← gets (fun x => toTufTarget (getRollbackTarget true (device x))); rollback_target ← lift rt;
          if IsUnknown rollback_target then
            let err := "Failed to find Target to rollback to after a failure to start Apps at boot on a new version of sysroot; failing current Target: "
                       +:+ Name current +:+ ", hash: " +:+ Sha256Hash current in
            gti_failure RollbackTargetNotFound err err
          else choose_candidate checkin_res current rollback_target true allow_bad_target force_apps_sync is_offline_mode
        else choose_candidate checkin_res current candidate false allow_bad_target force_apps_sync is_offline_mode.

(** ** Download and installation *)

(** The storage is known to be too small for the target, and has not grown. *)
Definition still_no_space (target : TufTarget) (x : X) : option string :=
  let n := state_when_download_failed x in
  if (0 <? required (ns_stat n)) && UsageInfo_isOk (ns_stat n) && String.eqb (Sha256Hash target) (ns_commit n) then
    let cur := getUsageInfo (usage_env env (sr (device x))) (path (ns_stat n)) (to_u32 (float_to_int (reserved_pc (ns_stat n))))
                 (reserved_by (ns_stat n)) in
    if UsageInfo_isOk cur && (available cur <? required (ns_stat n)) then
      Some ("Insufficient storage available at " +:+ path (ns_stat n) +:+ " to download Target: " +:+ Name target
            +:+ ", " +:+ UsageInfo_str (withRequired cur (required (ns_stat n))) +:+ " (cached status)")
    else None
  else None.

Definition run_download (ctx : InstallCtx) : M X DownloadResult :=
  on_device (ctx_Download aenv (offline env) ctx).
Definition run_install (ctx : InstallCtx) : M X InstallResult :=
  r ← on_device (ctx_Install aenv ctx); mret r.1.

(** After an installation failed: the current target again. *)
Definition roll_back (current : TufTarget) (correlation_id : string) (local : option LocalUpdateSource)
    (ir : InstallResult) : M X InstallResult :=
  installer ← on_api (Installer aenv current (ir_description ir) correlation_id All local false false);
  match installer with
  | None => mret (IRes InstallRollbackFailed (ir_description ir))
  | Some ctx =>
      ir ← run_install ctx;
      mret (IRes (if bool_decide (ir_status ir = IOk) then InstallRollbackOk else InstallRollbackFailed)
              (ir_description ir))
  end.

Definition install_or_roll_back (current : TufTarget) (correlation_id : string) (local : option LocalUpdateSource)
    (ctx : InstallCtx) : M X InstallResult :=
  ir ← run_install ctx;
  if negb (InstallResult_bool ir) && bool_decide (ir_status ir = IFailed)
  then roll_back current correlation_id local ir else mret ir.

(** With the installer at hand. *)
Definition pull_with (current target : TufTarget) (correlation_id : string) (local : option LocalUpdateSource)
    (do_download do_install : bool) (ctx : InstallCtx) : M X InstallResult :=
  if do_download then
    dr ← run_download ctx;
    if negb (DR_bool dr) then
      (if DR_noSpace dr
       then modify (set_no_space {| ns_commit := Sha256Hash target; ns_cor_id := correlation_id; ns_stat := dr_stat dr |})
       else mret tt);;
      mret (IRes (dr2ir (dr_status dr)) (dr_description dr))
    else if negb do_install then mret (IRes (dr2ir (dr_status dr)) (dr_description dr))
    else install_or_roll_back current correlation_id local ctx
  else install_or_roll_back current correlation_id local ctx.

Definition PullAndInstall (target : TufTarget) (reason correlation_id : string) (install_mode : InstallMode)
    (local : option LocalUpdateSource) (do_download do_install require_target_in_tuf : bool) : M X InstallResult :=
  in_progress ← gets (fun x => IsInstallationInProgress (aklite x));
  if in_progress : bool then
    p ← gets (fun x => GetPendingTarget (aklite x)); _ ← lift p;
    mret (IRes InstallationInProgress "")
  else
    cur ← gets (fun x => GetCurrent (aklite x)); current ← lift cur;
    no_space ← gets (still_no_space target);
    match no_space with
    | Some err_msg =>
        cid ← gets (fun x => ns_cor_id (state_when_download_failed x));
        on_device (notifyDownloadFinished cenv (setCorrelationId (fromTufTarget target) cid) false err_msg);;
        mret (IRes IDownloadFailed_NoSpace err_msg)
    | None =>
        modify (set_no_space no_space_undefined);;
        installer ← on_api (Installer aenv target reason correlation_id install_mode local require_target_in_tuf true);
        match installer with
        | None => mret (IRes UnknownError "")
        | Some ctx => pull_with current target correlation_id local do_download do_install ctx
        end
    end.

(** ** Roll back asked for by a user *)
Definition Rollback (local : option LocalUpdateSource) : M X InstallResult :=
  cur ← gets (fun x => GetCurrent (aklite x)); current ← lift cur;
  pending ← gets (fun x => getPendingTarget (device x));
  let installation_in_progress := IsValid pending in
  bad_target ← (if installation_in_progress then lift (toTufTarget pending) else mret current);
  on_device (do_save (fromTufTarget bad_target) kBadTarget);;
  rt ← gets (fun x => GetRollbackTarget installation_in_progress (aklite x)); rollback_target ← lift rt;
  if IsUnknown rollback_target then mret (IRes IFailed "")
  else
    (if installation_in_progress then on_device (do_save pending kNone) else mret tt);;
    let reason := "User initiated rollback. Marked " +:+ Name bad_target
                  +:+ " as a failing target, and rolling back to " +:+ Name rollback_target in
    (if installation_in_progress
     then on_device (notifyInstallFinished cenv pending (IR kInstallFailed reason)) else mret tt);;
    PullAndInstall rollback_target reason "" All local (negb installation_in_progress) true
      (negb installation_in_progress).

Definition IsAppRunning (name uri : string) : M X bool :=
  on_device (client_isAppRunning cenv {| app_name := name; app_uri := uri |}).

(** ** Reboot *)
Definition RebootIfRequired : M X bool :=
  r ← gets (fun x => isRebootRequired cenv (device x));
  if r.1 : bool then
    (if is_booted_env env && negb (str_empty r.2) && setuid_ok env then on_device (emit (EvReboot r.2)) else mret tt);;
    mret true
  else mret false.

(** ** The daemon *)

(** One turn of the loop: [true] if it ends the daemon. *)
Definition daemon_cycle (auto_downgrade_default : bool) : M X bool :=
  cur ← gets (fun x => GetCurrent (aklite x)); _ ← lift cur;
  ci_res ← on_api (CheckIn aenv);
  if CheckInResult_bool ci_res then
    gti_res ← GetTargetToInstall ci_res (-1) "" false false false auto_downgrade_default;
    if negb (IsUnknown (selected_target gti_res)) then
      _ ← PullAndInstall (selected_target gti_res) (gti_reason gti_res) "" All None true true
            (bool_decide (gti_status gti_res = UpdateNewVersion));
      RebootIfRequired
    else mret false
  else mret false.

(** [fuel] turns of the loop; [None] if the daemon still runs after them. *)
Fixpoint daemon_loop (fuel : nat) (auto_downgrade_default return_on_sleep : bool) : M X (option Z) :=
  match fuel with
  | O => mret None
  | Datatypes.S n =>
      stop ← daemon_cycle auto_downgrade_default;
      if stop || return_on_sleep then mret (Some EXIT_SUCCESS)
      else daemon_loop n auto_downgrade_default return_on_sleep
  end.

Definition run_daemon (fuel : nat) (repo_server : string) (reboot_command_executable auto_downgrade_default
    return_on_sleep acquire_lock : bool) : M X (option Z) :=
  if str_empty repo_server || negb reboot_command_executable then mret (Some EXIT_FAILURE)
  else
    on_api (Init aenv false acquire_lock);;
    in_progress ← gets (fun x => IsInstallationInProgress (aklite x));
    wait_for_reboot ← (if in_progress : bool then
                         r ← on_api (CompleteInstallation aenv);
                         mret (bool_decide (ir_status r = NeedsCompletion))
                       else mret false);
    if wait_for_reboot : bool then mret (Some EXIT_FAILURE)
    else daemon_loop fuel auto_downgrade_default return_on_sleep.
End ext.

(** ** Theorems *)
Section theorems.
Context {DB SR EN TR : Type}.
Context `{AppEngine EN, INvStorage DB, TufRepo DB, Ostree DB SR, BootFwUpdateStatus SR, InstallationResults,
          UptaneTargets, ImageRepo DB TR, TargetSort}.
Context (env : ExtEnv DB SR EN).
Abbreviation S := (St DB SR EN).
Abbreviation A := (ApiSt DB SR EN TR).
Abbreviation X := (ExtSt DB SR EN TR).
Abbreviation aenv := (api env).
Abbreviation cenv := (client aenv).

(** *** The choice of the target *)

Lemma gti_failure_run st err rsn (x : X) r x' :
  gti_failure env st err rsn x = (Ret r, x') -> r = GTI st TufTarget_unknown rsn.
Proof. unfold gti_failure. intros E. apply M_bind_Ret in E as ([] & x1 & _ & E). by injection E as <- _. Qed.

(** What a chosen target is, for a check-in [ci] on the device [x]. *)
Definition choice_ok (ci : CheckInResult) (allow_bad : bool) (current candidate : TufTarget) (rollback : bool)
    (x : X) (r : GetTargetToInstallResult) : Prop :=
  match gti_status r with
  | UpdateNewVersion =>
      rollback = false /\ selected_target r = candidate /\ Name candidate <> Name current /\
      (IsRollback candidate (aklite x) = false \/ allow_bad = true)
  | UpdateRollback =>
      rollback = true /\ selected_target r = candidate /\ Name candidate <> Name current /\
      IsRollback candidate (aklite x) = false
  | UpdateSyncApps =>
      selected_target r = current \/ SelectTarget ci (Version current) "" "" = Ret (selected_target r)
  | _ => selected_target r = TufTarget_unknown
  end.

Lemma update_to_run current candidate rb (x x' : X) r :
  update_to env current candidate rb x = (Ret r, x') ->
  gti_status r = (if rb then UpdateRollback else UpdateNewVersion) /\ selected_target r = candidate.
Proof. unfold update_to. intros E. apply M_bind_Ret in E as ([? ?] & x1 & _ & E). by injection E as <- _. Qed.

Lemma sync_apps_run ci current force off (x x' : X) r :
  sync_apps env ci current force off x = (Ret r, x') ->
  (gti_status r = UpdateSyncApps /\
   (selected_target r = current \/ SelectTarget ci (Version current) "" "" = Ret (selected_target r))) \/
  (gti_status r ∈ [TargetAlreadyInstalled; NoUpdate] /\ selected_target r = TufTarget_unknown).
Proof.
  unfold sync_apps. intros E. apply M_bind_Ret in E as ([apps rsn] & x1 & _ & E).
  destruct (force || negb (bool_decide (apps = ∅))).
  - apply M_bind_Ret in E as (t & x2 & Et & E). injection Et as Et <-. injection E as <- _. left. split; [done|].
    cbn. destruct (IsUnknown t); [by left|by right].
  - injection E as <- _. right. destruct off; (split; [set_solver|done]).
Qed.

Lemma choose_candidate_run ci current candidate rb allow_bad force off (x x' : X) r :
  choose_candidate env ci current candidate rb allow_bad force off x = (Ret r, x') ->
  choice_ok ci allow_bad current candidate rb x r.
Proof.
  unfold choose_candidate. intros E. apply M_bind_Ret in E as (bad & x1 & Eb & E). injection Eb as <- <-.
  destruct (rb && IsRollback candidate (aklite x)) eqn:Hrb; [by apply gti_failure_run in E as ->|].
  apply M_bind_Ret in E as (r1 & x1 & E1 & E). apply M_bind_Ret in E as ([] & x2 & _ & E). injection E as -> _.
  destruct (negb (String.eqb (Name candidate) (Name current)) && _) eqn:Hu.
  - apply andb_true_iff in Hu as [Hn Hbad]. apply negb_true_iff, String.eqb_neq in Hn.
    apply update_to_run in E1 as [Hst Hsel]. unfold choice_ok. rewrite Hst, Hsel.
    destruct rb; cbn [andb] in Hrb; [done|]. split_and!; [done..|]. apply orb_true_iff in Hbad as [Hb|Hb]; [left|by right].
    by apply negb_true_iff.
  - apply sync_apps_run in E1 as [[Hst Hsel]|[Hst Hsel]]; unfold choice_ok.
    + by rewrite Hst.
    + rewrite Hsel. rewrite !elem_of_cons, elem_of_nil in Hst. by destruct Hst as [->|[->|[]]].
Qed.


(** A device whose current target has no version number, as the initial target, is sent to the
    latest target of the check-in when only its apps are to be synced, even if that target is known
    to fail on this device. *)
Theorem sync_selects_latest (ci : CheckInResult) (force off auto_downgrade : bool) (x x' : X)
    (r : GetTargetToInstallResult) (candidate current : TufTarget) :
  GetTargetToInstall env ci (-1) "" false force off auto_downgrade x = (Ret r, x') ->
  gti_status r = UpdateSyncApps -> GetCurrent (aklite x) = Ret current -> Version current = -1 ->
  SelectTarget ci (-1) "" "" = Ret candidate -> Name current <> Name candidate ->
  selected_target r = candidate.
Proof.
  unfold GetTargetToInstall. destruct (CheckInResult_bool ci); cbn [negb];
    [|intros E; by apply gti_failure_run in E as ->].
  intros E Hst Hcur Hv Hsel Hne. apply M_bind_Ret in E as (cand & x1 & Ec & E). injection Ec as Ec <-.
  rewrite Hsel in Ec. injection Ec as ->. destruct (IsUnknown cand) eqn:Hu; [by apply gti_failure_run in E as ->|].
  apply M_bind_Ret in E as (o & x2 & Eo & E). injection Eo as <- <-.
  apply M_bind_Ret in E as (cur & x3 & Eo & E). injection Eo as Ecur <-. rewrite Hcur in Ecur. injection Ecur as <-.
  destruct (negb auto_downgrade && _ && _ && _); [by apply gti_failure_run in E as ->|].
  apply M_bind_Ret in E as (failing & x4 & Ef & E). injection Ef as <- <-.
  apply String.eqb_neq in Hne. rewrite Hne, andb_false_r in E.
  unfold choose_candidate in E. apply M_bind_Ret in E as (bad & x5 & Eb & E). injection Eb as <- <-.
  cbn [andb] in E. apply M_bind_Ret in E as (r1 & x6 & E1 & E). apply M_bind_Ret in E as ([] & x7 & _ & E).
  injection E as -> _. destruct (negb _ && _); [apply update_to_run in E1 as [Hs _]; congruence|].
  unfold sync_apps in E1. apply M_bind_Ret in E1 as ([apps rsn] & x8 & _ & E1).
  destruct (force || _); [|injection E1 as <- _; by destruct off].
  apply M_bind_Ret in E1 as (t & x9 & Et & E1). rewrite Hv in Et. injection Et as Et <-.
  rewrite Hsel in Et. injection Et as <-. injection E1 as <- _. cbn. by rewrite Hu.
Qed.

(** *** What a run emits *)

(** Nothing is installed, started or recorded, and the device is not rebooted. *)
Definition quiet (e : Event) : Prop :=
  match e with
  | EvOstreeInstall _ | EvOstreeFinalize _ | EvInstall _ _ | EvRun _ _ | EvSave _ _ | EvReboot _
  | EvUpdateNotify | EvInstallNotify _ | EvRemove _ | EvStop _ | EvPrune _ => False
  | _ => True
  end.

Definition emitsA (P : Event -> Prop) (a a' : A) : Prop := emits P (dev a) (dev a').
#[export] Instance emitsA_preorder P : PreOrder (emitsA P).
Proof. split; [intros a; by apply emits_same|]. intros x y z E1 E2. unfold emitsA in *. by transitivity (dev y). Qed.
Definition emitsX (P : Event -> Prop) (x x' : X) : Prop := emitsA P (aklite x) (aklite x').
#[export] Instance emitsX_preorder P : PreOrder (emitsX P).
Proof. split; [intros x; by apply emits_same|]. intros x y z E1 E2. unfold emitsX in *. by transitivity (aklite y). Qed.

Lemma on_client_emits P {Y} (m : M S Y) : preserves (emits P) m -> preserves (emitsA P) (on_client m : M A Y).
Proof.
  intros Hm a. specialize (Hm (dev a)). unfold exec, emitsA, on_client in *. by destruct (m (dev a)) as [o s].
Qed.
Lemma on_repo_emits P {Y} (m : M (DB * TR) Y) : preserves (emitsA P) (on_repo m : M A Y).
Proof.
  intros a. unfold exec, emitsA, on_repo. destruct (m (db (dev a), tuf a)) as [o [d t]]. by apply emits_same.
Qed.
Lemma on_api_emits P {Y} (m : M A Y) : preserves (emitsA P) m -> preserves (emitsX P) (on_api m : M X Y).
Proof.
  intros Hm x. specialize (Hm (aklite x)). unfold exec, emitsX, on_api in *. by destruct (m (aklite x)) as [o a].
Qed.
Lemma on_device_emits P {Y} (m : M S Y) : preserves (emits P) m -> preserves (emitsX P) (on_device m : M X Y).
Proof. intros Hm. by apply on_api_emits, on_client_emits. Qed.

Lemma callback_quiet m t rs : preserves (emits quiet) (callback cenv m t rs : M S _).
Proof. unfold callback. pstep. by apply emits_emit. Qed.
Lemma notify_quiet t e cid b d : preserves (emits quiet) (notify cenv t e cid b d : M S _).
Proof. unfold notify. pstep. by apply emits_emit. Qed.
Lemma downloadImage_quiet b t : preserves (emits quiet) (downloadImage cenv b t : M S _).
Proof. apply (emits_weaken is_fetch); [by intros []|apply downloadImage_fetches]. Qed.
Lemma verifyTarget_quiet t : preserves (emits quiet) (pm_verifyTarget cenv t : M S _).
Proof.
  assert (forall l, preserves (emits quiet) (verify_apps l : M S _)).
  { induction l as [|a l IH]; cbn [verify_apps]; pstep. }
  unfold pm_verifyTarget, verifyTarget. pstep.
Qed.
#[local] Hint Resolve callback_quiet notify_quiet downloadImage_quiet verifyTarget_quiet : aklite.
Lemma notifyInstallFinished_quiet t ir : preserves (emits quiet) (notifyInstallFinished cenv t ir : M S _).
Proof. unfold notifyInstallFinished, writeCurrentTarget. pstep. by apply emits_emit. Qed.
#[local] Hint Resolve notifyInstallFinished_quiet : aklite.

Lemma online_Download_quiet ctx : preserves (emits quiet) (online_Download aenv ctx : M S _).
Proof. unfold online_Download, logTarget, client_download, notifyDownloadStarted, notifyDownloadFinished. pstep. Qed.

Lemma offline_prepare_quiet l t : preserves (emits quiet) (offline_prepare aenv (offline env) l t : M S _).
Proof. unfold offline_prepare, checkForAppsToUpdate. pstep; by apply emits_modify. Qed.

Lemma offline_pm_Download_quiet l t : preserves (emits quiet) (offline_pm_Download aenv (offline env) l t : M S _).
Proof.
  apply (emits_weaken is_fetch); [by intros []|].
  unfold offline_pm_Download, compose_Download.
  pose proof (fun renv => rootfs_Download_fetches (DB := DB) (SR := SR) (EN := EN) renv t).
  pose proof (fun k => fetch_apps_fetches (DB := DB) (SR := SR) (H := offline env l) k). pstep.
Qed.
#[local] Hint Resolve offline_prepare_quiet offline_pm_Download_quiet online_Download_quiet : aklite.

Lemma ctx_Download_quiet ctx : preserves (emits quiet) (ctx_Download aenv (offline env) ctx : M S _).
Proof.
  unfold ctx_Download. destruct (ctx_local ctx) as [l|]; [|apply online_Download_quiet].
  intros s. unfold exec, offline_Download.
  match goal with |- context [mbind (fun _ => ?m) (logTarget cenv ?p ?t) s] =>
    destruct (logTarget_then cenv p t m s) as [-> | [e ->]]; [|reflexivity] end.
  unfold with_new_manager.
  match goal with |- context [mbind ?f ?m (fresh_members s)] => set (body := mbind f m) end.
  assert (G : preserves (emits quiet) body).
  { unfold body, notifyDownloadStarted, notifyDownloadFinished. pstep. }
  specialize (G (fresh_members s)). unfold exec in G. by destruct (body (fresh_members s)) as [o s'].
Qed.

Lemma Installer_quiet t rsn cid mode local req :
  preserves (emitsX quiet) (on_api (Installer aenv t rsn cid mode local req true) : M X _).
Proof.
  apply on_api_emits. unfold Installer, installer_target, make_context. pose proof (fun Y m => @on_repo_emits quiet Y m).
  pstep.
Qed.

(** *** Installations *)

(** The answers of an installation. *)
Lemma run_install_status ctx (x x' : X) ir :
  run_install env ctx x = (Ret ir, x') ->
  ir_status ir ∈ [IOk; NeedsCompletion; AppsNeedCompletion; BootFwNeedsCompletion; IDownloadFailed; IFailed].
Proof.
  unfold run_install. intros E. apply M_bind_Ret in E as ([r c] & x1 & E1 & E). injection E as <- <-. cbn [fst].
  unfold on_device, on_api, on_client in E1.
  destruct (ctx_Install aenv ctx (dev (aklite x))) as [o s1] eqn:Ei. injection E1 as -> _.
  unfold ctx_Install in Ei. apply M_bind_Ret in Ei as ([] & sl & _ & Ei). apply M_bind_Ret in Ei as (st & s2 & _ & Ei).
  destruct (negb _); [injection Ei as <- _ _; set_solver|].
  apply M_bind_Ret in Ei as (t & s3 & _ & Ei). apply M_bind_Ret in Ei as (ires & s4 & _ & Ei).
  apply M_bind_Ret in Ei as (stt & s5 & Es & Ei). injection Es as <- <-. injection Ei as <- _ _. cbn.
  unfold install_status. destruct (result_code ires); try set_solver. repeat case_match; set_solver.
Qed.

Lemma roll_back_status current cid local ir (x x' : X) r :
  roll_back env current cid local ir x = (Ret r, x') ->
  ir_status r ∈ [InstallRollbackOk; InstallRollbackFailed] /\
  (ir_status r = InstallRollbackOk -> exists ctx x1 ir2,
     on_api (Installer aenv current (ir_description ir) cid All local false false) x = (Ret (Some ctx), x1) /\
     run_install env ctx x1 = (Ret ir2, x') /\ ir_status ir2 = IOk).
Proof.
  unfold roll_back. intros E. apply M_bind_Ret in E as (o & x1 & Ei & E). destruct o as [ctx|].
  - apply M_bind_Ret in E as (ir2 & x2 & E2 & E). injection E as <- <-. cbn. case_bool_decide.
    + split; [set_solver|]. intros _. by exists ctx, x1, ir2.
    + split; [set_solver|done].
  - injection E as <- <-. split; [set_solver|done].
Qed.

(** What the installation may answer, with the roll back that follows a failure. *)
Definition installed_or_rolled_back (current : TufTarget) (cid : string) (local : option LocalUpdateSource)
    (x' : X) (r : InstallResult) : Prop :=
  ir_status r ∈ [IOk; NeedsCompletion; AppsNeedCompletion; BootFwNeedsCompletion; IDownloadFailed] \/
  (ir_status r ∈ [InstallRollbackOk; InstallRollbackFailed] /\
   exists ctx x1 x2 ir, run_install env ctx x1 = (Ret ir, x2) /\ ir_status ir = IFailed /\
     roll_back env current cid local ir x2 = (Ret r, x')).

Lemma install_or_roll_back_run current cid local ctx (x x' : X) r :
  install_or_roll_back env current cid local ctx x = (Ret r, x') -> installed_or_rolled_back current cid local x' r.
Proof.
  unfold install_or_roll_back. intros E. apply M_bind_Ret in E as (ir & x1 & Ei & E).
  pose proof (run_install_status _ _ _ _ Ei) as Hs. unfold installed_or_rolled_back.
  destruct (negb (InstallResult_bool ir) && bool_decide (ir_status ir = IFailed)) eqn:Hb.
  - apply andb_true_iff in Hb as [_ Hf]. apply bool_decide_eq_true in Hf. right.
    split; [by apply roll_back_status in E as [? _]|]. by exists ctx, x, x1, ir.
  - injection E as <- _. left. unfold InstallResult_bool in Hb.
    destruct (ir_status ir); cbn in Hb; try discriminate Hb; set_solver.
Qed.

(** The statuses that say that nothing was installed. *)
Definition not_installed : list InstallStatus :=
  [InstallationInProgress; UnknownError; DownloadOstreeFailed; IVerificationFailed; IDownloadFailed_NoSpace].

Lemma run_download_quiet ctx : preserves (emitsX quiet) (run_download env ctx : M X _).
Proof. apply on_device_emits, ctx_Download_quiet. Qed.

Lemma pull_with_run current t cid local do_dl do_inst ctx (x x' : X) r :
  pull_with env current t cid local do_dl do_inst ctx x = (Ret r, x') ->
  (emitsX quiet x x' /\ (ir_status r ∈ not_installed \/ ir_status r = IOk /\ do_dl = true /\ do_inst = false)) \/
  (exists x1, (emitsX quiet x x1 /\ (do_dl = true -> do_inst = true)) /\
     install_or_roll_back env current cid local ctx x1 = (Ret r, x')).
Proof.
  unfold pull_with. destruct do_dl; [|intros E; right; exists x; split; [split; [reflexivity|done]|done]].
  intros E. apply M_bind_Ret in E as (dr & x1 & Ed & E).
  pose proof (preserves_run_inv _ _ _ _ _ (run_download_quiet ctx) Ed) as Q.
  destruct (DR_bool dr) eqn:Hdr; cbn [negb] in E.
  - unfold DR_bool in Hdr. apply bool_decide_eq_true in Hdr. destruct do_inst; cbn [negb] in E.
    + right. exists x1. by split.
    + injection E as <- <-. left. split; [done|]. right. by rewrite Hdr.
  - left. apply M_bind_Ret in E as ([] & x2 & Es & E). injection E as <- <-.
    assert (Hx : aklite x2 = aklite x1) by (destruct (DR_noSpace dr); by injection Es as <-).
    split; [unfold emitsX in *; by rewrite Hx|]. left. unfold DR_bool in Hdr. apply bool_decide_eq_false in Hdr.
    cbn. unfold not_installed. destruct (dr_status dr); [done|set_solver..].
Qed.

Lemma PullAndInstall_run t rsn cid mode local do_dl do_inst req (x x' : X) r :
  PullAndInstall env t rsn cid mode local do_dl do_inst req x = (Ret r, x') ->
  (emitsX quiet x x' /\ ir_status r ∈ not_installed) \/
  (exists current x1 ctx, GetCurrent (aklite x) = Ret current /\ emitsX quiet x x1 /\
     pull_with env current t cid local do_dl do_inst ctx x1 = (Ret r, x')).
Proof.
  unfold PullAndInstall. intros E. apply M_bind_Ret in E as (b & x1 & Eb & E). injection Eb as <- <-.
  destruct (IsInstallationInProgress (aklite x)).
  { left. apply M_bind_Ret in E as (p & x2 & Ep & E). injection Ep as <- <-.
    apply M_bind_Ret in E as (p & x2 & Ep & E). injection Ep as _ <-. injection E as <- <-.
    split; [reflexivity|]. cbn. unfold not_installed. set_solver. }
  apply M_bind_Ret in E as (o & x2 & Eo & E). injection Eo as <- <-.
  apply M_bind_Ret in E as (cur & x3 & Eo & E). injection Eo as Ecur <-.
  apply M_bind_Ret in E as (ns & x4 & En & E). injection En as <- <-.
  destruct (still_no_space env t x) as [msg|].
  - left. apply M_bind_Ret in E as (c & x5 & Ec & E). injection Ec as <- <-.
    apply M_bind_Ret in E as ([] & x6 & E6 & E). injection E as <- <-. split; [|cbn; unfold not_installed; set_solver].
    refine (preserves_run_inv _ _ _ _ _ (on_device_emits _ _ _) E6). unfold notifyDownloadFinished. pstep.
  - apply M_bind_Ret in E as ([] & x5 & E5 & E). injection E5 as <-.
    apply M_bind_Ret in E as (inst & x6 & E6 & E).
    pose proof (preserves_run_inv _ _ _ _ _ (Installer_quiet _ _ _ _ _ _) E6) as Q.
    destruct inst as [ctx|].
    + right. by exists cur, x6, ctx.
    + left. injection E as <- <-. split; [exact Q|cbn; unfold not_installed; set_solver].
Qed.

(** An installation that [PullAndInstall] reports as done, or to be completed, is the last thing it
    does, with an installer for the target. *)
Lemma PullAndInstall_ran t rsn cid mode local do_dl req (x x' : X) r :
  PullAndInstall env t rsn cid mode local do_dl true req x = (Ret r, x') ->
  ir_status r ∈ [IOk; OkBootFwNeedsCompletion; NeedsCompletion; AppsNeedCompletion; BootFwNeedsCompletion] ->
  exists ctx x1 x2 x3,
    on_api (Installer aenv t rsn cid mode local req true) x1 = (Ret (Some ctx), x2) /\
    run_install env ctx x3 = (Ret r, x').
Proof.
  unfold PullAndInstall. intros E Hr. apply M_bind_Ret in E as (b & x1 & _ & E). destruct b.
  { apply M_bind_Ret in E as (p & x2 & _ & E). apply M_bind_Ret in E as (q & x3 & _ & E).
    injection E as <- _. cbn in Hr. set_solver. }
  apply M_bind_Ret in E as (o & x2 & _ & E). apply M_bind_Ret in E as (cur & x3 & _ & E).
  apply M_bind_Ret in E as (ns & x4 & _ & E). destruct ns as [msg|].
  { apply M_bind_Ret in E as (c & x5 & _ & E). apply M_bind_Ret in E as ([] & x6 & _ & E).
    injection E as <- _. cbn in Hr. set_solver. }
  apply M_bind_Ret in E as ([] & x5 & _ & E). apply M_bind_Ret in E as (inst & x6 & Ei & E).
  destruct inst as [ctx|]; [|injection E as <- _; cbn in Hr; set_solver].
  apply pull_with_run in E as [[_ [Hn|(_ & _ & Hn)]]|(x7 & _ & E)]; [unfold not_installed in Hn; destruct (ir_status r); set_solver|done|].
  exists ctx, x5, x6, x7. split; [exact Ei|]. unfold install_or_roll_back in E.
  apply M_bind_Ret in E as (ir & x8 & Er & E). destruct (negb _ && _); [|by injection E as <- <-].
  apply roll_back_status in E as [E _]. destruct (ir_status r); set_solver.
Qed.

Lemma PullAndInstall_installed t rsn cid mode local do_dl req (x x' : X) r :
  PullAndInstall env t rsn cid mode local do_dl true req x = (Ret r, x') ->
  ir_status r ∈ [IOk; OkBootFwNeedsCompletion; NeedsCompletion; AppsNeedCompletion] ->
  exists ctx x1 x2 x3,
    on_api (Installer aenv t rsn cid mode local req true) x1 = (Ret (Some ctx), x2) /\
    run_install env ctx x3 = (Ret r, x').
Proof. intros E Hr. eapply PullAndInstall_ran; [exact E|set_solver]. Qed.

(** C10: A pull that is not to be installed, and every answer that says that nothing was installed (an
    installation is pending, no installer, a download or a verification failed, no space), leave the
    device as it was: nothing was deployed, no app was installed, started, stopped or removed, and
    no version was recorded. *)
Theorem PullAndInstall_not_installed (t : TufTarget) (rsn cid : string) (mode : InstallMode)
    (local : option LocalUpdateSource) (do_dl do_inst req : bool) (x x' : X) (r : InstallResult) :
  PullAndInstall env t rsn cid mode local do_dl do_inst req x = (Ret r, x') ->
  ir_status r ∈ not_installed \/ (do_dl = true /\ do_inst = false) ->
  emits quiet (device x) (device x').
Proof.
  intros E Hn. apply PullAndInstall_run in E as [[Q _]|(cur & x1 & ctx & _ & Q1 & E)]; [exact Q|].
  apply pull_with_run in E as [[Q2 _]|(x2 & [Q2 Hdl] & E)].
  - exact (transitivity (R := emitsX quiet) Q1 Q2).
  - exfalso. destruct Hn as [Hn|[-> ->]]; [|by discriminate (Hdl eq_refl)].
    apply install_or_roll_back_run in E as [Hs|[Hs _]]; unfold not_installed in Hn;
      destruct (ir_status r); set_solver.
Qed.


(** *** The roll back a user asks for *)

Lemma pull_with_not_in_progress current t cid local do_dl do_inst ctx (x x' : X) r :
  pull_with env current t cid local do_dl do_inst ctx x = (Ret r, x') -> ir_status r <> InstallationInProgress.
Proof.
  assert (G : forall y y', install_or_roll_back env current cid local ctx y = (Ret r, y') ->
                ir_status r <> InstallationInProgress).
  { intros y y' E Hp. apply install_or_roll_back_run in E as [Hs|[Hs _]]; rewrite Hp in Hs; set_solver. }
  unfold pull_with. destruct do_dl; [|apply G]. intros E. apply M_bind_Ret in E as (dr & x1 & _ & E).
  destruct (negb (DR_bool dr)); [|destruct (negb do_inst); [injection E as <- _|by eapply G]].
  - apply M_bind_Ret in E as ([] & x2 & _ & E). injection E as <- _. cbn. by destruct (dr_status dr).
  - cbn. by destruct (dr_status dr).
Qed.

Lemma PullAndInstall_in_progress t rsn cid mode local do_dl do_inst req (x x' : X) r :
  PullAndInstall env t rsn cid mode local do_dl do_inst req x = (Ret r, x') ->
  ir_status r = InstallationInProgress -> IsInstallationInProgress (aklite x) = true.
Proof.
  unfold PullAndInstall. intros E Hs. apply M_bind_Ret in E as (b & x1 & Eb & E). injection Eb as <- <-.
  destruct (IsInstallationInProgress (aklite x)); [done|].
  apply M_bind_Ret in E as (o & x2 & _ & E). apply M_bind_Ret in E as (cur & x3 & _ & E).
  apply M_bind_Ret in E as (ns & x4 & _ & E). destruct ns as [msg|].
  - apply M_bind_Ret in E as (c & x5 & _ & E). apply M_bind_Ret in E as ([] & x6 & _ & E). by injection E as <- _.
  - apply M_bind_Ret in E as ([] & x5 & _ & E). apply M_bind_Ret in E as ([ctx|] & x6 & _ & E);
      [by apply pull_with_not_in_progress in E|by injection E as <- _].
Qed.

Context `{!INvStorageSpec DB, !UptaneTargetsSpec}.

(** No installation is pending, as the API sees it. *)
Definition idle (d : DB) : Prop := IsValid (default Unknown (pending_of d)) = false.

Lemma idle_None d : pending_of d = None -> idle d.
Proof. unfold idle. intros ->. apply Unknown_invalid. Qed.

Lemma rollback_marks_idle (p t : UTarget) (d : DB) :
  p = default Unknown (pending_of d) ->
  let d1 := saveInstalledVersion t kBadTarget d in
  idle (if IsValid p then saveInstalledVersion p kNone d1 else d1).
Proof.
  intros Hp d1. pose proof (save_bad_pending t d) as Hb. fold d1 in Hb.
  assert (Hb' : pending_of d1 = None \/ pending_of d1 = pending_of d) by (unfold pending_of; set_solver).
  clear Hb. destruct (IsValid p) eqn:Hv.
  - apply idle_None. unfold pending_of. destruct Hb' as [Hb|Hb]; [by apply save_none_idle|].
    destruct (pending_of d) as [q|] eqn:Hq; [|by apply save_none_idle].
    cbn in Hp. subst q. by apply (save_none_pending p d1 p).
  - destruct Hb' as [Hb|Hb]; [by apply idle_None|]. unfold idle. by rewrite Hb, <- Hp.
Qed.

Definition dbX (x : X) : DB := db (device x).

Lemma on_device_db {Y} (m : M S Y) (x x' : X) o :
  preserves same_db m -> on_device m x = (o, x') -> dbX x' = dbX x.
Proof.
  intros Hm E. specialize (Hm (dev (aklite x))). unfold exec in Hm. unfold on_device, on_api, on_client in E.
  destruct (m (dev (aklite x))) as [o' s]. injection E as _ <-. exact Hm.
Qed.
Lemma on_device_save t mode (x x' : X) o :
  on_device (do_save t mode) x = (o, x') -> o = Ret tt /\ dbX x' = saveInstalledVersion t mode (dbX x).
Proof. unfold on_device, on_api, on_client, do_save, emit. mstep. by intros [= <- <-]. Qed.

(** A roll back the user asks for is never refused because an installation is pending: the
    pending one is marked as failing and given up before the target to roll back to is installed. *)
Theorem Rollback_not_refused (local : option LocalUpdateSource) (x x' : X) (r : InstallResult) :
  Rollback env local x = (Ret r, x') -> ir_status r <> InstallationInProgress.
Proof.
  unfold Rollback. intros E. apply M_bind_Ret in E as (o & x1 & Eo & E). injection Eo as <- <-.
  apply M_bind_Ret in E as (cur & x2 & Ec & E). injection Ec as _ <-.
  apply M_bind_Ret in E as (p & x3 & Ep & E). injection Ep as <- <-. set (p := getPendingTarget (device x)) in *.
  apply M_bind_Ret in E as (bad & x4 & Eb & E). assert (x4 = x) as -> by (destruct (IsValid p); by injection Eb).
  apply M_bind_Ret in E as ([] & x5 & E5 & E). apply on_device_save in E5 as [_ D5].
  apply M_bind_Ret in E as (rt & x6 & Er & E). injection Er as <- <-.
  apply M_bind_Ret in E as (rt & x7 & Er & E). injection Er as _ <-.
  destruct (IsUnknown rt); [by injection E as <- _|].
  apply M_bind_Ret in E as ([] & x8 & E8 & E). apply M_bind_Ret in E as ([] & x9 & E9 & E).
  intros Hs. apply (PullAndInstall_in_progress _ _ _ _ _ _ _ _ _ _ _ E) in Hs. clear E.
  assert (D9 : dbX x9 = if IsValid p then saveInstalledVersion p kNone (dbX x5) else dbX x5).
  { destruct (IsValid p).
    - apply (on_device_db _ _ _ _ (notifyInstallFinished_db _ _ _)) in E9. apply on_device_save in E8 as [_ D8]. congruence.
    - injection E8 as <-. by injection E9 as <-. }
  pose proof (rollback_marks_idle p (fromTufTarget bad) (dbX x) eq_refl) as Hi. cbn zeta in Hi.
  rewrite <- D5, <- D9 in Hi. unfold idle in Hi. unfold IsInstallationInProgress, getPendingTarget in Hs.
  fold (device x9) in Hs. fold (dbX x9) in Hs. congruence.
Qed.
End theorems.

(** ** A concrete device *)

Definition sample_ext : ExtEnv SimpleDB SimpleSR SimpleEN := {|
  api := sample_api "new" []; offline _ := simple_engine;
  usage_env x := stat_env (sample_rootfs 50) x; is_booted_env := true; setuid_ok := true |}.

(** A device on the version [cur], with the versions [bad] that failed on it. *)
Definition sample_ext_state (cur : UTarget) (bad : list UTarget) : ExtSt SimpleDB SimpleSR SimpleEN SimpleTR := {|
  aklite := {|
    dev := set_db {| s_current := Some cur; s_pending := None; s_log := [cur]; s_bad := bad;
                     s_targets := fromTufTarget <$> sample_tuf_targets |} sample_device;
    tuf := {| tr_targets := None |}; configUploaded_ := false; secondary_hwids_ := [];
    cleanup_removed_apps_ := true |};
  state_when_download_failed := no_space_undefined |}.

Definition sample_tuf_2 : TufTarget := sample_tuf "lmp-2" "abc" 2 ["devel"] (JObject sample_apps).
Definition sample_tuf_3 : TufTarget := sample_tuf "lmp-3" "3" 3 ["devel"] (JObject sample_apps).
Definition sample_initial : UTarget :=
  simple_make InitialTarget (target_json "abc" 0 (JObject [("docker_compose_apps", JObject sample_apps)])).

Definition sample_ci : CheckInResult := CIR CiOk "hw" [sample_tuf_2; sample_tuf_3].
Abbreviation no_gti := (GTI BadCheckinStatus TufTarget_unknown "").
Abbreviation sample_gti := (GetTargetToInstall (TR := SimpleTR) sample_ext sample_ci (-1) "" false false false false).
Definition sample_x := sample_ext_state (fromTufTarget sample_tuf_2) [].
Definition sample_x_initial := sample_ext_state sample_initial [fromTufTarget sample_tuf_3].


Lemma sync_selects_latest_witness :
  let r := the no_gti (run sample_gti sample_x_initial) in
  selected_target r = sample_tuf_3 /\ IsRollback sample_tuf_3 (aklite sample_x_initial) = true.
Proof.
  cbn zeta. assert (T : is_throw (run sample_gti sample_x_initial) = false) by (vm_compute; reflexivity).
  split; [|vm_compute; reflexivity].
  apply (sync_selects_latest sample_ext sample_ci false false false sample_x_initial
           (exec sample_gti sample_x_initial) (the no_gti (run sample_gti sample_x_initial)) sample_tuf_3
           (the TufTarget_unknown (GetCurrent (aklite sample_x_initial)))).
  - apply (run_the no_gti sample_gti sample_x_initial T).
  - vm_compute. reflexivity.
  - vm_compute. reflexivity.
  - vm_compute. reflexivity.
  - vm_compute. reflexivity.
  - intros E. vm_compute in E. discriminate E.
Defined.

Abbreviation no_ir := (IRes UnknownError "").
(** A pull only, and an installation. *)
Abbreviation sample_pull :=
  (PullAndInstall (TR := SimpleTR) sample_ext sample_tuf_3 "test" "" All None true false true).
Definition sample_tuf_old : TufTarget := sample_tuf "lmp-2" "2" 2 ["devel"] (JObject sample_apps).
Abbreviation sample_pull_install :=
  (PullAndInstall (TR := SimpleTR) sample_ext sample_tuf_old "test" "" All None true true true).

Lemma PullAndInstall_not_installed_witness :
  ir_status (the no_ir (run sample_pull sample_x)) = IOk /\
  emits quiet (device sample_x) (device (exec sample_pull sample_x)).
Proof.
  assert (T : is_throw (run sample_pull sample_x) = false) by (vm_compute; reflexivity).
  split; [vm_compute; reflexivity|].
  apply (PullAndInstall_not_installed sample_ext sample_tuf_3 "test" "" All None true false true sample_x
           (exec sample_pull sample_x) (the no_ir (run sample_pull sample_x)) (run_the no_ir sample_pull sample_x T)).
  right. split; reflexivity.
Defined.


(** A device whose boot firmware is newer than that of the commit [2]. *)
Definition sample_x_fw : ExtSt SimpleDB SimpleSR SimpleEN SimpleTR :=
  let d := device sample_x in
  let d := set_sr {| sr_current := "abc"; sr_pending := ""; sr_good_url := "https://good"; sr_fw := "3";
                     sr_protected := true; sr_upgrading := false; sr_commits := [] |} d in
  set_aklite (set_dev d (aklite sample_x)) sample_x.


(** The same after the apps of the target were checked. *)
Definition sample_x_checked : ExtSt SimpleDB SimpleSR SimpleEN SimpleTR :=
  exec (on_api (checkAndSetAppsForUpdate (api sample_ext) sample_tuf_old "")) sample_x_fw.
Abbreviation sample_rollback := (Rollback (TR := SimpleTR) sample_ext None).



(** A device on which the installation of [lmp-3] is pending. *)
Definition sample_x_pending : ExtSt SimpleDB SimpleSR SimpleEN SimpleTR :=
  let d := db (device sample_x) in
  set_aklite (set_dev (set_db {| s_current := s_current d; s_pending := Some (fromTufTarget sample_tuf_3);
                                 s_log := s_log d; s_bad := s_bad d; s_targets := s_targets d |}
                         (device sample_x)) (aklite sample_x)) sample_x.

Lemma Rollback_not_refused_witness :
  IsInstallationInProgress (aklite sample_x_pending) = true /\
  ir_status (the no_ir (run sample_rollback sample_x_pending)) <> InstallationInProgress.
Proof.
  split; [vm_compute; reflexivity|].
  apply (Rollback_not_refused sample_ext None sample_x_pending (exec sample_rollback sample_x_pending)).
  apply (run_the no_ir sample_rollback sample_x_pending). vm_compute. reflexivity.
Defined.
