(* ===== verification/Daemon.v ===== *)
(** * Runs of the daemon

    The loop of [src/src/daemon.cc], over any number of turns: it goes on until a turn needs a reboot, and a turn
    whose installation needs one leads to it. *)

From S2P Require Import Prelude Json Targets Registry Volume Restorable Platform Bootloader Sample RootfsTree.
From S2P Require Import ComposeApps Client Bundle CheckIn Install ClientExt.

Section daemon.
Context {DB SR EN TR : Type}.
Context `{AppEngine EN, INvStorage DB, TufRepo DB, Ostree DB SR, BootFwUpdateStatus SR, InstallationResults,
          UptaneTargets, ImageRepo DB TR, TargetSort}.
Context (env : ExtEnv DB SR EN) (auto_downgrade : bool).
Abbreviation S := (St DB SR EN).
Abbreviation X := (ExtSt DB SR EN TR).
Abbreviation aenv := (api env).
Abbreviation cenv := (client aenv).
Abbreviation cycle := (daemon_cycle env auto_downgrade).

(** Turns that do not end the daemon *)
Inductive turns : nat -> X -> X -> Prop :=
  | turns_none x : turns 0 x x
  | turns_more n x x1 x2 : cycle x = (Ret false, x1) -> turns n x1 x2 -> turns (Datatypes.S n) x x2.

(** A turn that begins in [x] and finds the target [t] to install; the installation ended in [x'] with the
    result [r]. *)
Definition update_turn (x : X) (t : TufTarget) (r : InstallResult) (x' : X) : Prop :=
  exists current ci x1 gti x2,
    GetCurrent (aklite x) = Ret current /\
    on_api (CheckIn aenv) x = (Ret ci, x1) /\ CheckInResult_bool ci = true /\
    GetTargetToInstall env ci (-1) "" false false false auto_downgrade x1 = (Ret gti, x2) /\
    selected_target gti = t /\ IsUnknown t = false /\
    PullAndInstall env t (gti_reason gti) "" All None true true (bool_decide (gti_status gti = UpdateNewVersion)) x2
      = (Ret r, x').

(** The statuses of an installation that waits for a reboot *)
Definition waits_for_reboot : list InstallStatus := [NeedsCompletion; AppsNeedCompletion; BootFwNeedsCompletion].

(** ** The run of a daemon *)

(** A run of [n] turns: all of them were made, or one ended the daemon for a reboot, or one threw. *)
Lemma daemon_loop_run n (x x' : X) o :
  daemon_loop env n auto_downgrade false x = (o, x') ->
  (turns n x x' /\ o = Ret None) \/
  (exists k x1, (k < n)%nat /\ turns k x x1 /\
     ((cycle x1 = (Ret true, x') /\ o = Ret (Some EXIT_SUCCESS)) \/ exists e, cycle x1 = (Throw e, x') /\ o = Throw e)).
Proof.
  revert x. induction n as [|n IH]; intros x; cbn [daemon_loop].
  - intros [= <- <-]. left. split; [constructor|done].
  - unfold mbind, M_bind. destruct (cycle x) as [[[]|e] x1] eqn:E; cbn [orb].
    + intros [= <- <-]. right. exists 0%nat, x. split; [lia|]. split; [constructor|]. by left.
    + intros [[Ht ->]|(k & x2 & Hk & Ht & D)]%IH.
      * left. split; [|done]. by econstructor.
      * right. exists (Datatypes.S k), x2. split; [lia|]. split; [by econstructor|done].
    + intros [= <- <-]. right. exists 0%nat, x. split; [lia|]. split; [constructor|]. right. by exists e.
Qed.

(** The loop begins with the turns that do not end it. *)
Lemma daemon_loop_turns k n (x x1 : X) :
  turns k x x1 -> daemon_loop env (k + n) auto_downgrade false x = daemon_loop env n auto_downgrade false x1.
Proof.
  induction 1 as [x|k x y z E _ IH]; [done|]. cbn [Nat.add daemon_loop].
  unfold mbind, M_bind. rewrite E. cbn [orb]. exact IH.
Qed.

(** The daemon stops only for a reboot. *)
Lemma RebootIfRequired_run (x x' : X) b :
  RebootIfRequired env x = (Ret b, x') ->
  b = is_reboot_required (device x') /\
  (b = true -> is_booted_env env = true -> reboot_command cenv <> "" -> setuid_ok env = true ->
   EvReboot (reboot_command cenv) ∈ trace (device x')).
Proof.
  unfold RebootIfRequired. rewrite bind_gets. unfold isRebootRequired. cbn [fst snd].
  destruct (is_reboot_required (device x)) eqn:Hr.
  - intros E. apply M_bind_Ret in E as ([] & x1 & E1 & E). injection E as <- <-.
    destruct (is_booted_env env && negb (str_empty (reboot_command cenv)) && setuid_ok env) eqn:Hc.
    + unfold on_device, on_api, on_client in E1. cbn in E1. injection E1 as <-. cbn. split; [done|]. intros _ _ _ _.
      apply elem_of_app. right. by apply list_elem_of_singleton.
    + injection E1 as <-. split; [done|]. intros _ Hb Hn Hs. rewrite Hb, Hs, andb_true_r in Hc. cbn in Hc.
      apply negb_false_iff, str_empty_spec in Hc. done.
  - intros [= <- <-]. by rewrite Hr.
Qed.

Lemma cycle_stops (x x' : X) : cycle x = (Ret true, x') -> is_reboot_required (device x') = true.
Proof.
  unfold daemon_cycle. intros E. do 2 (apply M_bind_Ret in E as (? & ? & _ & E)).
  apply M_bind_Ret in E as (ci & y1 & _ & E). destruct (CheckInResult_bool ci); [|done].
  apply M_bind_Ret in E as (gti & y2 & _ & E). destruct (negb _); [|done].
  apply M_bind_Ret in E as (r & y3 & _ & E). by apply RebootIfRequired_run in E as [<- _].
Qed.

(** ** A reboot that is needed *)

Lemma client_install_needs_reboot (t : UTarget) (s s' : S) r :
  client_install cenv t All s = (Ret r, s') -> result_code r = kNeedCompletion -> is_reboot_required s' = true.
Proof.
  unfold client_install. intros E Hr. apply M_bind_Ret in E as ([] & s1 & _ & E).
  apply M_bind_Ret in E as (r0 & s2 & _ & E). apply M_bind_Ret in E as (r1 & s3 & Er & E).
  apply M_bind_Ret in E as ([] & s4 & En & E). injection E as <- <-.
  pose proof (preserves_run_inv _ _ _ _ _ (notifyInstallFinished_members cenv t r1) En) as (_ & _ & _ & Hm & _).
  rewrite Hm. unfold record_install in Er. unfold is_code in Er. case_bool_decide as Hc1.
  - apply M_bind_Ret in Er as ([] & s5 & E5 & Er). injection E5 as <-.
    apply M_bind_Ret in Er as (h & s6 & E6 & Er). injection E6 as _ <-.
    apply M_bind_Ret in Er as ([] & s7 & E7 & Er). injection Er as _ <-.
    destruct (String.eqb _ _); [|by injection E7 as <-].
    pose proof (preserves_run_inv _ _ _ _ _ (members_save t kPending) E7) as (_ & _ & _ & Hm' & _). by rewrite Hm'.
  - case_bool_decide as Hc2.
    + do 3 (apply M_bind_Ret in Er as (? & ? & _ & Er)). injection Er as <- _. congruence.
    + case_bool_decide as Hc3; [injection Er as <- _; congruence|].
      apply M_bind_Ret in Er as (? & ? & _ & Er). injection Er as <- _. congruence.
Qed.

Lemma run_install_needs_reboot ctx (x x' : X) r :
  ctx_mode ctx = All -> run_install env ctx x = (Ret r, x') -> ir_status r ∈ waits_for_reboot ->
  is_reboot_required (device x') = true.
Proof.
  unfold run_install. intros Hm E Hr. apply M_bind_Ret in E as ([r' c] & x1 & E1 & E). injection E as <- <-. cbn [fst] in Hr.
  unfold on_device, on_api, on_client in E1.
  destruct (ctx_Install aenv ctx (dev (aklite x))) as [o s1] eqn:Ei. injection E1 as -> <-. cbn.
  unfold ctx_Install in Ei. apply M_bind_Ret in Ei as ([] & sl & _ & Ei). apply M_bind_Ret in Ei as (st & s2 & _ & Ei).
  destruct (negb _); [injection Ei as <- _ _; cbn in Hr; unfold waits_for_reboot in Hr; set_solver|].
  apply M_bind_Ret in Ei as (t & s3 & _ & Ei). apply M_bind_Ret in Ei as (ires & s4 & Ec & Ei).
  apply M_bind_Ret in Ei as (stt & s5 & Es & Ei). injection Es as <- <-. injection Ei as <- _ <-. cbn in Hr.
  rewrite Hm in Ec. apply (client_install_needs_reboot _ _ _ _ Ec).
  unfold install_status, waits_for_reboot in Hr. destruct (result_code ires); set_solver.
Qed.

Context `{!INvStorageSpec DB, !UptaneTargetsSpec, !InstallationResultsSpec}.

Lemma update_turn_cycle (x x' : X) t r :
  update_turn x t r x' -> ir_status r ∈ waits_for_reboot ->
  exists x3, cycle x = (Ret true, x3) /\
    (is_booted_env env = true -> reboot_command cenv <> "" -> setuid_ok env = true ->
     EvReboot (reboot_command cenv) ∈ trace (device x3)).
Proof.
  intros (current & ci & x1 & gti & x2 & Hcur & Hci & Hok & Hgti & <- & Hu & Hp) Hr.
  assert (Hreq : is_reboot_required (device x') = true).
  { destruct (PullAndInstall_ran _ _ _ _ _ _ _ _ _ _ _ Hp) as (ctx & y1 & y2 & y3 & Hi & Hrun);
      [unfold waits_for_reboot in Hr; set_solver|].
    unfold on_api in Hi. destruct (Installer _ _ _ _ _ _ _ _ (aklite y1)) as [o a4] eqn:Ei. injection Hi as -> _.
    destruct (Installer_run _ _ _ _ _ _ _ _ _ _ _ Ei) as (_ & _ & _ & _ & _ & _ & Hm & _).
    by apply (run_install_needs_reboot _ _ _ _ Hm Hrun). }
  destruct (RebootIfRequired env x') as [o x3] eqn:Hreb.
  assert (exists b, o = Ret b) as [b ->].
  { unfold RebootIfRequired in Hreb. rewrite bind_gets in Hreb. unfold isRebootRequired in Hreb. cbn [fst snd] in Hreb.
    revert Hreb. destruct (is_reboot_required (device x')); [|by intros [= <- _]; exists false].
    case_match; intros [= <- _]; by eexists. }
  pose proof (RebootIfRequired_run _ _ _ Hreb) as [Hb Ht].
  assert (b = true) as ->.
  { unfold RebootIfRequired in Hreb. rewrite bind_gets in Hreb. unfold isRebootRequired in Hreb. cbn [fst snd] in Hreb.
    rewrite Hreq in Hreb. apply M_bind_Ret in Hreb as (? & ? & _ & E). by injection E as <-. }
  exists x3. split; [|by apply Ht]. unfold daemon_cycle.
  rewrite bind_gets, (bind_lift _ _ current) by done. rewrite (bind_run _ _ ci x x1) by done. rewrite Hok.
  rewrite (bind_run _ _ gti x1 x2) by done. rewrite Hu. cbn [negb]. rewrite (bind_run _ _ r x2 x') by done. exact Hreb.
Qed.

(** C19: what is needed happens: once a turn of the daemon has deployed a target, or finds an unfinished update of the boot
    firmware, so that a reboot is needed, the daemon ends in this very turn with a code of success, however many turns
    it could still make, and in a booted system it has started the reboot command. *)
Theorem daemon_reboots (k n : nat) (x x1 x2 : X) (t : TufTarget) (r : InstallResult) :
  turns k x x1 -> update_turn x1 t r x2 -> ir_status r ∈ waits_for_reboot -> (k < n)%nat ->
  exists x3, daemon_loop env n auto_downgrade false x = (Ret (Some EXIT_SUCCESS), x3) /\
    (is_booted_env env = true -> reboot_command cenv <> "" -> setuid_ok env = true ->
     EvReboot (reboot_command cenv) ∈ trace (device x3)).
Proof.
  intros Ht Hu Hr Hk. destruct (update_turn_cycle _ _ _ _ Hu Hr) as (x3 & Hc & He). exists x3. split; [|done].
  replace n with (k + Datatypes.S (n - k - 1))%nat by lia. rewrite (daemon_loop_turns _ _ _ _ Ht). cbn [daemon_loop].
  unfold mbind, M_bind. by rewrite Hc.
Qed.

(** The daemon goes on: it ends by itself only when a reboot is needed, with a code of success; otherwise it makes every
    turn, unless one of them throws. *)
Theorem daemon_goes_on (n : nat) (x x' : X) (o : outcome (option Z)) :
  daemon_loop env n auto_downgrade false x = (o, x') ->
  match o with
  | Ret None => turns n x x'
  | Ret (Some code) => code = EXIT_SUCCESS /\ is_reboot_required (device x') = true
  | Throw e => exists k x1, (k < n)%nat /\ turns k x x1 /\ cycle x1 = (Throw e, x')
  end.
Proof.
  intros [[Ht ->]|(k & x1 & Hk & Ht & [[Hc ->]|(e & Hc & ->)])]%daemon_loop_run.
  - done.
  - split; [done|]. by apply cycle_stops in Hc.
  - by exists k, x1.
Qed.

(** ** A target the storage has no room for *)

(** Nothing but reports and callbacks *)
Definition is_report (e : Event) : Prop := match e with EvReport _ _ _ _ _ _ | EvCallback _ _ => True | _ => False end.
Definition only_reports (s s' : S) : Prop :=
  emits is_report s s' /\ db s' = db s /\ sr s' = sr s /\ en s' = en s /\ same_members s s'.
#[local] Instance only_reports_preorder : PreOrder only_reports.
Proof.
  split; [intros s; split_and!; reflexivity|]. intros s1 s2 s3 (E1 & D1 & R1 & N1 & M1) (E2 & D2 & R2 & N2 & M2).
  split_and!; [by transitivity s2|congruence..|by transitivity s2].
Qed.
Lemma emit_only_reports e : is_report e -> preserves only_reports (emit e : M S unit).
Proof. intros He s. split_and!; try done. by apply emits_emit. Qed.

Lemma notifyDownloadFinished_total t b d (s : S) :
  exists s', notifyDownloadFinished cenv t b d s = (Ret tt, s') /\ only_reports s s'.
Proof.
  assert (P : preserves only_reports (notifyDownloadFinished cenv t b d : M S _)).
  { unfold notifyDownloadFinished, callback, notify. pstep; by apply emit_only_reports. }
  specialize (P s). unfold exec in P. destruct (notifyDownloadFinished cenv t b d s) as [o s'] eqn:E. exists s'.
  split; [|exact P]. f_equal. revert E. unfold notifyDownloadFinished, callback, notify. mstep.
  unfold current, gets, emit, modify. destruct (str_empty (callback_program cenv)), (negb (str_empty (tls_server cenv)));
    cbv beta iota; intros E; by inversion E.
Qed.

(** A call for a target that the storage is known to be too small for *)
Lemma cached_no_space t rsn cid mode local dl inst tuf (x : X) current msg :
  IsInstallationInProgress (aklite x) = false -> GetCurrent (aklite x) = Ret current ->
  still_no_space env t x = Some msg ->
  exists x', PullAndInstall env t rsn cid mode local dl inst tuf x = (Ret (IRes IDownloadFailed_NoSpace msg), x') /\
    only_reports (device x) (device x') /\ state_when_download_failed x' = state_when_download_failed x.
Proof.
  intros Hp Hc Hn. unfold PullAndInstall. rewrite bind_gets, Hp. cbn [negb]. rewrite bind_gets, (bind_lift _ _ current) by done.
  rewrite bind_gets, Hn, bind_gets.
  destruct (notifyDownloadFinished_total (setCorrelationId (fromTufTarget t) (ns_cor_id (state_when_download_failed x)))
              false msg (device x)) as (s' & E & R).
  exists (set_aklite (set_dev s' (aklite x)) x). split; [|done].
  rewrite (bind_run _ _ tt x (set_aklite (set_dev s' (aklite x)) x)); [done|].
  unfold on_device, on_api, on_client. unfold device in E. by rewrite E.
Qed.

End daemon.

(** ** A concrete daemon *)

Abbreviation sample_checkin := (on_api (CheckIn (api sample_ext)) : M (ExtSt SimpleDB SimpleSR SimpleEN SimpleTR) _).
Abbreviation no_ci := (CIR CiFailed "" []).
Abbreviation sample_x1 := (exec sample_checkin sample_x).
Abbreviation sample_choice :=
  (GetTargetToInstall (TR := SimpleTR) sample_ext (the no_ci (run sample_checkin sample_x)) (-1) "" false false false false).
Abbreviation sample_x2 := (exec sample_choice sample_x1).
Abbreviation sample_chosen := (the no_gti (run sample_choice sample_x1)).
Abbreviation sample_pull :=
  (PullAndInstall (TR := SimpleTR) sample_ext (selected_target sample_chosen) (gti_reason sample_chosen) "" All None true true
     (bool_decide (gti_status sample_chosen = UpdateNewVersion))).

Lemma daemon_reboots_witness :
  exists x3, daemon_loop sample_ext 5 false false sample_x = (Ret (Some EXIT_SUCCESS), x3) /\
    EvReboot "/sbin/reboot" ∈ trace (device x3).
Proof.
  destruct (daemon_reboots sample_ext false 0 5 sample_x sample_x (exec sample_pull sample_x2)
              (selected_target sample_chosen) (the no_ir (run sample_pull sample_x2))) as (x3 & E & Ev).
  - constructor.
  - exists (the TufTarget_unknown (GetCurrent (aklite sample_x))), (the no_ci (run sample_checkin sample_x)), sample_x1,
      sample_chosen, sample_x2.
    split_and!; [vm_compute; reflexivity| |vm_compute; reflexivity| |reflexivity|vm_compute; reflexivity|];
      apply run_the; vm_compute; reflexivity.
  - vm_compute. left.
  - lia.
  - exists x3. split; [exact E|]. by apply Ev.
Defined.

Lemma daemon_goes_on_witness :
  match run (daemon_loop sample_ext 5 false false) sample_x with
  | Ret None => turns sample_ext false 5 sample_x (exec (daemon_loop sample_ext 5 false false) sample_x)
  | Ret (Some code) => code = EXIT_SUCCESS /\
      is_reboot_required (device (exec (daemon_loop sample_ext 5 false false) sample_x)) = true
  | Throw e => exists k x1, (k < 5)%nat /\ turns sample_ext false k sample_x x1 /\
      daemon_cycle sample_ext false x1 = (Throw e, exec (daemon_loop sample_ext 5 false false) sample_x)
  end.
Proof.
  apply (daemon_goes_on sample_ext false 5 sample_x). unfold run, exec.
  by destruct (daemon_loop sample_ext 5 false false sample_x).
Defined.

(** A download of [lmp-3] failed for want of a gigabyte. *)
Definition sample_x_full : ExtSt SimpleDB SimpleSR SimpleEN SimpleTR :=
  set_no_space
    {| ns_commit := "3"; ns_cor_id := "cid";
       ns_stat := withRequired (getUsageInfo (usage_env sample_ext (sr (device sample_x))) "/" 0 "") 1000000000 |} sample_x.
