(* ===== verification/Cli.v ===== *)
(** * The command line interface

    [src/src/cli/cli.cc] with [src/include/aktualizr-lite/cli/cli.h]: the commands
    a user gives, built on the update cycle, the exit code each ends with, and
    the reports in JSON. *)

From S2P Require Import Prelude Json Targets Registry Volume Restorable Platform Bootloader Sample RootfsTree.
From S2P Require Import ComposeApps Client Bundle CheckIn Install ClientExt.

(** ** Exit codes *)

Inductive StatusCode :=
  | SC_UnknownError | SC_Ok | SC_CheckinOkCached | SC_CheckinFailure | SC_OkNeedsRebootForBootFw
  | SC_CheckinNoMatchingTargets | SC_CheckinNoTargetContent | SC_InstallAppsNeedFinalization
  | SC_CheckinSecurityError | SC_CheckinExpiredMetadata | SC_CheckinMetadataFetchFailure
  | SC_CheckinMetadataNotFound | SC_CheckinInvalidBundleMetadata | SC_CheckinUpdateNewVersion
  | SC_CheckinUpdateSyncApps | SC_CheckinUpdateRollback | SC_TufTargetNotFound | SC_RollbackTargetNotFound
  | SC_InstallationInProgress | SC_NoPendingInstallation | SC_DownloadFailure | SC_DownloadFailureNoSpace
  | SC_DownloadFailureVerificationFailed | SC_InstallAlreadyInstalled | SC_InstallTargetPullFailure
  | SC_InstallNeedsRebootForBootFw | SC_InstallOfflineRollbackOk | SC_InstallNeedsReboot
  | SC_InstallDowngradeAttempt | SC_InstallRollbackOk | SC_InstallRollbackNeedsReboot | SC_InstallRollbackFailed.
#[export] Instance StatusCode_eq_dec : EqDecision StatusCode.
Proof. solve_decision. Defined.

(** [static_cast<int>(status)] *)
Definition StatusCode_int (sc : StatusCode) : Z :=
  match sc with
  | SC_UnknownError => EXIT_FAILURE
  | SC_Ok => EXIT_SUCCESS
  | SC_CheckinOkCached => 3
  | SC_CheckinFailure => 4
  | SC_OkNeedsRebootForBootFw => 5
  | SC_CheckinNoMatchingTargets => 6
  | SC_CheckinNoTargetContent => 8
  | SC_InstallAppsNeedFinalization => 10
  | SC_CheckinSecurityError => 11
  | SC_CheckinExpiredMetadata => 12
  | SC_CheckinMetadataFetchFailure => 13
  | SC_CheckinMetadataNotFound => 14
  | SC_CheckinInvalidBundleMetadata => 15
  | SC_CheckinUpdateNewVersion => 16
  | SC_CheckinUpdateSyncApps => 17
  | SC_CheckinUpdateRollback => 18
  | SC_TufTargetNotFound => 20
  | SC_RollbackTargetNotFound => 21
  | SC_InstallationInProgress => 30
  | SC_NoPendingInstallation => 40
  | SC_DownloadFailure => 50
  | SC_DownloadFailureNoSpace => 60
  | SC_DownloadFailureVerificationFailed => 70
  | SC_InstallAlreadyInstalled => 75
  | SC_InstallTargetPullFailure => 80
  | SC_InstallNeedsRebootForBootFw => 90
  | SC_InstallOfflineRollbackOk => 99
  | SC_InstallNeedsReboot => 100
  | SC_InstallDowngradeAttempt => 102
  | SC_InstallRollbackOk => 110
  | SC_InstallRollbackNeedsReboot => 120
  | SC_InstallRollbackFailed => 130
  end.

(** A map made from a list of pairs keeps the first pair of a key. *)
Fixpoint table_lookup {T V} `{EqDecision T} (code_map : list (T * V)) (k : T) : option V :=
  match code_map with
  | [] => None
  | (k', v) :: m => if bool_decide (k = k') then Some v else table_lookup m k
  end.

Definition res2StatusCode {T} `{EqDecision T} (code_map : list (T * StatusCode)) (rc : T) : StatusCode :=
  default SC_UnknownError (table_lookup code_map rc).

Definition c2s : list (CheckInStatus * StatusCode) :=
  [(CiOk, SC_Ok); (CiOkCached, SC_CheckinOkCached); (CiFailed, SC_CheckinFailure);
   (NoMatchingTargets, SC_CheckinNoMatchingTargets); (NoTargetContent, SC_CheckinNoTargetContent);
   (SecurityError, SC_CheckinSecurityError); (CiExpiredMetadata, SC_CheckinExpiredMetadata);
   (CiMetadataFetchFailure, SC_CheckinMetadataFetchFailure); (CiMetadataNotFound, SC_CheckinMetadataNotFound);
   (BundleMetadataError, SC_CheckinInvalidBundleMetadata)].

Definition t2s : list (GtiStatus * StatusCode) :=
  [(TufTargetNotFound, SC_TufTargetNotFound); (TargetAlreadyInstalled, SC_InstallAlreadyInstalled);
   (RollbackTargetNotFound, SC_RollbackTargetNotFound);
   (RollbackTargetNotFound, SC_UnknownError); (BadCheckinStatus, SC_UnknownError);
   (NoUpdate, SC_Ok); (UpdateNewVersion, SC_CheckinUpdateNewVersion);
   (UpdateSyncApps, SC_CheckinUpdateSyncApps); (UpdateRollback, SC_CheckinUpdateRollback)].

(** A table that no function uses *)
Definition d2s : list (DownloadStatus * StatusCode) :=
  [(DOk, SC_Ok); (DownloadFailed, SC_DownloadFailure); (VerificationFailed, SC_DownloadFailureVerificationFailed);
   (DownloadFailed_NoSpace, SC_DownloadFailureNoSpace)].
Definition i2s : list (InstallStatus * StatusCode) :=
  [(IOk, SC_Ok); (OkBootFwNeedsCompletion, SC_OkNeedsRebootForBootFw); (NeedsCompletion, SC_InstallNeedsReboot);
   (AppsNeedCompletion, SC_InstallAppsNeedFinalization); (BootFwNeedsCompletion, SC_InstallNeedsRebootForBootFw);
   (IDownloadFailed, SC_InstallTargetPullFailure); (DownloadOstreeFailed, SC_DownloadFailure);
   (IVerificationFailed, SC_DownloadFailureVerificationFailed); (IDownloadFailed_NoSpace, SC_DownloadFailureNoSpace);
   (InstallationInProgress, SC_InstallationInProgress); (InstallRollbackFailed, SC_InstallRollbackFailed);
   (InstallRollbackOk, SC_InstallRollbackOk); (UnknownError, SC_UnknownError)].

(** [status2string] *)
Definition status2string : list (StatusCode * string) :=
  [(SC_Ok, "Operation succeeded");
   (SC_CheckinOkCached, "Unable to fetch updated TUF metadata, but stored metadata is valid");
   (SC_CheckinFailure, "Failed to update TUF metadata");
   (SC_CheckinNoMatchingTargets, "There is no target in the device TUF repo that matches a device tag and/or hardware ID");
   (SC_CheckinNoTargetContent, "Failed to find the ostree commit and/or all Apps of the Target to be installed in the provided source bundle (offline mode only)");
   (SC_CheckinSecurityError, "Invalid TUF metadata");
   (SC_CheckinExpiredMetadata, "TUF metadata is expired");
   (SC_CheckinMetadataFetchFailure, "Unable to fetch TUF metadata");
   (SC_CheckinMetadataNotFound, "TUF metadata not found in the provided path (offline mode only)");
   (SC_CheckinInvalidBundleMetadata, "The bundle metadata is invalid (offline mode only).There are a few reasons why the metadata might be invalid:" +:+ nl +:+ "        1. One or more bundle signatures is/are invalid." +:+ nl +:+ "        2. The bundle targets' type, whether CI or production, differs from the device's type." +:+ nl +:+ "        3. The bundle targets' tag differs from the device's tag.");
   (SC_TufTargetNotFound, "Selected target not found");
   (SC_CheckinUpdateNewVersion, "Update required: new version");
   (SC_CheckinUpdateSyncApps, "Update required: apps synchronization");
   (SC_CheckinUpdateRollback, "Update required: rollback");
   (SC_RollbackTargetNotFound, "Unable to find target to rollback to after a failure to start Apps at boot on a new version of sysroot");
   (SC_InstallationInProgress, "Unable to pull/install: there is an installation that needs completion");
   (SC_DownloadFailure, "Unable to download target");
   (SC_DownloadFailureNoSpace, "There is no enough free space to download the target");
   (SC_DownloadFailureVerificationFailed, "The pulled target content is invalid, specifically App compose file is invalid");
   (SC_InstallAlreadyInstalled, "Selected target is already installed");
   (SC_InstallDowngradeAttempt, "Attempted to install a previous version");
   (SC_InstallAppsNeedFinalization, "Execute the `run` subcommand to finalize installation");
   (SC_InstallTargetPullFailure, "Unable read target data, make sure it was pulled");
   (SC_InstallNeedsRebootForBootFw, "Reboot is required to complete the previous boot firmware update. After reboot the update attempt must be repeated from the beginning");
   (SC_InstallNeedsReboot, "Reboot to finalize installation");
   (SC_OkNeedsRebootForBootFw, "Reboot to finalize bootloader installation");
   (SC_InstallRollbackNeedsReboot, "Installation failed, rollback initiated but requires reboot to finalize");
   (SC_NoPendingInstallation, "No pending installation to run");
   (SC_InstallOfflineRollbackOk, "Offline installation failed, rollback performed");
   (SC_InstallRollbackOk, "Online installation failed, rollback performed");
   (SC_InstallRollbackFailed, "Installation failed and rollback operation was not successful");
   (SC_UnknownError, "Unknown error")].

Definition StatusCodeDescription (status : StatusCode) : string :=
  match table_lookup status2string status with
  | Some d => d
  | None => "Invalid StatusCode value: " +:+ to_string (StatusCode_int status)
  end.

Definition IsSuccessCode (status : StatusCode) : bool :=
  bool_decide (status = SC_Ok) || bool_decide (status = SC_CheckinOkCached)
  || bool_decide (status = SC_CheckinUpdateNewVersion) || bool_decide (status = SC_CheckinUpdateSyncApps)
  || bool_decide (status = SC_CheckinUpdateRollback) || bool_decide (status = SC_OkNeedsRebootForBootFw)
  || bool_decide (status = SC_InstallNeedsReboot) || bool_decide (status = SC_InstallAppsNeedFinalization).

Inductive PullMode := PullAll | PullNone.
#[export] Instance PullMode_eq_dec : EqDecision PullMode.
Proof. solve_decision. Defined.
Inductive CheckMode := CmUpdate | CmCurrent.

(** ** JSON documents under construction *)

(** An object made by assigning the members one after the other. *)
Definition jobject (l : list (string * json)) : json :=
  JObject (fold_left (fun m (p : string * json) => obj_insert p.1 p.2 m) l []).

(** ** The commands *)

(** What a command prints on the standard output. *)
Inductive output := NoOutput | JsonOutput (j : json) | TextOutput (text : string).

(** Beyond the environment of the update cycle: the tags as the configuration prints
    them (between quotes; empty if there are none) and the common name of the
    device certificate. *)
Record CliEnv (DB SR EN : Type) := {
  ext_env : ExtEnv DB SR EN;
  pacman_tags : string;
  getCN : outcome string;
}.
Arguments ext_env {DB SR EN}.
Arguments pacman_tags {DB SR EN}.
Arguments getCN {DB SR EN}.

Section cli.
Context {DB SR EN TR R : Type}.
Context `{AppEngine EN, INvStorage DB, TufRepo DB, Ostree DB SR, BootFwUpdateStatus SR, InstallationResults,
          UptaneTargets, ImageRepo DB TR, TargetSort, RootRepo R}.
Context (env : CliEnv DB SR EN).
Abbreviation S := (St DB SR EN).
Abbreviation A := (ApiSt DB SR EN TR).
Abbreviation X := (ExtSt DB SR EN TR).
Abbreviation xenv := (ext_env env).
Abbreviation aenv := (api xenv).
Abbreviation cenv := (client aenv).

Definition checkIn (check_mode : CheckMode) (local : option LocalUpdateSource) : M X CheckInResult :=
  match check_mode, local with
  | CmUpdate, None => on_api (CheckIn aenv)
  | CmUpdate, Some l => on_api (CheckInLocal (R := R) aenv l)
  | CmCurrent, _ => on_api (CheckInCurrent aenv local)
  end.

(** Whether the user runs the app: all apps, or those of the shortlist. *)
Definition app_on (app_shortlist : option (list string)) (name : string) : bool :=
  match app_shortlist with None => true | Some l => mem name l end.

Definition app_entry_json (shortlist : option (list string)) (a : AppDesc) : json :=
  jobject [("name", JString (Targets.app_name a)); ("uri", JString (Targets.app_uri a));
           ("on", JBool (app_on shortlist (Targets.app_name a)))].

(** A target of [getCheckInResultJson] *)
Definition checkin_target_json (current : TufTarget) (gti_res : GetTargetToInstallResult) (failed : bool)
    (target : TufTarget) : outcome json :=
  apps_json ← AppsJson target;
  descs ← app_descs (jitems apps_json);
  json_apps ← foldO (fun j a => jappend j (app_entry_json (getAppShortlist cenv) a)) JNull descs;
  mret (jobject
    ([("name", JString (Name target)); ("version", JInt (Version target))]
     ++ (if negb (IsUnknown (selected_target gti_res)) && String.eqb (Name (selected_target gti_res)) (Name target)
         then [("selected", JBool true); ("reason", JString (gti_reason gti_res))] else [])
     ++ (if failed then [("failed", JBool true)] else [])
     ++ (if Version current =? Version target then [("current", JBool true)]
         else if Version current <? Version target then [("newer", JBool true)] else [])
     ++ [("apps", json_apps)])).

Definition getCheckInResultJson (ci_res : CheckInResult) (gti_res : GetTargetToInstallResult) (x : X) : outcome json :=
  current ← GetCurrent (aklite x);
  foldO (fun root target =>
    json_target ← checkin_target_json current gti_res (IsRollback target (aklite x)) target;
    jappend root json_target) JNull (ci_targets ci_res).

(** The same as text *)
Definition tab : string := String (Ascii.ascii_of_nat 9) "".
Definition target_text (target : TufTarget) : outcome string :=
  apps_json ← AppsJson target;
  descs ← app_descs (jitems apps_json);
  mret (Name target +:+ nl +:+ tab +:+ "ostree: " +:+ Sha256Hash target +:+ nl +:+ tab +:+ "apps:" +:+ nl
        +:+ fold_left (fun s a => s +:+ tab +:+ tab
              +:+ "(" +:+ (if app_on (getAppShortlist cenv) (Targets.app_name a) then "on" else "off") +:+ ") "
              +:+ Targets.app_name a +:+ " -> " +:+ Targets.app_uri a +:+ nl) descs "" +:+ nl).
Definition checkin_text (ci_res : CheckInResult) : outcome string :=
  foldO (fun s t => x ← target_text t; mret (s +:+ x))
    (nl +:+ (if bool_decide (ci_targets ci_res = []) then "No Targets found" else "Found Targets: ") +:+ nl)
    (ci_targets ci_res).

Definition cli_CheckIn (local : option LocalUpdateSource) (check_mode : CheckMode) (json_output auto_downgrade : bool)
    : M X (StatusCode * output) :=
  cr ← checkIn check_mode local;
  if negb (CheckInResult_bool cr) then mret (res2StatusCode c2s (ci_status cr), NoOutput)
  else
    gti_res ← GetTargetToInstall xenv cr (-1) "" false false false auto_downgrade;
    out ← (if json_output
           then j ← gets (getCheckInResultJson cr gti_res); j' ← lift j; mret (JsonOutput j')
           else t ← lift (checkin_text cr); mret (TextOutput t));
    mret (if GTI_bool gti_res && IsUnknown (selected_target gti_res)
          then res2StatusCode c2s (ci_status cr) else res2StatusCode t2s (gti_status gti_res), out).

(** The target is lower than the current one and the user does not force it. *)
Definition refused_downgrade (current : TufTarget) (gti_res : GetTargetToInstallResult) (force_downgrade : bool)
    : bool := (Version (selected_target gti_res) <? Version current) && negb force_downgrade.

Definition pullAndInstall (version : Z) (target_name : string) (install_mode : InstallMode) (force_downgrade : bool)
    (local : option LocalUpdateSource) (pull_mode : PullMode) (do_install : bool) (check_mode : CheckMode)
    (auto_downgrade : bool) : M X StatusCode :=
  in_progress ← gets (fun x => IsInstallationInProgress (aklite x));
  if in_progress : bool then
    p ← gets (fun x => GetPendingTarget (aklite x)); _ ← lift p;
    mret SC_InstallationInProgress
  else
    ci_res ← checkIn check_mode local;
    if negb (CheckInResult_bool ci_res) then mret (res2StatusCode c2s (ci_status ci_res))
    else
      gti_res ← GetTargetToInstall xenv ci_res version target_name true true (bool_decide (local <> None)) auto_downgrade;
      if IsUnknown (selected_target gti_res) then mret (res2StatusCode t2s (gti_status gti_res))
      else
        cur ← gets (fun x => GetCurrent (aklite x)); current ← lift cur;
        if refused_downgrade current gti_res force_downgrade then mret SC_InstallDowngradeAttempt
        else
          pi_res ← PullAndInstall xenv (selected_target gti_res) (gti_reason gti_res) "" install_mode local
                     (bool_decide (pull_mode = PullAll)) do_install
                     (bool_decide (gti_status gti_res = UpdateNewVersion));
          mret (res2StatusCode i2s (ir_status pi_res)).

Definition Pull (version : Z) (target_name : string) (force_downgrade : bool) (local : option LocalUpdateSource)
    (check_mode : CheckMode) (auto_downgrade : bool) : M X StatusCode :=
  pullAndInstall version target_name All force_downgrade local PullAll false check_mode auto_downgrade.

Definition cli_Install (version : Z) (target_name : string) (install_mode : InstallMode) (force_downgrade : bool)
    (local : option LocalUpdateSource) (pull_mode : PullMode) (check_mode : CheckMode) (auto_downgrade : bool)
    : M X StatusCode :=
  pullAndInstall version target_name install_mode force_downgrade local pull_mode true check_mode auto_downgrade.

(** ** Completion of an installation *)

(** The bootloader went back to the target before: its apps are brought in line. *)
Definition sync_after_rollback : M X StatusCode :=
  ri ← on_api (CheckAppsInSync aenv);
  match ri with
  | None => mret SC_InstallRollbackOk
  | Some ctx =>
      rir ← run_install xenv ctx;
      mret (if bool_decide (ir_status rir = IOk) then SC_InstallRollbackOk else SC_InstallRollbackFailed)
  end.

(** The new root file system runs but its apps do not: the target before is installed. *)
Definition roll_back_after_boot : M X StatusCode :=
  rt ← gets (fun x => GetRollbackTarget true (aklite x)); rollback_target ← lift rt;
  if IsUnknown rollback_target then mret SC_InstallRollbackFailed
  else
    ri ← on_api (Installer aenv rollback_target "" "" All None true false);
    match ri with
    | None => mret SC_UnknownError
    | Some ctx =>
        rir ← run_install xenv ctx;
        mret (match ir_status rir with
              | NeedsCompletion => SC_InstallRollbackNeedsReboot
              | IOk => SC_InstallRollbackOk
              | _ => SC_InstallRollbackFailed
              end)
    end.

Definition CompleteInstall : M X StatusCode :=
  in_progress ← gets (fun x => IsInstallationInProgress (aklite x));
  if negb in_progress then mret SC_NoPendingInstallation
  else
    p ← gets (fun x => GetPendingTarget (aklite x)); pending ← lift p;
    ir ← on_api (CompleteInstallation aenv);
    if negb (InstallResult_bool ir) then
      cur ← gets (fun x => GetCurrent (aklite x)); current ← lift cur;
      if negb (String.eqb (Sha256Hash current) (Sha256Hash pending)) then sync_after_rollback
      else roll_back_after_boot
    else mret (res2StatusCode i2s (ir_status ir)).

Definition cli_Rollback (local : option LocalUpdateSource) : M X StatusCode :=
  install_result ← Rollback xenv local;
  mret (res2StatusCode i2s (ir_status install_result)).

(** ** The status of the device *)

Fixpoint status_apps (shortlist : option (list string)) (items : list (string * json)) (apps_array : json)
    : M X json :=
  match items with
  | [] => mret apps_array
  | (k, v) :: items' =>
      app ← lift (make_AppDesc k v);
      running ← IsAppRunning xenv (Targets.app_name app) (Targets.app_uri app);
      arr ← lift (jappend apps_array
                    (jobject [("name", JString (Targets.app_name app)); ("uri", JString (Targets.app_uri app));
                              ("on", JBool (app_on shortlist (Targets.app_name app))); ("running", JBool running)]));
      status_apps shortlist items' arr
  end.

Definition getTargetStatusJson (target : UTarget) (shortlist : option (list string)) : M X json :=
  version ← lift (match stoi 10 (custom_version target) with
                  | Ret v => Ret [("version", JInt v)]
                  | Throw (Exn invalid_argument _) => Ret []
                  | Throw e => Throw e
                  end);
  t ← lift (toTufTarget target);
  apps_json ← lift (AppsJson t);
  apps ← status_apps shortlist (jitems apps_json) (JArray []);
  mret (jobject ([("name", JString (filename target))] ++ version
                 ++ [("ostree_hash", JString (sha256Hash target)); ("apps", apps)])).

(** [tag.substr(1, tag.size() - 2)]; a string of one character gives the empty string. *)
Definition unquoted_tag (tag : string) : outcome string :=
  if str_empty tag then throw out_of_range "basic_string::substr"
  else mret (substr 1 (if Nat.eqb (String.length tag) 1 then 0 else String.length tag - 2)%nat tag).

Definition opt_status (k : string) (t : option UTarget) : M X (list (string * json)) :=
  match t with
  | None => mret []
  | Some t => j ← getTargetStatusJson t (getAppShortlist cenv); mret [(k, j)]
  end.

Definition GetStatusJson : M X json :=
  res ← lift (GetDevice aenv);
  cur ← gets (fun x => GetCurrent (aklite x)); current ← lift cur;
  tag ← lift (unquoted_tag (pacman_tags env));
  versions ← gets (fun x => loadInstalledVersions (db (device x)));
  applied ← opt_status "applied_target" versions.1;
  pending ← opt_status "pending_target" versions.2;
  mret (jobject ([("device_name", JString (dev_name res)); ("device_factory", JString (dev_factory res))]
                 ++ match getCN env with Ret id => [("device_uuid", JString id)] | Throw _ => [] end
                 ++ [("ostree_hash", JString (Sha256Hash current)); ("tag", JString tag)]
                 ++ applied ++ pending)).
End cli.

(** ** Theorems *)

(** *** Exit codes *)

Lemma i2s_success st :
  IsSuccessCode (res2StatusCode i2s st) = true <->
  st ∈ [IOk; OkBootFwNeedsCompletion; NeedsCompletion; AppsNeedCompletion].
Proof. destruct st; vm_compute; split; intros E; (done || set_solver). Qed.
Lemma t2s_success st : IsSuccessCode (res2StatusCode t2s st) = GTI_bool (GTI st TufTarget_unknown "").
Proof. by destruct st. Qed.
Lemma c2s_success st : IsSuccessCode (res2StatusCode c2s st) = status_good st.
Proof. by destruct st. Qed.

(** The exit codes are different numbers, each has a description, and a code is one of success
    exactly if the result it stands for is, with one exception: a roll back that succeeded after an
    installation failed is no success of the command. *)
Theorem exit_codes :
  (forall a b, StatusCode_int a = StatusCode_int b -> a = b) /\
  (forall a, table_lookup status2string a = Some (StatusCodeDescription a)) /\
  (forall st, IsSuccessCode (res2StatusCode c2s st) = CheckInResult_bool (CIR st "" [])) /\
  (forall st t r, IsSuccessCode (res2StatusCode t2s st) = GTI_bool (GTI st t r)) /\
  (forall st d, IsSuccessCode (res2StatusCode i2s st) =
     InstallResult_bool (IRes st d) && negb (bool_decide (st = InstallRollbackOk))).
Proof.
  split_and!.
  - intros a b. destruct a, b; done.
  - intros a. by destruct a.
  - intros st. by destruct st.
  - intros st t r. by destruct st.
  - intros st d. by destruct st.
Qed.

Section theorems.
Context {DB SR EN TR R : Type}.
Context `{AppEngine EN, INvStorage DB, TufRepo DB, Ostree DB SR, BootFwUpdateStatus SR, InstallationResults,
          UptaneTargets, ImageRepo DB TR, TargetSort, RootRepo R}.
Context `{!INvStorageSpec DB, !UptaneTargetsSpec, !InstallationResultsSpec}.
Context (env : CliEnv DB SR EN).
Abbreviation S := (St DB SR EN).
Abbreviation A := (ApiSt DB SR EN TR).
Abbreviation X := (ExtSt DB SR EN TR).
Abbreviation xenv := (ext_env env).
Abbreviation aenv := (api xenv).
Abbreviation checkin := (checkIn (R := R) env).

(** What the device records of the commit [sha] after an installation that did not fail. *)
Definition recorded (sha : string) (st : InstallStatus) (s : S) : Prop :=
  let pending := exists p, pending_of (db s) = Some p /\ sha256Hash p = sha in
  match st with
  | IOk => exists t d, sha256Hash t = sha /\ db s = saveInstalledVersion t kCurrent d
  | NeedsCompletion => pending /\ sha256Hash (getCurrent (db s) (sr s)) <> sha
  | AppsNeedCompletion => pending /\ sha256Hash (getCurrent (db s) (sr s)) = sha
  | _ => False
  end.

Lemma run_install_recorded ctx (x x' : X) r :
  run_install xenv ctx x = (Ret r, x') -> sha256Hash (ctx_target ctx) <> sha256Hash Unknown ->
  InstallResult_bool r = true -> recorded (sha256Hash (ctx_target ctx)) (ir_status r) (device x').
Proof.
  unfold run_install. intros E Hu Hr. apply M_bind_Ret in E as ([res c] & x1 & E1 & E). injection E as <- <-.
  unfold on_device, on_api, on_client in E1.
  destruct (ctx_Install aenv ctx (dev (aklite x))) as [o s1] eqn:Ei. injection E1 as -> <-. cbn [fst] in *.
  change (device _) with s1. destruct (ctx_Install_run _ _ _ _ _ _ Ei Hu) as [[Hs _]|H'].
  - unfold InstallResult_bool in Hr. by rewrite Hs in Hr.
  - destruct H' as (t & r0 & s2 & s3 & Et & _ & _ & _ & Hm). rewrite <- (with_install_context_sha _ _ _ Et).
    unfold status_means in Hm. unfold recorded, InstallResult_bool in *.
    destruct (ir_status res); try done. destruct Hm as (_ & _ & Hm). by exists t, (db (dev (aklite x))).
Qed.

(** The steps of a command that ends with a code of success. *)
Lemma pullAndInstall_run version name mode force local pm do_inst cm ad (x x' : X) c :
  pullAndInstall (R := R) env version name mode force local pm do_inst cm ad x = (Ret c, x') ->
  IsSuccessCode c = true ->
  exists ci x1 gti x2,
    checkin cm local x = (Ret ci, x1) /\ CheckInResult_bool ci = true /\
    GetTargetToInstall xenv ci version name true true (bool_decide (local <> None)) ad x1 = (Ret gti, x2) /\
    ((IsUnknown (selected_target gti) = true /\ c = res2StatusCode t2s (gti_status gti) /\ x' = x2) \/
     (IsUnknown (selected_target gti) = false /\
      (exists current, GetCurrent (aklite x2) = Ret current /\ refused_downgrade current gti force = false) /\
      exists r, PullAndInstall xenv (selected_target gti) (gti_reason gti) "" mode local (bool_decide (pm = PullAll))
                  do_inst (bool_decide (gti_status gti = UpdateNewVersion)) x2 = (Ret r, x') /\
        c = res2StatusCode i2s (ir_status r))).
Proof.
  unfold pullAndInstall. intros E Hc. apply M_bind_Ret in E as (b & x0 & Eb & E). injection Eb as <- <-.
  destruct (IsInstallationInProgress (aklite x)).
  { apply M_bind_Ret in E as (p & y & _ & E). apply M_bind_Ret in E as (q & z & _ & E). by injection E as <- _. }
  apply M_bind_Ret in E as (ci & x1 & Eci & E). destruct (CheckInResult_bool ci) eqn:Hci; cbn [negb] in E.
  2: { injection E as <- _. unfold CheckInResult_bool in Hci. rewrite c2s_success in Hc. congruence. }
  apply M_bind_Ret in E as (gti & x2 & Eg & E). exists ci, x1, gti, x2. split_and!; [done..|].
  destruct (IsUnknown (selected_target gti)) eqn:Hu; [left; by injection E as <- <-|].
  apply M_bind_Ret in E as (o & x3 & Eo & E). injection Eo as <- <-.
  apply M_bind_Ret in E as (current & x3 & Eo & E). injection Eo as Eo <-.
  destruct (refused_downgrade current gti force) eqn:Hd; [by injection E as <- _|].
  apply M_bind_Ret in E as (r & x3 & Er & E). injection E as <- <-. right. split_and!; [done|by exists current|by exists r].
Qed.

Lemma cli_Install_did (version : Z) (name : string) (mode : InstallMode) (force : bool)
    (local : option LocalUpdateSource) (pm : PullMode) (cm : CheckMode) (ad : bool) (x x' : X) (c : StatusCode) :
  cli_Install (R := R) env version name mode force local pm cm ad x = (Ret c, x') -> IsSuccessCode c = true ->
  exists ci x1 gti x2,
    checkin cm local x = (Ret ci, x1) /\ CheckInResult_bool ci = true /\
    GetTargetToInstall xenv ci version name true true (bool_decide (local <> None)) ad x1 = (Ret gti, x2) /\
    let t := selected_target gti in
    ((IsUnknown t = true /\ GTI_bool gti = true /\ x' = x2) \/
     (force = false -> exists current, GetCurrent (aklite x2) = Ret current /\ Version current <= Version t) /\
     (exists a : A, trusted t local (bool_decide (gti_status gti = UpdateNewVersion)) a) /\
     exists st, st ∈ [IOk; NeedsCompletion; AppsNeedCompletion] /\ c = res2StatusCode i2s st /\
       (Sha256Hash t <> sha256Hash Unknown -> recorded (Sha256Hash t) st (device x'))).
Proof.
  intros E Hc. destruct (pullAndInstall_run _ _ _ _ _ _ _ _ _ _ _ _ E Hc) as (ci & x1 & gti & x2 & E1 & Hci & E2 & D).
  exists ci, x1, gti, x2. split_and!; [done..|]. cbn zeta. destruct D as [(Hu & -> & ->)|(Hu & (cur & Ecur & Hd) & r & Er & ->)].
  - left. split_and!; [done| |done]. by rewrite t2s_success in Hc.
  - right. apply i2s_success in Hc.
    destruct (PullAndInstall_installed _ _ _ _ _ _ _ _ _ _ _ Er Hc) as (ctx & x3 & x4 & x5 & Ei & Ex).
    unfold on_api in Ei. destruct (Installer _ _ _ _ _ _ _ _ (aklite x3)) as [o a4] eqn:Ei'. injection Ei as -> <-.
    destruct (Installer_run _ _ _ _ _ _ _ _ _ _ _ Ei') as (_ & (a1 & _ & Ht) & _ & Hsha & _).
    split_and!; [|by exists a1|].
    + intros ->. exists cur. split; [done|]. unfold refused_downgrade in Hd. cbn in Hd. rewrite andb_true_r in Hd. lia.
    + pose proof (run_install_status _ _ _ _ _ Ex) as Hs.
      exists (ir_status r). split_and!; [destruct (ir_status r); set_solver|done|]. intros Hsu. rewrite <- Hsha in *.
      apply (run_install_recorded _ _ _ _ Ex Hsu). unfold InstallResult_bool. destruct (ir_status r); (done || set_solver).
Qed.


(** The completion of [x] failed in [x1], the pending target being [pending]. *)
Definition completion_failed (pending : TufTarget) (x x1 : X) : Prop :=
  GetPendingTarget (aklite x) = Ret pending /\
  exists ir, on_api (CompleteInstallation aenv) x = (Ret ir, x1) /\ ir_status ir = IFailed.

(** The installation of the target [rt] ended in [x'] with the status [st]. *)
Definition rolled_back_to (rt : TufTarget) (st : InstallStatus) (x' : X) : Prop :=
  Sha256Hash rt <> sha256Hash Unknown -> recorded (Sha256Hash rt) st (device x').

Lemma roll_back_after_boot_run (x x' : X) c :
  roll_back_after_boot env x = (Ret c, x') ->
  match c with
  | SC_InstallRollbackOk => exists rt, GetRollbackTarget true (aklite x) = Ret rt /\ rolled_back_to rt IOk x'
  | SC_InstallRollbackNeedsReboot =>
      exists rt, GetRollbackTarget true (aklite x) = Ret rt /\ rolled_back_to rt NeedsCompletion x'
  | SC_InstallRollbackFailed | SC_UnknownError => True
  | _ => False
  end.
Proof.
  unfold roll_back_after_boot. intros E. apply M_bind_Ret in E as (o & x0 & Eo & E). injection Eo as <- <-.
  apply M_bind_Ret in E as (rt & x0 & Eo & E). injection Eo as Ert <-.
  destruct (IsUnknown rt); [by injection E as <- _|]. apply M_bind_Ret in E as (ri & x1 & Ei & E).
  destruct ri as [ctx|]; [|by injection E as <- _]. apply M_bind_Ret in E as (rir & x2 & Er & E).
  unfold on_api in Ei. destruct (Installer _ _ _ _ _ _ _ _ (aklite x)) as [o a1] eqn:Ei'. injection Ei as -> <-.
  destruct (Installer_run _ _ _ _ _ _ _ _ _ _ _ Ei') as (_ & _ & _ & Hsha & _).
  assert (G : InstallResult_bool rir = true -> rolled_back_to rt (ir_status rir) x2).
  { intros Hb Hs. rewrite <- Hsha in *. by apply (run_install_recorded _ _ _ _ Er). }
  unfold InstallResult_bool in G. injection E as <- <-. destruct (ir_status rir); try done;
    exists rt; split; try done; by apply G.
Qed.

(** What the code [c] says of a completion from [x] to [x']; the codes left out are not possible. *)
Definition completed_with (x x' : X) (c : StatusCode) : Prop :=
  match c with
  | SC_NoPendingInstallation => IsInstallationInProgress (aklite x) = false /\ x' = x
  | SC_Ok | SC_OkNeedsRebootForBootFw => pending_of (db (device x')) = None
  | SC_InstallNeedsReboot =>
      pending_of (db (device x')) = pending_of (db (device x)) /\ pending_of (db (device x)) <> None
  | SC_InstallRollbackOk => exists pending x1 current, completion_failed pending x x1 /\
      GetCurrent (aklite x1) = Ret current /\
      if String.eqb (Sha256Hash current) (Sha256Hash pending) then
        exists rt, GetRollbackTarget true (aklite x1) = Ret rt /\ rolled_back_to rt IOk x'
      else
        on_api (CheckAppsInSync aenv) x1 = (Ret None, x') \/
        exists ctx x2 ir, on_api (CheckAppsInSync aenv) x1 = (Ret (Some ctx), x2) /\
          run_install xenv ctx x2 = (Ret ir, x') /\ ir_status ir = IOk
  | SC_InstallRollbackNeedsReboot => exists pending x1 current rt, completion_failed pending x x1 /\
      GetCurrent (aklite x1) = Ret current /\ Sha256Hash current = Sha256Hash pending /\
      GetRollbackTarget true (aklite x1) = Ret rt /\ rolled_back_to rt NeedsCompletion x'
  | SC_InstallRollbackFailed | SC_UnknownError => exists pending x1, completion_failed pending x x1
  | _ => False
  end.

Lemma CompleteInstall_did (x x' : X) (c : StatusCode) :
  CompleteInstall env x = (Ret c, x') -> completed_with x x' c.
Proof.
  unfold CompleteInstall, completed_with. intros E. apply M_bind_Ret in E as (b & x0 & Eb & E). injection Eb as <- <-.
  destruct (IsInstallationInProgress (aklite x)); cbn [negb] in E; [|by injection E as <- <-].
  apply M_bind_Ret in E as (o & x0 & Eo & E). injection Eo as <- <-.
  apply M_bind_Ret in E as (pending & x0 & Eo & E). injection Eo as Ep <-.
  apply M_bind_Ret in E as (ir & x1 & Ei & E). pose proof Ei as Ei'. unfold on_api in Ei'.
  destruct (CompleteInstallation aenv (aklite x)) as [o a1] eqn:Ec. injection Ei' as -> <-.
  pose proof (CompleteInstallation_run _ _ _ _ Ec) as Hst. clear Ec. unfold InstallResult_bool in E.
  destruct (ir_status ir) eqn:Hir; try done; cbn [negb] in E; try (injection E as <- <-; exact Hst).
  assert (F : completion_failed pending x (set_aklite a1 x)) by (split; [done|]; by exists ir).
  apply M_bind_Ret in E as (o & x2 & Eo & E). injection Eo as <- <-.
  apply M_bind_Ret in E as (current & x2 & Eo & E). injection Eo as Ecur <-.
  destruct (String.eqb_spec (Sha256Hash current) (Sha256Hash pending)) as [Heq|Hne]; cbn [negb] in E.
  - apply roll_back_after_boot_run in E. destruct c; try done.
    + by exists pending, (set_aklite a1 x).
    + exists pending, (set_aklite a1 x), current. rewrite (proj2 (String.eqb_eq _ _) Heq). done.
    + destruct E as (rt & ? & ?). by exists pending, (set_aklite a1 x), current, rt.
    + by exists pending, (set_aklite a1 x).
  - unfold sync_after_rollback in E. apply M_bind_Ret in E as (ri & x2 & Es & E). destruct ri as [ctx|].
    + apply M_bind_Ret in E as (rir & x3 & Er & E). injection E as <- <-. case_bool_decide.
      * exists pending, (set_aklite a1 x), current. rewrite (proj2 (String.eqb_neq _ _) Hne).
        split_and!; [done..|]. right. by exists ctx, x2, rir.
      * by exists pending, (set_aklite a1 x).
    + injection E as <- <-. exists pending, (set_aklite a1 x), current. rewrite (proj2 (String.eqb_neq _ _) Hne).
      split_and!; [done..|]. by left.
Qed.

(** C18: The completion of an installation ends with the code that tells what became of it. Without a
    pending installation nothing is done. After a success nothing is pending. A reboot is asked for
    while the target is still pending. A roll back is reported only if the completion failed: as done
    if the bootloader had already gone back to another commit and the apps are in sync or were
    brought in sync, or if the target to roll back to was installed, and as waiting for a reboot if
    that target is pending. No other code is possible. *)
Theorem CompleteInstall_code (x x' : X) (c : StatusCode) :
  CompleteInstall env x = (Ret c, x') -> completed_with x x' c.
Proof. apply CompleteInstall_did. Qed.

(** The status of a device whose configuration has no tags cannot be reported: the removal of the
    quotes fails. *)
Theorem status_without_tags (x x' : X) (o : outcome json) :
  pacman_tags env = "" -> GetStatusJson env x = (o, x') -> exists e, o = Throw e.
Proof.
  intros Ht E. destruct o as [j|e]; [|by exists e]. exfalso. unfold GetStatusJson in E.
  apply M_bind_Ret in E as (res & x1 & _ & E). apply M_bind_Ret in E as (cur & x2 & _ & E).
  apply M_bind_Ret in E as (current & x3 & _ & E). apply M_bind_Ret in E as (tag & x4 & Et & _).
  rewrite Ht in Et. discriminate Et.
Qed.
End theorems.

(** ** A concrete device *)

Definition sample_cli : CliEnv SimpleDB SimpleSR SimpleEN := {|
  ext_env := sample_ext; pacman_tags := quote +:+ "devel" +:+ quote; getCN := Ret "device" |}.
Abbreviation sample_install :=
  (cli_Install (TR := SimpleTR) (R := Z) sample_cli (-1) "" All false None PullAll CmUpdate false).
Abbreviation sample_complete := (CompleteInstall (TR := SimpleTR) sample_cli).

(** The device after the installation and the reboot. *)
Definition sample_x_booted : ExtSt SimpleDB SimpleSR SimpleEN SimpleTR :=
  let x := exec sample_install sample_x in
  let r := sr (device x) in
  set_aklite (set_dev (set_sr {| sr_current := sr_pending r; sr_pending := ""; sr_good_url := sr_good_url r;
                                 sr_fw := sr_fw r; sr_protected := sr_protected r; sr_upgrading := sr_upgrading r;
                                 sr_commits := sr_commits r |} (device x)) (aklite x)) x.


Lemma CompleteInstall_code_witness :
  IsInstallationInProgress (aklite sample_x_booted) = true /\
  the SC_UnknownError (run sample_complete sample_x_booted) = SC_Ok /\
  pending_of (db (device (exec sample_complete sample_x_booted))) = None.
Proof.
  assert (T : is_throw (run sample_complete sample_x_booted) = false) by (vm_compute; reflexivity).
  assert (E : the SC_UnknownError (run sample_complete sample_x_booted) = SC_Ok) by (vm_compute; reflexivity).
  split; [vm_compute; reflexivity|]. split; [exact E|].
  pose proof (CompleteInstall_code sample_cli sample_x_booted (exec sample_complete sample_x_booted)
                (the SC_UnknownError (run sample_complete sample_x_booted))
                (run_the SC_UnknownError sample_complete sample_x_booted T)) as H.
  rewrite E in H. exact H.
Defined.
