(* ===== verification/Main.v ===== *)
(** * The program

    [src/src/main.cc]: the options, the table of commands, and the exit code of
    the process. The parser of the options (boost::program_options) and the
    construction of the client from the configuration are parameters. *)

From S2P Require Import Prelude Json Targets Registry Volume Restorable Platform Bootloader Sample RootfsTree.
From S2P Require Import ComposeApps Client Bundle CheckIn Install ClientExt Cli.

(** ** Options *)

(** [bpo::variables_map], after the options of [parse_options] *)
Record variables_map := {
  opt_help : bool; opt_version : bool;
  opt_command : option string; opt_update_name : option string; opt_install_mode : option string;
  opt_interval : option Z; opt_json : option bool; opt_report_hw_info : option bool; opt_src_dir : option string;
}.

(** What the parser makes of the arguments: the options and the arguments it does not know, or an
    error with the options it had understood before. *)
Inductive parsed :=
  | Parsed (vm : variables_map) (unregistered_options : list string)
  | RequiredOption (why : string)
  | ParseError (why : string) (vm : variables_map).

(** [Some code] if the process exits. *)
Definition check_info_options (vm : variables_map) : option Z :=
  if opt_help vm || (negb (bool_decide (is_Some (opt_command vm))) && negb (opt_version vm)) then Some EXIT_SUCCESS
  else if opt_version vm then Some EXIT_SUCCESS
  else None.

(** The options, or the code the process exits with. *)
Definition parse_options (p : parsed) : Z + variables_map :=
  match p with
  | Parsed vm unregistered_options =>
      match check_info_options vm with
      | Some code => inl code
      | None =>
          if negb (opt_help vm) && negb (bool_decide (unregistered_options = [])) then inl EXIT_FAILURE else inr vm
      end
  | RequiredOption _ => inl EXIT_FAILURE
  | ParseError _ vm => match check_info_options vm with Some code => inl code | None => inl EXIT_FAILURE end
  end.

Definition get_target_id (params : variables_map) : outcome (Z * string) :=
  match opt_update_name params with
  | None => mret (-1, "")
  | Some version_str =>
      match stoi 10 version_str with
      | Ret version => mret (version, "")
      | Throw (Exn invalid_argument _) => mret (-1, version_str)
      | Throw e => Throw e
      end
  end.

(** [boost::filesystem::path(dir) / name] *)
Definition path_slash (dir name : string) : string :=
  if String.eqb (str_drop (String.length dir - 1) dir) "/" then dir +:+ name else dir +:+ "/" +:+ name.
Definition fillUpdateSource (src_dir : string) : LocalUpdateSource :=
  {| tuf_repo := path_slash src_dir "tuf"; ostree_repo := path_slash src_dir "ostree_repo";
     app_store := path_slash src_dir "apps" |}.
(** [src_dir.empty() ? nullptr : &local_update_source] *)
Definition update_source (params : variables_map) : option LocalUpdateSource :=
  match opt_src_dir params with
  | Some src_dir => if str_empty src_dir then None else Some (fillUpdateSource src_dir)
  | None => None
  end.

Definition install_mode_of (params : variables_map) : InstallMode :=
  match opt_install_mode params with
  | Some m => if String.eqb m "delay-app-install" then OstreeOnly else All
  | None => All
  end.

Definition flag (o : option bool) : bool := default false o.

Section main.
Context {DB SR EN TR R : Type}.
Context `{AppEngine EN, INvStorage DB, TufRepo DB, Ostree DB SR, BootFwUpdateStatus SR, InstallationResults,
          UptaneTargets, ImageRepo DB TR, TargetSort, RootRepo R}.
Abbreviation X := (ExtSt DB SR EN TR).

(** What the program gets from its surroundings. *)
Record MainEnv := {
  command_line_parser : list string -> parsed;
  (** [Config] and the constructor of [LiteClient]: with storage that is only read or not, and
      with [force_update] or not *)
  make_client : bool -> bool -> M X (CliEnv DB SR EN);
  auto_downgrade_default : bool;
  repo_server : string;
  reboot_command_executable : bool;
  AKLITE_TEST_RETURN_ON_SLEEP : bool;
  (** the turns of the loop of the daemon that are looked at *)
  daemon_fuel : nat;
}.
Context (env : MainEnv).

(** ** Clients *)

(** The members the constructor of [AkliteClientExt] sets. *)
Definition set_flags (ro post : bool) (e : ApiEnv DB SR EN) : ApiEnv DB SR EN := {|
  client := with_telemetry ro (client e); hw_id := hw_id e; read_only := ro; invoke_post_cb_at_checkin := post;
  AkHttpsRepoSource := AkHttpsRepoSource e; read_file := read_file e; app_store_dirs := app_store_dirs e;
  ostree_open := ostree_open e; ostree_hasCommit := ostree_hasCommit e; parseJSON := parseJSON e;
  jsonToCanonicalStr := jsonToCanonicalStr e; key_verifies := key_verifies e; expired_at_now := expired_at_now e;
  styled_string := styled_string e; TimeStamp_ToString := TimeStamp_ToString e;
  http_get := http_get e; getStatusStr := getStatusStr e; assert_lock := assert_lock e;
  open_local_install := open_local_install e; make_offline_engine := make_offline_engine e |}.
Definition set_cli_flags (ro post : bool) (c : CliEnv DB SR EN) : CliEnv DB SR EN :=
  let x := ext_env c in
  {| ext_env := {| api := set_flags ro post (api x); offline := offline x; usage_env := usage_env x;
                   is_booted_env := is_booted_env x; setuid_ok := setuid_ok x |};
     pacman_tags := pacman_tags c; getCN := getCN c |}.
Definition new_members (x : X) : X :=
  mkExt (mkApi (dev (aklite x)) (tuf (aklite x)) false [] true) no_space_undefined.

(** [AkliteClientExt akclient(client_ptr, read_only, apply_lock)] *)
Definition akclient (c : CliEnv DB SR EN) (ro apply_lock : bool) : M X (CliEnv DB SR EN) :=
  let c' := set_cli_flags ro true c in
  modify new_members;;
  on_api (Init (api (ext_env c')) false apply_lock);;
  mret c'.

Definition disableHwInfoReporting : M X unit := on_device (modify (fun s => set_cl (set_hwinfo (cl s)) s)).
Definition report_hw (params : variables_map) : M X unit :=
  if flag (opt_report_hw_info params) then mret tt else disableHwInfoReporting.

(** ** Commands

    A command ends with its exit code, [None] for a daemon that still runs, and with what it printed. *)

Definition exits (c : StatusCode) : option Z * output := (Some (StatusCode_int c), NoOutput).

(** Which no command uses *)
Definition status_finalize (c : CliEnv DB SR EN) : M X (option Z * output) :=
  r ← on_device (client_finalizeInstall (client (api (ext_env c))));
  mret (Some (if r.1 : bool then EXIT_SUCCESS else EXIT_FAILURE), NoOutput).

(** The name of the device is read from the answer of the server for the log. *)
Definition status_plain (c : CliEnv DB SR EN) : M X (option Z * output) :=
  let aenv := api (ext_env c) in
  let http_res := http_get aenv (tls_server (client aenv) +:+ "/device") in
  (if isOk http_res then
     let device_info := parseJSON aenv (body http_res) in
     if negb (jempty device_info) then _ ← lift (jstring_at device_info "Name"); mret tt else mret tt
   else mret tt);;
  on_device (target ← current;
             if MatchTarget (client aenv) target Unknown then mret tt
             else
               pending_target ← gets getPendingTarget;
               logTarget (client aenv) (if IsValid pending_target && String.eqb (filename pending_target) (filename target)
                                        then "Pending Target: " else "Active image is: ") target);;
  mret (Some 0, NoOutput).

Definition status_json (c : CliEnv DB SR EN) : M X (option Z * output) :=
  c ← akclient c true false;
  j ← GetStatusJson c;
  mret (Some 0, JsonOutput j).

Definition status_main (c : CliEnv DB SR EN) (params : variables_map) : M X (option Z * output) :=
  if flag (opt_json params) then status_json c else status_plain c.

Definition checkin_main (check_mode : CheckMode) (c : CliEnv DB SR EN) (params : variables_map) : M X (option Z * output) :=
  report_hw params;;
  let current := match check_mode with CmCurrent => true | CmUpdate => false end in
  c ← akclient c current (negb current);
  r ← cli_CheckIn (R := R) c (update_source params) check_mode (flag (opt_json params)) (auto_downgrade_default env);
  mret (Some (StatusCode_int r.1), r.2).
Definition cli_list : CliEnv DB SR EN -> variables_map -> M X (option Z * output) := checkin_main CmCurrent.
Definition cli_check : CliEnv DB SR EN -> variables_map -> M X (option Z * output) := checkin_main CmUpdate.

Definition daemon_main (c : CliEnv DB SR EN) (params : variables_map) : M X (option Z * output) :=
  modify new_members;;
  code ← run_daemon (ext_env (set_cli_flags false false c)) (daemon_fuel env) (repo_server env)
           (reboot_command_executable env) (auto_downgrade_default env) (AKLITE_TEST_RETURN_ON_SLEEP env) true;
  mret (code, NoOutput).

Definition install_main (pull_mode : PullMode) (check_mode : CheckMode) (c : CliEnv DB SR EN) (params : variables_map)
    : M X (option Z * output) :=
  id ← lift (get_target_id params);
  report_hw params;;
  c ← akclient c false true;
  r ← cli_Install (R := R) c id.1 id.2 (install_mode_of params) true (update_source params) pull_mode check_mode
        (auto_downgrade_default env);
  mret (exits r).
Definition cli_update : CliEnv DB SR EN -> variables_map -> M X (option Z * output) := install_main PullAll CmUpdate.
Definition cli_install : CliEnv DB SR EN -> variables_map -> M X (option Z * output) := install_main PullNone CmCurrent.

Definition cli_pull (c : CliEnv DB SR EN) (params : variables_map) : M X (option Z * output) :=
  id ← lift (get_target_id params);
  c ← akclient c false true;
  r ← Pull (R := R) c id.1 id.2 true (update_source params) CmCurrent (auto_downgrade_default env);
  mret (exits r).

Definition cli_complete_install (c : CliEnv DB SR EN) (params : variables_map) : M X (option Z * output) :=
  c ← akclient c false true;
  r ← CompleteInstall c;
  mret (exits r).

Definition rollback_main (c : CliEnv DB SR EN) (params : variables_map) : M X (option Z * output) :=
  c ← akclient c false true;
  r ← cli_Rollback c (update_source params);
  mret (exits r).

(** ** The table of commands *)

Record Cmd := {
  cmd_name : string; description : string;
  func : CliEnv DB SR EN -> variables_map -> M X (option Z * output);
  read_only_storage : bool;
}.

Definition commands : list Cmd := [
  {| cmd_name := "daemon"; description := "Start the update agent daemon"; func := daemon_main; read_only_storage := false |};
  {| cmd_name := "update"; description := "Update TUF metadata, download and install the selected target";
     func := cli_update; read_only_storage := false |};
  {| cmd_name := "pull";
     description := "Download the selected target data to the device, to allow a install operation to be performed";
     func := cli_pull; read_only_storage := false |};
  {| cmd_name := "install"; description := "Install a previously pulled target"; func := cli_install;
     read_only_storage := false |};
  {| cmd_name := "list";
     description := "List the available targets, using current TUF metadata information. No TUF update is performed";
     func := cli_list; read_only_storage := true |};
  {| cmd_name := "check"; description := "Update the device TUF metadata, and list the available targets";
     func := cli_check; read_only_storage := false |};
  {| cmd_name := "status"; description := "Show information of the target currently running on the device";
     func := status_main; read_only_storage := true |};
  {| cmd_name := "finalize"; description := "Finalize installation by starting the updated apps";
     func := cli_complete_install; read_only_storage := false |};
  {| cmd_name := "run"; description := "Alias for the finalize command"; func := cli_complete_install;
     read_only_storage := false |};
  {| cmd_name := "rollback"; description := "Rollback to the previous successfully installed target [experimental]";
     func := rollback_main; read_only_storage := false |}
].

(** [name.append(12 - name.length(), ' ')]: the number of spaces is computed on [size_t]. *)
Definition padding (name : string) : Z := to_u64 (12 - len name).
Definition get_cmds_list : string :=
  fold_left (fun ret cmd => ret +:+ "  " +:+ cmd_name cmd
                            +:+ String.concat "" (repeat " " (Z.to_nat (padding (cmd_name cmd)))) +:+ description cmd +:+ nl)
    commands ("Commands:" +:+ nl).

Definition force_update (name : string) : bool := mem name ["pull"; "install"; "update"].
Definition run_command (cmd : Cmd) (params : variables_map) : M X (option Z * output) :=
  c ← make_client env (read_only_storage cmd) (force_update (cmd_name cmd));
  func cmd c params.

Fixpoint run_command_in (cmds : list Cmd) (name : string) (params : variables_map) : M X (option Z * output) :=
  match cmds with
  | [] => throwM runtime_error ("Unsupported command: " +:+ name)
  | cmd :: cmds' => if String.eqb (cmd_name cmd) name then run_command cmd params else run_command_in cmds' name params
  end.
Definition run_command_by_name : string -> variables_map -> M X (option Z * output) := run_command_in commands.

Definition main (argv : list string) : M X (option Z * output) :=
  match parse_options (command_line_parser env argv) with
  | inl code => mret (Some code, NoOutput)
  | inr params =>
      try_catch
        (match opt_command params with
         | Some name => run_command_by_name name params
         | None => throwM runtime_error "bad_any_cast"
         end)
        (fun _ => mret (Some EXIT_FAILURE, NoOutput))
  end.
End main.

(** ** Theorems *)

(** The names of the commands fit the column they are printed in: the number of spaces does not wrap around. *)
Lemma padding_small {DB SR EN TR R : Type} `{AppEngine EN, INvStorage DB, TufRepo DB, Ostree DB SR,
    BootFwUpdateStatus SR, InstallationResults, UptaneTargets, ImageRepo DB TR, TargetSort, RootRepo R}
    (env : MainEnv (DB := DB) (SR := SR) (EN := EN) (TR := TR)) :
  Forall (fun c => 1 <= padding (cmd_name c) <= 9) (commands (R := R) env).
Proof. unfold commands. repeat (apply List.Forall_cons; [vm_compute; split; discriminate|]). apply List.Forall_nil. Qed.

(** *** The target a user names *)

Lemma get_target_id_cases params :
  match get_target_id params with
  | Ret (v, n) => (v = -1 /\ n = default "" (opt_update_name params)) \/
                  (n = "" /\ exists s, opt_update_name params = Some s /\ stoi 10 s = Ret v)
  | Throw e => exists s, opt_update_name params = Some s /\ stoi 10 s = Throw e /\ exn_kind e <> invalid_argument
  end.
Proof.
  unfold get_target_id. destruct (opt_update_name params) as [s|]; [|by left].
  destruct (stoi 10 s) as [v|[k w]] eqn:E; [right; eauto|]. destruct k; (by left) || (exists s; done).
Qed.

Section theorems.
Context {DB SR EN TR R : Type}.
Context `{AppEngine EN, INvStorage DB, TufRepo DB, Ostree DB SR, BootFwUpdateStatus SR, InstallationResults,
          UptaneTargets, ImageRepo DB TR, TargetSort, RootRepo R}.
Abbreviation S := (St DB SR EN).
Abbreviation A := (ApiSt DB SR EN TR).
Abbreviation X := (ExtSt DB SR EN TR).
Context (env : MainEnv (DB := DB) (SR := SR) (EN := EN) (TR := TR)).
Abbreviation program := (main (R := R) env).

(** *** What a command does not do *)

(** Nothing is deployed, no app is installed or started, no version is recorded, and the device is not rebooted. *)
Definition no_install (e : Event) : Prop :=
  match e with
  | EvOstreeInstall _ | EvOstreeFinalize _ | EvInstall _ _ | EvRun _ _ | EvSave _ _ | EvReboot _
  | EvUpdateNotify | EvInstallNotify _ => False
  | _ => True
  end.
Lemma quiet_no_install e : quiet e -> no_install e.
Proof. by destruct e. Qed.
Lemma quiet_emits {Y} (m : M S Y) : preserves (emits quiet) m -> preserves (emits no_install) m.
Proof. apply emits_weaken, quiet_no_install. Qed.
Lemma quiet_emitsX {Y} (m : M X Y) : preserves (emitsX quiet) m -> preserves (emitsX no_install) m.
Proof.
  intros Hm x. specialize (Hm x). unfold emitsX, emitsA in *. destruct Hm as (evs & E & F). exists evs.
  split; [done|]. eapply Forall_impl; [exact F|apply quiet_no_install].
Qed.

Section clients.
Context (c : CliEnv DB SR EN).
Abbreviation xenv := (ext_env c).
Abbreviation aenv := (api xenv).
Abbreviation cenv := (client aenv).

#[local] Hint Resolve quiet_emits callback_quiet notify_quiet : aklite.
Lemma tuf_started_no_install : preserves (emits no_install) (notifyTufUpdateStarted cenv : M S _).
Proof. unfold notifyTufUpdateStarted. pstep; by apply emits_modify. Qed.
Lemma tuf_finished_no_install err t : preserves (emits no_install) (notifyTufUpdateFinished cenv err t : M S _).
Proof. unfold notifyTufUpdateFinished. pstep; by apply emits_modify. Qed.
Lemma handleRemovedApps_no_install t : preserves (emits no_install) (handleRemovedApps (compose cenv) t : M S _).
Proof.
  assert (Rm : forall a, preserves (emits no_install) (do_remove a : M S _)).
  { intros a. unfold do_remove. pstep. by apply emits_emit. }
  assert (F : forall l, preserves (emits no_install) (forM l do_remove : M S _)).
  { intros l. apply (preserves_forM _). intros a _. apply Rm. }
  unfold handleRemovedApps, removeDisabledComposeApps, forEachRemovedApp, prune_unused, do_prune. pstep. by apply emits_emit.
Qed.
#[local] Hint Resolve tuf_started_no_install tuf_finished_no_install handleRemovedApps_no_install : aklite.
Lemma checkForAppsToUpdate_no_install t : preserves (emits no_install) (checkForAppsToUpdate (compose cenv) t : M S _).
Proof. unfold checkForAppsToUpdate. pstep; by apply emits_modify. Qed.
#[local] Hint Resolve checkForAppsToUpdate_no_install : aklite.
Lemma appsToUpdate_no_install t b : preserves (emits no_install) (appsToUpdate cenv t b : M S _).
Proof. unfold appsToUpdate, current. pstep. Qed.
#[local] Hint Resolve appsToUpdate_no_install : aklite.
Lemma on_client_no_install {Y} (m : M S Y) : preserves (emits no_install) m -> preserves (emitsA no_install) (on_client m : M (ApiSt DB SR EN TR) Y).
Proof. apply on_client_emits. Qed.
Lemma on_repo_no_install {Y} (m : M (DB * TR) Y) : preserves (emitsA no_install) (on_repo m : M (ApiSt DB SR EN TR) Y).
Proof. apply on_repo_emits. Qed.
#[local] Hint Resolve on_client_no_install on_repo_no_install : aklite.
Lemma send_no_install put url v : preserves (emits no_install) (send put url v : M S _).
Proof. unfold send. pstep. by apply emits_emit. Qed.
#[local] Hint Resolve send_no_install : aklite.
Lemma reports_no_install : preserves (emitsA no_install) (report_device aenv : M (ApiSt DB SR EN TR) _).
Proof.
  assert (preserves (emits no_install) (reportAktualizrConfiguration cenv : M S _)).
  { unfold reportAktualizrConfiguration. pstep. by apply emits_modify. }
  assert (preserves (emits no_install) (reportNetworkInfo cenv : M S _)).
  { unfold reportNetworkInfo. pstep. by apply emits_modify. }
  assert (preserves (emits no_install) (reportHwInfo cenv : M S _)).
  { unfold reportHwInfo. pstep. by apply emits_modify. }
  assert (preserves (emits no_install) (reportAppsState cenv : M S _)).
  { unfold reportAppsState. pstep. by apply emits_modify. }
  unfold report_device. pstep; intros ?; by apply emits_same.
Qed.
#[local] Hint Resolve reports_no_install : aklite.
Lemma checkAndSetAppsForUpdate_no_install t r :
  preserves (emitsA no_install) (checkAndSetAppsForUpdate aenv t r : M (ApiSt DB SR EN TR) _).
Proof.
  assert (preserves (emits no_install) (setAppsNotChecked cenv : M S _)).
  { unfold setAppsNotChecked. pstep. by apply emits_modify. }
  unfold checkAndSetAppsForUpdate. pstep; intros ?; by apply emits_same.
Qed.
#[local] Hint Resolve checkAndSetAppsForUpdate_no_install : aklite.
Lemma on_api_no_install {Y} (m : M (ApiSt DB SR EN TR) Y) :
  preserves (emitsA no_install) m -> preserves (emitsX no_install) (on_api m : M X Y).
Proof. apply on_api_emits. Qed.
Lemma on_device_no_install {Y} (m : M S Y) : preserves (emits no_install) m -> preserves (emitsX no_install) (on_device m : M X Y).
Proof. apply on_device_emits. Qed.
#[local] Hint Resolve on_api_no_install on_device_no_install : aklite.

Lemma GetTargetToInstall_no_install ci v n b1 b2 b3 b4 :
  preserves (emitsX no_install) (GetTargetToInstall xenv ci v n b1 b2 b3 b4 : M X _).
Proof. unfold GetTargetToInstall, choose_candidate, update_to, sync_apps, gti_failure, post_callback. pstep. Qed.

Lemma checkIn_no_install cm local : preserves (emitsX no_install) (checkIn (R := R) c cm local : M X _).
Proof.
  assert (F : forall st e, preserves (emitsA no_install) (checkInFailure aenv st e : M (ApiSt DB SR EN TR) _)).
  { intros. unfold checkInFailure. pstep. }
  unfold checkIn, CheckIn, CheckInLocal, CheckInCurrent, checkin_bundle, checkin_stored, updateMeta, getRepoSource,
    matching_targets, finish_checkin. pstep; apply on_api_no_install; pstep.
Qed.

Lemma pull_no_install t r cid m local req : preserves (emitsX no_install) (PullAndInstall xenv t r cid m local true false req : M X _).
Proof.
  pose proof (Installer_quiet (TR := TR) xenv t r cid m local req) as Q.
  pose proof (fun ctx => run_download_quiet (TR := TR) xenv ctx) as Q2.
  assert (Q1 : preserves (emitsX no_install) (on_api (Installer aenv t r cid m local req true) : M X _)) by by apply quiet_emitsX.
  assert (Q3 : forall ctx, preserves (emitsX no_install) (run_download xenv ctx : M X _)) by (intros; by apply quiet_emitsX).
  unfold PullAndInstall, pull_with, notifyDownloadFinished. pstep; [apply on_device_no_install; pstep|intros ?; by apply emits_same..|done].
Qed.
#[local] Hint Resolve GetTargetToInstall_no_install checkIn_no_install pull_no_install : aklite.

Lemma Pull_no_install v n force local cm ad : preserves (emitsX no_install) (Pull (R := R) c v n force local cm ad : M X _).
Proof. unfold Pull, pullAndInstall. rewrite bool_decide_true by done. pstep. Qed.
Lemma CheckIn_no_install local cm j ad : preserves (emitsX no_install) (cli_CheckIn (R := R) c local cm j ad : M X _).
Proof. unfold cli_CheckIn. pstep. Qed.
Lemma status_no_install : preserves (emitsX no_install) (GetStatusJson c : M X _).
Proof.
  assert (A : forall n u, preserves (emitsX no_install) (IsAppRunning xenv n u : M X _)).
  { intros n u. apply on_device_no_install. unfold client_isAppRunning, isAppRunning. pstep. }
  assert (B : forall sl items arr, preserves (emitsX no_install) (status_apps c sl items arr : M X _)).
  { intros sl items. induction items as [|[k v] items IH]; intros arr; cbn [status_apps]; pstep. }
  unfold GetStatusJson, opt_status, getTargetStatusJson. pstep.
Qed.
End clients.

#[local] Hint Resolve Pull_no_install CheckIn_no_install status_no_install : aklite.
Lemma Init_lock_no_install lock ro apply : preserves (emitsA no_install) (Init_lock lock ro apply : M A _).
Proof. unfold Init_lock. pstep. Qed.
Lemma Init_client_no_install (e : ApiEnv DB SR EN) : preserves (emitsA no_install) (Init_client e false : M A _).
Proof.
  assert (I : forall e : ClientEnv DB SR EN, preserves (emits no_install) (importRootMetaIfNeededAndPresent e : M S _)).
  { intros e'. unfold importRootMetaIfNeededAndPresent, importRootMeta. pstep; by apply emits_modify. }
  unfold Init_client. pose proof (fun e => on_client_emits (TR := TR) no_install _ (I e)).
  pose proof (fun Y m => @on_repo_emits DB SR EN TR no_install Y m). pstep.
Qed.
#[local] Hint Resolve Init_lock_no_install Init_client_no_install : aklite.
Lemma Init_no_install (e : ApiEnv DB SR EN) lock : preserves (emitsX no_install) (on_api (Init e false lock) : M X _).
Proof. apply on_api_emits. unfold Init. pstep. Qed.
#[local] Hint Resolve Init_no_install : aklite.
Lemma akclient_no_install c ro lock : preserves (emitsX no_install) (akclient c ro lock : M X _).
Proof. unfold akclient. pstep. intros ?; by apply emits_same. Qed.
#[local] Hint Resolve akclient_no_install : aklite.
Lemma report_hw_no_install params : preserves (emitsX no_install) (report_hw params : M X _).
Proof. unfold report_hw, disableHwInfoReporting. pstep. apply on_device_emits. by apply emits_modify. Qed.
#[local] Hint Resolve report_hw_no_install : aklite.

Lemma cli_pull_no_install c params : preserves (emitsX no_install) (cli_pull (R := R) env c params : M X _).
Proof. unfold cli_pull. pstep. Qed.
Lemma checkin_main_no_install cm c params : preserves (emitsX no_install) (checkin_main (R := R) env cm c params : M X _).
Proof. unfold checkin_main. pstep. Qed.
Lemma status_main_no_install c params : preserves (emitsX no_install) (status_main c params : M X _).
Proof.
  unfold status_main, status_json, status_plain. pstep. apply on_device_emits. unfold current, logTarget. pstep.
Qed.

Lemma head_filter {Y} (f : Y -> bool) l a : head (List.filter f l) = Some a -> a ∈ l /\ f a = true.
Proof.
  intros Hh. assert (Hi : List.In a (List.filter f l)) by (destruct (List.filter f l); [done|injection Hh as ->; by left]).
  apply List.filter_In in Hi as [Hi Hf]. split; [by apply list_elem_of_In|done].
Qed.

(** A command that is in the table is run with the client made for it. *)
Lemma main_run argv params name cmd x :
  parse_options (command_line_parser env argv) = inr params -> opt_command params = Some name ->
  head (List.filter (fun c => String.eqb (cmd_name c) name) (commands (R := R) env)) = Some cmd ->
  program argv x = try_catch (run_command env cmd params) (fun _ => mret (Some EXIT_FAILURE, NoOutput)) x.
Proof.
  intros Hp Hc Hh. unfold main. rewrite Hp, Hc. unfold run_command_by_name. f_equal.
  revert Hh. generalize (commands (R := R) env) as l. induction l as [|c l IH]; cbn; [done|].
  destruct (String.eqb (cmd_name c) name); [by intros [= ->]|done].
Qed.

(** The commands that look at targets or only download, [pull], [list], [check] and [status], never
    deploy anything, install or start an app, record a version, notify the bootloader or reboot, on any
    branch, once the client is made. *)
Theorem main_no_install argv params name x :
  parse_options (command_line_parser env argv) = inr params -> opt_command params = Some name ->
  name ∈ ["pull"; "list"; "check"; "status"] ->
  exists cmd, cmd ∈ commands (R := R) env /\ cmd_name cmd = name /\
    emits no_install (device (exec (make_client env (read_only_storage cmd) (force_update name)) x))
      (device (exec (program argv) x)).
Proof.
  intros Hp Hc Hn.
  assert (G : forall cmd, head (List.filter (fun c => String.eqb (cmd_name c) name) (commands (R := R) env)) = Some cmd ->
    (forall c, preserves (emitsX no_install) (func cmd c params)) ->
    exists cmd, cmd ∈ commands (R := R) env /\ cmd_name cmd = name /\
      emits no_install (device (exec (make_client env (read_only_storage cmd) (force_update name)) x))
        (device (exec (program argv) x))).
  { intros cmd Hh Hq. destruct (head_filter _ _ _ Hh) as [Hin Hname%String.eqb_eq]. exists cmd. split_and!; [done..|].
    unfold exec at 2. rewrite (main_run argv params name cmd) by done.
    unfold try_catch, run_command, mbind, M_bind, exec. rewrite Hname.
    destruct (make_client env _ _ x) as [[c|e] x1]; cbn [snd]; [|by apply emits_same].
    specialize (Hq c x1). unfold exec, emitsX, emitsA in Hq. by destruct (func cmd c params x1) as [[r|e] x2]. }
  repeat (apply elem_of_cons in Hn as [->|Hn]); [..|by apply not_elem_of_nil in Hn]; (eapply G; [reflexivity|]).
  - intros c. exact (cli_pull_no_install c params).
  - intros c. exact (checkin_main_no_install CmCurrent c params).
  - intros c. exact (checkin_main_no_install CmUpdate c params).
  - intros c. exact (status_main_no_install c params).
Qed.

(** *** Installations *)

Context `{!INvStorageSpec DB, !UptaneTargetsSpec, !InstallationResultsSpec}.

(** What a success code of an installation command says, for the target the user named. *)
Definition installed_as_asked (params : variables_map) (cm : CheckMode) (sc : StatusCode) (x' : X) : Prop :=
  exists c v n x1 ci x2 gti x3,
    get_target_id params = Ret (v, n) /\
    checkIn (R := R) c cm (update_source params) x1 = (Ret ci, x2) /\ CheckInResult_bool ci = true /\
    GetTargetToInstall (ext_env c) ci v n true true (bool_decide (update_source params <> None))
      (auto_downgrade_default env) x2 = (Ret gti, x3) /\
    let t := selected_target gti in
    ((IsUnknown t = true /\ GTI_bool gti = true /\ x' = x3) \/
     (exists a : ApiSt DB SR EN TR, trusted t (update_source params) (bool_decide (gti_status gti = UpdateNewVersion)) a) /\
     exists st, st ∈ [IOk; NeedsCompletion; AppsNeedCompletion] /\ sc = res2StatusCode i2s st /\
       (Sha256Hash t <> sha256Hash Unknown -> recorded (Sha256Hash t) st (device x'))).

Lemma install_main_did pm cm c params x r x' :
  install_main (R := R) env pm cm c params x = (Ret r, x') ->
  exists sc, r.1 = Some (StatusCode_int sc) /\ (IsSuccessCode sc = true -> installed_as_asked params cm sc x').
Proof.
  unfold install_main. intros E. apply M_bind_Ret in E as ([v n] & x1 & Ei & E). injection Ei as Ei <-.
  apply M_bind_Ret in E as ([] & x2 & _ & E). apply M_bind_Ret in E as (c' & x3 & _ & E).
  apply M_bind_Ret in E as (sc & x4 & Er & E). injection E as <- <-. exists sc. split; [done|]. intros Hs.
  destruct (cli_Install_did _ _ _ _ _ _ _ _ _ _ _ _ Er Hs) as (ci & x5 & gti & x6 & E1 & E2 & E3 & D).
  exists c', v, n, x3, ci, x5, gti, x6. split_and!; [done..|]. cbn zeta in D |- *.
  destruct D as [D|(_ & D)]; [by left|by right].
Qed.

End theorems.

(** *** Names that start with digits *)

(** A name that starts with digits is taken for a version. *)
Example name_taken_for_version :
  let params n := {| opt_help := false; opt_version := false; opt_command := Some "update"; opt_update_name := Some n;
    opt_install_mode := None; opt_interval := None; opt_json := None; opt_report_hw_info := None; opt_src_dir := None |} in
  get_target_id (params "42") = Ret (42, "") /\ get_target_id (params "lmp-42") = Ret (-1, "lmp-42") /\
  get_target_id (params "2024-release") = Ret (2024, "") /\ is_throw (get_target_id (params "99999999999")) = true.
Proof. vm_compute. done. Qed.

(** ** A concrete program *)

Definition sample_params (argv : list string) : variables_map :=
  {| opt_help := false; opt_version := false; opt_command := head argv; opt_update_name := head (tail argv);
     opt_install_mode := None; opt_interval := None; opt_json := None; opt_report_hw_info := None; opt_src_dir := None |}.
Definition sample_main : MainEnv (DB := SimpleDB) (SR := SimpleSR) (EN := SimpleEN) (TR := SimpleTR) := {|
  command_line_parser argv := Parsed (sample_params argv) []; make_client _ _ := mret sample_cli;
  auto_downgrade_default := false; repo_server := "https://repo"; reboot_command_executable := true;
  AKLITE_TEST_RETURN_ON_SLEEP := true; daemon_fuel := 1 |}.

Lemma main_no_install_witness :
  exists cmd, cmd ∈ commands (R := Z) sample_main /\ cmd_name cmd = "pull" /\
    emits no_install (device (exec (make_client sample_main (read_only_storage cmd) (force_update "pull")) sample_x))
      (device (exec (main (R := Z) sample_main ["pull"]) sample_x)).
Proof.
  apply (main_no_install (R := Z) sample_main ["pull"] (sample_params ["pull"]) "pull" sample_x); [reflexivity..|]. left.
Defined.

(** The program installs the latest target and asks for a reboot. *)
Example main_update_runs : run (main (R := Z) sample_main ["update"]) sample_x = Ret (Some 100, NoOutput).
Proof. vm_compute. reflexivity. Qed.
