(* ===== verification/Construct.v ===== *)
(** * The construction of a client

    The constructor of [AkliteClient] from a configuration and its [Init] ([src/src/api.cc]), put together from the
    parts of the other files: the lock, the constructor of [LiteClient] ([Setup.v]), the import of the first root and the
    finalization ([Client.v]), and the TUF repository ([CheckIn.v]). The program of [Main.v] with the client its
    [run_command] makes ([src/src/main.cc]). *)

From S2P Require Import Prelude Json Targets Registry Volume Restorable Platform Sysroot Bootloader Sample RootfsTree.
From S2P Require Import ComposeApps Client Setup Bundle CheckIn Install ClientExt Cli Main.

Record ConstructSt (DB SR EN TR OS : Type) := { con_ext : ExtSt DB SR EN TR; con_os : OS }.
Arguments con_ext {DB SR EN TR OS}.
Arguments con_os {DB SR EN TR OS}.

Section construct.
Context {DB SR EN OS K P F ST SO D TR : Type}.
Context `{AppEngine EN, INvStorage DB, TufRepo DB, Ostree DB SR, BootFwUpdateStatus SR, InstallationResults,
          UptaneTargets, KeyFile K, LibOstree OS K P F ST, OstreeSysroot OS SO D, ImageRepo DB TR}.
Context (env : SetupEnv DB EN).
Abbreviation X := (ExtSt DB SR EN TR).
Abbreviation C := (ConstructSt DB SR EN TR OS).

(** A call of the client that is made, and one of the constructor of [LiteClient] *)
Definition on_ext {Y} (m : M X Y) : M C Y := fun c =>
  let '(o, x) := m (con_ext c) in (o, {| con_ext := x; con_os := con_os c |}).
Definition on_setup {Y} (m : M (SetupSt DB SR EN OS) Y) : M C Y := fun c =>
  let '(o, s) := m {| setup_dev := device (con_ext c); setup_os := con_os c |} in
  (o, {| con_ext := set_aklite (set_dev (setup_dev s) (aklite (con_ext c))) (con_ext c); con_os := setup_os s |}).

(** The members [client_], [hw_id_], [read_only_] and [is_booted_env], on top of [base], which has what the
    constructor does not set *)
Definition made_api (base : ApiEnv DB SR EN) (ro : bool) (c : ClientEnv DB SR EN) (ecu_hwid : string)
    : ApiEnv DB SR EN := {|
  client := c; hw_id := ecu_hwid; read_only := ro; invoke_post_cb_at_checkin := true;
  AkHttpsRepoSource := AkHttpsRepoSource base; read_file := read_file base; app_store_dirs := app_store_dirs base;
  ostree_open := ostree_open base; ostree_hasCommit := ostree_hasCommit base; parseJSON := parseJSON base;
  jsonToCanonicalStr := jsonToCanonicalStr base; key_verifies := key_verifies base;
  expired_at_now := expired_at_now base; styled_string := styled_string base;
  TimeStamp_ToString := TimeStamp_ToString base; http_get := http_get base; getStatusStr := getStatusStr base;
  assert_lock := assert_lock base; open_local_install := open_local_install base;
  make_offline_engine := make_offline_engine base |}.
Definition made_ext (base : ExtEnv DB SR EN) (booted : BootedType) (a : ApiEnv DB SR EN) : ExtEnv DB SR EN := {|
  api := a; offline := offline base; usage_env := usage_env base;
  is_booted_env := match booted with kBooted => true | _ => false end; setuid_ok := setuid_ok base |}.

(** [AkliteClient(config_dirs, read_only, finalize)] and [AkliteClient(cmdline_args, read_only, finalize)], after the
    configuration was read: [Init(config, finalize)], which asks for the lock. No app engine is given to the client,
    and its storage is opened for writing, whatever [read_only] says. *)
Definition AkliteClient_new (base : ExtEnv DB SR EN) (config : ClientConfig) (read_only finalize : bool)
    : M C (ExtEnv DB SR EN) :=
  on_ext (modify new_members);;
  on_ext (on_api (Init_lock (assert_lock (api base)) read_only true));;
  parts ← on_setup (make_LiteClient env (with_telemetry read_only (client (api base))) config false false);
  let e := made_ext base (cc_booted config) (made_api (api base) read_only (lc_env parts) (lc_primary_ecu parts).2) in
  on_ext (on_api (Init_client (api e) finalize));;
  mret e.

(** *** The client of a command *)

(** What [run_command] sets in the configuration of the package manager; what it sets of the telemetry is in
    [with_telemetry]. *)
Definition command_config (force : bool) (config : ClientConfig) : ClientConfig := {|
  cc_extra := if force then <["force_update" := "1"]> (cc_extra config) else cc_extra config;
  cc_pacman_type := cc_pacman_type config; cc_sysroot := cc_sysroot config; cc_booted := cc_booted config;
  cc_os := cc_os config; cc_ostree_server := cc_ostree_server config; cc_repo_server := cc_repo_server config;
  cc_primary_ecu_serial := cc_primary_ecu_serial config;
  cc_primary_ecu_hardware_id := cc_primary_ecu_hardware_id config; cc_tls_cacert := cc_tls_cacert config |}.

(** [LiteClient client(config, nullptr, nullptr, nullptr, cmd.read_only_storage)], on the storage [os] of libostree, which
    nothing else in the process looks at; the commands set the flags of the API later. *)
Definition command_client (os : OS) (base : CliEnv DB SR EN) (config : ClientConfig) (read_only_storage force : bool)
    : M X (CliEnv DB SR EN) := fun x =>
  let aenv := api (ext_env base) in
  let '(o, s) := make_LiteClient env (with_telemetry false (client aenv)) (command_config force config) false read_only_storage
                   {| setup_dev := device x; setup_os := os |} in
  (parts ← o;
   mret {| ext_env := made_ext (ext_env base) (cc_booted config) (made_api aenv false (lc_env parts) (lc_primary_ecu parts).2);
           pacman_tags := pacman_tags base; getCN := getCN base |},
   set_aklite (set_dev (setup_dev s) (aklite x)) x).
End construct.

(** ** Theorems *)
Section construct_theorems.
Context {DB SR EN OS K P F ST SO D TR : Type}.
Context `{AppEngine EN, INvStorage DB, TufRepo DB, Ostree DB SR, BootFwUpdateStatus SR, InstallationResults,
          UptaneTargets, KeyFile K, LibOstree OS K P F ST, OstreeSysroot OS SO D, ImageRepo DB TR}.
Context (env : SetupEnv DB EN) (base : ExtEnv DB SR EN) (config : ClientConfig).
Abbreviation C := (ConstructSt DB SR EN TR OS).

Lemma on_ext_Ret {Y} (m : M (ExtSt DB SR EN TR) Y) (c c' : C) y :
  on_ext m c = (Ret y, c') -> m (con_ext c) = (Ret y, con_ext c') /\ con_os c' = con_os c.
Proof. unfold on_ext. destruct (m (con_ext c)) as [o x]. by intros [= -> <-]. Qed.
Lemma on_api_Ret {Y} (m : M (ApiSt DB SR EN TR) Y) x x' y :
  on_api m x = (Ret y, x') -> m (aklite x) = (Ret y, aklite x').
Proof. unfold on_api. destruct (m (aklite x)) as [o a]. by intros [= -> <-]. Qed.

(** The repository of a new client has read nothing. *)
Lemma Init_client_tuf (e : ApiEnv DB SR EN) fin (a a' : ApiSt DB SR EN TR) :
  Init_client e fin a = (Ret tt, a') -> tuf a' = image_repo_new.
Proof.
  unfold Init_client. intros E. apply M_bind_Ret in E as ([] & a1 & _ & E). revert E. unfold on_repo.
  destruct (AkRepo (read_only e) (db (dev a1), tuf a1)) as [o [d r]] eqn:E. intros [= -> <-]. cbn.
  unfold AkRepo in E. do 2 (apply M_bind_Ret in E as (? & ? & _ & E)). by injection E as _ <-.
Qed.

Lemma Init_lock_Ret lock ro (a a' : ApiSt DB SR EN TR) u :
  Init_lock lock ro true a = (Ret u, a') -> ro = false -> lock = Ret tt.
Proof. intros E ->. unfold Init_lock in E. cbn in E. destruct lock as [[]|e]; [done|discriminate E]. Qed.

(** What the constructor of [LiteClient] leaves of the telemetry *)
Lemma make_LiteClient_telemetry (b : ClientEnv DB SR EN) given ro (s s' : SetupSt DB SR EN OS) (p : LiteClientParts DB SR EN SO) :
  make_LiteClient env b config given ro s = (Ret p, s') ->
  tls_server (lc_env p) = tls_server b /\ report_config (lc_env p) = report_config b /\
  report_network (lc_env p) = report_network b.
Proof. intros [_ [(_ & ? & ? & ? & _ & _ & _ & _ & ->)|(_ & _ & ? & ? & ->)]]%make_LiteClient_run; done. Qed.


(** A client that cannot get the lock leaves the device as it is: nothing is stored, finalized or deployed. *)
Theorem AkliteClient_new_locked (fin : bool) (c : C) (err : exn) :
  assert_lock (api base) = Throw err ->
  exists c', AkliteClient_new env base config false fin c = (Throw err, c') /\
    device (con_ext c') = device (con_ext c) /\ con_os c' = con_os c.
Proof.
  intros Hl. unfold AkliteClient_new, mbind, M_bind, on_ext, on_api, Init_lock, lift, device. cbn. rewrite Hl.
  eexists. split; [reflexivity|]. done.
Qed.

(** *** The process *)
Section process.
Context {R : Type} `{RootRepo R, TargetSort, !UptaneTargetsSpec} (menv : MainEnv (DB := DB) (SR := SR) (EN := EN) (TR := TR)).
Context (os : OS) (cli : CliEnv DB SR EN).

Lemma command_client_emits ro force (x : ExtSt DB SR EN TR) :
  emits records_initial (device x) (device (exec (command_client env os cli config ro force) x)).
Proof.
  unfold exec, command_client.
  pose proof (make_LiteClient_emits env (with_telemetry false (client (api (ext_env cli)))) (command_config force config) false ro
                {| setup_dev := device x; setup_os := os |}) as He. unfold setup_emits, exec in He.
  by destruct (make_LiteClient _ _ _ _ _ _) as [o s].
Qed.

(** C4: A process that runs [pull], [list], [check] or [status], from the making of its client to its end, deploys
    nothing, installs or starts no app, notifies no bootloader and does not reboot, on any branch; the only version it
    may record is the initial target of a device whose version was not known. *)
Theorem process_no_install argv params name (x : ExtSt DB SR EN TR) :
  make_client menv = command_client env os cli config ->
  parse_options (command_line_parser menv argv) = inr params -> opt_command params = Some name ->
  name ∈ ["pull"; "list"; "check"; "status"] ->
  emits (fun e => no_install e \/ records_initial e) (device x) (device (exec (main (R := R) menv argv) x)).
Proof.
  intros Hm Hp Hc Hn. destruct (main_no_install (R := R) menv argv params name x Hp Hc Hn) as (cmd & _ & _ & He).
  rewrite Hm in He. etransitivity.
  - eapply emits_impl; [|apply command_client_emits]. auto.
  - eapply emits_impl; [|exact He]. auto.
Qed.
End process.
End construct_theorems.

(** ** A concrete construction *)

Import SampleOstree.
Definition sample_base : ExtEnv SimpleDB SimpleSR SimpleEN := ext_env sample_cli.
Definition sample_con : ConstructSt SimpleDB SimpleSR SimpleEN SimpleTR disk :=
  {| con_ext := sample_x; con_os := sample_disk |}.
Abbreviation sample_new ro := (AkliteClient_new sample_setup sample_base (sample_client_config sample_extra) ro true sample_con).


(** A client made to be read only opens the storage for writing: on a device whose version is not known yet it
    records one. *)
Definition unknown_con : ConstructSt SimpleDB SimpleSR SimpleEN SimpleTR disk :=
  {| con_ext := set_aklite (set_dev (set_db {| s_current := None; s_pending := None; s_log := []; s_bad := [];
                                               s_targets := [] |} (device sample_x)) (aklite sample_x)) sample_x;
     con_os := sample_disk |}.
Lemma read_only_client_records :
  let '(o, c') := AkliteClient_new sample_setup sample_base (sample_client_config sample_extra) true false unknown_con in
  is_throw o = false /\ List.length (s_log (db (device (con_ext unknown_con)))) = 0%nat /\
  List.length (s_log (db (device (con_ext c')))) = 1%nat.
Proof. vm_compute. done. Qed.

Definition with_lock (lock : outcome unit) (e : ApiEnv SimpleDB SimpleSR SimpleEN) : ApiEnv SimpleDB SimpleSR SimpleEN := {|
  client := client e; hw_id := hw_id e; read_only := read_only e;
  invoke_post_cb_at_checkin := invoke_post_cb_at_checkin e; AkHttpsRepoSource := AkHttpsRepoSource e;
  read_file := read_file e; app_store_dirs := app_store_dirs e; ostree_open := ostree_open e;
  ostree_hasCommit := ostree_hasCommit e; parseJSON := parseJSON e; jsonToCanonicalStr := jsonToCanonicalStr e;
  key_verifies := key_verifies e; expired_at_now := expired_at_now e; styled_string := styled_string e;
  TimeStamp_ToString := TimeStamp_ToString e; http_get := http_get e; getStatusStr := getStatusStr e;
  assert_lock := lock; open_local_install := open_local_install e;
  make_offline_engine := make_offline_engine e |}.
Definition locked_base : ExtEnv SimpleDB SimpleSR SimpleEN :=
  made_ext sample_base kStaged
    (with_lock (throw runtime_error "Failed to obtain the aklite lock, another instance must be running !!!") (api sample_base)).
Lemma AkliteClient_new_locked_witness :
  exists c', AkliteClient_new sample_setup locked_base (sample_client_config sample_extra) false true unknown_con
    = (throw runtime_error "Failed to obtain the aklite lock, another instance must be running !!!", c') /\
    device (con_ext c') = device (con_ext unknown_con) /\ con_os c' = con_os unknown_con.
Proof.
  exact (AkliteClient_new_locked sample_setup locked_base (sample_client_config sample_extra) true unknown_con _ eq_refl).
Defined.

(** The program on the device of [sample_x], which downloads from this server *)
Definition process_config : ClientConfig := {|
  cc_extra := sample_extra; cc_pacman_type := PACKAGE_MANAGER_NONE; cc_sysroot := ""; cc_booted := kStaged; cc_os := "lmp";
  cc_ostree_server := "https://good"; cc_repo_server := "https://gw/repo"; cc_primary_ecu_serial := "";
  cc_primary_ecu_hardware_id := "hw"; cc_tls_cacert := "/var/sota/root.crt" |}.
Definition sample_process : MainEnv (DB := SimpleDB) (SR := SimpleSR) (EN := SimpleEN) (TR := SimpleTR) := {|
  command_line_parser argv := Parsed (sample_params argv) [];
  make_client := command_client sample_setup sample_disk sample_cli process_config;
  auto_downgrade_default := false; repo_server := "https://repo"; reboot_command_executable := true;
  AKLITE_TEST_RETURN_ON_SLEEP := true; daemon_fuel := 1 |}.
Lemma process_no_install_witness :
  emits (fun e => no_install e \/ records_initial e) (device sample_x)
    (device (exec (main (R := Z) sample_process ["pull"]) sample_x)) /\
  fst (main (R := Z) sample_process ["pull"] sample_x) = Ret (Some EXIT_SUCCESS, NoOutput) /\
  sr_commits (sr (device sample_x)) = [] /\
  sr_commits (sr (device (exec (main (R := Z) sample_process ["pull"]) sample_x))) = ["3"].
Proof.
  split.
  - apply (process_no_install sample_setup process_config (R := Z) sample_process sample_disk sample_cli ["pull"]
             (sample_params ["pull"]) "pull" sample_x); [reflexivity..|]. left.
  - split_and!; vm_compute; reflexivity.
Defined.
