(* ===== verification/Offline.v ===== *)
(** * The offline client

    [src/apps/aklite-offline/main.cpp], [cmds.h] and [cmds.cpp]: the program that updates a device
    from a directory. Its commands are the ones of the command line interface, with other
    exit codes. The parser of the options and the construction of the client from the
    configuration are parameters. *)

From S2P Require Import Prelude Json Targets Registry Volume Restorable Platform Bootloader Sample RootfsTree.
From S2P Require Import ComposeApps Client Bundle CheckIn HttpsRepo Install ClientExt Cli Main.

(** ** Options *)

(** [po::variables_map] after the options of a command *)
Record offline_vm := {
  vm_help : bool; vm_log_level : Z; vm_src_dir : string; vm_force : bool; vm_target : string;
}.
(** What [po::store] and [po::notify] make of the arguments *)
Inductive offline_parsed := OfflineParsed (vm : offline_vm) | OfflineParseError (why : string).

Section offline.
Context {DB SR EN TR R : Type}.
Context `{AppEngine EN, INvStorage DB, TufRepo DB, Ostree DB SR, BootFwUpdateStatus SR, InstallationResults,
          UptaneTargets, ImageRepo DB TR, TargetSort, RootRepo R}.
Abbreviation X := (ExtSt DB SR EN TR).

(** What the program gets from its surroundings. *)
Record OfflineEnv := {
  (** the parser, for the options of a command *)
  offline_parser : string -> list string -> offline_parsed;
  (** [Config(vm)] and the constructor of [LiteClient] *)
  offline_make_client : offline_vm -> M X (CliEnv DB SR EN);
  (** [assert_lock] *)
  offline_assert_lock : outcome unit;
  (** the configuration printed and read as an ini file *)
  config_ini : ptree;
  (** [boost::filesystem::canonical] *)
  canonical : string -> outcome string;
  check_auto_downgrade : bool;
}.
Context (env : OfflineEnv).

(** [AkliteClient(vm, read_only, finalize)] and [AkliteClientExt(vm, read_only, finalize, post)]; the lock is
    asked for. *)
Definition client_from_vm (vm : offline_vm) (ro finalize post : bool) : M X (CliEnv DB SR EN) :=
  modify new_members;;
  on_api (Init_lock (offline_assert_lock env) ro true);;
  c ← offline_make_client env vm;
  let c' := set_cli_flags ro post c in
  on_api (Init_client (api (ext_env c')) finalize);;
  mret c'.

(** A command: its exit code and what it prints on the standard output. What was printed before
    an exception is left out. *)
Definition offline_result : Type := Z * string.

Definition checkSrcDir (vm : offline_vm) (src_dir : string) : M X offline_result :=
  c ← client_from_vm vm false false true;
  r ← cli_CheckIn (R := R) c (Some (fillUpdateSource src_dir)) CmUpdate false (check_auto_downgrade env);
  mret (StatusCode_int r.1, match r.2 with TextOutput t => t | _ => "" end).

Definition install_message (ret_code : StatusCode) : string :=
  match ret_code with
  | SC_InstallAppsNeedFinalization =>
      "Please run `aklite-offline run` command to start the updated Apps" +:+ nl
  | SC_InstallNeedsRebootForBootFw =>
      "Please reboot a device to confirm a boot firmware update, and then run the `install` command again" +:+ nl
      +:+ "If the reboot doesn't help to proceed with the update, then make sure that `bootupgrade_available` is set to `0`."
      +:+ "Try running `fw_setenv|fiovb_setenv bootupgrade_available 0`, reboot a device, and then run the `install` again"
  | SC_InstallNeedsReboot =>
      "Please reboot a device and run `aklite-offline run` command to apply installation and start the updated Apps (unless no Apps to update or dockerless system)" +:+ nl
  | SC_InstallAlreadyInstalled => "The given Target has been already installed" +:+ nl
  | SC_InstallDowngradeAttempt => "Refused to downgrade" +:+ nl
  | _ => ""
  end.
Definition install_ret_code (ret_code : StatusCode) : StatusCode :=
  match ret_code with SC_InstallAlreadyInstalled => SC_Ok | c => c end.
Definition installUpdate (vm : offline_vm) (src_dir target_name : string) (force_downgrade : bool)
    : M X offline_result :=
  c ← client_from_vm vm false false false;
  ret_code ← cli_Install (R := R) c (-1) target_name OstreeOnly force_downgrade (Some (fillUpdateSource src_dir))
               PullAll CmUpdate true;
  mret (StatusCode_int (install_ret_code ret_code), install_message ret_code).

Definition run_message (ret_code : StatusCode) : string :=
  match ret_code with
  | SC_Ok => "Successfully applied new version of rootfs and started Apps if present" +:+ nl
  | SC_NoPendingInstallation =>
      "No pending installation to run/finalize has been found; make sure you called `install` before `run`" +:+ nl
  | SC_OkNeedsRebootForBootFw =>
      "Successfully applied new version of rootfs and started Apps if present" +:+ nl
      +:+ "Please, optionally reboot a device to confirm the boot firmware update; the reboot can be performed now, anytime later, or at the beginning of the next update" +:+ nl
  | _ => ""
  end.
(** The number 120 is not a code of its own. *)
Definition run_ret_code (ret_code : StatusCode) : Z :=
  match ret_code with
  | SC_InstallRollbackOk => StatusCode_int SC_InstallOfflineRollbackOk
  | SC_InstallRollbackNeedsReboot => StatusCode_int SC_InstallNeedsReboot
  | SC_InstallRollbackFailed => 120
  | c => StatusCode_int c
  end.
Definition runUpdate (vm : offline_vm) : M X offline_result :=
  c ← client_from_vm vm false false true;
  ret_code ← CompleteInstall c;
  mret (run_ret_code ret_code, run_message ret_code).

(** The list of apps the program takes from the configuration *)
Definition current_cfg_apps (cfg : ptree) : option (list string) :=
  if Nat.eqb (ptree_count cfg "pacman.compose_apps") 1 then
    let val := ptree_get_child cfg "compose_apps" in
    Some (if Nat.ltb 0 (String.length val) then split (is_any_of ", ") val else [])
  else None.
Definition app_line (cfg_apps : option (list string)) (a : AppDesc) : string :=
  tab +:+ (if app_on cfg_apps (Targets.app_name a) then "on " else "off") +:+ ": "
  +:+ Targets.app_name a +:+ " -> " +:+ Targets.app_uri a +:+ nl.
Definition current_text (cfg_apps : option (list string)) (target : TufTarget) : outcome string :=
  apps_json ← AppsJson target;
  descs ← app_descs (jitems apps_json);
  mret ("Target: " +:+ Name target +:+ nl +:+ "Ostree hash: " +:+ Sha256Hash target +:+ nl
        +:+ (match jitems apps_json with [] => "" | _ => "Apps:" +:+ nl end)
        +:+ fold_left (fun s a => s +:+ app_line cfg_apps a) descs "").
(** The exit code is never set to another value. *)
Definition current_cmd (vm : offline_vm) : M X offline_result :=
  _ ← client_from_vm vm false true true;
  cur ← gets (fun x => GetCurrent (aklite x)); target ← lift cur;
  text ← lift (current_text (current_cfg_apps (config_ini env)) target);
  mret (EXIT_FAILURE, text).

(** ** The commands *)

Record OfflineCmd := {
  off_name : string;
  off_description : string;
  off_call : offline_vm -> M X offline_result;
}.
(** [operator()]: every exception ends the command with a failure. *)
Definition or_failure (m : M X offline_result) : M X offline_result :=
  try_catch m (fun _ => mret (EXIT_FAILURE, "")).
Definition with_src_dir (vm : offline_vm) (f : string -> M X offline_result) : M X offline_result :=
  src_dir ← lift (canonical env (vm_src_dir vm)); f src_dir.

Definition CheckCmd (vm : offline_vm) : M X offline_result :=
  or_failure (with_src_dir vm (checkSrcDir vm)).
Definition InstallCmd (vm : offline_vm) : M X offline_result :=
  or_failure (with_src_dir vm (fun src_dir => installUpdate vm src_dir (vm_target vm) (vm_force vm))).
Definition RunCmd (vm : offline_vm) : M X offline_result := or_failure (runUpdate vm).
Definition CurrentCmd (vm : offline_vm) : M X offline_result := or_failure (current_cmd vm).

Definition cmds : list OfflineCmd := [
  {| off_name := "check";
     off_description := "Update the device TUF metadata by fetching and validating the offline bundle's metadata. The list of available targets is printed";
     off_call := CheckCmd |};
  {| off_name := "install";
     off_description := "Install the selected target. If no target name is specified, the highest version in the bundle will be used";
     off_call := InstallCmd |};
  {| off_name := "run"; off_description := "Finalize the installation of a target, starting the updated apps";
     off_call := RunCmd |};
  {| off_name := "current"; off_description := "Show information about the currently running target";
     off_call := CurrentCmd |}
].

Definition print_usage : string :=
  "Usage:" +:+ nl +:+ "  aklite-offline <cmd> [flags]" +:+ nl +:+ nl +:+ "Supported commands: "
  +:+ fold_left (fun s cmd => s +:+ nl +:+ "  " +:+ off_name cmd
                  +:+ String.concat "" (repeat " " (Z.to_nat (padding (off_name cmd)))) +:+ " " +:+ off_description cmd)
        cmds ""
  +:+ nl +:+ nl.
(** [options] is the table of the options that boost prints. *)
Definition print_usage_cmd (cmd : OfflineCmd) (options : string) : string :=
  off_description cmd +:+ nl +:+ nl +:+ "Usage:" +:+ nl +:+ "  aklite-offline " +:+ off_name cmd +:+ " [flags]"
  +:+ nl +:+ nl +:+ "Flags: " +:+ nl +:+ options +:+ nl +:+ nl.

(** [args] are the arguments after the name of the program. *)
Definition offline_main (options : string -> string) (args : list string) : M X offline_result :=
  match args with
  | [] => mret (EXIT_FAILURE, print_usage)
  | cmd_name :: _ =>
      match List.find (fun c => String.eqb (off_name c) cmd_name) cmds with
      | None => mret (EXIT_FAILURE, print_usage)
      | Some cmd =>
          match offline_parser env cmd_name args with
          | OfflineParseError _ => mret (EXIT_FAILURE, print_usage_cmd cmd (options cmd_name))
          | OfflineParsed vm =>
              if vm_help vm then mret (EXIT_SUCCESS, print_usage_cmd cmd (options cmd_name))
              else off_call cmd vm
          end
      end
  end.
End offline.
Arguments OfflineEnv : clear implicits.

(** ** Theorems *)
Section theorems.
Context {DB SR EN TR R : Type}.
Context `{AppEngine EN, INvStorage DB, TufRepo DB, Ostree DB SR, BootFwUpdateStatus SR, InstallationResults,
          UptaneTargets, ImageRepo DB TR, TargetSort, RootRepo R}.
Context (env : OfflineEnv DB SR EN TR) (options : string -> string).
Abbreviation X := (ExtSt DB SR EN TR).
Abbreviation program := (offline_main (R := R) env options).

Lemma or_failure_returns (m : M X offline_result) x : exists r x', or_failure m x = (Ret r, x').
Proof. unfold or_failure, try_catch. destruct (m x) as [[r|e] x']; by eexists _, _. Qed.

Lemma or_failure_run (m : M X offline_result) x r x' :
  or_failure m x = (Ret r, x') -> r = (EXIT_FAILURE, "") \/ m x = (Ret r, x').
Proof. unfold or_failure, try_catch. destruct (m x) as [[r'|e] x1]; intros [= <- <-]; auto. Qed.

(** The command that runs *)
Lemma offline_main_run name args vm cmd x :
  List.find (fun c => String.eqb (off_name c) name) (cmds (R := R) env) = Some cmd ->
  offline_parser env name (name :: args) = OfflineParsed vm -> vm_help vm = false ->
  program (name :: args) x = off_call cmd vm x.
Proof. intros Hc Hp Hh. unfold offline_main. by rewrite Hc, Hp, Hh. Qed.

(** [aklite-offline check] only looks: once the client is made it deploys nothing, installs and starts no
    app and records no version, on every branch. *)
Theorem offline_check_no_install (args : list string) (vm : offline_vm) (x : X) :
  offline_parser env "check" ("check" :: args) = OfflineParsed vm -> vm_help vm = false ->
  preserves (emitsX no_install) (offline_make_client env vm) ->
  emitsX no_install x (exec (program ("check" :: args)) x).
Proof.
  intros Hp Hh Hm. unfold exec. erewrite offline_main_run; [|reflexivity|exact Hp|exact Hh]. cbn [off_call].
  pose proof (fun c => CheckIn_no_install (TR := TR) (R := R) c).
  pose proof (fun l ro b => on_api_emits no_install _ (Init_lock_no_install (DB := DB) (SR := SR) (EN := EN) (TR := TR) l ro b)).
  pose proof (fun e => on_api_emits no_install _ (Init_client_no_install (DB := DB) (SR := SR) (EN := EN) (TR := TR) e)).
  fold (exec (CheckCmd (R := R) env vm) x). revert x. change (preserves (emitsX no_install) (CheckCmd (R := R) env vm)).
  unfold CheckCmd, or_failure, with_src_dir, checkSrcDir, client_from_vm. pstep. intros ?; by apply emits_same.
Qed.

(** [aklite-offline current] ends with a code of failure, also when it printed the current target. *)
Theorem offline_current_fails (args : list string) (vm : offline_vm) (x : X) :
  offline_parser env "current" ("current" :: args) = OfflineParsed vm -> vm_help vm = false ->
  exists out x', program ("current" :: args) x = (Ret (EXIT_FAILURE, out), x').
Proof.
  intros Hp Hh. erewrite offline_main_run; [|reflexivity|exact Hp|exact Hh]. cbn [off_call]. unfold CurrentCmd.
  edestruct or_failure_returns as ([code out] & x' & E). exists out, x'. rewrite E.
  apply or_failure_run in E as [[= -> ->]|E]; [done|]. unfold current_cmd in E.
  do 4 (apply M_bind_Ret in E as (? & ? & _ & E)). injection E as -> _ _. done.
Qed.

(** The list of apps is never read from the configuration, which has no section of that name: every app is
    shown as on. *)
Lemma current_apps_on (cfg : ptree) (a : AppDesc) :
  Forall (fun c => child_name c <> "pacman.compose_apps") cfg ->
  app_line (current_cfg_apps cfg) a
  = tab +:+ "on " +:+ ": " +:+ Targets.app_name a +:+ " -> " +:+ Targets.app_uri a +:+ nl.
Proof.
  intros Hc. unfold current_cfg_apps, ptree_count.
  replace (List.filter (fun c => String.eqb (child_name c) "pacman.compose_apps") cfg) with (@nil ptree_child); [done|].
  symmetry. induction Hc as [|c cfg Hc _ IH]; cbn; [done|]. by rewrite (proj2 (String.eqb_neq _ _) Hc).
Qed.

Context `{!INvStorageSpec DB, !UptaneTargetsSpec, !InstallationResultsSpec}.

(** What a code of success of [install] says *)
Definition offline_installed (vm : offline_vm) (src_dir : string) (sc : StatusCode) (x' : X) : Prop :=
  exists c x1 ci x2 gti x3,
    checkIn (R := R) c CmUpdate (Some (fillUpdateSource src_dir)) x1 = (Ret ci, x2) /\ CheckInResult_bool ci = true /\
    GetTargetToInstall (ext_env c) ci (-1) (vm_target vm) true true true true x2 = (Ret gti, x3) /\
    let t := selected_target gti in
    ((IsUnknown t = true /\ GTI_bool gti = true /\ x' = x3) \/
     (vm_force vm = false -> exists current, GetCurrent (aklite x3) = Ret current /\ Version current <= Version t) /\
     (exists a : ApiSt DB SR EN TR,
        trusted t (Some (fillUpdateSource src_dir)) (bool_decide (gti_status gti = UpdateNewVersion)) a) /\
     exists st, st ∈ [IOk; NeedsCompletion; AppsNeedCompletion] /\ sc = res2StatusCode i2s st /\
       (Sha256Hash t <> sha256Hash Unknown -> recorded (Sha256Hash t) st (device x'))).

Lemma installUpdate_did vm src_dir x r x' :
  installUpdate (R := R) env vm src_dir (vm_target vm) (vm_force vm) x = (Ret r, x') ->
  exists sc, r.1 = StatusCode_int (install_ret_code sc) /\
    (IsSuccessCode sc = true -> offline_installed vm src_dir sc x').
Proof.
  unfold installUpdate. intros E. apply M_bind_Ret in E as (c & x1 & _ & E).
  apply M_bind_Ret in E as (sc & x2 & Er & E). injection E as <- <-. exists sc. split; [done|]. intros Hs.
  destruct (cli_Install_did _ _ _ _ _ _ _ _ _ _ _ _ Er Hs) as (ci & x3 & gti & x4 & E1 & E2 & E3 & D).
  by exists c, x1, ci, x3, gti, x4.
Qed.


(** [aklite-offline run] always ends with an exit code. 0 and 5 say that nothing is pending any more, 40 that
    nothing was, 99 that the completion failed and the device is back on an earlier target; 100 says that a
    reboot is needed, either for the pending target or for the one the device goes back to: the code does
    not tell which. *)
Theorem offline_run_code (args : list string) (vm : offline_vm) (x : X) :
  offline_parser env "run" ("run" :: args) = OfflineParsed vm -> vm_help vm = false ->
  exists code out x', program ("run" :: args) x = (Ret (code, out), x') /\
    (code = EXIT_FAILURE \/
     exists (c : CliEnv DB SR EN) x1, client_from_vm env vm false false true x = (Ret c, x1) /\
       ((code ∈ [0; 5] /\ pending_of (db (device x')) = None) \/
        (code = 40 /\ IsInstallationInProgress (aklite x1) = false /\ x' = x1) \/
        (code ∈ [99; 120] /\ exists pending x2, completion_failed c pending x1 x2) \/
        (code = 100 /\ (pending_of (db (device x')) = pending_of (db (device x1)) /\ pending_of (db (device x1)) <> None \/
                        exists pending x2 rt, completion_failed c pending x1 x2 /\
                          GetRollbackTarget true (aklite x2) = Ret rt /\ rolled_back_to rt NeedsCompletion x')))).
Proof.
  intros Hp Hh. erewrite offline_main_run; [|reflexivity|exact Hp|exact Hh]. cbn [off_call]. unfold RunCmd.
  edestruct or_failure_returns as ([code out] & x' & E). exists code, out, x'. split; [exact E|].
  apply or_failure_run in E as [[= -> ->]|E]; [by left|]. unfold runUpdate in E.
  apply M_bind_Ret in E as (c & x1 & E1 & E). apply M_bind_Ret in E as (sc & x2 & E2 & E). injection E as <- _ <-.
  pose proof (CompleteInstall_did c x1 x2 sc E2) as D. unfold completed_with in D.
  destruct sc; try done; (by left) || (right; exists c, x1; split; [done|]); cbn [run_ret_code StatusCode_int].
  - left. split; [set_solver|done].
  - left. split; [set_solver|done].
  - right; left. done.
  - right; right; right. split; [done|]. by left.
  - right; right; left. split; [set_solver|]. destruct D as (pd & x3 & cur & D & _). by exists pd, x3.
  - right; right; right. split; [done|]. right. destruct D as (pd & x3 & cur & rt & D1 & _ & _ & D2 & D3).
    by exists pd, x3, rt.
  - right; right; left. split; [set_solver|done].
Qed.
End theorems.

(** ** A concrete program *)

Definition sample_vm : offline_vm :=
  {| vm_help := false; vm_log_level := 2; vm_src_dir := "/src"; vm_force := false; vm_target := "" |}.
Definition sample_offline : OfflineEnv SimpleDB SimpleSR SimpleEN SimpleTR := {|
  offline_parser _ _ := OfflineParsed sample_vm; offline_make_client _ := mret sample_cli;
  offline_assert_lock := mret tt; config_ini := [];
  canonical := Ret; check_auto_downgrade := false |}.
Abbreviation sample_run := (offline_main (R := Z) sample_offline (fun _ => "")).


Lemma offline_check_no_install_witness :
  emitsX no_install sample_x (exec (sample_run ["check"]) sample_x).
Proof.
  refine (offline_check_no_install (R := Z) sample_offline (fun _ => "") [] sample_vm sample_x eq_refl eq_refl _).
  apply (preserves_ret _).
Defined.

Lemma offline_run_code_witness :
  exists code out x', sample_run ["run"] sample_x = (Ret (code, out), x') /\
    (code = EXIT_FAILURE \/
     exists (c : CliEnv SimpleDB SimpleSR SimpleEN) x1,
       client_from_vm sample_offline sample_vm false false true sample_x = (Ret c, x1) /\
       ((code ∈ [0; 5] /\ pending_of (db (device x')) = None) \/
        (code = 40 /\ IsInstallationInProgress (aklite x1) = false /\ x' = x1) \/
        (code ∈ [99; 120] /\ exists pending x2, completion_failed c pending x1 x2) \/
        (code = 100 /\ (pending_of (db (device x')) = pending_of (db (device x1)) /\ pending_of (db (device x1)) <> None \/
                        exists pending x2 rt, completion_failed c pending x1 x2 /\
                          GetRollbackTarget true (aklite x2) = Ret rt /\ rolled_back_to rt NeedsCompletion x')))).
Proof. exact (offline_run_code (R := Z) sample_offline (fun _ => "") [] sample_vm sample_x eq_refl eq_refl). Defined.

Lemma offline_current_fails_witness :
  exists out x', sample_run ["current"] sample_x = (Ret (EXIT_FAILURE, out), x').
Proof. exact (offline_current_fails (R := Z) sample_offline (fun _ => "") [] sample_vm sample_x eq_refl eq_refl). Defined.

(** The commands on a device: no pending installation, and the current target, shown with a code of failure. *)
Example offline_runs :
  (exists out, run (sample_run ["run"]) sample_x = Ret (40, out)) /\
  (exists out, run (sample_run ["current"]) sample_x = Ret (1, "Target: lmp-2" +:+ out)) /\
  (exists out, run (sample_run ["--help"]) sample_x = Ret (1, out)).
Proof. repeat split; eexists; vm_compute; reflexivity. Qed.
