(* ===== verification/Device.v ===== *)
(** * The device under the app engines

    What the engines of [src/src/docker] and [src/src/composeapp] share: the file
    system and the docker daemon they work on, the commands they run, the
    registry client, and the helpers that read compose files
    ([src/src/docker/composeinfo.cc]) and look up containers. *)

From S2P Require Import Prelude Json Targets Registry Volume Exec Fs DockerClient Platform.

(** The device as the engine sees it: the file system and the docker daemon. *)
Record World (D : Type) := mkW { wfs : FS; wdocker : D }.
Arguments mkW {D}.
Arguments wfs {D}.
Arguments wdocker {D}.

Record DeviceEnv (D : Type) := {
  fs_env : FsEnv;
  exec_env : ExecEnv (World D);
  docker_env : DockerEnv D;
  registry : RegistryEnv;
  auth_creds_endpoint : string;
  (** the largest file a download can write, and whether the HTTP client ends a transfer when the handler of the data
      refuses a block, as curl does *)
  file_capacity : nat;
  stops_when_refused : bool;
  (** exit code and output of [fy-tool --mode json <file>], from the content of the file *)
  fy_tool : option string -> Z * string;
  (** [std::istream >> Json::Value] *)
  json_stream : string -> outcome json;
  (** [Utils::parseJSONFile] on a file that is missing *)
  json_missing : json;
}.
Arguments fs_env {D}.
Arguments exec_env {D}.
Arguments docker_env {D}.
Arguments registry {D}.
Arguments auth_creds_endpoint {D}.
Arguments file_capacity {D}.
Arguments stops_when_refused {D}.
Arguments fy_tool {D}.
Arguments json_stream {D}.
Arguments json_missing {D}.

Definition ManifestFormat : string := "application/vnd.oci.image.manifest.v1+json".
Definition ManifestIndexFormat : string := "application/vnd.oci.image.index.v1+json".
Definition ArchiveExt : string := ".tgz".
Definition ManifestFile : string := "manifest.json".
Definition ComposeFile : string := "docker-compose.yml".
Definition IndexFile : string := "index.json".

(** ** [ComposeInfo]: the JSON of a compose file *)

Definition getServices (root : json) : outcome (list string) :=
  p ← jindex root "services"; mret (jitems p).*1.
Definition service_json (root : json) (service : string) : outcome json :=
  p ← jindex root "services"; jindex p service.
Definition getImage (root : json) (service : string) : outcome string :=
  s ← service_json root service; jstring_at s "image".
Definition getHash (root : json) (service : string) : outcome string :=
  s ← service_json root service; l ← jindex s "labels"; jstring_at l "io.compose-spec.config-hash".

(** ** Results *)

Definition result_ok : Result := {| status := OK; res_err := ""; stat := UsageInfo_err "undefined" |}.
Definition result_failed (e : string) : Result :=
  {| status := Failed; res_err := e; stat := UsageInfo_err "undefined" |}.

Section device.
Context {D : Type} (env : DeviceEnv D).
Abbreviation W := (World D).

Definition on_fs {A} (m : M FS A) : M W A := fun w =>
  let '(o, f) := m (wfs w) in (o, mkW f (wdocker w)).
Definition on_docker {A} (m : M D A) : M W A := fun w =>
  let '(o, d) := m (wdocker w) in (o, mkW (wfs w) d).
Definition get_fs {A} (q : FS -> A) : M W A := gets (fun w => q (wfs w)).
Definition modify_fs (f : FS -> FS) : M W unit := on_fs (modify f).

Definition exec_ (cmd err start_dir : string) : M W unit := _ ← exec_in (exec_env env) cmd err start_dir; mret tt.

(** *** Reading files *)

Definition parseJSONFile (p : Path) (f : FS) : json :=
  match read p f with Some c => parseJSON (registry env) c | None => json_missing env end.

Definition getContentHash (p : Path) (f : FS) : string := sha256_hex (registry env) (readFile (fs_env env) p f).

(** [Yaml2Json] *)
Definition ComposeInfo (p : Path) (f : FS) : outcome json :=
  if negb (fs_exists p f) then throw invalid_argument ("The specified `yaml` file is not found: " +:+ path_str p)
  else
    let '(code, data) := fy_tool env (read p f) in
    if negb (code =? EXIT_SUCCESS)
    then throw invalid_argument ("Failed to parse the input `yaml` file; path: " +:+ path_str p +:+ ", err: " +:+ data)
    else match json_stream env data with
         | Ret j => mret j
         | Throw e => throw invalid_argument
             ("Failed to parse the json representation of the input `yaml` file; path: " +:+ path_str p
              +:+ ", err: " +:+ what e)
         end.

(** The services of a compose file with their hashes, looked up one by one among the containers. *)
Fixpoint containers_match (check_state : bool) (app : string) (compose containers : json) (services : list string)
    : outcome bool :=
  match services with
  | [] => mret true
  | s :: services' =>
      h ← getHash compose s;
      st ← getContainerState containers app s h;
      if st.1 && (negb check_state || negb (String.eqb st.2 "created"))
      then containers_match check_state app compose containers services'
      else mret false
  end.

Definition app_containers (a : App) (compose_file : Path) (check_state : bool) : M W bool :=
  c ← get_fs (ComposeInfo compose_file); compose ← lift c;
  services ← lift (getServices compose);
  if bool_decide (services = []) then throwM runtime_error "No services found in App's compose file"
  else
    cs ← gets (fun w => getContainers (docker_env env) (wdocker w)); containers ← lift cs;
    lift (containers_match check_state (app_name a) compose containers services).

(** *** The registry *)

Definition blob_request : list string -> string -> DownloadCtx -> DownloadCtx * HttpResponse :=
  if stops_when_refused env then doDownloadBlobRequest (registry env) (file_capacity env)
  else unchecked_request (registry env) (file_capacity env).

(** [registry_client_->downloadBlob(uri, p, size)] *)
Definition downloadBlobTo (uri : Uri) (p : Path) (size : Z) : M W unit := fun w =>
  if is_directory p (wfs w) || negb (is_directory (parent_path p) (wfs w))
  then (throw runtime_error ("Failed to open a file: " +:+ path_str p), w)
  else
    let '(o, c) := downloadBlob_by (registry env) (auth_creds_endpoint env) blob_request uri size in
    (o, mkW (match c with Some c => <[p := File c]> (wfs w) | None => delete p (wfs w) end) (wdocker w)).

Definition getManifest (uri : Uri) (format : string) (size : option Z) : outcome string :=
  getAppManifest (registry env) (auth_creds_endpoint env) uri format size.

(** *** The docker store *)

(** [ComposeAppEngine::pruneDockerStore] *)
Definition pruneDockerStore : M D unit :=
  try_catch (pruneContainers (docker_env env);; pruneImages (docker_env env)) (fun _ => mret tt).

End device.

(** ** Runs *)

Section runs.
Context {D : Type}.
Abbreviation W := (World D).
Implicit Types (f : FS) (w : World D).

Lemma bind_get_fs {A B : Type} (q : FS -> A) (k : A -> M W B) w : (get_fs q ≫= k) w = k (q (wfs w)) w.
Proof. done. Qed.

Lemma on_fs_Ret {A} (m : M FS A) w a w' :
  on_fs m w = (Ret a, w') <-> m (wfs w) = (Ret a, wfs w') /\ wdocker w' = wdocker w.
Proof.
  unfold on_fs. destruct (m (wfs w)) as [o f'], w' as [f1 d1]. cbn. split; [by intros [= -> -> ->]|].
  by intros [[= -> ->] ->].
Qed.

Lemma preserves_intro {A} (R : W -> W -> Prop) (m : M W A) : preserves R m -> forall w, R w (exec m w).
Proof. done. Qed.
Lemma exec_bind_get_fs {A B : Type} (q : FS -> A) (k : A -> M W B) w :
  exec (get_fs q ≫= k) w = exec (k (q (wfs w))) w.
Proof. done. Qed.
Lemma exec_bind_lift {A B : Type} (o : outcome A) (k : A -> M W B) w :
  exec (lift o ≫= k) w = match o with Ret a => exec (k a) w | Throw _ => w end.
Proof. by destruct o. Qed.
Lemma exec_bind_then {A B : Type} (m : M W A) (b : B) w : exec (m ≫= (fun _ => mret b)) w = exec m w.
Proof. unfold exec, mbind, M_bind. by destruct (m w) as [[]?]. Qed.

Lemma exec_bind_run {A B : Type} (m : M W A) (k : A -> M W B) a w w' : m w = (Ret a, w') -> exec (m ≫= k) w = exec (k a) w'.
Proof. unfold exec, mbind, M_bind. by intros ->. Qed.

Lemma fs_exists_read p f c : read p f = Some c -> fs_exists p f = true.
Proof. intros H. apply bool_decide_eq_true. unfold read in H. destruct (_ !! _); [eauto|discriminate H]. Qed.

End runs.

(** Takes the first step of a run that returned off [H]: a pure step, or a query of the files. *)
Ltac fs_step H x Hx := unfold get_fs in H; pure_step H x Hx.

(** Goes through the steps of a run that do not change the state. *)
Ltac exec_step :=
  repeat (rewrite exec_bind_get_fs
          || (rewrite exec_bind_lift;
              match goal with |- context [match ?o with Ret _ => _ | Throw _ => _ end] => destruct o eqn:? end;
              [|reflexivity])
          || match goal with |- _ _ _ (exec (if negb ?b then _ else _) _) => destruct b eqn:?; cbn [negb] end;
             try reflexivity).
