(* ===== verification/RestorableEngine.v ===== *)
(** * The restorable app engine

    [RestorableAppEngine] ([src/src/docker/restorableappengine.cc]): the store of
    apps (manifests, archives, image indices and blobs) on the file system, the
    download of an app into it, the check that an app is complete, its
    installation from the store into the docker engine, and the pruning of the
    store. The accounting of the storage is in [Restorable.v].

    The names of apps and the hashes of digests are used as single names of
    paths; those with a slash are left out. *)

From S2P Require Import Prelude Json Targets Registry Volume Restorable Exec Fs DockerClient Platform Device.

Record RestorableEnv (D : Type) := {
  dev :> DeviceEnv D;
  store_root : Path;
  install_root : Path;
  docker_root : Path;
  docker_and_skopeo_same_volume : bool;
  client_cmd : string;
  compose_cmd : string;
  (** the usage of a path *)
  storage_space_func : World D -> string -> UsageInfo;
  client_image_src_func : Uri -> string -> outcome string;
  create_containers_if_install : bool;
  max_parallel_pulls_ : Z;
  (** [docker_client_->arch()] *)
  arch : string;
  (** exit code and output of [tar --to-stdout -xzf <archive> docker-compose.yml], from the content of
      the archive ([None]: there is no such file) *)
  tar_compose_file : option string -> Z * string;
}.
Arguments dev {D}.
Arguments store_root {D}.
Arguments install_root {D}.
Arguments docker_root {D}.
Arguments docker_and_skopeo_same_volume {D}.
Arguments client_cmd {D}.
Arguments compose_cmd {D}.
Arguments storage_space_func {D}.
Arguments client_image_src_func {D}.
Arguments create_containers_if_install {D}.
Arguments max_parallel_pulls_ {D}.
Arguments arch {D}.
Arguments tar_compose_file {D}.

Section engine.
Context {D : Type} (env : RestorableEnv D).
Abbreviation W := (World D).

Definition apps_root : Path := store_root env ++ ["apps"].
Definition blobs_root : Path := store_root env ++ ["blobs"].
Definition blob_path (h : string) : Path := blobs_root ++ ["sha256"; h].
Definition app_path (uri : Uri) : Path := apps_root ++ [Registry.app uri; hash (digest uri)].
Definition image_path (dir : Path) (uri : Uri) : Path :=
  (dir // registryHostname uri) // repo uri ++ [hash (digest uri)].

(** *** Reading files *)

Definition extractComposeFile (archive : Path) (f : FS) : outcome string :=
  let '(code, out) := tar_compose_file env (read archive f) in
  if negb (code =? EXIT_SUCCESS)
  then throw runtime_error ("Failed to extract " +:+ ComposeFile +:+ " from the App archive: " +:+ out)
  else mret out.

(** The archive an app manifest names. *)
Definition archive_digest (manifest : json) : outcome HashedDigest :=
  d ← archiveDigest manifest; make_HashedDigest d.
Definition archive_path (app_dir : Path) (d : HashedDigest) : Path := app_dir ++ [hash d +:+ ArchiveExt].

(** *** Is an app in the store? *)

Definition digest_at (v : json) : outcome HashedDigest := s ← jstring_at v "digest"; make_HashedDigest s.

(** [desc["manifests"][0]["digest"]] *)
Definition index_digest (desc : json) : outcome HashedDigest :=
  ms ← jindex desc "manifests"; m ← jnth ms 0; digest_at m.

Fixpoint check_layers (layers : list json) : M W bool :=
  match layers with
  | [] => mret true
  | l :: layers' =>
      ok ← lift (if jisObject l then d ← jisMember l "digest"; s ← jisMember l "size"; mret (d && s) else mret false);
      if negb ok then mret false
      else
        d ← lift (digest_at l);
        sz ← lift (x ← jindex l "size"; jasInt64 x);
        there ← get_fs (fs_exists (blob_path (hash d)));
        if negb there then mret false
        else
          n ← get_fs (file_size (blob_path (hash d))); blob_size ← lift n;
          if negb (blob_size =? to_u64 sz) then on_fs (remove_path (blob_path (hash d)));; mret false
          else check_layers layers'
  end.

(** The body of the [try] block for one image. *)
Definition check_image (image_root : Path) : M W bool :=
  let index := image_root ++ [IndexFile] in
  desc ← get_fs (parseJSONFile env index);
  good ← lift (if jempty desc || negb (jisObject desc) then mret false else jisMember desc "manifests");
  if negb good then on_fs (remove_path index);; mret false
  else
    d ← lift (index_digest desc);
    there ← get_fs (fs_exists (blob_path (hash d)));
    if negb there then mret false
    else
      h ← get_fs (getContentHash env (blob_path (hash d)));
      if negb (String.eqb h (hash d)) then mret false
      else
        manifest ← get_fs (parseJSONFile env (blob_path (hash d)));
        c ← lift (x ← jindex manifest "config"; digest_at x);
        cthere ← get_fs (fs_exists (blob_path (hash c)));
        if negb cthere then mret false
        else
          ch ← get_fs (getContentHash env (blob_path (hash c)));
          if negb (String.eqb ch (hash c)) then mret false
          else layers ← lift (jindex manifest "layers"); check_layers (jelems layers).

Fixpoint check_images (app_dir : Path) (compose : json) (services : list string) : M W bool :=
  match services with
  | [] => mret true
  | s :: services' =>
      image ← lift (getImage compose s);
      image_uri ← lift (parseUri image false);
      let image_root := image_path (app_dir ++ ["images"]) image_uri in
      there ← get_fs (fs_exists (image_root ++ [IndexFile]));
      if negb there then mret false
      else
        ok ← try_catch (check_image image_root) (fun _ => modify_fs (remove_all image_root);; mret false);
        if ok : bool then check_images app_dir compose services' else mret false
  end.

Definition areAppImagesFetched (a : App) : M W bool :=
  uri ← lift (parseUri (app_uri a) true);
  c ← get_fs (ComposeInfo env (app_path uri ++ [ComposeFile])); compose ← lift c;
  services ← lift (getServices compose);
  check_images (app_path uri) compose services.

Definition isAppFetched (a : App) : M W bool :=
  uri ← lift (parseUri (app_uri a) true);
  let app_dir := app_path uri in
  let manifest_file := app_dir ++ [ManifestFile] in
  there ← get_fs (fun f => fs_exists app_dir f && fs_exists manifest_file f);
  if negb there then mret false
  else
    manifest_hash ← get_fs (getContentHash env manifest_file);
    if negb (String.eqb manifest_hash (hash (digest uri))) then mret false
    else
      json ← get_fs (parseJSONFile env manifest_file);
      manifest ← lift (make_Manifest json);
      d ← lift (archive_digest manifest);
      let archive := archive_path app_dir d in
      there ← get_fs (fs_exists archive);
      if negb there then mret false
      else
        archive_hash ← get_fs (getContentHash env archive);
        if negb (String.eqb archive_hash (hash d)) then mret false
        else
          c ← get_fs (extractComposeFile archive); compose ← lift c;
          on_fs (writeFile (fs_env env) (app_dir ++ [ComposeFile]) compose);;
          areAppImagesFetched a.

(** *** Is it installed and running? *)

Definition isAppInstalled (a : App) : M W bool :=
  uri ← lift (parseUri (app_uri a) true);
  json ← get_fs (parseJSONFile env (app_path uri ++ [ManifestFile]));
  manifest ← lift (make_Manifest json);
  d ← lift (archive_digest manifest);
  c ← get_fs (extractComposeFile (archive_path (app_path uri) d)); compose ← lift c;
  installed ← get_fs (readFile (fs_env env) (install_root env ++ [app_name a; ComposeFile]));
  mret (String.eqb (sha256_hex (registry env) compose) (sha256_hex (registry env) installed)).

(** *** Download *)

(** The monad of the code that can run out of space. *)
Definition EM (A : Type) := W -> eng_outcome A * W.
#[local] Instance EM_ret : MRet EM := fun A a w => (EOk a, w).
#[local] Instance EM_bind : MBind EM := fun A B k m w =>
  match m w with
  | (EOk a, w') => k a w'
  | (InsufficientSpaceError s u, w') => (InsufficientSpaceError s u, w')
  | (EExn e, w') => (EExn e, w')
  end.
Definition em {A} (m : M W A) : EM A := fun w => let '(o, w') := m w in (eng_lift o, w').
Definition em_lift {A} (o : outcome A) : EM A := fun w => (eng_lift o, w).

Definition pullApp (uri : Uri) (app_dir : Path) : EM unit :=
  em (on_fs (create_directories app_dir));;
  manifest_str ← em_lift (getManifest env uri ManifestFormat None);
  manifest ← em_lift (make_Manifest (parseJSON (registry env) manifest_str));
  d ← em_lift (archive_digest manifest);
  let archive := archive_path app_dir d in
  (fun w => (pullApp_space_check (storage_space_func env) (path_str (store_root env)) manifest w, w));;
  size ← em_lift (archiveSize manifest);
  em (downloadBlobTo env (createUri uri d) archive size);;
  em (on_fs (writeFile (fs_env env) (app_dir ++ [ManifestFile]) manifest_str));;
  em (on_fs (writeFile (fs_env env) (app_dir ++ ["uri"])
               (registryHostname uri +:+ "/" +:+ repo uri +:+ "@" +:+ digest_ (digest uri))));;
  c ← em (get_fs (extractComposeFile archive)); compose ← em_lift c;
  em (on_fs (writeFile (fs_env env) (app_dir ++ [ComposeFile]) compose)).

(** The names in the directory of the blobs. *)
Definition store_blobs (f : FS) : gset string :=
  if is_directory (blobs_root ++ ["sha256"]) f
  then list_to_set (filename_of <$> entries (blobs_root ++ ["sha256"]) f) else ∅.

Definition tmp_file_prefix : string := "oci-put-blob".

(** The first failure ends the loop. *)
Fixpoint remove_each (l : list Path) : M FS unit :=
  match l with
  | [] => mret tt
  | p :: l' => remove_path p;; remove_each l'
  end.
Definition removeTmpFiles (f : FS) : FS :=
  exec (remove_each (filter (fun p => starts_with tmp_file_prefix (filename_of p) = true)
                       (readdir (fs_env env) (descendants apps_root f)))) f.

(** The sizes from the metadata of the layers, that are downloaded first; [None] if that fails. *)
Definition precise_update_size (uri : Uri) (app_dir : Path) (descr : Descriptor) : M W (option (Z * Z)) :=
  try_catch
    (let p := app_dir ++ [hash (descr_digest descr)] in
     downloadBlobTo env (createUri uri (descr_digest descr)) p (to_u64 (descr_size descr));;
     layers_meta ← get_fs (parseJSONFile env p);
     has ← lift (jisMember layers_meta (arch env));
     if negb has then throwM runtime_error ("No layers metadata for the given arch: " +:+ arch env)
     else
       layers ← lift (a ← jindex layers_meta (arch env); jindex a "layers");
       blobs ← get_fs store_blobs;
       r ← lift (getPreciseAppUpdateSize blobs layers);
       mret (Some r))
    (fun _ => mret None).

Definition average_compression_ratio : Z := 5.

(** The estimation from the manifest of the layers; [None] if there is no such manifest. *)
Definition estimated_update_size (uri : Uri) (manifest : json) : M W (option (Z * Z)) :=
  layers_manifest ← lift (layersManifest manifest (arch env));
  if negb (jisObject layers_manifest) then mret None
  else
    good_digest ← lift (m ← jisMember layers_manifest "digest"; d ← jindex layers_manifest "digest";
                        mret (m && jisString d));
    if negb good_digest then
      throwM invalid_argument "Got invalid layers manifest, missing or incorrect `digest` field"
    else
      good_size ← lift (m ← jisMember layers_manifest "size"; z ← jindex layers_manifest "size";
                        mret (m && jisInt64 z));
      if negb good_size then throwM invalid_argument "Got invalid layers manifest, missing or incorrect `size` field"
      else
        d ← lift (digest_at layers_manifest);
        size ← lift (z ← jindex layers_manifest "size"; jasInt64 z);
        man_str ← lift (getManifest env (createUri uri d) ManifestIndexFormat (Some size));
        layers ← lift (jindex (parseJSON (registry env) man_str) "layers");
        blobs ← get_fs store_blobs;
        skopeo ← lift (getAppUpdateSize blobs layers);
        docker ← lift (getDockerStoreSizeForAppUpdate skopeo average_compression_ratio);
        mret (Some (skopeo, docker)).

Definition tmp_removed (w : W) : W := mkW (removeTmpFiles (wfs w)) (wdocker w).

(** What the constructor does to the store *)
Definition engine_init : M W unit :=
  on_fs (create_directories apps_root);;
  on_fs (create_directories blobs_root);;
  modify tmp_removed.

Definition checkAppUpdateSize (uri : Uri) (app_dir : Path) : EM unit :=
  json ← em (get_fs (parseJSONFile env (app_dir ++ [ManifestFile])));
  manifest ← em_lift (make_Manifest json);
  if str_empty (arch env) then mret tt
  else
    descr ← em_lift (layersMetaDescr manifest);
    precise ← em (if Descriptor_bool descr then precise_update_size uri app_dir descr else mret None);
    sizes ← em (match precise with Some r => mret (Some r) | None => estimated_update_size uri manifest end);
    match sizes with
    | None => mret tt
    | Some (skopeo, docker) =>
        checkAvailableStorageInStores (storage_space_func env) tmp_removed (path_str (store_root env))
          (path_str (docker_root env)) (docker_and_skopeo_same_volume env) skopeo docker
    end.

Definition image_format : string := "v2s2".
Definition pull_cmd (src : string) (dst_dir : Path) : string :=
  let tail := "-f " +:+ image_format +:+ " --dest-shared-blob-dir " +:+ path_str blobs_root +:+ " " +:+ src
              +:+ " oci:" +:+ path_str dst_dir in
  if max_parallel_pulls_ env =? -1 then client_cmd env +:+ " copy " +:+ tail
  else client_cmd env +:+ " copy --max-parallel-pulls " +:+ to_string (max_parallel_pulls_ env) +:+ " " +:+ tail.

Definition pullImage (src : string) (dst_dir : Path) : M W unit :=
  on_fs (create_directories dst_dir);;
  exec_ env (pull_cmd src dst_dir) "failed to pull image" "".

Fixpoint pull_images (app_uri : Uri) (compose : json) (dst_dir : Path) (services : list string) : M W unit :=
  match services with
  | [] => mret tt
  | s :: services' =>
      image ← lift (getImage compose s);
      uri ← lift (parseUri image false);
      src ← lift (client_image_src_func env app_uri image);
      pullImage src (image_path dst_dir uri);;
      pull_images app_uri compose dst_dir services'
  end.

Definition pullAppImages (app_uri : Uri) (app_compose_file dst_dir : Path) : M W unit :=
  on_fs (create_directories dst_dir);;
  c ← get_fs (ComposeInfo env app_compose_file); compose ← lift c;
  services ← lift (getServices compose);
  pull_images app_uri compose dst_dir services.

Definition fetch_if_missing (a : App) (uri : Uri) : EM unit :=
  fetched ← em (isAppFetched a);
  if negb fetched then pullApp uri (app_path uri) else mret tt.

(** The [try] block of [fetch]. *)
Definition fetch_body (a : App) (uri : Uri) : EM unit :=
  let app_dir := app_path uri in
  fetch_if_missing a uri;;
  checkAppUpdateSize uri app_dir;;
  em (pullAppImages uri (app_dir ++ [ComposeFile]) (app_dir ++ ["images"])).

Definition drop_dir (p : Path) (w : W) : W :=
  if fs_exists p (wfs w) then mkW (remove_all p (wfs w)) (wdocker w) else w.

Definition space_error (store : string) (u : UsageInfo) : Result :=
  {| status := InsufficientSpace;
     res_err := "Insufficient storage available; store: " +:+ store +:+ "; " +:+ UsageInfo_str u; stat := u |}.

Definition fetchApp (a : App) : M W Result := fun w =>
  match parseUri (app_uri a) true with
  | Throw e => (Ret (result_failed (what e)), w)
  | Ret uri =>
      match fetch_body a uri w with
      | (EOk _, w') => (Ret result_ok, w')
      | (InsufficientSpaceError s u, w') => (Ret (space_error s u), drop_dir (app_path uri) w')
      | (EExn e, w') => (Ret (result_failed (what e)), drop_dir (app_path uri) w')
      end
  end.
(** *** Installation *)

Definition installApp (app_dir dst_dir : Path) : M W unit :=
  json ← get_fs (parseJSONFile env (app_dir ++ [ManifestFile]));
  manifest ← lift (make_Manifest json);
  d ← lift (archive_digest manifest);
  on_fs (create_directories dst_dir);;
  exec_ env ("tar --overwrite -xzf " +:+ path_str (archive_path app_dir d)) "failed to install Compose App"
    (path_str dst_dir).

Definition verifyComposeApp (app_dir : Path) : M W unit :=
  exec_ env (compose_cmd env +:+ " config") "Compose App verification failed" (path_str app_dir).
(** Two functions that nothing calls *)
Definition pullComposeAppImages (app_dir : Path) (flags : string) : M W unit :=
  exec_ env (compose_cmd env +:+ " pull " +:+ flags) "failed to pull Compose App images" (path_str app_dir).
Definition installImage (image_dir shared_blob_dir : Path) (docker_host tag format : string) : M W unit :=
  exec_ env (client_cmd env +:+ " copy -f " +:+ format +:+ " --dest-daemon-host " +:+ docker_host
             +:+ " --src-shared-blob-dir " +:+ path_str shared_blob_dir +:+ " oci:" +:+ path_str image_dir
             +:+ " docker-daemon:" +:+ tag) "failed to install image" "".
Definition startComposeApp (app_dir : Path) (flags : string) : M W unit :=
  exec_ env (compose_cmd env +:+ " up " +:+ flags) "failed to bring Compose App up" (path_str app_dir).
Definition stopComposeApp (app_dir : Path) : M W unit :=
  there ← get_fs (fs_exists app_dir);
  if there : bool then exec_ env (compose_cmd env +:+ " down") "failed to bring Compose App down" (path_str app_dir)
  else mret tt.

Definition loadImageToDockerStore (image_dir : Path) (uri tag : string) : M W unit :=
  index ← get_fs (parseJSONFile env (image_dir ++ [IndexFile]));
  descr ← lift (ms ← jindex index "manifests"; m ← jnth ms 0; make_Descriptor m);
  json ← get_fs (parseJSONFile env (blob_path (hash (descr_digest descr))));
  manifest ← lift (make_ImageManifest json);
  load_manifest ← lift (toLoadManifest manifest (path_str (blobs_root ++ ["sha256"])) [uri; tag]);
  on_docker (loadImage (docker_env env) uri load_manifest).

Fixpoint install_images (app_dir : Path) (compose : json) (services : list string) : M W unit :=
  match services with
  | [] => mret tt
  | s :: services' =>
      image ← lift (getImage compose s);
      uri ← lift (parseUri image false);
      let tag := registryHostname uri +:+ "/" +:+ repo uri +:+ ":" +:+ shortHash (digest uri) in
      try_catch (loadImageToDockerStore (image_path (app_dir ++ ["images"]) uri) image tag)
        (fun e => throwM LoadImageException
           ("Failed to load image to docker store; image: " +:+ image +:+ ", err: " +:+ what e));;
      install_images app_dir compose services'
  end.

Definition installAppImages (app_dir : Path) : M W unit :=
  c ← get_fs (ComposeInfo env (app_dir ++ [ComposeFile])); compose ← lift c;
  services ← lift (getServices compose);
  install_images app_dir compose services.

Definition installAppAndImages (a : App) : M W unit :=
  uri ← lift (parseUri (app_uri a) true);
  let dst := install_root env ++ [app_name a] in
  installApp (app_path uri) dst;;
  verifyComposeApp dst;;
  installAppImages (app_path uri).

(** The members below call [isAppFetched], [isAppInstalled] and [installAppAndImages] as virtual
    functions: the implementations are arguments. *)

Definition installContainerless (installAppAndImages : App -> M W unit) (a : App) : M W Result :=
  try_catch (installAppAndImages a;; mret result_ok)
    (fun e => mret (match exn_kind e with
                    | LoadImageException =>
                        {| status := ImagePullFailure; res_err := what e; stat := UsageInfo_err "undefined" |}
                    | _ => result_failed (what e)
                    end)).

Definition installAndCreateOrRunContainers (installAppAndImages : App -> M W unit) (a : App) (run : bool)
    : M W Result :=
  res ← installContainerless installAppAndImages a;
  if negb (Result_bool res) then mret res
  else
    let dir := install_root env ++ [app_name a] in
    started ← try_catch
      (startComposeApp dir (if run then "--remove-orphans -d" else "--remove-orphans --no-start");; mret result_ok)
      (fun e => mret (result_failed (what e)));
    if negb (Result_bool started) then mret started
    else
      created ← try_catch (app_containers env a (dir ++ [ComposeFile]) false) (fun _ => mret true);
      mret (if created : bool then started
            else result_failed ("App containers haven't been " +:+ (if run then "started" else "created"))).

Definition installAny (inst : App -> M W unit) (a : App) : M W Result :=
  if create_containers_if_install env then installAndCreateOrRunContainers inst a false else installContainerless inst a.

Definition verifyApp (a : App) : M W Result :=
  try_catch
    (uri ← lift (parseUri (app_uri a) true);
     exec_ env (compose_cmd env +:+ " config -q") "compose file verification failed" (path_str (app_path uri));;
     mret result_ok)
    (fun e => mret (result_failed (what e))).

Definition stopApp (a : App) : M W unit :=
  try_catch (stopComposeApp (install_root env ++ [app_name a])) (fun _ => mret tt).
Definition removeApp (a : App) : M W unit :=
  try_catch
    (stopComposeApp (install_root env ++ [app_name a]);;
     modify_fs (remove_all (install_root env ++ [app_name a])))
    (fun _ => mret tt).

(** *** Queries *)

Definition is_fetched (isAppFetched : App -> M W bool) (a : App) : M W bool :=
  try_catch (isAppFetched a) (fun _ => mret false).

Definition is_running (isAppInstalled : App -> M W bool) (a : App) : M W bool :=
  try_catch
    (inst ← isAppInstalled a;
     if inst : bool then app_containers env a (install_root env ++ [app_name a; ComposeFile]) true else mret false)
    (fun _ => mret false).

Fixpoint installed_versions (isAppInstalled : App -> M W bool) (name : string) (dirs : list Path) (acc : list App)
    : M W (list App) :=
  match dirs with
  | [] => mret acc
  | d :: dirs' =>
      there ← get_fs (fs_exists (d ++ ["uri"]));
      if negb there then installed_versions isAppInstalled name dirs' acc
      else
        uri ← get_fs (readFile (fs_env env) (d ++ ["uri"]));
        let a := {| app_name := name; app_uri := uri |} in
        inst ← isAppInstalled a;
        installed_versions isAppInstalled name dirs' (if inst : bool then acc ++ [a] else acc)
  end.
Fixpoint installed_apps (isAppInstalled : App -> M W bool) (dirs : list Path) (acc : list App) : M W (list App) :=
  match dirs with
  | [] => mret acc
  | d :: dirs' =>
      e ← get_fs (directory_entries (fs_env env) d); versions ← lift e;
      acc' ← installed_versions isAppInstalled (filename_of d) versions acc;
      installed_apps isAppInstalled dirs' acc'
  end.
Definition get_installed_apps (isAppInstalled : App -> M W bool) : M W (list App) :=
  there ← get_fs (fs_exists (apps_root));
  if negb there then mret []
  else
    e ← get_fs (directory_entries (fs_env env) (apps_root)); dirs ← lift e;
    installed_apps isAppInstalled dirs [].

Definition get_running_apps_info : M W json :=
  try_catch (r ← gets (fun w => getRunningApps (docker_env env) None (wdocker w)); lift r) (fun _ => mret JNull).

(** *** Pruning *)

(** [blob_shortlist], to which the code adds names until it is done or throws. *)
Abbreviation Names := (gset string).
Definition emplace (h : string) : M Names unit := modify (union {[h]}).

Fixpoint emplace_digests (l : list json) : M Names unit :=
  match l with
  | [] => mret tt
  | b :: l' =>
      has ← lift (if jisNull b then mret false else jisMember b "digest");
      (if has : bool then d ← lift (digest_at b); emplace (hash d) else mret tt);;
      emplace_digests l'
  end.

(** The blobs an app manifest names. *)
Definition app_manifest_blobs (json : json) : M Names unit :=
  m ← lift (make_Manifest json);
  let element k :=
    has ← lift (jisMember m k);
    if negb has then mret tt
    else
      v ← lift (jindex m k);
      if jisArray v then emplace_digests (jelems v) else mret tt in
  element "manifests";; element "layers".

Fixpoint emplace_layers (l : list json) : M Names unit :=
  match l with
  | [] => mret tt
  | b :: l' =>
      has ← lift (if jisObject b then jisMember b "digest" else mret false);
      (if has : bool then d ← lift (digest_at b); emplace (hash d) else mret tt);;
      emplace_layers l'
  end.

(** The blobs of an image: its manifest, its configuration and its layers. *)
Definition image_blobs (image_root : Path) (f : FS) : M Names unit :=
  d ← lift (index_digest (parseJSONFile env (image_root ++ [IndexFile]) f));
  emplace (hash d);;
  let manifest := parseJSONFile env (blob_path (hash d)) f in
  c ← lift (x ← jindex manifest "config"; digest_at x);
  emplace (hash c);;
  layers ← lift (jindex manifest "layers");
  emplace_layers (jelems layers).

(** Adds to the names; [false] if the code threw. *)
Definition collect (m : M Names unit) (names : Names) : bool * Names :=
  let '(o, names') := m names in (negb (is_throw o), names').

Fixpoint prune_images (app_dir : Path) (compose : json) (services : list string) (names : Names) : M W Names :=
  match services with
  | [] => mret names
  | s :: services' =>
      image ← lift (getImage compose s);
      uri ← lift (parseUri image false);
      let image_root := image_path (app_dir ++ ["images"]) uri in
      let names := {[hash (digest uri)]} ∪ names in
      there ← get_fs (fs_exists (image_root ++ [IndexFile]));
      if negb there then
        modify_fs (remove_all image_root);; prune_images app_dir compose services' names
      else
        f ← get_fs (fun f => f);
        let '(ok, names') := collect (image_blobs image_root f) names in
        (if ok : bool then mret tt else modify_fs (remove_all image_root));;
        prune_images app_dir compose services' names'
  end.

(** The versions of an app; the flag says whether something was removed. *)
Fixpoint prune_versions (uri : Uri) (dirs : list Path) (acc : Names * bool) : M W (Names * bool) :=
  match dirs with
  | [] => mret acc
  | d :: dirs' =>
      dir ← get_fs (is_directory d);
      if negb dir then prune_versions uri dirs' acc
      else if negb (String.eqb (filename_of d) (hash (digest uri))) then
        modify_fs (remove_all d);; prune_versions uri dirs' (acc.1, true)
      else
        has ← get_fs (fs_exists (d ++ [ManifestFile]));
        json ← get_fs (parseJSONFile env (d ++ [ManifestFile]));
        let names := if has : bool
                     then (collect (app_manifest_blobs json) ({[hash (digest uri)]} ∪ acc.1)).2 else acc.1 in
        c ← get_fs (ComposeInfo env (d ++ [ComposeFile])); compose ← lift c;
        services ← lift (getServices compose);
        names' ← prune_images d compose services names;
        prune_versions uri dirs' (names', acc.2)
  end.

Definition find_app (name : string) (shortlist : list App) : option App :=
  List.find (fun a => String.eqb name (app_name a)) shortlist.

Fixpoint prune_apps (shortlist : list App) (dirs : list Path) (acc : Names * bool) : M W (Names * bool) :=
  match dirs with
  | [] => mret acc
  | d :: dirs' =>
      dir ← get_fs (is_directory d);
      if negb dir then prune_apps shortlist dirs' acc
      else
        match find_app (filename_of d) shortlist with
        | None => modify_fs (remove_all d);; prune_apps shortlist dirs' (acc.1, true)
        | Some a =>
            uri ← lift (parseUri (app_uri a) true);
            e ← get_fs (directory_entries (fs_env env) (apps_root ++ [Registry.app uri])); versions ← lift e;
            acc' ← prune_versions uri versions acc;
            prune_apps shortlist dirs' acc'
        end
  end.

Fixpoint prune_blobs (names : Names) (blobs : list Path) (acc : bool) : M W bool :=
  match blobs with
  | [] => mret acc
  | b :: blobs' =>
      dir ← get_fs (is_directory b);
      if dir || bool_decide (filename_of b ∈ names) then prune_blobs names blobs' acc
      else modify_fs (remove_all b);; prune_blobs names blobs' true
  end.

Definition pruneStore (shortlist : list App) : M W unit :=
  e ← get_fs (directory_entries (fs_env env) (apps_root)); dirs ← lift e;
  acc ← prune_apps shortlist dirs (∅, false);
  there ← get_fs (fs_exists (blobs_root ++ ["sha256"]));
  if negb there then mret tt
  else
    e ← get_fs (directory_entries (fs_env env) (blobs_root ++ ["sha256"])); blobs ← lift e;
    changed ← prune_blobs acc.1 blobs acc.2;
    if changed : bool then on_docker (pruneDockerStore env) else mret tt.

(** ** The engine behind the interface *)

(** What a query answers; a query that throws answers [d]. *)
Definition answer {A} (d : A) (m : M W A) (w : W) : A := the d (run m w).

Definition restorable_engine : AppEngine W := {|
  fetch := fetchApp;
  verify := verifyApp;
  install := installAny installAppAndImages;
  run_app a := installAndCreateOrRunContainers installAppAndImages a true;
  stop := stopApp;
  remove := removeApp;
  prune := pruneStore;
  isFetched w a := answer false (is_fetched isAppFetched a) w;
  isRunning w a := answer false (is_running isAppInstalled a) w;
  getInstalledApps w := run (get_installed_apps isAppInstalled) w;
  getRunningAppsInfo w := run get_running_apps_info w;
  app_dirs w := if is_directory (install_root env) (wfs w)
                then Some (filename_of <$> readdir (fs_env env) (entries (install_root env) (wfs w))) else None;
|}.
End engine.
