(* ===== verification/RestorableStore.v ===== *)
(** * What the store of the restorable app engine holds

    The abstract view of the store on the file system: when a blob, an image and
    an app are complete in it ([image_stored], [app_stored]). The check
    [isAppFetched] decides exactly that ([isAppFetched_decides]); a download leaves the app complete and the other
    apps as complete as they were, which makes the engine an implementation of
    the interface the package manager is proved against
    ([restorable_engine_spec]). *)

From S2P Require Import Prelude Json Targets Registry Volume Restorable Exec Fs DockerClient Platform Device RestorableEngine.

Section store.
Context {D : Type} (env : RestorableEnv D).
Abbreviation W := (World D).
Implicit Types (f : FS) (w : World D) (uri : Uri).

(** ** Complete blobs, images and apps *)

(** There is something at [p] and its content has the hash [h]. *)
Definition verified (p : Path) (h : string) f : Prop := fs_exists p f = true /\ getContentHash env p f = h.

Definition layer_size_at (l : json) : outcome Z := x ← jindex l "size"; jasInt64 x.
Definition config_digest (manifest : json) : outcome HashedDigest := x ← jindex manifest "config"; digest_at x.

(** A layer is checked by its size only. *)
Definition layer_stored f (l : json) : Prop :=
  jisObject l = true /\ jisMember l "digest" = Ret true /\ jisMember l "size" = Ret true /\
  exists d sz c, digest_at l = Ret d /\ layer_size_at l = Ret sz /\
    read (blob_path env (hash d)) f = Some c /\ len c = to_u64 sz.

(** The index names a manifest whose content has the digest, which names a
    configuration whose content has its digest and layers of the right size. *)
Record image_blobs_stored f (desc : json) (d cd : HashedDigest) (layers : json) : Prop := {
  ibs_index : jempty desc = false /\ jisObject desc = true /\ jisMember desc "manifests" = Ret true;
  ibs_digest : index_digest desc = Ret d;
  ibs_manifest : verified (blob_path env (hash d)) (hash d) f;
  ibs_config_digest : config_digest (parseJSONFile env (blob_path env (hash d)) f) = Ret cd;
  ibs_config : verified (blob_path env (hash cd)) (hash cd) f;
  ibs_layers : jindex (parseJSONFile env (blob_path env (hash d)) f) "layers" = Ret layers;
  ibs_layers_stored : Forall (layer_stored f) (jelems layers);
}.
Definition image_stored f (root : Path) : Prop :=
  fs_exists (root ++ [IndexFile]) f = true /\
  exists d cd layers, image_blobs_stored f (parseJSONFile env (root ++ [IndexFile]) f) d cd layers.

(** The image a service of a compose file runs, and its place. *)
Definition service_image (app_dir : Path) (compose : json) (s : string) (root : Path) : Prop :=
  exists image image_uri, getImage compose s = Ret image /\ parseUri image false = Ret image_uri /\
    root = image_path (app_dir ++ ["images"]) image_uri.

(** The app's manifest has the digest of the URI, the archive the digest the
    manifest names, and the compose file is the one of the archive. *)
Record archive_stored f uri (d : HashedDigest) (c : string) : Prop := {
  as_dirs : dirs (app_path env uri) f;
  as_manifest : verified (app_path env uri ++ [ManifestFile]) (hash (digest uri)) f;
  as_digest : (m ← make_Manifest (parseJSONFile env (app_path env uri ++ [ManifestFile]) f); archive_digest m) = Ret d;
  as_archive : verified (archive_path (app_path env uri) d) (hash d) f;
  as_extract : extractComposeFile env (archive_path (app_path env uri) d) f = Ret c;
  as_compose : read (app_path env uri ++ [ComposeFile]) f = Some c;
  as_writable : write_ok (fs_env env) (app_path env uri ++ [ComposeFile]) c = true;
}.

Record images_of_app_stored f uri (compose : json) (services : list string) : Prop := {
  ia_compose : ComposeInfo env (app_path env uri ++ [ComposeFile]) f = Ret compose;
  ia_services : getServices compose = Ret services;
  ia_images : Forall (fun s => exists root, service_image (app_path env uri) compose s root /\ image_stored f root) services;
}.

Definition app_stored f uri : Prop :=
  exists d c compose services, archive_stored f uri d c /\ images_of_app_stored f uri compose services.

(** ** The check decides it *)

Lemma check_layers_true ls w w' :
  check_layers env ls w = (Ret true, w') <-> w' = w /\ Forall (layer_stored (wfs w)) ls.
Proof.
  induction ls as [|l ls IH]; cbn [check_layers].
  - split; [intros [= <-]; by split|intros [-> _]; done].
  - rewrite Forall_cons. split.
    + intros H. fs_step H ok Hok. destruct ok; [|discriminate H]. cbn [negb] in H.
      destruct (jisObject l) eqn:Ho; [|discriminate Hok]. osplit Hok.
      injection Hok as [-> ->]%andb_true_iff.
      fs_step H d Hd. fs_step H sz Hsz. fs_step H there Ht. destruct there; [|discriminate H]. cbn [negb] in H.
      fs_step H n Hn. fs_step H bz Hz. subst n. unfold file_size in Hz.
      destruct (read _ _) as [c|] eqn:Hc; [|discriminate Hz]. injection Hz as <-.
      destruct (Z.eqb_spec (Z.of_nat (String.length c)) (to_u64 sz)) as [Es|]; cbn [negb] in H.
      * apply IH in H as [-> H]. split; [done|]. split; [|done]. split_and!; [done..|]. by exists d, sz, c.
      * exfalso. apply M_bind_Ret in H as (? & ? & _ & H). discriminate H.
    + intros (-> & (Ho & Hbd & Hbs & d & sz & c & Hd & Hsz & Hc & Hl) & Hls).
      rewrite (bind_lift _ _ true) by by rewrite Ho, Hbd, Hbs. cbn [negb].
      rewrite (bind_lift _ _ d) by done. rewrite (bind_lift _ _ sz) by done.
      rewrite bind_get_fs, (fs_exists_read _ _ _ Hc). cbn [negb].
      rewrite bind_get_fs, (bind_lift _ _ (len c)) by by unfold file_size; rewrite Hc.
      rewrite Hl, Z.eqb_refl. cbn [negb]. by apply IH.
Qed.

Lemma check_image_true root w w' :
  check_image env root w = (Ret true, w') <->
  w' = w /\ exists d cd layers, image_blobs_stored (wfs w) (parseJSONFile env (root ++ [IndexFile]) (wfs w)) d cd layers.
Proof.
  unfold check_image. split.
  - intros H. fs_step H desc Hdesc. fs_step H gd Hg. subst desc.
    destruct gd; cbn [negb] in H; [|apply M_bind_Ret in H as (? & ? & _ & H); discriminate H].
    destruct (jempty _ || negb (jisObject _)) eqn:E; [discriminate Hg|].
    apply orb_false_iff in E as [E1 E2%negb_false_iff].
    fs_step H d Hd. fs_step H there Ht. destruct there; [|discriminate H]. cbn [negb] in H.
    fs_step H h Hh. destruct (String.eqb_spec h (hash d)) as [->|]; [|discriminate H]. cbn [negb] in H.
    fs_step H manifest Hm. subst manifest. fs_step H cd Hcd. fs_step H cthere Hct.
    destruct cthere; [|discriminate H]. cbn [negb] in H.
    fs_step H ch Hch. destruct (String.eqb_spec ch (hash cd)) as [->|]; [|discriminate H]. cbn [negb] in H.
    fs_step H layers Hl. apply check_layers_true in H as [-> H]. split; [done|]. exists d, cd, layers. by repeat split.
  - intros (-> & d & cd & layers & [(E1 & E2 & E3) Hd [Ht Hh] Hcd [Hct Hch] Hl H]).
    rewrite bind_get_fs, (bind_lift _ _ true) by by rewrite E1, E2, E3. cbn [negb].
    rewrite (bind_lift _ _ d) by done. rewrite bind_get_fs, Ht. cbn [negb].
    rewrite bind_get_fs, Hh, String.eqb_refl. cbn [negb]. rewrite bind_get_fs, (bind_lift _ _ cd) by done.
    rewrite bind_get_fs, Hct. cbn [negb]. rewrite bind_get_fs, Hch, String.eqb_refl. cbn [negb].
    rewrite (bind_lift _ _ layers) by done. by apply check_layers_true.
Qed.

Lemma try_false {A} (m : M W bool) (h : exn -> M W A) w w' :
  try_catch m (fun e => _ ← h e; mret false) w = (Ret true, w') <-> m w = (Ret true, w').
Proof.
  unfold try_catch. destruct (m w) as [[b|e] w1]; [done|]. split; [|done].
  intros H. apply M_bind_Ret in H as (? & ? & _ & H). discriminate H.
Qed.

Definition services_stored f (app_dir : Path) (compose : json) : list string -> Prop :=
  Forall (fun s => exists root, service_image app_dir compose s root /\ image_stored f root).

Lemma check_images_true app_dir compose services w w' :
  check_images env app_dir compose services w = (Ret true, w') <->
  w' = w /\ services_stored (wfs w) app_dir compose services.
Proof.
  unfold services_stored. induction services as [|s services IH]; cbn [check_images].
  - split; [intros [= <-]; by split|intros [-> _]; done].
  - rewrite Forall_cons. split.
    + intros H. fs_step H image Hi. fs_step H iu Hu. fs_step H there Ht.
      destruct there; [|discriminate H]. cbn [negb] in H.
      apply M_bind_Ret in H as (ok & w1 & H1 & H). destruct ok; [|discriminate H].
      apply (try_false (A := unit)) in H1. apply check_image_true in H1 as [-> H1]. apply IH in H as [-> H].
      split_and!; [done| |done]. eexists. split; [by exists image, iu|]. done.
    + intros (-> & (root & (image & iu & Hi & Hu & ->) & Ht & Hs) & H).
      rewrite (bind_lift _ _ image), (bind_lift _ _ iu) by done. rewrite bind_get_fs, Ht. cbn [negb].
      rewrite (bind_run _ _ true w w); [by apply IH|]. apply (try_false (A := unit)). by apply check_image_true.
Qed.

Lemma areAppImagesFetched_true a uri w w' :
  parseUri (app_uri a) true = Ret uri ->
  areAppImagesFetched env a w = (Ret true, w') <->
  w' = w /\ exists compose services, images_of_app_stored (wfs w) uri compose services.
Proof.
  intros Hu. unfold areAppImagesFetched. rewrite (bind_lift _ _ uri) by done. split.
  - intros H. fs_step H c Hc. fs_step H cj Hco. fs_step H services Hs. subst c.
    apply check_images_true in H as [-> H]. split; [done|]. by exists cj, services.
  - intros (-> & compose & services & [Hc Hs H]). rewrite bind_get_fs, (bind_lift _ _ compose) by done.
    rewrite (bind_lift _ _ services) by done. by apply check_images_true.
Qed.

(** *** Paths whose content stays *)

(** The same at [p], except for a directory where there was nothing. *)
Definition kept f f' (p : Path) : Prop := f' !! p = f !! p \/ (f !! p = None /\ f' !! p = Some Dir).

Lemma kept_read f f' p : kept f f' p -> read p f' = read p f.
Proof. unfold read. by intros [->|[-> ->]]. Qed.
Lemma read_kept f f' p c : read p f = Some c -> read p f' = Some c -> kept f f' p.
Proof.
  unfold read. intros H H'. left. destruct (f !! p) as [[]|]; [discriminate H| |discriminate H].
  destruct (f' !! p) as [[]|]; congruence.
Qed.
Lemma kept_exists f f' p : kept f f' p -> fs_exists p f = true -> fs_exists p f' = true.
Proof. unfold fs_exists. rewrite !bool_decide_eq_true. by intros [->|[-> _]]; [|intros [? ?]]. Qed.
Lemma kept_Dir f f' p : kept f f' p -> f !! p = Some Dir -> f' !! p = Some Dir.
Proof. intros [->|[-> _]]; done. Qed.
Lemma kept_hash f f' p : kept f f' p -> getContentHash env p f' = getContentHash env p f.
Proof. intros K. unfold getContentHash, readFile. by rewrite (kept_read _ _ _ K). Qed.
Lemma kept_json f f' p : kept f f' p -> parseJSONFile env p f' = parseJSONFile env p f.
Proof. intros K. unfold parseJSONFile. by rewrite (kept_read _ _ _ K). Qed.
Lemma kept_verified f f' p h : kept f f' p -> verified p h f -> verified p h f'.
Proof. intros K [H1 H2]. split; [by eapply kept_exists|by rewrite (kept_hash _ _ _ K)]. Qed.
Lemma kept_extract f f' p : kept f f' p -> extractComposeFile env p f' = extractComposeFile env p f.
Proof. intros K. unfold extractComposeFile. by rewrite (kept_read _ _ _ K). Qed.
Lemma kept_ComposeInfo f f' p j : kept f f' p -> ComposeInfo env p f = Ret j -> ComposeInfo env p f' = Ret j.
Proof.
  intros K. unfold ComposeInfo. rewrite (kept_read _ _ _ K). destruct (fs_exists p f) eqn:E; [|done].
  by rewrite (kept_exists _ _ _ K E).
Qed.

(** The files of an app besides its images. *)
Definition archive_files uri (d : HashedDigest) : list Path :=
  [app_path env uri ++ [ManifestFile]; archive_path (app_path env uri) d; app_path env uri ++ [ComposeFile]].

Lemma archive_stored_kept f f' uri d c :
  (forall q, q ∈ archive_files uri d -> kept f f' q) -> dirs (app_path env uri) f' ->
  archive_stored f uri d c -> archive_stored f' uri d c.
Proof.
  intros K Hd [_ H1 H2 H3 H4 H5 H6].
  assert (kept f f' (app_path env uri ++ [ManifestFile])) as K1 by (apply K; left).
  assert (kept f f' (archive_path (app_path env uri) d)) as K2 by (apply K; right; left).
  assert (kept f f' (app_path env uri ++ [ComposeFile])) as K3 by (apply K; right; right; left).
  split; [done|by eapply kept_verified| |by eapply kept_verified|by rewrite (kept_extract _ _ _ K2)|
          by rewrite (kept_read _ _ _ K3)|done].
  by rewrite (kept_json _ _ _ K1).
Qed.

(** A file name that is neither the name of a manifest, a URI or a compose file: the digests and archives. *)
Lemma archive_path_ne app_dir d s h n :
  make_HashedDigest s = Ret d -> n ∈ [ManifestFile; ComposeFile; "uri"; "images"] ->
  h = hash d \/ h = hash d +:+ ArchiveExt -> app_dir ++ [h] <> app_dir ++ [n].
Proof.
  intros Hd Hn Hh E. apply app_inv_head in E. injection E as E.
  apply make_HashedDigest_Ret in Hd as (_ & _ & L & _). apply (f_equal String.length) in E.
  assert (64 <= String.length h)%nat by (destruct Hh as [->| ->]; rewrite ?length_app_s; lia).
  rewrite !elem_of_cons in Hn. destruct Hn as [->|[->|[->|[->|Hn]]]]; [cbn in E; lia..|by apply elem_of_nil in Hn].
Qed.

Lemma writeFile_kept fe dir n c f f' q :
  writeFile fe (dir ++ [n]) c f = (Ret tt, f') -> q <> dir ++ [n] -> kept f f' q.
Proof.
  intros H Hq. pose proof (writeFile_lookup fe dir n c f q Hq) as K. unfold exec in K. rewrite H in K.
  destruct K as [K|(K1 & K2 & _)]; [by left|by right].
Qed.

Lemma archive_digest_Ret m d : archive_digest m = Ret d -> exists s, make_HashedDigest s = Ret d.
Proof. unfold archive_digest. intros H. osplit H. eauto. Qed.

Lemma archive_digest_Ret' f uri d c :
  archive_stored f uri d c ->
  exists m s, make_Manifest (parseJSONFile env (app_path env uri ++ [ManifestFile]) f) = Ret m /\
    archive_digest m = Ret d /\ make_HashedDigest s = Ret d.
Proof.
  intros [_ _ H _ _ _ _]. apply bind_Ret in H as (m & Hm & H). destruct (archive_digest_Ret _ _ H) as [s Hs]. eauto.
Qed.

(** Writing the compose file of an app keeps its manifest and its archive. *)
Lemma compose_written_kept fe uri d c f f' s q :
  make_HashedDigest s = Ret d -> writeFile fe (app_path env uri ++ [ComposeFile]) c f = (Ret tt, f') ->
  q = app_path env uri ++ [ManifestFile] \/ q = archive_path (app_path env uri) d -> kept f f' q.
Proof.
  intros Hd H Hq. eapply writeFile_kept; [exact H|]. destruct Hq as [->| ->].
  - intros E. apply app_inv_head in E. discriminate E.
  - eapply archive_path_ne; [done| |by right]. set_solver.
Qed.

Lemma isAppFetched_true a uri w w' :
  parseUri (app_uri a) true = Ret uri -> isAppFetched env a w = (Ret true, w') ->
  app_stored (wfs w') uri /\ wdocker w' = wdocker w /\
  exists c, writeFile (fs_env env) (app_path env uri ++ [ComposeFile]) c (wfs w) = (Ret tt, wfs w').
Proof.
  intros Hu H. unfold isAppFetched in H. rewrite (bind_lift _ _ uri) in H by done.
  fs_step H there Ht. destruct there; [|discriminate H]. cbn [negb] in H.
  apply andb_true_iff in Ht as [Ht1 Ht2].
  fs_step H mh Hmh. destruct (String.eqb_spec mh (hash (digest uri))) as [->|]; [|discriminate H]. cbn [negb] in H.
  fs_step H j Hj. subst j. fs_step H m Hm. fs_step H d Hd. fs_step H there Hat.
  destruct there; [|discriminate H]. cbn [negb] in H.
  fs_step H ah Hah. destruct (String.eqb_spec ah (hash d)) as [->|]; [|discriminate H]. cbn [negb] in H.
  fs_step H c Hc. fs_step H comp Hco. subst c.
  apply M_bind_Ret in H as ([] & w1 & H1 & H). apply on_fs_Ret in H1 as [H1 Hw].
  apply (areAppImagesFetched_true a uri) in H as (-> & cj & services & H); [|done].
  split_and!; [|done|by exists comp]. exists d, comp, cj, services. split; [|done].
  destruct (archive_digest_Ret _ _ Hd) as [ds Hds].
  pose proof (compose_written_kept _ _ _ _ _ _ _ _ Hds H1 (or_introl eq_refl)) as K1.
  pose proof (compose_written_kept _ _ _ _ _ _ _ _ Hds H1 (or_intror eq_refl)) as K2.
  apply writeFile_Ret in H1 as (Hdir & Hf & Hwr). split; [done|by eapply kept_verified| |by eapply kept_verified| | |done].
  - by rewrite (kept_json _ _ _ K1), Hm.
  - by rewrite (kept_extract _ _ _ K2).
  - unfold read. by rewrite Hf.
Qed.

(** The check in a store that rewriting the compose file makes complete. *)
Lemma checked_isAppFetched a uri w c f1 :
  parseUri (app_uri a) true = Ret uri -> fs_exists (app_path env uri) (wfs w) = true ->
  writeFile (fs_env env) (app_path env uri ++ [ComposeFile]) c (wfs w) = (Ret tt, f1) -> app_stored f1 uri ->
  isAppFetched env a w = (Ret true, mkW f1 (wdocker w)).
Proof.
  intros Hu He Hwf (d & c' & cj & services & Ha & H).
  destruct (archive_digest_Ret' _ _ _ _ Ha) as (m & ds & Hm' & Hd & Hds).
  assert (K : forall q, q = app_path env uri ++ [ManifestFile] \/ q = archive_path (app_path env uri) d ->
                f1 !! q = wfs w !! q).
  { intros q Hq. eapply writeFile_below; [exact Hwf| |].
    - destruct Hq as [->| ->]; [intros E; apply app_inv_head in E; discriminate E|].
      eapply archive_path_ne; [exact Hds| |by right]. set_solver.
    - intros P. apply prefix_length in P. destruct Hq as [->| ->]; unfold archive_path in P;
        rewrite length_app in P; cbn in P; lia. }
  pose proof (K _ (or_introl eq_refl)) as K1. pose proof (K _ (or_intror eq_refl)) as K2.
  destruct Ha as [Hdir [Hm Hmh] _ [Har Hah] Hex Hc _].
  apply writeFile_Ret in Hwf as Hwf'. destruct Hwf' as (_ & Hcf & _). unfold read in Hc. rewrite Hcf in Hc. injection Hc as <-.
  unfold fs_exists, parseJSONFile, extractComposeFile, getContentHash, readFile, read in Hm, Hmh, Hm', Har, Hah, Hex.
  rewrite K1 in Hm, Hmh, Hm'. rewrite K2 in Har, Hah, Hex.
  unfold isAppFetched. rewrite (bind_lift _ _ uri) by done. rewrite bind_get_fs, He. unfold fs_exists at 1. rewrite Hm.
  cbn [andb negb]. rewrite bind_get_fs. unfold getContentHash at 1, readFile, read. rewrite Hmh, String.eqb_refl. cbn [negb].
  rewrite bind_get_fs. unfold parseJSONFile at 1, read. rewrite (bind_lift _ _ m), (bind_lift _ _ d) by done.
  rewrite bind_get_fs. unfold fs_exists at 1. rewrite Har. cbn [negb].
  rewrite bind_get_fs. unfold getContentHash at 1, readFile, read. rewrite Hah, String.eqb_refl. cbn [negb].
  rewrite bind_get_fs, (bind_lift _ _ c) by done.
  rewrite (bind_run _ _ tt w (mkW f1 (wdocker w))); [apply (areAppImagesFetched_true a uri); [done|]; eauto|].
  by apply on_fs_Ret.
Qed.

Lemma stored_exists f uri : app_stored f uri -> fs_exists (app_path env uri) f = true.
Proof.
  intros (d & c & cj & services & Ha & _). apply bool_decide_eq_true.
  rewrite (as_dirs _ _ _ _ Ha); [eauto|by unfold app_path; destruct (apps_root env)|done].
Qed.

Lemma stored_isAppFetched a uri w :
  parseUri (app_uri a) true = Ret uri -> app_stored (wfs w) uri -> isAppFetched env a w = (Ret true, w).
Proof.
  intros Hu Hst. pose proof Hst as (d & c & cj & services & Ha & _). destruct w as [f dk].
  apply (checked_isAppFetched a uri (mkW f dk) c f); [done|by apply stored_exists| |done].
  apply writeFile_same; [apply Ha| |apply Ha]. pose proof (as_compose _ _ _ _ Ha) as Hc. cbn in *.
  unfold read in Hc. destruct (_ !! _) as [[]|]; congruence.
Qed.

(** C25: The check of an app against the store decides completeness. When it answers that the app is
    there, then the store holds the manifest with the digest of the URI, the archive with the digest that
    manifest names, the compose file of that archive, and for every service an image whose manifest and
    configuration have their digests and whose layers have their sizes; nothing but the compose file was
    rewritten. For an app that is complete in this sense it answers yes and changes nothing. *)
Theorem isAppFetched_decides a uri w :
  parseUri (app_uri a) true = Ret uri ->
  (forall w', isAppFetched env a w = (Ret true, w') ->
     app_stored (wfs w') uri /\ wdocker w' = wdocker w /\
     forall q, q <> app_path env uri ++ [ComposeFile] -> kept (wfs w) (wfs w') q) /\
  (app_stored (wfs w) uri -> isAppFetched env a w = (Ret true, w)).
Proof.
  intros Hu. split; [|by apply stored_isAppFetched]. intros w' H.
  apply (isAppFetched_true a uri) in H as (H1 & H2 & c & H3); [|done]. split_and!; [done..|].
  intros q Hq. by eapply writeFile_kept.
Qed.

(** ** Changes that keep an app complete *)

(** [blob_len] is the length of the blob with a given digest. In an honest store the blobs that have
    their digests have their lengths, and the manifests give the lengths of the layers. *)
Context (blob_len : string -> Z).
Record honest f : Prop := {
  honest_blob h c : read (blob_path env h) f = Some c -> sha256_hex (registry env) c = h -> len c = blob_len h;
  honest_layer h layers l d sz :
    verified (blob_path env h) h f -> jindex (parseJSONFile env (blob_path env h) f) "layers" = Ret layers ->
    l ∈ jelems layers -> digest_at l = Ret d -> layer_size_at l = Ret sz -> to_u64 sz = blob_len (hash d);
}.

(** A blob with its digest stays as it is, and one with its length stays of that length. *)
Definition blob_kept f f' (h : string) : Prop :=
  (verified (blob_path env h) h f -> kept f f' (blob_path env h)) /\
  (forall c, read (blob_path env h) f = Some c -> len c = blob_len h ->
     exists c', read (blob_path env h) f' = Some c' /\ len c' = blob_len h).

Lemma image_stored_kept f f' root :
  honest f -> kept f f' (root ++ [IndexFile]) -> (forall h, blob_kept f f' h) ->
  image_stored f root -> image_stored f' root.
Proof.
  intros Hh K B (Hi & d & cd & layers & [H1 H2 H3 H4 H5 H6 H7]).
  pose proof (proj1 (B (hash d)) H3) as Kd. pose proof (proj1 (B (hash cd)) H5) as Kc.
  split; [by eapply kept_exists|]. rewrite (kept_json _ _ _ K). exists d, cd, layers.
  split; [done..|by eapply kept_verified|by rewrite (kept_json _ _ _ Kd)|by eapply kept_verified|
          by rewrite (kept_json _ _ _ Kd)|].
  apply Forall_forall. intros l Hl. rewrite Forall_forall in H7.
  destruct (H7 l Hl) as (L1 & L2 & L3 & ld & sz & c & L4 & L5 & L6 & L7). split_and!; [done..|].
  pose proof (honest_layer _ Hh _ _ _ _ _ H3 H6 Hl L4 L5) as Es.
  destruct (proj2 (B (hash ld)) c L6 ltac:(congruence)) as (c' & R & Lc).
  exists ld, sz, c'. split_and!; [done..|congruence].
Qed.

(** The paths an app depends on. *)
Definition app_file uri (q : Path) : Prop :=
  q `prefix_of` app_path env uri \/
  (exists n, q = app_path env uri ++ [n] /\
     (n = ManifestFile \/ n = ComposeFile \/ exists x, n = sha256_hex (registry env) x +:+ ArchiveExt)) \/
  (exists r, q = app_path env uri ++ "images" :: r ++ [IndexFile]).

(** An honest store stays honest, and what is stored of the app stays stored. *)
Definition app_kept uri f f' : Prop :=
  honest f -> honest f' /\
  (forall d c, archive_stored f uri d c -> archive_stored f' uri d c) /\
  (forall image_uri, let root := image_path (app_path env uri ++ ["images"]) image_uri in
     image_stored f root -> image_stored f' root).

#[export] Instance app_kept_preorder uri : PreOrder (app_kept uri).
Proof.
  split.
  - intros f Hf. by split_and!.
  - intros f f1 f2 H1 H2 Hf. destruct (H1 Hf) as (Hf1 & A1 & I1). destruct (H2 Hf1) as (Hf2 & A2 & I2).
    split_and!; [done|eauto|intros u root Hr]. by apply I2, I1.
Qed.

Lemma image_index_file uri image_uri :
  exists r, image_path (app_path env uri ++ ["images"]) image_uri ++ [IndexFile]
            = app_path env uri ++ "images" :: r ++ [IndexFile].
Proof.
  exists (path_parts (registryHostname image_uri) ++ path_parts (repo image_uri) ++ [hash (digest image_uri)]).
  unfold image_path, path_join. by rewrite <- !app_assoc.
Qed.

(** Those its archive depends on. *)
Definition archive_file uri (q : Path) : Prop :=
  q `prefix_of` app_path env uri \/
  exists n, q = app_path env uri ++ [n] /\
    (n = ManifestFile \/ n = ComposeFile \/ exists x, n = sha256_hex (registry env) x +:+ ArchiveExt).

Lemma archive_file_app uri q : archive_file uri q -> app_file uri q.
Proof. intros [H|H]; [by left|right; by left]. Qed.

Lemma archive_kept_intro uri f f' d c :
  (forall q, archive_file uri q -> kept f f' q) -> archive_stored f uri d c -> archive_stored f' uri d c.
Proof.
  intros K Ha. eapply archive_stored_kept; [| |done].
  - intros q Hq. apply K. right. unfold archive_files in Hq. rewrite !elem_of_cons in Hq.
    destruct Hq as [->|[->|[->|Hq]]]; [eauto| |eauto|by apply elem_of_nil in Hq].
    eexists. split; [done|]. right. right. destruct Ha as [_ _ _ [_ <-] _ _ _]. unfold getContentHash. eauto.
  - destruct Ha as [Hd _ _ _ _ _ _]. intros q Hq Hp. eapply kept_Dir; [apply K; by left|]. by apply Hd.
Qed.

Lemma app_kept_intro uri f f' :
  (forall q, app_file uri q -> kept f f' q) -> (forall h, blob_kept f f' h) -> (honest f -> honest f') ->
  app_kept uri f f'.
Proof.
  intros K B H Hf. split_and!; [auto| |].
  - intros d c. apply archive_kept_intro. intros q Hq. by apply K, archive_file_app.
  - intros u root Hr. eapply image_stored_kept; [done| |done|done]. apply K. right. right. apply image_index_file.
Qed.

(** *** Blobs and apps are in different places *)

Lemma prefix_comparable (a b c : Path) : a `prefix_of` c -> b `prefix_of` c -> (length a <= length b)%nat -> a `prefix_of` b.
Proof.
  intros [r1 ->] [r2 E] L. exists (take (length b - length a) r1). apply (f_equal (take (length b))) in E.
  rewrite take_app_length in E. by rewrite take_app_ge in E by lia.
Qed.

Lemma apps_not_blobs q : q `prefix_of` apps_root env \/ below (apps_root env) q = true -> below (blobs_root env) q = false.
Proof.
  intros Hq. destruct (below (blobs_root env) q) eqn:E; [|done]. apply below_spec in E as [r ->]. exfalso.
  unfold blobs_root, apps_root in *. rewrite below_spec in Hq. rewrite <- !app_assoc in Hq. cbn in Hq.
  destruct Hq as [[r' E]|[r' E]]; rewrite <- !app_assoc in E; apply app_inv_head in E; discriminate E.
Qed.

Lemma app_path_apps uri r : below (apps_root env) (app_path env uri ++ r) = true.
Proof.
  apply below_spec. exists ([Registry.app uri; hash (digest uri)] ++ r). unfold app_path. by rewrite <- app_assoc.
Qed.

Lemma app_file_not_blob uri q : app_file uri q -> below (blobs_root env) q = false.
Proof.
  intros [Hq|[(n & -> & _)|(r & ->)]]; apply apps_not_blobs; [|right; apply app_path_apps..].
  destruct (decide (length q <= length (apps_root env))%nat).
  - left. eapply prefix_comparable; [done| |done]. by eexists.
  - right. apply below_spec. destruct (prefix_comparable (apps_root env) q (app_path env uri)) as [r ->];
      [by eexists|done|lia|eauto].
Qed.

Lemma app_file_other uri uri' q :
  app_path env uri <> app_path env uri' -> app_file uri q -> below (app_path env uri') q = false.
Proof.
  intros Hne Hq. destruct (below (app_path env uri') q) eqn:E; [|done]. apply below_spec in E as [r ->]. exfalso.
  assert (L : length (app_path env uri) = length (app_path env uri')) by (unfold app_path; by rewrite !length_app).
  destruct Hq as [[r' E]|[(n & E & _)|(r' & E)]].
  - apply Hne. symmetry. apply prefix_length_eq; [|lia]. rewrite E. by exists (r ++ r'); rewrite app_assoc.
  - apply app_inj_1 in E as [E _]; congruence.
  - apply app_inj_1 in E as [E _]; congruence.
Qed.

(** There are other apps. *)
Lemma other_app uri : exists u, app_path env u <> app_path env uri.
Proof.
  exists {| digest := digest uri; Registry.app := Registry.app uri +:+ "x"; factory := factory uri; repo := repo uri;
            registryHostname := registryHostname uri |}.
  unfold app_path. cbn. intros E. apply app_inv_head in E. injection E as E. apply (f_equal String.length) in E.
  rewrite length_app_s in E. cbn in E. lia.
Qed.

(** *** The outcome of the check *)

(** The check rewrites the compose file: it holds of the store it leaves. *)
Definition checked f uri : Prop :=
  fs_exists (app_path env uri) f = true /\
  exists c f1, writeFile (fs_env env) (app_path env uri ++ [ComposeFile]) c f = (Ret tt, f1) /\ app_stored f1 uri.

(** [app_kept], and the check still succeeds if it did. *)
Definition app_safe uri f f' : Prop := app_kept uri f f' /\ (honest f -> checked f uri -> checked f' uri).

#[export] Instance app_safe_preorder uri : PreOrder (app_safe uri).
Proof.
  split.
  - intros f. by split.
  - intros f f1 f2 [H1 C1] [H2 C2]. split; [by etransitivity|]. intros Hf Hc. apply C2; [by apply H1|auto].
Qed.

Lemma app_kept_stored uri f f' : app_kept uri f f' -> honest f -> app_stored f uri -> app_stored f' uri.
Proof.
  intros H Hf (d & c & cj & services & Ha & [Hc Hs Hi]). destruct (H Hf) as (_ & A & I).
  exists d, c, cj, services. pose proof (A _ _ Ha) as Ha'. split; [done|]. split; [|done|].
  - eapply kept_ComposeInfo; [|done]. eapply read_kept; by eapply as_compose.
  - eapply Forall_impl; [done|]. intros s (root & Hroot & Hst). exists root. split; [done|].
    destruct Hroot as (? & u & _ & _ & ->). by apply I.
Qed.

Lemma blob_path_blobs h : below (blobs_root env) (blob_path env h) = true.
Proof. apply below_spec. by exists ["sha256"; h]. Qed.

Lemma honest_sub f f' :
  (forall h, f' !! blob_path env h = f !! blob_path env h \/ f' !! blob_path env h = None) -> honest f -> honest f'.
Proof.
  intros S [H1 H2]. split.
  - intros h c Hr. apply H1. destruct (S h) as [E|E]; unfold read in *; rewrite E in Hr; [done|discriminate Hr].
  - intros h layers l d sz [Ve Vh]. destruct (S h) as [E|E].
    + assert (K : kept f f' (blob_path env h)) by by left. rewrite (kept_json _ _ _ K). apply H2. split.
      * unfold fs_exists in *. by rewrite E in Ve.
      * by rewrite <- (kept_hash _ _ _ K).
    + unfold fs_exists in Ve. rewrite E in Ve. discriminate Ve.
Qed.


Lemma blob_kept_ext f f' g g' h :
  g !! blob_path env h = f !! blob_path env h -> g' !! blob_path env h = f' !! blob_path env h ->
  blob_kept f f' h -> blob_kept g g' h.
Proof.
  intros E E'. unfold blob_kept, verified, kept, fs_exists, getContentHash, readFile, read. by rewrite E, E'.
Qed.

Lemma app_safe_intro uri f f' :
  (forall q, app_file uri q -> kept f f' q) ->
  f' !! (app_path env uri ++ [ComposeFile]) = f !! (app_path env uri ++ [ComposeFile]) ->
  (forall h, blob_kept f f' h) -> (honest f -> honest f') -> app_safe uri f f'.
Proof.
  intros K E B H. split; [by apply app_kept_intro|]. intros Hf (He & c & f1 & H1 & Hst).
  split; [eapply kept_exists; [apply K; by left|done]|].
  pose proof (writeFile_Ret _ _ _ _ _ _ H1) as (D1 & F1 & Wr).
  destruct (writeFile_ok (fs_env env) (app_path env uri) ComposeFile c f') as [f1' H1'].
  { intros q Hq Hp. destruct (writeFile_above _ _ _ _ _ _ _ H1 Hq Hp) as [L|L];
      destruct (K q ltac:(by left)) as [Kq|[Kq1 Kq2]]; rewrite ?Kq; auto. }
  { rewrite E. intros L. unfold writeFile in H1. rewrite parent_path_snoc in H1.
    apply M_bind_Ret in H1 as ([] & f2 & H2 & H1). rewrite bind_gets in H1.
    pose proof (create_directories_lookup (app_path env uri) f (app_path env uri ++ [ComposeFile])) as C.
    unfold exec in C. rewrite H2 in C. cbn [snd] in C. unfold is_directory in H1.
    destruct C as [C|(C & _)]; [|congruence]. rewrite C, L, bool_decide_eq_true_2 in H1 by done. discriminate H1. }
  { done. }
  pose proof (writeFile_Ret _ _ _ _ _ _ H1') as (D1' & F1' & _). exists c, f1'. split; [done|].
  assert (Bl : forall h, f1 !! blob_path env h = f !! blob_path env h /\ f1' !! blob_path env h = f' !! blob_path env h).
  { intros h. split; eapply writeFile_below; try exact H1; try exact H1'; intros X.
    all: assert (app_file uri (blob_path env h)) as Y by (first [left; exact X|right; left; rewrite X; eauto]).
    all: apply app_file_not_blob in Y; by rewrite blob_path_blobs in Y. }
  refine (app_kept_stored uri f1 f1' (app_kept_intro uri f1 f1' _ _ _) _ Hst).
  - intros q Hq. destruct (decide (q = app_path env uri ++ [ComposeFile])) as [->|Hne]; [left; congruence|].
    destruct (decide (q `prefix_of` app_path env uri)) as [Hp|Hn].
    + destruct (decide (q = [])) as [->|Hne']; [|left; by rewrite (D1 q), (D1' q)].
      unfold kept. rewrite (writeFile_root _ _ _ _ _ _ H1), (writeFile_root _ _ _ _ _ _ H1'). by apply K.
    + unfold kept. rewrite (writeFile_below _ _ _ _ _ _ _ H1 Hne Hn), (writeFile_below _ _ _ _ _ _ _ H1' Hne Hn). by apply K.
  - intros h. destruct (Bl h) as [B1 B2]. by eapply blob_kept_ext.
  - intros Hf1. apply (honest_sub f'); [intros h; left; apply Bl|]. auto.
  - apply (honest_sub f); [intros h; left; apply Bl|done].
Qed.

(** *** The operations *)

Definition keeps uri w w' : Prop := app_safe uri (wfs w) (wfs w').
#[export] Instance keeps_preorder uri : PreOrder (keeps uri).
Proof. split; [intros w|intros w w1 w2]; unfold keeps; [done|by intros ->]. Qed.

Lemma get_fs_keeps {A} uri (q : FS -> A) : preserves (keeps uri) (get_fs q).
Proof. apply preserves_gets. apply _. Qed.
Hint Resolve get_fs_keeps : aklite.

Lemma app_safe_elsewhere uri f f' :
  (forall q, app_file uri q -> kept f f' q) ->
  f' !! (app_path env uri ++ [ComposeFile]) = f !! (app_path env uri ++ [ComposeFile]) ->
  (forall q, below (blobs_root env) q = true -> f' !! q = f !! q) -> app_safe uri f f'.
Proof.
  intros K E B. apply app_safe_intro; [done|done| |].
  - intros h. pose proof (B _ (blob_path_blobs h)) as Eh. split; [by left|].
    intros c Hc Hl. exists c. unfold read in *. by rewrite Eh.
  - apply honest_sub. intros h. left. apply B, blob_path_blobs.
Qed.

(** The directories the engine creates: of apps and of their images. *)
Definition app_or_images (p : Path) : Prop :=
  exists u r, p = app_path env u ++ r /\ (r = [] \/ exists r', r = "images" :: r').

Lemma app_or_images_app u : app_or_images (app_path env u).
Proof. exists u, []. rewrite List.app_nil_r. auto. Qed.
Lemma app_or_images_images u : app_or_images (app_path env u ++ ["images"]).
Proof. exists u, ["images"]. eauto. Qed.
Lemma app_or_images_image u u' : app_or_images (image_path (app_path env u ++ ["images"]) u').
Proof.
  exists u, ("images" :: path_parts (registryHostname u') ++ path_parts (repo u') ++ [hash (digest u')]).
  unfold image_path, path_join. rewrite <- !app_assoc. eauto.
Qed.
Hint Resolve app_or_images_app app_or_images_images app_or_images_image : aklite.

Lemma app_or_images_compose uri p : app_or_images p -> ~ app_path env uri ++ [ComposeFile] `prefix_of` p.
Proof.
  intros (u & r & -> & Hr) [r' E].
  assert (L : length (app_path env u) = length (app_path env uri)) by (unfold app_path; by rewrite !length_app).
  rewrite <- app_assoc in E. apply app_inj_1 in E as [_ E]; [|done]. destruct Hr as [->|(? & ->)]; discriminate E.
Qed.

Lemma mkdir_keeps uri p : app_or_images p -> preserves (keeps uri) (on_fs (create_directories p)).
Proof.
  intros Hp w. unfold keeps, exec, on_fs. pose proof (create_directories_lookup p (wfs w)) as K. unfold exec in K.
  destruct (create_directories p (wfs w)) as [o f']. cbn [fst snd wfs] in *. apply app_safe_elsewhere.
  - intros q _. destruct (K q) as [E|(E1 & E2 & _)]; [by left|by right].
  - destruct (K (app_path env uri ++ [ComposeFile])) as [E|(_ & _ & E)]; [done|].
    by apply app_or_images_compose in E.
  - intros q Hq. destruct (K q) as [E|(_ & _ & E)]; [done|]. exfalso. destruct Hp as (u & r & -> & _).
    assert (below (blobs_root env) q = false); [|congruence]. apply apps_not_blobs.
    pose proof (app_path_apps u r) as Hp. apply below_spec in Hp as [r' Er]. rewrite Er in E.
    destruct (decide (length q <= length (apps_root env))%nat).
    + left. eapply prefix_comparable; [done| |done]. by eexists.
    + right. apply below_spec. destruct (prefix_comparable (apps_root env) q (apps_root env ++ r')) as [r2 ->];
        [by eexists|done|lia|eauto].
Qed.

(** A change of paths among the apps that the app does not depend on. *)
Lemma change_keeps uri f f' (P : Path -> Prop) :
  (forall q, P q -> below (apps_root env) q = true /\ ~ app_file uri q) ->
  (forall q, P q \/ f' !! q = f !! q) -> app_safe uri f f'.
Proof.
  intros HP K. apply app_safe_elsewhere.
  - intros q Hq. destruct (K q) as [Pq|E]; [by apply HP in Pq as [_ Pq]|by left].
  - destruct (K (app_path env uri ++ [ComposeFile])) as [Pq|E]; [|done]. apply HP in Pq as [_ Pq].
    destruct Pq. right. left. eauto.
  - intros q Hq. destruct (K q) as [Pq|E]; [|done]. exfalso. apply HP in Pq as [Pq _].
    rewrite (apps_not_blobs q) in Hq by by right. discriminate Hq.
Qed.

Lemma write_keeps uri dir n c :
  app_or_images dir -> ~ app_file uri (dir ++ [n]) ->
  preserves (keeps uri) (on_fs (writeFile (fs_env env) (dir ++ [n]) c)).
Proof.
  intros Hd Hn w. unfold writeFile. rewrite parent_path_snoc.
  pose proof (mkdir_keeps uri dir Hd w) as K. unfold keeps, exec, on_fs, mbind, M_bind, gets, modify in *.
  destruct (create_directories dir (wfs w)) as [[[]|e] f1]; cbn [snd wfs] in *; [|done].
  destruct (_ || _); cbn [snd wfs]; [done|]. etransitivity; [exact K|].
  apply (change_keeps _ _ _ (eq (dir ++ [n]))).
  - intros q <-. split; [|done]. destruct Hd as (u & r & -> & _). rewrite <- app_assoc. apply app_path_apps.
  - intros q. destruct (decide (dir ++ [n] = q)); [by left|right]. by rewrite lookup_insert_ne.
Qed.

Lemma download_keeps uri u p size :
  below (apps_root env) p = true -> ~ app_file uri p -> preserves (keeps uri) (downloadBlobTo env u p size).
Proof.
  intros Hp Hn w. unfold downloadBlobTo, exec, keeps. destruct (_ || _); [done|].
  destruct (downloadBlob_by _ _ _ _ _) as [o c]. cbn [snd wfs].
  apply (change_keeps _ _ _ (eq p)); [by intros q <-|]. intros q. destruct (decide (p = q)); [by left|right].
  destruct c; [by rewrite lookup_insert_ne|by rewrite lookup_delete_ne].
Qed.

Lemma remove_path_lookup p f q : exec (remove_path p) f !! q = f !! q \/ (q = p /\ exec (remove_path p) f !! q = None).
Proof.
  unfold remove_path, exec, mbind, M_bind, gets, modify. destruct (decide (q = p)) as [->|Hne].
  - destruct (f !! p) as [[]|] eqn:E; [case_match| |]; cbn [snd]; rewrite ?lookup_delete_eq, ?E; auto.
  - left. destruct (f !! p) as [[]|]; [case_match| |]; cbn [snd]; by rewrite ?lookup_delete_ne by done.
Qed.

Lemma remove_path_keeps uri p :
  below (apps_root env) p = true -> ~ app_file uri p -> preserves (keeps uri) (on_fs (remove_path p)).
Proof.
  intros Hp Hn w. unfold keeps, exec, on_fs. pose proof (remove_path_lookup p (wfs w)) as K. unfold exec in K.
  destruct (remove_path p (wfs w)) as [o f']. cbn [snd wfs] in *. apply (change_keeps _ _ _ (eq p)); [by intros q <-|].
  intros q. destruct (K q) as [E|[-> _]]; [by right|by left].
Qed.

Lemma remove_all_keeps uri p :
  below (apps_root env) p = true -> (forall q, app_file uri q -> below p q = false) ->
  preserves (keeps uri) (modify_fs (remove_all p)).
Proof.
  intros Hp Hn w. unfold keeps, exec, modify_fs, on_fs, modify. cbn [snd wfs].
  apply (change_keeps _ _ _ (fun q => below p q = true)).
  - intros q Hq. split; [|intros Hf; apply Hn in Hf; congruence].
    apply below_spec in Hp as [r ->]. apply below_spec in Hq as [r' ->]. apply below_spec. exists (r ++ r').
    by rewrite app_assoc.
  - intros q. rewrite remove_all_lookup. destruct (below p q); auto.
Qed.

Lemma app_safe_honest uri f f' : (honest f -> app_safe uri f f') -> app_safe uri f f'.
Proof. intros H. split; intros Hf; by apply H. Qed.

(** A blob of the wrong length. *)
Lemma remove_blob_keeps uri h c w :
  read (blob_path env h) (wfs w) = Some c -> len c <> blob_len h ->
  keeps uri w (exec (on_fs (remove_path (blob_path env h))) w).
Proof.
  intros Hr Hl. unfold keeps, exec, on_fs. pose proof (remove_path_lookup (blob_path env h) (wfs w)) as K.
  unfold exec in K. destruct (remove_path _ (wfs w)) as [o f']. cbn [snd wfs] in *. apply app_safe_honest. intros Hf.
  assert (Kq : forall q, app_file uri q -> f' !! q = wfs w !! q).
  { intros q Hq. destruct (K q) as [E|[-> _]]; [done|].
    apply app_file_not_blob in Hq. rewrite blob_path_blobs in Hq. discriminate Hq. }
  apply app_safe_intro.
  - intros q Hq. left. by apply Kq.
  - apply Kq. right. left. eauto.
  - intros h'. destruct (K (blob_path env h')) as [E|[E _]].
    + split; [by left|]. intros c' Hc' Hl'. exists c'. unfold read in *. by rewrite E.
    + unfold blob_path in E. apply app_inv_head in E. injection E as ->. split; [|intros; congruence].
      intros [_ Hv]. unfold getContentHash, readFile in Hv. rewrite Hr in Hv. cbn in Hv.
      by destruct Hl; eapply honest_blob.
  - apply honest_sub. intros h'. destruct (K (blob_path env h')) as [E|[-> E]]; auto.
Qed.

Lemma check_layers_keeps uri ls w :
  (forall l d sz, l ∈ ls -> digest_at l = Ret d -> layer_size_at l = Ret sz -> to_u64 sz = blob_len (hash d)) ->
  keeps uri w (exec (check_layers env ls) w).
Proof.
  revert w. induction ls as [|l ls IH]; intros w Hs; cbn [check_layers]; [done|]. exec_step.
  - apply IH. intros l' d sz' Hl. apply Hs. set_solver.
  - rewrite exec_bind_then.
    unfold file_size in *. destruct (read _ _) as [c|] eqn:Hc; [|discriminate]. eapply remove_blob_keeps; [done|].
    rewrite <- (Hs l a0 a1) by (done || set_solver). injection Heqo2 as <-. by apply Z.eqb_neq.
Qed.

(** *** The check of one app and another app *)

Section other.
Context (a : App) (uri uri' : Uri).
Hypothesis (Hu : parseUri (app_uri a) true = Ret uri') (Hne : app_path env uri <> app_path env uri').

Lemma other_file r : ~ app_file uri (app_path env uri' ++ r).
Proof.
  intros H. apply (app_file_other uri uri') in H; [|done].
  assert (below (app_path env uri') (app_path env uri' ++ r) = true) by (apply below_spec; eauto). congruence.
Qed.

Lemma other_below q : app_file uri q -> forall r, below (app_path env uri' ++ r) q = false.
Proof.
  intros H r. destruct (below _ q) eqn:E; [|done]. apply below_spec in E as [r' ->].
  rewrite <- app_assoc in H. by apply other_file in H.
Qed.

Lemma image_path_below u :
  exists r, image_path (app_path env uri' ++ ["images"]) u = app_path env uri' ++ r.
Proof.
  exists ("images" :: path_parts (registryHostname u) ++ path_parts (repo u) ++ [hash (digest u)]).
  unfold image_path, path_join. by rewrite <- !app_assoc.
Qed.

Lemma check_image_keeps u w :
  keeps uri w (exec (check_image env (image_path (app_path env uri' ++ ["images"]) u)) w).
Proof.
  destruct (image_path_below u) as [r ->]. unfold check_image. exec_step.
  - apply app_safe_honest. intros Hf. apply (check_layers_keeps uri _ w). intros l d sz Hl Hd Hsz.
    eapply (honest_layer _ Hf (hash a1)); [|done..]. split; [done|]. by apply String.eqb_eq.
  - rewrite exec_bind_then, <- app_assoc. apply remove_path_keeps; [apply app_path_apps|apply other_file].
Qed.

Lemma check_images_keeps compose services : preserves (keeps uri) (check_images env (app_path env uri') compose services).
Proof.
  induction services as [|s services IH]; cbn [check_images]; pstep.
  - intros w. apply check_image_keeps.
  - destruct (image_path_below a1) as [r ->]. apply remove_all_keeps; [apply app_path_apps|].
    intros q Hq. by apply other_below.
Qed.

Lemma areAppImagesFetched_keeps : preserves (keeps uri) (areAppImagesFetched env a).
Proof.
  intros w. unfold areAppImagesFetched. rewrite exec_bind_lift, Hu. revert w. apply preserves_intro. pstep.
  apply check_images_keeps.
Qed.

Lemma isAppFetched_keeps : preserves (keeps uri) (isAppFetched env a).
Proof.
  intros w. unfold isAppFetched. rewrite exec_bind_lift, Hu. revert w. apply preserves_intro. pstep.
  - apply write_keeps; [apply app_or_images_app|apply other_file].
  - apply areAppImagesFetched_keeps.
Qed.
End other.

(** ** Downloading an app *)

#[local] Existing Instance EM_ret.
#[local] Existing Instance EM_bind.

Lemma EM_bind_EOk {A B : Type} (m : EM A) (k : A -> EM B) w b w' :
  (m ≫= k) w = (EOk b, w') <-> exists a w1, m w = (EOk a, w1) /\ k a w1 = (EOk b, w').
Proof. unfold mbind, EM_bind. destruct (m w) as [[]?]; naive_solver. Qed.
Lemma em_EOk {A} (m : M W A) w a w' : em m w = (EOk a, w') <-> m w = (Ret a, w').
Proof. unfold em. destruct (m w) as [[]?]; cbn; naive_solver. Qed.
Lemma em_lift_EOk {A} (o : outcome A) w a w' : em_lift o w = (EOk a, w') <-> o = Ret a /\ w' = w.
Proof. unfold em_lift. destruct o; cbn; naive_solver. Qed.

(** [preserves] for the code that can run out of space. *)
Definition em_preserves {A} (R : W -> W -> Prop) (m : EM A) : Prop := forall w, R w (m w).2.
Section em_preserves.
Context (R : W -> W -> Prop) `{!PreOrder R}.
Lemma em_preserves_ret {A} (a : A) : em_preserves R (mret a : EM A).
Proof. intros w. cbn. reflexivity. Qed.
Lemma em_preserves_lift {A} (o : outcome A) : em_preserves R (em_lift o).
Proof. intros w. cbn. reflexivity. Qed.
Lemma em_preserves_em {A} (m : M W A) : preserves R m -> em_preserves R (em m).
Proof. intros H w. specialize (H w). unfold em, exec in *. by destruct (m w). Qed.
Lemma em_preserves_bind {A B : Type} (m : EM A) (k : A -> EM B) :
  em_preserves R m -> (forall a, em_preserves R (k a)) -> em_preserves R (m ≫= k).
Proof.
  intros H1 H2 w. specialize (H1 w). unfold mbind, EM_bind. destruct (m w) as [[a|s u|e] w1]; cbn in *; [|done..].
  etransitivity; [exact H1|apply H2].
Qed.
End em_preserves.

Ltac em_step :=
  repeat (cbn zeta;
    lazymatch goal with
    | |- forall _, em_preserves _ _ => intros ?
    | |- em_preserves _ (mret _) => apply (em_preserves_ret _)
    | |- em_preserves _ (em_lift _) => apply (em_preserves_lift _)
    | |- em_preserves _ (em (lift _)) => apply (em_preserves_em _), (preserves_lift _)
    | |- em_preserves _ (em _) => apply (em_preserves_em _)
    | |- em_preserves _ (mbind _ _) => apply (em_preserves_bind _)
    | |- em_preserves _ (match ?x with _ => _ end) => destruct x eqn:?
    end).

(** *** Digests as file names *)

Definition is_hex (c : ascii) : bool := digit_val c <? 16.
Class Sha256Spec : Prop := {
  sha256_length x : String.length (sha256_hex (registry env) x) = 64%nat;
  sha256_digits x : str_forall is_hex (sha256_hex (registry env) x) = true;
}.
Context {sha256_spec : Sha256Spec}.

Lemma digest_file_not_app uri uri' s d :
  make_HashedDigest s = Ret d -> ~ app_file uri (app_path env uri' ++ [hash d]).
Proof.
  intros Hd. destruct (decide (app_path env uri = app_path env uri')) as [E|Hne]; [|by apply other_file].
  assert (L : String.length (hash d) = 64%nat) by (by apply make_HashedDigest_Ret in Hd as (_ & _ & ? & _)).
  rewrite <- E. clear E. intros [[r P]|[(n & P & Hn)|(r & P)]].
  - apply (f_equal length) in P. rewrite !length_app in P. cbn in P. lia.
  - apply app_inv_head in P. injection P as P. rewrite P in L.
    destruct Hn as [->|[->|(x & ->)]]; [discriminate L..|]. rewrite length_app_s, sha256_length in L. discriminate L.
  - apply app_inv_head in P. destruct r; discriminate P.
Qed.

Lemma not_tmp_name x : starts_with tmp_file_prefix (sha256_hex (registry env) x +:+ ArchiveExt) = false.
Proof.
  pose proof (sha256_length x) as L. pose proof (sha256_digits x) as Hx.
  destruct (sha256_hex (registry env) x) as [|c s]; [discriminate L|]. cbn in Hx. apply andb_true_iff in Hx as [Hc _].
  cbn. destruct (eqb_char "o" c) eqn:E; [|done]. apply eqb_char_spec in E. subst c. discriminate Hc.
Qed.

(** A file that the app depends on, and that is not one of the directories above, has not the name of a
    temporary file. *)
Lemma app_file_name uri q :
  app_file uri q -> starts_with tmp_file_prefix (filename_of q) = true -> q `prefix_of` app_path env uri.
Proof.
  intros [H|[(n & -> & Hn)|(r & ->)]] Ht; [done|exfalso..].
  - rewrite filename_of_snoc in Ht. destruct Hn as [->|[->|(x & ->)]]; [discriminate Ht..|].
    by rewrite not_tmp_name in Ht.
  - change ("images" :: r ++ [IndexFile]) with (("images" :: r) ++ [IndexFile]) in Ht.
    rewrite app_assoc, filename_of_snoc in Ht. discriminate Ht.
Qed.

(** *** Temporary files *)

Lemma remove_path_nonempty p q n f :
  f !! p = Some Dir -> q <> p -> p `prefix_of` q -> f !! q = Some n -> exec (remove_path p) f = f.
Proof.
  intros Hp Hq Hpre Hn. unfold remove_path, exec, mbind, M_bind, gets. rewrite Hp.
  rewrite bool_decide_eq_false_2; [done|]. intros E.
  assert (Hin : q ∈ descendants p f); [|by rewrite E in Hin; apply not_elem_of_nil in Hin].
  apply elem_of_descendants. split_and!; [eauto|by apply below_spec|done].
Qed.

(** Something below [p] keeps it. *)
Lemma remove_dir_nonempty uri p f n :
  p `prefix_of` app_path env uri -> (f !! p = None \/ f !! p = Some Dir) ->
  f !! (app_path env uri ++ [ManifestFile]) = Some n -> exec (remove_path p) f = f.
Proof.
  intros Hpre [Hp|Hp] Hm.
  - unfold remove_path, exec, mbind, M_bind, gets. by rewrite Hp.
  - apply (remove_path_nonempty p (app_path env uri ++ [ManifestFile]) n); [done| |by apply prefix_app_r|done].
    intros <-. apply prefix_length in Hpre. rewrite length_app in Hpre. cbn in Hpre. lia.
Qed.

Lemma remove_tmp_keeps uri p f :
  below (apps_root env) p = true -> starts_with tmp_file_prefix (filename_of p) = true ->
  app_safe uri f (exec (remove_path p) f).
Proof.
  intros Hp Ht. destruct (decide (p `prefix_of` app_path env uri)) as [Hpre|Hn].
  2: { apply (change_keeps _ _ _ (eq p)).
       - intros q <-. split; [done|]. intros H. by apply app_file_name in H.
       - intros q. destruct (remove_path_lookup p f q) as [E|[-> _]]; auto. }
  assert (Hne : p <> []) by (intros ->; discriminate Ht). pose proof (remove_path_lookup p f) as K.
  assert (B : forall h, exec (remove_path p) f !! blob_path env h = f !! blob_path env h).
  { intros h. destruct (K (blob_path env h)) as [E|[E _]]; [done|]. exfalso. subst p.
    pose proof (apps_not_blobs _ (or_intror Hp)) as Hb. by rewrite blob_path_blobs in Hb. }
  split; [intros Hf; split_and!|].
  - apply (honest_sub f); [|done]. intros h. by left.
  - intros d c Ha. destruct (as_manifest _ _ _ _ Ha) as [Hm _]. apply bool_decide_eq_true in Hm as [n Hm].
    rewrite (remove_dir_nonempty uri p f n); [done|done| |done]. right. by apply (as_dirs _ _ _ _ Ha p).
  - intros u root Hr. eapply image_stored_kept; [done| | |exact Hr].
    + left. destruct (K (root ++ [IndexFile])) as [E|[E _]]; [done|].
      exfalso. rewrite <- E, filename_of_snoc in Ht. discriminate Ht.
    + intros h. split; [by left|]. intros c Hc Hl. exists c. unfold read in *. by rewrite B.
  - intros Hf (He & c & f1 & H1 & Hst). assert (exists n, f !! (app_path env uri ++ [ManifestFile]) = Some n) as [n Hm].
    { destruct Hst as (d & c' & _ & _ & Ha & _). destruct (as_manifest _ _ _ _ Ha) as [Hm _].
      apply bool_decide_eq_true in Hm as [n Hm]. exists n. rewrite <- Hm. symmetry.
      eapply writeFile_below; [exact H1|intros E; apply app_inv_head in E; discriminate E|].
      intros P. apply prefix_length in P. rewrite length_app in P. cbn in P. lia. }
    rewrite (remove_dir_nonempty uri p f n); [split; [done|by exists c, f1]|done| |done]. by eapply writeFile_above.
Qed.

Context `{!FsEnvSpec (fs_env env)}.

Lemma tmp_removed_keeps uri w : keeps uri w (tmp_removed env w).
Proof.
  unfold keeps, tmp_removed, removeTmpFiles. cbn [wfs]. set (l := filter _ _).
  assert (Hl : forall p, p ∈ l -> below (apps_root env) p = true /\ starts_with tmp_file_prefix (filename_of p) = true).
  { intros p Hp. unfold l in Hp. apply list_elem_of_filter in Hp as [Ht Hp]. rewrite readdir_perm in Hp.
    by apply elem_of_descendants in Hp as (_ & ? & _). }
  clearbody l. generalize (wfs w). induction l as [|p l IH]; intros f; [done|]. cbn [remove_each].
  unfold exec at 1, mbind at 1, M_bind. pose proof (remove_tmp_keeps uri p f) as R. unfold exec in R.
  destruct (remove_path p f) as [[]f']; cbn [snd] in *.
  - etransitivity; [apply R; apply Hl; set_solver|]. apply IH. intros q Hq. apply Hl. set_solver.
  - apply R; apply Hl; set_solver.
Qed.

(** Making an engine on a store keeps the apps it has: a restart of the client loses nothing. *)
Lemma root_mkdir_keeps uri p :
  p ∈ [apps_root env; blobs_root env] -> preserves (keeps uri) (on_fs (create_directories p)).
Proof.
  intros Hp w. unfold keeps, exec, on_fs. pose proof (create_directories_lookup p (wfs w)) as K. unfold exec in K.
  destruct (create_directories p (wfs w)) as [o f']. cbn [fst snd wfs] in *.
  assert (Hlen : length p = Datatypes.S (length (store_root env))).
  { repeat (apply elem_of_cons in Hp as [->|Hp]); [..|by apply not_elem_of_nil in Hp];
      unfold apps_root, blobs_root; rewrite length_app; cbn; lia. }
  assert (Hlong : forall q, (Datatypes.S (length (store_root env)) < length q)%nat -> f' !! q = wfs w !! q).
  { intros q Hq. destruct (K q) as [E|(_ & _ & E%prefix_length)]; [done|lia]. }
  assert (Hblob : forall h, f' !! blob_path env h = wfs w !! blob_path env h).
  { intros h. apply Hlong. unfold blob_path, blobs_root. rewrite !length_app. cbn. lia. }
  apply app_safe_intro.
  - intros q _. destruct (K q) as [E|(E1 & E2 & _)]; [by left|by right].
  - apply Hlong. unfold app_path, apps_root. rewrite !length_app. cbn. lia.
  - intros h. split; [by left; apply Hblob|]. intros c Hc Hl. exists c. unfold read in *. by rewrite Hblob.
  - apply honest_sub. intros h. left. apply Hblob.
Qed.

Theorem engine_init_keeps uri : preserves (keeps uri) (engine_init env).
Proof.
  pose proof (root_mkdir_keeps uri (apps_root env) ltac:(set_solver)).
  pose proof (root_mkdir_keeps uri (blobs_root env) ltac:(set_solver)).
  unfold engine_init. pstep. intros w. apply tmp_removed_keeps.
Qed.

(** *** What skopeo and the transfers promise *)

Definition plain_name (n : string) : bool :=
  negb (str_empty n) && str_forall (fun c => negb (eqb_char c "/") && negb (eqb_char c " ")) n.
Definition plain (p : Path) : Prop := Forall (fun n => plain_name n = true) p.

(** [skopeo copy -f v2s2 --dest-shared-blob-dir <blobs> <src> oci:<dst>], for a path without spaces: in
    the directory it writes the index, the layout and temporary files; the blobs it finds it keeps; the
    manifests it stores are honest; and if it ends with success the image is complete. *)
Class SkopeoSpec : Prop := {
  skopeo_files src dst w p w' q :
    plain dst -> run_process (exec_env env) (pull_cmd env src dst) w = (p, w') ->
    q <> dst ++ [IndexFile] -> q <> dst ++ ["oci-layout"] -> below (blobs_root env) q = false ->
    (below dst q = true -> starts_with tmp_file_prefix (filename_of q) = false) -> wfs w' !! q = wfs w !! q;
  skopeo_blobs src dst w p w' h :
    plain dst -> run_process (exec_env env) (pull_cmd env src dst) w = (p, w') ->
    blob_kept (wfs w) (wfs w') h;
  skopeo_honest src dst w p w' :
    plain dst -> run_process (exec_env env) (pull_cmd env src dst) w = (p, w') ->
    honest (wfs w) -> honest (wfs w');
  skopeo_copied src dst w p w' r :
    plain dst -> run_process (exec_env env) (pull_cmd env src dst) w = (p, w') ->
    execute_process "900s" p = Some (Ret r) -> exit_code r = EXIT_SUCCESS -> image_stored (wfs w') dst;
}.

(** curl hands over the data in small chunks: their size, added to the largest size of a file, does not
    reach the largest [uint64_t]. A client that goes on when a chunk is refused has nothing larger than a file can be. *)
Class CurlSpec : Prop := {
  curl_chunks headers url d :
    stops_when_refused env = true ->
    d ∈ (http_download (registry env) headers url).1 -> Z.of_nat (file_capacity env) + len d < u64_max;
  chunks_fit headers url :
    stops_when_refused env = false ->
    (total_length (http_download (registry env) headers url).1 <= file_capacity env)%nat;
}.
Lemma blob_request_law `{!CurlSpec} url expected : request_law (blob_request env) url expected.
Proof.
  unfold blob_request. destruct (stops_when_refused env) eqn:E; [apply curl_request_law|apply unchecked_request_law].
  - right. intros h d. by apply curl_chunks.
  - intros h. by apply chunks_fit.
Qed.

(** The names that make the paths of an app, and those of its images whatever store it is in. *)
Definition plain_images (compose : json) : Prop :=
  forall services s image u, getServices compose = Ret services -> s ∈ services -> getImage compose s = Ret image ->
    parseUri image false = Ret u ->
    plain (path_parts (registryHostname u) ++ path_parts (repo u) ++ [hash (digest u)]).
Definition well_named (a : App) : Prop :=
  forall uri, parseUri (app_uri a) true = Ret uri ->
    plain (app_path env uri) /\
    forall f d c compose, archive_stored f uri d c ->
      ComposeInfo env (app_path env uri ++ [ComposeFile]) f = Ret compose -> plain_images compose.

Context {skopeo_spec : SkopeoSpec} {curl_spec : CurlSpec}.

Lemma pull_run src dst w :
  exec_ env (pull_cmd env src dst) "failed to pull image" "" w =
  let '(p, w') := run_process (exec_env env) (pull_cmd env src dst) w in
  match execute_process "900s" p with
  | Some (Ret r) =>
      if negb (exit_code r =? EXIT_SUCCESS) then (Throw (exec_error "failed to pull image" (pull_cmd env src dst) r), w')
      else (Ret tt, w')
  | Some (Throw e) => (Throw e, w')
  | None => (Throw never_ends, w')
  end.
Proof.
  unfold exec_, exec_in, exec_cmd, mbind, M_bind, exec_command. cbn [andb str_empty].
  change ("" +:+ pull_cmd env src dst) with (pull_cmd env src dst).
  destruct (run_process _ _ w) as [p w']. destruct (execute_process "900s" p) as [[r|e]|]; [|done..].
  by destruct (negb _).
Qed.

(** The index of an image, and the other files skopeo writes, seen from an app. *)
Lemma skopeo_app_file uri dst q :
  (exists u r, dst = app_path env u ++ r /\ r <> []) -> app_file uri q -> q <> dst ++ [IndexFile] ->
  q <> dst ++ ["oci-layout"] /\ below (blobs_root env) q = false /\
  (below dst q = true -> starts_with tmp_file_prefix (filename_of q) = false).
Proof.
  intros (u & r & -> & Hr) Hq Hne.
  assert (Hlen : forall r', ~ (app_path env u ++ r) ++ r' `prefix_of` app_path env uri).
  { intros r' Hp. apply prefix_length in Hp. unfold app_path in Hp. rewrite !length_app in Hp. cbn in Hp.
    destruct r; [done|cbn in Hp; lia]. }
  split_and!.
  - intros ->. destruct Hq as [H|[(n & E & Hn)|(r' & E)]].
    + by apply Hlen in H.
    + apply app_inj_2 in E as [_ E]; [|done]. injection E as <-.
      destruct Hn as [?|[?|(x & Hx)]]; [discriminate..|]. apply (f_equal String.length) in Hx.
      rewrite length_app_s, sha256_length in Hx. discriminate Hx.
    + rewrite app_comm_cons, (app_assoc _ _ [IndexFile]) in E. apply app_inj_2 in E as [_ E]; [|done]. discriminate E.
  - by eapply app_file_not_blob.
  - intros Hb. destruct (starts_with _ _) eqn:E; [|done]. exfalso. apply (app_file_name uri) in E; [|done].
    apply below_spec in Hb as [r' ->]. by apply Hlen in E.
Qed.

Lemma skopeo_app_kept uri src dst w p w' :
  plain dst -> (exists u r, dst = app_path env u ++ r /\ r <> []) ->
  run_process (exec_env env) (pull_cmd env src dst) w = (p, w') ->
  (~ app_file uri (dst ++ [IndexFile]) \/ wfs w' !! (dst ++ [IndexFile]) = wfs w !! (dst ++ [IndexFile])) ->
  app_safe uri (wfs w) (wfs w').
Proof.
  intros Hp Hd Hr Hi. assert (K : forall q, app_file uri q -> wfs w' !! q = wfs w !! q).
  { intros q Hq. destruct (decide (q = dst ++ [IndexFile])) as [->|Hne]; [by destruct Hi|].
    destruct (skopeo_app_file uri dst q Hd Hq Hne) as (H1 & H2 & H3). by eapply skopeo_files. }
  apply app_safe_intro.
  - intros q Hq. left. by apply K.
  - apply K. right. left. eauto.
  - intros h. by eapply skopeo_blobs.
  - by eapply skopeo_honest.
Qed.

(** An image of the app itself. *)
Lemma skopeo_own_kept uri src u w p w' r :
  let dst := image_path (app_path env uri ++ ["images"]) u in
  plain dst -> run_process (exec_env env) (pull_cmd env src dst) w = (p, w') ->
  execute_process "900s" p = Some (Ret r) -> exit_code r = EXIT_SUCCESS ->
  app_kept uri (wfs w) (wfs w') /\ image_stored (wfs w') dst.
Proof.
  intros dst Hp Hr He Hz. pose proof (skopeo_copied _ _ _ _ _ _ Hp Hr He Hz) as Hst. split; [|done]. intros Hf.
  assert (Hd : exists u r, dst = app_path env u ++ r /\ r <> []).
  { unfold dst, image_path, path_join. rewrite <- !app_assoc. by do 2 eexists. }
  assert (K : forall q, app_file uri q -> q <> dst ++ [IndexFile] -> kept (wfs w) (wfs w') q).
  { intros q Hq Hne. left. destruct (skopeo_app_file uri dst q Hd Hq Hne) as (H1 & H2 & H3). by eapply skopeo_files. }
  split_and!; [by eapply skopeo_honest| |].
  - intros d c. apply archive_kept_intro. intros q Hq. apply K; [by apply archive_file_app|]. intros ->.
    destruct Hd as (u' & r' & Ed & Hr'). rewrite Ed in Hq. destruct Hq as [Hq|(n & E & Hn)].
    + apply prefix_length in Hq. unfold app_path in Hq. rewrite !length_app in Hq. cbn in Hq. lia.
    + apply (f_equal length) in E. unfold app_path in E. rewrite !length_app in E. cbn in E. destruct r'; [done|cbn in E; lia].
  - intros u' root Hroot. destruct (decide (root ++ [IndexFile] = dst ++ [IndexFile])) as [E|Hne].
    + apply app_inj_2 in E as [-> _]; done.
    + eapply image_stored_kept; [done| | |exact Hroot].
      * apply K; [|done]. right. right. apply image_index_file.
      * intros h. by eapply skopeo_blobs.
Qed.

Lemma image_path_deep u u' :
  exists r, image_path (app_path env u ++ ["images"]) u' = app_path env u ++ r /\ r <> [].
Proof.
  exists ("images" :: path_parts (registryHostname u') ++ path_parts (repo u') ++ [hash (digest u')]).
  unfold image_path, path_join. by rewrite <- !app_assoc.
Qed.

Lemma image_path_plain u u' :
  plain (app_path env u) -> plain (path_parts (registryHostname u') ++ path_parts (repo u') ++ [hash (digest u')]) ->
  plain (image_path (app_path env u ++ ["images"]) u').
Proof.
  intros H1 H2. unfold image_path, path_join, plain. rewrite <- !app_assoc.
  apply Forall_app. split; [done|]. by constructor.
Qed.

(** One image: other apps, and the app itself if the download succeeds. *)
Lemma pullImage_other uri uri' u src :
  let dst := image_path (app_path env uri' ++ ["images"]) u in
  app_path env uri <> app_path env uri' -> plain dst -> preserves (keeps uri) (pullImage env src dst).
Proof.
  intros dst Hne Hp. destruct (image_path_deep uri' u) as (r & Er & Hr). fold dst in Er. unfold pullImage. pstep.
  - apply mkdir_keeps. eauto with aklite.
  - intros w. unfold exec, keeps. rewrite pull_run. destruct (run_process _ _ w) as [p w'] eqn:E.
    assert (app_safe uri (wfs w) (wfs w')).
    { eapply skopeo_app_kept; [exact Hp|eauto|exact E|]. left. rewrite Er, <- app_assoc. by apply other_file. }
    destruct (execute_process _ p) as [[x|e]|]; [destruct (negb _)|..]; done.
Qed.

Lemma pullImage_own uri u src w w' :
  let dst := image_path (app_path env uri ++ ["images"]) u in
  plain dst -> pullImage env src dst w = (Ret tt, w') -> app_kept uri (wfs w) (wfs w') /\ image_stored (wfs w') dst.
Proof.
  intros dst Hp H. unfold pullImage in H. apply M_bind_Ret in H as ([] & w1 & H1 & H).
  assert (K : app_kept uri (wfs w) (wfs w1)).
  { pose proof (mkdir_keeps uri dst (app_or_images_image uri u) w) as [K _]. unfold exec in K. by rewrite H1 in K. }
  rewrite pull_run in H. destruct (run_process _ _ w1) as [p w2] eqn:E.
  destruct (execute_process _ p) as [[r|e]|] eqn:Ep; [|discriminate H..].
  destruct (Z.eqb_spec (exit_code r) EXIT_SUCCESS) as [Ez|]; [|discriminate H]. injection H as ->.
  destruct (skopeo_own_kept uri src u w1 p w' r Hp E Ep Ez) as [K' I]. split; [|done]. by etransitivity.
Qed.

(** All images. *)
Definition services_plain (compose : json) (services : list string) : Prop :=
  forall s image u, s ∈ services -> getImage compose s = Ret image -> parseUri image false = Ret u ->
    plain (path_parts (registryHostname u) ++ path_parts (repo u) ++ [hash (digest u)]).

Lemma pull_images_other uri uri' app_uri compose services :
  app_path env uri <> app_path env uri' -> plain (app_path env uri') -> services_plain compose services ->
  preserves (keeps uri) (pull_images env app_uri compose (app_path env uri' ++ ["images"]) services).
Proof.
  intros Hne Hp. induction services as [|s services IH]; intros Hs; cbn [pull_images]; [by pstep|].
  intros w. rewrite exec_bind_lift. destruct (getImage compose s) as [image|] eqn:Hi; [|done].
  rewrite exec_bind_lift. destruct (parseUri image false) as [u|] eqn:Hu; [|done]. revert w. apply preserves_intro. pstep.
  - apply pullImage_other; [done|]. apply image_path_plain; [done|]. eapply Hs; [|done..]. set_solver.
  - apply IH. intros s' image' u' Hs'. apply Hs. set_solver.
Qed.

Lemma pull_images_own uri app_uri compose services w w' :
  plain (app_path env uri) -> services_plain compose services -> honest (wfs w) ->
  pull_images env app_uri compose (app_path env uri ++ ["images"]) services w = (Ret tt, w') ->
  app_kept uri (wfs w) (wfs w') /\ services_stored (wfs w') (app_path env uri) compose services.
Proof.
  intros Hp. revert w. induction services as [|s services IH]; intros w Hs Hf; cbn [pull_images].
  - intros [= ->]. split; [done|]. constructor.
  - intros H. pure_step H image Hi. pure_step H u Hu. pure_step H src Hsrc. apply M_bind_Ret in H as ([] & w1 & H1 & H).
    apply pullImage_own in H1 as [K1 I1]; [|apply image_path_plain; [done|]; eapply Hs; [|done..]; set_solver].
    apply IH in H as [K2 I2]; [|intros ? ? ? ?; apply Hs; set_solver|by apply K1].
    split; [by etransitivity|]. constructor; [|done]. eexists. split; [by exists image, u|].
    destruct (K1 Hf) as [Hf1 _]. destruct (K2 Hf1) as (_ & _ & I). by apply I.
Qed.

Lemma pullAppImages_other uri uri' app_uri f0 d c w :
  app_path env uri <> app_path env uri' -> plain (app_path env uri') ->
  (forall f cj, archive_stored f uri' d c -> ComposeInfo env (app_path env uri' ++ [ComposeFile]) f = Ret cj ->
     plain_images cj) ->
  archive_stored f0 uri' d c -> app_kept uri' f0 (wfs w) -> honest f0 ->
  keeps uri w (exec (pullAppImages env app_uri (app_path env uri' ++ [ComposeFile]) (app_path env uri' ++ ["images"])) w).
Proof.
  intros Hne Hp Hpl Ha K0 Hf0. unfold pullAppImages.
  pose proof (mkdir_keeps uri (app_path env uri' ++ ["images"]) (app_or_images_images uri') w) as K1.
  pose proof (mkdir_keeps uri' (app_path env uri' ++ ["images"]) (app_or_images_images uri') w) as K2.
  destruct (on_fs (create_directories (app_path env uri' ++ ["images"])) w) as [[[]|e] w1] eqn:E0;
    unfold exec in K1, K2; rewrite E0 in K1, K2; cbn [snd] in K1, K2; [|unfold exec, mbind, M_bind; by rewrite E0].
  rewrite (exec_bind_run _ _ tt w w1) by done. etransitivity; [exact K1|].
  destruct (K0 Hf0) as (Hf & A0 & _). destruct (proj1 K2 Hf) as (_ & A2 & _).
  rewrite exec_bind_get_fs, exec_bind_lift. destruct (ComposeInfo _ _ _) as [cj|] eqn:Hc; [|done].
  rewrite exec_bind_lift. destruct (getServices cj) as [services|] eqn:Hs; [|done].
  apply pull_images_other; [done..|].
  intros s image u. by eapply Hpl; [apply A2, A0|..].
Qed.

Lemma pullAppImages_own uri app_uri d c w w' :
  plain (app_path env uri) ->
  (forall f cj, archive_stored f uri d c -> ComposeInfo env (app_path env uri ++ [ComposeFile]) f = Ret cj ->
     plain_images cj) ->
  archive_stored (wfs w) uri d c -> honest (wfs w) ->
  pullAppImages env app_uri (app_path env uri ++ [ComposeFile]) (app_path env uri ++ ["images"]) w = (Ret tt, w') ->
  app_stored (wfs w') uri /\ honest (wfs w').
Proof.
  intros Hp Hpl Ha Hf H. unfold pullAppImages in H. apply M_bind_Ret in H as ([] & w1 & H1 & H).
  pose proof (mkdir_keeps uri _ (app_or_images_images uri) w) as K1. unfold exec in K1. rewrite H1 in K1. cbn [snd] in K1.
  destruct (proj1 K1 Hf) as (Hf1 & A1 & _). fs_step H co Hco. fs_step H cj Hcj. fs_step H services Hs. subst co.
  assert (Hc1 : archive_stored (wfs w1) uri d c) by by apply A1.
  apply pull_images_own in H as [K2 I2]; [|done|intros s image u; by eapply Hpl|done].
  destruct (K2 Hf1) as (Hf2 & A2 & _). split; [|done]. exists d, c, cj, services. split; [by apply A2|]. split; [|done|done].
  eapply kept_ComposeInfo; [|exact Hcj]. eapply read_kept; [by eapply as_compose|]. eapply as_compose. by apply A2.
Qed.

(** *** The size check *)

Lemma layersMetaDescr_digest m d : layersMetaDescr m = Ret d -> exists s, make_HashedDigest s = Ret (descr_digest d).
Proof.
  assert (Hm : forall v, make_Descriptor v = Ret d -> exists s, make_HashedDigest s = Ret (descr_digest d)).
  { intros v H. unfold make_Descriptor in H. osplit H. injection H as <-. eauto. }
  assert (H0 : exists s, make_HashedDigest s = Ret (descr_digest Descriptor_default)).
  { by exists (DigestType +:+ empty_sha256). }
  unfold layersMetaDescr. intros H. osplit H. destruct (Nat.ltb _ _); [by injection H as <-|].
  osplit H. destruct (negb v1); [by injection H as <-|].
  osplit H. destruct (negb v3); [by injection H as <-|].
  osplit H. destruct (negb _); [by injection H as <-|eauto].
Qed.

Lemma checkRoomRetry_keeps uri w name req path :
  keeps uri w (checkRoomRetry (storage_space_func env) (tmp_removed env) w name req path).2.
Proof. unfold checkRoomRetry. destruct (checkRoomInStore _ _ _ _ _); cbn; [done|apply tmp_removed_keeps|done]. Qed.

Lemma checkAvailable_keeps uri sp dp same s d w :
  keeps uri w (checkAvailableStorageInStores (storage_space_func env) (tmp_removed env) sp dp same s d w).2.
Proof.
  unfold checkAvailableStorageInStores. pose proof (checkRoomRetry_keeps uri w "skopeo" s sp) as K.
  destruct (checkRoomRetry _ _ _ _ _ _) as [[]w1]; cbn [snd] in *; [|done..].
  destruct (checkRoomInStore _ _ _ _ _); [|done..]. destruct same; [|done]. destruct (_ || _); [done|].
  etransitivity; [exact K|apply checkRoomRetry_keeps].
Qed.

Lemma precise_keeps uri u uri' descr s :
  make_HashedDigest s = Ret (descr_digest descr) ->
  preserves (keeps uri) (precise_update_size env u (app_path env uri') descr).
Proof.
  intros Hs. unfold precise_update_size. pstep.
  apply download_keeps; [apply app_path_apps|by eapply digest_file_not_app].
Qed.

Lemma estimated_keeps uri u m : preserves (keeps uri) (estimated_update_size env u m).
Proof. unfold estimated_update_size. pstep. Qed.

Lemma checkAppUpdateSize_keeps uri u uri' : em_preserves (keeps uri) (checkAppUpdateSize env u (app_path env uri')).
Proof.
  unfold checkAppUpdateSize. apply em_preserves_bind; [apply _|apply em_preserves_em, get_fs_keeps|]. intros j.
  apply em_preserves_bind; [apply _|apply em_preserves_lift; apply _|]. intros m.
  destruct (str_empty _); [apply em_preserves_ret; apply _|].
  intros w. unfold mbind at 1, EM_bind. unfold em_lift. destruct (layersMetaDescr m) as [descr|e] eqn:Hd; cbn [eng_lift]; [|done].
  apply layersMetaDescr_digest in Hd as [s Hs]. revert w.
  match goal with |- forall w, keeps uri w (snd (?f w)) => change (em_preserves (keeps uri) f) end.
  apply em_preserves_bind; [apply _| |].
  { apply em_preserves_em. destruct (Descriptor_bool descr); [by eapply precise_keeps|pstep]. }
  intros precise. apply em_preserves_bind; [apply _| |].
  { apply em_preserves_em. destruct precise; [pstep|apply estimated_keeps]. }
  intros [[sk dk]|]; [|apply em_preserves_ret; apply _]. intros w. apply checkAvailable_keeps.
Qed.

(** *** The app itself *)

Lemma pullApp_other uri uri' u :
  app_path env uri <> app_path env uri' -> em_preserves (keeps uri) (pullApp env u (app_path env uri')).
Proof.
  intros Hne. unfold pullApp. em_step.
  - apply mkdir_keeps. eauto with aklite.
  - intros w. cbn. done.
  - apply download_keeps; [apply app_path_apps|by apply other_file].
  - apply write_keeps; [eauto with aklite|by apply other_file].
  - apply write_keeps; [eauto with aklite|by apply other_file].
  - apply get_fs_keeps.
  - apply write_keeps; [eauto with aklite|by apply other_file].
Qed.

Lemma archiveSize_nonneg m n : archiveSize m = Ret n -> 0 <= n.
Proof.
  unfold archiveSize. intros H. osplit H. destruct (_ || _); [discriminate H|]. injection H as <-.
  unfold jasUInt64 in Hv2. destruct v1; try discriminate Hv2; [by injection Hv2 as <-|by destruct b; injection Hv2 as <-|].
  destruct (jisUInt64 _) eqn:E; [|discriminate Hv2]. injection Hv2 as <-. cbn in E. lia.
Qed.

Lemma write_read fe dir n c f f' q x :
  writeFile fe (dir ++ [n]) c f = (Ret tt, f') -> q <> dir ++ [n] -> read q f = Some x -> read q f' = Some x.
Proof. intros H Hq Hr. by rewrite (kept_read f f' q) by by eapply writeFile_kept. Qed.

(** A blob that was downloaded has the digest of its URI. *)
Lemma downloadBlobTo_read u p size w w' :
  0 <= size -> downloadBlobTo env u p size w = (Ret tt, w') ->
  exists data, read p (wfs w') = Some data /\ sha256_hex (registry env) data = hash (digest u).
Proof.
  unfold downloadBlobTo. intros Hs H. destruct (_ || _); [discriminate H|].
  destruct (downloadBlob_by _ _ _ _ _) as [o file] eqn:Hdl. injection H as -> <-.
  apply downloadBlob_by_file in Hdl as (data & -> & Hh & _); [|done|apply blob_request_law].
  exists data. unfold read. cbn [wfs]. by rewrite lookup_insert_eq.
Qed.

(** A successful download leaves the app, without its images, in the store. *)
Lemma pullApp_stored uri w w' :
  pullApp env uri (app_path env uri) w = (EOk tt, w') -> exists d c, archive_stored (wfs w') uri d c.
Proof.
  intros H. unfold pullApp in H.
  apply EM_bind_EOk in H as ([] & w1 & _ & H).
  apply EM_bind_EOk in H as (ms & ? & H1 & H). apply em_lift_EOk in H1 as [Hms ->].
  apply EM_bind_EOk in H as (m & ? & H1 & H). apply em_lift_EOk in H1 as [Hm ->].
  apply EM_bind_EOk in H as (d & ? & H1 & H). apply em_lift_EOk in H1 as [Hd ->].
  apply EM_bind_EOk in H as ([] & w2 & H1 & H). injection H1 as _ <-.
  apply EM_bind_EOk in H as (sz & ? & H1 & H). apply em_lift_EOk in H1 as [Hsz ->].
  apply EM_bind_EOk in H as ([] & w3 & H3 & H). apply em_EOk in H3.
  apply EM_bind_EOk in H as ([] & w4 & H4 & H). apply em_EOk, on_fs_Ret in H4 as [H4 _].
  apply EM_bind_EOk in H as ([] & w5 & H5 & H). apply em_EOk, on_fs_Ret in H5 as [H5 _].
  apply EM_bind_EOk in H as (co & ? & H6 & H). apply em_EOk in H6. injection H6 as Hco <-.
  apply EM_bind_EOk in H as (c & ? & H6 & H). apply em_lift_EOk in H6 as [Hc ->]. subst co.
  apply em_EOk, on_fs_Ret in H as [H6 _].
  destruct (archive_digest_Ret _ _ Hd) as [ds Hds].
  set (ar := archive_path (app_path env uri) d) in *.
  assert (Har : forall n, n ∈ [ManifestFile; ComposeFile; "uri"; "images"] -> ar <> app_path env uri ++ [n]).
  { intros n Hn. eapply archive_path_ne; eauto. }
  destruct (downloadBlobTo_read _ _ _ _ _ (archiveSize_nonneg _ _ Hsz) H3) as (data & R3 & Hdata).
  assert (R4 : read ar (wfs w4) = Some data) by (eapply write_read; [exact H4|apply Har; set_solver|done]).
  assert (R5 : read ar (wfs w5) = Some data) by (eapply write_read; [exact H5|apply Har; set_solver|done]).
  assert (R6 : read ar (wfs w') = Some data) by (eapply write_read; [exact H6|apply Har; set_solver|done]).
  assert (M6 : read (app_path env uri ++ [ManifestFile]) (wfs w') = Some ms).
  { eapply write_read; [exact H6|intros E; apply app_inv_head in E; discriminate E|].
    eapply write_read; [exact H5|intros E; apply app_inv_head in E; discriminate E|].
    apply writeFile_Ret in H4 as (_ & H4 & _). unfold read. by rewrite H4. }
  apply writeFile_Ret in H6 as (Hdirs & Hcf & Hwr). exists d, c. split; [done| | | | | |done].
  - split; [by eapply fs_exists_read|]. unfold getContentHash, readFile. rewrite M6. cbn. by apply getAppManifest_Ret in Hms as [-> _].
  - unfold parseJSONFile. rewrite M6. rewrite Hm. done.
  - split; [by eapply fs_exists_read|]. unfold getContentHash, readFile. fold ar. by rewrite R6.
  - fold ar. unfold extractComposeFile in *. by rewrite R6, <- R5.
  - unfold read. by rewrite Hcf.
Qed.

(** *** [fetch] *)

Lemma fetch_if_missing_other a uri uri' :
  parseUri (app_uri a) true = Ret uri' -> app_path env uri <> app_path env uri' ->
  em_preserves (keeps uri) (fetch_if_missing env a uri').
Proof.
  intros Hu Hne. unfold fetch_if_missing. em_step; [by eapply isAppFetched_keeps|by apply pullApp_other].
Qed.

Lemma fetch_if_missing_stored a uri w w' :
  parseUri (app_uri a) true = Ret uri -> fetch_if_missing env a uri w = (EOk tt, w') ->
  exists d c, archive_stored (wfs w') uri d c.
Proof.
  intros Hu H. unfold fetch_if_missing in H. apply EM_bind_EOk in H as ([] & w1 & H1 & H); apply em_EOk in H1.
  - injection H as <-. apply (isAppFetched_true a uri) in H1 as [(d & c & ? & ? & H1 & _) _]; eauto.
  - by apply pullApp_stored in H.
Qed.

(** Another app, and the honesty of the store. *)
Lemma fetch_body_other a uri uri' w :
  well_named a -> parseUri (app_uri a) true = Ret uri' -> app_path env uri <> app_path env uri' -> honest (wfs w) ->
  keeps uri w (fetch_body env a uri' w).2.
Proof.
  intros Hw Hu Hne Hf. unfold fetch_body, mbind, EM_bind.
  pose proof (fetch_if_missing_other a uri uri' Hu Hne w) as K1.
  destruct (fetch_if_missing env a uri' w) as [[[]|s u|e] w1] eqn:E1; cbn [snd] in *; [|done..].
  destruct (fetch_if_missing_stored _ _ _ _ Hu E1) as (d & c & Ha).
  pose proof (checkAppUpdateSize_keeps uri uri' uri' w1) as K2.
  pose proof (checkAppUpdateSize_keeps uri' uri' uri' w1) as [K2' _].
  destruct (checkAppUpdateSize env uri' (app_path env uri') w1) as [[[]|s u|e] w2]; cbn [snd] in *;
    [|by etransitivity..].
  etransitivity; [exact K1|]. etransitivity; [exact K2|]. destruct (Hw uri' Hu) as [Hp Hpl].
  pose proof (pullAppImages_other uri uri' uri' (wfs w1) d c w2 Hne Hp (fun f cj => Hpl f d c cj) Ha K2' ltac:(by apply K1)) as K3.
  unfold em, exec in *. by destruct (pullAppImages _ _ _ _ w2).
Qed.

Lemma fetch_body_own a uri w w' :
  well_named a -> parseUri (app_uri a) true = Ret uri -> honest (wfs w) ->
  fetch_body env a uri w = (EOk tt, w') -> app_stored (wfs w') uri.
Proof.
  intros Hw Hu Hf H. unfold fetch_body in H.
  apply EM_bind_EOk in H as ([] & w1 & H1 & H). apply EM_bind_EOk in H as ([] & w2 & H2 & H). apply em_EOk in H.
  destruct (fetch_if_missing_stored _ _ _ _ Hu H1) as (d & c & Ha). destruct (Hw uri Hu) as [Hp Hpl].
  assert (Hf1 : honest (wfs w1)).
  { destruct (other_app uri) as [u Hne]. pose proof (fetch_if_missing_other a u uri Hu Hne w) as [K _].
    rewrite H1 in K. by apply K. }
  pose proof (checkAppUpdateSize_keeps uri uri uri w1) as [K2 _]. rewrite H2 in K2.
  destruct (K2 Hf1) as (Hf2 & A2 & _). eapply pullAppImages_own; [done| |by apply A2|done|exact H].
  intros f cj. apply Hpl.
Qed.

(** ** The engine implements its interface *)

Abbreviation engine := (restorable_engine env).

Lemma isAppFetched_exists a uri w w' :
  parseUri (app_uri a) true = Ret uri -> isAppFetched env a w = (Ret true, w') ->
  fs_exists (app_path env uri) (wfs w) = true.
Proof.
  intros Hu H. unfold isAppFetched in H. rewrite (bind_lift _ _ uri) in H by done.
  fs_step H there Ht. destruct there; [|discriminate H]. by apply andb_true_iff in Ht as [Ht _].
Qed.

Lemma isFetched_checked w a :
  isFetched (AppEngine := engine) w a = true <->
  exists uri, parseUri (app_uri a) true = Ret uri /\ checked (wfs w) uri.
Proof.
  unfold isFetched, restorable_engine, answer, is_fetched, try_catch, the, run. split.
  - destruct (isAppFetched env a w) as [[[]|e] w1] eqn:E; cbn; [|done..]. intros _.
    destruct (parseUri (app_uri a) true) as [uri|e] eqn:Hu.
    + exists uri. split; [done|]. split; [by eapply isAppFetched_exists|].
      destruct (isAppFetched_true a uri w w1 Hu E) as (H1 & _ & c & H2). eauto.
    + unfold isAppFetched in E. rewrite Hu in E. discriminate E.
  - intros (uri & Hu & He & c & f1 & H1 & H2). by rewrite (checked_isAppFetched a uri w c f1).
Qed.

Lemma stored_checked f uri : app_stored f uri -> checked f uri.
Proof.
  intros Hst. split; [by apply stored_exists|]. pose proof Hst as (d & c & ? & ? & Ha & _). exists c, f. split; [|done].
  apply writeFile_same; [apply Ha| |apply Ha]. pose proof (as_compose _ _ _ _ Ha) as Hc.
  unfold read in Hc. destruct (_ !! _) as [[]|]; congruence.
Qed.

(** The same app and digest in another registry. *)
Lemma app_stored_same_path f uri uri' :
  app_path env uri' = app_path env uri -> app_stored f uri -> app_stored f uri'.
Proof.
  intros E (d & c & cj & services & [] & []). exists d, c, cj, services.
  assert (Hh : hash (digest uri') = hash (digest uri)) by (unfold app_path in E; apply app_inv_head in E; congruence).
  split; split; rewrite ?E, ?Hh; done.
Qed.

(** Dropping what there was of an app that could not be downloaded. *)
Lemma drop_dir_other uri uri' w :
  app_path env uri <> app_path env uri' -> keeps uri w (drop_dir (app_path env uri') w).
Proof.
  intros Hne. unfold drop_dir. destruct (fs_exists _ _); [|done].
  apply (remove_all_keeps uri (app_path env uri')).
  - rewrite <- (List.app_nil_r (app_path env uri')). apply app_path_apps.
  - intros q Hq. by eapply app_file_other.
Qed.

Lemma fetchApp_other a uri uri' w :
  well_named a -> parseUri (app_uri a) true = Ret uri' -> app_path env uri <> app_path env uri' -> honest (wfs w) ->
  keeps uri w (exec (fetchApp env a) w).
Proof.
  intros Hw Hu Hne Hf. unfold fetchApp, exec. rewrite Hu.
  pose proof (fetch_body_other a uri uri' w Hw Hu Hne Hf) as K.
  destruct (fetch_body env a uri' w) as [[[]|s u|e] w1]; cbn [snd] in *; [done|..];
    (etransitivity; [exact K|by apply drop_dir_other]).
Qed.

Lemma fetchApp_OK a w r w' :
  fetchApp env a w = (Ret r, w') -> Result_bool r = true ->
  exists uri, parseUri (app_uri a) true = Ret uri /\ fetch_body env a uri w = (EOk tt, w').
Proof.
  unfold fetchApp. destruct (parseUri (app_uri a) true) as [uri|e] eqn:Hu; [|by intros [= <- <-]].
  destruct (fetch_body env a uri w) as [[[]|s u|e] w1] eqn:E; intros [= <- <-]; [|done..]. eauto.
Qed.

(** The restorable engine does what the package manager relies on, for apps whose names and whose
    images' names are free of spaces, on an honest store. *)
#[export] Instance restorable_engine_spec : AppEngineSpec (H := engine) well_named (fun w => honest (wfs w)).
Proof.
  split.
  - intros a w Hw Hf. cbn. destruct (parseUri (app_uri a) true) as [uri|e] eqn:Hu.
    + destruct (other_app uri) as [u Hne]. by apply (fetchApp_other a u uri w).
    + unfold fetchApp, exec. by rewrite Hu.
  - intros a w r w' Hw Hf H Hr. apply fetchApp_OK in H as (uri & Hu & H); [|done]. apply isFetched_checked.
    exists uri. split; [done|]. apply stored_checked. by eapply fetch_body_own.
  - intros a b w r w' Hw Hf H Hr _ Hb. apply isFetched_checked in Hb as (uri & Hu & Hc). apply isFetched_checked.
    exists uri. split; [done|]. pose proof H as H'. apply fetchApp_OK in H' as (uri' & Hu' & H'); [|done].
    destruct (decide (app_path env uri = app_path env uri')) as [E|Hne].
    + apply stored_checked, (app_stored_same_path _ uri'); [done|]. by eapply fetch_body_own.
    + pose proof (fetchApp_other a uri uri' w Hw Hu' Hne Hf) as [_ K]. unfold exec in K. cbn in H. rewrite H in K. by apply K.
Qed.

Lemma drop_dir_gone p w : fs_exists p (wfs (drop_dir p w)) = false.
Proof.
  unfold drop_dir. destruct (fs_exists p (wfs w)) eqn:E; [|done]. cbn [wfs]. apply bool_decide_eq_false.
  rewrite remove_all_lookup, below_refl. by intros [? ?].
Qed.

(** C24: Downloading an app always comes to a result. If it reports success, the app is complete in the
    store, images included; if it reports a failure, nothing of the app is left in the store. In both cases
    every other app that was found in the store is still found there, and the store stays honest. *)
Theorem fetchApp_outcome a uri w :
  well_named a -> parseUri (app_uri a) true = Ret uri -> honest (wfs w) ->
  exists r w', fetchApp env a w = (Ret r, w') /\ honest (wfs w') /\
    (if Result_bool r then app_stored (wfs w') uri else fs_exists (app_path env uri) (wfs w') = false) /\
    forall uri', app_path env uri' <> app_path env uri -> checked (wfs w) uri' -> checked (wfs w') uri'.
Proof.
  intros Hw Hu Hf.
  assert (K : forall uri', app_path env uri' <> app_path env uri -> keeps uri' w (exec (fetchApp env a) w)).
  { intros uri' Hne. by eapply fetchApp_other. }
  assert (R : exists r w', fetchApp env a w = (Ret r, w') /\
    if Result_bool r then app_stored (wfs w') uri else fs_exists (app_path env uri) (wfs w') = false).
  { unfold fetchApp. rewrite Hu. destruct (fetch_body env a uri w) as [[[]|s u|e] w1] eqn:E.
    - do 2 eexists. split; [done|]. by eapply fetch_body_own.
    - do 2 eexists. split; [done|]. apply drop_dir_gone.
    - do 2 eexists. split; [done|]. apply drop_dir_gone. }
  destruct R as (r & w' & E & R). exists r, w'. unfold exec in K. rewrite E in K. split_and!; [done| |done|].
  - destruct (other_app uri) as [u Hne]. by apply (K u Hne).
  - intros uri' Hne. by apply (K uri' Hne).
Qed.
End store.
