(* ===== verification/RestorablePrune.v ===== *)
(** * Pruning the store of the restorable app engine

    What [prune] leaves: the apps it was asked to keep stay complete
    ([prune_keeps]), whatever happens on the way, and if it ends normally only
    those are left ([prune_removes]). *)

From S2P Require Import Prelude Json Targets Registry Volume Restorable Exec Fs DockerClient Platform Device RestorableEngine RestorableStore.

Section prune.
Context {D : Type} (env : RestorableEnv D) (uri : Uri).
Abbreviation W := (World D).
Implicit Types (f : FS) (w : World D).

(** ** The blobs an app needs *)

(** The blobs of an image. *)
Definition image_needs (d cd : HashedDigest) (layers : json) (h : string) : Prop :=
  h = hash d \/ h = hash cd \/ exists l ld, l ∈ jelems layers /\ digest_at l = Ret ld /\ h = hash ld.

(** The blobs of the images of the services. *)
Definition services_need f (compose : json) (services : list string) (h : string) : Prop :=
  exists s root d cd layers, s ∈ services /\ service_image (app_path env uri) compose s root /\
    image_blobs_stored env f (parseJSONFile env (root ++ [IndexFile]) f) d cd layers /\ image_needs d cd layers h.

(** The blobs of the app. *)
Definition app_needs f (h : string) : Prop :=
  exists compose services, ComposeInfo env (app_path env uri ++ [ComposeFile]) f = Ret compose /\
    getServices compose = Ret services /\ services_need f compose services h.

Lemma same_at_json f f' p : f' !! p = f !! p -> parseJSONFile env p f' = parseJSONFile env p f.
Proof. unfold parseJSONFile, read. by intros ->. Qed.
Lemma same_at_verified f f' p h : f' !! p = f !! p -> verified env p h f -> verified env p h f'.
Proof. unfold verified, fs_exists, getContentHash, readFile, read. by intros ->. Qed.

Lemma image_blobs_stored_same f f' desc d cd layers :
  (forall h, image_needs d cd layers h -> f' !! blob_path env h = f !! blob_path env h) ->
  image_blobs_stored env f desc d cd layers -> image_blobs_stored env f' desc d cd layers.
Proof.
  intros E [H1 H2 H3 H4 H5 H6 H7].
  assert (Ed : f' !! blob_path env (hash d) = f !! blob_path env (hash d)) by (apply E; by left).
  assert (Ec : f' !! blob_path env (hash cd) = f !! blob_path env (hash cd)) by (apply E; right; by left).
  split; [done..|by eapply same_at_verified|by rewrite (same_at_json _ _ _ Ed)|by eapply same_at_verified|
          by rewrite (same_at_json _ _ _ Ed)|].
  apply Forall_forall. intros l Hl. rewrite Forall_forall in H7.
  destruct (H7 l Hl) as (L1 & L2 & L3 & ld & sz & c & L4 & L5 & L6 & L7). split_and!; [done..|].
  exists ld, sz, c. split_and!; [done..| |done]. unfold read in *. rewrite E; [done|]. right. right. eauto.
Qed.

Lemma image_blobs_stored_inj f desc d cd layers d' cd' layers' :
  image_blobs_stored env f desc d cd layers -> image_blobs_stored env f desc d' cd' layers' ->
  d = d' /\ cd = cd' /\ layers = layers'.
Proof.
  intros [_ H1 _ H2 _ H3 _] [_ H1' _ H2' _ H3' _]. rewrite H1 in H1'. injection H1' as <-.
  rewrite H2 in H2'. injection H2' as <-. rewrite H3 in H3'. by injection H3' as <-.
Qed.

(** The app depends on its files and on these blobs only. *)
Lemma app_stored_same f f' :
  (forall q, app_file env uri q -> f' !! q = f !! q) ->
  (forall h, app_needs f h -> f' !! blob_path env h = f !! blob_path env h) ->
  app_stored env f uri -> app_stored env f' uri.
Proof.
  intros K B (d & c & cj & services & Ha & [Hc Hs Hi]). exists d, c, cj, services.
  assert (Ha' : archive_stored env f' uri d c).
  { eapply archive_kept_intro; [|exact Ha]. intros q Hq. left. by apply K, archive_file_app. }
  split; [done|]. split; [|done|].
  - eapply kept_ComposeInfo; [|exact Hc]. eapply read_kept; by eapply as_compose.
  - apply Forall_forall. intros s Hin. rewrite Forall_forall in Hi. destruct (Hi s Hin) as (root & Hroot & He & x).
    exists root. split; [done|]. destruct x as (dd & cd & layers & Hst).
    assert (Er : f' !! (root ++ [IndexFile]) = f !! (root ++ [IndexFile])).
    { apply K. right. right. destruct Hroot as (im & u & _ & _ & ->). apply image_index_file. }
    split; [unfold fs_exists in *; by rewrite Er|]. rewrite (same_at_json _ _ _ Er). exists dd, cd, layers.
    eapply image_blobs_stored_same; [|exact Hst]. intros h Hh. apply B. exists cj, services. split_and!; [done..|].
    by exists s, root, dd, cd, layers.
Qed.

(** ** Collecting their names *)

Abbreviation Names := (gset string).

(** The names only grow. *)
Definition grows (m : M Names unit) : Prop := forall names, names ⊆ exec m names.
#[local] Instance subseteq_names : PreOrder (fun n n' : Names => n ⊆ n').
Proof. split; [intros n; done|intros a b c H1 H2; set_solver]. Qed.

Lemma emplace_grows h : preserves (fun n n' : Names => n ⊆ n') (emplace h).
Proof. apply preserves_modify. set_solver. Qed.
Hint Resolve emplace_grows : aklite.
Lemma emplace_layers_grows l : preserves (fun n n' : Names => n ⊆ n') (emplace_layers l).
Proof. induction l as [|b l IH]; cbn [emplace_layers]; pstep. Qed.
Hint Resolve emplace_layers_grows : aklite.
Lemma emplace_digests_grows l : preserves (fun n n' : Names => n ⊆ n') (emplace_digests l).
Proof. induction l as [|b l IH]; cbn [emplace_digests]; pstep. Qed.
Hint Resolve emplace_digests_grows : aklite.
Lemma image_blobs_grows root f : preserves (fun n n' : Names => n ⊆ n') (image_blobs env root f).
Proof. unfold image_blobs. pstep. Qed.
Lemma app_manifest_blobs_grows j : preserves (fun n n' : Names => n ⊆ n') (app_manifest_blobs j).
Proof. unfold app_manifest_blobs. pstep. Qed.

Lemma collect_grows m names : preserves (fun n n' : Names => n ⊆ n') m -> names ⊆ (collect m names).2.
Proof. intros H. specialize (H names). unfold collect, exec in *. by destruct (m names). Qed.

(** The blobs of a complete image are collected. *)
Lemma emplace_layers_all f l names :
  Forall (layer_stored env f) l -> exists names', emplace_layers l names = (Ret tt, names') /\ names ⊆ names' /\
    forall x ld, x ∈ l -> digest_at x = Ret ld -> hash ld ∈ names'.
Proof.
  revert names. induction l as [|b l IH]; intros names Hl; cbn [emplace_layers].
  - exists names. split_and!; [done..|set_solver].
  - inversion Hl as [|? ? (Ho & Hd & _ & ld & sz & c & Hld & _) Hl']; subst.
    rewrite (bind_lift _ _ true) by by rewrite Ho.
    rewrite (bind_run _ _ tt names ({[hash ld]} ∪ names)).
    2: { rewrite (bind_lift _ _ ld) by done. done. }
    destruct (IH ({[hash ld]} ∪ names) Hl') as (names' & E & Sub & In). exists names'. split_and!; [done|set_solver|].
    intros x ld' [->|Hx]%elem_of_cons Hx'; [|eauto]. replace ld' with ld by congruence. set_solver.
Qed.

Lemma image_blobs_all f root d cd layers names :
  image_blobs_stored env f (parseJSONFile env (root ++ [IndexFile]) f) d cd layers ->
  exists names', collect (image_blobs env root f) names = (true, names') /\ names ⊆ names' /\
    forall h, image_needs d cd layers h -> h ∈ names'.
Proof.
  intros [_ Hd _ Hc _ Hl Hst]. unfold collect, image_blobs.
  rewrite (bind_lift _ _ d) by done. rewrite (bind_run _ _ tt names ({[hash d]} ∪ names)) by done.
  rewrite (bind_lift _ _ cd) by done.
  rewrite (bind_run _ _ tt _ ({[hash cd]} ∪ ({[hash d]} ∪ names))) by done. rewrite (bind_lift _ _ layers) by done.
  destruct (emplace_layers_all f (jelems layers) ({[hash cd]} ∪ ({[hash d]} ∪ names)) Hst) as (names' & -> & Sub & In).
  exists names'. split_and!; [done|set_solver|]. intros h [->|[->|(l & ld & Hin & Hld & ->)]]; [set_solver..|eauto].
Qed.

(** ** The app's own version *)

Lemma prune_images_own compose services names w :
  services_stored env (wfs w) (app_path env uri) compose services ->
  exists names', prune_images env (app_path env uri) compose services names w = (Ret names', w) /\ names ⊆ names' /\
    forall h, services_need (wfs w) compose services h -> h ∈ names'.
Proof.
  revert names. induction services as [|s services IH]; intros names Hs; cbn [prune_images].
  - exists names. split_and!; [done..|]. intros h (s & ? & ? & ? & ? & Hin & _). by apply not_elem_of_nil in Hin.
  - inversion Hs as [|? ? (root & (image & u & Hi & Hu & ->) & He & d & cd & layers & Hst) Hs']; subst.
    rewrite (bind_lift _ _ image), (bind_lift _ _ u) by done. rewrite bind_get_fs, He. cbn [negb]. rewrite bind_get_fs.
    destruct (image_blobs_all _ _ _ _ _ ({[hash (digest u)]} ∪ names) Hst) as (n1 & -> & Sub1 & In1).
    rewrite (bind_run _ _ tt w w) by done. destruct (IH n1 Hs') as (names' & -> & Sub & In).
    exists names'. split_and!; [done|set_solver|].
    intros h (s' & root & d' & cd' & layers' & Hin & Hroot & Hst' & Hh). apply elem_of_cons in Hin as [->|Hin].
    + apply Sub, In1. destruct Hroot as (image' & u' & Hi' & Hu' & ->).
      replace image' with image in * by congruence. replace u' with u in * by congruence.
      by destruct (image_blobs_stored_inj _ _ _ _ _ _ _ _ Hst Hst') as (-> & -> & ->).
    + apply In. by exists s', root, d', cd', layers'.
Qed.

(** ** The loops *)

(** What the app depends on stays the same as long as the app is complete. *)
Definition same_app f f' : Prop :=
  forall q, app_file env uri q \/ below (blobs_root env) q = true -> f' !! q = f !! q.
Definition apps_pruned w w' : Prop := app_stored env (wfs w) uri -> same_app (wfs w) (wfs w').

Lemma same_app_stored f f' : same_app f f' -> app_stored env f uri -> app_stored env f' uri.
Proof.
  intros H. apply app_stored_same; [intros q Hq; apply H; by left|]. intros h _. apply H. right. apply blob_path_blobs.
Qed.

#[local] Instance apps_pruned_preorder : PreOrder apps_pruned.
Proof.
  split.
  - intros w _ q _. done.
  - intros w w1 w2 H1 H2 Hst q Hq. rewrite (H2 (same_app_stored _ _ (H1 Hst) Hst) q Hq). by apply H1.
Qed.

Lemma get_fs_pruned {A} (q : FS -> A) : preserves apps_pruned (get_fs q).
Proof. apply preserves_gets. apply _. Qed.
Hint Resolve get_fs_pruned : aklite.

(** A directory among the apps that the app is not in. *)
Lemma remove_all_pruned p :
  below (apps_root env) p = true -> (forall q, app_file env uri q -> below p q = false) ->
  preserves apps_pruned (modify_fs (remove_all p)).
Proof.
  intros Hp Hq w _ q Hin. unfold exec, modify_fs, on_fs, modify. cbn [snd wfs]. rewrite remove_all_lookup.
  destruct (below p q) eqn:E; [|done]. exfalso. destruct Hin as [Hf|Hb]; [apply Hq in Hf; congruence|].
  assert (below (blobs_root env) q = false); [|congruence]. apply apps_not_blobs. right.
  apply below_spec in Hp as [r ->]. apply below_spec in E as [r' ->]. apply below_spec. exists (r ++ r').
  by rewrite app_assoc.
Qed.

(** A version directory that is not the app's. *)
Lemma other_version n v r :
  (n, v) <> (Registry.app uri, hash (digest uri)) ->
  preserves apps_pruned (modify_fs (remove_all ((apps_root env ++ [n; v]) ++ r))).
Proof.
  intros Hne. apply remove_all_pruned; [apply below_spec; exists ([n; v] ++ r); by rewrite app_assoc|].
  set (u := {| digest := {| digest_ := ""; hash := v; shortHash := "" |}; Registry.app := n; factory := ""; repo := "";
               registryHostname := "" |}).
  assert (Hu : apps_root env ++ [n; v] = app_path env u) by done. rewrite Hu. intros q Hq.
  assert (Hp : app_path env uri <> app_path env u).
  { unfold app_path. cbn. intros E. apply app_inv_head in E. congruence. }
  by eapply other_below.
Qed.

Lemma prune_images_pruned n v compose services names :
  (n, v) <> (Registry.app uri, hash (digest uri)) ->
  preserves apps_pruned (prune_images env (apps_root env ++ [n; v]) compose services names).
Proof.
  intros Hne. revert names. induction services as [|s services IH]; intros names; cbn [prune_images]; [by pstep|].
  pstep; try apply IH.
  - unfold image_path, path_join. rewrite <- !(app_assoc (apps_root env ++ [n; v])). by apply other_version.
  - unfold image_path, path_join. rewrite <- !(app_assoc (apps_root env ++ [n; v])). by apply other_version.
Qed.

(** *** The versions of one app *)

(** The entries of the directory of an app, which either is not the app's or has its version. *)
Definition version_dirs (ub : Uri) (dirs : list Path) : Prop :=
  (forall d, d ∈ dirs -> exists v, d = apps_root env ++ [Registry.app ub; v]) /\
  (Registry.app ub = Registry.app uri -> hash (digest ub) = hash (digest uri)).

Lemma version_dirs_cons ub d dirs : version_dirs ub (d :: dirs) ->
  (exists v, d = apps_root env ++ [Registry.app ub; v]) /\ version_dirs ub dirs.
Proof. intros [H1 H2]. split; [apply H1; left|]. split; [|done]. intros d' Hd'. apply H1. by right. Qed.

Lemma filename_version n v : filename_of (apps_root env ++ [n; v]) = v.
Proof. change [n; v] with ([n] ++ [v]). by rewrite app_assoc, filename_of_snoc. Qed.

(** The step for the app's own version. *)
Lemma own_version_run names w :
  app_stored env (wfs w) uri ->
  exists compose services names',
    ComposeInfo env (app_path env uri ++ [ComposeFile]) (wfs w) = Ret compose /\ getServices compose = Ret services /\
    prune_images env (app_path env uri) compose services names w = (Ret names', w) /\ names ⊆ names' /\
    forall h, app_needs (wfs w) h -> h ∈ names'.
Proof.
  intros (d & c & cj & services & _ & [Hc Hs Hi]).
  destruct (prune_images_own cj services names w Hi) as (names' & E & Sub & In).
  exists cj, services, names'. split_and!; [done..|]. intros h (cj' & services' & Hc' & Hs' & Hn). apply In. congruence.
Qed.

(** Reaching the app's own version. *)
Lemma prune_versions_at_own ub dirs acc w :
  app_path env ub = app_path env uri -> app_stored env (wfs w) uri ->
  exists names, prune_versions env ub (app_path env ub :: dirs) acc w = prune_versions env ub dirs (names, acc.2) w /\
    acc.1 ⊆ names /\ forall h, app_needs (wfs w) h -> h ∈ names.
Proof.
  intros E Hst. cbn [prune_versions]. rewrite bind_get_fs.
  assert (is_directory (app_path env ub) (wfs w) = true) as ->.
  { apply bool_decide_eq_true. rewrite E. destruct Hst as (d & c & ? & ? & Ha & _).
    apply (as_dirs _ _ _ _ _ Ha); [by unfold app_path; destruct (apps_root env)|done]. }
  assert (filename_of (app_path env ub) = hash (digest ub)) as -> by apply filename_version.
  rewrite String.eqb_refl. cbn [negb]. rewrite !bind_get_fs.
  set (names := if fs_exists _ _ then _ else _).
  assert (Sub : acc.1 ⊆ names).
  { unfold names. destruct (fs_exists _ _); [|done]. etransitivity; [|apply collect_grows, app_manifest_blobs_grows].
    set_solver. }
  clearbody names. destruct (own_version_run names w Hst) as (cj & services & names' & Hc & Hs & Hp & Sub' & In).
  rewrite E, (bind_lift _ _ cj), (bind_lift _ _ services) by done. rewrite (bind_run _ _ names' w w) by done.
  exists names'. split_and!; [done|set_solver|done].
Qed.

Lemma prune_versions_pruned ub dirs acc :
  version_dirs ub dirs -> preserves apps_pruned (prune_versions env ub dirs acc).
Proof.
  revert acc. induction dirs as [|d dirs IH]; intros acc Hd; [cbn [prune_versions]; by pstep|].
  apply version_dirs_cons in Hd as [(v & ->) Hd]. pose proof Hd as [_ Hh].
  destruct (decide (app_path env uri = apps_root env ++ [Registry.app ub; v])) as [E|Hne].
  - apply app_inv_head in E as E'. injection E' as E1 <-. rewrite <- (Hh (eq_sym E1)) in *. intros w Hst.
    destruct (prune_versions_at_own ub dirs acc w (eq_sym E) Hst) as (names & Er & _ & _).
    unfold exec. unfold app_path at 1 in Er. rewrite Er. by apply (IH (names, acc.2) Hd w).
  - assert (Hne' : (Registry.app ub, v) <> (Registry.app uri, hash (digest uri))).
    { intros [= E1 E2]. apply Hne. unfold app_path. by rewrite E1, E2. }
    cbn [prune_versions]. pstep; try by apply IH.
    + rewrite <- (List.app_nil_r (apps_root env ++ [_; v])). by apply other_version.
    + by apply prune_images_pruned.
Qed.

(** *** The names grow *)

Lemma prune_images_grow app_dir compose services names w names' w' :
  prune_images env app_dir compose services names w = (Ret names', w') -> names ⊆ names'.
Proof.
  revert names w. induction services as [|s services IH]; intros names w H; cbn [prune_images] in H.
  - by injection H as <- _.
  - pure_step H image Hi. pure_step H u Hu. fs_step H there Ht. destruct there; cbn [negb] in H.
    + fs_step H f0 Hf0. pose proof (collect_grows (image_blobs env (image_path (app_dir ++ ["images"]) u) f0)
        ({[hash (digest u)]} ∪ names) (image_blobs_grows _ _)) as G.
      destruct (collect _ _) as [ok n1]. cbn in G. apply M_bind_Ret in H as (? & ? & _ & H). apply IH in H. set_solver.
    + apply M_bind_Ret in H as (? & ? & _ & H). apply IH in H. set_solver.
Qed.

Lemma prune_versions_grow ub dirs acc w acc' w' :
  prune_versions env ub dirs acc w = (Ret acc', w') -> acc.1 ⊆ acc'.1.
Proof.
  revert acc w. induction dirs as [|d dirs IH]; intros acc w H; cbn [prune_versions] in H.
  - by injection H as <- _.
  - fs_step H dir Hdir. destruct dir; cbn [negb] in H; [|by eapply IH].
    destruct (String.eqb _ _); cbn [negb] in H.
    + fs_step H has Hhas. fs_step H j Hj. fs_step H co Hco. fs_step H cj Hcj. fs_step H services Hs.
      apply M_bind_Ret in H as (n1 & w1 & H1 & H). apply IH in H. apply prune_images_grow in H1. cbn [fst] in H.
      etransitivity; [|exact H]. etransitivity; [|exact H1].
      destruct has; [|done]. etransitivity; [|apply collect_grows, app_manifest_blobs_grows]. set_solver.
    + apply M_bind_Ret in H as (? & ? & _ & H). by apply IH in H.
Qed.

(** *** The blobs of the app are collected *)

Lemma app_needs_same f f' h : same_app f f' -> app_needs f h -> app_needs f' h.
Proof.
  intros S (cj & services & Hc & Hs & s & root & d & cd & layers & Hin & Hroot & Hst & Hn).
  exists cj, services. split_and!; [|done|].
  - unfold ComposeInfo, fs_exists, read in *. rewrite S; [done|]. left. right. left. eauto.
  - exists s, root, d, cd, layers. split_and!; [done..| |done].
    assert (Er : f' !! (root ++ [IndexFile]) = f !! (root ++ [IndexFile])).
    { apply S. left. right. right. destruct Hroot as (im & u & _ & _ & ->). apply image_index_file. }
    rewrite (same_at_json _ _ _ Er). eapply image_blobs_stored_same; [|exact Hst].
    intros h' _. apply S. right. apply blob_path_blobs.
Qed.

Lemma prune_versions_needs ub dirs acc w acc' w' :
  version_dirs ub dirs -> app_path env ub = app_path env uri -> app_path env uri ∈ dirs -> app_stored env (wfs w) uri ->
  prune_versions env ub dirs acc w = (Ret acc', w') -> forall h, app_needs (wfs w) h -> h ∈ acc'.1.
Proof.
  revert acc w. induction dirs as [|d dirs IH]; intros acc w Hd E Hin Hst H h Hh; [by apply not_elem_of_nil in Hin|].
  destruct (decide (d = app_path env ub)) as [->|Hne].
  - destruct (prune_versions_at_own ub dirs acc w E Hst) as (names & Er & _ & In). rewrite Er in H.
    apply prune_versions_grow in H. cbn [fst] in H. set_solver.
  - apply version_dirs_cons in Hd as [(v & ->) Hd]. apply elem_of_cons in Hin as [Hin|Hin]; [congruence|].
    pose proof (prune_versions_pruned ub [apps_root env ++ [Registry.app ub; v]] acc) as P.
    assert (version_dirs ub [apps_root env ++ [Registry.app ub; v]]) as Hd1.
    { split; [|apply Hd]. intros d Hd'%list_elem_of_singleton. eauto. }
    specialize (P Hd1 w). cbn [prune_versions] in H, P. unfold exec in P. rewrite bind_get_fs in H, P.
    destruct (is_directory _ _); cbn [negb] in H, P; [|by eapply IH].
    rewrite filename_version in H, P. destruct (String.eqb_spec v (hash (digest ub))) as [->|Hv]; [done|].
    cbn [negb] in H, P. apply M_bind_Ret in H as ([] & w1 & H1 & H). rewrite (bind_run _ _ tt w w1) in P by done.
    cbn in P. eapply IH; [done..|by eapply same_app_stored; [apply P|]|exact H|]. by eapply app_needs_same; [apply P|].
Qed.

(** *** All apps *)

Section apps.
Context (shortlist : list App) (a : App).
Hypothesis (Ha : a ∈ shortlist) (Hu : parseUri (app_uri a) true = Ret uri).
Hypothesis (Hnames : NoDup (app_name <$> shortlist)).
Hypothesis (Hdirs : forall b ub, b ∈ shortlist -> parseUri (app_uri b) true = Ret ub -> app_name b = Registry.app ub).
Context `{!FsEnvSpec (fs_env env)}.

Lemma find_app_Some n b : find_app n shortlist = Some b -> b ∈ shortlist /\ app_name b = n.
Proof. intros H. apply find_Some in H as [? H]. split; [done|]. symmetry. by apply String.eqb_eq. Qed.

Lemma same_name_same_app b : b ∈ shortlist -> app_name b = app_name a -> b = a.
Proof.
  intros Hb E. apply list_elem_of_lookup in Hb as [i Hi], Ha as [j Hj].
  assert (i = j) as ->; [|congruence]. eapply (NoDup_lookup (app_name <$> shortlist)); [done|..];
    rewrite list_lookup_fmap; [by rewrite Hi|by rewrite Hj; cbn; rewrite E].
Qed.

Lemma find_app_own : find_app (Registry.app uri) shortlist = Some a.
Proof.
  rewrite <- (Hdirs a uri Ha Hu). destruct (find_app (app_name a) shortlist) as [b|] eqn:E.
  - apply find_app_Some in E as [Hb E]. f_equal. by apply same_name_same_app.
  - eapply find_None in E; [|exact Ha]. by rewrite String.eqb_refl in E.
Qed.

Lemma other_app_dir n : n <> Registry.app uri -> preserves apps_pruned (modify_fs (remove_all (apps_root env ++ [n]))).
Proof.
  intros Hne. apply remove_all_pruned; [apply below_spec; by exists [n]|]. intros q Hq.
  destruct (below _ q) eqn:E; [|done]. apply below_spec in E as [r ->]. exfalso.
  destruct Hq as [[r' E]|[(x & E & _)|(r' & E)]]; unfold app_path in E; rewrite <- !app_assoc in E;
    apply app_inv_head in E; injection E; congruence.
Qed.

Lemma versions_of f ub l :
  directory_entries (fs_env env) (apps_root env ++ [Registry.app ub]) f = Ret l ->
  (Registry.app ub = Registry.app uri -> hash (digest ub) = hash (digest uri)) -> version_dirs ub l.
Proof.
  unfold directory_entries. destruct (is_directory _ _); [|done]. intros [= <-] Hh. split; [|done].
  intros d Hd. rewrite readdir_perm in Hd. apply elem_of_entries in Hd as (_ & v & ->). exists v. by rewrite <- app_assoc.
Qed.

Lemma shortlisted_version b ub :
  b ∈ shortlist -> parseUri (app_uri b) true = Ret ub -> Registry.app ub = Registry.app uri ->
  hash (digest ub) = hash (digest uri).
Proof.
  intros Hb Hub E. assert (b = a) as ->; [|congruence]. apply same_name_same_app; [done|].
  rewrite (Hdirs b ub Hb Hub), E. symmetry. by apply Hdirs.
Qed.

Lemma prune_apps_pruned dirs acc :
  (forall d, d ∈ dirs -> exists n, d = apps_root env ++ [n]) -> preserves apps_pruned (prune_apps env shortlist dirs acc).
Proof.
  revert acc. induction dirs as [|d dirs IH]; intros acc Hd; cbn [prune_apps]; [by pstep|].
  assert (Hd' : forall d, d ∈ dirs -> exists n, d = apps_root env ++ [n]) by (intros d' ?; apply Hd; by right).
  destruct (Hd d) as [n ->]; [left|]. rewrite filename_of_snoc.
  destruct (find_app n shortlist) as [b|] eqn:Ef.
  - apply find_app_Some in Ef as [Hb En]. intros w. rewrite exec_bind_get_fs.
    destruct (is_directory _ _); cbn [negb]; [|by apply IH]. rewrite exec_bind_lift.
    destruct (parseUri (app_uri b) true) as [ub|e] eqn:Hub; [|done]. rewrite exec_bind_get_fs, exec_bind_lift.
    destruct (directory_entries _ _ _) as [l|e] eqn:El; [|done].
    apply versions_of in El; [|by eapply shortlisted_version]. revert w. apply preserves_intro. pstep. by apply prune_versions_pruned.
  - assert (n <> Registry.app uri) by (intros ->; by rewrite find_app_own in Ef).
    pstep; try by apply IH. by apply other_app_dir.
Qed.

Lemma prune_apps_grow dirs acc w acc' w' : prune_apps env shortlist dirs acc w = (Ret acc', w') -> acc.1 ⊆ acc'.1.
Proof.
  revert acc w. induction dirs as [|d dirs IH]; intros acc w H; cbn [prune_apps] in H.
  - by injection H as <- _.
  - fs_step H dir Hdir. destruct dir; cbn [negb] in H; [|by eapply IH]. destruct (find_app _ _) as [b|].
    + fs_step H ub Hub. fs_step H l Hl. fs_step H versions Hv. apply M_bind_Ret in H as (acc1 & w1 & H1 & H).
      apply prune_versions_grow in H1. apply IH in H. set_solver.
    + apply M_bind_Ret in H as (? & ? & _ & H). by apply IH in H.
Qed.

Lemma prune_apps_needs dirs acc w acc' w' :
  (forall d, d ∈ dirs -> exists n, d = apps_root env ++ [n]) -> apps_root env ++ [Registry.app uri] ∈ dirs ->
  app_stored env (wfs w) uri -> prune_apps env shortlist dirs acc w = (Ret acc', w') ->
  forall h, app_needs (wfs w) h -> h ∈ acc'.1.
Proof.
  revert acc w. induction dirs as [|d dirs IH]; intros acc w Hd Hin Hst H h Hh; [by apply not_elem_of_nil in Hin|].
  assert (Hd' : forall d, d ∈ dirs -> exists n, d = apps_root env ++ [n]) by (intros d' ?; apply Hd; by right).
  destruct (decide (d = apps_root env ++ [Registry.app uri])) as [->|Hne].
  - cbn [prune_apps] in H. rewrite filename_of_snoc, find_app_own in H.
    assert (Dir1 : forall q, q <> [] -> q `prefix_of` app_path env uri -> wfs w !! q = Some Dir).
    { destruct Hst as (? & ? & ? & ? & Har & _). apply (as_dirs _ _ _ _ _ Har). }
    assert (Dapp : is_directory (apps_root env ++ [Registry.app uri]) (wfs w) = true).
    { apply bool_decide_eq_true, Dir1; [by destruct (apps_root env)|]. exists [hash (digest uri)]. unfold app_path. by rewrite <- app_assoc. }
    rewrite bind_get_fs, Dapp in H. cbn [negb] in H. rewrite (bind_lift _ _ uri) in H by done.
    fs_step H l Hl. fs_step H versions Hv. subst l. apply M_bind_Ret in H as (acc1 & w1 & H1 & H).
    apply prune_apps_grow in H. apply H. pose proof Hv as Hv'. apply versions_of in Hv'; [|done].
    eapply prune_versions_needs; [exact Hv'|done| |done|exact H1|done].
    unfold directory_entries in Hv. rewrite Dapp in Hv. injection Hv as <-. rewrite readdir_perm. apply elem_of_entries.
    rewrite Dir1; [|by unfold app_path; destruct (apps_root env)|done]. split; [eauto|].
    exists (hash (digest uri)). unfold app_path. by rewrite <- app_assoc.
  - apply elem_of_cons in Hin as [Hin|Hin]; [by destruct Hne|].
    pose proof (prune_apps_pruned [d] acc ltac:(intros x Hx%list_elem_of_singleton; subst x; apply Hd; left) w) as P.
    unfold exec in P. cbn [prune_apps] in H, P. rewrite bind_get_fs in H, P.
    destruct (is_directory d (wfs w)); cbn [negb] in H, P; [|by eapply IH].
    destruct (find_app (filename_of d) shortlist) as [b|].
    + fs_step H ub Hub. rewrite (bind_lift _ _ ub) in P by done. fs_step H l Hl. rewrite bind_get_fs, Hl in P.
      fs_step H versions Hv. rewrite (bind_lift _ _ versions) in P by done.
      apply M_bind_Ret in H as (acc1 & w1 & H1 & H). rewrite (bind_run _ _ acc1 w w1) in P by done. cbn in P.
      eapply IH; [done..|by eapply same_app_stored; [apply P|]|exact H|]. by eapply app_needs_same; [apply P|].
    + apply M_bind_Ret in H as ([] & w1 & H1 & H). rewrite (bind_run _ _ tt w w1) in P by done. cbn in P.
      eapply IH; [done..|by eapply same_app_stored; [apply P|]|exact H|]. by eapply app_needs_same; [apply P|].
Qed.

(** *** The blobs *)

Lemma prune_blobs_lookup names blobs acc w q :
  (forall b, b ∈ blobs -> exists n, b = blobs_root env ++ ["sha256"; n]) ->
  (forall h, h ∉ names -> below (blob_path env h) q = false) ->
  wfs (exec (prune_blobs names blobs acc) w) !! q = wfs w !! q.
Proof.
  revert acc w. induction blobs as [|b blobs IH]; intros acc w Hb Hq; cbn [prune_blobs]; [done|].
  destruct (Hb b) as [n ->]; [left|]. rewrite exec_bind_get_fs.
  assert (filename_of (blobs_root env ++ ["sha256"; n]) = n) as ->.
  { change ["sha256"; n] with (["sha256"] ++ [n]). by rewrite app_assoc, filename_of_snoc. }
  destruct (is_directory _ _ || bool_decide (n ∈ names)) eqn:E; [apply IH; [intros; apply Hb; by right|done]|].
  apply orb_false_iff in E as [_ E%bool_decide_eq_false].
  rewrite (exec_bind_run _ _ tt w (mkW (remove_all (blobs_root env ++ ["sha256"; n]) (wfs w)) (wdocker w))) by done.
  rewrite IH; [|intros; apply Hb; by right|done].
  cbn [wfs]. rewrite remove_all_lookup. change (blobs_root env ++ ["sha256"; n]) with (blob_path env n).
  by rewrite (Hq n E).
Qed.

(** What the app needs is not below a blob it does not need. *)
Lemma blob_not_above h q : app_file env uri q -> below (blob_path env h) q = false.
Proof.
  intros Hq. apply app_file_not_blob in Hq. destruct (below (blob_path env h) q) eqn:E; [|done].
  apply below_spec in E as [r ->]. exfalso. assert (below (blobs_root env) (blob_path env h ++ r) = true); [|congruence].
  apply below_spec. exists (["sha256"; h] ++ r). unfold blob_path. by rewrite app_assoc.
Qed.

Lemma blob_not_other h h' : h <> h' -> below (blob_path env h) (blob_path env h') = false.
Proof.
  intros Hne. destruct (below _ _) eqn:E; [|done]. apply below_spec in E as [r E]. exfalso. unfold blob_path in E.
  rewrite <- app_assoc in E. apply app_inv_head in E. by injection E.
Qed.

Lemma entries_of p f l :
  directory_entries (fs_env env) p f = Ret l -> forall d, d ∈ l <-> is_Some (f !! d) /\ exists n, d = p ++ [n].
Proof.
  unfold directory_entries. destruct (is_directory _ _); [|done]. intros [= <-] d. rewrite readdir_perm. apply elem_of_entries.
Qed.

(** Pruning, whatever its outcome, leaves a complete app of the list complete. *)
Lemma pruneStore_keeps w : app_stored env (wfs w) uri -> app_stored env (wfs (exec (pruneStore env shortlist) w)) uri.
Proof.
  intros Hst. unfold pruneStore. rewrite exec_bind_get_fs, exec_bind_lift.
  destruct (directory_entries _ (apps_root env) (wfs w)) as [dirs|e] eqn:Ed; [|done].
  pose proof (entries_of _ _ _ Ed) as Hdirs'.
  pose proof (prune_apps_pruned dirs (∅, false) ltac:(intros d Hd; by apply Hdirs') w Hst) as P. unfold exec in P.
  destruct (prune_apps env shortlist dirs (∅, false) w) as [[acc|e] w1] eqn:E1.
  2: { unfold exec, mbind, M_bind. rewrite E1. by eapply same_app_stored. }
  cbn [snd] in P. rewrite (exec_bind_run _ _ acc w w1) by done.
  assert (Hst1 : app_stored env (wfs w1) uri) by by eapply same_app_stored.
  rewrite exec_bind_get_fs. destruct (fs_exists _ _); cbn [negb]; [|done]. rewrite exec_bind_get_fs, exec_bind_lift.
  destruct (directory_entries _ _ (wfs w1)) as [blobs|e] eqn:Eb; [|done]. pose proof (entries_of _ _ _ Eb) as Hblobs.
  assert (In : forall h, app_needs (wfs w1) h -> h ∈ acc.1).
  { intros h Hh. apply (prune_apps_needs dirs (∅, false) w acc w1); [by intros d Hd; apply Hdirs'| |done|done|].
    - apply Hdirs'. split; [|by eexists]. destruct Hst as (? & ? & ? & ? & Har & _).
      rewrite (as_dirs _ _ _ _ _ Har); [eauto|by destruct (apps_root env)|].
      exists [hash (digest uri)]. unfold app_path. by rewrite <- app_assoc.
    - eapply app_needs_same; [|exact Hh]. intros q Hq. symmetry. by apply P. }
  assert (K : forall q, (forall h, h ∉ acc.1 -> below (blob_path env h) q = false) ->
    wfs (exec (prune_blobs acc.1 blobs acc.2) w1) !! q = wfs w1 !! q).
  { intros q Hq. apply prune_blobs_lookup; [|done]. intros b Hb. apply Hblobs in Hb as (_ & n & ->). exists n. by rewrite <- app_assoc. }
  assert (Hst2 : app_stored env (wfs (exec (prune_blobs acc.1 blobs acc.2) w1)) uri).
  { eapply app_stored_same; [| |exact Hst1].
    - intros q Hq. apply K. intros h _. by apply blob_not_above.
    - intros h Hh. apply K. intros h' Hh'. apply blob_not_other. intros ->. by apply Hh', In. }
  unfold exec in Hst2 |- *. unfold mbind, M_bind. destruct (prune_blobs acc.1 blobs acc.2 w1) as [[c|e] w2]; [|done].
  cbn [snd] in Hst2. destruct c; [|done]. unfold on_docker. by destruct (pruneDockerStore env (wdocker w2)).
Qed.

(** C26: Pruning the store keeps every app of the list that is complete, with all blobs of its images,
    whatever the outcome of the pruning, provided that the apps of the list have different names and that
    these are the names of their directories. *)
Theorem prune_keeps w : app_stored env (wfs w) uri -> app_stored env (wfs (exec (pruneStore env shortlist) w)) uri.
Proof. apply pruneStore_keeps. Qed.
End apps.
End prune.

(** ** What is left *)

Section removes.
Context {D : Type} (env : RestorableEnv D) (shortlist : list App) `{!FsEnvSpec (fs_env env)}.
Abbreviation W := (World D).
Implicit Types (w : World D).

(** Pruning only removes. *)
Definition shrinks w w' : Prop := forall q, wfs w' !! q = wfs w !! q \/ wfs w' !! q = None.
#[local] Instance shrinks_preorder : PreOrder shrinks.
Proof.
  split; [by left|]. intros w w1 w2 H1 H2 q. destruct (H2 q) as [->| ->]; [apply H1|by right].
Qed.

Lemma get_fs_shrinks {A} (q : FS -> A) : preserves shrinks (get_fs q).
Proof. apply preserves_gets. apply _. Qed.
Lemma remove_all_shrinks p : preserves shrinks (modify_fs (remove_all p)).
Proof. intros w q. unfold exec, modify_fs, on_fs, modify. cbn. rewrite remove_all_lookup. destruct (below p q); auto. Qed.
Hint Resolve get_fs_shrinks remove_all_shrinks : aklite.

Lemma prune_images_shrinks app_dir compose services names : preserves shrinks (prune_images env app_dir compose services names).
Proof. revert names. induction services as [|s services IH]; intros names; cbn [prune_images]; pstep; apply IH. Qed.
Hint Resolve prune_images_shrinks : aklite.
Lemma prune_versions_shrinks ub dirs acc : preserves shrinks (prune_versions env ub dirs acc).
Proof. revert acc. induction dirs as [|d dirs IH]; intros acc; cbn [prune_versions]; pstep; apply IH. Qed.
Hint Resolve prune_versions_shrinks : aklite.
Lemma prune_apps_shrinks dirs acc : preserves shrinks (prune_apps env shortlist dirs acc).
Proof. revert acc. induction dirs as [|d dirs IH]; intros acc; cbn [prune_apps]; pstep; apply IH. Qed.
Lemma prune_blobs_shrinks names blobs acc : preserves shrinks (prune_blobs (D := D) names blobs acc).
Proof. revert acc. induction blobs as [|d blobs IH]; intros acc; cbn [prune_blobs]; pstep; apply IH. Qed.

Lemma shrinks_directory w w' p : shrinks w w' -> is_directory p (wfs w') = true -> is_directory p (wfs w) = true.
Proof. intros H. unfold is_directory. rewrite !bool_decide_eq_true. by destruct (H p) as [->| ->]. Qed.
Lemma shrinks_run {A} (m : M W A) w o w' : preserves shrinks m -> m w = (o, w') -> shrinks w w'.
Proof. intros H E. specialize (H w). unfold exec in H. by rewrite E in H. Qed.

Lemma removed_gone p w w' w1 :
  modify_fs (remove_all p) w = (Ret tt, w1) -> shrinks w1 w' -> is_directory p (wfs w') = true -> False.
Proof.
  intros [= <-] H. unfold is_directory. rewrite bool_decide_eq_true.
  destruct (H p) as [->| ->]; [|done]. cbn [wfs]. by rewrite remove_all_lookup, below_refl.
Qed.

Lemma prune_versions_left ub dirs acc w acc' w' d :
  prune_versions env ub dirs acc w = (Ret acc', w') -> d ∈ dirs -> is_directory d (wfs w') = true ->
  filename_of d = hash (digest ub).
Proof.
  revert acc w. induction dirs as [|d0 dirs IH]; intros acc w H Hin Hd; [by apply not_elem_of_nil in Hin|].
  cbn [prune_versions] in H. pose proof H as H0. fs_step H dir Hdir.
  apply elem_of_cons in Hin as [->|Hin].
  - assert (S : shrinks w w') by exact (shrinks_run _ _ _ _ (prune_versions_shrinks ub (d0 :: dirs) acc) H0).
    rewrite (shrinks_directory _ _ _ S Hd) in Hdir. subst dir. cbn [negb] in H.
    destruct (String.eqb_spec (filename_of d0) (hash (digest ub))) as [|Hne]; [done|]. cbn [negb] in H.
    apply M_bind_Ret in H as ([] & w1 & H1 & H). exfalso. eapply removed_gone; [exact H1| |exact Hd].
    by eapply shrinks_run; [apply prune_versions_shrinks|exact H].
  - destruct dir; cbn [negb] in H; [|by eapply IH]. destruct (String.eqb _ _); cbn [negb] in H.
    + fs_step H has Hhas. fs_step H j Hj. fs_step H co Hco. fs_step H cj Hcj. fs_step H services Hs.
      apply M_bind_Ret in H as (n1 & w1 & H1 & H). by eapply IH.
    + apply M_bind_Ret in H as ([] & w1 & H1 & H). by eapply IH.
Qed.

(** What may be left of a directory of an app. *)
Definition version_left (n v : string) : Prop :=
  exists b ub, b ∈ shortlist /\ app_name b = n /\ parseUri (app_uri b) true = Ret ub /\
    (Registry.app ub = n -> v = hash (digest ub)).

Lemma prune_apps_left dirs acc w acc' w' n v :
  prune_apps env shortlist dirs acc w = (Ret acc', w') -> apps_root env ++ [n] ∈ dirs ->
  is_directory (apps_root env ++ [n]) (wfs w') = true -> is_directory (apps_root env ++ [n; v]) (wfs w') = true ->
  version_left n v.
Proof.
  revert acc w. induction dirs as [|d0 dirs IH]; intros acc w H Hin Hn Hv; [by apply not_elem_of_nil in Hin|].
  cbn [prune_apps] in H. pose proof H as H0. fs_step H dir Hdir.
  apply elem_of_cons in Hin as [<-|Hin].
  - assert (S : shrinks w w') by exact (shrinks_run _ _ _ _ (prune_apps_shrinks (_ :: dirs) acc) H0).
    rewrite (shrinks_directory _ _ _ S Hn) in Hdir. subst dir. cbn [negb] in H. rewrite filename_of_snoc in H.
    destruct (find_app n shortlist) as [b|] eqn:Ef.
    + apply find_app_Some in Ef as [Hb En]. fs_step H ub Hub. fs_step H l Hl. fs_step H versions Hvs. subst l.
      apply M_bind_Ret in H as (acc1 & w1 & H1 & H). exists b, ub. split_and!; [done..|]. intros Eu. subst n.
      assert (Sw : shrinks w1 w') by (eapply shrinks_run; [apply prune_apps_shrinks|exact H]).
      rewrite <- (filename_version env (app_name b) v). eapply prune_versions_left; [exact H1| |by eapply shrinks_directory].
      apply (entries_of env _ _ _ Hvs). split.
      * pose proof (shrinks_directory _ _ _ S Hv) as Hd. apply bool_decide_eq_true in Hd. rewrite Hd. eauto.
      * exists v. rewrite Eu. by rewrite <- app_assoc.
    + apply M_bind_Ret in H as ([] & w1 & H1 & H). exfalso. eapply removed_gone; [exact H1| |exact Hn].
      by eapply shrinks_run; [apply prune_apps_shrinks|exact H].
  - destruct dir; cbn [negb] in H; [|by eapply IH]. destruct (find_app _ _) as [b|].
    + fs_step H ub Hub. fs_step H l Hl. fs_step H versions Hvs. apply M_bind_Ret in H as (acc1 & w1 & H1 & H). by eapply IH.
    + apply M_bind_Ret in H as ([] & w1 & H1 & H). by eapply IH.
Qed.

(** When pruning ends normally, every directory of a version that is left belongs to an app of the
    list, and if that app's directory is named after its repository it is the version of the list. *)
Theorem prune_removes w w' n v :
  pruneStore env shortlist w = (Ret tt, w') ->
  is_directory (apps_root env ++ [n]) (wfs w') = true -> is_directory (apps_root env ++ [n; v]) (wfs w') = true ->
  version_left n v.
Proof.
  intros H Hn Hv. unfold pruneStore in H. fs_step H l Hl. fs_step H ds Hd. subst l.
  apply M_bind_Ret in H as (acc & w1 & H1 & H).
  assert (S : shrinks w1 w').
  { eapply shrinks_run; [|exact H]. pstep; [apply prune_blobs_shrinks|]. intros w2. unfold exec, on_docker.
    destruct (pruneDockerStore env (wdocker w2)). by left. }
  pose proof (shrinks_directory _ _ _ S Hn) as Hn1. pose proof (shrinks_directory _ _ _ S Hv) as Hv1.
  eapply prune_apps_left; [exact H1| |done|done]. apply (entries_of env _ _ _ Hd). split; [|by eexists].
  pose proof (shrinks_run _ _ _ _ (prune_apps_shrinks ds (∅, false)) H1) as S1.
  pose proof (shrinks_directory _ _ _ S1 Hn1) as Hn0. apply bool_decide_eq_true in Hn0. rewrite Hn0. eauto.
Qed.
End removes.
