(* ===== verification/RestorableSample.v ===== *)
(** * A device with a restorable app engine

    A concrete registry, skopeo and store, on which the theorems about the
    engine are applied. The hash function is constant, so that all blobs of the
    sample are one file. *)

From S2P Require Import Prelude Json Targets Registry Volume Restorable Exec Fs DockerClient Platform Device RestorableEngine RestorableStore RestorablePrune.

(** ** Command lines and paths *)

Lemma starts_with_space b : str_forall (not_char " ") b = true -> starts_with " oci:" b = false.
Proof.
  destruct b as [|c b]; [done|]. cbn. unfold not_char. intros H. apply andb_true_iff in H as [H _].
  destruct (eqb_char " " c) eqn:E; [|done]. apply eqb_char_spec in E. subst c. by rewrite eqb_char_refl in H.
Qed.
Lemma str_rfind_None b : str_forall (not_char " ") b = true -> str_rfind " oci:" b = None.
Proof.
  induction b as [|c b IH]; intros H; [done|]. pose proof (starts_with_space _ H) as Hs.
  cbn [str_rfind]. cbn in H. apply andb_true_iff in H as [_ H]. by rewrite (IH H), Hs.
Qed.
Lemma str_rfind_last a b :
  str_forall (not_char " ") b = true -> str_rfind " oci:" (a +:+ " oci:" +:+ b) = Some (String.length a).
Proof.
  intros Hb. induction a as [|c a IH]; [|cbn [str_rfind]; change (String c a +:+ " oci:" +:+ b) with (String c (a +:+ " oci:" +:+ b)); cbn [str_rfind String.length]; by rewrite IH].
  change ("" +:+ " oci:" +:+ b) with (String " " ("oci:" +:+ b)). cbn [str_rfind].
  rewrite str_rfind_None by done. change (String " " ("oci:" +:+ b)) with (" oci:" +:+ b). by rewrite starts_with_app.
Qed.

Lemma path_parts_go_sep cur n s :
  str_forall (fun c => negb (eqb_char c "/")) n = true -> str_empty (cur +:+ n) = false ->
  path_parts_go cur (n +:+ "/" +:+ s) = (cur +:+ n) :: path_parts_go "" s.
Proof.
  revert cur. induction n as [|c n IH]; intros cur Hn Hne.
  - rewrite app_nil_r in Hne. cbn. by rewrite Hne, app_nil_r.
  - cbn in Hn. apply andb_true_iff in Hn as [Hc Hn]. change (String c n +:+ "/" +:+ s) with (String c (n +:+ "/" +:+ s)).
    cbn [path_parts_go]. destruct (eqb_char c "/"); [done|]. rewrite IH; [by rewrite app_assoc_s|done|].
    rewrite app_assoc_s. done.
Qed.

Lemma plain_parts n :
  plain_name n = true -> str_empty n = false /\ str_forall (fun c => negb (eqb_char c "/")) n = true /\
  str_forall (not_char " ") n = true.
Proof.
  unfold plain_name. intros [H1%negb_true_iff H2]%andb_true_iff. split_and!; [done|..];
    (eapply str_forall_impl; [|exact H2]); intros c [Ha Hb]%andb_true_iff; done.
Qed.

Lemma path_parts_join p : plain p -> path_parts (join "/" p) = p.
Proof.
  unfold path_parts. induction 1 as [|n p Hn Hp IH]; [done|]. apply plain_parts in Hn as (H1 & H2 & _).
  destruct p as [|m p]; [by rewrite path_parts_go_plain|].
  change (join "/" (n :: m :: p)) with (n +:+ "/" +:+ join "/" (m :: p)). rewrite path_parts_go_sep by done. by rewrite IH.
Qed.

Lemma path_str_plain p : plain p -> path_parts (path_str p) = p /\ str_forall (not_char " ") (path_str p) = true.
Proof.
  intros Hp. split; [by apply path_parts_join|]. unfold path_str. rewrite str_forall_app. apply andb_true_iff. split; [done|].
  induction Hp as [|n p Hn Hp IH]; [done|]. apply plain_parts in Hn as (_ & _ & Hn). destruct p as [|m p]; [done|].
  change (join "/" (n :: m :: p)) with (n +:+ "/" +:+ join "/" (m :: p)). rewrite !str_forall_app, Hn. by cbn.
Qed.

(** ** The sample *)

Definition H0 : string := sample_hash.
Definition D0 : json := JString (DigestType +:+ H0).
Definition sample_image : string := "hub.foundries.io/acme/web@sha256:" +:+ H0.

Definition sample_json (s : string) : json :=
  if String.eqb s "mf" || String.eqb s "app" then
    JObject [("annotations", JObject [("compose-app", JString "v1")]);
             ("layers", JArray [JObject [("digest", D0); ("size", JInt 3)]])]
  else if String.eqb s "i" then JObject [("manifests", JArray [JObject [("digest", D0)]])]
  else if String.eqb s "b" then
    JObject [("config", JObject [("digest", D0)]); ("layers", JArray [JObject [("digest", D0); ("size", JInt 1)]])]
  else parseJSON Registry.sample_env s.

Definition sample_registry : RegistryEnv := {|
  http_get := http_get Registry.sample_env; http_download := http_download Registry.sample_env;
  ota_get := ota_get Registry.sample_env; sha256_hex _ := H0; toBase64 s := s; parseJSON := sample_json |}.

Definition sample_compose_json : json := JObject [("services", JObject [("web", JObject [("image", JString sample_image)])])].

(** skopeo: the image is one blob, which is written unless something else is in its place. *)
Definition ended (code : Z) : process :=
  Started [{| select_ok := true; out_ready := Some REof; err_ready := Some REof; elapsed := 1 |}] (Some code).
Definition sample_store : Path := ["var"; "sota"; "reset-apps"].
Definition sample_blob : Path := sample_store ++ ["blobs"; "sha256"; H0].
Definition sample_skopeo (dst : Path) (w : World unit) : process * World unit :=
  if bool_decide (wfs w !! sample_blob = None \/ wfs w !! sample_blob = Some (File "b")) then
    (ended 0, mkW (<[sample_blob := File "b"]> (<[dst ++ [IndexFile] := File "i"]> (wfs w))) tt)
  else (ended 1, w).
Definition sample_run (cmd : string) (w : World unit) : process * World unit :=
  match str_rfind " oci:" cmd with
  | Some n => sample_skopeo (path_parts (str_drop (n + 5) cmd)) w
  | None => (ended 1, w)
  end.

Definition sample_docker : DockerEnv unit := {|
  docker_get _ _ := sample_200 "[]"; docker_post _ _ d := (sample_200 "", d); docker_parseJSON _ := JNull;
  jsonToStr _ := ""; status_str _ := ""; ustar _ _ _ := Ret "" |}.

Definition sample_usage : UsageInfo :=
  {| path := "/"; size := 1000; size_pc := float_of 100; free := 900; free_pc := float_of 90; reserved := 0;
     reserved_pc := float_of 0; reserved_by := ""; available := 900; available_pc := float_of 90; required := 0;
     required_pc := float_zero; err := "" |}.

Definition restorable_dev : DeviceEnv unit := {|
  fs_env := {| write_ok _ _ := true; read_missing := ""; readdir l := l |};
  exec_env := {| run_process := sample_run; is_tty := false |};
  docker_env := sample_docker; registry := sample_registry; auth_creds_endpoint := "creds"; file_capacity := 100; stops_when_refused := true;
  fy_tool _ := (0, "json"); json_stream _ := Ret sample_compose_json; json_missing := JNull |}.
Definition restorable_env : RestorableEnv unit := {|
  dev := restorable_dev;
  store_root := sample_store; install_root := ["var"; "sota"; "compose-apps"]; docker_root := ["var"; "lib"; "docker"];
  docker_and_skopeo_same_volume := true; client_cmd := "skopeo"; compose_cmd := "docker compose";
  storage_space_func _ _ := sample_usage;
  client_image_src_func _ image := mret ("docker://" +:+ image); create_containers_if_install := false;
  max_parallel_pulls_ := -1; arch := "amd64"; tar_compose_file _ := (0, "compose") |}.
Definition sample_blob_len (_ : string) : Z := 1.

#[export] Instance sample_fs_spec : FsEnvSpec (fs_env restorable_env).
Proof. by split. Qed.
#[export] Instance sample_sha256_spec : Sha256Spec restorable_env.
Proof. by split. Qed.
#[export] Instance sample_curl_spec : CurlSpec restorable_env.
Proof.
  split; [|done]. intros headers url d _ H. assert (len d <= 3); [|unfold u64_max, u64_modulus; cbn; lia].
  destruct headers; cbn in H; repeat (apply elem_of_cons in H as [->|H]; [done|]); by apply not_elem_of_nil in H.
Qed.

(** *** skopeo keeps its promises *)

(** Whatever the registry and the program, if the commands are run this way. *)
Lemma sample_pull_of (env : RestorableEnv unit) src dst w :
  run_process (exec_env env) = sample_run -> max_parallel_pulls_ env = -1 ->
  plain dst -> run_process (exec_env env) (pull_cmd env src dst) w = sample_skopeo dst w.
Proof.
  intros Hrun Hmax Hp. destruct (path_str_plain dst Hp) as [E1 E2].
  assert (exists a, pull_cmd env src dst = a +:+ " oci:" +:+ path_str dst) as [a ->].
  { unfold pull_cmd. rewrite Hmax. cbn [Z.eqb].
    exists (client_cmd env +:+ " copy -f " +:+ image_format +:+ " --dest-shared-blob-dir "
            +:+ path_str (blobs_root env) +:+ " " +:+ src). by rewrite !app_assoc_s. }
  rewrite Hrun. unfold sample_run. rewrite str_rfind_last by done.
  change 5%nat with (String.length " oci:"). rewrite <- (app_assoc_s a), <- (length_app_s a " oci:"), str_drop_app.
  by rewrite E1.
Qed.
Lemma sample_pull src dst w :
  plain dst -> run_process (exec_env restorable_env) (pull_cmd restorable_env src dst) w = sample_skopeo dst w.
Proof. by apply sample_pull_of. Qed.

Lemma sample_blob_path h : blob_path restorable_env h = sample_blob <-> h = H0.
Proof. split; [|by intros ->]. intros E. by injection E. Qed.
Lemma sample_index_not_blob dst : dst ++ [IndexFile] <> sample_blob.
Proof. intros E. apply (f_equal last) in E. rewrite last_snoc in E. discriminate E. Qed.

(** The store after a successful copy. *)
Definition copied (dst : Path) (f : FS) : FS := <[sample_blob := File "b"]> (<[dst ++ [IndexFile] := File "i"]> f).

Lemma copied_blob dst f : read sample_blob (copied dst f) = Some "b".
Proof. unfold read, copied. by rewrite lookup_insert_eq. Qed.
Lemma copied_index dst f : copied dst f !! (dst ++ [IndexFile]) = Some (File "i").
Proof.
  unfold copied. rewrite lookup_insert_ne, lookup_insert_eq; [done|]. intros E. by apply (sample_index_not_blob dst).
Qed.

Lemma sample_verified f c h : read sample_blob f = Some c -> h = H0 -> verified restorable_env (blob_path restorable_env h) h f.
Proof. intros H ->. split; [by eapply fs_exists_read|done]. Qed.

Lemma sample_image_stored dst f : image_stored restorable_env (copied dst f) dst.
Proof.
  split; [apply bool_decide_eq_true; rewrite copied_index; eauto|].
  set (d := {| digest_ := DigestType +:+ H0; hash := H0; shortHash := "7ca42b1" |}).
  exists d, d, (JArray [JObject [("digest", D0); ("size", JInt 1)]]).
  assert (Ej : parseJSONFile restorable_env (dst ++ [IndexFile]) (copied dst f) = sample_json "i").
  { unfold parseJSONFile, read. by rewrite copied_index. }
  assert (Eb : parseJSONFile restorable_env (blob_path restorable_env (hash d)) (copied dst f) = sample_json "b").
  { unfold parseJSONFile. change (blob_path restorable_env (hash d)) with sample_blob. by rewrite copied_blob. }
  rewrite Ej. split; rewrite ?Eb; [by vm_compute|by vm_compute|by eapply sample_verified; [apply copied_blob|]|by vm_compute|
    by eapply sample_verified; [apply copied_blob|]|by vm_compute|].
  constructor; [|constructor]. split_and!; [by vm_compute..|]. exists d, 1, "b". split_and!; [by vm_compute..| |by vm_compute].
  apply copied_blob.
Qed.

Lemma sample_skopeo_cases dst w :
  (exists p, sample_skopeo dst w = (p, mkW (copied dst (wfs w)) tt) /\ p = ended 0 /\
     (wfs w !! sample_blob = None \/ wfs w !! sample_blob = Some (File "b"))) \/
  sample_skopeo dst w = (ended 1, w).
Proof. unfold sample_skopeo. case_bool_decide; [left; eauto|by right]. Qed.

Lemma copied_lookup dst f q : q <> dst ++ [IndexFile] -> q <> sample_blob -> copied dst f !! q = f !! q.
Proof. intros H1 H2. unfold copied. by rewrite !lookup_insert_ne by done. Qed.

(** A blob besides the one of the image, at most replaced by the index. *)
Lemma copied_blob_cases dst f h :
  (f !! sample_blob = None \/ f !! sample_blob = Some (File "b")) ->
  (blob_path restorable_env h = sample_blob /\ h = H0 /\ copied dst f !! blob_path restorable_env h = Some (File "b")) \/
  (h <> H0 /\ copied dst f !! blob_path restorable_env h = Some (File "i")) \/
  (h <> H0 /\ copied dst f !! blob_path restorable_env h = f !! blob_path restorable_env h).
Proof.
  intros _. destruct (decide (h = H0)) as [->|Hne].
  - left. split_and!; [done..|]. change (blob_path restorable_env H0) with sample_blob. unfold copied. by rewrite lookup_insert_eq.
  - right. assert (blob_path restorable_env h <> sample_blob) by by rewrite sample_blob_path.
    destruct (decide (blob_path restorable_env h = dst ++ [IndexFile])) as [E|].
    + left. split; [done|]. rewrite E. apply copied_index.
    + right. split; [done|]. by apply copied_lookup.
Qed.

Lemma not_verified h f : h <> H0 -> ~ verified restorable_env (blob_path restorable_env h) h f.
Proof. intros Hne [_ E]. by apply Hne. Qed.

Lemma sample_blob_kept dst f h :
  (f !! sample_blob = None \/ f !! sample_blob = Some (File "b")) -> blob_kept restorable_env sample_blob_len f (copied dst f) h.
Proof.
  intros Hb. destruct (copied_blob_cases dst f h Hb) as [(E & -> & C)|[[Hne C]|[Hne C]]].
  - split.
    + intros [V _]. rewrite E in *. left. rewrite C. destruct Hb as [Hb|Hb]; [|done].
      unfold fs_exists in V. rewrite Hb in V. discriminate V.
    + intros c _ _. exists "b". unfold read. by rewrite C.
  - split; [intros V; by apply not_verified in V|]. intros c _ _. exists "i". unfold read. by rewrite C.
  - split; [by left|]. intros c Hc Hl. exists c. unfold read in *. by rewrite C.
Qed.

Lemma sample_honest dst f :
  (f !! sample_blob = None \/ f !! sample_blob = Some (File "b")) -> honest restorable_env sample_blob_len f ->
  honest restorable_env sample_blob_len (copied dst f).
Proof.
  intros Hb Hf. split.
  - intros h c Hc Hh. destruct (copied_blob_cases dst f h Hb) as [(E & -> & C)|[[Hne C]|[Hne C]]]; [|by destruct Hne..].
    unfold read in Hc. rewrite C in Hc. by injection Hc as <-.
  - intros h layers l d sz V Hl Hin Hd Hs. destruct (decide (h = H0)) as [->|Hne]; [|by apply not_verified in V].
    unfold parseJSONFile in Hl. change (blob_path restorable_env H0) with sample_blob in Hl. rewrite copied_blob in Hl.
    vm_compute in Hl. injection Hl as <-. apply list_elem_of_singleton in Hin. subst l. vm_compute in Hs. by injection Hs as <-.
Qed.

#[export] Instance sample_skopeo_spec : SkopeoSpec restorable_env sample_blob_len.
Proof.
  split.
  - intros src dst w p w' q Hp H Hq _ Hb _. rewrite sample_pull in H by done.
    destruct (sample_skopeo_cases dst w) as [(p' & E & _)|E]; rewrite E in H; injection H as _ <-; [|done].
    cbn [wfs]. apply copied_lookup; [done|]. intros ->. discriminate Hb.
  - intros src dst w p w' h Hp H. rewrite sample_pull in H by done.
    destruct (sample_skopeo_cases dst w) as [(p' & E & _ & Hb)|E]; rewrite E in H; injection H as _ <-.
    + by apply sample_blob_kept.
    + split; [by left|]. eauto.
  - intros src dst w p w' Hp H Hf. rewrite sample_pull in H by done.
    destruct (sample_skopeo_cases dst w) as [(p' & E & _ & Hb)|E]; rewrite E in H; injection H as _ <-; [|done].
    by apply sample_honest.
  - intros src dst w p w' r Hp H Hr Hz. rewrite sample_pull in H by done.
    destruct (sample_skopeo_cases dst w) as [(p' & E & _ & Hb)|E]; rewrite E in H; injection H as <- <-.
    + apply sample_image_stored.
    + vm_compute in Hr. injection Hr as <-. discriminate Hz.
Qed.

(** ** A download and a pruning *)

Definition restorable_app : App := {| app_name := "Shellhttpd"; app_uri := sample_uri_str |}.
Definition empty_device : World unit := mkW ∅ tt.
Definition stored_device : World unit := exec (fetchApp restorable_env restorable_app) empty_device.

Lemma empty_honest : honest restorable_env sample_blob_len (wfs empty_device).
Proof. split; [done|]. intros h layers l d sz [V _]. discriminate V. Qed.

Lemma restorable_app_named : well_named restorable_env restorable_app.
Proof.
  intros uri Hu. vm_compute in Hu. injection Hu as <-. split; [by repeat constructor|].
  intros f d c cj _ Hc services s image u Hs Hin Hi Hu. unfold ComposeInfo in Hc. destruct (negb _); [discriminate Hc|].
  cbn in Hc. injection Hc as <-. vm_compute in Hs. injection Hs as <-. apply list_elem_of_singleton in Hin. subst s.
  vm_compute in Hi. injection Hi as <-. vm_compute in Hu. injection Hu as <-. by repeat constructor.
Qed.

(** Here the download succeeds. *)
Lemma fetchApp_outcome_witness :
  exists r w', fetchApp restorable_env restorable_app empty_device = (Ret r, w') /\ status r = OK /\
    app_stored restorable_env (wfs w') sample_uri.
Proof.
  destruct (fetchApp_outcome restorable_env sample_blob_len restorable_app sample_uri empty_device restorable_app_named
              ltac:(vm_compute; reflexivity) empty_honest) as (r & w' & E & _ & R & _).
  assert (S : run (fetchApp restorable_env restorable_app) empty_device = Ret result_ok) by (vm_compute; reflexivity).
  unfold run in S. rewrite E in S. injection S as ->. exists result_ok, w'. split_and!; [exact E|reflexivity|exact R].
Defined.

Lemma stored_device_check :
  isAppFetched restorable_env restorable_app stored_device
  = (Ret true, exec (isAppFetched restorable_env restorable_app) stored_device).
Proof.
  assert (T : is_throw (run (isAppFetched restorable_env restorable_app) stored_device) = false) by (vm_compute; reflexivity).
  rewrite (run_the true _ _ T) at 1. f_equal.
Qed.

Definition checked_device : World unit := exec (isAppFetched restorable_env restorable_app) stored_device.

Lemma isAppFetched_decides_witness : app_stored restorable_env (wfs checked_device) sample_uri.
Proof.
  apply (proj1 (isAppFetched_decides restorable_env restorable_app sample_uri stored_device
                  ltac:(vm_compute; reflexivity)) _ stored_device_check).
Defined.

Lemma checked_device_stored : app_stored restorable_env (wfs checked_device) sample_uri.
Proof.
  apply (isAppFetched_true restorable_env restorable_app sample_uri stored_device); [vm_compute; reflexivity|].
  apply stored_device_check.
Qed.

Lemma prune_keeps_witness :
  app_stored restorable_env (wfs (exec (pruneStore restorable_env [restorable_app]) checked_device)) sample_uri.
Proof.
  apply (prune_keeps restorable_env sample_uri [restorable_app] restorable_app).
  - left.
  - vm_compute. reflexivity.
  - apply NoDup_singleton.
  - intros b ub Hb%list_elem_of_singleton. subst b. vm_compute. intros [= <-]. reflexivity.
  - apply sample_fs_spec.
  - apply checked_device_stored.
Defined.

Lemma prune_removes_witness : version_left [restorable_app] "Shellhttpd" H0.
Proof.
  assert (T : is_throw (run (pruneStore restorable_env [restorable_app]) checked_device) = false) by (vm_compute; reflexivity).
  apply (prune_removes restorable_env [restorable_app] checked_device
           (exec (pruneStore restorable_env [restorable_app]) checked_device)).
  - rewrite (run_the tt _ _ T) at 1. f_equal.
  - vm_compute. reflexivity.
  - vm_compute. reflexivity.
Defined.

(** An app that is not named after its repository: pruning the store with the app on the list removes it. *)
Definition renamed_app : App := {| app_name := "shell"; app_uri := sample_uri_str |}.
Example prune_renamed :
  let w := exec (fetchApp restorable_env renamed_app) empty_device in
  run (fetchApp restorable_env renamed_app) empty_device = Ret result_ok /\
  fs_exists (app_path restorable_env sample_uri) (wfs w) = true /\
  fs_exists (app_path restorable_env sample_uri) (wfs (exec (pruneStore restorable_env [renamed_app]) w)) = false.
Proof. vm_compute. done. Qed.
