(* ===== verification/Stack.v ===== *)
(** * The package manager on the restorable engine

    The theorems about the package manager ([ComposeApps.v]) are proved against the
    interface of the engines. Here it runs on the restorable engine itself, with
    its store on the file system, so that what a download promises is said of
    the files. The engine is the one the constructor of the package manager
    makes from the configuration ([src/src/composeappmanager.cc]), and making it
    again loses no app. *)

From S2P Require Import Prelude Json Targets Registry Volume Restorable Exec Fs DockerClient Platform Sysroot Bootloader Sample.
From S2P Require Import RootfsTree ComposeApps Client Setup Device RestorableEngine RestorableStore RestorablePrune RestorableSample.

Section stack.
Context {DB SR D : Type} (env : RestorableEnv D) (blob_len : string -> Z).
Context {fs_spec : FsEnvSpec (fs_env env)} {sha_spec : Sha256Spec env} {skopeo_spec : SkopeoSpec env blob_len}
        {curl_spec : CurlSpec env}.
Context `{INvStorage DB, Ostree DB SR, BootFwUpdateStatus SR, InstallationResults, UptaneTargets}.
Abbreviation S := (St DB SR (World D)).
Abbreviation engine := (restorable_engine env).
Context (cenv : ComposeEnv SR (World D)).

(** C8: Checking the apps of a target and downloading it, with the restorable engine: whenever the download
    reports success, the store on the file system holds every app that the configuration requires,
    complete with its manifest, its archive and its images, hashes and sizes checked. *)
Theorem download_stores_apps (t : UTarget) (tuf : TufTarget) (s s1 s2 : S) (rs : gmap string string)
    (res : DownloadResult) (m : list (string * json)) (installed : json) (req : AppsContainer) :
  (forall a, a ∈ apps_of (all_apps_to_fetch s1) -> well_named env a) -> honest env blob_len (wfs (en s1)) ->
  has_reset_apps (cfg cenv) = true -> force_update (cfg cenv) && negb (uninit cenv) = false ->
  appsJson t = Ret (JObject m) -> NoDup m.*1 ->
  appsJson (getCurrent (db s) (sr s)) = Ret installed -> getRequiredApps (cfg cenv) t = Ret req ->
  checkForAppsToUpdate (H := engine) cenv t s = (Ret rs, s1) ->
  compose_Download (H := engine) cenv tuf s1 = (Ret res, s2) -> DR_bool res = true ->
  forall n u, req !! n = Some u -> exists uri, parseUri u true = Ret uri /\ checked env (wfs (en s2)) uri.
Proof.
  intros Hok Hinv Hr Hf Ht Hnd Hi Hq E1 E2 Hres n u Hn.
  apply (isFetched_checked env (en s2) (mkApp (n, u))).
  by eapply (download_leaves_required (H := engine) cenv (well_named env) (fun w => honest env blob_len (wfs w)) t tuf s s1 s1 s2
               rs res m installed req).
Qed.
End stack.

(** ** The engine of a configuration *)

Definition default_docker_host : string := "unix:///var/run/docker.sock".
(** [std::make_shared<Docker::DockerClient>()]: the daemon is asked. *)
Definition docker_client_new {D} (denv : DockerEnv D) (DOCKER_HOST : option string) : M (World D) unit :=
  _ ← lift (docker_socket default_docker_host DOCKER_HOST);
  a ← gets (fun w => docker_arch denv (wdocker w)); _ ← lift a; mret tt.
Lemma docker_client_new_same {D} (denv : DockerEnv D) DH : preserves eq (docker_client_new denv DH).
Proof. unfold docker_client_new. pstep. Qed.

Section configured.
(** [h] has the device, and what else is not configured. *)
Context {D : Type} (h : RestorableEnv D) (stat_of : World D -> StatEnv) (DH : option string).

Definition configured_device (conf : ComposeConfig) : DeviceEnv D :=
  let d := dev h in {|
  fs_env := fs_env d; exec_env := exec_env d; docker_env := docker_env d; registry := registry d;
  auth_creds_endpoint := hub_auth_creds_endpoint conf; file_capacity := file_capacity d;
  stops_when_refused := stops_when_refused d; fy_tool := fy_tool d; json_stream := json_stream d;
  json_missing := json_missing d |}.
Definition configured_env (conf : ComposeConfig) (skopeo_cmd compose_cmd : string) : RestorableEnv D := {|
  dev := configured_device conf;
  store_root := path_parts (reset_apps_root conf); install_root := path_parts (ComposeApps.apps_root conf);
  docker_root := path_parts (images_data_root conf);
  docker_and_skopeo_same_volume := docker_and_skopeo_same_volume h; client_cmd := skopeo_cmd; compose_cmd := compose_cmd;
  storage_space_func w := the (fun p => UsageInfo_err p) (GetDefStorageSpaceFunc (stat_of w) (storage_watermark conf));
  client_image_src_func _ image_uri := mret ("docker://" +:+ image_uri);
  create_containers_if_install := true; max_parallel_pulls_ := max_parallel_pulls_ h; arch := arch h;
  tar_compose_file := tar_compose_file h |}.

(** The constructor of the package manager, for the restorable engine *)
Definition construct_restorable (conf : ComposeConfig) (k : EngineKind) : M (World D) unit :=
  match k with
  | EngineRestorable skopeo_cmd _ compose_cmd =>
      docker_client_new (docker_env (configured_device conf)) DH;;
      engine_init (configured_env conf skopeo_cmd compose_cmd)
  | _ => mret tt
  end.

Context {DB SR OS K P F ST SO DD : Type} (blob_len : string -> Z).
Context `{AppEngine (World D), INvStorage DB, TufRepo DB, Ostree DB SR, BootFwUpdateStatus SR, InstallationResults,
          UptaneTargets, KeyFile K, LibOstree OS K P F ST, OstreeSysroot OS SO DD}.
Context (senv : SetupEnv DB (World D)) (Hmake : construct_engine senv = construct_restorable).

(** A client that is made again, after a restart or for another command, loses no app: every app that was complete in the
    store of its configuration is complete afterwards. *)
Theorem restart_keeps_apps base config given ro (s s' : SetupSt DB SR (World D) OS) p skopeo_cmd docker_host compose_cmd :
  let env := configured_env (cfg (compose (lc_env p))) skopeo_cmd compose_cmd in
  FsEnvSpec (fs_env env) -> Sha256Spec env ->
  make_LiteClient senv base config given ro s = (Ret p, s') ->
  lc_engine p = Some (EngineRestorable skopeo_cmd docker_host compose_cmd) ->
  forall uri, honest env blob_len (wfs (en (setup_dev s))) -> checked env (wfs (en (setup_dev s))) uri ->
    checked env (wfs (en (setup_dev s'))) uri.
Proof.
  intros env Hfs Hsha E He uri Hh Hc. apply make_LiteClient_constructs in E as ->. rewrite He, Hmake. cbn [construct_restorable].
  set (conf := cfg (compose (lc_env p))) in *. pose proof (docker_client_new_same (docker_env (configured_device conf)) DH) as Ed.
  specialize (Ed (en (setup_dev s))). unfold exec, mbind, M_bind in *.
  destruct (docker_client_new _ _ _) as [[[]|e] w]; cbn [snd] in Ed; subst w; [|exact Hc].
  destruct (engine_init_keeps env blob_len uri (en (setup_dev s))) as [_ Hk]. exact (Hk Hh Hc).
Qed.
End configured.

(** ** The theorem on a concrete device *)

Definition stack_config : ComposeConfig := {|
  apps := Some ["Shellhttpd"]; reset_apps := Some [];
  ComposeApps.apps_root := "/var/sota/compose-apps"; reset_apps_root := "/var/sota/reset-apps";
  compose_bin := "/usr/bin/docker"; skopeo_bin := "/sbin/skopeo"; composectl_bin := "/usr/bin/composectl";
  apps_proxy := ""; apps_proxy_ca := ""; docker_prune := true; force_update := false;
  apps_tree := "/var/sota/compose-apps-tree"; create_apps_tree := false; images_data_root := "/var/lib/docker";
  docker_images_reload_cmd := "systemctl reload docker";
  hub_auth_creds_endpoint := "https://ota-lite.foundries.io:8443/hub-creds/";
  create_containers_before_reboot := true; stop_apps_before_update := true; storage_watermark := 80 |}.
Definition stack_env : ComposeEnv SimpleSR (World unit) := {|
  rootfs_env := sample_rootfs 50; cfg := stack_config; is_restorable_engine := true;
  apps_stat_env _ := stat_env (sample_rootfs 50) (sr (simple_device "" "" []));
  volume_id _ := Some 0; uninit := false; now := "now" |}.
Definition stack_apps : list (string * json) := [("Shellhttpd", sample_app sample_uri_str)].
Definition stack_target : UTarget :=
  simple_make "lmp-2" (target_json "3" 0 (JObject [("docker_compose_apps", JObject stack_apps)])).
Definition stack_tuf : TufTarget :=
  {| Name := "lmp-2"; Sha256Hash := "3"; Version := 2; Custom := JObject [("docker_compose_apps", JObject stack_apps)] |}.

(** A device without apps. *)
Definition stack_device : St SimpleDB SimpleSR (World unit) :=
  let d := sample_device in
  mkSt (db d) (sr d) empty_device [] (cur_apps_to_fetch_and_update d) (cur_apps_to_fetch d) (are_apps_checked d)
    (is_reboot_required d) (request_headers d) (cl d).
Abbreviation stack_engine := (restorable_engine restorable_env).
Abbreviation stack_check := (checkForAppsToUpdate (H := stack_engine) stack_env stack_target).
Abbreviation stack_download := (compose_Download (H := stack_engine) stack_env stack_tuf).
Definition stack_checked : St SimpleDB SimpleSR (World unit) := exec stack_check stack_device.

Lemma stack_named a : a ∈ apps_of (all_apps_to_fetch stack_checked) -> well_named restorable_env a.
Proof.
  intros Ha. assert (E : apps_of (all_apps_to_fetch stack_checked) = [restorable_app]) by (vm_compute; reflexivity).
  rewrite E in Ha. apply list_elem_of_singleton in Ha as ->. apply restorable_app_named.
Qed.

Lemma download_stores_apps_witness :
  exists uri, parseUri sample_uri_str true = Ret uri /\
    checked restorable_env (wfs (en (exec stack_download stack_checked))) uri.
Proof.
  assert (T1 : is_throw (run stack_check stack_device) = false) by (vm_compute; reflexivity).
  assert (T2 : is_throw (run stack_download stack_checked) = false) by (vm_compute; reflexivity).
  apply (download_stores_apps restorable_env sample_blob_len stack_env stack_target stack_tuf stack_device stack_checked
    (exec stack_download stack_checked) (the ∅ (run stack_check stack_device)) (the (DR DOk "" "") (run stack_download stack_checked))
    stack_apps JNull {["Shellhttpd" := sample_uri_str]}) with (n := "Shellhttpd").
  - apply stack_named.
  - apply empty_honest.
  - reflexivity.
  - reflexivity.
  - reflexivity.
  - apply NoDup_singleton.
  - reflexivity.
  - vm_compute. reflexivity.
  - apply (run_the ∅ _ _ T1).
  - apply (run_the (DR DOk "" "") _ _ T2).
  - vm_compute. reflexivity.
  - reflexivity.
Defined.
