(* ===== verification/OfflineEngine.v ===== *)
(** * The download of an offline update

    [LocalLiteInstall::createOfflineDownloader] ([src/src/api.cc]): the app engine that fetches the apps of an
    offline update. It is a restorable engine on the store of the device whose registry is the one of
    [OfflineRegistry.v] and whose images are copied from the app store of the update. The file puts the installer
    ([Install.v]), the package manager ([ComposeApps.v]), the engine and that registry together. *)

From S2P Require Import Prelude Json Targets Registry Volume Restorable Exec Fs DockerClient Platform Bootloader Sample RootfsTree.
From S2P Require Import ComposeApps Client Setup Bundle CheckIn Install OfflineRegistry.
From S2P Require Import Device RestorableEngine RestorableStore RestorablePrune RestorableSample Stack.

(** ** The engine *)

(** What the downloader is made from: the device with the programs and the files of the engine ([host], of which the
    registry, the commands and the roots are replaced), the files of the update and of the device, and
    [HttpResponse::isOk()] by the status. *)
Record OfflineHost (D : Type) := {
  host : RestorableEnv D;
  http_ok : Z -> bool;
  store_file : string -> option string;
  host_exists : string -> bool;
  host_canonical : string -> outcome string;
  host_stat : World D -> StatEnv;
  (** [docker_client_ptr != nullptr] *)
  docker_given : bool;
  host_DOCKER_HOST : option string;
}.
Arguments host {D}.
Arguments http_ok {D}.
Arguments store_file {D}.
Arguments host_exists {D}.
Arguments host_canonical {D}.
Arguments host_stat {D}.
Arguments docker_given {D}.
Arguments host_DOCKER_HOST {D}.

Definition offline_hostname : string := "hub.foundries.io".
(** The watermark of [GetDefStorageSpaceFunc()], whatever the configuration says *)
Definition default_watermark : Z := 80.

(** Where an image of an app is copied from *)
Definition offline_image_src (store : string) (app_uri : Uri) (image_uri : string) : outcome string :=
  uri ← parseUri image_uri false;
  mret ("--src-shared-blob-dir " +:+ store +:+ "/blobs" +:+ " oci:" +:+ store +:+ "/apps" +:+ "/" +:+ app app_uri
        +:+ "/" +:+ hash (digest app_uri) +:+ "/images/" +:+ registryHostname uri +:+ "/" +:+ repo uri +:+ "/"
        +:+ hash (digest uri)).

Section offline_engine.
Context {D : Type} (h : OfflineHost D) (conf : ComposeConfig).
Abbreviation W := (World D).

(** Unlike the constructor of the package manager, it does not look whether docker has the command. *)
Definition offline_compose_cmd : outcome string :=
  if host_exists h (compose_bin conf) && String.eqb (path_filename (compose_bin conf)) "docker" then
    p ← host_canonical h (compose_bin conf); mret (p +:+ " " +:+ "compose ")
  else mret (compose_bin conf).

Definition offline_device_env (l : LocalUpdateSource) : DeviceEnv D :=
  let d := RestorableEngine.dev (host h) in {|
  fs_env := fs_env d; exec_env := exec_env d; docker_env := docker_env d;
  registry := offline_registry_env (http_ok h) (store_file h) (app_store l) offline_hostname
                (sha256_hex (registry d)) (toBase64 (registry d)) (Registry.parseJSON (registry d));
  auth_creds_endpoint := ""; file_capacity := file_capacity d; stops_when_refused := false; fy_tool := fy_tool d;
  json_stream := json_stream d; json_missing := json_missing d |}.
Definition offline_env (l : LocalUpdateSource) : RestorableEnv D := {|
  RestorableEngine.dev := offline_device_env l;
  store_root := path_parts (reset_apps_root conf); install_root := path_parts (ComposeApps.apps_root conf);
  docker_root := path_parts (images_data_root conf);
  docker_and_skopeo_same_volume := docker_and_skopeo_same_volume (host h); client_cmd := skopeo_bin conf;
  compose_cmd := the "" offline_compose_cmd;
  storage_space_func w := the (fun p => UsageInfo_err p) (GetDefStorageSpaceFunc (host_stat h w) default_watermark);
  client_image_src_func := offline_image_src (app_store l);
  create_containers_if_install := false;
  max_parallel_pulls_ := max_parallel_pulls_ (host h); arch := arch (host h);
  tar_compose_file := tar_compose_file (host h) |}.

(** The docker client: the one of the update source, or a new one, which asks the daemon *)
Definition offline_docker_client {D'} (denv : DockerEnv D') : M (World D') unit :=
  if docker_given h then mret tt else docker_client_new denv (host_DOCKER_HOST h).

(** The construction fails if the compose program cannot be resolved or the daemon does not answer; it prepares the
    store otherwise. *)
Definition offline_engine_new (l : LocalUpdateSource) : M W unit :=
  _ ← lift offline_compose_cmd;
  offline_docker_client (docker_env (offline_device_env l));;
  engine_init (offline_env l).
Definition offline_engine_of (l : LocalUpdateSource) : AppEngine W := restorable_engine (offline_env l).

Lemma offline_docker_client_same {D'} (denv : DockerEnv D') : preserves eq (offline_docker_client denv).
Proof. unfold offline_docker_client. destruct (docker_given h); [pstep|apply docker_client_new_same]. Qed.

(** *** What it reads from the app store *)

Lemma total_length_concat l : total_length l = String.length (concat_blocks l).
Proof.
  induction l as [|b l IH]; [done|]. cbn [total_length concat_blocks fold_right]. rewrite length_app_s. f_equal. exact IH.
Qed.

(** The registry of the update never outgrows a file if the blobs of the update do not. *)
Lemma offline_curl_spec l :
  (forall p data, store_file h p = Some data -> (String.length data <= file_capacity (RestorableEngine.dev (host h)))%nat) ->
  CurlSpec (offline_env l).
Proof.
  intros Hfit. split; [done|]. intros headers url _. cbn. unfold registry_download.
  destruct (Install.blob_path _ _) as [p|]; [|cbn; lia]. destruct (store_file h p) as [data|] eqn:E; [|cbn; lia].
  cbn -[total_length]. rewrite total_length_concat, blob_blocks_concat. by eapply Hfit.
Qed.

(** The engine of an offline update keeps a fifth of the volume free, whatever watermark the configuration sets. *)
Theorem offline_watermark l w p :
  UsageInfo_isOk (storage_space_func (offline_env l) w p) = true ->
  float_to_int (reserved_pc (storage_space_func (offline_env l) w p)) = 20.
Proof.
  intros Hok. destruct (GetDefStorageSpaceFunc_watermark (host_stat h w) default_watermark) as [_ K].
  by destruct (K _ p eq_refl Hok).
Qed.
End offline_engine.

(** ** The download, on any engine *)

Section fetches.
Context {DB SR EN : Type} `{INvStorage DB, Ostree DB SR, BootFwUpdateStatus SR, InstallationResults, UptaneTargets}.
Context (aenv : ApiEnv DB SR EN) (offline_engine : LocalUpdateSource -> AppEngine EN) (l : LocalUpdateSource).
Abbreviation S := (St DB SR EN).
Abbreviation cenv := (client aenv).
Abbreviation conf := (cfg (compose cenv)).
Hypothesis Hcompose : is_compose cenv = true.

Lemma callback_en m t r : preserves same_en (callback cenv m t r : M S _).
Proof. unfold callback. psolve. Qed.
Lemma notify_en t e c b d : preserves same_en (notify cenv t e c b d : M S _).
Proof. unfold notify. psolve. Qed.
#[local] Hint Resolve callback_en notify_en callback_members notify_members : aklite.

Lemma DownloadStarted_members t r : preserves same_members (notifyDownloadStarted cenv t r : M S _).
Proof. unfold notifyDownloadStarted. psolve. Qed.
Lemma DownloadStarted_en t r : preserves same_en (notifyDownloadStarted cenv t r : M S _).
Proof. unfold notifyDownloadStarted. psolve. Qed.
Lemma DownloadFinished_en t b d : preserves same_en (notifyDownloadFinished cenv t b d : M S _).
Proof. unfold notifyDownloadFinished. psolve. Qed.

(** The steps of a download that returns *)
Lemma offline_Download_run c (s s2 : S) res :
  offline_Download aenv offline_engine l c s = (Ret res, s2) ->
  exists sa rs s1 s1b tuf dr s2',
    db sa = db s /\ sr sa = sr s /\ en sa = exec (make_offline_engine aenv l) (en s) /\
    checkForAppsToUpdate (H := offline_engine l) (offline_config l (compose cenv)) (ctx_target c) sa = (Ret rs, s1) /\
    same_members s1 s1b /\ same_en s1 s1b /\
    compose_Download (H := offline_engine l) (offline_config l (compose cenv)) tuf s1b = (Ret dr, s2') /\
    dr_status res = dr_status dr /\ en s2 = en s2'.
Proof.
  unfold offline_Download. rewrite M_bind_Ret. intros ([] & s0 & E0 & E). apply logTarget_same in E0 as ->.
  unfold with_new_manager in E.
  match type of E with context [mbind ?f ?m (fresh_members s)] => destruct (mbind f m (fresh_members s)) as [o sf] eqn:Em end.
  injection E as -> <-. revert Em. unfold offline_prepare, offline_pm_Download. rewrite Hcompose.
  rewrite M_bind_Ret. intros ([] & s1 & E1 & E). rewrite M_bind_Ret in E1. destruct E1 as ([] & sa & Ea & E1).
  rewrite M_bind_Ret in E1. destruct E1 as (rs & s1' & E1 & [= ->]).
  rewrite M_bind_Ret in E. destruct E as ([] & s1b & Eb & E).
  rewrite M_bind_Ret in E. destruct E as (tuf & s1c & Ec & E). unfold lift in Ec. injection Ec as Ec <-.
  rewrite M_bind_Ret in E. destruct E as (dr & s2' & Ed & E).
  rewrite M_bind_Ret in E. destruct E as ([] & sf' & Ef & [= <- <-]).
  exists sa, rs, s1, s1b, tuf, dr, s2'.
  unfold on_en in Ea. destruct (make_offline_engine aenv l (en (fresh_members s))) as [o e] eqn:En. injection Ea as -> <-.
  pose proof (preserves_run_inv _ _ _ _ _ (DownloadStarted_members _ _) Eb) as Hm.
  pose proof (preserves_run_inv _ _ _ _ _ (DownloadStarted_en _ _) Eb) as He.
  pose proof (preserves_run_inv _ _ _ _ _ (DownloadFinished_en _ _ _) Ef) as Hf.
  split_and!; try done; [|apply Hm..]. cbn. unfold exec. cbn in En. by rewrite En.
Qed.

Context (ok : App -> Prop) (inv : EN -> Prop) {spec : AppEngineSpec (H := offline_engine l) ok inv}.

(** The engine is made and asked about the apps, the start is reported, and the apps are downloaded: every required
    app is fetched then, if all succeeded. *)
Lemma offline_Download_fetches (c : InstallCtx) (s s2 : S) (res : DownloadResult) (m : list (string * json))
    (installed : json) (a req : AppsContainer) :
  (forall n u, a !! n = Some u \/ req !! n = Some u -> ok (mkApp (n, u))) ->
  inv (exec (make_offline_engine aenv l) (en s)) ->
  has_reset_apps conf = true -> force_update conf && negb (uninit (compose cenv)) = false ->
  appsJson (ctx_target c) = Ret (JObject m) -> NoDup m.*1 ->
  appsJson (getCurrent (db s) (sr s)) = Ret installed ->
  getApps conf (ctx_target c) = Ret a -> getRequiredApps conf (ctx_target c) = Ret req ->
  offline_Download aenv offline_engine l c s = (Ret res, s2) -> DR_bool res = true ->
  inv (en s2) /\
  forall n u, req !! n = Some u -> isFetched (AppEngine := offline_engine l) (en s2) (mkApp (n, u)) = true.
Proof.
  intros Hok Hinv Hr Hf Ht Hnd Hi Ha Hq E Hres.
  destruct (offline_Download_run c s s2 res E)
    as (sa & rs & s1 & s1b & tuf & dr & s2' & Edb & Esr & Een & E1 & Hm & He & E2 & Est & E3).
  destruct (checkForAppsToUpdate_run (H := offline_engine l) (offline_config l (compose cenv)) (ctx_target c) sa s1 rs Hr E1)
    as (_ & _ & _ & _ & _ & _ & _ & _ & _ & _ & _ & Een1 & _).
  rewrite E3. apply (download_leaves_required (H := offline_engine l) (offline_config l (compose cenv)) ok inv
    (ctx_target c) tuf sa s1 s1b s2' rs dr m installed req); try done.
  - intros x Hx. unfold apps_of in Hx. apply list_elem_of_fmap in Hx as ([n' u'] & -> & Hx). apply elem_of_map_to_list in Hx.
    apply Hok. by eapply (to_fetch_of_target (H := offline_engine l) (offline_config l (compose cenv)) (ctx_target c) sa s1 rs a req).
  - by rewrite Een1, Een.
  - by rewrite Edb, Esr.
  - unfold DR_bool in *. by rewrite <- Est.
Qed.
End fetches.

(** ** The download, on the restorable engine *)

Section download.
Context {DB SR D : Type} (h : OfflineHost D).
Context `{INvStorage DB, Ostree DB SR, BootFwUpdateStatus SR, InstallationResults, UptaneTargets}.
Context (aenv : ApiEnv DB SR (World D)) (l : LocalUpdateSource) (blob_len : string -> Z).
Abbreviation S := (St DB SR (World D)).
Abbreviation cenv := (client aenv).
Abbreviation conf := (cfg (compose cenv)).
Abbreviation oenv := (offline_env h conf l).
Abbreviation engine := (offline_engine_of h conf).
Context {fs_spec : FsEnvSpec (fs_env oenv)} {sha_spec : Sha256Spec oenv} {skopeo_spec : SkopeoSpec oenv blob_len}.

(** The client makes this engine for an offline update of its apps. *)
Hypothesis Hmake : make_offline_engine aenv l = offline_engine_new h conf l.
Hypothesis Hcompose : is_compose cenv = true.
Hypothesis Hfit : forall p data, store_file h p = Some data ->
  (String.length data <= file_capacity (RestorableEngine.dev (host h)))%nat.

Lemma offline_engine_new_honest w :
  honest oenv blob_len (wfs w) -> honest oenv blob_len (wfs (exec (offline_engine_new h conf l) w)).
Proof.
  intros Hh. unfold exec, offline_engine_new. mstep. destruct (offline_compose_cmd h conf); [|done].
  pose proof (offline_docker_client_same h (docker_env (offline_device_env h l)) w) as Ew. unfold exec in Ew.
  destruct (offline_docker_client _ _ w) as [[[]|e] w']; cbn [snd] in Ew; subst w'; [|done].
  by destruct (engine_init_keeps oenv blob_len sample_uri w) as [K _]; [..|apply K].
Qed.

(** C7: A download of an offline update that reports success leaves every app that the configuration requires of the
    target complete in the store of the device: the manifest, the archive and the images, hashes and sizes checked,
    although the registry it reads from checks nothing. *)
Theorem offline_Download_stores_apps (c : InstallCtx) (s s2 : S) (res : DownloadResult) (m : list (string * json))
    (installed : json) (a req : AppsContainer) :
  (forall n u, a !! n = Some u \/ req !! n = Some u -> well_named oenv (mkApp (n, u))) ->
  honest oenv blob_len (wfs (en s)) ->
  has_reset_apps conf = true -> force_update conf && negb (uninit (compose cenv)) = false ->
  appsJson (ctx_target c) = Ret (JObject m) -> NoDup m.*1 ->
  appsJson (getCurrent (db s) (sr s)) = Ret installed ->
  getApps conf (ctx_target c) = Ret a -> getRequiredApps conf (ctx_target c) = Ret req ->
  offline_Download aenv engine l c s = (Ret res, s2) -> DR_bool res = true ->
  forall n u, req !! n = Some u -> exists uri, parseUri u true = Ret uri /\ checked oenv (wfs (en s2)) uri.
Proof.
  intros Hnamed Hh Hr Hf Ht Hnd Hi Ha Hq E Hres n u Hn.
  pose proof (offline_curl_spec h conf l Hfit) as curl_spec.
  apply (isFetched_checked oenv (en s2) (mkApp (n, u))).
  eapply (offline_Download_fetches aenv engine l Hcompose (well_named oenv) (fun w => honest oenv blob_len (wfs w))
            (spec := restorable_engine_spec oenv blob_len) c s s2 res m installed a req); try done.
  rewrite Hmake. by apply offline_engine_new_honest.
Qed.
End download.

(** ** The theorem on a concrete device *)

(** A client on another engine *)
Definition client_on {DB SR EN EN'} (c : ComposeEnv SR EN') (e : ClientEnv DB SR EN) : ClientEnv DB SR EN' := {|
  compose := c; is_compose := is_compose e; callback_program := callback_program e; storage_path := storage_path e;
  metadata_path := metadata_path e; tls_server := tls_server e; tags := tags e; reboot_command := reboot_command e;
  uuid := uuid e; bc := bc e; cert := cert e; path_exists := path_exists e; MatchTarget := MatchTarget e;
  MatchTargetVector := MatchTargetVector e; http_put := http_put e; http_post := http_post e;
  report_config := report_config e; report_network := report_network e; conf_str := conf_str e;
  conf_hash_is_stored := conf_hash_is_stored e; store_conf_hash := store_conf_hash e; network_info := network_info e;
  hw_info := hw_info e; loadKeys := loadKeys e; meta_file := meta_file e; RoleFileName := RoleFileName e;
  show_Version := show_Version e |}.
Definition api_on {DB SR EN EN'} (c : ClientEnv DB SR EN') (mk : LocalUpdateSource -> M EN' unit) (e : ApiEnv DB SR EN)
    : ApiEnv DB SR EN' := {|
  client := c; hw_id := hw_id e; read_only := read_only e; invoke_post_cb_at_checkin := invoke_post_cb_at_checkin e;
  AkHttpsRepoSource := AkHttpsRepoSource e; read_file := read_file e; app_store_dirs := app_store_dirs e;
  ostree_open := ostree_open e; ostree_hasCommit := ostree_hasCommit e; parseJSON := CheckIn.parseJSON e;
  jsonToCanonicalStr := jsonToCanonicalStr e; key_verifies := key_verifies e; expired_at_now := expired_at_now e;
  styled_string := styled_string e; TimeStamp_ToString := TimeStamp_ToString e; http_get := CheckIn.http_get e;
  getStatusStr := getStatusStr e; assert_lock := assert_lock e; open_local_install := open_local_install e;
  make_offline_engine := mk |}.

(** An update on a stick, with one blob that is both the manifest and the archive of the app *)
Definition stick : LocalUpdateSource := {| tuf_repo := "/media/tuf"; ostree_repo := "/media/ostree"; app_store := "/media/apps" |}.
Definition stick_file (p : string) : option string :=
  if String.eqb p ("/media/apps/blobs/sha256/" +:+ H0) then Some "app" else None.
Definition stick_host : OfflineHost unit := {|
  host := restorable_env; http_ok c := c =? 200; store_file := stick_file; host_exists _ := true;
  host_canonical p := mret p; host_stat _ := stat_env (sample_rootfs 50) (sr (simple_device "" "" []));
  docker_given := true; host_DOCKER_HOST := None |}.
Abbreviation stick_env := (offline_env stick_host stack_config stick).
Abbreviation stick_engine := (offline_engine_of stick_host stack_config).
Definition stick_api : ApiEnv SimpleDB SimpleSR (World unit) :=
  api_on (client_on stack_env sample_client) (offline_engine_new stick_host stack_config) (sample_api "new" []).
Definition stick_ctx : InstallCtx :=
  {| ctx_target := stack_target; ctx_reason := ""; ctx_mode := All; ctx_local := Some stick |}.
Abbreviation stick_download := (offline_Download stick_api stick_engine stick stick_ctx).

(** The stores of the two engines are the same. *)
Lemma stick_honest f : honest stick_env sample_blob_len f <-> honest restorable_env sample_blob_len f.
Proof. split; (intros [A B]; split; [exact A|exact B]). Qed.
Lemma stick_image_stored f p : image_stored restorable_env f p -> image_stored stick_env f p.
Proof.
  intros [A (d & cd & layers & [B1 B2 B3 B4 B5 B6 B7])]. split; [exact A|]. exists d, cd, layers.
  split; [exact B1|exact B2|exact B3|exact B4|exact B5|exact B6|exact B7].
Qed.

#[export] Instance stick_skopeo_spec : SkopeoSpec stick_env sample_blob_len.
Proof.
  assert (P : forall src dst w, plain dst -> run_process (exec_env stick_env) (pull_cmd stick_env src dst) w =
    run_process (exec_env restorable_env) (pull_cmd restorable_env src dst) w).
  { intros src dst w Hp. by rewrite sample_pull, sample_pull_of. }
  split.
  - intros src dst w p w' q Hp. rewrite P by done. by apply (skopeo_files restorable_env sample_blob_len).
  - intros src dst w p w' x Hp. rewrite P by done. by apply (skopeo_blobs restorable_env sample_blob_len).
  - intros src dst w p w' Hp. rewrite P, !stick_honest by done. intros H. exact (skopeo_honest restorable_env sample_blob_len src dst w p w' Hp H).
  - intros src dst w p w' r Hp. rewrite P by done. intros H Hr Hz.
    apply stick_image_stored. by eapply (skopeo_copied restorable_env sample_blob_len).
Qed.
#[export] Instance stick_sha256_spec : Sha256Spec stick_env.
Proof. by split. Qed.

(** A device that reaches the repository on the stick only *)
Definition stick_device : St SimpleDB SimpleSR (World unit) :=
  let x := sr stack_device in
  set_sr {| sr_current := sr_current x; sr_pending := sr_pending x; sr_good_url := "file:///media/ostree"; sr_fw := sr_fw x;
            sr_protected := sr_protected x; sr_upgrading := sr_upgrading x; sr_commits := sr_commits x |} stack_device.

Definition stick_apps : AppsContainer := {["Shellhttpd" := sample_uri_str]}.
Lemma stick_app_named n u :
  stick_apps !! n = Some u \/ stick_apps !! n = Some u ->
  well_named stick_env (mkApp (n, u)).
Proof.
  intros H. assert (Hn : stick_apps !! n = Some u) by by destruct H.
  unfold stick_apps in Hn. apply lookup_singleton_Some in Hn as [<- <-]. clear H.
  intros uri Hu. vm_compute in Hu. injection Hu as <-. split; [by repeat constructor|].
  intros f d c cj _ Hc services s image u Hs Hin Hi Hu. unfold ComposeInfo in Hc. destruct (negb _); [discriminate Hc|].
  cbn in Hc. injection Hc as <-. vm_compute in Hs. injection Hs as <-. apply list_elem_of_singleton in Hin. subst s.
  vm_compute in Hi. injection Hi as <-. vm_compute in Hu. injection Hu as <-. by repeat constructor.
Qed.

Lemma offline_Download_stores_apps_witness :
  exists uri, parseUri sample_uri_str true = Ret uri /\
    checked stick_env (wfs (en (exec stick_download stick_device))) uri.
Proof.
  assert (T : is_throw (run stick_download stick_device) = false) by (vm_compute; reflexivity).
  apply (offline_Download_stores_apps stick_host stick_api stick sample_blob_len (fs_spec := sample_fs_spec)) with
    (c := stick_ctx) (s := stick_device) (res := the (DR DownloadFailed "" "") (run stick_download stick_device))
    (m := stack_apps) (installed := JNull) (a := stick_apps) (req := stick_apps) (n := "Shellhttpd").
  - reflexivity.
  - reflexivity.
  - intros p data. cbn. unfold stick_file. destruct (String.eqb _ _); [|done]. intros [= <-]. cbn. lia.
  - apply stick_app_named.
  - apply stick_honest, empty_honest.
  - reflexivity.
  - reflexivity.
  - reflexivity.
  - apply NoDup_singleton.
  - reflexivity.
  - vm_compute. reflexivity.
  - vm_compute. reflexivity.
  - apply (run_the (DR DownloadFailed "" "") _ _ T).
  - vm_compute. reflexivity.
  - reflexivity.
Defined.
