(* ===== verification/ComposeEngine.v ===== *)
(** * The docker compose app engine

    [ComposeAppEngine] ([src/src/docker/composeappengine.cc]): every app has a
    directory with the files of its archive and a directory [.meta], where the
    engine keeps the version of the app and how far its installation got. The
    directory is changed by the engine and by the commands it runs. *)

From S2P Require Import Prelude Json Targets Registry Volume Exec Fs DockerClient Platform Device.

Record ComposeEnv (D : Type) := {
  compose_dev :> DeviceEnv D;
  (** [root_] and [compose_] *)
  compose_root : Path;
  compose_bin : string;
  (** [statvfs] of a path *)
  statvfs : World D -> string -> option FsStat;
}.
Arguments compose_dev {D}.
Arguments compose_root {D}.
Arguments compose_bin {D}.
Arguments statvfs {D}.

(** ** Files with the state of an app *)

(** [AppState::State], the value of which is read from a file. *)
Definition kUnknown : Z := 0.
Definition kDownloaded : Z := 16.
Definition kVerified : Z := 32.
Definition kPulled : Z := 48.
Definition kInstalled : Z := 64.
Definition kStarted : Z := 80.

Definition state_str (s : Z) : string :=
  if s =? kUnknown then "Unknown" else if s =? kDownloaded then "Downloaded"
  else if s =? kVerified then "Compose file verified" else if s =? kPulled then "Images are pulled"
  else if s =? kInstalled then "Created" else if s =? kStarted then "Started" else "".

(** The four bytes of an [int], least significant first. *)
Definition byte_char (z : Z) : ascii := ascii_of_N (Z.to_N (Z.land z 255)).
Definition char_byte (c : ascii) : Z := Z.of_N (N_of_ascii c).
Definition int_bytes (v : Z) : string :=
  String (byte_char v) (String (byte_char (Z.shiftr v 8))
    (String (byte_char (Z.shiftr v 16)) (String (byte_char (Z.shiftr v 24)) ""))).
(** Bytes that are missing stay 0. *)
Fixpoint bytes_u (n : nat) (s : string) : Z :=
  match n, s with
  | S n', String c s' => Z.lor (char_byte c) (Z.shiftl (bytes_u n' s') 8)
  | _, _ => 0
  end.
Definition bytes_int (s : string) : Z :=
  let u := bytes_u 4 s in if u <? 2 ^ 31 then u else u - 2 ^ 32.

(** A buffer as a C string. *)
Fixpoint c_str (s : string) : string :=
  match s with
  | String c s' => if eqb_char c "000" then "" else String c (c_str s')
  | EmptyString => ""
  end.

Definition MetaDir : string := ".meta".
Definition VersionFile : string := ".version".
Definition StateFile : string := ".state".
Definition tmp_of (p : Path) : Path := parent_path p ++ [filename_of p +:+ ".tmp"].

Section files.
Context (env : FsEnv).

(** [open(p, O_CREAT | O_RDWR | O_SYNC, ...)] *)
Definition open_file (p : Path) : M FS unit :=
  x ← gets (fun f : FS => f !! p);
  match x with
  | Some Dir => throwM runtime_error ("Failed to open/create a file: " +:+ path_str p)
  | Some (File _) => mret tt
  | None =>
      dir ← gets (is_directory (parent_path p));
      if dir && write_ok env p "" then modify <[p := File ""]>
      else throwM runtime_error ("Failed to open/create a file: " +:+ path_str p)
  end.

(** [File::write]: into a temporary file, which is not truncated, and then renamed. That fewer bytes
    are written than asked for is left out. *)
Definition file_write (p : Path) (data : string) : M FS unit :=
  let tmp := tmp_of p in
  open_file tmp;;
  if negb (write_ok env tmp data) then throwM runtime_error ("Failed to write to a file: " +:+ path_str p)
  else
    c ← gets (read tmp);
    modify <[tmp := File (overwrite (default "" c) 0 data)]>;;
    dir ← gets (is_directory p);
    if dir : bool then modify (delete tmp);; throwM runtime_error ("Failed to rename the tmp file to: " +:+ path_str p)
    else modify (fun f => <[p := File (overwrite (default "" c) 0 data)]> (delete tmp f)).

(** [File::read]: up to [n] bytes; a file that is missing is created *)
Definition file_read (p : Path) (n : nat) : M FS string :=
  open_file p;;
  c ← gets (read p); mret (str_take n (default "" c)).

(** *** [AppState] *)

Record AppState := { version : string; state : Z }.

Definition version_file (root : Path) : Path := root ++ [MetaDir; VersionFile].
Definition state_file (root : Path) : Path := root ++ [MetaDir; StateFile].

(** The constructor. The handler of its function-try-block, as that of any constructor, throws the
    exception again. *)
Definition make_AppState (a : App) (root : Path) (set_version : bool) : M FS AppState :=
  b ← file_read (version_file root) 4096;
  let v := c_str b in
  if str_empty (app_uri a) || String.eqb v (app_uri a) then
    s ← file_read (state_file root) 4; mret {| version := v; state := bytes_int s |}
  else if set_version then
    file_write (version_file root) (app_uri a);; mret {| version := app_uri a; state := kUnknown |}
  else mret {| version := v; state := kUnknown |}.

Definition AppState_exists (root : Path) (f : FS) : bool :=
  fs_exists (version_file root) f && fs_exists (state_file root) f.

Definition setState (root : Path) (st : AppState) (s : Z) : M FS AppState :=
  try_catch (file_write (state_file root) (int_bytes s);; mret {| version := version st; state := s |})
    (fun _ => mret st).
End files.

(** ** The engine *)

(** [static_cast<uint64_t>(d)] of a non-negative [d] *)
Definition trunc_to_u64 (d : SpecFloat.spec_float) : Z :=
  match d with
  | SpecFloat.S754_finite false m e => to_u64 (if 0 <=? e then Z.pos m * 2 ^ e else Z.pos m / 2 ^ (- e))
  | _ => 0
  end.

Definition reserved_bytes : Z := 2 ^ 20.

Section engine.
Context {D : Type} (env : ComposeEnv D).
Abbreviation W := (World D).

Definition appRoot (a : App) : Path := compose_root env ++ [app_name a].

Definition runComposeCmd (a : App) (cmd err : string) : M W unit :=
  exec_ env (compose_bin env +:+ cmd) err (path_str (appRoot a)).

(** The number of bytes that are available, if it is known. *)
Definition checkAvailableStorageSpace (app_root : Path) (w : W) : option Z :=
  match statvfs env w (path_str app_root) with
  | None => None
  | Some st => Some (to_u64 (to_u64 (f_bsize st * f_bavail st) - reserved_bytes))
  end.

(** [available_storage * 0.8] *)
Definition available_for_apps (available_storage : Z) : Z :=
  trunc_to_u64 (double_mul (double_of available_storage) (double_div (double_of 4) (double_of 5))).

Definition verifyAppArchive (a : App) (archive : string) : M W unit :=
  try_catch (exec_ env ("tar -tf " +:+ archive +:+ " " +:+ ComposeFile) "no compose file found in archive" (path_str (appRoot a)))
    (fun _ => exec_ env ("tar -tf " +:+ archive +:+ " ./" +:+ ComposeFile) "no compose file found in archive"
                (path_str (appRoot a))).

Definition extractAppArchive (a : App) (archive : string) : M W unit :=
  exec_ env ("tar -xzf " +:+ archive) "failed to extract App archive" (path_str (appRoot a));;
  exec_ env ("rm -f " +:+ archive) "failed to delete App archive" (path_str (appRoot a)).

Definition archive_file_name (uri : Uri) (a : App) : string :=
  shortHash (digest uri) +:+ "." +:+ app_name a +:+ ArchiveExt.

Definition download (a : App) : M W unit :=
  uri ← lift (parseUri (app_uri a) true);
  manifest_str ← lift (getManifest env uri ManifestFormat None);
  manifest ← lift (make_Manifest (parseJSON (registry env) manifest_str));
  d ← lift (s ← archiveDigest manifest; make_HashedDigest s);
  let archive := archive_file_name uri a in
  space ← gets (checkAvailableStorageSpace (appRoot a));
  (match space with
   | None => mret tt
   | Some available =>
       size ← lift (archiveSize manifest);
       let need_storage := to_u64 (size * 3) in
       if available_for_apps available <? need_storage then
         throwM runtime_error
           ("There is no sufficient storage space available to download App archive, available: "
            +:+ to_string (available_for_apps available) +:+ " need: " +:+ to_string need_storage)
       else mret tt
   end);;
  size ← lift (archiveSize manifest);
  downloadBlobTo env (createUri uri d) (appRoot a ++ [archive]) size;;
  verifyAppArchive a archive;;
  extractAppArchive a archive.

Definition set_state (a : App) (st : AppState) (s : Z) : M W AppState := on_fs (setState (fs_env env) (appRoot a) st s).
Definition app_state (a : App) (set_version : bool) : M W AppState :=
  on_fs (make_AppState (fs_env env) a (appRoot a) set_version).

Definition pullImages (a : App) : M W unit := runComposeCmd a "pull --no-parallel" "failed to pull App images".
Definition compose_installApp (a : App) : M W unit :=
  runComposeCmd a "up --remove-orphans --no-start" "failed to install App".
Definition compose_start (a : App) : M W unit := runComposeCmd a "up --remove-orphans -d" "failed to bring Compose App up".

Definition compose_fetch (a : App) : M W Result :=
  on_fs (create_directories (appRoot a ++ [MetaDir]));;
  try_catch
    (st ← app_state a true;
     download a;;
     st ← set_state a st kDownloaded;
     runComposeCmd a "config" "compose App validation failed";;
     st ← set_state a st kVerified;
     pullImages a;;
     set_state a st kPulled;;
     mret result_ok)
    (fun e => mret (result_failed (what e))).

Definition compose_verify (a : App) : M W Result :=
  try_catch (runComposeCmd a "config" "compose file validation failed";; mret result_ok)
    (fun e => mret (result_failed (what e))).

Definition areContainersCreated (a : App) : M W bool := app_containers env a (appRoot a ++ [ComposeFile]) false.

(** The [action] and then the check of the containers; if all is well the state becomes [done]. *)
Definition bring_up (a : App) (st : AppState) (already : bool) (ready : bool) (not_ready : string) (action : M W unit) (done : Z)
    : M W Result :=
  res ← (if already then mret result_ok
         else if ready then
           try_catch (action;; mret result_ok) (fun e => mret (result_failed (what e)))
         else mret (result_failed not_ready));
  if negb (Result_bool res) then mret res
  else
    created ← try_catch (areContainersCreated a) (fun _ => mret true);
    if negb created then mret (result_failed "App containers haven't been created")
    else set_state a st done;; mret res.

Definition no_dir : string := "App dir doesn't exist, cannot install App that hasn't been fetched".

Definition compose_install (a : App) : M W Result :=
  there ← get_fs (fs_exists (appRoot a));
  if negb there then mret (result_failed no_dir)
  else
    st ← app_state a false;
    bring_up a st ((state st =? kInstalled) || (state st =? kStarted)) (state st =? kPulled)
      "Cannot install App that hasn't been fetched" (compose_installApp a) kInstalled.

Definition compose_isFetched (a : App) : M W bool :=
  there ← get_fs (fs_exists (appRoot a));
  if negb there then mret false
  else
    try_catch (st ← app_state a false; mret ((state st =? kPulled) || (kInstalled <=? state st))) (fun _ => mret false).

Definition compose_run (a : App) : M W Result :=
  there ← get_fs (fs_exists (appRoot a));
  if negb there then mret (result_failed no_dir)
  else
    fetched ← compose_isFetched a;
    (if negb fetched then
       on_fs (create_directories (appRoot a ++ [MetaDir]));;
       st ← app_state a true; set_state a st kPulled;; mret tt
     else mret tt);;
    st ← app_state a false;
    bring_up a st (state st =? kStarted) ((state st =? kPulled) || (state st =? kInstalled))
      "Cannot start App that hasn't been fetched" (compose_start a) kStarted.

Definition compose_stop (a : App) : M W unit :=
  try_catch (runComposeCmd a "down" "failed to bring App down") (fun _ => mret tt).
Definition compose_remove (a : App) : M W unit :=
  try_catch (runComposeCmd a "down" "failed to bring App down";; modify_fs (remove_all (appRoot a))) (fun _ => mret tt).

Definition compose_isRunning (a : App) : M W bool :=
  there ← get_fs (fs_exists (appRoot a));
  if negb there then mret false
  else
    started_state ← try_catch
      (st ← app_state a false;
       mret (if String.eqb (app_uri a) (version st) then state st =? kStarted else true))
      (fun _ => mret true);
    try_catch
      (c ← get_fs (ComposeInfo env (appRoot a ++ [ComposeFile])); compose ← lift c;
       services ← lift (getServices compose);
       if bool_decide (services = []) then mret false
       else
         cs ← gets (fun w => getContainers (docker_env env) (wdocker w)); containers ← lift cs;
         running ← lift (containers_match true (app_name a) compose containers services);
         mret (running && started_state))
      (fun _ => mret false).

Fixpoint compose_installed_loop (dirs : list Path) (acc : list App) : M W (list App) :=
  match dirs with
  | [] => mret acc
  | d :: dirs' =>
      let a := {| app_name := filename_of d; app_uri := "" |} in
      st ← app_state a false;
      compose_installed_loop dirs'
        (if kInstalled <=? state st then acc ++ [{| app_name := filename_of d; app_uri := version st |}] else acc)
  end.
Definition compose_getInstalledApps : M W (list App) :=
  there ← get_fs (fs_exists (compose_root env));
  if negb there then mret []
  else e ← get_fs (directory_entries (fs_env env) (compose_root env)); dirs ← lift e; compose_installed_loop dirs [].

(** The description of a running app without a URI is completed from the state of the app. *)
Definition ext_func (f : FS) (name : string) (desc : json) : outcome json :=
  has ← jisMember desc "uri";
  if negb has && AppState_exists (compose_root env ++ [name]) f then
    st ← run (make_AppState (fs_env env) {| app_name := name; app_uri := "" |} (compose_root env ++ [name]) false) f;
    d1 ← jset desc "uri" (JString (version st));
    jset d1 "state" (JString (state_str (state st)))
  else mret desc.
Definition compose_getRunningAppsInfo : M W json :=
  try_catch (r ← gets (fun w => getRunningApps (docker_env env) (Some (ext_func (wfs w))) (wdocker w)); lift r)
    (fun _ => mret JNull).

(** ** The engine behind the interface *)

Definition compose_engine : AppEngine W := {|
  fetch := compose_fetch;
  verify := compose_verify;
  install := compose_install;
  run_app := compose_run;
  stop := compose_stop;
  remove := compose_remove;
  prune _ := on_docker (pruneDockerStore env);
  isFetched w a := the false (run (compose_isFetched a) w);
  isRunning w a := the false (run (compose_isRunning a) w);
  getInstalledApps w := run compose_getInstalledApps w;
  getRunningAppsInfo w := run compose_getRunningAppsInfo w;
  app_dirs w := if is_directory (compose_root env) (wfs w)
                then Some (filename_of <$> readdir (fs_env env) (entries (compose_root env) (wfs w))) else None;
|}.
End engine.
