(* ===== verification/ComposeEngineSpec.v ===== *)
(** * Properties of the docker compose app engine

    The state files are read back as they were written ([int_bytes_roundtrip], [version_roundtrip]);
    the engine implements the interface of the package manager
    ([compose_engine_spec]), and what its bookkeeping gets wrong:
    an app whose download failed can count as fetched
    ([failed_fetch_is_fetched]), the check of the storage wraps around
    ([storage_check_wraps]), and installing an app without state files throws
    ([install_throws]). *)

From S2P Require Import Prelude Json Targets Registry Volume Exec Fs DockerClient Platform Device ComposeEngine.

(** ** Integers in files *)

Lemma char_byte_char z : char_byte (byte_char z) = Z.land z 255.
Proof.
  unfold char_byte, byte_char. pose proof (Z.land_nonneg z 255) as Hp. assert (0 <= Z.land z 255) as Hp' by (apply Hp; lia).
  assert (Hlt : Z.land z 255 < 256).
  { change 255 with (Z.ones 8). rewrite Z.land_ones by lia. apply Z.mod_pos_bound. lia. }
  rewrite N_ascii_embedding; [by rewrite Z2N.id|]. change 256%N with (Z.to_N 256). apply Z2N.inj_lt; lia.
Qed.

Lemma lor_shiftl a b : 0 <= a < 2 ^ 8 -> Z.lor a (Z.shiftl b 8) = a + 256 * b.
Proof.
  intros Ha. assert (L : Z.land a (Z.shiftl b 8) = 0).
  { apply Z.bits_inj'. intros n Hn. rewrite Z.land_spec, Z.bits_0. destruct (Z.ltb_spec n 8) as [Hl|Hl].
    - rewrite Z.shiftl_spec_low by done. apply andb_false_r.
    - rewrite <- (Z.mod_small a (2 ^ 8)) by done. rewrite Z.mod_pow2_bits_high by lia. done. }
  rewrite <- Z.lxor_lor, <- Z.add_nocarry_lxor by done. rewrite Z.shiftl_mul_pow2 by lia. lia.
Qed.

Lemma bytes_u_int v : bytes_u 4 (int_bytes v) = v mod 2 ^ 32.
Proof.
  cbn [bytes_u int_bytes]. rewrite !char_byte_char. change 255 with (Z.ones 8). rewrite !Z.land_ones by lia.
  rewrite !lor_shiftl by (apply Z.mod_pos_bound; lia). rewrite !Z.shiftr_div_pow2 by lia.
  change (2 ^ 32) with (2 ^ 8 * (2 ^ 8 * (2 ^ 8 * 2 ^ 8))). rewrite (Z.rem_mul_r v) by lia.
  rewrite (Z.rem_mul_r (v / 2 ^ 8)) by lia. rewrite (Z.rem_mul_r (v / 2 ^ 8 / 2 ^ 8)) by lia.
  rewrite !Z.div_div by lia. change (2 ^ 8 * 2 ^ 8) with (2 ^ 16). change (2 ^ 16 * 2 ^ 8) with (2 ^ 24).
  change (2 ^ 8) with 256. lia.
Qed.

(** Four bytes of an [int], read back, whatever follows them. *)
Lemma int_bytes_roundtrip v rest : int_min <= v <= int_max -> bytes_int (str_take 4 (int_bytes v +:+ rest)) = v.
Proof.
  intros Hv. change (str_take 4 (int_bytes v +:+ rest)) with (int_bytes v).
  unfold bytes_int. rewrite bytes_u_int. unfold int_min, int_max in Hv.
  destruct (Z.ltb_spec v 0) as [Hn|Hn].
  - rewrite <- (Z.mod_add v 1 (2 ^ 32)) by lia. rewrite Z.mod_small by lia.
    destruct (Z.ltb_spec (v + 1 * 2 ^ 32) (2 ^ 31)); lia.
  - rewrite Z.mod_small by lia. destruct (Z.ltb_spec v (2 ^ 31)); lia.
Qed.

(** A version without a NUL byte that fits the buffer. *)
Definition plain_version (s : string) : Prop :=
  s <> "" /\ (String.length s < 4096)%nat /\ str_forall (not_char "000") s = true.

Lemma c_str_plain s : str_forall (not_char "000") s = true -> c_str s = s.
Proof.
  induction s as [|c s IH]; cbn; [done|]. intros [Hc Hs]%andb_true_iff. unfold not_char in Hc.
  apply negb_true_iff in Hc. rewrite Hc. by rewrite IH.
Qed.
Lemma version_roundtrip s : plain_version s -> c_str (str_take 4096 s) = s.
Proof. intros (_ & Hl & Hs). rewrite str_take_all by lia. by apply c_str_plain. Qed.

Lemma overwrite_fresh data : overwrite "" 0 data = data.
Proof. unfold overwrite. cbn [str_take]. rewrite Nat.add_0_l. destruct (String.length data); cbn; apply app_nil_r. Qed.

Lemma overwrite_start c data : exists rest, overwrite c 0 data = data +:+ rest.
Proof. by eexists. Qed.

(** ** Files *)

Section files.
Context (fe : FsEnv).
Implicit Types (f : FS).

Lemma tmp_of_snoc d n : tmp_of (d ++ [n]) = d ++ [n +:+ ".tmp"].
Proof. unfold tmp_of. by rewrite parent_path_snoc, filename_of_snoc. Qed.

(** Opening a file creates it at most. *)
Lemma open_file_lookup p f q :
  exec (open_file fe p) f !! q = f !! q \/ (q = p /\ f !! q = None /\ exec (open_file fe p) f !! q = Some (File "")).
Proof.
  unfold open_file, exec, mbind, M_bind, gets. destruct (f !! p) as [[]|] eqn:E; [by left..|].
  destruct (_ && _); [|by left]. unfold modify. cbn [snd].
  destruct (decide (q = p)) as [->|Hne]; [right; by rewrite lookup_insert_eq|left; by rewrite lookup_insert_ne].
Qed.

Lemma open_file_Ret p f f' :
  open_file fe p f = (Ret tt, f') -> f' !! p <> Some Dir /\ (f !! p = None -> f' !! p = Some (File "")) /\ f' !! p <> None.
Proof.
  unfold open_file, mbind, M_bind, gets. destruct (f !! p) as [[]|] eqn:E; [done| |].
  - intros [= <-]. rewrite E. by split_and!.
  - destruct (_ && _); [|done]. unfold modify. intros [= <-]. rewrite lookup_insert_eq. by split_and!.
Qed.

Lemma open_file_ok p f :
  f !! p <> Some Dir -> is_directory (parent_path p) f = true -> write_ok fe p "" = true ->
  exists f', open_file fe p f = (Ret tt, f').
Proof.
  intros H1 H2 H3. unfold open_file, mbind, M_bind, gets. destruct (f !! p) as [[]|]; [done|eauto|].
  rewrite H2, H3. unfold modify. cbn. eauto.
Qed.

Lemma file_read_lookup p n f q :
  exec (file_read fe p n) f !! q = f !! q \/ (q = p /\ f !! q = None /\ exec (file_read fe p n) f !! q = Some (File "")).
Proof.
  pose proof (open_file_lookup p f q) as K. unfold file_read, exec, mbind, M_bind, gets in *.
  by destruct (open_file fe p f) as [[]f1].
Qed.

Lemma file_read_Ret p n f s f' :
  file_read fe p n f = (Ret s, f') -> s = str_take n (default "" (read p f)).
Proof.
  unfold file_read. rewrite M_bind_Ret. intros ([] & f1 & H1 & H). rewrite bind_gets in H. injection H as <- _.
  pose proof (open_file_lookup p f p) as K. unfold exec in K. rewrite H1 in K. cbn [snd] in K. f_equal. unfold read.
  destruct K as [->|(_ & -> & ->)]; done.
Qed.

Lemma file_read_file p n f c : f !! p = Some (File c) -> file_read fe p n f = (Ret (str_take n c), f).
Proof. intros H. unfold file_read, open_file, mbind, M_bind, gets. rewrite H. unfold read, mret, M_ret. by rewrite H. Qed.

(** Writing changes the file and the temporary file only. *)
Lemma file_write_lookup d n data f q :
  q <> d ++ [n] -> q <> d ++ [n +:+ ".tmp"] -> exec (file_write fe (d ++ [n]) data) f !! q = f !! q.
Proof.
  intros H1 H2. unfold file_write. rewrite tmp_of_snoc.
  pose proof (open_file_lookup (d ++ [n +:+ ".tmp"]) f q) as K. unfold exec, mbind, M_bind, gets, modify in *.
  destruct (open_file fe _ f) as [[]f1]; cbn [snd] in K |- *; destruct K as [K|(K & _)]; [|done| |done].
  - destruct (negb _); [done|]. unfold throwM, lift. destruct (is_directory _ _); cbn [snd];
      repeat first [rewrite lookup_insert_ne by congruence|rewrite lookup_delete_ne by congruence]; done.
  - done.
Qed.

Lemma tmp_ne d n : d ++ [n +:+ ".tmp"] <> d ++ [n].
Proof.
  intros E. apply app_inv_head in E. injection E as E. apply (f_equal String.length) in E. rewrite length_app_s in E.
  cbn in E. lia.
Qed.

(** When it succeeds. *)
Lemma file_write_ok d n data f :
  is_directory d f = true -> f !! (d ++ [n]) <> Some Dir -> f !! (d ++ [n +:+ ".tmp"]) = None ->
  (forall c, write_ok fe (d ++ [n +:+ ".tmp"]) c = true) ->
  exists f', file_write fe (d ++ [n]) data f = (Ret tt, f') /\ f' !! (d ++ [n]) = Some (File data) /\
    f' !! (d ++ [n +:+ ".tmp"]) = None.
Proof.
  intros Hd Hp Ht Hw. unfold file_write. rewrite tmp_of_snoc.
  destruct (open_file_ok (d ++ [n +:+ ".tmp"]) f) as [f1 E1]; [by rewrite Ht|by rewrite parent_path_snoc|done|].
  rewrite (bind_run _ _ tt f f1) by done. rewrite Hw. cbn [negb].
  pose proof (open_file_Ret _ _ _ E1) as (_ & Ef & _). specialize (Ef Ht).
  rewrite bind_gets. unfold read. rewrite Ef. cbn [default]. rewrite overwrite_fresh.
  rewrite (bind_run _ _ tt f1 (<[d ++ [n +:+ ".tmp"] := File data]> f1)) by done. rewrite bind_gets.
  assert (is_directory (d ++ [n]) (<[d ++ [n +:+ ".tmp"] := File data]> f1) = false) as ->.
  { apply bool_decide_eq_false. rewrite lookup_insert_ne by apply tmp_ne.
    pose proof (open_file_lookup (d ++ [n +:+ ".tmp"]) f (d ++ [n])) as K. unfold exec in K. rewrite E1 in K.
    cbn [snd] in K. destruct K as [->|(K & _)]; [done|]. by apply eq_sym, tmp_ne in K. }
  eexists. split; [done|]. rewrite lookup_insert_eq. rewrite lookup_insert_ne by (symmetry; apply tmp_ne).
  by rewrite lookup_delete_eq.
Qed.
End files.

Lemma String_append_inj t a b : a +:+ t = b +:+ t -> a = b.
Proof.
  revert b. induction a as [|c a IH]; intros [|d b] E.
  - done.
  - apply (f_equal String.length) in E. rewrite !length_app_s in E. cbn in E. lia.
  - apply (f_equal String.length) in E. rewrite !length_app_s in E. cbn in E. lia.
  - change (String c a +:+ t) with (String c (a +:+ t)) in E. change (String d b +:+ t) with (String d (b +:+ t)) in E.
    injection E as -> E. f_equal. by apply IH.
Qed.

Lemma in_version : VersionFile ∈ [VersionFile; StateFile].
Proof. by left. Qed.
Lemma in_state : StateFile ∈ [VersionFile; StateFile].
Proof. right. by left. Qed.
#[local] Hint Resolve in_version in_state : aklite.

(** ** The state of the apps *)

Section spec.
Context {D : Type} (env : ComposeEnv D).
Abbreviation W := (World D).
Implicit Types (f : FS) (w : World D) (a : App).

Abbreviation root_of n := (compose_root env ++ [n]).
Abbreviation meta_of n := (root_of n ++ [MetaDir]).

(** The paths of an app that the engine keeps its state in. *)
Definition meta_path (n : string) (q : Path) : Prop :=
  q = root_of n \/ q = meta_of n \/ exists x, q = meta_of n ++ [x].

(** The files with the state are files, and no temporary file is left. *)
Definition meta_ok f : Prop :=
  forall n x, x ∈ [VersionFile; StateFile] ->
    f !! (meta_of n ++ [x]) <> Some Dir /\ f !! (meta_of n ++ [x +:+ ".tmp"]) = None.

(** The files record the version and the state [s] for the app. *)
Definition recorded f a (s : Z) : Prop :=
  exists v b, f !! (meta_of (app_name a) ++ [VersionFile]) = Some (File v) /\ c_str (str_take 4096 v) = app_uri a /\
    f !! (meta_of (app_name a) ++ [StateFile]) = Some (File b) /\ bytes_int (str_take 4 b) = s.

Lemma version_file_eq n : version_file (root_of n) = meta_of n ++ [VersionFile].
Proof. unfold version_file. by rewrite <- !app_assoc. Qed.
Lemma state_file_eq n : state_file (root_of n) = meta_of n ++ [StateFile].
Proof. unfold state_file. by rewrite <- !app_assoc. Qed.

Lemma make_AppState_recorded a sv f s :
  recorded f a s ->
  make_AppState (fs_env env) a (root_of (app_name a)) sv f = (Ret {| version := app_uri a; state := s |}, f).
Proof.
  intros (v & b & Hv & Ev & Hs & Es). unfold make_AppState. rewrite version_file_eq, state_file_eq.
  rewrite (bind_run _ _ (str_take 4096 v) f f) by by apply file_read_file. rewrite Ev, String.eqb_refl, orb_true_r.
  rewrite (bind_run _ _ (str_take 4 b) f f) by by apply file_read_file. by rewrite Es.
Qed.

Definition fetched_state (s : Z) : bool := (s =? kPulled) || (kInstalled <=? s).

(** Whether an app counts as fetched is what the files say. *)
Lemma compose_isFetched_recorded a w :
  app_uri a <> "" ->
  the false (run (compose_isFetched env a) w) = true <->
  fs_exists (root_of (app_name a)) (wfs w) = true /\ exists s, recorded (wfs w) a s /\ fetched_state s = true.
Proof.
  intros Hu. unfold compose_isFetched, appRoot. split.
  - unfold run. rewrite bind_get_fs. destruct (fs_exists _ _); cbn [negb]; [|done]. intros H. split; [done|].
    unfold try_catch, app_state, on_fs, appRoot in H. unfold mbind at 1, M_bind in H.
    destruct (make_AppState _ _ _ _ _) as [[st|e] f1] eqn:E; [|discriminate H]. cbn in H.
    unfold make_AppState in E. rewrite version_file_eq, state_file_eq in E.
    apply M_bind_Ret in E as (vb & f2 & E1 & E). pose proof (file_read_Ret _ _ _ _ _ _ E1) as ->.
    assert (str_empty (app_uri a) = false) as He by by destruct (app_uri a). rewrite He in E. cbn [orb] in E.
    destruct (String.eqb_spec (c_str (str_take 4096 (default "" (read (meta_of (app_name a) ++ [VersionFile]) (wfs w))))) (app_uri a))
      as [Ev|]; [|injection E as <- _; discriminate H].
    apply M_bind_Ret in E as (sb & f3 & E2 & E). injection E as <- _. pose proof (file_read_Ret _ _ _ _ _ _ E2) as ->.
    pose proof (file_read_lookup (fs_env env) (meta_of (app_name a) ++ [VersionFile]) 4096 (wfs w) (meta_of (app_name a) ++ [StateFile])) as K.
    unfold exec in K. rewrite E1 in K. cbn [snd] in K. destruct K as [K|(K & _)]; [|by apply app_inv_head in K].
    unfold read in *. rewrite K in H.
    destruct (wfs w !! (meta_of (app_name a) ++ [VersionFile])) as [[|v]|] eqn:Ev'; [done| |done].
    destruct (wfs w !! (meta_of (app_name a) ++ [StateFile])) as [[|b]|] eqn:Eb; [discriminate H| |discriminate H].
    exists (bytes_int (str_take 4 b)). split; [by exists v, b|exact H].
  - intros (He & s & Hr & Hs). unfold run. rewrite bind_get_fs, He. cbn [negb].
    unfold try_catch, app_state, on_fs, appRoot, mbind, M_bind. by rewrite (make_AppState_recorded _ _ _ _ Hr).
Qed.

(** *** What the engine relies on *)

(** The directories of the states can be written, and the commands that the engine runs, archives that
    are extracted included, leave them alone. *)
Class MetaSpec : Prop := {
  meta_writable n x c : write_ok (fs_env env) (meta_of n ++ [x]) c = true;
  commands_keep_meta cmd w p w' n q :
    run_process (exec_env env) cmd w = (p, w') -> meta_path n q -> wfs w' !! q = wfs w !! q;
}.
Context {meta_spec : MetaSpec}.

(** The states of all apps stay. *)
Definition meta_same w w' : Prop := forall n q, meta_path n q -> wfs w' !! q = wfs w !! q.
#[local] Instance meta_same_preorder : PreOrder meta_same.
Proof. split; [by intros w n q|]. intros w w1 w2 H1 H2 n q Hq. rewrite (H2 n q Hq). by apply (H1 n). Qed.

Lemma exec_meta_same cmd err dir : preserves meta_same (exec_ env cmd err dir).
Proof.
  intros w n q Hq. unfold exec, exec_, exec_in, exec_cmd, mbind, M_bind.
  destruct (run_process _ _ w) as [p w1] eqn:E. pose proof (commands_keep_meta _ _ _ _ n q E Hq) as K.
  destruct (execute_process _ p) as [[r|e]|]; [destruct (negb _)|..]; done.
Qed.
Hint Resolve exec_meta_same : aklite.

Lemma archive_not_meta uri a : archive_file_name uri a <> MetaDir.
Proof.
  unfold archive_file_name. intros E. pose proof (f_equal String.length E) as L. rewrite !length_app_s in L. cbn in L.
  destruct (shortHash (digest uri)); [|cbn in L; lia]. destruct (app_name a); [discriminate E|cbn in L; lia].
Qed.

Lemma download_meta_same a : preserves meta_same (download env a).
Proof.
  assert (G : forall {A} (q : W -> A), preserves meta_same (gets q)) by (intros; apply preserves_gets; apply _).
  unfold download. pstep; eauto with aklite.
  - intros w n q Hq. unfold exec, downloadBlobTo. destruct (_ || _); [done|].
    destruct (downloadBlob_by _ _ _ _ _) as [o c]. cbn [snd wfs].
    assert (Hne : appRoot env a ++ [archive_file_name a0 a] <> q).
    { unfold appRoot. intros <-. destruct Hq as [E|[E|(x & E)]]; rewrite <- ?app_assoc in E; apply app_inv_head in E.
      - discriminate E.
      - injection E as _ E. by apply archive_not_meta in E.
      - discriminate E. }
    destruct c; [by rewrite lookup_insert_ne|by rewrite lookup_delete_ne].
  - unfold verifyAppArchive. pstep; apply exec_meta_same.
  - unfold extractAppArchive. pstep; apply exec_meta_same.
Qed.
Hint Resolve download_meta_same : aklite.

Lemma meta_same_ok w w' : meta_same w w' -> meta_ok (wfs w) -> meta_ok (wfs w').
Proof.
  intros S H n x Hx. destruct (H n x Hx) as [H1 H2]. split; rewrite (S n); [done| |done|]; right; right; eauto.
Qed.

(** *** The changes of the state files *)

Lemma meta_file_ne n x n' x' : (n, x) <> (n', x') -> meta_of n ++ [x] <> meta_of n' ++ [x'].
Proof. intros Hne E. rewrite <- !app_assoc in E. apply app_inv_head in E. by injection E as -> ->. Qed.

Lemma tmp_not_meta x y : x ∈ [VersionFile; StateFile] -> y ∈ [VersionFile; StateFile] -> x +:+ ".tmp" <> y.
Proof.
  intros Hx Hy E. rewrite !elem_of_cons in Hx, Hy.
  destruct Hx as [->|[->|Hx]]; [| |by apply not_elem_of_nil in Hx];
    (destruct Hy as [->|[->|Hy]]; [discriminate E|discriminate E|by apply not_elem_of_nil in Hy]).
Qed.

Lemma meta_read_ok n x k f : x ∈ [VersionFile; StateFile] -> meta_ok f -> meta_ok (exec (file_read (fs_env env) (meta_of n ++ [x]) k) f).
Proof.
  intros Hx H n' y Hy. destruct (H n' y Hy) as [H1 H2]. split.
  - destruct (file_read_lookup (fs_env env) (meta_of n ++ [x]) k f (meta_of n' ++ [y])) as [->|(_ & _ & ->)]; done.
  - destruct (file_read_lookup (fs_env env) (meta_of n ++ [x]) k f (meta_of n' ++ [y +:+ ".tmp"])) as [->|(E & _)]; [done|].
    rewrite <- !app_assoc in E. apply app_inv_head in E. injection E as _ E. by apply tmp_not_meta in E.
Qed.

Lemma meta_write_ok n x data f :
  x ∈ [VersionFile; StateFile] -> meta_ok f -> meta_ok (exec (file_write (fs_env env) (meta_of n ++ [x]) data) f).
Proof.
  intros Hx H. destruct (H n x Hx) as [Hp Ht]. destruct (is_directory (meta_of n) f) eqn:Hd.
  - destruct (file_write_ok (fs_env env) (meta_of n) x data f Hd Hp Ht) as (f' & E & E1 & E2); [intros; apply meta_writable|].
    intros n' y Hy. destruct (H n' y Hy) as [H1 H2].
    pose proof (file_write_lookup (fs_env env) (meta_of n) x data f) as K. unfold exec in *. rewrite E in *. cbn [snd] in *.
    split.
    + destruct (decide ((n, x) = (n', y))) as [[= <- <-]|Hne]; [by rewrite E1|]. rewrite K; [done|..].
      * apply meta_file_ne. congruence.
      * apply meta_file_ne. intros [= <- Ey]. symmetry in Ey. by apply tmp_not_meta in Ey.
    + destruct (decide ((n, x) = (n', y))) as [[= <- <-]|Hne]; [done|]. rewrite K; [done|..].
      * apply meta_file_ne. intros [= <- Ey]. by apply tmp_not_meta in Ey.
      * apply meta_file_ne. intros [= <- Ey]. apply Hne. f_equal. by apply (String_append_inj ".tmp").
  - assert (exec (file_write (fs_env env) (meta_of n ++ [x]) data) f = f) as ->; [|done].
    unfold file_write, open_file. rewrite tmp_of_snoc. unfold exec, mbind, M_bind, gets. rewrite Ht, parent_path_snoc, Hd. done.
Qed.

(** *** The operations of the engine *)

(** The states of the apps of other names stay, and the files stay as they should be. *)
Definition others_same a w w' : Prop :=
  (forall n q, n <> app_name a -> meta_path n q -> wfs w' !! q = wfs w !! q) /\ (meta_ok (wfs w) -> meta_ok (wfs w')).
#[local] Instance others_same_preorder a : PreOrder (others_same a).
Proof.
  split; [intros w; by split|]. intros w w1 w2 [H1 O1] [H2 O2]. split; [|auto].
  intros n q Hn Hq. rewrite (H2 n q Hn Hq). by apply (H1 n).
Qed.

Lemma meta_same_others {A} a (m : M W A) : preserves meta_same m -> preserves (others_same a) m.
Proof. intros H w. specialize (H w). split; [intros n q _; apply H|by apply meta_same_ok]. Qed.

Lemma others_fs a {A} (m : M FS A) :
  (forall f n q, n <> app_name a -> meta_path n q -> exec m f !! q = f !! q) ->
  (forall f, meta_ok f -> meta_ok (exec m f)) -> preserves (others_same a) (on_fs m).
Proof.
  intros H1 H2 w. specialize (H1 (wfs w)). specialize (H2 (wfs w)). unfold exec, on_fs in *.
  destruct (m (wfs w)) as [o f']. by split.
Qed.

Lemma other_meta_path n n' x q : n <> n' -> meta_path n q -> q <> meta_of n' ++ [x].
Proof.
  intros Hne Hq ->. destruct Hq as [E|[E|(y & E)]]; rewrite <- !app_assoc in E; apply app_inv_head in E; [discriminate E..|].
  by injection E.
Qed.

Lemma meta_read_others a x k : x ∈ [VersionFile; StateFile] ->
  preserves (others_same a) (on_fs (file_read (fs_env env) (meta_of (app_name a) ++ [x]) k)).
Proof.
  intros Hx. apply others_fs; [|by intros f; apply meta_read_ok]. intros f n q Hn Hq.
  destruct (file_read_lookup (fs_env env) (meta_of (app_name a) ++ [x]) k f q) as [->|(E & _)]; [done|].
  by apply (other_meta_path n (app_name a) x) in Hq.
Qed.
Lemma meta_write_others a x data : x ∈ [VersionFile; StateFile] ->
  preserves (others_same a) (on_fs (file_write (fs_env env) (meta_of (app_name a) ++ [x]) data)).
Proof.
  intros Hx. apply others_fs; [|by intros f; apply meta_write_ok]. intros f n q Hn Hq.
  by apply file_write_lookup; eapply other_meta_path.
Qed.

Lemma on_fs_bind {A B : Type} (m : M FS A) (k : A -> M FS B) w : on_fs (m ≫= k) w = (on_fs m ≫= fun x => on_fs (k x)) w.
Proof. unfold on_fs, mbind, M_bind. by destruct (m (wfs w)) as [[x|e] f1]. Qed.
Lemma preserves_on_fs_bind {A B : Type} (R : W -> W -> Prop) `{!PreOrder R} (m : M FS A) (k : A -> M FS B) :
  preserves R (on_fs m) -> (forall x, preserves R (on_fs (k x))) -> preserves R (on_fs (m ≫= k)).
Proof. intros H1 H2 w. unfold exec. rewrite on_fs_bind. by apply (preserves_bind R). Qed.
Lemma preserves_on_fs_ret {A} (R : W -> W -> Prop) `{!PreOrder R} (x : A) : preserves R (on_fs (mret x)).
Proof. intros w. unfold exec, on_fs. destruct w. cbn. reflexivity. Qed.

Lemma app_state_others a sv : preserves (others_same a) (app_state env a sv).
Proof.
  unfold app_state, appRoot, make_AppState. rewrite version_file_eq, state_file_eq.
  apply preserves_on_fs_bind; [apply _|apply meta_read_others; eauto with aklite|]. intros b. cbn zeta. case_match.
  - apply preserves_on_fs_bind; [apply _|apply meta_read_others; eauto with aklite|]. intros s0. by apply preserves_on_fs_ret, _.
  - destruct sv; [|by apply preserves_on_fs_ret, _].
    apply preserves_on_fs_bind; [apply _|apply meta_write_others; eauto with aklite|]. intros _. by apply preserves_on_fs_ret, _.
Qed.
Lemma set_state_others a st s0 : preserves (others_same a) (set_state env a st s0).
Proof.
  unfold set_state, appRoot, setState. rewrite state_file_eq. intros w.
  pose proof (meta_write_others a StateFile (int_bytes s0) in_state w) as K.
  unfold exec, on_fs, try_catch, mbind, M_bind in *. by destruct (file_write _ _ _ (wfs w)) as [[x|e] f1].
Qed.
Lemma mkdir_others a : preserves (others_same a) (on_fs (create_directories (meta_of (app_name a)))).
Proof.
  apply others_fs.
  - intros f n q Hn Hq. destruct (create_directories_lookup (meta_of (app_name a)) f q) as [E|(_ & _ & [r E])]; [done|].
    exfalso. apply Hn. destruct Hq as [->|[->|(x & ->)]]; rewrite <- !app_assoc in E; apply app_inv_head in E; by injection E.
  - intros f H n x Hx. destruct (H n x Hx) as [H1 H2].
    assert (L : forall y, exec (create_directories (meta_of (app_name a))) f !! (meta_of n ++ [y]) = f !! (meta_of n ++ [y])).
    { intros y. destruct (create_directories_lookup (meta_of (app_name a)) f (meta_of n ++ [y])) as [E|(_ & _ & E)]; [done|].
      exfalso. apply prefix_length in E. rewrite !length_app in E. cbn in E. lia. }
    by rewrite !L.
Qed.
Hint Resolve app_state_others set_state_others mkdir_others : aklite.

Lemma compose_fetch_others a : preserves (others_same a) (compose_fetch env a).
Proof.
  unfold compose_fetch, runComposeCmd, appRoot. pstep; apply meta_same_others; eauto with aklite.
Qed.

(** *** A download that succeeds *)

(** The version of the app is recorded. *)
Record versioned f a : Prop := {
  vs_root : fs_exists (root_of (app_name a)) f = true;
  vs_meta : is_directory (meta_of (app_name a)) f = true;
  vs_version : exists v, f !! (meta_of (app_name a) ++ [VersionFile]) = Some (File v) /\ c_str (str_take 4096 v) = app_uri a;
  vs_ok : meta_ok f;
}.

Lemma meta_same_versioned a w w' : meta_same w w' -> versioned (wfs w) a -> versioned (wfs w') a.
Proof.
  intros S [H1 H2 H3 H4]. split; [..|by eapply meta_same_ok].
  - unfold fs_exists in *. rewrite (S (app_name a)); [done|by left].
  - unfold is_directory in *. rewrite (S (app_name a)); [done|by right; left].
  - rewrite (S (app_name a)); [done|]. right. right. eauto.
Qed.

Lemma set_state_run a st s0 w :
  versioned (wfs w) a ->
  exists w', set_state env a st s0 w = (Ret {| version := version st; state := s0 |}, w') /\ versioned (wfs w') a /\
    wfs w' !! (meta_of (app_name a) ++ [StateFile]) = Some (File (int_bytes s0)).
Proof.
  intros [H1 H2 H3 H4]. destruct (H4 (app_name a) StateFile in_state) as [Hp Ht].
  destruct (file_write_ok (fs_env env) (meta_of (app_name a)) StateFile (int_bytes s0) (wfs w) H2 Hp Ht) as (f' & E & E1 & E2);
    [intros; apply meta_writable|].
  exists (mkW f' (wdocker w)). unfold set_state, on_fs, setState, appRoot, try_catch. rewrite state_file_eq.
  rewrite (bind_run _ _ tt (wfs w) f') by done. split_and!; [done| |done]. cbn [wfs].
  pose proof (file_write_lookup (fs_env env) (meta_of (app_name a)) StateFile (int_bytes s0) (wfs w)) as K.
  pose proof (meta_write_ok (app_name a) StateFile (int_bytes s0) (wfs w) in_state H4) as Hok.
  unfold exec in K, Hok. rewrite E in K, Hok. cbn [snd] in K, Hok.
  assert (Hl : forall q y, (length q < length (meta_of (app_name a) ++ [y]))%nat -> q <> meta_of (app_name a) ++ [y]).
  { intros q y L ->. lia. }
  split; [| | |done].
  - unfold fs_exists in *. rewrite K; [done|..]; apply Hl; rewrite !length_app; cbn; lia.
  - unfold is_directory in *. rewrite K; [done|..]; apply Hl; rewrite !length_app; cbn; lia.
  - rewrite K; [done|..]; apply meta_file_ne; done.
Qed.

(** Reading or recording the version. *)
Lemma app_state_versioned a w st w' :
  plain_version (app_uri a) -> fs_exists (root_of (app_name a)) (wfs w) = true ->
  is_directory (meta_of (app_name a)) (wfs w) = true -> meta_ok (wfs w) ->
  app_state env a true w = (Ret st, w') -> versioned (wfs w') a.
Proof.
  intros Hp Hr Hm Hok H. pose proof (app_state_others a true w) as [_ Ok']. unfold exec in Ok'. rewrite H in Ok'.
  specialize (Ok' Hok). cbn [snd] in Ok'.
  unfold app_state in H. apply on_fs_Ret in H as [H _]. unfold make_AppState, appRoot in H.
  rewrite version_file_eq, state_file_eq in H. apply M_bind_Ret in H as (b & f1 & H1 & H).
  pose proof (file_read_Ret _ _ _ _ _ _ H1) as Eb.
  assert (K1 : forall q, q <> meta_of (app_name a) ++ [VersionFile] -> f1 !! q = wfs w !! q).
  { intros q Hq. pose proof (file_read_lookup (fs_env env) (meta_of (app_name a) ++ [VersionFile]) 4096 (wfs w) q) as K.
    unfold exec in K. rewrite H1 in K. destruct K as [K|(K & _)]; done. }
  assert (Sh : forall q (L : (length q <= length (meta_of (app_name a)))%nat), wfs w' !! q = wfs w !! q).
  { intros q L. assert (Hq : forall y, q <> meta_of (app_name a) ++ [y]).
    { intros y ->. rewrite !length_app in L. cbn in L. lia. }
    destruct (str_empty _ || _).
    - apply M_bind_Ret in H as (b2 & f2 & H2 & H). injection H as _ <-.
      pose proof (file_read_lookup (fs_env env) (meta_of (app_name a) ++ [StateFile]) 4 f1 q) as K.
      unfold exec in K. rewrite H2 in K. destruct K as [K|(K & _)]; [|by apply Hq in K]. cbn in K. rewrite K. by apply K1.
    - apply M_bind_Ret in H as ([] & f2 & H2 & H). injection H as _ <-.
      pose proof (file_write_lookup (fs_env env) (meta_of (app_name a)) VersionFile (app_uri a) f1 q (Hq _) (Hq _)) as K.
      unfold exec in K. rewrite H2 in K. cbn in K. rewrite K. by apply K1. }
  split; [| | |done].
  - unfold fs_exists in *. rewrite Sh; [done|]. rewrite !length_app. cbn. lia.
  - unfold is_directory in *. by rewrite Sh.
  - assert (str_empty (app_uri a) = false) as He by (destruct Hp as [Hne _]; by destruct (app_uri a)).
    rewrite He in H. cbn [orb] in H. destruct (String.eqb_spec (c_str b) (app_uri a)) as [Ev|_].
    + apply M_bind_Ret in H as (b2 & f2 & H2 & H). injection H as _ <-.
      pose proof (file_read_lookup (fs_env env) (meta_of (app_name a) ++ [StateFile]) 4 f1 (meta_of (app_name a) ++ [VersionFile])) as K.
      unfold exec in K. rewrite H2 in K. destruct K as [K|(K & _)]; [|by apply app_inv_head in K]. cbn in K. rewrite K.
      pose proof (file_read_lookup (fs_env env) (meta_of (app_name a) ++ [VersionFile]) 4096 (wfs w) (meta_of (app_name a) ++ [VersionFile])) as K0.
      unfold exec in K0. rewrite H1 in K0. cbn in K0. subst b. unfold read in Ev.
      destruct K0 as [K0|(_ & K0 & _)]; [|rewrite K0 in Ev; cbn in Ev; by rewrite <- Ev in He].
      rewrite K0. destruct (wfs w !! _) as [[|v]|]; [cbn in Ev; by rewrite <- Ev in He|eauto|cbn in Ev; by rewrite <- Ev in He].
    + apply M_bind_Ret in H as ([] & f2 & H2 & H). injection H as _ <-.
      destruct (Hok (app_name a) VersionFile in_version) as [Hp1 Ht1].
      destruct (file_write_ok (fs_env env) (meta_of (app_name a)) VersionFile (app_uri a) f1) as (f' & E & E1 & _).
      { unfold is_directory in *. rewrite K1; [done|]. intros X. apply (f_equal length) in X. rewrite !length_app in X. cbn in X. lia. }
      { pose proof (meta_read_ok (app_name a) VersionFile 4096 (wfs w) in_version Hok) as Hok1. unfold exec in Hok1.
        rewrite H1 in Hok1. apply (Hok1 (app_name a) VersionFile in_version). }
      { rewrite K1; [done|]. apply tmp_ne. }
      { intros; apply meta_writable. }
      rewrite E in H2. injection H2 as ->. rewrite E1. exists (app_uri a). split; [done|]. by apply version_roundtrip.
Qed.

Lemma run_meta_same {A} (m : M W A) w o w' : preserves meta_same m -> m w = (o, w') -> meta_same w w'.
Proof. intros H E. specialize (H w). unfold exec in H. by rewrite E in H. Qed.

Lemma compose_fetch_OK a w r w' :
  plain_version (app_uri a) -> meta_ok (wfs w) -> compose_fetch env a w = (Ret r, w') -> Result_bool r = true ->
  fs_exists (root_of (app_name a)) (wfs w') = true /\ recorded (wfs w') a kPulled.
Proof.
  intros Hp Hok H Hr. unfold compose_fetch, appRoot in H. apply M_bind_Ret in H as ([] & w1 & H1 & H).
  assert (V1 : fs_exists (root_of (app_name a)) (wfs w1) = true /\ is_directory (meta_of (app_name a)) (wfs w1) = true /\ meta_ok (wfs w1)).
  { pose proof (mkdir_others a w) as [_ Ok1]. unfold exec in Ok1. rewrite H1 in Ok1. apply on_fs_Ret in H1 as [H1 _].
    apply create_directories_dirs in H1. split_and!; [| |by apply Ok1].
    - apply bool_decide_eq_true. rewrite H1; [eauto|by destruct (compose_root env)|by eexists].
    - apply bool_decide_eq_true. apply H1; [by destruct (compose_root env)|done]. }
  destruct V1 as (R1 & M1 & O1). unfold try_catch in H.
  match type of H with (match ?m with _ => _ end) = _ => destruct m as [[r'|e] w2] eqn:E end; [|injection H as <- _; discriminate Hr].
  injection H as <- <-. apply M_bind_Ret in E as (st & w3 & E1 & E). apply app_state_versioned in E1; [|done..].
  apply M_bind_Ret in E as ([] & w4 & E2 & E). pose proof (run_meta_same _ _ _ _ (download_meta_same a) E2) as S2.
  pose proof (meta_same_versioned a _ _ S2 E1) as V4.
  destruct (set_state_run a st kDownloaded w4 V4) as (w5 & E5 & V5 & _). rewrite (bind_run _ _ _ _ _ E5) in E.
  apply M_bind_Ret in E as ([] & w6 & E6 & E). pose proof (run_meta_same _ _ _ _ (exec_meta_same _ _ _) E6) as S6.
  pose proof (meta_same_versioned a _ _ S6 V5) as V6.
  destruct (set_state_run a {| version := version st; state := kDownloaded |} kVerified w6 V6) as (w7 & E7 & V7 & _).
  rewrite (bind_run _ _ _ _ _ E7) in E.
  apply M_bind_Ret in E as ([] & w8 & E8 & E). pose proof (run_meta_same _ _ _ _ (exec_meta_same _ _ _) E8) as S8.
  pose proof (meta_same_versioned a _ _ S8 V7) as V8.
  destruct (set_state_run a {| version := version st; state := kVerified |} kPulled w8 V8) as (w9 & E9 & V9 & Es).
  rewrite (bind_run _ _ _ _ _ E9) in E. injection E as _ <-. destruct V9 as [V91 _ (v & Ev & Ec) _].
  split; [done|]. exists v, (int_bytes kPulled). split_and!; [done..|].
  rewrite <- (app_nil_r (int_bytes kPulled)). apply int_bytes_roundtrip. unfold int_min, int_max, kPulled. lia.
Qed.

(** *** The check of another app *)

(** The outcome of reading a file depends on the file and on the directory. *)
Definition file_content (p : Path) f : outcome string :=
  match f !! p with
  | Some Dir => throw runtime_error ("Failed to open/create a file: " +:+ path_str p)
  | Some (File c) => mret c
  | None => if is_directory (parent_path p) f && write_ok (fs_env env) p "" then mret ""
            else throw runtime_error ("Failed to open/create a file: " +:+ path_str p)
  end.
Lemma file_read_content p k f :
  run (file_read (fs_env env) p k) f = (c ← file_content p f; mret (str_take k c)).
Proof.
  unfold file_read, open_file, file_content, run, mbind, M_bind, outcome_bind, gets, modify.
  destruct (f !! p) as [[|c]|] eqn:E; cbn; [done|unfold read; by rewrite E|].
  destruct (_ && _); [|done]. cbn. unfold read. by rewrite lookup_insert_eq.
Qed.

Lemma run_bind {S A B : Type} (m : M S A) (k : A -> M S B) x :
  run (m ≫= k) x = match run m x with Ret y => run (k y) (exec m x) | Throw e => Throw e end.
Proof. unfold run, exec, mbind, M_bind. by destruct (m x) as [[]?]. Qed.

Lemma make_AppState_content n u f :
  run (make_AppState (fs_env env) {| app_name := n; app_uri := u |} (root_of n) false) f =
  (c ← file_content (meta_of n ++ [VersionFile]) f;
   if str_empty u || String.eqb (c_str (str_take 4096 c)) u then
     b ← file_content (meta_of n ++ [StateFile]) f;
     mret {| version := c_str (str_take 4096 c); state := bytes_int (str_take 4 b) |}
   else mret {| version := c_str (str_take 4096 c); state := kUnknown |}).
Proof.
  unfold make_AppState. rewrite version_file_eq, state_file_eq, run_bind, file_read_content. cbn [app_uri].
  destruct (file_content (meta_of n ++ [VersionFile]) f) as [c|e]; [|done]. cbn [mbind outcome_bind mret outcome_ret].
  destruct (str_empty u || String.eqb (c_str (str_take 4096 c)) u); [|done]. rewrite run_bind, file_read_content.
  set (f1 := exec (file_read (fs_env env) (meta_of n ++ [VersionFile]) 4096) f).
  assert (K : forall q, q <> meta_of n ++ [VersionFile] -> f1 !! q = f !! q).
  { intros q Hq. unfold f1. by destruct (file_read_lookup (fs_env env) (meta_of n ++ [VersionFile]) 4096 f q) as [E|(E & _)]. }
  assert (file_content (meta_of n ++ [StateFile]) f1 = file_content (meta_of n ++ [StateFile]) f) as ->.
  { unfold file_content, is_directory. rewrite parent_path_snoc, !K; [done|..].
    - intros X. apply (f_equal length) in X. rewrite !length_app in X. cbn in X. lia.
    - intros X. by apply app_inv_head in X. }
  by destruct (file_content (meta_of n ++ [StateFile]) f).
Qed.

Lemma compose_isFetched_ext b w w' :
  (forall q, meta_path (app_name b) q -> wfs w' !! q = wfs w !! q) ->
  run (compose_isFetched env b) w' = run (compose_isFetched env b) w.
Proof.
  intros H. assert (E : forall x, file_content (meta_of (app_name b) ++ [x]) (wfs w') = file_content (meta_of (app_name b) ++ [x]) (wfs w)).
  { intros x. unfold file_content, is_directory. rewrite parent_path_snoc, !H; [done|right; by left|right; right; eauto]. }
  unfold compose_isFetched, appRoot, run. rewrite !bind_get_fs.
  assert (fs_exists (root_of (app_name b)) (wfs w') = fs_exists (root_of (app_name b)) (wfs w)) as ->.
  { unfold fs_exists. by rewrite H by by left. }
  destruct (fs_exists _ _); [|done]. cbn [negb].
  pose proof (make_AppState_content (app_name b) (app_uri b) (wfs w)) as C.
  pose proof (make_AppState_content (app_name b) (app_uri b) (wfs w')) as C'. rewrite !E, <- C in C'.
  unfold try_catch, app_state, on_fs, appRoot, run, mbind, M_bind in *. destruct b as [n u]. cbn [app_name app_uri] in *.
  destruct (make_AppState _ _ _ _ (wfs w)) as [o f1], (make_AppState _ _ _ _ (wfs w')) as [o' f1']. cbn in C'. subst o'.
  by destruct o.
Qed.

(** The engine does what the package manager relies on, for apps with proper URIs. *)
#[export] Instance compose_engine_spec :
  AppEngineSpec (H := compose_engine env) (fun a => plain_version (app_uri a)) (fun w => meta_ok (wfs w)).
Proof.
  split.
  - intros a w _ Hok. by apply (compose_fetch_others a w).
  - intros a w r w' Hp Hok H Hr. cbn in *. destruct (compose_fetch_OK a w r w' Hp Hok H Hr) as [He Hrec].
    apply compose_isFetched_recorded; [by destruct Hp|]. split; [done|]. by exists kPulled.
  - intros a b w r w' Hp Hok H Hr Hne Hb. cbn in *. pose proof (compose_fetch_others a w) as [O _]. unfold exec in O.
    rewrite H in O. cbn [snd] in O. rewrite (compose_isFetched_ext b w); [done|]. intros q. apply O. congruence.
Qed.

(** ** Theorems *)


(** The step that brings an app up leaves the final state recorded. *)
Lemma bring_up_OK a st already ready not_ready action done w r w' :
  preserves meta_same action -> versioned (wfs w) a -> int_min <= done <= int_max ->
  bring_up env a st already ready not_ready action done w = (Ret r, w') -> Result_bool r = true ->
  recorded (wfs w') a done.
Proof.
  intros Ha V Hd H Hr. unfold bring_up in H. apply M_bind_Ret in H as (res & w1 & H1 & H).
  assert (V1 : versioned (wfs w1) a).
  { eapply meta_same_versioned; [|exact V]. eapply run_meta_same; [|exact H1].
    destruct already; [pstep|]. destruct ready; pstep. }
  destruct (Result_bool res) eqn:Hres; cbn [negb] in H; [|injection H as <- _; congruence].
  apply M_bind_Ret in H as (created & w2 & H2 & H).
  assert (V2 : versioned (wfs w2) a).
  { eapply meta_same_versioned; [|exact V1]. eapply run_meta_same; [|exact H2].
    unfold areContainersCreated, app_containers, get_fs. pstep. }
  destruct created; cbn [negb] in H; [|injection H as <- _; discriminate Hr].
  destruct (set_state_run a st done w2 V2) as (w3 & E3 & [_ _ (v & Ev & Ec) _] & Es).
  rewrite (bind_run _ _ _ _ _ E3) in H. injection H as _ <-. exists v, (int_bytes done). split_and!; [done..|].
  rewrite <- (app_nil_r (int_bytes done)). by apply int_bytes_roundtrip.
Qed.

Lemma recorded_versioned a w s0 :
  recorded (wfs w) a s0 -> fs_exists (root_of (app_name a)) (wfs w) = true ->
  is_directory (meta_of (app_name a)) (wfs w) = true -> meta_ok (wfs w) -> versioned (wfs w) a.
Proof. intros (v & b & H1 & H2 & _) He Hd Hok. split; eauto. Qed.

Lemma app_state_recorded a sv w s0 :
  recorded (wfs w) a s0 -> app_state env a sv w = (Ret {| version := app_uri a; state := s0 |}, w).
Proof. intros H. unfold app_state, on_fs, appRoot. rewrite (make_AppState_recorded _ _ _ _ H). by destruct w. Qed.

(** Running an app that is recorded as pulled or installed, if it reports success, leaves the app
    recorded as started; and installing an app that is recorded as started, if it reports success, takes
    that back: the app is then recorded as installed only, so that it no longer counts as running. *)
Theorem install_demotes a w s0 r w' :
  meta_ok (wfs w) -> fs_exists (root_of (app_name a)) (wfs w) = true ->
  is_directory (meta_of (app_name a)) (wfs w) = true -> app_uri a <> "" ->
  recorded (wfs w) a s0 -> fetched_state s0 = true ->
  (compose_run env a w = (Ret r, w') -> Result_bool r = true -> recorded (wfs w') a kStarted) /\
  (compose_install env a w = (Ret r, w') -> Result_bool r = true ->
     recorded (wfs w') a kInstalled /\ run (compose_isRunning env a) w' <> Ret true).
Proof.
  intros Hok He Hd Hu Hrec Hs. pose proof (recorded_versioned _ _ _ Hrec He Hd Hok) as V. split.
  - intros H Hr. unfold compose_run in H. rewrite bind_get_fs in H. unfold appRoot in H at 1. rewrite He in H. cbn [negb] in H.
    assert (Hf : compose_isFetched env a w = (Ret true, w)).
    { unfold compose_isFetched. rewrite bind_get_fs. unfold appRoot at 1. rewrite He. cbn [negb]. unfold try_catch.
      rewrite (bind_run _ _ _ _ _ (app_state_recorded a false w s0 Hrec)). unfold mret, M_ret. cbn [state].
      unfold fetched_state in Hs. by rewrite Hs. }
    rewrite (bind_run _ _ _ _ _ Hf) in H. cbn [negb] in H. rewrite (bind_run _ _ tt w w) in H by done.
    rewrite (bind_run _ _ _ _ _ (app_state_recorded a false w s0 Hrec)) in H.
    eapply bring_up_OK; [|exact V| |exact H|exact Hr]; [unfold compose_start, compose_installApp, runComposeCmd; pstep|]. unfold int_min, int_max, kStarted. lia.
  - intros H Hr. unfold compose_install in H. rewrite bind_get_fs in H. unfold appRoot in H at 1. rewrite He in H. cbn [negb] in H.
    rewrite (bind_run _ _ _ _ _ (app_state_recorded a false w s0 Hrec)) in H.
    assert (R : recorded (wfs w') a kInstalled).
    { eapply bring_up_OK; [|exact V| |exact H|exact Hr]; [unfold compose_start, compose_installApp, runComposeCmd; pstep|]. unfold int_min, int_max, kInstalled. lia. }
    split; [done|]. unfold compose_isRunning, run. rewrite bind_get_fs. destruct (fs_exists (appRoot env a) (wfs w')); cbn [negb]; [|done].
    match goal with |- fst (?m w') <> _ => change (run m w' <> Ret true) end. rewrite run_bind.
    match goal with |- match run ?m w' with _ => _ end <> _ => assert (T : m w' = (Ret false, w')) end.
    { unfold try_catch. rewrite (bind_run _ _ _ _ _ (app_state_recorded a false w' kInstalled R)). cbn [version state].
      by rewrite String.eqb_refl. }
    unfold run at 1, exec. rewrite T. cbn [fst snd]. unfold run, try_catch.
    match goal with |- fst (match ?m with _ => _ end) <> _ => destruct m as [[b|e] w2] eqn:E end; [|done].
    cbn. intros [= ->]. fs_step E c Hc. fs_step E cj Hcj. fs_step E services Hsv.
    destruct (bool_decide _); [discriminate E|]. fs_step E cs Hcs. fs_step E ct Hct. fs_step E rn Hrn.
    injection E as E _. by rewrite andb_false_r in E.
Qed.

(** If the download of a new version of an app fails at the registry while another version is recorded
    as pulled, installed or started, then the new version counts as fetched from then on, in the state of
    the old one: the version is recorded before the download, and the state of the version before stays. *)
Theorem failed_fetch_is_fetched a b w s0 uri e :
  plain_version (app_uri a) -> app_name b = app_name a -> app_uri b <> app_uri a ->
  meta_ok (wfs w) -> dirs (meta_of (app_name a)) (wfs w) -> recorded (wfs w) b s0 -> fetched_state s0 = true ->
  parseUri (app_uri a) true = Ret uri -> getManifest env uri ManifestFormat None = Throw e ->
  exists w', compose_fetch env a w = (Ret (result_failed (what e)), w') /\ recorded (wfs w') a s0 /\
    run (compose_isFetched env a) w' = Ret true.
Proof.
  intros Hp Hn Hne Hok Hd (v & bs & Hv & Ev & Hs & Es) Hf Hu Hm. rewrite Hn in Hv, Hs.
  destruct (Hok (app_name a) VersionFile in_version) as [Hp1 Ht1].
  assert (Hdir : is_directory (meta_of (app_name a)) (wfs w) = true).
  { apply bool_decide_eq_true, Hd; [by destruct (compose_root env)|done]. }
  destruct (file_write_ok (fs_env env) (meta_of (app_name a)) VersionFile (app_uri a) (wfs w) Hdir Hp1 Ht1)
    as (f' & E & E1 & _); [intros; apply meta_writable|].
  pose proof (file_write_lookup (fs_env env) (meta_of (app_name a)) VersionFile (app_uri a) (wfs w)) as K.
  unfold exec in K. rewrite E in K. cbn [snd] in K. exists (mkW f' (wdocker w)).
  assert (R : recorded f' a s0).
  { exists (app_uri a), bs. split_and!; [done|by apply version_roundtrip| |done].
    rewrite K; [done|..]; intros X; by apply app_inv_head in X. }
  split_and!; [|done|].
  - unfold compose_fetch, appRoot. rewrite (bind_run _ _ tt w w).
    2: { apply on_fs_Ret. split; [|done]. by apply create_directories_same. }
    unfold try_catch. rewrite (bind_run _ _ {| version := app_uri a; state := kUnknown |} w (mkW f' (wdocker w))).
    2: { unfold app_state, appRoot. apply on_fs_Ret. split; [|done]. unfold make_AppState. rewrite version_file_eq.
         rewrite (bind_run _ _ (str_take 4096 v) (wfs w) (wfs w)) by by apply file_read_file.
         assert (str_empty (app_uri a) = false) as -> by (destruct Hp as [? _]; by destruct (app_uri a)).
         rewrite Ev. destruct (String.eqb_spec (app_uri b) (app_uri a)); [done|]. cbn [orb].
         by rewrite (bind_run _ _ tt (wfs w) f'). }
    unfold download. unfold mbind, M_bind, lift. by rewrite Hu, Hm.
  - assert (T : the false (run (compose_isFetched env a) (mkW f' (wdocker w))) = true).
    { apply compose_isFetched_recorded; [by destruct Hp|]. split; [|eauto]. apply bool_decide_eq_true. cbn [wfs].
      rewrite K; [rewrite Hd; [eauto|by destruct (compose_root env)|by eexists]|..];
        intros X; apply (f_equal length) in X; rewrite !length_app in X; cbn in X; lia. }
    destruct (run (compose_isFetched env a) _) as [x|x]; [by cbn in T; subst x|discriminate T].
Qed.

(** Installing an app whose directory is there, but not the directory of its state, throws an exception
    instead of returning a failure. *)
Theorem install_throws a w :
  fs_exists (root_of (app_name a)) (wfs w) = true -> is_directory (meta_of (app_name a)) (wfs w) = false ->
  wfs w !! (meta_of (app_name a) ++ [VersionFile]) = None ->
  exists e, compose_install env a w = (Throw e, w).
Proof.
  intros He Hd Hv. unfold compose_install, appRoot. rewrite bind_get_fs, He. cbn [negb].
  unfold app_state, on_fs, make_AppState, file_read, open_file, appRoot, mbind, M_bind, gets. rewrite version_file_eq, Hv.
  rewrite parent_path_snoc, Hd. cbn. destruct w. eauto.
Qed.

End spec.
