(* ===== verification/ComposeEngineSample.v ===== *)
(** * A device with a docker compose app engine

    Commands succeed and do nothing, the registry serves the sample app of
    [RestorableSample.v] or does not answer. *)

From S2P Require Import Prelude Json Targets Registry Volume Exec Fs DockerClient Platform Device RestorableSample ComposeEngine ComposeEngineSpec.

Definition compose_sample_dev : DeviceEnv unit := {|
  fs_env := fs_env restorable_dev; exec_env := {| run_process _ w := (ended 0, w); is_tty := false |};
  docker_env := sample_docker; registry := sample_registry; auth_creds_endpoint := "creds"; file_capacity := 100; stops_when_refused := true;
  fy_tool := fy_tool restorable_dev; json_stream := json_stream restorable_dev; json_missing := JNull |}.

(** The same with a registry that is down. *)
Definition no_registry : RegistryEnv := {|
  http_get _ _ _ := {| body := ""; http_status_code := 503; isOk := false; resp_headers := ∅ |};
  http_download _ _ := ([], {| body := ""; http_status_code := 503; isOk := false; resp_headers := ∅ |});
  ota_get _ _ := {| body := ""; http_status_code := 503; isOk := false; resp_headers := ∅ |};
  sha256_hex _ := H0; toBase64 s := s; parseJSON := sample_json |}.
Definition offline_dev : DeviceEnv unit := {|
  fs_env := fs_env restorable_dev; exec_env := exec_env compose_sample_dev; docker_env := sample_docker;
  registry := no_registry; auth_creds_endpoint := "creds"; file_capacity := 100; stops_when_refused := true;
  fy_tool := fy_tool restorable_dev; json_stream := json_stream restorable_dev; json_missing := JNull |}.

Definition compose_sample_env (d : DeviceEnv unit) : ComposeEnv unit := {|
  compose_dev := d; compose_root := ["var"; "sota"; "compose-apps"]; compose_bin := "docker-compose ";
  statvfs _ _ := Some {| f_blocks := 1000; f_bavail := 100; f_bfree := 100; f_bsize := 4096 |} |}.
Abbreviation online := (compose_sample_env compose_sample_dev).
Abbreviation offline := (compose_sample_env offline_dev).

#[export] Instance online_spec : MetaSpec online.
Proof. split; [done|]. by intros cmd w p w' n q [= <- <-]. Qed.
#[export] Instance offline_spec : MetaSpec offline.
Proof. split; [done|]. by intros cmd w p w' n q [= <- <-]. Qed.

(** The app, and its new version. *)
Definition new_app : App :=
  {| app_name := "Shellhttpd"; app_uri := "hub.foundries.io/acme/Shellhttpd@sha256:0000000000000000000000000000000000000000000000000000000000000000" |}.

Lemma restorable_app_plain : plain_version (app_uri restorable_app).
Proof. split; [done|]. split; [by apply Nat.ltb_lt; vm_compute|by vm_compute]. Qed.
Lemma new_app_plain : plain_version (app_uri new_app).
Proof. split; [done|]. split; [by apply Nat.ltb_lt; vm_compute|by vm_compute]. Qed.

Definition pulled_device : World unit := exec (compose_fetch online restorable_app) empty_device.

Lemma empty_meta_ok : meta_ok online (wfs empty_device).
Proof. by intros n x Hx. Qed.
Lemma pulled_device_run : exists r, compose_fetch online restorable_app empty_device = (Ret r, pulled_device) /\ Result_bool r = true.
Proof.
  assert (T : is_throw (run (compose_fetch online restorable_app) empty_device) = false) by (vm_compute; reflexivity).
  eexists. split; [exact (run_the (result_failed "") _ _ T)|]. vm_compute. reflexivity.
Qed.
Lemma pulled_meta_ok : meta_ok online (wfs pulled_device).
Proof. apply (compose_fetch_others online restorable_app empty_device). apply empty_meta_ok. Qed.
Lemma pulled_recorded : recorded online (wfs pulled_device) restorable_app kPulled.
Proof.
  destruct pulled_device_run as (r & E & Hr).
  apply (compose_fetch_OK online restorable_app empty_device r pulled_device restorable_app_plain empty_meta_ok E Hr).
Qed.


Lemma install_demotes_witness :
  recorded online (wfs (exec (compose_install online restorable_app) pulled_device)) restorable_app kInstalled.
Proof.
  assert (T : is_throw (run (compose_install online restorable_app) pulled_device) = false) by (vm_compute; reflexivity).
  pose proof (run_the (result_failed "") _ _ T) as E.
  destruct (install_demotes online restorable_app pulled_device kPulled
    (the (result_failed "") (run (compose_install online restorable_app) pulled_device))
    (exec (compose_install online restorable_app) pulled_device)) as [_ H].
  - apply pulled_meta_ok.
  - vm_compute. reflexivity.
  - vm_compute. reflexivity.
  - discriminate.
  - apply pulled_recorded.
  - reflexivity.
  - apply H; [exact E|]. vm_compute. reflexivity.
Defined.

(** Directories, checked one by one. *)
Lemma dirs_check p f : forallb (fun k => is_directory (take (S k) p) f) (seq 0 (length p)) = true -> dirs p f.
Proof.
  intros H q Hq [r E]. rewrite List.forallb_forall in H. assert (L : (0 < length q <= length p)%nat).
  { rewrite E, length_app. destruct q; [done|cbn; lia]. }
  specialize (H (length q - 1)%nat). rewrite List.in_seq in H. specialize (H ltac:(lia)).
  replace (S (length q - 1)) with (length q) in H by lia. apply bool_decide_eq_true in H.
  by rewrite E, take_app_length in H.
Qed.

Lemma failed_fetch_is_fetched_witness :
  exists e w', compose_fetch offline new_app pulled_device = (Ret (result_failed e), w') /\
    run (compose_isFetched offline new_app) w' = Ret true.
Proof.
  destruct (failed_fetch_is_fetched offline new_app restorable_app pulled_device kPulled
    (the sample_uri (parseUri (app_uri new_app) true)) (Exn runtime_error "Failed to download App manifest: "))
    as (w' & E & _ & F).
  - apply new_app_plain.
  - reflexivity.
  - discriminate.
  - apply pulled_meta_ok.
  - apply dirs_check. vm_compute. reflexivity.
  - apply pulled_recorded.
  - reflexivity.
  - vm_compute. reflexivity.
  - vm_compute. reflexivity.
  - do 2 eexists. split; [exact E|exact F].
Defined.

Lemma install_throws_witness :
  let w := mkW (<[["var"; "sota"; "compose-apps"; "Shellhttpd"] := Dir]> ∅) tt in
  exists e, compose_install online restorable_app w = (Throw e, w).
Proof. apply (install_throws online restorable_app); vm_compute; reflexivity. Defined.

