(* ===== verification/Composectl.v ===== *)
(** * The composectl app engine

    [composeapp::AppEngine] ([src/src/composeapp/appengine.cc]): the restorable
    engine whose downloads, checks, installation and pruning are left to the
    program [composectl]. The engine keeps in memory which apps it has seen
    completely fetched. What it inherits is taken from [RestorableEngine.v]. *)

From S2P Require Import Prelude Json Targets Registry Volume Restorable Exec Fs DockerClient Platform Device RestorableEngine.

(** What the engine sees besides the files: the docker daemon, the URIs of the
    apps known to be fetched, and the environment variables
    [COMPOSE_APPS_PROXY] and [COMPOSE_APPS_PROXY_CA]. *)
Record Ctl (D : Type) := mkCtl { docker : D; fetched_apps_ : gset string; proxy_vars : option (string * string) }.
Arguments mkCtl {D}.
Arguments docker {D}.
Arguments fetched_apps_ {D}.
Arguments proxy_vars {D}.

Record CtlEnv (D : Type) := {
  ctl_fs : FsEnv;
  (** the shell, with the variables of the proxy *)
  ctl_run : option (string * string) -> string -> World D -> process * World D;
  ctl_tty : bool;
  ctl_docker : DockerEnv D;
  ctl_registry : RegistryEnv;
  ctl_creds : string;
  ctl_capacity : nat;
  ctl_fy_tool : option string -> Z * string;
  ctl_json_stream : string -> outcome json;
  ctl_json_missing : json;
  (** [parseFromStream]: the document and the errors *)
  parseFromStream : string -> json * string;
  composectl_cmd_ : string;
  storage_watermark_ : Z;
  local_source_path_ : string;
  (** [proxy_]: the URL of the proxy and the path of its certificate *)
  proxy_ : option (outcome (string * string));
  ctl_docker_host : string;
  ctl_store_root : Path;
  ctl_install_root : Path;
  ctl_docker_root : Path;
  ctl_same_volume : bool;
  ctl_compose_cmd : string;
  ctl_space_func : World D -> string -> UsageInfo;
  ctl_create_containers : bool;
  ctl_arch : string;
  ctl_tar : option string -> Z * string;
}.
Arguments ctl_fs {D}.
Arguments ctl_run {D}.
Arguments ctl_tty {D}.
Arguments ctl_docker {D}.
Arguments ctl_registry {D}.
Arguments ctl_creds {D}.
Arguments ctl_capacity {D}.
Arguments ctl_fy_tool {D}.
Arguments ctl_json_stream {D}.
Arguments ctl_json_missing {D}.
Arguments parseFromStream {D}.
Arguments composectl_cmd_ {D}.
Arguments storage_watermark_ {D}.
Arguments local_source_path_ {D}.
Arguments proxy_ {D}.
Arguments ctl_docker_host {D}.
Arguments ctl_store_root {D}.
Arguments ctl_install_root {D}.
Arguments ctl_docker_root {D}.
Arguments ctl_same_volume {D}.
Arguments ctl_compose_cmd {D}.
Arguments ctl_space_func {D}.
Arguments ctl_create_containers {D}.
Arguments ctl_arch {D}.
Arguments ctl_tar {D}.

Definition ExitCodeInsufficientSpace : Z := 100.

(** ** The status documents *)

Definition isNullOrEmptyOrUnset (val : json) (field : string) : outcome bool :=
  m ← jisMember val field;
  if m : bool then v ← jindex val field; mret (jisNull v || jempty v) else mret true.

Fixpoint no_broken_state (services : list json) : outcome bool :=
  match services with
  | [] => mret true
  | s :: services' =>
      st ← jstring_at s "state";
      if mem st ["created"; "missing"; "unknown"] then mret false else no_broken_state services'
  end.

Definition checkAppStatus (a : App) (status : json) : outcome bool :=
  m ← jisMember status (app_uri a);
  if negb m then mret false
  else
    st ← jindex status (app_uri a);
    has ← jisMember st "services";
    if negb has then mret false
    else
      services ← jindex st "services";
      if jisNull services then mret false else no_broken_state (jelems services).

Definition checkAppInstallationStatus (a : App) (status : json) : outcome bool :=
  app_status ← jindex status (app_uri a);
  if negb (jisObject app_status) then mret false
  else
    unset ← isNullOrEmptyOrUnset app_status "in_store";
    if unset : bool then mret false
    else
      v ← jindex app_status "in_store"; in_store ← jasBool v;
      if negb in_store then mret false
      else
        no_missing ← isNullOrEmptyOrUnset app_status "missing_images";
        if negb no_missing then mret false
        else isNullOrEmptyOrUnset app_status "bundle_errors".

Section engine.
Context {D : Type} (env : CtlEnv D).
Abbreviation CW := (World (Ctl D)).

(** ** The device the restorable engine works on *)

Definition base (w : CW) : World D := mkW (wfs w) (docker (wdocker w)).
Definition with_base (w : CW) (b : World D) : CW :=
  mkW (wfs b) (mkCtl (wdocker b) (fetched_apps_ (wdocker w)) (proxy_vars (wdocker w))).

(** A command sees the variables of the proxy, and not the memory of the engine. *)
Definition run_ctl (cmd : string) (w : CW) : process * CW :=
  let '(p, b) := ctl_run env (proxy_vars (wdocker w)) cmd (base w) in (p, with_base w b).

Definition ctl_env : RestorableEnv (Ctl D) := {|
  dev := {|
    fs_env := ctl_fs env; exec_env := {| run_process := run_ctl; is_tty := ctl_tty env |};
    docker_env := {|
      docker_get d := docker_get (ctl_docker env) (docker d);
      docker_post url data d :=
        let '(r, d') := docker_post (ctl_docker env) url data (docker d) in
        (r, mkCtl d' (fetched_apps_ d) (proxy_vars d));
      docker_parseJSON := docker_parseJSON (ctl_docker env); jsonToStr := jsonToStr (ctl_docker env);
      status_str := status_str (ctl_docker env); ustar := ustar (ctl_docker env) |};
    registry := ctl_registry env; auth_creds_endpoint := ctl_creds env; file_capacity := ctl_capacity env; stops_when_refused := true;
    fy_tool := ctl_fy_tool env; json_stream := ctl_json_stream env; json_missing := ctl_json_missing env |};
  store_root := ctl_store_root env; install_root := ctl_install_root env; docker_root := ctl_docker_root env;
  docker_and_skopeo_same_volume := ctl_same_volume env; client_cmd := ""; compose_cmd := ctl_compose_cmd env;
  storage_space_func w := ctl_space_func env (base w);
  client_image_src_func _ image := mret image; create_containers_if_install := ctl_create_containers env;
  max_parallel_pulls_ := -1; arch := ctl_arch env; tar_compose_file := ctl_tar env |}.

(** The memory of the engine and the environment of the process. *)
Definition modify_ctl (g : Ctl D -> Ctl D) : M CW unit := modify (fun w => mkW (wfs w) (g (wdocker w))).
Definition erase_fetched (uri : string) : M CW unit :=
  modify_ctl (fun c => mkCtl (docker c) (fetched_apps_ c ∖ {[uri]}) (proxy_vars c)).
Definition insert_fetched (uri : string) : M CW unit :=
  modify_ctl (fun c => mkCtl (docker c) ({[uri]} ∪ fetched_apps_ c) (proxy_vars c)).
Definition set_proxy (v : option (string * string)) : M CW unit :=
  modify_ctl (fun c => mkCtl (docker c) (fetched_apps_ c) v).

(** ** Commands *)

(** A path is printed in quotes. *)
Definition quoted (p : Path) : string := String dquote (path_str p +:+ String dquote "").
(** [composectl --store <store> <args>], and with [--compose <install root>] *)
Definition ctl (args : string) : string := composectl_cmd_ env +:+ " --store " +:+ quoted (ctl_store_root env) +:+ args.
Definition ctl_compose (args : string) : string := ctl (" --compose " +:+ quoted (ctl_install_root env) +:+ args).

Definition exec_out (cmd err : string) : M CW string := exec_in (exec_env ctl_env) cmd err "".
Definition exec_long (cmd err : string) : M CW string := exec_cmd (exec_env ctl_env) cmd err "" "4h" true.

Definition ctl_parseJSON (s : string) : outcome json :=
  let '(v, parse_error) := parseFromStream env s in
  if jisNull v && negb (str_empty parse_error)
  then throw runtime_error ("failed to parse json; err: " +:+ parse_error +:+ ", json: " +:+ s)
  else mret v.

(** ** Operations *)

(** The [try] block of [fetch]; the result says whether the variables of the proxy were set. *)
Definition pull_online (a : App) : M CW unit :=
  (match proxy_ env with
   | Some p =>
       proxy ← lift p;
       if negb (str_empty proxy.1) then set_proxy (Some proxy) else mret tt
   | None => mret tt
   end);;
  _ ← exec_long (ctl (" pull -p " +:+ app_uri a +:+ " --storage-usage-watermark " +:+ to_string (storage_watermark_ env)))
    "failed to pull compose app"; mret tt.
Definition pull_local (a : App) : M CW unit :=
  _ ← exec_long (ctl (" pull -p " +:+ app_uri a +:+ " -l " +:+ local_source_path_ env +:+ " --storage-usage-watermark "
                      +:+ to_string (storage_watermark_ env))) "failed to pull compose app"; mret tt.

Definition sets_proxy : bool :=
  str_empty (local_source_path_ env) &&
  match proxy_ env with Some (Ret p) => negb (str_empty p.1) | _ => false end.

(** The result after an exception. The handler of the first kind may throw itself. *)
Definition fetch_failed (e : exn) : M CW Result :=
  match exn_kind e with
  | ExecError code std_err =>
      if code =? ExitCodeInsufficientSpace then
        let usage_stat := parseJSON (ctl_registry env) std_err in
        path ← lift (jstring_at usage_stat "path");
        usage ← gets (fun w : CW => ctl_space_func env (base w) path);
        required ← lift (r ← jindex usage_stat "required"; jasUInt64 r);
        mret {| status := InsufficientSpace; res_err := what e; stat := withRequired usage required |}
      else mret (result_failed (what e))
  | _ => mret (result_failed (what e))
  end.

Definition ctl_fetch (a : App) : M CW Result :=
  res ← try_catch
    (erase_fetched (app_uri a);;
     (if str_empty (local_source_path_ env) then pull_online a else pull_local a);;
     insert_fetched (app_uri a);; mret result_ok)
    fetch_failed;
  (if sets_proxy then set_proxy None else mret tt);;
  mret res.

Definition ctl_remove (a : App) : M CW unit :=
  try_catch
    (erase_fetched (app_uri a);;
     exec_out (ctl_compose (" stop " +:+ app_name a)) "failed to stop app";;
     exec_out (ctl_compose (" uninstall --ignore-non-installed " +:+ app_name a)) "failed to uninstall app";;
     mret tt)
    (fun _ => mret tt).

Definition ctl_isRunning (a : App) : M CW bool :=
  try_catch
    (output ← exec_out (ctl_compose (" ps " +:+ app_uri a +:+ " --format json")) "";
     app_status ← lift (ctl_parseJSON output);
     installed ← lift (checkAppInstallationStatus a app_status);
     if installed : bool then lift (checkAppStatus a app_status) else mret false)
    (fun _ => mret false).

Definition ctl_getRunningAppsInfo : M CW json :=
  try_catch (output ← exec_out (ctl " ps --format json") ""; lift (ctl_parseJSON output)) (fun _ => mret JNull).

(** The apps of the store that are not on the list. *)
Fixpoint apps_to_prune (shortlist : list App) (app_list : list json) : outcome (list App) :=
  match app_list with
  | [] => mret []
  | j :: app_list' =>
      n ← jisMember j "name";
      u ← (if n : bool then jisMember j "uri" else mret false);
      if negb u then apps_to_prune shortlist app_list'
      else
        name ← jstring_at j "name"; uri ← jstring_at j "uri";
        let a := {| app_name := name; app_uri := uri |} in
        rest ← apps_to_prune shortlist app_list';
        mret (if apps_contain shortlist a then rest else a :: rest)
  end.

Fixpoint remove_apps (l : list App) : M CW unit :=
  match l with
  | [] => mret tt
  | a :: l' =>
      erase_fetched (app_uri a);;
      exec_out (ctl (" rm " +:+ app_uri a +:+ " --prune=false --quiet")) "failed to remove app";;
      remove_apps l'
  end.

Definition prune_unused (shortlist : list App) : M CW unit :=
  output ← exec_out (ctl " ls --format json") "failed to list apps";
  app_list ← lift (ctl_parseJSON output);
  l ← lift (apps_to_prune shortlist (jelems app_list));
  remove_apps l.

Definition prune_store_blobs : M CW unit :=
  output ← exec_out (ctl " prune --format=json") "failed to prune app blobs";
  let pruned_blobs := parseJSON (ctl_registry env) output in
  if negb (jisNull pruned_blobs) && negb (jempty pruned_blobs)
  then on_docker (pruneContainers (docker_env ctl_env);; pruneImages (docker_env ctl_env))
  else mret tt.

Definition ctl_prune (shortlist : list App) : M CW unit :=
  try_catch (prune_unused shortlist) (fun _ => mret tt);;
  try_catch prune_store_blobs (fun _ => mret tt).

(** An [ExecError] means no; other exceptions are passed on. *)
Definition no_on_exec_error (e : exn) : M CW bool :=
  match exn_kind e with ExecError _ _ => mret false | _ => lift (Throw e) end.

(** The missing blobs are written to the log, which reads a digest and a size from each. *)
Fixpoint log_blobs (blobs : list json) : outcome unit :=
  match blobs with
  | [] => mret tt
  | b :: blobs' =>
      d ← jindex b "descriptor";
      _ ← jindex d "digest";
      _ ← jindex d "size";
      log_blobs blobs'
  end.

Definition fetch_check (app_fetch_status : json) : outcome bool :=
  m ← jisMember app_fetch_status "fetch_check";
  if negb m then mret false
  else
    c ← jindex app_fetch_status "fetch_check";
    mb ← jisMember c "missing_blobs";
    if negb mb then mret false
    else
      b ← jindex c "missing_blobs";
      if jempty b then mret true else log_blobs (jelems b);; mret false.

Definition ctl_isAppFetched (a : App) : M CW bool :=
  known ← gets (fun w : CW => bool_decide (app_uri a ∈ fetched_apps_ (wdocker w)));
  if known : bool then mret true
  else
    try_catch
      (output ← exec_out (ctl (" check " +:+ app_uri a +:+ " --local --format json")) "";
       app_fetch_status ← lift (ctl_parseJSON output);
       ok ← lift (fetch_check app_fetch_status);
       (if ok : bool then insert_fetched (app_uri a) else mret tt);;
       mret ok)
      no_on_exec_error.

Definition install_check (a : App) (s : json) : outcome bool :=
  m ← jisMember s "install_check";
  if negb m then mret false
  else
    c ← jindex s "install_check";
    mu ← jisMember c (app_uri a);
    if negb mu then mret false
    else
      u ← jindex c (app_uri a);
      mi ← jisMember u "missing_images";
      if negb mi then mret false else v ← jindex u "missing_images"; mret (jisNull v || jempty v).

Definition ctl_isAppInstalled (a : App) : M CW bool :=
  try_catch
    (output ← exec_out (ctl (" check " +:+ app_uri a +:+ " --local --install --format json")) "";
     s ← lift (ctl_parseJSON output);
     lift (install_check a s))
    no_on_exec_error.

Definition ctl_installAppAndImages (a : App) : M CW unit :=
  _ ← exec_long (ctl_compose (" --host " +:+ ctl_docker_host env +:+ " install " +:+ app_uri a)) "failed to install compose app";
  mret tt.

(** ** The engine behind the interface *)

Definition composectl_engine : AppEngine CW := {|
  fetch := ctl_fetch;
  verify := verifyApp ctl_env;
  install := installAny ctl_env ctl_installAppAndImages;
  run_app a := installAndCreateOrRunContainers ctl_env ctl_installAppAndImages a true;
  stop := stopApp ctl_env;
  remove := ctl_remove;
  prune := ctl_prune;
  isFetched w a := answer false (is_fetched ctl_isAppFetched a) w;
  isRunning w a := answer false (ctl_isRunning a) w;
  getInstalledApps w := run (get_installed_apps ctl_env ctl_isAppInstalled) w;
  getRunningAppsInfo w := run ctl_getRunningAppsInfo w;
  app_dirs w := if is_directory (ctl_install_root env) (wfs w)
                then Some (filename_of <$> readdir (ctl_fs env) (entries (ctl_install_root env) (wfs w))) else None;
|}.
End engine.
