(* ===== verification/ComposectlSpec.v ===== *)
(** * What the composectl app engine does

    The memory of fetched apps against the results of [fetch], [prune] and
    [remove]; the exit codes of [composectl]; and that the engine does what the
    package manager relies on if [composectl] does what it promises. *)

From S2P Require Import Prelude Json Targets Registry Volume Restorable Exec Fs DockerClient Platform Device RestorableEngine RestorableStore RestorablePrune RestorableSample Composectl.

Section spec.
Context {D : Type} (env : CtlEnv D).
Abbreviation CW := (World (Ctl D)).
Implicit Types (w : World (Ctl D)) (a : App) (u : string).

Definition cache w : gset string := fetched_apps_ (wdocker w).
Definition vars w : option (string * string) := proxy_vars (wdocker w).

(** ** Commands leave the memory and the environment alone *)

Definition same_memory w w' : Prop := cache w' = cache w /\ vars w' = vars w.
#[local] Instance same_memory_refl : Reflexive same_memory.
Proof. by split. Qed.
#[local] Instance same_memory_trans : Transitive same_memory.
Proof. intros w1 w2 w3 [H1 H2] [H3 H4]. split; congruence. Qed.

Lemma run_ctl_memory cmd w : same_memory w (run_ctl env cmd w).2.
Proof. unfold run_ctl. destruct (ctl_run _ _ _ _) as [p b]. by split. Qed.

Lemma exec_cmd_memory cmd e dir t b : preserves same_memory (exec_cmd (exec_env (ctl_env env)) cmd e dir t b).
Proof.
  intros w. unfold exec, exec_cmd. cbn [run_process exec_env ctl_env dev is_tty].
  pose proof (run_ctl_memory (exec_command (ctl_tty env) b dir cmd) w) as H.
  destruct (run_ctl env _ w) as [p w'].
  destruct (execute_process t p) as [[r|x]|]; cbn; [destruct (negb _)|..]; exact H.
Qed.
#[local] Hint Resolve exec_cmd_memory : aklite.
Lemma exec_out_memory cmd e : preserves same_memory (exec_out env cmd e).
Proof. apply exec_cmd_memory. Qed.
Lemma exec_long_memory cmd e : preserves same_memory (exec_long env cmd e).
Proof. apply exec_cmd_memory. Qed.
#[local] Hint Resolve exec_out_memory exec_long_memory : aklite.

(** ** The memory of fetched apps *)

(** Nothing happens to the memory of apps other than those of [P]. *)
Definition only_forgets (P : string -> Prop) w w' : Prop :=
  cache w' ⊆ cache w /\ forall u, u ∈ cache w -> u ∉ cache w' -> P u.
#[local] Instance only_forgets_refl P : Reflexive (only_forgets P).
Proof. split; [done|]. intros u H1 H2. done. Qed.
#[local] Instance only_forgets_trans P : Transitive (only_forgets P).
Proof.
  intros w1 w2 w3 [H1 H2] [H3 H4]. split; [set_solver|]. intros u Hu Hn.
  destruct (decide (u ∈ cache w2)); [by apply H4|by apply H2].
Qed.
Lemma same_only_forgets P w w' : same_memory w w' -> only_forgets P w w'.
Proof. intros [H _]. unfold only_forgets. rewrite H. by split. Qed.

Lemma preserves_forgets {A} P (m : M CW A) : preserves same_memory m -> preserves (only_forgets P) m.
Proof. intros H w. apply same_only_forgets, H. Qed.
#[local] Hint Resolve preserves_forgets : aklite.

Lemma erase_forgets (P : string -> Prop) u : P u -> preserves (only_forgets P) (erase_fetched (D := D) u).
Proof.
  intros HP w. unfold only_forgets, cache. cbn. split; [set_solver|]. intros u' H1 H2.
  destruct (decide (u' = u)) as [->|]; [done|set_solver].
Qed.

Lemma on_docker_memory {A} (m : M (Ctl D) A) :
  (forall d, fetched_apps_ (exec m d) = fetched_apps_ d /\ proxy_vars (exec m d) = proxy_vars d) ->
  preserves same_memory (on_docker m).
Proof.
  intros H w. specialize (H (wdocker w)). unfold exec, on_docker, same_memory, cache, vars in *.
  by destruct (m (wdocker w)) as [o d].
Qed.
Lemma docker_prune_memory :
  preserves same_memory (on_docker (pruneContainers (docker_env (ctl_env env));; pruneImages (docker_env (ctl_env env)))).
Proof.
  apply on_docker_memory. unfold exec, pruneContainers, pruneImages, post, mbind, M_bind, throwM, lift. intros d.
  cbn [docker_post docker_env dev ctl_env docker_parseJSON jsonToStr status_str].
  destruct (docker_post (ctl_docker env) prune_containers_url _ _) as [r d1].
  destruct (negb (isOk r)); [done|]. cbn [docker mret M_ret].
  destruct (docker_post (ctl_docker env) prune_images_url _ _) as [r2 d2]. by destruct (negb (isOk r2)).
Qed.
#[local] Hint Resolve docker_prune_memory : aklite.

(** ** Fetching *)

Definition pull a : M CW unit := if str_empty (local_source_path_ env) then pull_online env a else pull_local env a.
(** The variables [composectl] sees while an app is pulled. *)
Definition pull_vars w : option (string * string) :=
  match proxy_ env with Some (Ret p) => if sets_proxy env then Some p else vars w | _ => vars w end.

Lemma pull_memory a w : cache (exec (pull a) w) = cache w /\ vars (exec (pull a) w) = pull_vars w.
Proof.
  unfold pull, pull_vars, sets_proxy. destruct (str_empty (local_source_path_ env)) eqn:El; cbn [andb].
  - unfold pull_online. destruct (proxy_ env) as [[p|e]|] eqn:Ep; [destruct (negb (str_empty p.1)) eqn:Eu| |].
    + rewrite (exec_bind_run _ _ tt w (exec (set_proxy (Some p)) w)), exec_bind_then.
      * apply (exec_long_memory _ _ (exec (set_proxy (Some p)) w)).
      * rewrite (bind_lift _ _ p) by done. by rewrite Eu.
    + rewrite (exec_bind_run _ _ tt w w), exec_bind_then; [apply exec_long_memory|].
      rewrite (bind_lift _ _ p) by done. by rewrite Eu.
    + done.
    + rewrite (exec_bind_run _ _ tt w w), exec_bind_then by done. apply exec_long_memory.
  - unfold pull_local. rewrite exec_bind_then.
    replace (match proxy_ env with Some (Ret _) => vars w | _ => vars w end) with (vars w) by by repeat case_match.
    apply exec_long_memory.
Qed.

Definition forget u w : CW := exec (erase_fetched u) w.
Lemma cache_forget u w : cache (forget u w) = cache w ∖ {[u]}.
Proof. done. Qed.
Lemma pull_vars_forget u w : pull_vars (forget u w) = pull_vars w.
Proof. done. Qed.

(** The result of pulling decides what [fetch] does; [unset] is what happens to the variables last. *)
Definition unset : M CW unit := if sets_proxy env then set_proxy None else mret tt.

Lemma ctl_fetch_pulled a w w1 :
  pull a (forget (app_uri a) w) = (Ret tt, w1) ->
  ctl_fetch env a w = (Ret result_ok, exec unset (exec (insert_fetched (app_uri a)) w1)).
Proof.
  intros H. unfold ctl_fetch. erewrite bind_run.
  2:{ unfold try_catch. rewrite (bind_run _ _ tt w (forget (app_uri a) w)) by reflexivity. fold (pull a).
      erewrite bind_run; [|exact H]. reflexivity. }
  unfold unset. by destruct (sets_proxy env).
Qed.
Lemma ctl_fetch_threw a w e w1 :
  pull a (forget (app_uri a) w) = (Throw e, w1) ->
  ctl_fetch env a w = match run (fetch_failed env e) w1 with Ret r => (Ret r, exec unset w1) | Throw e' => (Throw e', w1) end.
Proof.
  intros H. unfold ctl_fetch.
  assert (E : preserves eq (fetch_failed env e)) by (unfold fetch_failed; pstep). specialize (E w1). unfold exec in E.
  assert (T : try_catch (erase_fetched (app_uri a);; pull a;; insert_fetched (app_uri a);; mret result_ok)
                (fetch_failed env) w = fetch_failed env e w1).
  { unfold try_catch. rewrite (bind_run _ _ tt w (forget (app_uri a) w)) by reflexivity.
    unfold mbind, M_bind. by rewrite H. }
  unfold mbind, M_bind in *. unfold pull in T. rewrite T. unfold run.
  destruct (fetch_failed env e w1) as [[r|e'] w2]; cbn in E; subst w2; cbn; [|done].
  unfold unset. by destruct (sets_proxy env).
Qed.
Lemma fetch_failed_result e w r : run (fetch_failed env e) w = Ret r -> Result_bool r = false.
Proof.
  unfold run, fetch_failed. destruct (exn_kind e); cbn; try (by intros [= <-]).
  destruct (_ =? _); [|by intros [= <-]]. unfold mbind, M_bind, lift, gets.
  destruct (jstring_at _ _); cbn; [|done]. destruct (outcome_bind _ _); cbn; [|done]. by intros [= <-].
Qed.

Lemma unset_memory w : cache (exec unset w) = cache w /\ vars (exec unset w) = if sets_proxy env then None else vars w.
Proof. unfold unset. by destruct (sets_proxy env). Qed.

(** The ways a call of [fetch] can go. *)
Lemma ctl_fetch_cases a w :
  exists w1, cache w1 = cache w ∖ {[app_uri a]} /\ vars w1 = pull_vars w /\
   ((exec (pull a) (forget (app_uri a) w) = w1 /\
      ctl_fetch env a w = (Ret result_ok, exec unset (exec (insert_fetched (app_uri a)) w1))) \/
    (exists r, Result_bool r = false /\ ctl_fetch env a w = (Ret r, exec unset w1)) \/
    (exists e, ctl_fetch env a w = (Throw e, w1))).
Proof.
  pose proof (pull_memory a (forget (app_uri a) w)) as [Hc Hv].
  destruct (pull a (forget (app_uri a) w)) as [[[]|e] w1] eqn:E; unfold exec in Hc, Hv; rewrite E in Hc, Hv; cbn in Hc, Hv;
    exists w1; (split; [by rewrite Hc|]); (split; [by rewrite Hv|]).
  - left. split; [unfold exec; by rewrite E|]. by apply ctl_fetch_pulled.
  - right. rewrite (ctl_fetch_threw _ _ _ _ E). destruct (run (fetch_failed env e) w1) as [r|e'] eqn:F.
    + left. exists r. split; [by eapply fetch_failed_result|done].
    + right. by exists e'.
Qed.
Lemma unset_vars w : (if sets_proxy env then None else pull_vars w) = if sets_proxy env then None else vars w.
Proof. unfold pull_vars. destruct (sets_proxy env); [done|]. by repeat case_match. Qed.

(** C27: A call of [fetch] that returns leaves the app in the memory of fetched apps exactly if it
    reports success, and has removed the variables of the proxy it has set; if an exception leaves it,
    the app is not in the memory, and the variables are as they were for the download. The memory of
    other apps is left alone. *)
Theorem ctl_fetch_memory a w :
  match ctl_fetch env a w with
  | (Ret r, w') => (app_uri a ∈ cache w' <-> Result_bool r = true) /\ vars w' = (if sets_proxy env then None else vars w)
  | (Throw _, w') => app_uri a ∉ cache w' /\ vars w' = pull_vars w
  end /\
  forall u, u <> app_uri a -> (u ∈ cache (exec (ctl_fetch env a) w) <-> u ∈ cache w).
Proof.
  unfold exec. destruct (ctl_fetch_cases a w) as (w1 & Hc & Hv & [[_ ->]|[(r & Hr & ->)|(e & ->)]]); cbn [snd].
  - destruct (unset_memory (exec (insert_fetched (app_uri a)) w1)) as [-> ->].
    change (cache (exec (insert_fetched (app_uri a)) w1)) with ({[app_uri a]} ∪ cache w1).
    change (vars (exec (insert_fetched (app_uri a)) w1)) with (vars w1). rewrite Hc, Hv. split; [split|].
    + split; [done|]. intros _. by apply elem_of_union_l, elem_of_singleton.
    + by apply unset_vars.
    + intros u Hu. rewrite elem_of_union, elem_of_difference, elem_of_singleton. naive_solver.
  - destruct (unset_memory w1) as [-> ->]. rewrite Hc, Hr, Hv. split; [split|].
    + rewrite elem_of_difference, elem_of_singleton. naive_solver.
    + by apply unset_vars.
    + intros u Hu. rewrite elem_of_difference, elem_of_singleton. naive_solver.
  - rewrite Hc, Hv. split; [split; [|done]|intros u Hu]; rewrite elem_of_difference, elem_of_singleton; naive_solver.
Qed.

(** What the error output of [composectl] says about the storage. *)
Definition space_report (std_err : string) : outcome (string * Z) :=
  let usage_stat := parseJSON (ctl_registry env) std_err in
  path ← jstring_at usage_stat "path";
  required ← (r ← jindex usage_stat "required"; jasUInt64 r);
  mret (path, required).

(** C28: When [composectl pull] exits with a code, [fetch] reports a failure: of the storage, with the
    usage of the volume named by the error output and the space it requires, if the code is 100. If that
    output cannot be read, the exception of its reading leaves [fetch] instead, and the variables of
    the proxy stay set. *)
Theorem ctl_fetch_exit_code a w code std_err msg w1 :
  pull a (forget (app_uri a) w) = (Throw (Exn (ExecError code std_err) msg), w1) ->
  if code =? ExitCodeInsufficientSpace then
    match space_report std_err with
    | Ret (path, required) =>
        ctl_fetch env a w =
          (Ret {| status := InsufficientSpace; res_err := msg;
                  stat := withRequired (ctl_space_func env (base w1) path) required |}, exec unset w1)
    | Throw e => ctl_fetch env a w = (Throw e, w1) /\ vars w1 = pull_vars w
    end
  else ctl_fetch env a w = (Ret (result_failed msg), exec unset w1).
Proof.
  intros H. pose proof (pull_memory a (forget (app_uri a) w)) as [_ Hv]. unfold exec in Hv. rewrite H in Hv.
  rewrite (ctl_fetch_threw _ _ _ _ H). unfold fetch_failed, run, space_report. cbn [exn_kind what].
  destruct (code =? ExitCodeInsufficientSpace); [|done]. unfold mbind, M_bind, outcome_bind, lift, gets. cbn.
  destruct (jstring_at _ "path"); [|by split]. destruct (jindex _ "required"); [|by split].
  by destruct (jasUInt64 _).
Qed.

(** ** Pruning *)

(** The apps of the store that are not on the list, as [composectl ls] tells. *)
Definition unlisted (shortlist : list App) : M CW (list App) :=
  output ← exec_out env (ctl env " ls --format json") "failed to list apps";
  app_list ← lift (ctl_parseJSON env output);
  lift (apps_to_prune shortlist (jelems app_list)).

Lemma prune_unused_alt shortlist : forall w, prune_unused env shortlist w = (unlisted shortlist ≫= remove_apps env) w.
Proof.
  intros w. unfold prune_unused, unlisted, mbind, M_bind, lift.
  destruct (exec_out _ _ _ _) as [[o|e] w1]; [|done]. destruct (ctl_parseJSON env o); [|done]. by destruct (apps_to_prune _ _).
Qed.
Lemma unlisted_memory shortlist : preserves same_memory (unlisted shortlist).
Proof.
  unfold unlisted. assert (PreOrder same_memory) by (split; apply _). pstep.
Qed.

Lemma remove_apps_forgets l : preserves (only_forgets (fun u => exists a, a ∈ l /\ app_uri a = u)) (remove_apps env l).
Proof.
  assert (G : forall l', (forall a, a ∈ l' -> a ∈ l) ->
    preserves (only_forgets (fun u => exists a, a ∈ l /\ app_uri a = u)) (remove_apps env l')).
  { assert (PO : forall P, PreOrder (only_forgets P)) by (intros P; split; apply _).
    induction l' as [|a l' IH]; intros Hl; cbn [remove_apps]; [apply (preserves_ret _)|].
    apply (preserves_bind _); [apply erase_forgets; exists a; split; [apply Hl; left|done]|]. intros _.
    apply (preserves_bind _); [apply preserves_forgets, exec_out_memory|]. intros _. apply IH. intros b Hb. apply Hl. by right. }
  by apply G.
Qed.

(** An app forgotten by a removal stays forgotten. *)
Lemma remove_apps_forgotten l u w : u ∉ cache w -> u ∉ cache (exec (remove_apps env l) w).
Proof. intros Hu. destruct (remove_apps_forgets l w) as [H _]. set_solver. Qed.
Lemma remove_apps_done l w w' : remove_apps env l w = (Ret tt, w') -> forall a, a ∈ l -> app_uri a ∉ cache w'.
Proof.
  revert w. induction l as [|b l IH]; intros w H a Ha; [by apply not_elem_of_nil in Ha|]. cbn [remove_apps] in H.
  rewrite (bind_run _ _ tt w (forget (app_uri b) w)) in H by reflexivity.
  apply M_bind_Ret in H as (o & w1 & H1 & H). apply elem_of_cons in Ha as [->|Ha]; [|by eapply IH].
  pose proof (exec_out_memory (ctl env (" rm " +:+ app_uri b +:+ " --prune=false --quiet")) "failed to remove app"
    (forget (app_uri b) w)) as [Hc _]. unfold exec in Hc. rewrite H1 in Hc. cbn [snd] in Hc.
  pose proof (remove_apps_forgotten l (app_uri b) w1) as F. unfold exec in F. rewrite H in F. apply F. rewrite Hc, cache_forget.
  rewrite elem_of_difference, elem_of_singleton. naive_solver.
Qed.

Lemma apps_to_prune_unlisted shortlist l r a : apps_to_prune shortlist l = Ret r -> a ∈ r -> a ∉ shortlist.
Proof.
  revert r. induction l as [|j l IH]; intros r; cbn [apps_to_prune]; intros H Ha.
  - injection H as <-. by apply not_elem_of_nil in Ha.
  - apply bind_Ret in H as (n & _ & H). apply bind_Ret in H as (u & _ & H). destruct (negb u); [by eapply IH|].
    apply bind_Ret in H as (name & _ & H). apply bind_Ret in H as (uri & _ & H). apply bind_Ret in H as (rest & Hr & H).
    injection H as <-. unfold apps_contain in Ha. case_bool_decide as Hd; [by eapply IH|].
    apply elem_of_cons in Ha as [->|Ha]; [done|by eapply IH].
Qed.

Lemma prune_store_blobs_memory : preserves same_memory (prune_store_blobs env).
Proof. unfold prune_store_blobs. assert (PreOrder same_memory) by (split; apply _). pstep. Qed.

Lemma unlisted_not_listed shortlist w l w1 a : unlisted shortlist w = (Ret l, w1) -> a ∈ l -> a ∉ shortlist.
Proof.
  unfold unlisted. intros H. apply M_bind_Ret in H as (o & w2 & _ & H). apply M_bind_Ret in H as (j & w3 & _ & H).
  injection H as H _. by eapply apps_to_prune_unlisted.
Qed.

Lemma remove_apps_vars l : preserves (fun w w' => vars w' = vars w) (remove_apps env l).
Proof.
  assert (PreOrder (fun w w' => vars w' = vars w)) by (split; [by intros ?|intros ? ? ?; by etransitivity]).
  induction l as [|a l IH]; cbn [remove_apps]; [by intros w|]. apply (preserves_bind _); [by intros w|]. intros _.
  apply (preserves_bind _); [|done]. intros w. apply exec_out_memory.
Qed.
Lemma prune_unused_vars shortlist w : vars (exec (prune_unused env shortlist) w) = vars w.
Proof.
  unfold exec. rewrite prune_unused_alt. pose proof (unlisted_memory shortlist w) as [_ Hv]. unfold exec in Hv.
  unfold mbind, M_bind. destruct (unlisted shortlist w) as [[l|e] w1]; cbn [snd] in *; [|done].
  rewrite <- Hv. apply remove_apps_vars.
Qed.
Lemma try_ignored (m : M CW unit) w : try_catch m (fun _ => mret tt) w = (Ret tt, exec m w).
Proof. unfold try_catch, exec. by destruct (m w) as [[[]|e] w1]. Qed.

(** Pruning never ends with an exception. It forgets no app of the list, unless one that is stored under
    the same URI with another name is removed, and no app that [composectl ls] does not report; if the
    removals succeed, it has forgotten every app that is reported and is not on the list. *)
Theorem ctl_prune_forgets shortlist w :
  exists w', ctl_prune env shortlist w = (Ret tt, w') /\ vars w' = vars w /\
    match unlisted shortlist w with
    | (Ret l, w1) =>
        only_forgets (fun u => exists a, a ∈ l /\ a ∉ shortlist /\ app_uri a = u) w w' /\
        (run (remove_apps env l) w1 = Ret tt -> forall a, a ∈ l -> app_uri a ∉ cache w')
    | (Throw _, _) => cache w' = cache w
    end.
Proof.
  exists (exec (prune_store_blobs env) (exec (prune_unused env shortlist) w)).
  split; [unfold ctl_prune; by rewrite (bind_run _ _ tt w _ (try_ignored _ w)), try_ignored|].
  destruct (prune_store_blobs_memory (exec (prune_unused env shortlist) w)) as [-> ->].
  split; [apply prune_unused_vars|]. unfold only_forgets.
  pose proof (prune_store_blobs_memory (exec (prune_unused env shortlist) w)) as [-> _].
  unfold exec. rewrite !prune_unused_alt. pose proof (unlisted_memory shortlist w) as [Hc _]. unfold exec in Hc.
  unfold mbind, M_bind. destruct (unlisted shortlist w) as [[l|e] w1] eqn:E; cbn [snd] in Hc |- *; [|done]. split.
  - destruct (remove_apps_forgets l w1) as [H1 H2]. rewrite Hc in H1, H2. split; [done|].
    intros u Hu Hn. destruct (H2 u Hu Hn) as (a & Ha & <-). exists a. split_and!; [done| |done].
    by eapply unlisted_not_listed.
  - intros Hr. apply (remove_apps_done l w1). unfold run in Hr.
    by destruct (remove_apps env l w1) as [o w2]; cbn in Hr |- *; rewrite Hr.
Qed.

(** ** The engine and the package manager *)

(** [composectl check] finds no blob of the app missing. *)
Definition check_store a : M CW bool :=
  output ← exec_out env (ctl env (" check " +:+ app_uri a +:+ " --local --format json")) "";
  app_fetch_status ← lift (ctl_parseJSON env output);
  lift (fetch_check app_fetch_status).
Definition complete w a : bool := the false (run (check_store a) w).

(** What the engine relies on: a check does not depend on the proxy, a download takes no blob away, and one that
    succeeds leaves no blob of the app missing. *)
Class ComposectlSpec : Prop := {
  check_offline w a v :
    complete (mkW (wfs w) (mkCtl (docker (wdocker w)) (cache w) v)) a = complete w a;
  pull_keeps w a b o w' : pull a w = (o, w') -> complete w b = true -> complete w' b = true;
  pull_completes w a w' : pull a w = (Ret tt, w') -> complete w' a = true;
}.

(** A check does not see the memory of the engine. *)
Lemma complete_memory w c a : complete (mkW (wfs w) (mkCtl (docker (wdocker w)) c (vars w))) a = complete w a.
Proof.
  unfold complete, check_store, run, mbind, M_bind, exec_out, exec_in, exec_cmd, lift.
  cbn [run_process exec_env ctl_env dev is_tty]. unfold run_ctl, base, vars. cbn [wfs wdocker docker proxy_vars].
  destruct (ctl_run env _ _ _) as [p b]. destruct (execute_process "900s" p) as [[r|e]|]; [|done..].
  destruct (negb _); [done|]. destruct (ctl_parseJSON env _); [|done]. by destruct (fetch_check _).
Qed.

Lemma isFetched_alt w a :
  isFetched (AppEngine := composectl_engine env) w a = bool_decide (app_uri a ∈ cache w) || complete w a.
Proof.
  cbn [isFetched composectl_engine]. unfold answer, is_fetched, ctl_isAppFetched, complete, check_store, run, try_catch.
  rewrite bind_gets. fold (cache w). destruct (bool_decide _); [done|]. unfold mbind, M_bind, lift, no_on_exec_error.
  destruct (exec_out _ _ _ w) as [[o|e] w1]; cbn; [|by destruct (exn_kind e)].
  destruct (ctl_parseJSON env o) as [j|e]; cbn; [|by destruct (exn_kind e)].
  destruct (fetch_check j) as [[|]|e]; cbn; [done|done|by destruct (exn_kind e)].
Qed.

Context `{HC : !ComposectlSpec}.

Lemma complete_unset w a : complete (exec unset w) a = complete w a.
Proof. unfold unset. destruct (sets_proxy env); [|done]. apply (check_offline w a None). Qed.

Lemma ctl_fetch_success a w r w' :
  ctl_fetch env a w = (Ret r, w') -> Result_bool r = true ->
  exists w1, pull a (forget (app_uri a) w) = (Ret tt, w1) /\ w' = exec unset (exec (insert_fetched (app_uri a)) w1).
Proof.
  intros H Hr. destruct (pull a (forget (app_uri a) w)) as [[[]|e] w1] eqn:E.
  - exists w1. split; [done|]. rewrite (ctl_fetch_pulled _ _ _ E) in H. congruence.
  - rewrite (ctl_fetch_threw _ _ _ _ E) in H. destruct (run _ w1) as [r'|e'] eqn:F; [|discriminate H].
    injection H as <- _. by rewrite (fetch_failed_result _ _ _ F) in Hr.
Qed.

Lemma complete_forget u w a : complete (forget u w) a = complete w a.
Proof. apply (complete_memory w (cache w ∖ {[u]}) a). Qed.
Lemma complete_insert u w a : complete (exec (insert_fetched u) w) a = complete w a.
Proof. apply (complete_memory w ({[u]} ∪ cache w) a). Qed.

(** The apps the engine takes for fetched without asking are complete. *)
Definition memory_true w : Prop := forall a, app_uri a ∈ cache w -> complete w a = true.
Lemma memory_true_isFetched w a :
  memory_true w -> isFetched (AppEngine := composectl_engine env) w a = complete w a.
Proof. intros Hm. rewrite isFetched_alt. case_bool_decide as Hd; [|done]. by rewrite (Hm a Hd). Qed.

Lemma pull_state a w o w1 :
  pull a (forget (app_uri a) w) = (o, w1) ->
  cache w1 = cache w ∖ {[app_uri a]} /\ forall b, complete w b = true -> complete w1 b = true.
Proof.
  intros E. pose proof (pull_memory a (forget (app_uri a) w)) as [Hc _]. unfold exec in Hc. rewrite E in Hc.
  split; [exact Hc|]. intros b Hb. by eapply pull_keeps; [exact E|rewrite complete_forget].
Qed.

Lemma ctl_fetch_memory_true a w : memory_true w -> memory_true (exec (ctl_fetch env a) w).
Proof.
  intros Hm. unfold exec. destruct (pull a (forget (app_uri a) w)) as [[[]|e] w1] eqn:E;
    destruct (pull_state a w _ w1 E) as [Hc Hk].
  - rewrite (ctl_fetch_pulled _ _ _ E). cbn [snd]. intros b Hb. rewrite complete_unset, complete_insert.
    destruct (unset_memory (exec (insert_fetched (app_uri a)) w1)) as [Eu _]. rewrite Eu in Hb.
    change (cache (exec (insert_fetched (app_uri a)) w1)) with ({[app_uri a]} ∪ cache w1) in Hb.
    apply elem_of_union in Hb as [Hb|Hb].
    + apply elem_of_singleton in Hb. pose proof (pull_completes _ a w1 E) as C. unfold complete, check_store in *. by rewrite Hb.
    + apply Hk, Hm. set_solver.
  - rewrite (ctl_fetch_threw _ _ _ _ E).
    assert (H1 : memory_true w1) by (intros b Hb; apply Hk, Hm; set_solver).
    destruct (run (fetch_failed env e) w1) as [r|e']; cbn [snd]; [|done].
    intros b Hb. rewrite complete_unset. destruct (unset_memory w1) as [Eu _]. rewrite Eu in Hb. by apply H1.
Qed.

#[export] Instance composectl_engine_spec : AppEngineSpec (H := composectl_engine env) (fun _ => True) memory_true.
Proof.
  split.
  - intros a w _. apply ctl_fetch_memory_true.
  - intros a w r w' _ Hm H Hr. rewrite memory_true_isFetched.
    + destruct (ctl_fetch_success _ _ _ _ H Hr) as (w1 & E & ->). rewrite complete_unset, complete_insert.
      by eapply pull_completes.
    + pose proof (ctl_fetch_memory_true a w Hm) as K. unfold exec in K. cbn in H. by rewrite H in K.
  - intros a b w r w' _ Hm H Hr _ Hb. rewrite memory_true_isFetched in Hb |- *; [|done|].
    + destruct (ctl_fetch_success _ _ _ _ H Hr) as (w1 & E & ->). rewrite complete_unset, complete_insert.
      by apply (pull_state a w _ w1 E).
    + pose proof (ctl_fetch_memory_true a w Hm) as K. unfold exec in K. cbn in H. by rewrite H in K.
Qed.
End spec.

(** ** A sample *)

(** A composectl that ends as given, in a run with the given error output. [full_env] runs out of space. *)
Definition says (std_err : string) (code : Z) : process :=
  Started [{| select_ok := true; out_ready := Some REof; err_ready := Some (RData std_err); elapsed := 1 |};
           {| select_ok := true; out_ready := None; err_ready := Some REof; elapsed := 1 |}] (Some code).
Definition full_report (s : string) : json :=
  if String.eqb s "full" then JObject [("path", JString "/var/sota"); ("required", JInt 1000)] else JInt 100.
Definition ctl_sample (p : process) : CtlEnv unit := {|
  ctl_fs := fs_env restorable_env; ctl_run _ _ w := (p, w); ctl_tty := false; ctl_docker := sample_docker;
  ctl_registry := {| http_get := http_get Registry.sample_env; http_download := http_download Registry.sample_env;
    ota_get := ota_get Registry.sample_env; sha256_hex _ := H0; toBase64 s := s; parseJSON := full_report |};
  ctl_creds := "creds"; ctl_capacity := 100; ctl_fy_tool _ := (0, "json"); ctl_json_stream _ := Ret JNull;
  ctl_json_missing := JNull; 
  parseFromStream _ := (JObject [("fetch_check", JObject [("missing_blobs", JArray [])])], ""); composectl_cmd_ := "composectl";
  storage_watermark_ := 95; local_source_path_ := ""; proxy_ := Some (Ret ("http://proxy", "/ca.pem"));
  ctl_docker_host := "unix:///var/run/docker.sock"; ctl_store_root := sample_store;
  ctl_install_root := ["var"; "sota"; "compose-apps"]; ctl_docker_root := ["var"; "lib"; "docker"]; ctl_same_volume := true;
  ctl_compose_cmd := "docker compose"; ctl_space_func _ _ := sample_usage;
  ctl_create_containers := false; ctl_arch := "amd64"; ctl_tar _ := (0, "compose") |}.
Definition full_env (std_err : string) : CtlEnv unit := ctl_sample (says std_err 100).
Definition ctl_device : World (Ctl unit) := mkW ∅ (mkCtl tt ∅ None).

(** The report of a full volume, and one that is not an object. *)
Lemma ctl_fetch_exit_code_witness :
  (exists e w', ctl_fetch (full_env "full") restorable_app ctl_device =
     (Ret {| status := InsufficientSpace; res_err := e; stat := withRequired sample_usage 1000 |}, w')) /\
  (exists e w', ctl_fetch (full_env "100 MiB missing") restorable_app ctl_device = (Throw e, w') /\
     vars w' = Some ("http://proxy", "/ca.pem")).
Proof.
  split.
  - pose proof (ctl_fetch_exit_code (full_env "full") restorable_app ctl_device 100 "full" _ _
      ltac:(vm_compute; reflexivity)) as H.
    do 2 eexists. exact H.
  - pose proof (ctl_fetch_exit_code (full_env "100 MiB missing") restorable_app ctl_device 100 "100 MiB missing" _ _
      ltac:(vm_compute; reflexivity)) as H.
    do 2 eexists. exact H.
Defined.

(** A composectl whose downloads and checks succeed keeps its promises. *)
Definition well_env : CtlEnv unit := ctl_sample (says "" 0).
#[export] Instance well_ctl_spec : ComposectlSpec well_env.
Proof.
  assert (C : forall w a, complete well_env w a = true) by reflexivity.
  split; intros; by rewrite !C.
Qed.
Example well_fetch :
  isFetched (AppEngine := composectl_engine well_env) (exec (ctl_fetch well_env restorable_app) ctl_device) restorable_app = true.
Proof.
  by apply (fetch_fetched (AppEngineSpec := composectl_engine_spec well_env) restorable_app ctl_device result_ok).
Qed.
