(* ===== verification/OfflineComposectl.v ===== *)
(** * Downloads with composectl

    The package manager on the composectl engine, as [Stack.v] has it on the
    restorable one, and the download of an offline update with it: in the builds
    with [USE_COMPOSEAPP_ENGINE] [LocalLiteInstall::createOfflineDownloader]
    ([src/src/api.cc]) makes a composectl engine that pulls from the app store
    of the update. It works on the same device as the engine of the client, and
    each has its own memory of fetched apps. *)

From S2P Require Import Prelude Json Targets Registry Volume Restorable Exec Fs DockerClient Platform Bootloader Sample RootfsTree.
From S2P Require Import ComposeApps Client Setup Bundle CheckIn Install OfflineRegistry.
From S2P Require Import Device RestorableEngine RestorableStore RestorableSample Stack OfflineEngine Composectl ComposectlSpec.

(** ** The package manager on the engine *)

Section online.
Context {DB SR D : Type} (env : CtlEnv D) {ctl_spec : ComposectlSpec env}.
Context `{INvStorage DB, Ostree DB SR, BootFwUpdateStatus SR, InstallationResults, UptaneTargets}.
Abbreviation S := (St DB SR (World (Ctl D))).
Abbreviation engine := (composectl_engine env).
Context (cenv : ComposeEnv SR (World (Ctl D))).

(** If the apps the engine takes for fetched are complete, a check and a download that reports success leave no blob of
    a required app missing, and what the engine remembers is still right. *)
Theorem ctl_download_complete (t : UTarget) (tuf : TufTarget) (s s1 s2 : S) (rs : gmap string string)
    (res : DownloadResult) (m : list (string * json)) (installed : json) (req : AppsContainer) :
  memory_true env (en s) ->
  has_reset_apps (cfg cenv) = true -> force_update (cfg cenv) && negb (uninit cenv) = false ->
  appsJson t = Ret (JObject m) -> NoDup m.*1 ->
  appsJson (getCurrent (db s) (sr s)) = Ret installed -> getRequiredApps (cfg cenv) t = Ret req ->
  checkForAppsToUpdate (H := engine) cenv t s = (Ret rs, s1) ->
  compose_Download (H := engine) cenv tuf s1 = (Ret res, s2) -> DR_bool res = true ->
  memory_true env (en s2) /\ forall n u, req !! n = Some u -> complete env (en s2) (mkApp (n, u)) = true.
Proof.
  intros Hm Hr Hf Ht Hnd Hi Hq E1 E2 Hres.
  destruct (checkForAppsToUpdate_run (H := engine) cenv t s s1 rs Hr E1) as (_ & _ & _ & _ & _ & _ & _ & _ & _ & _ & _ & Een & _).
  destruct (download_leaves_required (H := engine) cenv (fun _ => True) (memory_true env) t tuf s s1 s1 s2 rs res m installed req)
    as [Hm2 F]; try done; [by rewrite Een|].
  split; [done|]. intros n u Hn. rewrite <- memory_true_isFetched by done. by apply F.
Qed.
End online.

(** ** An engine on a part of a state *)

Section part.
Context {W E : Type} (view : E -> W) (put : W -> E -> E).
Definition zoom {A} (m : M W A) : M E A := fun e => let '(o, w) := m (view e) in (o, put w e).
Definition engine_in (H : AppEngine W) : AppEngine E := {|
  fetch a := zoom (fetch a); verify a := zoom (verify a); install a := zoom (install a); run_app a := zoom (run_app a);
  stop a := zoom (stop a); remove a := zoom (remove a); prune l := zoom (prune l);
  isFetched e := isFetched (view e); isRunning e := isRunning (view e); getInstalledApps e := getInstalledApps (view e);
  getRunningAppsInfo e := getRunningAppsInfo (view e); app_dirs e := app_dirs (view e) |}.

Hypothesis view_put : forall w e, view (put w e) = w.
Lemma zoom_run {A} (m : M W A) o e e' : zoom m e = (o, e') -> m (view e) = (o, view e').
Proof. unfold zoom. destruct (m (view e)) as [x w]. intros [= <- <-]. by rewrite view_put. Qed.
Lemma zoom_exec {A} (m : M W A) e : view (exec (zoom m) e) = exec m (view e).
Proof. unfold exec, zoom. destruct (m (view e)) as [x w]. apply view_put. Qed.

Lemma engine_in_spec (H : AppEngine W) (ok : App -> Prop) (inv : W -> Prop) :
  AppEngineSpec (H := H) ok inv -> AppEngineSpec (H := engine_in H) ok (fun e => inv (view e)).
Proof.
  intros Hs. split.
  - intros a e Ha Hi. cbn. rewrite zoom_exec. by apply fetch_inv.
  - intros a e r e' Ha Hi Hf Hr. cbn in *. apply zoom_run in Hf. by eapply fetch_fetched.
  - intros a b e r e' Ha Hi Hf Hr Hne Hb. cbn in *. apply zoom_run in Hf. by eapply (fetch_keeps a b).
Qed.
End part.

(** ** The two engines *)

Record Engines (D : Type) := mkEngines { client_world : World (Ctl D); offline_memory : gset string }.
Arguments mkEngines {D}.
Arguments client_world {D}.
Arguments offline_memory {D}.

Definition set_memory {D} (c : gset string) (w : World (Ctl D)) : World (Ctl D) :=
  mkW (wfs w) (mkCtl (docker (wdocker w)) c (proxy_vars (wdocker w))).

Section engines.
Context {D : Type} (b : CtlEnv D) (h : OfflineHost D) (conf : ComposeConfig).
Abbreviation E := (Engines D).

Definition client_put (w : World (Ctl D)) (e : E) : E := mkEngines w (offline_memory e).
Definition offline_view (e : E) : World (Ctl D) := set_memory (offline_memory e) (client_world e).
Definition offline_put (w : World (Ctl D)) (e : E) : E := mkEngines (set_memory (cache (client_world e)) w) (cache w).

Lemma offline_view_put w e : offline_view (offline_put w e) = w.
Proof. by destruct w as [f [d c v]]. Qed.
Lemma offline_put_client w e : cache (client_world (offline_put w e)) = cache (client_world e).
Proof. done. Qed.

(** No proxy is given, and the engine is passed the watermark of the configuration besides the default function. *)
Definition offline_ctl_env (l : LocalUpdateSource) : CtlEnv D := {|
  ctl_fs := ctl_fs b; ctl_run := ctl_run b; ctl_tty := ctl_tty b; ctl_docker := ctl_docker b;
  ctl_registry := offline_registry_env (http_ok h) (store_file h) (app_store l) offline_hostname
                    (sha256_hex (ctl_registry b)) (toBase64 (ctl_registry b)) (Registry.parseJSON (ctl_registry b));
  ctl_creds := ""; ctl_capacity := ctl_capacity b; ctl_fy_tool := ctl_fy_tool b; ctl_json_stream := ctl_json_stream b;
  ctl_json_missing := ctl_json_missing b; parseFromStream := parseFromStream b;
  composectl_cmd_ := composectl_bin conf; storage_watermark_ := storage_watermark conf;
  local_source_path_ := app_store l; proxy_ := None;
  ctl_docker_host := default default_docker_host (host_DOCKER_HOST h);
  ctl_store_root := path_parts (reset_apps_root conf); ctl_install_root := path_parts (ComposeApps.apps_root conf);
  ctl_docker_root := path_parts (images_data_root conf); ctl_same_volume := ctl_same_volume b;
  ctl_compose_cmd := the "" (offline_compose_cmd h conf);
  ctl_space_func w := the (fun p => UsageInfo_err p) (GetDefStorageSpaceFunc (host_stat h w) default_watermark);
  ctl_create_containers := false; ctl_arch := ctl_arch b; ctl_tar := ctl_tar b |}.

(** A new engine remembers nothing. *)
Definition offline_ctl_new (l : LocalUpdateSource) : M E unit :=
  zoom offline_view offline_put (
    modify (set_memory ∅);;
    _ ← lift (offline_compose_cmd h conf);
    offline_docker_client h (docker_env (ctl_env (offline_ctl_env l)));;
    engine_init (ctl_env (offline_ctl_env l))).
Definition client_ctl_engine : AppEngine E := engine_in client_world client_put (composectl_engine b).
Definition offline_ctl_engine (l : LocalUpdateSource) : AppEngine E :=
  engine_in offline_view offline_put (composectl_engine (offline_ctl_env l)).

(** *** Memories *)

Lemma on_fs_cache {A} (m : M FS A) : preserves (fun w w' : World (Ctl D) => cache w' = cache w) (on_fs m).
Proof. intros w. unfold exec, on_fs. by destruct (m (wfs w)). Qed.
Lemma offline_ctl_new_empty l e : offline_memory (exec (offline_ctl_new l) e) = ∅.
Proof.
  change (offline_memory ?x) with (cache (offline_view x)). unfold offline_ctl_new.
  rewrite (zoom_exec _ _ offline_view_put). rewrite (exec_bind_run _ _ tt _ (set_memory ∅ (offline_view e))) by reflexivity.
  change ∅ with (cache (set_memory ∅ (offline_view e))) at 2. generalize (set_memory ∅ (offline_view e)). intros w.
  assert (PO : PreOrder (fun w w' : World (Ctl D) => cache w' = cache w)) by (split; [by intros ?|intros ? ? ?; by etransitivity]).
  apply (preserves_bind (fun w w' => cache w' = cache w)); [by intros ?|]. intros _.
  apply (preserves_bind (fun w w' => cache w' = cache w)).
  { intros w'. by rewrite <- (offline_docker_client_same h (docker_env (ctl_env (offline_ctl_env l))) w'). }
  intros _. unfold engine_init.
  pose proof (fun p => on_fs_cache (create_directories p)). pstep. by intros ?.
Qed.

(** Nothing the engine of the update does changes what the engine of the client remembers. *)
Lemma zoom_client {A} (m : M (World (Ctl D)) A) e :
  cache (client_world (exec (zoom offline_view offline_put m) e)) = cache (client_world e).
Proof. unfold exec, zoom. by destruct (m (offline_view e)). Qed.
End engines.

(** ** The download *)

Section download.
Context {DB SR D : Type} (b : CtlEnv D) (h : OfflineHost D).
Context `{INvStorage DB, Ostree DB SR, BootFwUpdateStatus SR, InstallationResults, UptaneTargets}.
Context (aenv : ApiEnv DB SR (Engines D)) (l : LocalUpdateSource).
Abbreviation S := (St DB SR (Engines D)).
Abbreviation cenv := (client aenv).
Abbreviation conf := (cfg (compose cenv)).
Abbreviation oenv := (offline_ctl_env b h conf l).
Abbreviation engine := (offline_ctl_engine b h conf).
Hypothesis Hmake : make_offline_engine aenv l = offline_ctl_new b h conf l.
Hypothesis Hcompose : is_compose cenv = true.

(** A download of an offline update that reports success leaves no blob of a required app missing, as composectl finds
    when it is asked: what the client's engine remembers is not taken into account. *)
Theorem offline_ctl_complete `{!ComposectlSpec oenv} (c : InstallCtx) (s s2 : S) (res : DownloadResult)
    (m : list (string * json)) (installed : json) (a req : AppsContainer) :
  has_reset_apps conf = true -> force_update conf && negb (uninit (compose cenv)) = false ->
  appsJson (ctx_target c) = Ret (JObject m) -> NoDup m.*1 ->
  appsJson (getCurrent (db s) (sr s)) = Ret installed ->
  getApps conf (ctx_target c) = Ret a -> getRequiredApps conf (ctx_target c) = Ret req ->
  offline_Download aenv engine l c s = (Ret res, s2) -> DR_bool res = true ->
  forall n u, req !! n = Some u -> complete oenv (offline_view (en s2)) (mkApp (n, u)) = true.
Proof.
  intros Hr Hf Ht Hnd Hi Ha Hq E Hres n u Hn.
  assert (spec : AppEngineSpec (H := engine l) (fun _ => True) (fun e => memory_true oenv (offline_view e)))
    by exact (engine_in_spec _ _ offline_view_put _ _ _ (composectl_engine_spec oenv)).
  destruct (offline_Download_fetches aenv engine l Hcompose (fun _ => True) (fun e => memory_true oenv (offline_view e))
              c s s2 res m installed a req) as [Hm F]; try done.
  - rewrite Hmake. intros x Hx. change (cache (offline_view ?e)) with (offline_memory e) in Hx.
    rewrite offline_ctl_new_empty in Hx. set_solver.
  - rewrite <- memory_true_isFetched by done. by apply F.
Qed.

(** The memory of the client's engine is the same afterwards, however the download ends. *)
Definition same_client_memory (s s' : S) : Prop :=
  cache (client_world (en s')) = cache (client_world (en s)).
#[local] Instance same_client_memory_preorder : PreOrder same_client_memory.
Proof. unfold same_client_memory. split; [by intros ?|intros ? ? ?; by etransitivity]. Qed.
Lemma en_client {A} (m : M S A) : preserves same_en m -> preserves same_client_memory m.
Proof. intros Hm s. unfold same_client_memory. by rewrite (Hm s). Qed.
Lemma zoom_en_client {A} (m : M (World (Ctl D)) A) :
  preserves same_client_memory (on_en (zoom offline_view offline_put m) : M S A).
Proof. intros s. unfold same_client_memory, exec, on_en, zoom. by destruct (m (offline_view (en s))). Qed.
Lemma make_client : preserves same_client_memory (on_en (offline_ctl_new b h conf l) : M S _).
Proof. apply zoom_en_client. Qed.
Lemma fetch_apps_client k : preserves same_client_memory (fetch_apps (H := engine l) k : M S _).
Proof.
  assert (forall e, preserves same_client_memory (emit e : M S _)) by (intros e; apply en_client, en_emit).
  assert (forall a, preserves same_client_memory (do_fetch (H := engine l) a : M S _)).
  { intros a. unfold do_fetch. pose proof (zoom_en_client (fetch (AppEngine := composectl_engine oenv) a)). pstep. }
  induction k as [|a k IH]; cbn [fetch_apps]; pstep.
Qed.
Theorem offline_ctl_isolated (c : InstallCtx) (s : S) :
  same_client_memory s (exec (offline_Download aenv engine l c) s).
Proof.
  unfold exec, offline_Download.
  match goal with |- context [mbind (fun _ => ?m) (logTarget cenv ?p ?t) s] =>
    destruct (logTarget_then cenv p t m s) as [-> | [e ->]]; [|done] end.
  unfold with_new_manager.
  match goal with |- context [mbind ?f ?m (fresh_members s)] => set (body := mbind f m) end.
  assert (G : preserves same_client_memory body).
  { unfold body, offline_prepare, offline_pm_Download, compose_Download, checkForAppsToUpdate. rewrite Hcompose, Hmake.
    pose proof (fun x => en_client _ (DownloadStarted_en (DB := DB) (SR := SR) aenv (ctx_target c) x)).
    pose proof (fun x y => en_client _ (DownloadFinished_en (DB := DB) (SR := SR) aenv (ctx_target c) x y)).
    pose proof (fun r t => en_client _ (rootfs_Download_en (DB := DB) (SR := SR) (EN := Engines D) r t)).
    pose proof make_client. pose proof fetch_apps_client. pstep; by intros ?. }
  specialize (G (fresh_members s)). unfold exec in G. by destruct (body (fresh_members s)) as [o s'].
Qed.
End download.

(** ** The theorem on a concrete device *)

Definition stick_ctl_compose : ComposeEnv SimpleSR (Engines unit) := {|
  rootfs_env := sample_rootfs 50; cfg := stack_config; is_restorable_engine := true;
  apps_stat_env _ := stat_env (sample_rootfs 50) (sr (simple_device "" "" []));
  volume_id _ := Some 0; uninit := false; now := "now" |}.
Definition stick_ctl_api : ApiEnv SimpleDB SimpleSR (Engines unit) :=
  api_on (client_on stick_ctl_compose sample_client) (offline_ctl_new well_env stick_host stack_config) (sample_api "new" []).
Definition stick_ctl_device : St SimpleDB SimpleSR (Engines unit) :=
  let d := stick_device in
  mkSt (db d) (sr d) (mkEngines ctl_device ∅) [] ∅ ∅ false (is_reboot_required d) (request_headers d) (cl d).
Abbreviation stick_ctl_env := (offline_ctl_env well_env stick_host stack_config stick).
Abbreviation stick_ctl_download :=
  (offline_Download stick_ctl_api (offline_ctl_engine well_env stick_host stack_config) stick stick_ctx).

#[export] Instance stick_ctl_spec : ComposectlSpec stick_ctl_env.
Proof.
  assert (C : forall w a, complete stick_ctl_env w a = true) by reflexivity.
  split; intros; by rewrite !C.
Qed.
Lemma offline_ctl_complete_witness :
  complete stick_ctl_env (offline_view (en (exec stick_ctl_download stick_ctl_device))) (mkApp ("Shellhttpd", sample_uri_str)) = true.
Proof.
  assert (T : is_throw (run stick_ctl_download stick_ctl_device) = false) by (vm_compute; reflexivity).
  apply (offline_ctl_complete well_env stick_host stick_ctl_api stick) with
    (c := stick_ctx) (s := stick_ctl_device) (res := the (DR DownloadFailed "" "") (run stick_ctl_download stick_ctl_device))
    (m := stack_apps) (installed := JNull) (a := stick_apps) (req := stick_apps).
  - reflexivity.
  - reflexivity.
  - apply stick_ctl_spec.
  - reflexivity.
  - reflexivity.
  - reflexivity.
  - apply NoDup_singleton.
  - reflexivity.
  - vm_compute. reflexivity.
  - vm_compute. reflexivity.
  - apply (run_the (DR DownloadFailed "" "") _ _ T).
  - vm_compute. reflexivity.
  - reflexivity.
Defined.
